(* ===== verification/_CoqProject ===== *)
-Q . S2P
Prelude.v
VmmUtil.v
Mmap.v
Bitmap.v
Spinlock.v
Pmm.v
PmmRun.v
Kheap.v
Locks.v
Paging.v
Boot.v
Vmm.v
HeapRun.v
Scheduler.v
CString.v
Numbers.v
Format.v
Bytes.v
Elf.v
Task.v
Loader.v
Spawn.v
SchedRun.v
Vfs.v
Files.v
Window.v
Console.v
Framebuffer.v
Keyboard.v
Log.v
Video.v
Rtc.v
Idt.v
Acpi.v
Start.v
Apic.v
Syscalls.v
Calls.v
MachineRun.v
Kernel.v
UnitTests.v
