(* ===== verification/Prelude.v ===== *)
(** * A verification of the Dreamos64 kernel

    Dreamos64 is a small kernel in C for x86-64. This development translates its
    sources into executable Rocq functions, one definition per C function under the
    function's own name (a loop, or a part that is reasoned about on its own, is a
    separate definition next to it), and proves what each component promises.
    The build modelled is the default one: pages of 2 MiB, a framebuffer, the logo
    pinned. Where the page size matters ([PageConfig]) both sizes are covered.

    ** The model

    Integers are [Z] with the wrap-around of their C type written out ([u64], [u32],
    [u8], [i32]); pointers are 64-bit addresses, 0 being NULL. Code that has state is
    in the monad [M S A = S -> outcome (A * S)] below: a run gives a value and a state
    ([Ret]), a fault ([Fault]: a dereference of NULL, an access out of bounds, a use
    of memory nobody wrote, a fatal log line after which the kernel stops), or does
    not end ([Diverge]). A C loop is a fixpoint on fuel. The fuel a function passes is
    computed from the state (the number of headers, of threads, of bytes) so that it
    never runs out on a well-formed state, which the theorems show by giving the
    result of the run. Components keep records of their own globals; [zoom] runs an
    operation of a part in the state of the whole. The log lines of the other parts are
    left out.

    ** The parts

    - [Prelude]: the monad, its Hoare-style lemmas, machine integers, generic lemmas.
    - [VmmUtil] (mem/vmm_util.c, bitmap.h): page sizes and alignment.
    - [Mmap] (mem/mmap.c, utils/utils.c): the boot loader's memory map.
    - [Bitmap] (mem/bitmap.c): the bitmap of frames.
    - [Spinlock], [Locks] (sys/spinlock.c): the lock, run by one CPU and as interleaved
      steps, and locks in the heap.
    - [Pmm], [PmmRun] (mem/pmm.c, mem/hh_direct_map.c): frames, and runs of the
      manager. [Boot] has [pmm_setup], and shows that the manager is the source of
      frames [Paging] asks for.
    - [Kheap], [HeapRun] (mem/kheap.c): the heap, and its runs. Pages come from the
      class [VmmAlloc], which [Vmm] implements.
    - [Paging] (mem/vmm_mapping.c, system/vm.c): four-level page tables in physical
      memory. Frames come from the class [FrameSource], with its laws.
    - [Vmm] (mem/vmm.c): areas of virtual memory.
    - [Scheduler], [SchedRun] (scheduling/scheduler.c, kernel.c): the list of threads,
      the choice of the next one, and runs.
    - [CString] (libc/string.c), [Numbers] (base/numbers.c), [Format] (libc/stdio.c),
      [Bytes]: bytes in memory, text, numbers as text, formatted text.
    - [Elf] (loaders/elf.c), [Task], [Loader], [Spawn] (scheduling/task.c, thread.c,
      test_userspace.c): programs, tasks, threads, over heap, address spaces and
      scheduler together. [Spawn] composes the theorems of those parts.
    - [Vfs] (fs/vfs.c, vnode.c, drivers/fs/ustar.c, libc/unistd.c): archives, mount
      points, vnodes. [Files] (fs/fcntl.c): files from end to end.
    - [Window], [Framebuffer] (graphics, framebuffer): fonts, text, scrolling.
    - [Keyboard] (hardware/keyboard.c, devices.c, ps2_keyboard_driver.c): keys, reads, and
      the echo of what is typed, on a screen of the class [Console], which [Framebuffer]
      implements.
    - [Log] (logging.c, io/serial.c, debug/qemu.c, cpu/stacktrace.c), [Video]
      (io/video.c): log lines, the serial line, the legacy text screen.
    - [Rtc] (hardware/rtc.c): the clock chip.
    - [Idt] (cpu/idt.c, tss.c), [Acpi] (cpu/acpi.c, madt.c), [Apic] (cpu/ioapic.c,
      lapic.c, msr.c, hardware/timer.c): descriptors, tables, interrupt controllers.
    - [Start] (main.c, utils/utils.c): [_init_basic_system] and the boot modules.
    - [Syscalls] (kernel/syscalls, cpu/syscalls.c, [interrupts_handler]): the machine
      that puts the components together; a thread that waits in a read yields by
      [scheduler_yield], and comes back by [resume_read]. [Calls]: system calls from end
      to end. [MachineRun]: runs of the machine, from interrupt to interrupt.
    - [Kernel] (main.c): [kernel_start] over the state of all parts, and the first
      tasks.
    - [UnitTests] (src/tests): the unit tests of the repository on the model.

    ** What is shown

    Memory. Every branch of [pmm_alloc_frame], that [pmm_free_frame] undoes it, and
    that no sequence of operations hands out a frame twice, as long as no area asked for
    goes across a row that the search skips as full although 4 of its frames are free
    ([area_over_skipped_row] shows what happens when one does); first fit for one frame
    and for a run of them, over the frames the search looks at; which frames are
    reserved at boot, and that the code writes through NULL when the bitmap's place is
    outside the direct map. [kmalloc] and [kfree] implement first fit with splitting and
    coalescing on an abstract list of blocks. After any run of them from
    [initialize_kheap], the heap growing by areas that may follow each other at once
    as those of [vmm_alloc] do, headers and payloads lie in the memory of the areas
    and clear of each other, and free blocks are merged with their neighbours
    ([heap_run_invariant]). A run there ends at a call that comes to
    [kernel_heap_end] at a header which is not the last one ([kmalloc_drops_blocks] shows
    what goes wrong), and at one that puts a header across the end of its area, which the
    code does because it credits every area with 32 bytes it does not have
    ([split_header_past_page]); the heap's memory in the model is the headers by their
    addresses, so writing such a header is no fault in it. Mapping and unmapping a page
    change the translation of that page alone and keep the tables a tree over frames
    in use; a walk finds what was mapped; areas of virtual memory are disjoint and
    backed by fresh frames; a task shares the kernel's half and nothing else; a
    segment of a program is mapped page by page. [create_task_from_elf] from end to
    end: what is mapped in the new task, its thread and its first frame.

    Scheduling. [schedule] on every branch; that after any sequence of events the
    timer finds a thread to resume; that a thread that exits gives way to
    another; that a ready thread behind a sleeping one starves;
    mutual exclusion of the lock in every interleaving. After any sequence of
    interrupts and of turns of threads that wait in a read, the machine is in order and
    handles the next one ([machine_keeps_running]; but for a new read or a print call,
    which may fault). [kernel_start] has the
    list of threads in that order once the first two tasks are there
    ([start_tasks_starts]), from the memory [vmm_init] leaves ([vmm_init_sets_up]);
    the stack it gives the idle thread is the first page of the heap
    ([idle_stack_in_heap]).

    Devices. The characters typed go to the read that waits and to the screen, in
    order ([keyboard_fills_read]). A read system call, with its waiting
    ([read_call_returns]): it yields as the timer would interrupt it, yields again when
    it is scheduled too early, and returns when the characters have come, whatever other
    threads and interrupts do meanwhile that leaves the read alone. The clock's time
    against a calendar, for clocks of every format that change at any moment
    of the reading. Scrolling keeps the pinned area; a character is
    its glyph. Gates, the task state descriptor and redirection entries decode to what
    was asked for; the search through the MADT ends. The bytes a log line sends to the
    serial line and the debug console; which boot modules the kernel keeps.

    Files and text. The first file of a name is found in an archive; the mount point
    is the longest prefix; what [vfs_open] returns; what is in the buffer when a file was
    opened, read and closed; string comparison is the
    lexicographic order; [memmove] on overlapping areas; decimal text reads back;
    [vsprintf] writes what a reference definition of its conversions says.

    Several theorems state what the code does where it does not do what it means to;
    they say so. Behaviour that depends on compiler or hardware beyond the sources (the
    time of an access, caches, the order of memory accesses between CPUs) is not in
    the model.

    ** Not modelled

    Assembly; the picture shown at boot, which is a parameter; interrupts that come
    while [kernel_start] runs, and the loop it ends in; the names of tags that
    [take_module] logs by an index it does not check. The code of threads: between two
    interrupts they may change anything but the state of the scheduler, of the keyboard
    and of the reads that wait ([machine_keeps_running]), or anything that leaves a read
    in question alone ([read_call_returns]). *)
From Stdlib Require Export ZArith Lia Bool.
From stdpp Require Export base decidable list list_numbers gmap sets numbers fin_maps fin_sets.
#[global] Open Scope Z_scope.

(** ** Machine integers *)

(** The unsigned and signed C types at their widths: a value of the type is the
    [Z] it denotes, and arithmetic is the one of [Z] followed by the wrap. *)
Definition u8 (z : Z) : Z := z mod 2 ^ 8.
Definition u16 (z : Z) : Z := z mod 2 ^ 16.
Definition u32 (z : Z) : Z := z mod 2 ^ 32.
Definition u64 (z : Z) : Z := z mod 2 ^ 64.
Definition i8 (z : Z) : Z := (z + 2 ^ 7) mod 2 ^ 8 - 2 ^ 7.
Definition i32 (z : Z) : Z := (z + 2 ^ 31) mod 2 ^ 32 - 2 ^ 31.
Definition i64 (z : Z) : Z := (z + 2 ^ 63) mod 2 ^ 64 - 2 ^ 63.

(** Bitwise complement at 64 bits, C's [~] on a [uint64_t]. *)
Definition not64 (z : Z) : Z := Z.lxor z (2 ^ 64 - 1).

(** ** Outcomes of C code *)

(** What a run can end in besides a result: an access outside an object, a
    dereference of a null pointer, a division by zero, a value used although the
    code never sets it (a missing [return]), a halt on purpose, or the fuel of a
    loop running out. *)
Inductive fault : Type :=
| OutOfBounds
| NullDeref
| DivByZero
| NoValue
| Halted.

Inductive outcome (A : Type) : Type :=
| Ret (a : A)
| Fault (f : fault)
| Diverge.
Arguments Ret {A} a.
Arguments Fault {A} f.
Arguments Diverge {A}.

(** The monad of the kernel's code: explicit state and outcomes. *)
Definition M (S A : Type) : Type := S -> outcome (A * S).

Definition ret {S A : Type} (a : A) : M S A := fun s => Ret (a, s).
Definition bind {S A B : Type} (m : M S A) (k : A -> M S B) : M S B :=
  fun s => match m s with
           | Ret (a, s') => k a s'
           | Fault f => Fault f
           | Diverge => Diverge
           end.
Definition get {S : Type} : M S S := fun s => Ret (s, s).
Definition gets {S A : Type} (f : S -> A) : M S A := fun s => Ret (f s, s).
Definition put {S : Type} (s : S) : M S unit := fun _ => Ret (tt, s).
Definition modify {S : Type} (f : S -> S) : M S unit := fun s => Ret (tt, f s).
Definition throw {S A : Type} (f : fault) : M S A := fun _ => Fault f.
Definition diverge {S A : Type} : M S A := fun _ => Diverge.

(** A lookup that faults when there is nothing there. *)
Definition lift_opt {S A : Type} (f : fault) (o : option A) : M S A :=
  match o with
  | Some a => ret a
  | None => throw f
  end.

(** Running code of one component on the part of a larger state it owns. *)
Definition zoom {S T A : Type} (proj : S -> T) (upd : T -> S -> S) (m : M T A) : M S A :=
  fun s => match m (proj s) with
           | Ret (a, t) => Ret (a, upd t s)
           | Fault f => Fault f
           | Diverge => Diverge
           end.

Declare Scope kernel_scope.
Delimit Scope kernel_scope with kernel.
Notation "'let!' x ':=' m 'in' k" := (bind m (fun x => k))
  (at level 10, x pattern, m at level 100, k at level 200) : kernel_scope.
Notation "'do!' m 'in' k" := (bind m (fun _ => k))
  (at level 10, m at level 100, k at level 200) : kernel_scope.
#[global] Open Scope kernel_scope.

(** [for (i = 0; i < n; i++) body i], the counter being the argument. *)
Fixpoint for_from {S : Type} (n : nat) (i : Z) (body : Z -> M S unit) : M S unit :=
  match n with
  | O => ret tt
  | Datatypes.S n' => do! body i in for_from n' (i + 1) body
  end.
Definition for_upto {S : Type} (n : Z) (body : Z -> M S unit) : M S unit :=
  for_from (Z.to_nat n) 0 body.

(** ** Total correctness *)

(** [wp m Q s]: run from [s], [m] returns, and [Q] holds of its result and of
    the state it leaves. Faults and divergence falsify it. *)
Definition wp {S A : Type} (m : M S A) (Q : A -> S -> Prop) (s : S) : Prop :=
  match m s with
  | Ret (a, s') => Q a s'
  | _ => False
  end.

(** Running a sequence whose first part is known to return, or to fault. *)
Lemma bind_run {S A B} (m : M S A) (k : A -> M S B) s a s' :
  m s = Ret (a, s') -> bind m k s = k a s'.
Proof. unfold bind. by intros ->. Qed.
Lemma bind_fault {S A B} (m : M S A) (k : A -> M S B) s f :
  m s = Fault f -> bind m k s = Fault f.
Proof. unfold bind. by intros ->. Qed.
Lemma bind_inv {S A B} (m : M S A) (k : A -> M S B) s r :
  bind m k s = Ret r -> exists a s', m s = Ret (a, s') /\ k a s' = Ret r.
Proof. unfold bind. destruct (m s) as [[a s']| |]; [eauto|done|done]. Qed.
Lemma bind_assoc {S A B C} (m : M S A) (k : A -> M S B) (h : B -> M S C) s :
  bind (bind m k) h s = bind m (fun a => bind (k a) h) s.
Proof. unfold bind. by destruct (m s) as [[]| |]. Qed.

(** [run_with H]: the first statement of the goal's program runs as [H] says. *)
Ltac run_with H := erewrite bind_run by (eapply H).

Section wp_rules.
  Context {S : Type}.

Lemma wp_ret {A} (a : A) (Q : A -> S -> Prop) s : Q a s -> wp (ret a) Q s.
Proof. done. Qed.

Lemma wp_bind {A B} (m : M S A) (k : A -> M S B) Q s :
    wp m (fun a s' => wp (k a) Q s') s -> wp (bind m k) Q s.
Proof. unfold wp, bind. by destruct (m s) as [[a s']| |]. Qed.

Lemma wp_get (Q : S -> S -> Prop) s : Q s s -> wp get Q s.
Proof. done. Qed.

Lemma wp_gets {A} (f : S -> A) Q s : Q (f s) s -> wp (gets f) Q s.
Proof. done. Qed.

Lemma wp_put (s' s : S) Q : Q tt s' -> wp (put s') Q s.
Proof. done. Qed.

Lemma wp_modify (f : S -> S) Q s : Q tt (f s) -> wp (modify f) Q s.
Proof. done. Qed.

Lemma wp_lift_opt {A} f (o : option A) a (Q : A -> S -> Prop) s :
    o = Some a -> Q a s -> wp (lift_opt f o) Q s.
Proof. by intros ->. Qed.

Lemma wp_conseq {A} (m : M S A) (P Q : A -> S -> Prop) s :
    wp m P s -> (forall a s', P a s' -> Q a s') -> wp m Q s.
Proof. unfold wp. destruct (m s) as [[a s']| |]; naive_solver. Qed.

Lemma wp_run {A} (m : M S A) Q s :
    wp m Q s <-> exists a s', m s = Ret (a, s') /\ Q a s'.
Proof.
    unfold wp. split.
    - destruct (m s) as [[a s']| |]; [eauto|done|done].
    - intros (a & s' & -> & HQ). done.
Qed.

Lemma wp_eq {A} (m : M S A) a s' s :
    m s = Ret (a, s') <-> wp m (fun b t => b = a /\ t = s') s.
Proof.
    unfold wp. split; [by intros ->|].
    destruct (m s) as [[b t]| |]; [|done|done]. by intros [-> ->].
Qed.

Lemma wp_zoom {T A} (proj : S -> T) upd (m : M T A) Q s :
    wp m (fun a t => Q a (upd t s)) (proj s) -> wp (zoom proj upd m) Q s.
Proof. unfold wp, zoom. by destruct (m (proj s)) as [[a t]| |]. Qed.

(** The rule of a counted loop: an invariant indexed by the counter. *)
Lemma wp_for_from (I : Z -> S -> Prop) (body : Z -> M S unit) (Q : unit -> S -> Prop) :
    forall n i s,
      I i s ->
      (forall j t, i <= j < i + Z.of_nat n -> I j t -> wp (body j) (fun _ t' => I (j + 1) t') t) ->
      (forall t, I (i + Z.of_nat n) t -> Q tt t) ->
      wp (for_from n i body) Q s.
Proof.
    induction n as [|n IH]; intros i s HI Hbody HQ; simpl.
    - apply HQ. by rewrite Z.add_0_r.
    - apply wp_bind. eapply wp_conseq; [apply Hbody; [lia|done]|].
      intros a t Ht. simpl. apply IH; [done| |].
      + intros j t' Hj. apply Hbody. lia.
      + intros t' Ht'. apply HQ. by replace (i + Z.of_nat (Datatypes.S n)) with (i + 1 + Z.of_nat n) by lia.
Qed.
End wp_rules.

(** One symbolic step of a program under [wp]. *)
Ltac wp_step :=
  lazymatch goal with
  | |- wp (bind _ _) _ _ => apply wp_bind
  | |- wp (ret _) _ _ => apply wp_ret
  | |- wp get _ _ => apply wp_get
  | |- wp (gets _) _ _ => apply wp_gets
  | |- wp (put _) _ _ => apply wp_put
  | |- wp (modify _) _ _ => apply wp_modify
  | |- wp (zoom _ _ _) _ _ => apply wp_zoom
  | |- wp (lift_opt _ _) _ _ => eapply wp_lift_opt; [eassumption|]
  | |- wp (if ?b then _ else _) _ _ => destruct b eqn:?
  | |- wp (match ?o with Some _ => _ | None => _ end) _ _ => destruct o eqn:?
  end.
Ltac wp_steps := repeat (wp_step; cbv beta; simpl).

(** ** What a program keeps *)

(** [keeps I m]: where [m] returns from a state in [I], it leaves one in [I]. Faults and
    divergence satisfy it; it states invariants, not results. *)
Definition keeps {S A : Type} (I : S -> Prop) (m : M S A) : Prop :=
  forall s a s', I s -> m s = Ret (a, s') -> I s'.

Create HintDb keeps.

Section keeps_rules.
Context {S : Type} (I : S -> Prop).

Lemma keeps_ret {A} (a : A) : keeps I (ret a).
Proof. intros s b s' Hs [= _ <-]. done. Qed.
Lemma keeps_throw {A} f : keeps I (throw f : M S A).
Proof. done. Qed.
Lemma keeps_diverge {A} : keeps I (diverge : M S A).
Proof. done. Qed.
Lemma keeps_get : keeps I get.
Proof. intros s b s' Hs [= _ <-]. done. Qed.
Lemma keeps_gets {A} (f : S -> A) : keeps I (gets f).
Proof. intros s b s' Hs [= _ <-]. done. Qed.
Lemma keeps_lift_opt {A} f (o : option A) : keeps I (lift_opt f o).
Proof. destruct o; [apply keeps_ret|apply keeps_throw]. Qed.
Lemma keeps_modify f : (forall s, I s -> I (f s)) -> keeps I (modify f).
Proof. intros Hf s b s' Hs [= _ <-]. auto. Qed.
Lemma keeps_bind {A B} (m : M S A) (k : A -> M S B) : keeps I m -> (forall a, keeps I (k a)) -> keeps I (bind m k).
Proof. intros Hm Hk s b s' Hs (a & s1 & H1 & H2)%bind_inv. exact (Hk a s1 b s' (Hm s a s1 Hs H1) H2). Qed.

Lemma keeps_if {A} (c : bool) (m1 m2 : M S A) : keeps I m1 -> keeps I m2 -> keeps I (if c then m1 else m2).
Proof. by destruct c. Qed.
Lemma keeps_zoom {T A} (proj : S -> T) (upd : T -> S -> S) (m : M T A) :
  (forall t s, I s -> I (upd t s)) -> keeps I (zoom proj upd m).
Proof. intros Hu s a s' Hs. unfold zoom. destruct (m (proj s)) as [[b t]| |]; [|done|done]. intros [= _ <-]. auto. Qed.
End keeps_rules.

(** The rules, and what the components say of their own programs. *)
Ltac keeps_step :=
  lazymatch goal with
  | |- keeps _ (bind _ _) => apply keeps_bind; [|intros ?]
  | |- keeps _ (ret _) => apply keeps_ret
  | |- keeps _ (throw _) => apply keeps_throw
  | |- keeps _ diverge => apply keeps_diverge
  | |- keeps _ get => apply keeps_get
  | |- keeps _ (gets _) => apply keeps_gets
  | |- keeps _ (lift_opt _ _) => apply keeps_lift_opt
  | |- keeps _ (modify _) => let s := fresh "s" in let Hs := fresh "Hs" in apply keeps_modify; intros s Hs
  | |- keeps _ (if ?b then _ else _) => destruct b
  | |- keeps _ (match ?x with _ => _ end) => destruct x
  | |- keeps _ _ => solve [auto 2 with keeps]
  end.
Ltac keeps_auto := repeat (cbv zeta; keeps_step).

(** Turning boolean comparisons in the context into propositions. *)
Ltac zbool :=
  repeat match goal with
  | H : (_ && _)%bool = true |- _ => apply andb_true_iff in H; destruct H
  | H : (_ || _)%bool = false |- _ => apply orb_false_iff in H; destruct H
  | H : negb _ = true |- _ => apply negb_true_iff in H
  | H : negb _ = false |- _ => apply negb_false_iff in H
  | H : (_ =? _) = true |- _ => apply Z.eqb_eq in H
  | H : (_ =? _) = false |- _ => apply Z.eqb_neq in H
  | H : (_ <? _) = true |- _ => apply Z.ltb_lt in H
  | H : (_ <? _) = false |- _ => apply Z.ltb_ge in H
  | H : (_ <=? _) = true |- _ => apply Z.leb_le in H
  | H : (_ <=? _) = false |- _ => apply Z.leb_gt in H
  end.

(** ** Lemmas on machine integers *)

Create HintDb kernel.
Create HintDb bits.

Lemma u64_small z : 0 <= z < 2 ^ 64 -> u64 z = z.
Proof. apply Z.mod_small. Qed.
Lemma u32_small z : 0 <= z < 2 ^ 32 -> u32 z = z.
Proof. apply Z.mod_small. Qed.
Lemma u16_small z : 0 <= z < 2 ^ 16 -> u16 z = z.
Proof. apply Z.mod_small. Qed.
Lemma u8_small z : 0 <= z < 2 ^ 8 -> u8 z = z.
Proof. apply Z.mod_small. Qed.
Lemma u64_range z : 0 <= u64 z < 2 ^ 64.
Proof. by apply Z.mod_pos_bound. Qed.
Lemma u32_range z : 0 <= u32 z < 2 ^ 32.
Proof. by apply Z.mod_pos_bound. Qed.
Lemma u16_range z : 0 <= u16 z < 2 ^ 16.
Proof. by apply Z.mod_pos_bound. Qed.
Lemma u8_range z : 0 <= u8 z < 2 ^ 8.
Proof. by apply Z.mod_pos_bound. Qed.
Lemma i32_small z : - 2 ^ 31 <= z < 2 ^ 31 -> i32 z = z.
Proof. intros. unfold i32. rewrite Z.mod_small; lia. Qed.
Lemma i64_small z : - 2 ^ 63 <= z < 2 ^ 63 -> i64 z = z.
Proof. intros. unfold i64. rewrite Z.mod_small; lia. Qed.
#[export] Hint Resolve u64_range u32_range u16_range u8_range : kernel.

(** ** Lemmas on bits *)

Lemma testbit_pow2 (n i : Z) : 0 <= n -> Z.testbit (2 ^ n) i = (n =? i).
Proof. intros. by apply Z.pow2_bits_eqb. Qed.

Lemma testbit_shiftl1 (n i : Z) : 0 <= n -> Z.testbit (Z.shiftl 1 n) i = (n =? i).
Proof. intros. rewrite Z.shiftl_1_l. by apply testbit_pow2. Qed.

Lemma testbit_high (z n i : Z) : 0 <= z < 2 ^ n -> n <= i -> Z.testbit z i = false.
Proof.
  intros [Hz Hlt] Hi.
  destruct (decide (n < 0)); [rewrite Z.pow_neg_r in Hlt; lia|].
  destruct (decide (z = 0)) as [->|]; [apply Z.bits_0|].
  apply Z.bits_above_log2; [lia|].
  assert (Z.log2 z < n) by (apply Z.log2_lt_pow2; lia). lia.
Qed.

Lemma testbit_bound (z n : Z) :
  0 <= z -> 0 <= n -> (forall i, n <= i -> Z.testbit z i = false) -> z < 2 ^ n.
Proof.
  intros Hz Hn Hbits. destruct (decide (z = 0)) as [->|]; [lia|].
  apply Z.log2_lt_pow2; [lia|].
  destruct (decide (Z.log2 z < n)); [done|].
  assert (Z.testbit z (Z.log2 z) = true) as H by (apply Z.bit_log2; lia).
  rewrite Hbits in H; [done|lia].
Qed.

Lemma testbit_not64 (z i : Z) : 0 <= i < 64 -> Z.testbit (not64 z) i = negb (Z.testbit z i).
Proof.
  intros. unfold not64. rewrite Z.lxor_spec.
  replace (2 ^ 64 - 1) with (Z.ones 64) by done.
  rewrite Z.ones_spec_low by lia. by rewrite xorb_true_r.
Qed.

Lemma testbit_not64_high (z i : Z) : 64 <= i -> Z.testbit (not64 z) i = Z.testbit z i.
Proof.
  intros. unfold not64. rewrite Z.lxor_spec.
  replace (2 ^ 64 - 1) with (Z.ones 64) by done.
  rewrite Z.ones_spec_high by lia. by rewrite xorb_false_r.
Qed.

Lemma land_pow2_testbit (z n : Z) : 0 <= n -> Z.land z (Z.shiftl 1 n) =? 0 = negb (Z.testbit z n).
Proof.
  intros Hn. apply eq_true_iff_eq. rewrite negb_true_iff, Z.eqb_eq. split.
  - intros H0. assert (Z.testbit (Z.land z (Z.shiftl 1 n)) n = false) as H by (rewrite H0; apply Z.bits_0).
    rewrite Z.land_spec, testbit_shiftl1, Z.eqb_refl, andb_true_r in H by done. done.
  - intros Hb. apply Z.bits_inj'. intros i Hi.
    rewrite Z.land_spec, testbit_shiftl1, Z.bits_0 by done.
    destruct (Z.eqb_spec n i) as [->|]; [by rewrite Hb|by rewrite andb_false_r].
Qed.

Lemma lor_bound (a b n : Z) : 0 <= n -> 0 <= a < 2 ^ n -> 0 <= b < 2 ^ n -> 0 <= Z.lor a b < 2 ^ n.
Proof.
  intros Hn Ha Hb. assert (0 <= Z.lor a b) by (apply Z.lor_nonneg; lia). split; [done|].
  apply testbit_bound; [done|done|]. intros i Hi.
  rewrite Z.lor_spec, (testbit_high a n), (testbit_high b n); done.
Qed.

Lemma land_bound (a b n : Z) : 0 <= n -> 0 <= a < 2 ^ n -> 0 <= Z.land a b < 2 ^ n.
Proof.
  intros Hn Ha. assert (0 <= Z.land a b) by (apply Z.land_nonneg; lia). split; [done|].
  apply testbit_bound; [done|done|]. intros i Hi.
  by rewrite Z.land_spec, (testbit_high a n).
Qed.
#[export] Hint Resolve lor_bound land_bound : bits.

(** ** Division facts used for addresses *)

Lemma div_mod_eq (a b : Z) : 0 < b -> a = b * (a / b) + a mod b.
Proof. intros. apply Z.div_mod. lia. Qed.

Lemma div_bounds (a b : Z) : 0 < b -> a / b * b <= a < a / b * b + b.
Proof.
  intros Hb. pose proof (Z.div_mod a b ltac:(lia)).
  pose proof (Z.mod_pos_bound a b Hb). lia.
Qed.

Lemma mul_div_le (a b : Z) : 0 < b -> (a / b) * b <= a.
Proof. intros. rewrite Z.mul_comm. by apply Z.mul_div_le. Qed.

Lemma aligned_mul (k b : Z) : 0 < b -> (k * b) mod b = 0.
Proof. intros. apply Z_mod_mult. Qed.

(** ** Runs that only read *)

Definition reads {S A : Type} (c : M S A) (s : S) : Prop := exists a, c s = Ret (a, s).

Lemma reads_ret {S A} (a : A) (s : S) : reads (ret a) s.
Proof. by exists a. Qed.
Lemma reads_bind {S A B} (c : M S A) (k : A -> M S B) s :
  reads c s -> (forall a, c s = Ret (a, s) -> reads (k a) s) -> reads (bind c k) s.
Proof. intros [a Ha] Hk. destruct (Hk a Ha) as [b Hb]. exists b. by rewrite (bind_run _ _ _ _ _ Ha). Qed.

(** ** Removing elements of a list *)

Lemma filter_notin_nil (l : list Z) : filter (.∉ []) l = l.
Proof.
  induction l as [|x l IH]; [done|]. rewrite filter_cons, decide_True, IH; [done|]. apply not_elem_of_nil.
Qed.

Lemma filter_notin_skip (y : Z) (d l : list Z) : y ∉ l -> filter (.∉ y :: d) l = filter (.∉ d) l.
Proof.
  induction l as [|x l IH]; intros Hy; [done|]. rewrite !filter_cons, IH by set_solver.
  destruct (decide (x ∉ d)); [rewrite decide_True by set_solver|rewrite decide_False by set_solver]; done.
Qed.

Lemma filter_notin_drop (a b d : list Z) (y : Z) : NoDup (a ++ y :: b) ->
  filter (.∉ y :: d) (a ++ y :: b) = filter (.∉ d) (a ++ b).
Proof.
  intros (_ & Ha & Hb)%NoDup_app. apply NoDup_cons in Hb as [Hb _].
  rewrite !filter_app, filter_cons, decide_False by set_solver.
  rewrite !filter_notin_skip; [done|done|]. intros Hy. apply (Ha y Hy). set_solver.
Qed.
