(* ===== verification/VmmUtil.v ===== *)
(** Page geometry and address arithmetic: the page-size macros of
    [include/kernel/mem/bitmap.h], the paging flags of [vmm.h] and the functions of
    [kernel/mem/vmm_util.c]. [PageConfig] is the build switch [SMALL_PAGES]; every
    component that depends on it takes it as a class argument, and the theorems
    hold for both builds. *)
From S2P Require Import Prelude.

Class PageConfig : Type := mk_page_config { SMALL_PAGES : bool }.

(** The default build ([build/Config.mk]): 2 MiB pages. *)
Definition large_pages : PageConfig := mk_page_config false.
(** The other build: 4 KiB pages. *)
Definition small_pages : PageConfig := mk_page_config true.

Definition PAGE_SIZE_IN_BYTES `{PageConfig} : Z := if SMALL_PAGES then 0x1000 else 0x200000.

Definition VMM_FLAGS_PRESENT : Z := 1.
Definition VMM_FLAGS_WRITE_ENABLE : Z := 2.
Definition VMM_FLAGS_USER_LEVEL : Z := 4.
Definition VMM_FLAGS_ADDRESS_ONLY : Z := 2 ^ 7.
Definition VMM_FLAGS_STACK : Z := 2 ^ 8.

(** [align_up] and [align_down] divide by their argument; [None] is C's
    undefined division by zero. *)
Definition align_up (value alignment : Z) : option Z :=
  if alignment =? 0 then None
  else Some (u64 (u64 (u64 (value + alignment) - 1) / alignment * alignment)).

Definition align_down (value alignment : Z) : option Z :=
  if alignment =? 0 then None else Some (u64 (value / alignment * alignment)).

Definition is_address_aligned (value alignment : Z) : option bool :=
  if alignment =? 0 then None
  else Some (if value mod alignment =? 0 then true else false).

(** [flags & ~(1 << 7)]: the mask is an [int], sign-extended to 64 bits. *)
Definition vm_parse_flags (flags : Z) : Z := Z.land flags (not64 (Z.shiftl 1 7)).

Section Pages.
  Context `{PageConfig}.

Definition align_value_to_page (value : Z) : Z :=
  u64 (u64 (u64 (value + PAGE_SIZE_IN_BYTES) - 1) / PAGE_SIZE_IN_BYTES * PAGE_SIZE_IN_BYTES).

Definition get_number_of_pages_from_size (length : Z) : Z :=
  align_value_to_page length / PAGE_SIZE_IN_BYTES.

(** *** Facts about the page size *)

Lemma page_size_cases : PAGE_SIZE_IN_BYTES = 2 ^ 12 \/ PAGE_SIZE_IN_BYTES = 2 ^ 21.
Proof. unfold PAGE_SIZE_IN_BYTES. destruct SMALL_PAGES; [left|right]; done. Qed.

Lemma page_size_bounds : 0x1000 <= PAGE_SIZE_IN_BYTES <= 0x200000.
Proof. destruct page_size_cases as [-> | ->]; lia. Qed.

Lemma page_size_divides : exists k, 2 ^ 64 = k * PAGE_SIZE_IN_BYTES.
Proof. destruct page_size_cases as [-> | ->]; [exists (2 ^ 52)|exists (2 ^ 43)]; done. Qed.

Lemma page_size_pow2 : exists n, 12 <= n <= 21 /\ PAGE_SIZE_IN_BYTES = 2 ^ n.
Proof. destruct page_size_cases as [-> | ->]; [exists 12|exists 21]; lia. Qed.

(** *** Rounding up to a page *)

(** Rounding up, on mathematical integers. *)
Definition round_up (v : Z) : Z := (v + PAGE_SIZE_IN_BYTES - 1) / PAGE_SIZE_IN_BYTES * PAGE_SIZE_IN_BYTES.

Lemma round_up_spec v :
    v <= round_up v < v + PAGE_SIZE_IN_BYTES /\ round_up v mod PAGE_SIZE_IN_BYTES = 0.
Proof.
    pose proof page_size_bounds. unfold round_up. split; [|apply Z_mod_mult].
    pose proof (div_bounds (v + PAGE_SIZE_IN_BYTES - 1) PAGE_SIZE_IN_BYTES). lia.
Qed.

Lemma round_up_least v w :
    v <= w -> w mod PAGE_SIZE_IN_BYTES = 0 -> round_up v <= w.
Proof.
    pose proof page_size_bounds. intros Hle Hw. unfold round_up.
    pose proof (div_bounds (v + PAGE_SIZE_IN_BYTES - 1) PAGE_SIZE_IN_BYTES).
    pose proof (div_mod_eq w PAGE_SIZE_IN_BYTES).
    set (q := (v + PAGE_SIZE_IN_BYTES - 1) / PAGE_SIZE_IN_BYTES) in *.
    set (r := w / PAGE_SIZE_IN_BYTES) in *.
    assert (q * PAGE_SIZE_IN_BYTES < (r + 1) * PAGE_SIZE_IN_BYTES) by lia.
    assert (q <= r) by nia. nia.
Qed.

Lemma round_up_id v : v mod PAGE_SIZE_IN_BYTES = 0 -> round_up v = v.
Proof.
    intros Hv. pose proof (round_up_spec v) as [[? ?] ?].
    pose proof (round_up_least v v (Z.le_refl v) Hv). lia.
Qed.

Lemma align_value_to_page_no_wrap v :
    0 <= v <= 2 ^ 64 - PAGE_SIZE_IN_BYTES -> align_value_to_page v = round_up v.
Proof.
    pose proof page_size_bounds. intros Hv. unfold align_value_to_page, round_up.
    assert (u64 (u64 (v + PAGE_SIZE_IN_BYTES) - 1) = v + PAGE_SIZE_IN_BYTES - 1) as ->.
    { destruct (decide (v = 2 ^ 64 - PAGE_SIZE_IN_BYTES)) as [->|].
      - replace (2 ^ 64 - PAGE_SIZE_IN_BYTES + PAGE_SIZE_IN_BYTES) with (2 ^ 64) by lia.
        change (u64 (u64 (2 ^ 64) - 1)) with (2 ^ 64 - 1). lia.
      - rewrite (u64_small (v + PAGE_SIZE_IN_BYTES)) by lia. rewrite u64_small by lia. lia. }
    destruct (round_up_spec v) as [[? Hlt] Hm]. unfold round_up in *.
    apply u64_small. split; [lia|].
    destruct page_size_divides as [k Hk].
    set (q := (v + PAGE_SIZE_IN_BYTES - 1) / PAGE_SIZE_IN_BYTES) in *. nia.
Qed.

Lemma align_value_to_page_wrap v :
    2 ^ 64 - PAGE_SIZE_IN_BYTES < v < 2 ^ 64 -> align_value_to_page v = 0.
Proof.
    pose proof page_size_bounds. intros Hv. unfold align_value_to_page.
    assert (u64 (v + PAGE_SIZE_IN_BYTES) = v + PAGE_SIZE_IN_BYTES - 2 ^ 64) as ->.
    { unfold u64. replace (v + PAGE_SIZE_IN_BYTES) with (v + PAGE_SIZE_IN_BYTES - 2 ^ 64 + 1 * 2 ^ 64) at 1 by lia.
      rewrite Z_mod_plus_full. apply Z.mod_small. lia. }
    rewrite (u64_small (v + PAGE_SIZE_IN_BYTES - 2 ^ 64 - 1)) by lia. rewrite Z.div_small by lia. done.
Qed.

Lemma get_number_of_pages_no_wrap v :
    0 <= v <= 2 ^ 64 - PAGE_SIZE_IN_BYTES ->
    get_number_of_pages_from_size v * PAGE_SIZE_IN_BYTES = round_up v.
Proof.
    pose proof page_size_bounds. intros Hv. unfold get_number_of_pages_from_size.
    rewrite align_value_to_page_no_wrap by done. unfold round_up. by rewrite Z.div_mul by lia.
Qed.

(** C40: [align_value_to_page] returns the least multiple of the page size that
      is at least its argument, for every argument whose rounding fits 64 bits;
      for the others the addition wraps and it returns 0. *)
Theorem align_value_to_page_least (v : Z) :
    0 <= v < 2 ^ 64 ->
    let r := align_value_to_page v in
    r mod PAGE_SIZE_IN_BYTES = 0 /\
    (if v <=? 2 ^ 64 - PAGE_SIZE_IN_BYTES
     then v <= r < v + PAGE_SIZE_IN_BYTES /\
          (forall w, v <= w -> w mod PAGE_SIZE_IN_BYTES = 0 -> r <= w)
     else r = 0).
Proof.
    intros Hv r. subst r. destruct (Z.leb_spec v (2 ^ 64 - PAGE_SIZE_IN_BYTES)).
    - rewrite align_value_to_page_no_wrap by lia. destruct (round_up_spec v).
      repeat split; [done|lia|lia|]. intros w. apply round_up_least.
    - rewrite align_value_to_page_wrap by lia. done.
Qed.

Lemma align_up_page v :
    align_up v PAGE_SIZE_IN_BYTES = Some (align_value_to_page v).
Proof.
    pose proof page_size_bounds. unfold align_up, align_value_to_page.
    destruct (Z.eqb_spec PAGE_SIZE_IN_BYTES 0); [lia|done].
Qed.
End Pages.

Lemma align_value_to_page_least_witness :
  0 <= 0x200001 < 2 ^ 64 /\
  @align_value_to_page large_pages 0x200001 = 0x400000 /\
  @align_value_to_page large_pages 0x200001 mod @PAGE_SIZE_IN_BYTES large_pages = 0.
Proof.
  assert (0 <= 0x200001 < 2 ^ 64) as Hv by lia.
  split; [exact Hv|]. split; [vm_compute; reflexivity|].
  exact (proj1 (@align_value_to_page_least large_pages 0x200001 Hv)).
Defined.
