(* ===== verification/Mmap.v ===== *)
(** The boot memory map: [kernel/mem/mmap.c] (all of it but [_mmap_setup], which
    calls the frame allocator and is in [Pmm.v]) and the walk over the multiboot
    tags of [utils/utils.c] it relies on. *)
From S2P Require Import Prelude VmmUtil.

(** [multiboot_memory_map_t]. *)
Record multiboot_memory_map_t : Type := mk_entry {
  addr : Z;
  len : Z;
  type : Z;
}.

(** [struct multiboot_tag] with the two fields a module tag adds. *)
Record multiboot_tag : Type := mk_tag {
  tag_type : Z;
  tag_size : Z;
  mod_start : Z;
  mod_end : Z;
}.

(** [struct multiboot_tag_mmap]. *)
Record multiboot_tag_mmap : Type := mk_tag_mmap {
  tm_size : Z;
  tm_entry_size : Z;
  tm_entries : list multiboot_memory_map_t;
}.

Definition _MMAP_AVAILABLE : Z := 1.
Definition MULTIBOOT_TAG_TYPE_END : Z := 0.
Definition MULTIBOOT_TAG_TYPE_MODULE : Z := 3.
Definition sizeof_multiboot_tag_mmap : Z := 16.

(** The globals of [mmap.c] and the multiboot data they point into: [boot_tags]
    maps the address of each tag to its contents. *)
Record mmap_state : Type := mk_mmap {
  mmap_number_of_entries : Z;
  mmap_entries : list multiboot_memory_map_t;
  count_physical_reserved : Z;
  _mmap_last_available_item : Z;
  _mmap_phys_memory_avail : Z;
  multiboot_tag_start : Z;
  multiboot_tag_end : Z;
  tag_start : Z;
  boot_tags : gmap Z multiboot_tag;
}.

Definition set_count_physical_reserved (c : Z) (s : mmap_state) : mmap_state :=
  mk_mmap s.(mmap_number_of_entries) s.(mmap_entries) c s.(_mmap_last_available_item)
    s.(_mmap_phys_memory_avail) s.(multiboot_tag_start) s.(multiboot_tag_end) s.(tag_start) s.(boot_tags).

Definition set_last_available (item avail : Z) (s : mmap_state) : mmap_state :=
  mk_mmap s.(mmap_number_of_entries) s.(mmap_entries) s.(count_physical_reserved) item
    avail s.(multiboot_tag_start) s.(multiboot_tag_end) s.(tag_start) s.(boot_tags).

Definition set_mmap_entries (n : Z) (es : list multiboot_memory_map_t) (s : mmap_state) : mmap_state :=
  mk_mmap n es s.(count_physical_reserved) s.(_mmap_last_available_item)
    s.(_mmap_phys_memory_avail) s.(multiboot_tag_start) s.(multiboot_tag_end) s.(tag_start) s.(boot_tags).

(** [mmap_entries[i]]. *)
Definition get_entry (i : Z) : M mmap_state multiboot_memory_map_t :=
  let! s := get in lift_opt OutOfBounds (s.(mmap_entries) !! Z.to_nat i).

(** *** [_mmap_parse] *)

Definition _mmap_parse_step (i : Z) : M mmap_state unit :=
  let! e := get_entry i in
  if e.(type) =? 1
  then modify (fun s => set_last_available i (u64 (s.(_mmap_phys_memory_avail) + e.(len))) s)
  else ret tt.

Definition _mmap_parse (mmap_root : multiboot_tag_mmap) : M mmap_state unit :=
  if mmap_root.(tm_entry_size) =? 0 then throw DivByZero
  else
    let n := u32 (u64 (mmap_root.(tm_size) - sizeof_multiboot_tag_mmap) / mmap_root.(tm_entry_size)) in
    do! modify (fun s => set_last_available 0 0 (set_mmap_entries n mmap_root.(tm_entries) s)) in
    for_upto n _mmap_parse_step.

(** *** The multiboot tags *)

(** [(tag->size + 7) & ~7], in 32 bits. *)
Definition tag_stride (size : Z) : Z := Z.land (u32 (size + 7)) (2 ^ 32 - 8).

(** The loop of [_is_address_in_multiboot], from the tag at [p]. *)
Fixpoint _is_address_in_multiboot_loop (fuel : nat) (address p : Z) : M mmap_state bool :=
  match fuel with
  | O => diverge
  | Datatypes.S fuel' =>
      let! s := get in
      let! tag := lift_opt OutOfBounds (s.(boot_tags) !! p) in
      if tag.(tag_type) =? MULTIBOOT_TAG_TYPE_END then ret false
      else if (tag.(tag_type) =? MULTIBOOT_TAG_TYPE_MODULE)
              && ((tag.(mod_start) <=? address) && (address <=? tag.(mod_end)))
      then ret true
      else _is_address_in_multiboot_loop fuel' address (u64 (p + tag_stride tag.(tag_size)))
  end.

(** A walk over more tags than there are has met one twice, and never ends. *)
Definition _is_address_in_multiboot (address : Z) : M mmap_state bool :=
  let! s := get in
  _is_address_in_multiboot_loop (Datatypes.S (size s.(boot_tags))) address s.(tag_start).

(** *** [_mmap_is_address_in_available_space] *)

(** The loop over the entries from [i], [n] of them being left. *)
Fixpoint _mmap_available_loop (n : nat) (i address upper_limit : Z) : M mmap_state bool :=
  match n with
  | O => ret false
  | Datatypes.S n' =>
      let! e := get_entry i in
      if (u64 (address + upper_limit) <? u64 (e.(addr) + e.(len))) && (e.(type) =? _MMAP_AVAILABLE)
      then let! multiboot_address := _is_address_in_multiboot address in
           ret (negb multiboot_address)
      else _mmap_available_loop n' (i + 1) address upper_limit
  end.

Definition _mmap_is_address_in_available_space (address upper_limit : Z) : M mmap_state bool :=
  let! s := get in
  if (s.(multiboot_tag_start) <? address) && (u64 (address + upper_limit) <? s.(multiboot_tag_end))
  then ret false
  else if (s.(multiboot_tag_start) <? u64 (address + upper_limit)) && (address <? s.(multiboot_tag_end))
  then ret false
  else _mmap_available_loop (Z.to_nat s.(mmap_number_of_entries)) 0 address upper_limit.

(** *** [_mmap_determine_bitmap_region] *)

(** The loop over the entries; a [Fatal] log line stops the kernel. *)
Fixpoint _mmap_bitmap_region_loop (n : nat) (i lower_limit bytes_needed : Z) : M mmap_state Z :=
  match n with
  | O => throw Halted
  | Datatypes.S n' =>
      let! e := get_entry i in
      if negb (e.(type) =? _MMAP_AVAILABLE)
      then _mmap_bitmap_region_loop n' (i + 1) lower_limit bytes_needed
      else if u64 (e.(addr) + e.(len)) <? lower_limit
      then _mmap_bitmap_region_loop n' (i + 1) lower_limit bytes_needed
      else
        let entry_offset := if e.(addr) <? lower_limit then u64 (lower_limit - e.(addr)) else 0 in
        let actual_available_space := u64 (e.(len) - entry_offset) in
        if bytes_needed <=? actual_available_space
        then ret (u64 (e.(addr) + entry_offset))
        else _mmap_bitmap_region_loop n' (i + 1) lower_limit bytes_needed
  end.

Definition _mmap_determine_bitmap_region (lower_limit bytes_needed : Z) : M mmap_state Z :=
  let! s := get in
  _mmap_bitmap_region_loop (Z.to_nat s.(mmap_number_of_entries)) 0 lower_limit bytes_needed.

(** *** Theorems *)

(** Entries as firmware reports them: 64-bit fields, no region past the end of
    the address space. *)
Definition entry_wf (e : multiboot_memory_map_t) : Prop :=
  0 <= e.(addr) /\ 0 <= e.(len) /\ e.(addr) + e.(len) < 2 ^ 64.

(** The bytes [[a, a + n)] lie in the region of [e], which is available. *)
Definition range_in_available (a n : Z) (e : multiboot_memory_map_t) : Prop :=
  e.(type) = _MMAP_AVAILABLE /\ e.(addr) <= a /\ a + n <= e.(addr) + e.(len).

(** A map whose counter is the number of its entries. *)
Definition mmap_wf (s : mmap_state) : Prop :=
  s.(mmap_number_of_entries) = Z.of_nat (length s.(mmap_entries)) /\
  Forall entry_wf s.(mmap_entries).

Lemma wp_get_entry i e Q s :
  s.(mmap_entries) !! Z.to_nat i = Some e -> Q e s -> wp (get_entry i) Q s.
Proof. intros He HQ. unfold get_entry. wp_step. wp_step. by rewrite He. Qed.

Lemma bitmap_region_loop_spec lower_limit bytes_needed s r :
  0 <= lower_limit < 2 ^ 64 ->
  forall n i,
  0 <= i ->
  Forall entry_wf s.(mmap_entries) ->
  _mmap_bitmap_region_loop n i lower_limit bytes_needed s = Ret (r, s) ->
  lower_limit <= r /\ exists e, e ∈ s.(mmap_entries) /\ range_in_available r bytes_needed e.
Proof.
  intros Hl n. induction n as [|n IH]; intros i Hi Hwf; simpl; [done|].
  unfold bind, get_entry, bind, get, lift_opt, ret, throw.
  destruct (s.(mmap_entries) !! Z.to_nat i) as [e|] eqn:He; [|done].
  assert (e ∈ s.(mmap_entries)) as Hin by (by eapply list_elem_of_lookup_2).
  pose proof Hwf as Hall. rewrite Forall_forall in Hall. destruct (Hall e Hin) as (? & ? & ?).
  destruct (Z.eqb_spec (type e) _MMAP_AVAILABLE) as [Ht|]; simpl; [|apply IH; [lia|done]].
  rewrite (u64_small (addr e + len e)) by lia.
  destruct (Z.ltb_spec (addr e + len e) lower_limit); [apply IH; [lia|done]|].
  destruct (Z.ltb_spec (addr e) lower_limit).
  - rewrite (u64_small (lower_limit - addr e)), (u64_small (len e - _)) by lia.
    destruct (Z.leb_spec bytes_needed (len e - (lower_limit - addr e))); [|apply IH; [lia|done]].
    intros [= <-]. rewrite u64_small by lia. split; [lia|].
    exists e. split; [done|]. unfold range_in_available. split; [done|]. lia.
  - rewrite Z.sub_0_r, Z.add_0_r, !u64_small by lia.
    destruct (Z.leb_spec bytes_needed (len e)); [|apply IH; [lia|done]].
    intros [= <-]. split; [lia|]. exists e. split; [done|].
    unfold range_in_available. split; [done|]. lia.
Qed.

(** The region chosen for the bitmap lies, with all the bytes it needs, inside
    one available entry of the memory map and not below the limit given; when the
    map holds such a place for the bitmap the function finds one, and otherwise it
    stops the kernel. *)
Theorem _mmap_determine_bitmap_region_safe (s : mmap_state) (lower_limit bytes_needed : Z) :
  mmap_wf s -> 0 <= lower_limit < 2 ^ 64 -> 0 <= bytes_needed ->
  match _mmap_determine_bitmap_region lower_limit bytes_needed s with
  | Ret (r, s') =>
      s' = s /\ lower_limit <= r /\
      exists e, e ∈ s.(mmap_entries) /\ range_in_available r bytes_needed e
  | Fault f =>
      f = Halted /\
      forall e r, e ∈ s.(mmap_entries) -> lower_limit <= r -> ~ range_in_available r bytes_needed e
  | Diverge => False
  end.
Proof.
  intros [Hn Hwf] Hl Hb. unfold _mmap_determine_bitmap_region, bind at 1, get.
  rewrite Hn, Nat2Z.id.
  assert (forall n i, (i + n = length s.(mmap_entries))%nat ->
    match _mmap_bitmap_region_loop n (Z.of_nat i) lower_limit bytes_needed s with
    | Ret (r, s') => s' = s
    | Fault f => f = Halted /\
        forall e r, e ∈ drop i s.(mmap_entries) -> lower_limit <= r -> ~ range_in_available r bytes_needed e
    | Diverge => False
    end) as Hmain.
  { intros n. induction n as [|n IH]; intros i Hin.
    - simpl. split; [done|]. rewrite drop_ge by lia. intros e r He. by apply elem_of_nil in He.
    - simpl. unfold bind, get_entry, bind, get, lift_opt. rewrite Nat2Z.id.
      destruct (lookup_lt_is_Some_2 s.(mmap_entries) i ltac:(lia)) as [e He]. rewrite He.
      unfold ret. rewrite (drop_S _ _ _ He).
      replace (Z.of_nat i + 1) with (Z.of_nat (Datatypes.S i)) by lia.
      specialize (IH (Datatypes.S i) ltac:(lia)).
      assert (entry_wf e) as (? & ? & ?) by (eapply Forall_lookup_1; eauto).
      assert ((forall r, lower_limit <= r -> ~ range_in_available r bytes_needed e) ->
        match _mmap_bitmap_region_loop n (Z.of_nat (Datatypes.S i)) lower_limit bytes_needed s with
        | Ret (r, s') => s' = s
        | Fault f => f = Halted /\ forall e' r, e' ∈ e :: drop (Datatypes.S i) s.(mmap_entries) ->
             lower_limit <= r -> ~ range_in_available r bytes_needed e'
        | Diverge => False
        end) as Hnext.
      { intros Hno. destruct (_mmap_bitmap_region_loop _ _ _ _ _) as [[? ?]| |]; [done| |done].
        destruct IH as [-> IH]. split; [done|]. intros e' r [->|]%elem_of_cons; eauto. }
      unfold range_in_available in Hnext. clear IH.
      destruct (Z.eqb_spec (type e) _MMAP_AVAILABLE); simpl; [|by apply Hnext; intros ? _ []].
      rewrite (u64_small (addr e + len e)) by lia.
      destruct (Z.ltb_spec (addr e + len e) lower_limit); [apply Hnext; lia|].
      destruct (Z.ltb_spec (addr e) lower_limit).
      + rewrite (u64_small (lower_limit - addr e)), (u64_small (len e - _)) by lia.
        destruct (Z.leb_spec bytes_needed (len e - (lower_limit - addr e))); [done|]. apply Hnext. lia.
      + rewrite Z.sub_0_r, (u64_small (len e)) by lia.
        destruct (Z.leb_spec bytes_needed (len e)); [done|]. apply Hnext. lia. }
  specialize (Hmain (length s.(mmap_entries)) 0%nat eq_refl). simpl in Hmain.
  destruct (_mmap_bitmap_region_loop _ _ _ _ _) as [[r s']| |] eqn:Hrun; [|done|done].
  subst s'. split; [done|]. exact (bitmap_region_loop_spec lower_limit bytes_needed s r Hl _ 0 (Z.le_refl 0) Hwf Hrun).
Qed.

(** The memory map of a small machine: low memory, a reserved hole, RAM. *)
Definition sample_map : mmap_state :=
  mk_mmap 3 [mk_entry 0 0x9fc00 1; mk_entry 0x9fc00 0x60400 2; mk_entry 0x100000 0x3fee0000 1]
    0 2 0x3ff7fc00 0x9fb 0x1000 0x2000 {[ 0x2000 := mk_tag 0 8 0 0 ]}.

Lemma sample_map_wf : mmap_wf sample_map.
Proof.
  split; [done|]. repeat (apply Forall_cons_2; [unfold entry_wf; simpl; lia|]). apply Forall_nil_2.
Qed.

Lemma _mmap_determine_bitmap_region_safe_witness :
  mmap_wf sample_map /\
  _mmap_determine_bitmap_region 0x600000 0x100 sample_map = Ret (0x600000, sample_map) /\
  exists e, e ∈ sample_map.(mmap_entries) /\ range_in_available 0x600000 0x100 e.
Proof.
  split; [exact sample_map_wf|]. split; [vm_compute; reflexivity|].
  pose proof (_mmap_determine_bitmap_region_safe sample_map 0x600000 0x100 sample_map_wf
    ltac:(lia) ltac:(lia)) as H.
  assert (_mmap_determine_bitmap_region 0x600000 0x100 sample_map = Ret (0x600000, sample_map)) as E
    by (vm_compute; reflexivity).
  rewrite E in H. exact (proj2 (proj2 H)).
Defined.

(** [_mmap_is_address_in_available_space] answers [true] for an address of the
    reserved hole of [sample_map]: it never compares the address with the start of
    the entry it settles on. *)
Theorem available_space_in_hole :
  _mmap_is_address_in_available_space 0xa0000 0x1000 sample_map = Ret (true, sample_map) /\
  ~ exists e, e ∈ sample_map.(mmap_entries) /\ range_in_available 0xa0000 0x1000 e.
Proof.
  split; [vm_compute; reflexivity|]. unfold range_in_available, _MMAP_AVAILABLE.
  intros (e & He & Ht & Hlo & Hhi). unfold sample_map in He. simpl in He.
  repeat (apply elem_of_cons in He as [->|He]; [simpl in *; lia|]).
  by apply elem_of_nil in He.
Qed.

(** *** What the availability test answers *)

(** The tags from address [p] to the end tag, in order; [None] when the walk leaves
    the multiboot data or does not end within the fuel. *)
Fixpoint tags_from (fuel : nat) (p : Z) (s : mmap_state) : option (list multiboot_tag) :=
  match fuel with
  | O => None
  | Datatypes.S fuel' =>
      match s.(boot_tags) !! p with
      | None => None
      | Some tag =>
          if tag.(tag_type) =? MULTIBOOT_TAG_TYPE_END then Some []
          else option_map (cons tag) (tags_from fuel' (u64 (p + tag_stride tag.(tag_size))) s)
      end
  end.
Definition all_tags (s : mmap_state) : option (list multiboot_tag) :=
  tags_from (Datatypes.S (size s.(boot_tags))) s.(tag_start) s.

(** A tag is a module that holds the address. *)
Definition module_at (address : Z) (tag : multiboot_tag) : bool :=
  (tag.(tag_type) =? MULTIBOOT_TAG_TYPE_MODULE) && ((tag.(mod_start) <=? address) && (address <=? tag.(mod_end))).

Lemma is_address_in_multiboot_run s address tags :
  all_tags s = Some tags -> _is_address_in_multiboot address s = Ret (existsb (module_at address) tags, s).
Proof.
  unfold all_tags, _is_address_in_multiboot, bind at 1, get. generalize (tag_start s) as p.
  generalize (Datatypes.S (size s.(boot_tags))) as fuel. intros fuel. revert tags.
  induction fuel as [|fuel IH]; intros tags p; cbn [tags_from _is_address_in_multiboot_loop]; [done|].
  unfold bind at 1, get. destruct (s.(boot_tags) !! p) as [tag|]; [|done]. unfold lift_opt, bind at 1, ret.
  destruct (tag_type tag =? MULTIBOOT_TAG_TYPE_END); [by intros [= <-]|].
  destruct (tags_from _ _ _) as [ts|] eqn:Hts; [|done]. intros [= <-]. cbn [existsb]. fold (module_at address tag).
  destruct (module_at address tag); [done|]. by apply IH.
Qed.

Lemma available_loop_run s address limit tags :
  all_tags s = Some tags -> Forall entry_wf s.(mmap_entries) -> 0 <= address + limit < 2 ^ 64 ->
  forall n i, (i + n = length s.(mmap_entries))%nat ->
  _mmap_available_loop n (Z.of_nat i) address limit s =
    Ret (existsb (fun e => (address + limit <? e.(addr) + e.(len)) && (e.(type) =? _MMAP_AVAILABLE)) (drop i s.(mmap_entries))
         && negb (existsb (module_at address) tags), s).
Proof.
  intros Ht Hwf Hal. induction n as [|n IH]; intros i Hi; cbn [_mmap_available_loop].
  { by rewrite drop_ge by lia. }
  destruct (lookup_lt_is_Some_2 s.(mmap_entries) i) as [e He]; [lia|].
  assert (entry_wf e) as (? & ? & ?) by (eapply Forall_lookup_1; eauto).
  erewrite bind_run; [|unfold get_entry, bind, get; rewrite Nat2Z.id, He; done].
  rewrite (drop_S _ _ _ He). cbn [existsb]. rewrite !u64_small by lia.
  destruct (_ && _) eqn:Hc; simpl.
  - erewrite bind_run by (by apply is_address_in_multiboot_run). done.
  - replace (Z.of_nat i + 1) with (Z.of_nat (Datatypes.S i)) by lia. apply IH. lia.
Qed.

(** The range keeps clear of the multiboot data, some available entry ends beyond
    it, and its first address is in no boot module. *)
Definition available_space (s : mmap_state) (tags : list multiboot_tag) (address limit : Z) : Prop :=
  (address + limit <= s.(multiboot_tag_start) \/ s.(multiboot_tag_end) <= address) /\
  (exists e, e ∈ s.(mmap_entries) /\ e.(type) = _MMAP_AVAILABLE /\ address + limit < e.(addr) + e.(len)) /\
  (forall tag, tag ∈ tags -> tag.(tag_type) = MULTIBOOT_TAG_TYPE_MODULE ->
     address < tag.(mod_start) \/ tag.(mod_end) < address).

Lemma available_space_total s address limit tags :
  mmap_wf s -> all_tags s = Some tags -> 0 <= address -> 0 < limit -> address + limit < 2 ^ 64 ->
  exists answer, _mmap_is_address_in_available_space address limit s = Ret (answer, s) /\
    (answer = true <-> available_space s tags address limit).
Proof.
  intros [Hn Hwf] Htags Ha Hl Hal. unfold _mmap_is_address_in_available_space, bind at 1, get.
  rewrite (u64_small (address + limit)) by lia.
  destruct ((_ <? address) && (_ <? _)) eqn:H1; [|destruct ((_ <? address + limit) && _) eqn:H2].
  - zbool. exists false. split; [done|]. split; [done|]. intros [? _]. lia.
  - zbool. exists false. split; [done|]. split; [done|]. intros [? _]. lia.
  - rewrite Hn, Nat2Z.id.
    pose proof (available_loop_run s address limit tags Htags Hwf ltac:(lia) _ 0%nat eq_refl) as Hrun.
    change (Z.of_nat 0) with 0 in Hrun. rewrite Hrun.
    eexists. split; [done|]. rewrite drop_0, andb_true_iff, negb_true_iff, <- not_true_iff_false, !existsb_exists.
    split.
    + intros [(e & He & Hc) Hm]. zbool. split.
      { apply andb_false_iff in H1, H2. rewrite !Z.ltb_ge in H1, H2. lia. }
      split; [exists e; split; [by apply list_elem_of_In|done]|]. intros tag Hin Ht.
      destruct (decide (address < tag.(mod_start) \/ tag.(mod_end) < address)); [done|]. exfalso. apply Hm.
      exists tag. split; [by apply list_elem_of_In|]. unfold module_at. rewrite !andb_true_iff, !Z.leb_le, Z.eqb_eq. lia.
    + intros (_ & (e & He & Ht & Hc) & Hm). split.
      * exists e. split; [by apply list_elem_of_In|]. by rewrite andb_true_iff, Z.ltb_lt, Z.eqb_eq.
      * intros (tag & Hin & Hc'). apply list_elem_of_In in Hin. unfold module_at in Hc'.
        rewrite !andb_true_iff, !Z.leb_le, Z.eqb_eq in Hc'. destruct (Hm tag Hin); [tauto|lia|lia].
Qed.

(** [_mmap_is_address_in_available_space], on a well-formed map whose tags end,
    answers whether the range keeps clear of the multiboot data, some available
    entry ends beyond it, and its first address is in no boot module. It asks
    nothing of where that entry starts. *)
Theorem _mmap_is_address_in_available_space_spec s address limit tags :
  mmap_wf s -> all_tags s = Some tags -> 0 <= address -> 0 < limit -> address + limit < 2 ^ 64 ->
  exists answer, _mmap_is_address_in_available_space address limit s = Ret (answer, s) /\
    (answer = true <-> available_space s tags address limit).
Proof. apply available_space_total. Qed.

Lemma _mmap_is_address_in_available_space_spec_witness :
  mmap_wf sample_map /\ all_tags sample_map = Some [] /\
  _mmap_is_address_in_available_space 0x600000 0x1000 sample_map = Ret (true, sample_map) /\
  exists answer, _mmap_is_address_in_available_space 0x600000 0x1000 sample_map = Ret (answer, sample_map).
Proof.
  assert (all_tags sample_map = Some []) as Htags by (vm_compute; reflexivity).
  split; [exact sample_map_wf|]. split; [exact Htags|]. split; [vm_compute; reflexivity|].
  destruct (_mmap_is_address_in_available_space_spec sample_map 0x600000 0x1000 [] sample_map_wf Htags
    ltac:(lia) ltac:(lia) ltac:(lia)) as (answer & Hrun & _). exists answer. exact Hrun.
Defined.
