(* ===== verification/Bitmap.v ===== *)
(** The frame bitmap: [kernel/mem/bitmap.c] and the two address translations of
    [kernel/mem/hh_direct_map.c] it uses. A bit is one page frame; the abstract
    state is the set of the frames in use ([used_set]). *)
From S2P Require Import Prelude VmmUtil Mmap.

(** The globals of [bitmap.c]. [memory_map] is the rows the pointer of that name
    reaches and [memory_map_addr] the pointer itself; [bm_mmap] is the memory map
    the bitmap is placed by. *)
Record bitmap_state : Type := mk_bitmap {
  memory_map : list Z;
  memory_map_addr : Z;
  number_of_entries : Z;
  bitmap_size : Z;
  used_frames : Z;
  memory_map_phys_addr : Z;
  memory_size_in_bytes : Z;
  higherHalfDirectMapBase : Z;
  bm_mmap : mmap_state;
}.

Definition BITMAP_ENTRY_FULL : Z := 0xfffffffffffffff.
Definition BITMAP_ROW_BITS : Z := 64.
Definition ONE_64B : Z := 1.
Definition ZERO_64B : Z := 0.

Inductive address_type_t : Type :=
| ADDRESS_TYPE_PHYSICAL
| ADDRESS_TYPE_VIRTUAL.

Definition set_memory_map (rows : list Z) (b : bitmap_state) : bitmap_state :=
  mk_bitmap rows b.(memory_map_addr) b.(number_of_entries) b.(bitmap_size) b.(used_frames)
    b.(memory_map_phys_addr) b.(memory_size_in_bytes) b.(higherHalfDirectMapBase) b.(bm_mmap).
Definition set_used_frames (n : Z) (b : bitmap_state) : bitmap_state :=
  mk_bitmap b.(memory_map) b.(memory_map_addr) b.(number_of_entries) b.(bitmap_size) n
    b.(memory_map_phys_addr) b.(memory_size_in_bytes) b.(higherHalfDirectMapBase) b.(bm_mmap).
Definition set_geometry (entries size : Z) (b : bitmap_state) : bitmap_state :=
  mk_bitmap b.(memory_map) b.(memory_map_addr) entries size b.(used_frames)
    b.(memory_map_phys_addr) b.(memory_size_in_bytes) b.(higherHalfDirectMapBase) b.(bm_mmap).
Definition set_memory_map_addr (rows : list Z) (a : Z) (b : bitmap_state) : bitmap_state :=
  mk_bitmap rows a b.(number_of_entries) b.(bitmap_size) b.(used_frames)
    b.(memory_map_phys_addr) b.(memory_size_in_bytes) b.(higherHalfDirectMapBase) b.(bm_mmap).
Definition set_bm_mmap (m : mmap_state) (b : bitmap_state) : bitmap_state :=
  mk_bitmap b.(memory_map) b.(memory_map_addr) b.(number_of_entries) b.(bitmap_size) b.(used_frames)
    b.(memory_map_phys_addr) b.(memory_size_in_bytes) b.(higherHalfDirectMapBase) m.

(** *** The direct map *)

(** [hhdm_get_variable]: 0 is C's [NULL]. *)
Definition hhdm_translate (memory_size base phys_address : Z) : Z :=
  if phys_address <? memory_size then u64 (phys_address + base) else 0.

Definition hhdm_get_variable (phys_address : Z) : M bitmap_state Z :=
  gets (fun b => hhdm_translate b.(memory_size_in_bytes) b.(higherHalfDirectMapBase) phys_address).

Definition hhdm_get_phys_address (hhdm_address : Z) : M bitmap_state Z :=
  gets (fun b => u64 (hhdm_address - b.(higherHalfDirectMapBase))).

(** *** Rows *)

(** [memory_map[i]] as an rvalue and as an assignment. *)
Definition get_row (i : Z) : M bitmap_state Z :=
  let! b := get in lift_opt OutOfBounds (b.(memory_map) !! Z.to_nat i).

Definition set_row (i v : Z) : M bitmap_state unit :=
  let! b := get in
  if i <? Z.of_nat (length b.(memory_map))
  then put (set_memory_map (<[Z.to_nat i := v]> b.(memory_map)) b)
  else throw OutOfBounds.

Definition _bitmap_set_bit (location : Z) : M bitmap_state unit :=
  let! row := get_row (location / BITMAP_ROW_BITS) in
  set_row (location / BITMAP_ROW_BITS)
    (Z.lor row (u64 (Z.shiftl ONE_64B (location mod BITMAP_ROW_BITS)))).

Definition _bitmap_free_bit (location : Z) : M bitmap_state unit :=
  let! row := get_row (location / BITMAP_ROW_BITS) in
  set_row (location / BITMAP_ROW_BITS)
    (Z.land row (not64 (u64 (Z.shiftl ONE_64B (location mod BITMAP_ROW_BITS))))).

Definition _bitmap_test_bit (location : Z) : M bitmap_state bool :=
  let! row := get_row (location / BITMAP_ROW_BITS) in
  ret (negb (Z.land row (u64 (Z.shiftl ONE_64B (location mod BITMAP_ROW_BITS))) =? 0)).

(** *** [_bitmap_request_frame] *)

(** The inner loop, over the columns of a row: the first clear bit from [column]
    on, [n] columns being left. *)
Fixpoint request_frame_columns (n : nat) (row_value column : Z) : option Z :=
  match n with
  | O => None
  | Datatypes.S n' =>
      let bit := u64 (Z.shiftl ONE_64B column) in
      if Z.land row_value bit =? 0 then Some column
      else request_frame_columns n' row_value (column + 1)
  end.

(** The outer loop, over the rows; [row] is a [uint16_t] compared with a
    [uint32_t]. *)
Fixpoint request_frame_rows (fuel : nat) (row : Z) : M bitmap_state Z :=
  match fuel with
  | O => diverge
  | Datatypes.S fuel' =>
      let! b := get in
      if row <? b.(number_of_entries) then
        let! row_value := get_row row in
        if negb (row_value =? BITMAP_ENTRY_FULL) then
          match request_frame_columns 64 row_value 0 with
          | Some column => ret (row * BITMAP_ROW_BITS + column)
          | None => request_frame_rows fuel' (u16 (row + 1))
          end
        else request_frame_rows fuel' (u16 (row + 1))
      else ret (-1)
  end.

(** The fuel covers one pass over the rows, which is all the code makes as long as
    its 16-bit counter does not wrap ([request_frame_wraps]). *)
Definition _bitmap_request_frame : M bitmap_state Z :=
  let! b := get in request_frame_rows (Datatypes.S (Z.to_nat b.(number_of_entries))) 0.

(** *** [_bitmap_request_frames] *)

(** The local variables of [_bitmap_request_frames] that survive an iteration. *)
Record run_state : Type := mk_run {
  adjacents_found : Z;
  start_row : Z;
  start_column : Z;
}.

(** The inner loop: [inl] is a [return] of the function. *)
Fixpoint request_frames_columns (n : nat) (number_of_frames row row_value column : Z) (r : run_state)
    : Z + run_state :=
  match n with
  | O => inr r
  | Datatypes.S n' =>
      let bit := u64 (Z.shiftl ONE_64B column) in
      if Z.land row_value bit =? 0 then
        let r1 := if r.(adjacents_found) =? 0
                  then mk_run r.(adjacents_found) row column else r in
        let found := u64 (r1.(adjacents_found) + 1) in
        if found =? number_of_frames
        then inl (r1.(start_row) * BITMAP_ROW_BITS + r1.(start_column))
        else request_frames_columns n' number_of_frames row row_value (column + 1)
               (mk_run found r1.(start_row) r1.(start_column))
      else request_frames_columns n' number_of_frames row row_value (column + 1)
             (mk_run 0 r.(start_row) r.(start_column))
  end.

Fixpoint request_frames_rows (fuel : nat) (number_of_frames row : Z) (r : run_state) : M bitmap_state Z :=
  match fuel with
  | O => diverge
  | Datatypes.S fuel' =>
      let! b := get in
      if row <? b.(number_of_entries) then
        let! row_value := get_row row in
        if negb (row_value =? BITMAP_ENTRY_FULL) then
          match request_frames_columns 64 number_of_frames row row_value 0 r with
          | inl location => ret location
          | inr r' => request_frames_rows fuel' number_of_frames (u16 (row + 1)) r'
          end
        else request_frames_rows fuel' number_of_frames (u16 (row + 1)) r
      else ret (-1)
  end.

Definition _bitmap_request_frames (number_of_frames : Z) : M bitmap_state Z :=
  let! b := get in
  request_frames_rows (Datatypes.S (Z.to_nat b.(number_of_entries))) number_of_frames 0 (mk_run 0 0 0).

Section Geometry.
  Context `{PageConfig}.

Definition ADDRESS_TO_BITMAP_ENTRY (address : Z) : Z := address / PAGE_SIZE_IN_BYTES.

Definition _bitmap_set_bit_from_address (address : Z) : M bitmap_state unit :=
  let! b := get in
  if address <? b.(memory_size_in_bytes)
  then _bitmap_set_bit (ADDRESS_TO_BITMAP_ENTRY address)
  else ret tt.

(** [((uint32_t) end) % PAGE_SIZE]: the literal is a [long], the operand is cast
    to 32 bits first. *)
Definition _compute_kernel_entries (end_of_kernel_area : Z) : Z :=
  let kernel_entries := u32 (end_of_kernel_area / PAGE_SIZE_IN_BYTES) in
  let kernel_mod_entries := u32 (u32 end_of_kernel_area mod PAGE_SIZE_IN_BYTES) in
  if negb (kernel_mod_entries =? 0) then u32 (kernel_entries + 2) else u32 (kernel_entries + 1).

(** [_initialize_bitmap]. [raw] is the contents of the memory at the address the
    bitmap is given, as far as it reaches; the first row is written through NULL when
    the region is outside the direct map. The local variable [memory_map_phys_addr]
    shadows the global of that name, which keeps its value. *)
Definition _initialize_bitmap (raw : list Z) (memory_size end_of_reserved_area : Z) : M bitmap_state unit :=
  let size := u32 (memory_size / PAGE_SIZE_IN_BYTES + 1) in
  let entries := u32 (size / 64 + 1) in
  do! modify (fun b => set_used_frames 0 (set_geometry entries size b)) in
  let! phys := zoom bm_mmap set_bm_mmap
                 (_mmap_determine_bitmap_region end_of_reserved_area (size / 8 + 1)) in
  let! virt := hhdm_get_variable phys in
  do! modify (set_memory_map_addr raw virt) in
  do! (if virt =? 0 then throw NullDeref else ret tt) in
  do! for_upto entries (fun i => set_row i ZERO_64B) in
  let kernel_entries := _compute_kernel_entries end_of_reserved_area in
  let number_of_bitmap_rows := kernel_entries / 64 in
  do! for_upto number_of_bitmap_rows (fun j => set_row j (u64 (-1))) in
  do! set_row number_of_bitmap_rows
        (not64 (u64 (Z.shiftl (not64 ZERO_64B) (kernel_entries - number_of_bitmap_rows * 64)))) in
  modify (set_used_frames kernel_entries).

Definition _bitmap_get_region (type : address_type_t) : M bitmap_state (Z * Z) :=
  gets (fun b =>
    (match type with
     | ADDRESS_TYPE_PHYSICAL => b.(memory_map_phys_addr)
     | ADDRESS_TYPE_VIRTUAL => b.(memory_map_addr)
     end, u32 (b.(bitmap_size) / 8 + 1))).
End Geometry.

(** ** The abstract state: the set of frames in use *)

Definition frame_used (rows : list Z) (l : Z) : bool :=
  match rows !! Z.to_nat (l / 64) with
  | Some r => Z.testbit r (l mod 64)
  | None => false
  end.

(** The number of frames the rows have a bit for. *)
Definition capacity (rows : list Z) : Z := 64 * Z.of_nat (length rows).

Definition used_set (rows : list Z) : gset Z :=
  list_to_set (filter (fun l => frame_used rows l = true) (seqZ 0 (capacity rows))).

Definition rows_ok (rows : list Z) : Prop := Forall (fun r => 0 <= r < 2 ^ 64) rows.

(** A bitmap with as many rows as its counter says, few enough for the 16-bit row
    counters of the scans. *)
Definition bitmap_wf (b : bitmap_state) : Prop :=
  rows_ok b.(memory_map) /\
  b.(number_of_entries) = Z.of_nat (length b.(memory_map)) /\
  b.(number_of_entries) < 2 ^ 16.

(** The rows after the frame [l] is marked, and after it is cleared. *)
Definition mark_frame (l : Z) (rows : list Z) : list Z :=
  match rows !! Z.to_nat (l / 64) with
  | Some r => <[Z.to_nat (l / 64) := Z.lor r (Z.shiftl 1 (l mod 64))]> rows
  | None => rows
  end.
Definition clear_frame (l : Z) (rows : list Z) : list Z :=
  match rows !! Z.to_nat (l / 64) with
  | Some r => <[Z.to_nat (l / 64) := Z.land r (not64 (Z.shiftl 1 (l mod 64)))]> rows
  | None => rows
  end.

Section Rows.
  Implicit Types (rows : list Z) (l m : Z).

Lemma elem_of_used_set rows l :
    l ∈ used_set rows <-> 0 <= l < capacity rows /\ frame_used rows l = true.
Proof.
    unfold used_set. rewrite elem_of_list_to_set, list_elem_of_filter, elem_of_seqZ.
    unfold capacity. split; intros; split; try tauto; lia.
Qed.

Lemma capacity_nonneg rows : 0 <= capacity rows.
Proof. unfold capacity. lia. Qed.

Lemma frame_row rows l :
    0 <= l < capacity rows ->
    exists r, rows !! Z.to_nat (l / 64) = Some r /\ frame_used rows l = Z.testbit r (l mod 64) /\
              (Z.to_nat (l / 64) < length rows)%nat.
Proof.
    unfold capacity. intros Hl.
    assert (Z.to_nat (l / 64) < length rows)%nat as Hlt.
    { assert (l / 64 < Z.of_nat (length rows)) by (apply Z.div_lt_upper_bound; lia).
      assert (0 <= l / 64) by (apply Z.div_pos; lia). lia. }
    destruct (lookup_lt_is_Some_2 rows _ Hlt) as [r Hr].
    exists r. unfold frame_used. by rewrite Hr.
Qed.

Lemma column_range l : 0 <= l mod 64 < 64.
Proof. apply Z.mod_pos_bound. lia. Qed.

Lemma bit_mask_small l : u64 (Z.shiftl 1 (l mod 64)) = Z.shiftl 1 (l mod 64).
Proof.
    pose proof (column_range l). rewrite Z.shiftl_1_l. apply u64_small.
    split; [apply Z.pow_nonneg; lia|]. apply Z.pow_lt_mono_r; lia.
Qed.

Lemma bit_clear r c : 0 <= c < 64 -> (Z.land r (u64 (Z.shiftl 1 c)) =? 0) = negb (Z.testbit r c).
Proof.
    intros Hc. pose proof (bit_mask_small c) as E. rewrite Z.mod_small in E by lia.
    rewrite E. apply land_pow2_testbit. lia.
Qed.

Lemma bit_mask_range l : 0 <= Z.shiftl 1 (l mod 64) < 2 ^ 64.
Proof. rewrite <- bit_mask_small. apply u64_range. Qed.

(** Two frames agree on their row and column only when they are equal. *)
Lemma same_frame l m : 0 <= l -> 0 <= m ->
    Z.to_nat (l / 64) = Z.to_nat (m / 64) -> l mod 64 = m mod 64 -> l = m.
Proof.
    intros Hl Hm Hr Hc.
    assert (0 <= l / 64) by (apply Z.div_pos; lia).
    assert (0 <= m / 64) by (apply Z.div_pos; lia).
    rewrite (Z.div_mod l 64), (Z.div_mod m 64) by lia. lia.
Qed.

Lemma frame_used_insert rows i v m :
    (i < length rows)%nat -> 0 <= m ->
    frame_used (<[i := v]> rows) m =
      if decide (Z.to_nat (m / 64) = i) then Z.testbit v (m mod 64) else frame_used rows m.
Proof.
    intros Hi Hm. unfold frame_used. case_decide as Hd.
    - subst i. by rewrite list_lookup_insert_eq.
    - by rewrite list_lookup_insert_ne.
Qed.

Lemma frame_used_mark rows l m :
    0 <= l < capacity rows -> 0 <= m ->
    frame_used (mark_frame l rows) m = (m =? l) || frame_used rows m.
Proof.
    intros Hl Hm. destruct (frame_row rows l Hl) as (r & Hr & Hu & Hlt).
    pose proof (column_range l). pose proof (column_range m).
    unfold mark_frame. rewrite Hr, frame_used_insert by lia. case_decide as Hd.
    - rewrite Z.lor_spec, testbit_shiftl1 by lia.
      unfold frame_used. rewrite Hd, Hr. rewrite orb_comm. f_equal.
      destruct (Z.eqb_spec m l) as [->|Hne]; [by rewrite Z.eqb_refl|].
      apply Z.eqb_neq. intros Hc. apply Hne. symmetry. apply same_frame; [lia|lia|done|done].
    - destruct (Z.eqb_spec m l) as [->|]; [done|done].
Qed.

Lemma frame_used_clear rows l m :
    0 <= l < capacity rows -> 0 <= m ->
    frame_used (clear_frame l rows) m = negb (m =? l) && frame_used rows m.
Proof.
    intros Hl Hm. destruct (frame_row rows l Hl) as (r & Hr & Hu & Hlt).
    pose proof (column_range l). pose proof (column_range m).
    unfold clear_frame. rewrite Hr, frame_used_insert by lia. case_decide as Hd.
    - rewrite Z.land_spec, testbit_not64, testbit_shiftl1 by lia.
      unfold frame_used. rewrite Hd, Hr, andb_comm. do 2 f_equal.
      destruct (Z.eqb_spec m l) as [->|Hne]; [by rewrite Z.eqb_refl|].
      apply Z.eqb_neq. intros Hc. apply Hne. symmetry. apply same_frame; [lia|lia|done|done].
    - destruct (Z.eqb_spec m l) as [->|]; [done|done].
Qed.

Lemma length_mark rows l : length (mark_frame l rows) = length rows.
Proof. unfold mark_frame. case_match; [apply length_insert|done]. Qed.
Lemma length_clear rows l : length (clear_frame l rows) = length rows.
Proof. unfold clear_frame. case_match; [apply length_insert|done]. Qed.
Lemma capacity_mark rows l : capacity (mark_frame l rows) = capacity rows.
Proof. unfold capacity. by rewrite length_mark. Qed.
Lemma capacity_clear rows l : capacity (clear_frame l rows) = capacity rows.
Proof. unfold capacity. by rewrite length_clear. Qed.

Lemma rows_ok_mark rows l : rows_ok rows -> rows_ok (mark_frame l rows).
Proof.
    intros Hok. unfold mark_frame. case_match eqn:Hr; [|done].
    apply Forall_insert; [done|]. apply lor_bound; [lia| |apply bit_mask_range].
    by apply (Forall_lookup_1 _ _ _ _ Hok Hr).
Qed.
Lemma rows_ok_clear rows l : rows_ok rows -> rows_ok (clear_frame l rows).
Proof.
    intros Hok. unfold clear_frame. case_match eqn:Hr; [|done].
    apply Forall_insert; [done|]. apply land_bound; [lia|].
    by apply (Forall_lookup_1 _ _ _ _ Hok Hr).
Qed.

Lemma used_set_mark rows l :
    0 <= l < capacity rows -> used_set (mark_frame l rows) = {[l]} ∪ used_set rows.
Proof.
    intros Hl. apply set_eq. intros m.
    rewrite elem_of_union, elem_of_singleton, !elem_of_used_set, capacity_mark.
    destruct (decide (0 <= m < capacity rows)) as [Hm|Hm]; [|split; intros; naive_solver lia].
    rewrite frame_used_mark, orb_true_iff, Z.eqb_eq by lia. naive_solver.
Qed.

Lemma used_set_clear rows l :
    0 <= l < capacity rows -> used_set (clear_frame l rows) = used_set rows ∖ {[l]}.
Proof.
    intros Hl. apply set_eq. intros m.
    rewrite elem_of_difference, elem_of_singleton, !elem_of_used_set, capacity_clear.
    destruct (decide (0 <= m < capacity rows)) as [Hm|Hm]; [|split; intros; naive_solver lia].
    rewrite frame_used_clear, andb_true_iff, negb_true_iff, Z.eqb_neq by lia. naive_solver.
Qed.
End Rows.
#[export] Hint Resolve rows_ok_mark rows_ok_clear column_range bit_mask_range : kernel.
#[export] Hint Rewrite length_mark length_clear capacity_mark capacity_clear : kernel.

(** ** What the bit operations do *)

Section BitOps.
  Implicit Types (b : bitmap_state) (l : Z).

Lemma get_row_run b i r :
    b.(memory_map) !! Z.to_nat i = Some r -> get_row i b = Ret (r, b).
Proof. intros Hr. unfold get_row, bind, get, lift_opt, ret. by rewrite Hr. Qed.

Lemma set_row_run b i v :
    i < Z.of_nat (length b.(memory_map)) ->
    set_row i v b = Ret (tt, set_memory_map (<[Z.to_nat i := v]> b.(memory_map)) b).
Proof.
    intros Hi. unfold set_row, bind, get.
    by destruct (Z.ltb_spec i (Z.of_nat (length b.(memory_map)))); [|lia].
Qed.

Lemma _bitmap_set_bit_run b l :
    0 <= l < capacity b.(memory_map) ->
    _bitmap_set_bit l b = Ret (tt, set_memory_map (mark_frame l b.(memory_map)) b).
Proof.
    intros Hl. destruct (frame_row b.(memory_map) l Hl) as (r & Hr & _ & Hlt).
    assert (0 <= l / 64) by (apply Z.div_pos; lia).
    unfold _bitmap_set_bit, BITMAP_ROW_BITS, ONE_64B, bind at 1. rewrite (get_row_run _ _ _ Hr).
    rewrite set_row_run by lia. unfold mark_frame. by rewrite Hr, bit_mask_small.
Qed.

Lemma _bitmap_free_bit_run b l :
    0 <= l < capacity b.(memory_map) ->
    _bitmap_free_bit l b = Ret (tt, set_memory_map (clear_frame l b.(memory_map)) b).
Proof.
    intros Hl. destruct (frame_row b.(memory_map) l Hl) as (r & Hr & _ & Hlt).
    assert (0 <= l / 64) by (apply Z.div_pos; lia).
    unfold _bitmap_free_bit, BITMAP_ROW_BITS, ONE_64B, bind at 1. rewrite (get_row_run _ _ _ Hr).
    rewrite set_row_run by lia. unfold clear_frame. by rewrite Hr, bit_mask_small.
Qed.

Lemma _bitmap_test_bit_run b l :
    0 <= l < capacity b.(memory_map) ->
    _bitmap_test_bit l b = Ret (frame_used b.(memory_map) l, b).
Proof.
    intros Hl. destruct (frame_row b.(memory_map) l Hl) as (r & Hr & Hu & Hlt).
    pose proof (column_range l).
    unfold _bitmap_test_bit, BITMAP_ROW_BITS, ONE_64B, bind. rewrite (get_row_run _ _ _ Hr).
    by rewrite bit_clear, negb_involutive, Hu by lia.
Qed.

Lemma _bitmap_set_bit_out_of_bounds b l :
    capacity b.(memory_map) <= l -> _bitmap_set_bit l b = Fault OutOfBounds.
Proof.
    unfold capacity. intros Hl. unfold _bitmap_set_bit, get_row, bind, get, BITMAP_ROW_BITS.
    assert (Z.of_nat (length b.(memory_map)) <= l / 64) by (apply Z.div_le_lower_bound; lia).
    by rewrite lookup_ge_None_2 by lia.
Qed.

Lemma bitmap_wf_set_rows b rows :
    bitmap_wf b -> rows_ok rows -> length rows = length b.(memory_map) ->
    bitmap_wf (set_memory_map rows b).
Proof. intros (? & Hn & ?) ? Hlen. unfold bitmap_wf. simpl. by rewrite Hlen. Qed.
End BitOps.

(** The three bit operations implement insertion, removal and membership on
    the set of used frames: they return on every frame of the bitmap, keep it well
    formed and touch nothing but its rows. *)
Theorem bitmap_bit_ops_refine (b : bitmap_state) (l : Z) :
  bitmap_wf b -> 0 <= l < capacity b.(memory_map) ->
  (exists b1, _bitmap_set_bit l b = Ret (tt, b1) /\ bitmap_wf b1 /\
     used_set b1.(memory_map) = {[l]} ∪ used_set b.(memory_map) /\
     b1 = set_memory_map b1.(memory_map) b) /\
  (exists b2, _bitmap_free_bit l b = Ret (tt, b2) /\ bitmap_wf b2 /\
     used_set b2.(memory_map) = used_set b.(memory_map) ∖ {[l]} /\
     b2 = set_memory_map b2.(memory_map) b) /\
  _bitmap_test_bit l b = Ret (bool_decide (l ∈ used_set b.(memory_map)), b).
Proof.
  intros Hwf Hl. pose proof Hwf as (Hok & _ & _). split; [|split].
  - eexists. rewrite _bitmap_set_bit_run by done. split; [done|]. simpl.
    rewrite used_set_mark by done. repeat split; try done.
    all: apply bitmap_wf_set_rows; auto using rows_ok_mark, length_mark.
  - eexists. rewrite _bitmap_free_bit_run by done. split; [done|]. simpl.
    rewrite used_set_clear by done. repeat split; try done.
    all: apply bitmap_wf_set_rows; auto using rows_ok_clear, length_clear.
  - rewrite _bitmap_test_bit_run by done. do 2 f_equal.
    apply eq_true_iff_eq. rewrite bool_decide_eq_true, elem_of_used_set. tauto.
Qed.

(** ** The first-fit searches *)

(** The scans skip a row whose value is [BITMAP_ENTRY_FULL]. *)
Definition row_visible (rows : list Z) (l : Z) : Prop :=
  rows !! Z.to_nat (l / 64) <> Some BITMAP_ENTRY_FULL.

Section Search.
  Implicit Types (b : bitmap_state).

Lemma request_frame_columns_spec r : forall n c,
    0 <= c -> c + Z.of_nat n = 64 ->
    match request_frame_columns n r c with
    | Some k => c <= k < 64 /\ Z.testbit r k = false /\ (forall j, c <= j < k -> Z.testbit r j = true)
    | None => forall j, c <= j < 64 -> Z.testbit r j = true
    end.
Proof.
    induction n as [|n IH]; intros c Hc Hn; simpl; [intros; lia|].
    unfold ONE_64B. rewrite bit_clear by lia.
    destruct (Z.testbit r c) eqn:Hb; simpl.
    - specialize (IH (c + 1) ltac:(lia) ltac:(lia)).
      destruct (request_frame_columns n r (c + 1)) as [k|].
      + destruct IH as (? & ? & IH). repeat split; [lia|lia|done|].
        intros j ?. destruct (decide (j = c)) as [->|]; [done|]. apply IH. lia.
      + intros j ?. destruct (decide (j = c)) as [->|]; [done|]. apply IH. lia.
    - repeat split; [lia|lia|done|]. intros; lia.
Qed.

(** The frame in row [i], column [k]. *)
Lemma frame_at i k : 0 <= k < 64 -> (i * 64 + k) / 64 = i /\ (i * 64 + k) mod 64 = k.
Proof.
    intros. split.
    - rewrite Z.div_add_l, Z.div_small by lia. lia.
    - rewrite Z.add_comm, Z_mod_plus_full. apply Z.mod_small. lia.
Qed.

Lemma frame_used_at rows i k r :
    0 <= i -> 0 <= k < 64 -> rows !! Z.to_nat i = Some r -> frame_used rows (i * 64 + k) = Z.testbit r k.
Proof.
    intros Hi Hk Hr. unfold frame_used. destruct (frame_at i k Hk) as [-> ->]. by rewrite Hr.
Qed.

Lemma frame_used_in_row rows i r l :
    0 <= i -> i * 64 <= l < (i + 1) * 64 -> rows !! Z.to_nat i = Some r ->
    l / 64 = i /\ frame_used rows l = Z.testbit r (l - i * 64).
Proof.
    intros Hi Hl Hr. replace l with (i * 64 + (l - i * 64)) at 1 2 by lia.
    split; [by apply frame_at; lia|]. by apply frame_used_at; [|lia|].
Qed.

(** Everything a scan has passed is in use or in a row it skipped. *)
Definition passed (rows : list Z) (n : Z) : Prop :=
    forall l, 0 <= l < n -> row_visible rows l -> frame_used rows l = true.

Lemma request_frame_rows_spec b :
    bitmap_wf b -> forall fuel row,
    0 <= row <= b.(number_of_entries) ->
    (Z.to_nat (b.(number_of_entries) - row) < fuel)%nat ->
    passed b.(memory_map) (row * 64) ->
    exists r, request_frame_rows fuel row b = Ret (r, b) /\
      (r = -1 /\ passed b.(memory_map) (capacity b.(memory_map)) \/
       0 <= r < capacity b.(memory_map) /\ frame_used b.(memory_map) r = false /\
       row_visible b.(memory_map) r /\ passed b.(memory_map) r).
Proof.
    intros (Hok & Hn & Hsmall). induction fuel as [|fuel IH]; intros row Hrow Hf Hpassed; [lia|].
    cbn [request_frame_rows]. unfold bind at 1, get.
    destruct (Z.ltb_spec row b.(number_of_entries)) as [Hlt|Hge].
    2:{ eexists. split; [done|]. left. split; [done|].
        unfold capacity. replace (64 * _) with (row * 64) by lia. done. }
    destruct (lookup_lt_is_Some_2 b.(memory_map) (Z.to_nat row) ltac:(lia)) as [v Hv].
    unfold bind at 1. rewrite (get_row_run _ _ _ Hv).
    assert (u16 (row + 1) = row + 1) as -> by (apply u16_small; lia).
    assert ((forall l, row * 64 <= l < (row + 1) * 64 -> row_visible b.(memory_map) l ->
              frame_used b.(memory_map) l = true) -> passed b.(memory_map) ((row + 1) * 64)) as Hstep.
    { intros Hr l ? ?. destruct (decide (l < row * 64)); [apply Hpassed; [lia|done]|]. apply Hr; [lia|done]. }
    destruct (Z.eqb_spec v BITMAP_ENTRY_FULL) as [->|Hvne]; cbn [negb].
    - apply IH; [lia|lia|]. apply Hstep. intros l Hl Hvis. exfalso. apply Hvis.
      destruct (frame_used_in_row _ row _ l ltac:(lia) Hl Hv) as [Hrl _]. by rewrite Hrl.
    - pose proof (request_frame_columns_spec v 64 0 ltac:(lia) ltac:(lia)) as Hcol.
      destruct (request_frame_columns 64 v 0) as [k|].
      + destruct Hcol as (Hk & Hfree & Hbefore). exists (row * 64 + k). split; [done|]. right.
        destruct (frame_at row k ltac:(lia)) as [Hdiv Hmod].
        split; [unfold capacity; lia|]. split; [by rewrite (frame_used_at _ row k v) by (done || lia)|].
        split; [unfold row_visible; rewrite Hdiv, Hv; congruence|].
        intros l Hl Hvis. destruct (decide (l < row * 64)); [apply Hpassed; [lia|done]|].
        destruct (frame_used_in_row _ row _ l ltac:(lia) ltac:(lia) Hv) as [_ ->]. apply Hbefore. lia.
      + apply IH; [lia|lia|]. apply Hstep. intros l Hl _.
        destruct (frame_used_in_row _ row _ l ltac:(lia) Hl Hv) as [_ ->]. apply Hcol. lia.
Qed.

Lemma request_frame_run b :
    bitmap_wf b ->
    exists r, _bitmap_request_frame b = Ret (r, b) /\
      (r = -1 /\ passed b.(memory_map) (capacity b.(memory_map)) \/
       0 <= r < capacity b.(memory_map) /\ frame_used b.(memory_map) r = false /\
       row_visible b.(memory_map) r /\ passed b.(memory_map) r).
Proof.
    intros Hwf. unfold _bitmap_request_frame, bind at 1, get.
    destruct Hwf as (? & ? & ?). apply request_frame_rows_spec; [by split|lia|lia|].
    intros l Hl. lia.
Qed.
End Search.

(** [_bitmap_request_frame] is first fit over the rows it looks at: it always
    returns, changes nothing, and gives the least free frame outside the rows equal
    to [BITMAP_ENTRY_FULL], or -1 when every such frame is in use. *)
Theorem _bitmap_request_frame_first_fit (b : bitmap_state) :
  bitmap_wf b ->
  exists r, _bitmap_request_frame b = Ret (r, b) /\
    ((r = -1 /\ forall l, 0 <= l < capacity b.(memory_map) -> row_visible b.(memory_map) l ->
                  l ∈ used_set b.(memory_map)) \/
     (0 <= r < capacity b.(memory_map) /\ r ∉ used_set b.(memory_map) /\ row_visible b.(memory_map) r /\
      forall l, 0 <= l < r -> row_visible b.(memory_map) l -> l ∈ used_set b.(memory_map))).
Proof.
  intros Hwf. destruct (request_frame_run b Hwf) as (r & Hrun & Hr).
  exists r. split; [done|]. destruct Hr as [[-> Hp]|(Hr & Hf & Hv & Hp)]; [left|right].
  - split; [done|]. intros l Hl Hvis. apply elem_of_used_set. auto.
  - repeat split; try lia; try done.
    + rewrite elem_of_used_set, Hf. naive_solver.
    + intros l Hl Hvis. apply elem_of_used_set. split; [lia|auto].
Qed.

(** A row with exactly its 60 low frames in use has the value
    [BITMAP_ENTRY_FULL], whose constant has 15 hexadecimal digits instead of 16:
    the search skips it although four of its frames are free. *)
Theorem request_frame_misses_free_frames :
  let b := mk_bitmap [2 ^ 60 - 1] 0 1 64 60 0 0 0 sample_map in
  bitmap_wf b /\ _bitmap_request_frame b = Ret (-1, b) /\ 60 ∉ used_set b.(memory_map) /\
  0 <= 60 < capacity b.(memory_map).
Proof.
  intros b. split; [|split; [vm_compute; reflexivity|split; [|done]]].
  - split; [|done]. apply Forall_singleton. simpl. lia.
  - rewrite elem_of_used_set. intros [_ H]. vm_compute in H. discriminate.
Qed.

Definition sample_bitmap : bitmap_state :=
  mk_bitmap [2 ^ 64 - 1; 0x4b; 0] 0xffff800280200000 3 129 68 0 0x10000000 0xffff800280200000 sample_map.

Lemma sample_bitmap_wf : bitmap_wf sample_bitmap.
Proof. split; [|done]. repeat (apply Forall_cons_2; [lia|]). apply Forall_nil_2. Qed.

Lemma bitmap_bit_ops_refine_witness :
  bitmap_wf sample_bitmap /\ 0 <= 66 < capacity sample_bitmap.(memory_map) /\
  _bitmap_test_bit 66 sample_bitmap = Ret (bool_decide (66 ∈ used_set sample_bitmap.(memory_map)), sample_bitmap).
Proof.
  assert (0 <= 66 < capacity sample_bitmap.(memory_map)) as Hl by (unfold capacity; simpl; lia).
  split; [exact sample_bitmap_wf|]. split; [exact Hl|].
  exact (proj2 (proj2 (bitmap_bit_ops_refine sample_bitmap 66 sample_bitmap_wf Hl))).
Defined.

Lemma _bitmap_request_frame_first_fit_witness :
  bitmap_wf sample_bitmap /\ _bitmap_request_frame sample_bitmap = Ret (66, sample_bitmap) /\
  exists r, _bitmap_request_frame sample_bitmap = Ret (r, sample_bitmap) /\
    ((r = -1 /\ forall l, 0 <= l < capacity sample_bitmap.(memory_map) ->
        row_visible sample_bitmap.(memory_map) l -> l ∈ used_set sample_bitmap.(memory_map)) \/
     (0 <= r < capacity sample_bitmap.(memory_map) /\ r ∉ used_set sample_bitmap.(memory_map) /\
      row_visible sample_bitmap.(memory_map) r /\
      forall l, 0 <= l < r -> row_visible sample_bitmap.(memory_map) l ->
        l ∈ used_set sample_bitmap.(memory_map))).
Proof.
  split; [exact sample_bitmap_wf|]. split; [vm_compute; reflexivity|].
  exact (_bitmap_request_frame_first_fit sample_bitmap sample_bitmap_wf).
Defined.

(** ** Contiguous frames *)

(** [n] free frames from [a] on. *)
Definition free_run (rows : list Z) (a n : Z) : Prop :=
  0 <= a /\ a + n <= capacity rows /\ forall i, a <= i < a + n -> frame_used rows i = false.

(** No row has the value the scans skip. *)
Definition no_skipped_row (rows : list Z) : Prop :=
  forall i : nat, rows !! i <> Some BITMAP_ENTRY_FULL.

(** The rows the scan looks at, and the frames it sees, numbered in its order: the
    [p]-th is in the row [p / 64] of those. *)
Definition kept_rows (rows : list Z) : list nat :=
  filter (fun i => rows !! i <> Some BITMAP_ENTRY_FULL) (seq 0 (length rows)).
Definition scan_frame (rows : list Z) (p : Z) : Z :=
  match kept_rows rows !! Z.to_nat (p / 64) with Some i => Z.of_nat i * 64 + p mod 64 | None => -1 end.
Definition scan_length (rows : list Z) : Z := 64 * Z.of_nat (length (kept_rows rows)).

(** [n] frames the scan sees one after the other, all free. *)
Definition scan_run (rows : list Z) (p n : Z) : Prop :=
  0 <= p /\ p + n <= scan_length rows /\ forall i, p <= i < p + n -> frame_used rows (scan_frame rows i) = false.

Section KeptRows.
Implicit Types (rows : list Z) (i k : nat).

(** How many rows are kept below [i]. *)
Definition kept_below rows i : nat := length (filter (fun j => rows !! j <> Some BITMAP_ENTRY_FULL) (seq 0 i)).

Lemma kept_below_S rows i :
  kept_below rows (S i) = (kept_below rows i + if decide (rows !! i <> Some BITMAP_ENTRY_FULL) then 1 else 0)%nat.
Proof.
  unfold kept_below. rewrite seq_S, filter_app, length_app. simpl. rewrite filter_cons, filter_nil. by case_decide.
Qed.

Lemma kept_rows_split rows i : (i < length rows)%nat ->
  kept_rows rows = filter (fun j => rows !! j <> Some BITMAP_ENTRY_FULL) (seq 0 i) ++
    filter (fun j => rows !! j <> Some BITMAP_ENTRY_FULL) (i :: seq (S i) (length rows - S i)).
Proof.
  intros Hi. unfold kept_rows. rewrite <- filter_app. f_equal.
  replace (length rows) with (i + S (length rows - S i))%nat at 1 by lia. by rewrite seq_app.
Qed.

Lemma kept_rows_lookup rows i : (i < length rows)%nat -> rows !! i <> Some BITMAP_ENTRY_FULL ->
  kept_rows rows !! kept_below rows i = Some i.
Proof.
  intros Hi Hv. rewrite (kept_rows_split rows i Hi), lookup_app_r by done. unfold kept_below. rewrite Nat.sub_diag.
  by rewrite filter_cons_True.
Qed.

Lemma kept_rows_inv rows k i : kept_rows rows !! k = Some i ->
  (i < length rows)%nat /\ rows !! i <> Some BITMAP_ENTRY_FULL /\ k = kept_below rows i.
Proof.
  intros Hk. pose proof (list_elem_of_lookup_2 _ _ _ Hk) as [Hv Hi%elem_of_seq]%list_elem_of_filter.
  split; [lia|]. split; [done|]. apply (NoDup_lookup (kept_rows rows) _ _ i); [apply NoDup_filter, NoDup_seq|done|].
  apply kept_rows_lookup; [lia|done].
Qed.

Lemma kept_below_all rows : length (kept_rows rows) = kept_below rows (length rows).
Proof. done. Qed.

Lemma kept_below_mono rows i j : (i <= j)%nat -> (kept_below rows i <= kept_below rows j)%nat.
Proof. induction 1 as [|m _ IH]; [done|]. etransitivity; [apply IH|]. rewrite kept_below_S. lia. Qed.
Lemma kept_below_le rows i : (i <= length rows)%nat -> (kept_below rows i <= length (kept_rows rows))%nat.
Proof. rewrite kept_below_all. apply kept_below_mono. Qed.

Lemma scan_frame_at rows i c : (i < length rows)%nat -> rows !! i <> Some BITMAP_ENTRY_FULL -> 0 <= c < 64 ->
  scan_frame rows (Z.of_nat (kept_below rows i) * 64 + c) = Z.of_nat i * 64 + c.
Proof.
  intros Hi Hv Hc. unfold scan_frame. destruct (frame_at (Z.of_nat (kept_below rows i)) c Hc) as [-> ->].
  by rewrite Nat2Z.id, kept_rows_lookup.
Qed.

(** A place of the scan is a frame. *)
Lemma scan_frame_inv rows p : 0 <= p < scan_length rows -> exists i,
  (i < length rows)%nat /\ rows !! i <> Some BITMAP_ENTRY_FULL /\ p / 64 = Z.of_nat (kept_below rows i) /\
  scan_frame rows p = Z.of_nat i * 64 + p mod 64.
Proof.
  unfold scan_length. intros Hp. assert (0 <= p / 64 < Z.of_nat (length (kept_rows rows))) as Hd
    by (split; [apply Z.div_pos; lia|apply Z.div_lt_upper_bound; lia]).
  destruct (lookup_lt_is_Some_2 (kept_rows rows) (Z.to_nat (p / 64))) as [i Hi]; [lia|]. exists i.
  destruct (kept_rows_inv _ _ _ Hi) as (H1 & H2 & H3). split; [done|]. split; [done|]. split; [lia|].
  unfold scan_frame. by rewrite Hi.
Qed.

Lemma scan_frame_range rows p : 0 <= p < scan_length rows -> 0 <= scan_frame rows p < capacity rows.
Proof. intros (i & Hi & _ & _ & ->)%scan_frame_inv. pose proof (column_range p). unfold capacity. lia. Qed.

(** The next frame comes next, unless a row is skipped in between. *)
Lemma scan_frame_next rows p : 0 <= p -> p + 1 < scan_length rows -> row_visible rows (scan_frame rows p + 1) ->
  scan_frame rows (p + 1) = scan_frame rows p + 1.
Proof.
  intros H0 Hp Hv. destruct (scan_frame_inv rows p) as (i & Hi & Hiv & Hk & E); [lia|]. rewrite E in Hv |- *.
  pose proof (column_range p). pose proof (Z.div_mod p 64 ltac:(lia)) as Ep. destruct (decide (p mod 64 = 63)) as [E63|].
  - pose proof (kept_below_S rows i) as HS. rewrite decide_True in HS by done.
    assert (p + 1 = Z.of_nat (kept_below rows (S i)) * 64 + 0) as Ep1 by lia.
    assert (S i < length rows)%nat as Hlt.
    { destruct (scan_frame_inv rows (p + 1)) as (j & Hj & _ & Hkj & _); [lia|].
      assert ((p + 1) / 64 = p / 64 + 1) as Ed by (clear -E63; Z.div_mod_to_equations; lia).
      destruct (decide (S i <= j)%nat); [lia|]. pose proof (kept_below_mono rows j i ltac:(lia)). lia. }
    unfold row_visible in Hv. assert ((Z.of_nat i * 64 + p mod 64 + 1) / 64 = Z.of_nat (S i)) as Ed by (rewrite E63; Z.div_mod_to_equations; lia).
    rewrite Ed, Nat2Z.id in Hv. rewrite Ep1, scan_frame_at; [lia|done|done|lia].
  - replace (p + 1) with (Z.of_nat (kept_below rows i) * 64 + (p mod 64 + 1)) by lia. rewrite scan_frame_at; [lia|done|done|lia].
Qed.

(** So a run of the scan that meets no skipped row is a run of adjacent frames. *)
Lemma scan_run_adjacent rows p n : 0 < n -> scan_run rows p n ->
  (forall l, scan_frame rows p <= l < scan_frame rows p + n -> row_visible rows l) -> free_run rows (scan_frame rows p) n.
Proof.
  intros Hn (H0 & Hl & Hfree) Hvis. pose proof (scan_frame_range rows p ltac:(lia)) as Hr.
  assert (forall j : nat, Z.of_nat j < n -> scan_frame rows (p + Z.of_nat j) = scan_frame rows p + Z.of_nat j) as Hat.
  { induction j as [|j IH]; intros Hj; [by rewrite !Z.add_0_r|]. specialize (IH ltac:(lia)).
    replace (p + Z.of_nat (S j)) with (p + Z.of_nat j + 1) by lia. rewrite scan_frame_next; [lia|lia|lia|]. rewrite IH. apply Hvis. lia. }
  assert (scan_frame rows p + n <= capacity rows) as Hcap.
  { specialize (Hat (Z.to_nat (n - 1)) ltac:(lia)). pose proof (scan_frame_range rows (p + Z.of_nat (Z.to_nat (n - 1))) ltac:(lia)). lia. }
  split; [lia|]. split; [lia|]. intros i Hi. specialize (Hat (Z.to_nat (i - scan_frame rows p)) ltac:(lia)).
  rewrite Z2Nat.id in Hat by lia. replace i with (scan_frame rows p + (i - scan_frame rows p)) by lia. rewrite <- Hat. apply Hfree. lia.
Qed.

(** Without skipped rows the scan sees every frame. *)
Lemma kept_below_no_skip rows i : no_skipped_row rows -> kept_below rows i = i.
Proof. intros Hs. induction i as [|i IH]; [done|]. rewrite kept_below_S, IH, decide_True by apply Hs. lia. Qed.

Lemma scan_no_skip rows : no_skipped_row rows -> scan_length rows = capacity rows /\ forall p, 0 <= p < capacity rows -> scan_frame rows p = p.
Proof.
  intros Hs. assert (scan_length rows = capacity rows) as El by (unfold scan_length; by rewrite kept_below_all, kept_below_no_skip).
  split; [done|]. intros p Hp. rewrite <- El in Hp. destruct (scan_frame_inv rows p Hp) as (i & _ & _ & Hk & ->).
  rewrite kept_below_no_skip in Hk by done. pose proof (Z.div_mod p 64 ltac:(lia)). lia.
Qed.

Lemma scan_run_no_skip rows p n : no_skipped_row rows -> scan_run rows p n <-> free_run rows p n.
Proof.
  intros Hs. destruct (scan_no_skip rows Hs) as [El Hat]. unfold scan_run, free_run. rewrite El.
  split; intros (H0 & Hl & Hf); (split; [done|split; [done|]]); intros i Hi; [rewrite <- (Hat i) by lia|rewrite (Hat i) by lia]; by apply Hf.
Qed.
End KeptRows.

Section ContiguousSearch.
  Context (rows : list Z) (n : Z).
  Hypothesis rows_small : capacity rows < 2 ^ 64.
  Hypothesis n_pos : 0 < n.

(** The state of the scan after the first [p] frames it sees: the run it is following
      is the longest one that ends there, and no run of [n] ends there or before. *)
Definition scan_inv (p : Z) (r : run_state) : Prop :=
    let a := r.(adjacents_found) in
    0 <= a <= p /\ a < n /\
    (forall i, p - a <= i < p -> frame_used rows (scan_frame rows i) = false) /\
    (a = p \/ frame_used rows (scan_frame rows (p - a - 1)) = true) /\
    (0 < a -> r.(start_row) * 64 + r.(start_column) = scan_frame rows (p - a)) /\
    (forall s, s + n <= p -> ~ scan_run rows s n).

(** What the search gives: the frame where its first run starts. *)
Definition scan_found (start : Z) : Prop :=
  exists p, start = scan_frame rows p /\ scan_run rows p n /\ forall q, q < p -> ~ scan_run rows q n.

Lemma scan_length_le : scan_length rows <= capacity rows.
Proof. unfold scan_length, capacity. pose proof (length_filter (fun i => rows !! i <> Some BITMAP_ENTRY_FULL) (seq 0 (length rows))) as Hl. rewrite length_seq in Hl. unfold kept_rows. lia. Qed.

Lemma scan_step (p row c : Z) (used : bool) (r : run_state) :
    0 <= p < scan_length rows -> scan_frame rows p = row * 64 + c -> frame_used rows (row * 64 + c) = used ->
    scan_inv p r ->
    if used
    then scan_inv (p + 1) (mk_run 0 r.(start_row) r.(start_column))
    else
      let r1 := if r.(adjacents_found) =? 0 then mk_run r.(adjacents_found) row c else r in
      let found := u64 (r1.(adjacents_found) + 1) in
      if found =? n then scan_found (r1.(start_row) * 64 + r1.(start_column))
      else scan_inv (p + 1) (mk_run found r1.(start_row) r1.(start_column)).
Proof.
    intros Hp Hat Hbit ((Ha0 & Hap) & Han & Hfree & Hstop & Hstart & Hnone). rewrite <- Hat in Hbit. pose proof scan_length_le.
    assert (forall i, i <= p -> frame_used rows (scan_frame rows i) = true -> forall s, s <= i < s + n -> ~ scan_run rows s n) as Hno
      by (intros i Hi Hu s Hs (_ & _ & Hf); rewrite Hf in Hu by lia; done).
    destruct used.
    - repeat split; simpl; try lia.
      + replace (p + 1 - 0 - 1) with p by lia. by right.
      + intros s Hs. destruct (decide (s + n <= p)); [by apply Hnone|]. apply (Hno p); [lia|done|lia].
    - assert (exists sr sc, (if r.(adjacents_found) =? 0 then mk_run r.(adjacents_found) row c else r)
                = mk_run r.(adjacents_found) sr sc /\ sr * 64 + sc = scan_frame rows (p - r.(adjacents_found)))
        as (sr & sc & -> & Hsc).
      { destruct (Z.eqb_spec r.(adjacents_found) 0) as [H0|].
        - exists row, c. split; [done|]. by rewrite H0, Z.sub_0_r, Hat.
        - exists r.(start_row), r.(start_column). split; [by destruct r|]. apply Hstart. lia. }
      simpl. rewrite u64_small by lia. set (a := r.(adjacents_found)) in *.
      assert (forall i, p - a <= i <= p -> frame_used rows (scan_frame rows i) = false) as Hfree'
        by (intros i Hi; destruct (decide (i = p)) as [->|]; [done|]; apply Hfree; lia).
      destruct (Z.eqb_spec (a + 1) n) as [Heq|Hne].
      + exists (p - a). split; [done|]. split; [split; [lia|split; [lia|intros i Hi; apply Hfree'; lia]]|]. intros s Hs. apply Hnone. lia.
      + repeat split; simpl; try lia.
        * intros i Hi. apply Hfree'. lia.
        * destruct Hstop as [|Hstop]; [left; lia|right].
          by replace (p + 1 - (a + 1) - 1) with (p - a - 1) by lia.
        * intros _. by replace (p + 1 - (a + 1)) with (p - a) by lia.
        * intros s Hs. destruct (decide (s + n <= p)); [by apply Hnone|]. destruct Hstop as [|Hstop]; [intros (? & _); lia|].
          apply (Hno (p - a - 1)); [lia|done|lia].
Qed.

Lemma request_frames_columns_spec (i : nat) (v : Z) :
    rows !! i = Some v -> v <> BITMAP_ENTRY_FULL ->
    let row := Z.of_nat i in let p0 := Z.of_nat (kept_below rows i) * 64 in
    forall m c r, 0 <= c -> c + Z.of_nat m = 64 -> scan_inv (p0 + c) r ->
    match request_frames_columns m n row v c r with
    | inl start => scan_found start
    | inr r' => scan_inv (p0 + 64) r'
    end.
Proof.
    intros Hv Hne row p0. pose proof (lookup_lt_Some _ _ _ Hv) as Hi.
    assert (rows !! i <> Some BITMAP_ENTRY_FULL) as Hvis by congruence.
    assert (p0 + 64 <= scan_length rows) as Hp0.
    { pose proof (kept_below_le rows (S i) ltac:(lia)) as Hle. rewrite kept_below_S, decide_True in Hle by done.
      unfold p0, scan_length. lia. }
    induction m as [|m IH]; intros c r Hc Hm Hinv; cbn [request_frames_columns].
    - by replace (p0 + 64) with (p0 + c) by lia.
    - assert (frame_used rows (row * 64 + c) = Z.testbit v c) as Hbit
        by (apply frame_used_at; [lia|lia|unfold row; by rewrite Nat2Z.id]).
      pose proof (scan_step (p0 + c) row c (Z.testbit v c) r ltac:(lia) (scan_frame_at rows i c Hi Hvis ltac:(lia)) Hbit Hinv) as Hstep.
      unfold ONE_64B, BITMAP_ROW_BITS. rewrite bit_clear by lia.
      specialize (IH (c + 1)). replace (p0 + (c + 1)) with (p0 + c + 1) in IH by lia.
      destruct (Z.testbit v c); cbn [negb].
      + apply IH; [lia|lia|done].
      + simpl in Hstep. destruct (_ =? n); [done|]. apply IH; [lia|lia|done].
Qed.

Lemma request_frames_rows_spec (b : bitmap_state) :
    bitmap_wf b -> b.(memory_map) = rows ->
    forall fuel (i : nat) r,
    (i <= length rows)%nat -> (length rows - i < fuel)%nat ->
    scan_inv (Z.of_nat (kept_below rows i) * 64) r ->
    exists start, request_frames_rows fuel n (Z.of_nat i) r b = Ret (start, b) /\
      (start = -1 /\ (forall p, ~ scan_run rows p n) \/ scan_found start).
Proof.
    intros (Hok & Hn & Hsmall) Hrows. rewrite Hrows in Hn. induction fuel as [|fuel IH]; intros i r Hi Hf Hinv; [lia|].
    cbn [request_frames_rows]. unfold bind at 1, get.
    destruct (Z.ltb_spec (Z.of_nat i) b.(number_of_entries)) as [Hlt|Hge].
    2:{ eexists. split; [done|]. left. split; [done|]. intros p Hp.
        assert (i = length rows) as -> by lia. destruct Hinv as (_ & _ & _ & _ & _ & Hnone). apply (Hnone p); [|done].
        destruct Hp as (_ & Hl & _). unfold scan_length in Hl. rewrite kept_below_all in Hl. lia. }
    destruct (lookup_lt_is_Some_2 rows i ltac:(lia)) as [v Hv].
    unfold bind at 1. rewrite (get_row_run _ _ v) by (by rewrite Hrows, Nat2Z.id).
    assert (u16 (Z.of_nat i + 1) = Z.of_nat (S i)) as -> by (rewrite u16_small by lia; lia).
    pose proof (kept_below_S rows i) as Hk.
    destruct (Z.eqb_spec v BITMAP_ENTRY_FULL) as [->|Hvne]; cbn [negb].
    - rewrite decide_False in Hk by (intros Hc; by apply Hc). apply IH; [lia|lia|]. by rewrite Hk, Nat.add_0_r.
    - rewrite decide_True in Hk by congruence.
      pose proof (request_frames_columns_spec i v Hv Hvne 64 0 r ltac:(lia) ltac:(lia)) as Hcol. cbv zeta in Hcol.
      rewrite Z.add_0_r in Hcol. specialize (Hcol Hinv).
      destruct (request_frames_columns 64 n (Z.of_nat i) v 0 r) as [start|r'].
      + exists start. split; [done|]. by right.
      + apply IH; [lia|lia|]. rewrite Hk. by replace (Z.of_nat (kept_below rows i + 1) * 64) with (Z.of_nat (kept_below rows i) * 64 + 64) by lia.
Qed.
End ContiguousSearch.

(** What [_bitmap_request_frames_first_fit] below says of the scan. *)
Lemma request_frames_scan (b : bitmap_state) (n : Z) :
  bitmap_wf b -> 0 < n ->
  exists start, _bitmap_request_frames n b = Ret (start, b) /\
    (start = -1 /\ (forall p, ~ scan_run b.(memory_map) p n) \/ scan_found b.(memory_map) n start).
Proof.
  intros Hwf Hn. pose proof Hwf as (_ & He & Hs).
  assert (capacity b.(memory_map) < 2 ^ 64) as Hcap by (unfold capacity; lia).
  unfold _bitmap_request_frames, bind at 1, get.
  apply (request_frames_rows_spec _ n Hcap Hn b Hwf eq_refl _ 0%nat); [lia|lia|].
  repeat split; simpl; try lia; [by left|]. intros s Hle (? & _). change (kept_below b.(memory_map) 0) with 0%nat in Hle. lia.
Qed.

(** With no row to skip it is first fit on the frames themselves. *)
Lemma request_frames_run (b : bitmap_state) (n : Z) :
  bitmap_wf b -> no_skipped_row b.(memory_map) -> 0 < n ->
  exists start, _bitmap_request_frames n b = Ret (start, b) /\
    (start = -1 /\ (forall s, ~ free_run b.(memory_map) s n) \/
     free_run b.(memory_map) start n /\ forall s, s < start -> ~ free_run b.(memory_map) s n).
Proof.
  intros Hwf Hskip Hn. destruct (request_frames_scan b n Hwf Hn) as (start & Hrun & Hcase). exists start. split; [done|].
  destruct Hcase as [[-> Hnone]|(p & -> & Hp & Hfirst)].
  - left. split; [done|]. intros s. rewrite <- scan_run_no_skip by done. apply Hnone.
  - right. pose proof Hp as (H0 & Hl & _). destruct (scan_no_skip _ Hskip) as [El Hat].
    rewrite Hat by lia. split; [by apply scan_run_no_skip|]. intros s Hs. rewrite <- scan_run_no_skip by done. by apply Hfirst.
Qed.

(** C37: [_bitmap_request_frames], on any well-formed bitmap and for any positive number
    [n] of frames. It is first fit over the frames its scan sees, which are those outside
    the rows equal to [BITMAP_ENTRY_FULL]: it returns the first of the earliest [n]
    that the scan sees one after the other all free, or -1 when there are no such [n].
    The frames are adjacent, and all free, when no row of that value lies among the
    [n] from the one returned on, so whenever the bitmap has none. When one does, the run
    goes on behind that row, and some of the [n] frames from the one returned on are in use. *)
Theorem _bitmap_request_frames_first_fit (b : bitmap_state) (n : Z) :
  bitmap_wf b -> 0 < n -> let rows := b.(memory_map) in
  exists start, _bitmap_request_frames n b = Ret (start, b) /\
    (start = -1 /\ (forall p, ~ scan_run rows p n) \/
     exists p, start = scan_frame rows p /\ scan_run rows p n /\ (forall q, q < p -> ~ scan_run rows q n) /\
       ((forall l, start <= l < start + n -> row_visible rows l) -> free_run rows start n) /\
       (forall l, start <= l < start + n -> rows !! Z.to_nat (l / 64) = Some BITMAP_ENTRY_FULL ->
          exists m, start <= m < start + n /\ m ∈ used_set rows)) /\
    (no_skipped_row rows ->
     start = -1 /\ (forall s, ~ free_run rows s n) \/
     free_run rows start n /\ forall s, s < start -> ~ free_run rows s n).
Proof.
  intros Hwf Hn. cbv zeta. destruct (request_frames_scan b n Hwf Hn) as (start & Hrun & Hcase). exists start. split; [done|]. split.
  - destruct Hcase as [?|(p & -> & Hp & Hfirst)]; [by left|right]. exists p. split; [done|]. split; [done|]. split; [done|].
    split; [by apply scan_run_adjacent|]. intros l Hl Hfull. pose proof Hp as (H0 & Hpl & _).
    destruct (scan_frame_inv b.(memory_map) p ltac:(lia)) as (i & Hi & Hvis & _ & E). pose proof (column_range p).
    pose proof (lookup_lt_Some _ _ _ Hfull). assert (0 <= l / 64) by (apply Z.div_pos; lia). pose proof (Z.div_mod l 64 ltac:(lia)). pose proof (column_range l).
    assert (Z.of_nat i < l / 64) as Hrow by (assert (Z.of_nat i <> l / 64) by (intros Ei; apply Hvis; rewrite <- Hfull; f_equal; lia); lia).
    exists (l / 64 * 64 + 0). split; [lia|]. apply elem_of_used_set. split; [unfold capacity; lia|].
    by rewrite (frame_used_at b.(memory_map) (l / 64) 0 BITMAP_ENTRY_FULL) by (done || lia).
  - intros Hskip. destruct (request_frames_run b n Hwf Hskip Hn) as (start' & Hrun' & Hcase'). rewrite Hrun in Hrun'. by injection Hrun' as <-.
Qed.

(** Three free frames of the sample, from frame 71 on. *)
Lemma _bitmap_request_frames_first_fit_witness :
  let rows := sample_bitmap.(memory_map) in
  bitmap_wf sample_bitmap /\ 0 < 3 /\ _bitmap_request_frames 3 sample_bitmap = Ret (71, sample_bitmap) /\
  exists start, _bitmap_request_frames 3 sample_bitmap = Ret (start, sample_bitmap) /\
    (start = -1 /\ (forall p, ~ scan_run rows p 3) \/
     exists p, start = scan_frame rows p /\ scan_run rows p 3 /\ (forall q, q < p -> ~ scan_run rows q 3) /\
       ((forall l, start <= l < start + 3 -> row_visible rows l) -> free_run rows start 3) /\
       (forall l, start <= l < start + 3 -> rows !! Z.to_nat (l / 64) = Some BITMAP_ENTRY_FULL ->
          exists m, start <= m < start + 3 /\ m ∈ used_set rows)) /\
    (no_skipped_row rows ->
     start = -1 /\ (forall s, ~ free_run rows s 3) \/
     free_run rows start 3 /\ forall s, s < start -> ~ free_run rows s 3).
Proof.
  split; [exact sample_bitmap_wf|]. split; [lia|]. split; [vm_compute; reflexivity|].
  exact (_bitmap_request_frames_first_fit sample_bitmap 3 sample_bitmap_wf ltac:(lia)).
Defined.

(** A run that goes on behind a skipped row: the scan takes frame 63 and frame 128 for
    neighbours, and the two frames it returns are 63 and 64, of which 64 is in use. *)
Definition skipping_bitmap : bitmap_state := set_memory_map [2 ^ 63 - 1; BITMAP_ENTRY_FULL; 0] sample_bitmap.

Lemma skipping_bitmap_wf : bitmap_wf skipping_bitmap.
Proof. split; [|done]. repeat (apply Forall_cons_2; [unfold BITMAP_ENTRY_FULL; lia|]). apply Forall_nil_2. Qed.

Example request_frames_over_skipped_row :
  _bitmap_request_frames 2 skipping_bitmap = Ret (63, skipping_bitmap) /\ 64 ∈ used_set skipping_bitmap.(memory_map).
Proof. split; [by vm_compute|]. by apply elem_of_used_set. Qed.

(** ** Initialisation *)

Lemma fill_step (v : Z) (rows : list Z) (j : nat) :
  (j < length rows)%nat ->
  <[j := v]> (replicate j v ++ drop j rows) = replicate (Datatypes.S j) v ++ drop (Datatypes.S j) rows.
Proof.
  intros Hj. destruct (lookup_lt_is_Some_2 rows j Hj) as [x Hx].
  rewrite (drop_S _ _ _ Hx). rewrite insert_app_r_alt by (rewrite length_replicate; lia).
  by rewrite length_replicate, Nat.sub_diag, replicate_S_end, <- app_assoc.
Qed.

Lemma fill_rows_run (v : Z) (n : nat) (b : bitmap_state) :
  (n <= length b.(memory_map))%nat ->
  for_upto (Z.of_nat n) (fun i => set_row i v) b =
    Ret (tt, set_memory_map (replicate n v ++ drop n b.(memory_map)) b).
Proof.
  intros Hn. apply wp_eq. unfold for_upto. rewrite Nat2Z.id.
  eapply (wp_for_from (fun j b' => b' = set_memory_map
    (replicate (Z.to_nat j) v ++ drop (Z.to_nat j) b.(memory_map)) b)).
  - simpl. rewrite drop_0. by destruct b.
  - intros j t Hj ->. apply wp_run. eexists _, _. split.
    { apply set_row_run. simpl. rewrite length_app, length_replicate, length_drop. lia. }
    simpl. rewrite fill_step by lia. by replace (Z.to_nat (j + 1)) with (Datatypes.S (Z.to_nat j)) by lia.
  - intros t ->. rewrite Z.add_0_l, Nat2Z.id. done.
Qed.

(** The low [k] bits, as [~(~0 << k)] computes them. *)
Lemma low_bits_mask (k : Z) : 0 <= k < 64 ->
  not64 (u64 (Z.shiftl (not64 0) k)) = Z.ones k.
Proof.
  intros Hk. apply Z.bits_inj'. intros i Hi.
  rewrite Z.testbit_ones_nonneg by lia. unfold not64. rewrite Z.lxor_spec.
  replace (2 ^ 64 - 1) with (Z.ones 64) by done. rewrite Z.lxor_0_l.
  rewrite (Z.testbit_ones_nonneg 64) by lia. unfold u64.
  destruct (Z.ltb_spec i 64) as [Hlt|Hge].
  - rewrite Z.mod_pow2_bits_low, Z.shiftl_spec by lia.
    destruct (Z.ltb_spec i k).
    + by rewrite Z.testbit_neg_r by lia.
    + rewrite Z.ones_spec_low by lia. done.
  - rewrite Z.mod_pow2_bits_high by lia. by destruct (Z.ltb_spec i k); [lia|].
Qed.

(** The rows a fresh bitmap has when its [k] first frames are in use. *)
Definition fresh_rows (n k : Z) : list Z :=
  <[Z.to_nat (k / 64) := Z.ones (k mod 64)]>
    (replicate (Z.to_nat (k / 64)) (2 ^ 64 - 1) ++ replicate (Z.to_nat n - Z.to_nat (k / 64)) 0).

Section FreshRows.
  Context (n k : Z).
  Hypothesis Hk : 0 <= k < 64 * n.

Local Lemma fresh_div : 0 <= k / 64 < n.
Proof. split; [apply Z.div_pos; lia|apply Z.div_lt_upper_bound; lia]. Qed.

Lemma length_fresh_rows : length (fresh_rows n k) = Z.to_nat n.
Proof.
    pose proof fresh_div. unfold fresh_rows.
    rewrite length_insert, length_app, !length_replicate. lia.
Qed.

Lemma lookup_fresh_rows (i : nat) :
    (i < Z.to_nat n)%nat ->
    fresh_rows n k !! i =
      Some (if decide (i < Z.to_nat (k / 64))%nat then 2 ^ 64 - 1
            else if decide (i = Z.to_nat (k / 64)) then Z.ones (k mod 64) else 0).
Proof.
    pose proof fresh_div. intros Hi. unfold fresh_rows.
    destruct (decide (i = Z.to_nat (k / 64))) as [->|Hne].
    - rewrite decide_False by lia.
      rewrite list_lookup_insert_eq; [done|]. rewrite length_app, !length_replicate. lia.
    - rewrite list_lookup_insert_ne by done. case_decide.
      + rewrite lookup_app_l by (rewrite length_replicate; lia). by rewrite lookup_replicate_2 by lia.
      + rewrite lookup_app_r by (rewrite length_replicate; lia).
        by rewrite lookup_replicate_2 by (rewrite length_replicate; lia).
Qed.

Lemma ones_range (j : Z) : 0 <= j < 64 -> 0 <= Z.ones j < 2 ^ 64.
Proof.
    intros Hj. rewrite Z.ones_equiv. assert (0 < 2 ^ j <= 2 ^ 64); [|lia].
    split; [apply Z.pow_pos_nonneg; lia|apply Z.pow_le_mono_r; lia].
Qed.

Lemma fresh_rows_ok : rows_ok (fresh_rows n k).
Proof.
    apply Forall_lookup_2. intros i r Hr.
    assert (i < Z.to_nat n)%nat as Hi.
    { rewrite <- length_fresh_rows. by eapply lookup_lt_Some. }
    rewrite lookup_fresh_rows in Hr by done. pose proof (column_range k).
    pose proof (ones_range (k mod 64)). repeat case_decide; simplify_eq; lia.
Qed.

Lemma frame_used_fresh (l : Z) :
    0 <= l < 64 * n -> frame_used (fresh_rows n k) l = (l <? k).
Proof.
    intros Hl. pose proof fresh_div. pose proof (column_range l). pose proof (column_range k).
    pose proof (Z.div_mod l 64 ltac:(lia)). pose proof (Z.div_mod k 64 ltac:(lia)).
    assert (0 <= l / 64 < n) by (split; [apply Z.div_pos; lia|apply Z.div_lt_upper_bound; lia]).
    unfold frame_used. rewrite lookup_fresh_rows by lia.
    replace (2 ^ 64 - 1) with (Z.ones 64) by done.
    case_decide; [|case_decide].
    - rewrite Z.testbit_ones_nonneg by lia.
      destruct (Z.ltb_spec (l mod 64) 64), (Z.ltb_spec l k); lia.
    - rewrite Z.testbit_ones_nonneg by lia.
      destruct (Z.ltb_spec (l mod 64) (k mod 64)), (Z.ltb_spec l k); lia.
    - rewrite Z.testbit_0_l. destruct (Z.ltb_spec l k); lia.
Qed.

Lemma used_set_fresh : used_set (fresh_rows n k) = list_to_set (seqZ 0 k).
Proof.
    apply set_eq. intros l. rewrite elem_of_used_set, elem_of_list_to_set, elem_of_seqZ.
    unfold capacity. rewrite length_fresh_rows.
    destruct (decide (0 <= l < 64 * n)) as [Hl|]; [|split; lia].
    rewrite frame_used_fresh by done. rewrite Z.ltb_lt. lia.
Qed.

Lemma size_used_fresh : Z.of_nat (size (used_set (fresh_rows n k))) = k.
Proof.
    rewrite used_set_fresh, size_list_to_set by apply NoDup_seqZ. rewrite length_seqZ. lia.
Qed.
End FreshRows.

Section Initialisation.
  Context `{PageConfig}.

(** The entries reserved for the kernel cover the area they are computed from. *)
Lemma kernel_entries_cover (area : Z) :
    0 <= area -> area / PAGE_SIZE_IN_BYTES + 2 < 2 ^ 32 ->
    0 < _compute_kernel_entries area /\ area < _compute_kernel_entries area * PAGE_SIZE_IN_BYTES.
Proof.
    pose proof page_size_bounds. intros Ha Hs. unfold _compute_kernel_entries.
    assert (0 <= area / PAGE_SIZE_IN_BYTES) by (apply Z.div_pos; lia).
    pose proof (div_bounds area PAGE_SIZE_IN_BYTES).
    rewrite (u32_small (area / PAGE_SIZE_IN_BYTES)) by lia.
    set (q := area / PAGE_SIZE_IN_BYTES) in *.
    destruct (negb _); rewrite u32_small by lia; split; nia.
Qed.

Lemma initialize_rows_run (b : bitmap_state) (entries k : Z) :
    Z.of_nat (length b.(memory_map)) = entries -> 0 <= k < 64 * entries ->
    (do! for_upto entries (fun i => set_row i ZERO_64B) in
     do! for_upto (k / 64) (fun j => set_row j (u64 (-1))) in
     do! set_row (k / 64) (not64 (u64 (Z.shiftl (not64 ZERO_64B) (k - k / 64 * 64)))) in
     modify (set_used_frames k)) b =
    Ret (tt, set_used_frames k (set_memory_map (fresh_rows entries k) b)).
Proof.
    intros Hlen Hk.
    assert (0 <= k / 64 < entries) by (split; [apply Z.div_pos; lia|apply Z.div_lt_upper_bound; lia]).
    unfold ZERO_64B. rewrite <- Hlen at 1. unfold bind at 1. rewrite fill_rows_run by lia.
    rewrite drop_all, app_nil_r. unfold bind at 1.
    replace (k / 64) with (Z.of_nat (Z.to_nat (k / 64))) at 1 by lia.
    rewrite fill_rows_run by (simpl; rewrite length_replicate; lia).
    simpl memory_map. unfold bind at 1. rewrite set_row_run.
    2:{ simpl. rewrite length_app, length_drop, !length_replicate. lia. }
    unfold modify. do 2 f_equal. unfold set_used_frames, set_memory_map. simpl. f_equal.
    unfold fresh_rows. f_equal.
    - replace (k - k / 64 * 64) with (k mod 64) by (rewrite Z.mod_eq; lia).
      apply low_bits_mask. apply column_range.
    - rewrite drop_replicate. do 2 f_equal. lia.
Qed.
End Initialisation.

(** The rows take at most seven bytes more than were asked for. *)
Lemma rows_overrun (size : Z) : 0 <= size -> size / 8 + 1 <= 8 * (size / 64 + 1) <= size / 8 + 1 + 7.
Proof. intros Hs. Z.div_mod_to_equations. lia. Qed.

(** C38: after [_initialize_bitmap] the bitmap is well formed, the frames in use are
    exactly the first [_compute_kernel_entries] ones, which cover the reserved
    area, and [used_frames] counts them; the global [memory_map_phys_addr], which a
    local variable of the function shadows, keeps its old value. The bytes of the rows,
    which are up to seven more than were asked for, have to be in the direct map. When
    the region found is not in it, [hhdm_get_variable] gives NULL and the first row
    is written there. *)
Theorem _initialize_bitmap_reserves_kernel `{PageConfig}
    (b : bitmap_state) (raw : list Z) (memory_size area region : Z) :
  let size := memory_size / PAGE_SIZE_IN_BYTES + 1 in
  let entries := size / 64 + 1 in
  let k := _compute_kernel_entries area in
  0 <= memory_size -> entries < 2 ^ 16 -> Z.of_nat (length raw) = entries ->
  0 <= area -> area / PAGE_SIZE_IN_BYTES + 2 < 2 ^ 32 -> k < 64 * entries ->
  _mmap_determine_bitmap_region area (size / 8 + 1) b.(bm_mmap) = Ret (region, b.(bm_mmap)) ->
  (b.(memory_size_in_bytes) <= region -> _initialize_bitmap raw memory_size area b = Fault NullDeref) /\
  (0 <= region -> region + 8 * entries <= b.(memory_size_in_bytes) ->
   0 < b.(higherHalfDirectMapBase) -> b.(higherHalfDirectMapBase) + b.(memory_size_in_bytes) <= 2 ^ 64 ->
   exists b', _initialize_bitmap raw memory_size area b = Ret (tt, b') /\
    bitmap_wf b' /\ b'.(bitmap_size) = size /\ b'.(memory_map_addr) = region + b.(higherHalfDirectMapBase) /\
    (forall l, l ∈ used_set b'.(memory_map) <-> 0 <= l < k) /\
    b'.(used_frames) = k /\ Z.of_nat (base.size (used_set b'.(memory_map))) = k /\
    area < k * PAGE_SIZE_IN_BYTES /\
    b'.(memory_map_phys_addr) = b.(memory_map_phys_addr)).
Proof.
  intros size entries k Hm He Hraw Ha Hs Hk Hregion. pose proof page_size_bounds.
  destruct (kernel_entries_cover area Ha Hs) as [Hk0 Hcover].
  assert (0 <= memory_size / PAGE_SIZE_IN_BYTES) by (apply Z.div_pos; lia).
  assert (0 <= size / 64 < 2 ^ 16) by (split; [apply Z.div_pos; lia|lia]).
  assert (0 <= size < 2 ^ 32) by (pose proof (div_bounds size 64); lia).
  set (virt := hhdm_translate b.(memory_size_in_bytes) b.(higherHalfDirectMapBase) region).
  set (b1 := set_memory_map_addr raw virt (set_used_frames 0 (set_geometry entries size b))).
  assert (_initialize_bitmap raw memory_size area b =
    if virt =? 0 then Fault NullDeref else Ret (tt, set_used_frames k (set_memory_map (fresh_rows entries k) b1))) as Hrun.
  { unfold _initialize_bitmap. fold size. rewrite (u32_small size) by lia. fold entries.
    rewrite (u32_small entries) by lia. unfold bind at 1, modify at 1.
    unfold bind at 1, zoom. simpl bm_mmap. rewrite Hregion.
    unfold bind at 1, hhdm_get_variable, gets. unfold bind at 1, modify at 1. cbn [memory_size_in_bytes higherHalfDirectMapBase
      set_bm_mmap set_used_frames set_geometry]. fold virt. destruct (virt =? 0); [done|].
    rewrite (bind_run _ _ _ _ _ (eq_refl : ret tt _ = Ret (tt, _))).
    fold k. rewrite initialize_rows_run; [by destruct b|done|lia]. }
  rewrite Hrun. unfold virt, hhdm_translate. split.
  - intros Hout. by destruct (Z.ltb_spec region b.(memory_size_in_bytes)); [lia|].
  - intros Hr0 Hin Hb0 Hb1. destruct (Z.ltb_spec region b.(memory_size_in_bytes)); [|lia]. rewrite u64_small by lia.
    destruct (Z.eqb_spec (region + b.(higherHalfDirectMapBase)) 0); [lia|].
    eexists. split; [reflexivity|]. simpl. split_and!.
    + split_and!; simpl; [by apply fresh_rows_ok; lia| |lia].
      rewrite length_fresh_rows by lia. lia.
    + done.
    + unfold virt, hhdm_translate. destruct (Z.ltb_spec region b.(memory_size_in_bytes)); [|lia]. by rewrite u64_small by lia.
    + intros l. rewrite used_set_fresh by lia. rewrite elem_of_list_to_set, elem_of_seqZ. lia.
    + done.
    + apply size_used_fresh. lia.
    + done.
    + done.
Qed.

(** The bitmap before initialisation: a machine with the memory of [sample_map]. *)
Definition blank_bitmap : bitmap_state :=
  mk_bitmap [] 0 0 0 0 0 0x40000000 0xffff800280200000 sample_map.

Lemma _initialize_bitmap_reserves_kernel_witness :
  exists b', @_initialize_bitmap large_pages (replicate 9 7) 0x3ff7fc00 0x600000 blank_bitmap = Ret (tt, b') /\
    bitmap_wf b' /\ b'.(bitmap_size) = 512 /\ (forall l, l ∈ used_set b'.(memory_map) <-> 0 <= l < 4) /\
    b'.(memory_map_addr) = 0xffff800280800000 /\ b'.(memory_map_phys_addr) = 0.
Proof.
  destruct (@_initialize_bitmap_reserves_kernel large_pages blank_bitmap (replicate 9 7)
    0x3ff7fc00 0x600000 0x600000) as [_ Hin];
    [lia|vm_compute; reflexivity|vm_compute; reflexivity|lia|vm_compute; reflexivity
    |vm_compute; reflexivity|vm_compute; reflexivity|].
  destruct Hin as (b' & Hrun & Hwf & Hsize & Haddr & Hused & _ & _ & _ & Hphys);
    [lia|vm_compute; discriminate|vm_compute; reflexivity|vm_compute; discriminate|].
  exists b'. split; [exact Hrun|]. split; [exact Hwf|]. split; [exact Hsize|].
  split; [exact Hused|]. split; [exact Haddr|exact Hphys].
Defined.
