(* ===== verification/Spinlock.v ===== *)
(** The spinlock: [sys/spinlock.c]. The operations on one lock, and the step
    relation of any number of CPUs contending for it. *)
From S2P Require Import Prelude.

(** [spinlock_t]. *)
Record spinlock_t : Type := mk_spinlock { locked : bool }.

(** [__atomic_test_and_set]: the old value, the flag being set. *)
Definition atomic_test_and_set : M spinlock_t bool :=
  fun l => Ret (l.(locked), mk_spinlock true).

(** [while (test_and_set);]: run alone, the loop either passes at once or never. *)
Definition spinlock_acquire : M spinlock_t unit :=
  let! was_locked := atomic_test_and_set in
  if was_locked then diverge else ret tt.

Definition spinlock_release : M spinlock_t unit := put (mk_spinlock false).

(** *** Contention *)

(** Where a CPU is: outside, in the loop of [spinlock_acquire], or past it. *)
Inductive position : Type :=
| Outside
| Spinning
| Holding.

#[export] Instance position_eq_dec : EqDecision position.
Proof. solve_decision. Defined.

(** The lock and the position of every CPU. *)
Record contention : Type := mk_contention {
  lock : spinlock_t;
  cpus : gmap nat position;
}.

(** One atomic step of one CPU: calling [spinlock_acquire], one iteration of its
    loop (the test-and-set leaves the loop only if the flag was clear), and
    [spinlock_release]. *)
Inductive lock_step : contention -> contention -> Prop :=
| step_call l cs i :
    cs !! i = Some Outside ->
    lock_step (mk_contention l cs) (mk_contention l (<[i := Spinning]> cs))
| step_spin l cs i was l' :
    cs !! i = Some Spinning ->
    atomic_test_and_set l = Ret (was, l') ->
    lock_step (mk_contention l cs)
      (mk_contention l' (<[i := if was then Spinning else Holding]> cs))
| step_release l cs i l' :
    cs !! i = Some Holding ->
    spinlock_release l = Ret (tt, l') ->
    lock_step (mk_contention l cs) (mk_contention l' (<[i := Outside]> cs)).

(** A released lock with every CPU outside. *)
Definition lock_initial (c : contention) : Prop :=
  c.(lock) = mk_spinlock false /\ forall i p, c.(cpus) !! i = Some p -> p = Outside.

(** The invariant: the flag is set exactly when some CPU holds the lock, and no two
    do. *)
Definition lock_inv (c : contention) : Prop :=
  (c.(lock).(locked) = true <-> exists i, c.(cpus) !! i = Some Holding) /\
  forall i j, c.(cpus) !! i = Some Holding -> c.(cpus) !! j = Some Holding -> i = j.

Lemma lock_inv_initial c : lock_initial c -> lock_inv c.
Proof.
  intros [Hl Ho]. split.
  - rewrite Hl. split; [done|]. intros [i Hi]. by apply Ho in Hi.
  - intros i j Hi. by apply Ho in Hi.
Qed.

Lemma lock_inv_step c c' : lock_inv c -> lock_step c c' -> lock_inv c'.
Proof.
  intros [Hl Hu] Hstep. destruct Hstep as [l cs i Hi|l cs i was l' Hi Hts|l cs i l' Hi Hr];
    unfold lock_inv in *; simpl in *.
  - split.
    + rewrite Hl. split; intros [j Hj].
      * exists j. rewrite lookup_insert_ne; congruence.
      * exists j. rewrite lookup_insert in Hj. by case_decide.
    + intros j k Hj Hk. rewrite lookup_insert in Hj, Hk. repeat case_decide; naive_solver.
  - injection Hts as <- <-. simpl. destruct (locked l) eqn:El.
    + rewrite insert_id by done. split; [by rewrite <- Hl|done].
    + split; [split; [intros _; exists i; apply lookup_insert_eq|done]|].
      assert (forall j, cs !! j <> Some Holding) as Hnone.
      { intros j Hj. assert (false = true) by (apply Hl; eauto). done. }
      intros j k Hj Hk. rewrite lookup_insert in Hj, Hk. repeat case_decide; naive_solver.
  - injection Hr as <-. simpl. split; [split; [done|]|].
    + intros [j Hj]. rewrite lookup_insert in Hj. case_decide as Hd; [done|].
      exfalso. apply Hd. by apply Hu.
    + intros j k Hj Hk. rewrite lookup_insert in Hj, Hk. repeat case_decide; naive_solver.
Qed.

(** C39: mutual exclusion: from a released lock, in every interleaving of any number
    of CPUs, at most one is past [spinlock_acquire] at any time, and the flag is
    set exactly while one is. *)
Theorem spinlock_mutual_exclusion (c c' : contention) :
  lock_initial c -> rtc lock_step c c' ->
  (forall i j, c'.(cpus) !! i = Some Holding -> c'.(cpus) !! j = Some Holding -> i = j) /\
  (c'.(lock).(locked) = true <-> exists i, c'.(cpus) !! i = Some Holding).
Proof.
  intros Hinit Hsteps. assert (lock_inv c') as [? ?]; [|done].
  apply lock_inv_initial in Hinit. induction Hsteps; eauto using lock_inv_step.
Qed.

(** Two CPUs: both call, the first gets the lock. *)
Definition two_cpus : contention :=
  mk_contention (mk_spinlock false) (<[0%nat := Outside]> (<[1%nat := Outside]> ∅)).

Lemma spinlock_mutual_exclusion_witness :
  lock_initial two_cpus /\
  exists c', rtc lock_step two_cpus c' /\ c'.(cpus) !! 0%nat = Some Holding /\
    c'.(cpus) !! 1%nat = Some Spinning /\
    (c'.(lock).(locked) = true <-> exists i, c'.(cpus) !! i = Some Holding).
Proof.
  assert (lock_initial two_cpus) as Hinit.
  { split; [done|]. intros i p Hp. unfold two_cpus in Hp. simpl in Hp.
    rewrite !lookup_insert in Hp. repeat case_decide; simplify_map_eq; done. }
  split; [exact Hinit|].
  assert (rtc lock_step two_cpus
    (mk_contention (mk_spinlock true)
      (<[0%nat := Holding]> (<[1%nat := Spinning]> (<[0%nat := Spinning]> two_cpus.(cpus)))))) as Hrun.
  { eapply rtc_l; [by apply (step_call _ _ 0%nat)|].
    eapply rtc_l; [by apply (step_call _ _ 1%nat)|].
    eapply rtc_l; [by apply (step_spin _ _ 0%nat false)|]. apply rtc_refl. }
  eexists. split; [exact Hrun|]. split; [reflexivity|]. split; [reflexivity|].
  exact (proj2 (spinlock_mutual_exclusion _ _ Hinit Hrun)).
Defined.
