(* ===== verification/Pmm.v ===== *)
(** The physical memory manager: [kernel/mem/pmm.c] (but [pmm_setup], which maps
    memory and is in [Boot.v]) and [_mmap_setup] of [kernel/mem/mmap.c]. The
    invariant [pmm_inv] ties the counter of frames in use to the set the bitmap
    holds. *)
From S2P Require Import Prelude VmmUtil Mmap Bitmap Spinlock.

Definition PAGE_DIR_SIZE : Z := 0x1000.

(** The globals of [pmm.c] and the bitmap it works on. *)
Record pmm_state : Type := mk_pmm {
  pmm_bitmap : bitmap_state;
  memory_spinlock : spinlock_t;
  pmm_initialized : bool;
  anon_memory_loc : Z;
  anon_physical_memory_loc : Z;
}.

Definition set_pmm_bitmap (b : bitmap_state) (s : pmm_state) : pmm_state :=
  mk_pmm b s.(memory_spinlock) s.(pmm_initialized) s.(anon_memory_loc) s.(anon_physical_memory_loc).
Definition set_memory_spinlock (l : spinlock_t) (s : pmm_state) : pmm_state :=
  mk_pmm s.(pmm_bitmap) l s.(pmm_initialized) s.(anon_memory_loc) s.(anon_physical_memory_loc).
Definition set_anon (v p : Z) (s : pmm_state) : pmm_state :=
  mk_pmm s.(pmm_bitmap) s.(memory_spinlock) s.(pmm_initialized) v p.

(** Code of the bitmap, of the memory map and of the lock, run on its part. *)
Definition in_bitmap {A} (m : M bitmap_state A) : M pmm_state A := zoom pmm_bitmap set_pmm_bitmap m.
Definition in_mmap {A} (m : M mmap_state A) : M pmm_state A := in_bitmap (zoom bm_mmap set_bm_mmap m).
Definition in_lock {A} (m : M spinlock_t A) : M pmm_state A := zoom memory_spinlock set_memory_spinlock m.

(** [used_frames += n], in 32 bits. *)
Definition add_used_frames (n : Z) : M pmm_state unit :=
  in_bitmap (modify (fun b => set_used_frames (u32 (b.(used_frames) + n)) b)).

Definition pmm_check_frame_availability : M pmm_state bool :=
  let! s := get in
  if s.(pmm_bitmap).(used_frames) <? s.(pmm_bitmap).(bitmap_size) then ret true else ret false.

Section Operations.
  Context `{PageConfig}.

(** [frame] is a [uint64_t], the -1 of a failed search included. *)
Definition pmm_alloc_frame : M pmm_state Z :=
  let! available := pmm_check_frame_availability in
  if negb available then ret 0
  else
    do! in_lock spinlock_acquire in
    let! r := in_bitmap _bitmap_request_frame in
    let frame := u64 r in
    if 0 <? frame then
      do! in_bitmap (_bitmap_set_bit frame) in
      do! add_used_frames 1 in
      do! in_lock spinlock_release in
      ret (u64 (frame * PAGE_SIZE_IN_BYTES))
    else
      do! in_lock spinlock_release in
      ret 0.

(** The search of [pmm_prepare_new_pagetable] for an address it may use. *)
Fixpoint prepare_pagetable_loop (fuel : nat) : M pmm_state unit :=
  match fuel with
  | O => diverge
  | Datatypes.S fuel' =>
      let! s := get in
      let! available :=
        in_mmap (_mmap_is_address_in_available_space s.(anon_physical_memory_loc) PAGE_DIR_SIZE) in
      if negb available && (s.(anon_physical_memory_loc) <? s.(pmm_bitmap).(memory_size_in_bytes)) then
        do! modify (set_anon (u64 (s.(anon_memory_loc) + PAGE_DIR_SIZE))
                             (u64 (s.(anon_physical_memory_loc) + PAGE_DIR_SIZE))) in
        prepare_pagetable_loop fuel'
      else ret tt
  end.

(** Every round of the search advances by [PAGE_DIR_SIZE] below the memory size. *)
Definition pmm_prepare_new_pagetable : M pmm_state Z :=
  let! s := get in
  if negb s.(pmm_initialized) then
    do! prepare_pagetable_loop
          (Datatypes.S (Datatypes.S (Z.to_nat (s.(pmm_bitmap).(memory_size_in_bytes) / PAGE_DIR_SIZE)))) in
    do! modify (fun s => set_anon (u64 (s.(anon_memory_loc) + PAGE_DIR_SIZE))
                                  (u64 (s.(anon_physical_memory_loc) + PAGE_DIR_SIZE)) s) in
    gets (fun s => u64 (s.(anon_physical_memory_loc) - PAGE_DIR_SIZE))
  else pmm_alloc_frame.

Definition pmm_alloc_area (size : Z) : M pmm_state Z :=
  let requested_frames := get_number_of_pages_from_size size in
  let! available := pmm_check_frame_availability in
  if negb available then ret 0
  else
    do! in_lock spinlock_acquire in
    let! r := in_bitmap (_bitmap_request_frames requested_frames) in
    let frames := u64 r in
    do! for_upto requested_frames (fun i => in_bitmap (_bitmap_set_bit (u64 (frames + i)))) in
    do! add_used_frames requested_frames in
    do! in_lock spinlock_release in
    ret (u64 (frames * PAGE_SIZE_IN_BYTES)).

Definition pmm_free_frame (address : Z) : M pmm_state unit :=
  do! in_lock spinlock_acquire in
  do! in_bitmap (_bitmap_free_bit (address / PAGE_SIZE_IN_BYTES)) in
  do! in_lock spinlock_release in
  add_used_frames (-1).

(** The number of frames of an area, in 32 bits. *)
Definition area_frames (size : Z) : Z :=
  let number_of_frames := u32 (size / PAGE_SIZE_IN_BYTES) in
  if negb (size mod PAGE_SIZE_IN_BYTES =? 0) then u32 (number_of_frames + 1) else number_of_frames.

(** [location] only moves past a frame the loop has reserved. *)
Fixpoint reserve_area_loop (number_of_frames : nat) (location : Z) : M pmm_state unit :=
  match number_of_frames with
  | O => ret tt
  | Datatypes.S n =>
      let! used := in_bitmap (_bitmap_test_bit location) in
      if negb used then
        do! in_bitmap (_bitmap_set_bit location) in
        do! add_used_frames 1 in
        reserve_area_loop n (u64 (location + 1))
      else reserve_area_loop n location
  end.

Definition pmm_reserve_area (starting_address size : Z) : M pmm_state unit :=
  do! in_lock spinlock_acquire in
  do! reserve_area_loop (Z.to_nat (area_frames size)) (starting_address / PAGE_SIZE_IN_BYTES) in
  in_lock spinlock_release.

(** The test of [pmm_free_area] against the first [count_physical_reserved]
    entries of the memory map; [i] counts up, [n] are left. *)
Fixpoint free_area_reserved (n : nat) (i starting_address : Z) : M mmap_state bool :=
  match n with
  | O => ret false
  | Datatypes.S n' =>
      let! e := get_entry i in
      if (e.(addr) <=? starting_address) && (starting_address <? u64 (e.(addr) + e.(len)))
      then ret true
      else free_area_reserved n' (i + 1) starting_address
  end.

Definition pmm_free_area (starting_address size : Z) : M pmm_state unit :=
  let location := starting_address / PAGE_SIZE_IN_BYTES in
  let! s := get in
  let! reserved :=
    in_mmap (free_area_reserved (Z.to_nat s.(pmm_bitmap).(bm_mmap).(count_physical_reserved)) 0 starting_address) in
  if reserved then ret tt
  else
    do! in_lock spinlock_acquire in
    do! for_upto (area_frames size)
          (fun _ => do! in_bitmap (_bitmap_free_bit location) in add_used_frames (-1)) in
    in_lock spinlock_release.

(** One round of [_mmap_setup]. *)
Definition _mmap_setup_step (counter : Z) : M pmm_state unit :=
  let! s := get in
  let! last := in_mmap (get_entry s.(pmm_bitmap).(bm_mmap).(_mmap_last_available_item)) in
  let upper_address_to_map := u64 (last.(addr) + last.(len)) in
  let! e := in_mmap (get_entry counter) in
  if (e.(addr) <? upper_address_to_map) && (1 <? e.(type)) then
    do! pmm_reserve_area e.(addr) e.(len) in
    in_mmap (modify (fun m => set_count_physical_reserved (u8 (m.(count_physical_reserved) + 1)) m))
  else ret tt.

Definition _mmap_setup : M pmm_state unit :=
  do! in_mmap (modify (set_count_physical_reserved 0)) in
  let! s := get in
  if 0 <? s.(pmm_bitmap).(used_frames)
  then for_upto s.(pmm_bitmap).(bm_mmap).(mmap_number_of_entries) _mmap_setup_step
  else ret tt.
End Operations.

(** *** The invariant *)

(** The bitmap is well formed, has a bit for every frame it counts, the lock is
    free, the counter is the number of frames in use, and frame 0, whose address is
    the error value of the allocator, is one of them. *)
Record pmm_inv (s : pmm_state) : Prop := {
  inv_wf : bitmap_wf s.(pmm_bitmap);
  inv_capacity : 0 <= s.(pmm_bitmap).(bitmap_size) <= capacity s.(pmm_bitmap).(memory_map);
  inv_lock : s.(memory_spinlock) = mk_spinlock false;
  inv_count : s.(pmm_bitmap).(used_frames) = Z.of_nat (size (used_set s.(pmm_bitmap).(memory_map)));
  inv_zero : 0 ∈ used_set s.(pmm_bitmap).(memory_map);
}.

(** The set of frames in use of a state, and the state with other rows and another
    count. *)
Definition used (s : pmm_state) : gset Z := used_set s.(pmm_bitmap).(memory_map).
Definition with_rows (rows : list Z) (n : Z) (s : pmm_state) : pmm_state :=
  set_pmm_bitmap (set_used_frames n (set_memory_map rows s.(pmm_bitmap))) s.
Definition frames_of (s : pmm_state) : Z := capacity s.(pmm_bitmap).(memory_map).

(** *** Running the parts *)

Section Running.
Implicit Types (s : pmm_state).

Lemma in_bitmap_run {A} (m : M bitmap_state A) s a b' :
  m s.(pmm_bitmap) = Ret (a, b') -> in_bitmap m s = Ret (a, set_pmm_bitmap b' s).
Proof. unfold in_bitmap, zoom. by intros ->. Qed.

Lemma in_bitmap_read {A} (m : M bitmap_state A) s a :
  m s.(pmm_bitmap) = Ret (a, s.(pmm_bitmap)) -> in_bitmap m s = Ret (a, s).
Proof. intros H. rewrite (in_bitmap_run _ _ _ _ H). by destruct s. Qed.

Lemma in_bitmap_fault {A} (m : M bitmap_state A) s f :
  m s.(pmm_bitmap) = Fault f -> in_bitmap m s = Fault f.
Proof. unfold in_bitmap, zoom. by intros ->. Qed.

Lemma in_mmap_read {A} (m : M mmap_state A) s a :
  m s.(pmm_bitmap).(bm_mmap) = Ret (a, s.(pmm_bitmap).(bm_mmap)) -> in_mmap m s = Ret (a, s).
Proof.
  intros H. apply in_bitmap_read. unfold zoom. rewrite H. by destruct (pmm_bitmap s).
Qed.

(** The state while the lock is held. *)
Definition lock_held s : pmm_state := set_memory_spinlock (mk_spinlock true) s.

Lemma acquire_run s :
  s.(memory_spinlock) = mk_spinlock false -> in_lock spinlock_acquire s = Ret (tt, lock_held s).
Proof. intros H. unfold in_lock, zoom, spinlock_acquire, atomic_test_and_set, bind. by rewrite H. Qed.

Lemma release_run s t :
  s.(memory_spinlock) = mk_spinlock false -> t = lock_held s -> in_lock spinlock_release t = Ret (tt, s).
Proof. intros H ->. unfold in_lock, zoom, lock_held. simpl. rewrite <- H. by destruct s. Qed.

Lemma add_used_frames_run s n :
  add_used_frames n s =
    Ret (tt, with_rows s.(pmm_bitmap).(memory_map) (u32 (s.(pmm_bitmap).(used_frames) + n)) s).
Proof. by destruct s as [[] ? ? ? ?]. Qed.

Lemma with_rows_held rows n s : lock_held (with_rows rows n s) = with_rows rows n (lock_held s).
Proof. done. Qed.

Lemma mark_run s l :
  0 <= l < frames_of s ->
  in_bitmap (_bitmap_set_bit l) s =
    Ret (tt, with_rows (mark_frame l s.(pmm_bitmap).(memory_map)) s.(pmm_bitmap).(used_frames) s).
Proof. intros Hl. rewrite (in_bitmap_run _ _ _ _ (_bitmap_set_bit_run _ l Hl)). by destruct s as [[] ? ? ? ?]. Qed.

Lemma clear_run s l :
  0 <= l < frames_of s ->
  in_bitmap (_bitmap_free_bit l) s =
    Ret (tt, with_rows (clear_frame l s.(pmm_bitmap).(memory_map)) s.(pmm_bitmap).(used_frames) s).
Proof. intros Hl. rewrite (in_bitmap_run _ _ _ _ (_bitmap_free_bit_run _ l Hl)). by destruct s as [[] ? ? ? ?]. Qed.

Lemma test_run s l :
  0 <= l < frames_of s ->
  in_bitmap (_bitmap_test_bit l) s = Ret (frame_used s.(pmm_bitmap).(memory_map) l, s).
Proof. intros Hl. apply in_bitmap_read. by apply _bitmap_test_bit_run. Qed.
End Running.

(** *** The invariant is preserved by marking and clearing *)

Section Invariant.
Implicit Types (s : pmm_state) (rows : list Z).

Lemma used_set_size_le rows : Z.of_nat (size (used_set rows)) <= capacity rows.
Proof.
  pose proof (capacity_nonneg rows).
  assert (used_set rows ⊆ list_to_set (seqZ 0 (capacity rows))) as Hsub.
  { intros l Hl. apply elem_of_used_set in Hl. apply elem_of_list_to_set, elem_of_seqZ. lia. }
  apply subseteq_size in Hsub. rewrite size_list_to_set in Hsub by apply NoDup_seqZ.
  rewrite length_seqZ in Hsub. lia.
Qed.

Lemma inv_capacity_small s : pmm_inv s -> 0 <= frames_of s < 2 ^ 22.
Proof. intros [(_ & He & Hs) _ _ _ _]. unfold frames_of, capacity. lia. Qed.

Lemma inv_used_bound s : pmm_inv s -> 0 <= s.(pmm_bitmap).(used_frames) <= frames_of s.
Proof.
  intros Hi. rewrite (inv_count s Hi). pose proof (used_set_size_le s.(pmm_bitmap).(memory_map)).
  unfold frames_of. lia.
Qed.

Lemma elem_of_used s l :
  l ∈ used s <-> 0 <= l < frames_of s /\ frame_used s.(pmm_bitmap).(memory_map) l = true.
Proof. apply elem_of_used_set. Qed.

Lemma inv_mark s l :
  pmm_inv s -> 0 <= l < frames_of s -> l ∉ used s ->
  pmm_inv (with_rows (mark_frame l s.(pmm_bitmap).(memory_map)) (s.(pmm_bitmap).(used_frames) + 1) s).
Proof.
  intros [Hwf Hc Hl0 Hn Hz] Hl Hu. unfold frames_of in Hl. constructor; simpl.
  - destruct Hwf as (? & ? & ?). split_and!; simpl; [by apply rows_ok_mark|by rewrite length_mark|done].
  - by rewrite capacity_mark.
  - done.
  - rewrite used_set_mark by done. rewrite size_union by set_solver. rewrite size_singleton. lia.
  - rewrite used_set_mark by done. set_solver.
Qed.

Lemma inv_clear s l :
  pmm_inv s -> l ∈ used s -> l <> 0 ->
  pmm_inv (with_rows (clear_frame l s.(pmm_bitmap).(memory_map)) (s.(pmm_bitmap).(used_frames) - 1) s).
Proof.
  intros [Hwf Hc Hl0 Hn Hz] Hu Hne. pose proof Hu as [Hl _]%elem_of_used. unfold frames_of in Hl.
  unfold used in Hu. constructor; simpl.
  - destruct Hwf as (? & ? & ?). split_and!; simpl; [by apply rows_ok_clear|by rewrite length_clear|done].
  - by rewrite capacity_clear.
  - done.
  - rewrite used_set_clear by done.
    assert (size (used_set (memory_map (pmm_bitmap s)) ∖ {[l]}) + 1 =
            size (used_set (memory_map (pmm_bitmap s))))%nat; [|lia].
    rewrite <- (size_singleton (C := gset Z) l), <- size_union by set_solver. f_equal.
    apply set_eq. intros x. destruct (decide (x = l)); set_solver.
  - rewrite used_set_clear by done. set_solver.
Qed.

(** Clearing a frame just marked gives the old rows back. *)
Lemma clear_mark rows l :
  rows_ok rows -> 0 <= l < capacity rows -> frame_used rows l = false ->
  clear_frame l (mark_frame l rows) = rows.
Proof.
  intros Hok Hl Hf. destruct (frame_row rows l Hl) as (r & Hr & Hu & Hlt).
  pose proof (column_range l). unfold clear_frame, mark_frame. rewrite Hr.
  rewrite list_lookup_insert_eq by done. rewrite list_insert_insert_eq.
  apply list_insert_id. rewrite Hr. f_equal. apply Z.bits_inj'. intros i Hi.
  rewrite Z.land_spec, Z.lor_spec, testbit_shiftl1 by lia.
  destruct (decide (i < 64)) as [Hi64|].
  - rewrite testbit_not64, testbit_shiftl1 by lia.
    destruct (Z.eqb_spec (l mod 64) i) as [<-|]; [|by rewrite orb_false_r, andb_true_r].
    rewrite Hu in Hf. by rewrite Hf.
  - assert (Z.testbit r i = false) as ->.
    { apply (testbit_high r 64); [by apply (Forall_lookup_1 _ _ _ _ Hok Hr)|lia]. }
    destruct (Z.eqb_spec (l mod 64) i); [lia|done].
Qed.
End Invariant.

(** *** Allocation *)

Section Allocation.
Context `{PageConfig}.
Implicit Types (s : pmm_state).

(** While the counter is below the number of frames, one of them is free. *)
Lemma free_frame_exists s :
  pmm_inv s -> s.(pmm_bitmap).(used_frames) < s.(pmm_bitmap).(bitmap_size) ->
  exists l, 0 <= l < s.(pmm_bitmap).(bitmap_size) /\ l ∉ used s.
Proof.
  intros Hi Hlt. pose proof (inv_capacity s Hi) as Hc. set (n := s.(pmm_bitmap).(bitmap_size)) in *.
  destruct (decide (Exists (fun l => l ∉ used s) (seqZ 0 n))) as [(l & Hl & Hu)%Exists_exists|Hno].
  - apply elem_of_seqZ in Hl. exists l. split; [lia|done].
  - exfalso. assert (list_to_set (seqZ 0 n) ⊆ used s) as Hsub.
    { intros l Hl. apply elem_of_list_to_set in Hl.
      destruct (decide (l ∈ used s)); [done|]. exfalso. apply Hno, Exists_exists. eauto. }
    apply subseteq_size in Hsub. rewrite size_list_to_set in Hsub by apply NoDup_seqZ.
    rewrite length_seqZ in Hsub. pose proof (inv_count s Hi). unfold used in Hsub. lia.
Qed.

Lemma availability_run s :
  pmm_check_frame_availability s =
    Ret (s.(pmm_bitmap).(used_frames) <? s.(pmm_bitmap).(bitmap_size), s).
Proof. unfold pmm_check_frame_availability, bind, get. by case_match. Qed.

Lemma page_address_small s r :
  pmm_inv s -> 0 <= r < frames_of s -> u64 (r * PAGE_SIZE_IN_BYTES) = r * PAGE_SIZE_IN_BYTES.
Proof.
  intros Hi Hr. pose proof (inv_capacity_small s Hi). pose proof page_size_bounds.
  apply u64_small. nia.
Qed.

(** The run of the allocator once the search is done. *)
Lemma pmm_alloc_frame_found s r :
  pmm_inv s -> s.(pmm_bitmap).(used_frames) < s.(pmm_bitmap).(bitmap_size) ->
  _bitmap_request_frame s.(pmm_bitmap) = Ret (r, s.(pmm_bitmap)) ->
  0 < r < frames_of s ->
  pmm_alloc_frame s = Ret (r * PAGE_SIZE_IN_BYTES,
    with_rows (mark_frame r s.(pmm_bitmap).(memory_map)) (s.(pmm_bitmap).(used_frames) + 1) s).
Proof.
  intros Hi Hlt Hrun Hr. pose proof (inv_capacity_small s Hi). pose proof (inv_used_bound s Hi).
  unfold pmm_alloc_frame, bind at 1. rewrite availability_run.
  destruct (Z.ltb_spec s.(pmm_bitmap).(used_frames) s.(pmm_bitmap).(bitmap_size)) as [_|]; [|lia].
  cbn [negb]. unfold bind at 1. rewrite (acquire_run s (inv_lock s Hi)).
  unfold bind at 1. rewrite (in_bitmap_read _ (lock_held s) r Hrun).
  rewrite (u64_small r) by lia. destruct (Z.ltb_spec 0 r) as [_|]; [|lia].
  unfold bind at 1. rewrite mark_run by (unfold frames_of in *; simpl; lia).
  unfold bind at 1. rewrite add_used_frames_run.
  rewrite u32_small by (simpl; lia). unfold bind at 1.
  rewrite (release_run (with_rows (mark_frame r s.(pmm_bitmap).(memory_map)) (s.(pmm_bitmap).(used_frames) + 1) s));
    [|apply Hi|done].
  unfold ret. by rewrite (page_address_small s r Hi) by lia.
Qed.

Lemma pmm_alloc_frame_not_found s :
  pmm_inv s -> s.(pmm_bitmap).(used_frames) < s.(pmm_bitmap).(bitmap_size) ->
  _bitmap_request_frame s.(pmm_bitmap) = Ret (-1, s.(pmm_bitmap)) ->
  pmm_alloc_frame s = Fault OutOfBounds.
Proof.
  intros Hi Hlt Hrun. pose proof (inv_capacity_small s Hi).
  unfold pmm_alloc_frame, bind at 1. rewrite availability_run.
  destruct (Z.ltb_spec s.(pmm_bitmap).(used_frames) s.(pmm_bitmap).(bitmap_size)) as [_|]; [|lia].
  cbn [negb]. unfold bind at 1. rewrite (acquire_run s (inv_lock s Hi)).
  unfold bind at 1. rewrite (in_bitmap_read _ (lock_held s) (-1) Hrun).
  change (u64 (-1)) with (2 ^ 64 - 1). destruct (Z.ltb_spec 0 (2 ^ 64 - 1)) as [_|]; [|lia].
  unfold bind at 1. rewrite (in_bitmap_fault _ _ OutOfBounds); [done|].
  apply _bitmap_set_bit_out_of_bounds. unfold frames_of in *. simpl. lia.
Qed.

(** The cases of the allocator. *)
Lemma pmm_alloc_frame_cases s :
  pmm_inv s ->
  let b := s.(pmm_bitmap) in
  (b.(bitmap_size) <= b.(used_frames) /\ pmm_alloc_frame s = Ret (0, s)) \/
  (b.(used_frames) < b.(bitmap_size) /\ exists r s',
     pmm_alloc_frame s = Ret (r * PAGE_SIZE_IN_BYTES, s') /\
     0 < r < frames_of s /\ r ∉ used s /\ used s' = {[r]} ∪ used s /\
     (forall l, 0 <= l < r -> row_visible b.(memory_map) l -> l ∈ used s) /\
     (no_skipped_row b.(memory_map) -> r < b.(bitmap_size)) /\
     pmm_inv s' /\ s'.(pmm_bitmap).(used_frames) = b.(used_frames) + 1 /\
     exists rows n, s' = with_rows rows n s /\ length rows = length b.(memory_map)) \/
  (b.(used_frames) < b.(bitmap_size) /\ ~ no_skipped_row b.(memory_map) /\
     (forall l, 0 <= l < frames_of s -> row_visible b.(memory_map) l -> l ∈ used s) /\
     pmm_alloc_frame s = Fault OutOfBounds).
Proof.
  intros Hi b. subst b.
  destruct (Z.ltb_spec s.(pmm_bitmap).(used_frames) s.(pmm_bitmap).(bitmap_size)) as [Hlt|Hge].
  2:{ left. split; [done|]. unfold pmm_alloc_frame, bind. rewrite availability_run.
      by destruct (Z.ltb_spec s.(pmm_bitmap).(used_frames) s.(pmm_bitmap).(bitmap_size)); [lia|]. }
  right. destruct (free_frame_exists s Hi Hlt) as (l & Hl & Hfree). pose proof (inv_capacity s Hi) as Hcap.
  assert (forall n, passed s.(pmm_bitmap).(memory_map) n -> n <= frames_of s ->
            forall m, 0 <= m < n -> row_visible s.(pmm_bitmap).(memory_map) m -> m ∈ used s) as Hpassed.
  { intros n Hp Hn m Hm Hv. apply elem_of_used. split; [lia|by apply Hp]. }
  destruct (request_frame_run s.(pmm_bitmap) (inv_wf s Hi)) as (r & Hrun & [[-> Hp]|(Hr & Hf & Hv & Hp)]).
  - right. split_and!; [done| | |by apply pmm_alloc_frame_not_found].
    + intros Hskip. apply Hfree. apply (Hpassed (frames_of s)); [done|lia|unfold frames_of; lia|].
      exact (Hskip _).
    + by apply (Hpassed _ Hp).
  - left. split; [done|].
    assert (r ∉ used s) as Hru by (rewrite elem_of_used; intros [_ ?]; congruence).
    assert (0 < r < frames_of s) as Hr0.
    { unfold frames_of. destruct (decide (r = 0)) as [->|]; [|lia]. by destruct (Hru (inv_zero s Hi)). }
    eexists r, _. split; [by apply pmm_alloc_frame_found|]. split_and!; try done; try lia.
    + apply used_set_mark. unfold frames_of in Hr0. lia.
    + apply (Hpassed r Hp). lia.
    + intros Hskip. destruct (decide (r <= l)); [lia|]. exfalso. apply Hfree.
      apply (Hpassed r Hp); [lia|lia|]. exact (Hskip _).
    + apply inv_mark; [done|lia|done].
    + eexists _, _. split; [done|apply length_mark].
Qed.

(** C1: [pmm_alloc_frame], on every branch. With no frame left by the counter it
    returns NULL and changes nothing. Otherwise it returns the address of the
    lowest free frame of the rows the search looks at, marks that frame and no
    other, counts it, and keeps the invariant; the frame is one of the
    [bitmap_size] frames when no row has the value the search skips. Only when
    such a row exists can the search fail, and then the -1 it returns is written
    through as a frame number, outside the bitmap. *)
Theorem pmm_alloc_frame_spec s :
  pmm_inv s ->
  let b := s.(pmm_bitmap) in
  (b.(bitmap_size) <= b.(used_frames) /\ pmm_alloc_frame s = Ret (0, s)) \/
  (b.(used_frames) < b.(bitmap_size) /\ exists r s',
     pmm_alloc_frame s = Ret (r * PAGE_SIZE_IN_BYTES, s') /\
     0 < r < frames_of s /\ r ∉ used s /\ used s' = {[r]} ∪ used s /\
     (forall l, 0 <= l < r -> row_visible b.(memory_map) l -> l ∈ used s) /\
     (no_skipped_row b.(memory_map) -> r < b.(bitmap_size)) /\
     pmm_inv s' /\ s'.(pmm_bitmap).(used_frames) = b.(used_frames) + 1 /\
     exists rows n, s' = with_rows rows n s /\ length rows = length b.(memory_map)) \/
  (b.(used_frames) < b.(bitmap_size) /\ ~ no_skipped_row b.(memory_map) /\
     (forall l, 0 <= l < frames_of s -> row_visible b.(memory_map) l -> l ∈ used s) /\
     pmm_alloc_frame s = Fault OutOfBounds).
Proof. apply pmm_alloc_frame_cases. Qed.

(** C2: freeing the frame just allocated gives back the state before the
    allocation. *)
Theorem pmm_alloc_free_round_trip s r s' :
  pmm_inv s -> pmm_alloc_frame s = Ret (r, s') -> r <> 0 -> pmm_free_frame r s' = Ret (tt, s).
Proof.
  intros Hi Hrun Hr0. pose proof page_size_bounds. pose proof (inv_capacity_small s Hi).
  pose proof (inv_used_bound s Hi).
  destruct (request_frame_run s.(pmm_bitmap) (inv_wf s Hi)) as (l & Hreq & Hl).
  destruct (Z.ltb_spec s.(pmm_bitmap).(used_frames) s.(pmm_bitmap).(bitmap_size)) as [Hlt|Hge].
  2:{ exfalso. unfold pmm_alloc_frame, bind at 1 in Hrun. rewrite availability_run in Hrun.
      destruct (Z.ltb_spec s.(pmm_bitmap).(used_frames) s.(pmm_bitmap).(bitmap_size)); [lia|].
      injection Hrun. congruence. }
  destruct Hl as [[-> _]|(Hl & Hf & _ & _)].
  { by rewrite pmm_alloc_frame_not_found in Hrun. }
  assert (0 < l < frames_of s) as Hl0.
  { unfold frames_of. destruct (decide (l = 0)) as [->|]; [|lia].
    pose proof (inv_zero s Hi) as Hz. apply elem_of_used_set in Hz as [_ Hz]. congruence. }
  rewrite (pmm_alloc_frame_found s l) in Hrun by done. injection Hrun as <- <-.
  set (s' := with_rows _ _ s). unfold pmm_free_frame, bind at 1.
  rewrite (acquire_run s' (inv_lock s Hi)). rewrite Z.div_mul by lia.
  assert (frames_of s' = frames_of s) as Hfr by apply capacity_mark.
  unfold bind at 1. rewrite clear_run by (change (frames_of (lock_held s')) with (frames_of s'); lia).
  simpl. rewrite clear_mark; [|apply (inv_wf s Hi)|unfold frames_of in Hl0; lia|done].
  unfold bind at 1. rewrite (release_run (with_rows s.(pmm_bitmap).(memory_map) (s.(pmm_bitmap).(used_frames) + 1) s));
    [|apply Hi|done].
  rewrite add_used_frames_run. simpl. replace (_ + 1 + -1) with s.(pmm_bitmap).(used_frames) by lia.
  rewrite u32_small by lia. by destruct s as [[] ? ? ? ?].
Qed.
End Allocation.

(** *** Freeing, and areas *)

Section Areas.
Context `{PageConfig}.
Implicit Types (s : pmm_state).

Lemma with_rows_twice rows1 rows2 n1 n2 s :
  with_rows rows1 n1 (with_rows rows2 n2 s) = with_rows rows1 n1 s.
Proof. done. Qed.

Lemma with_rows_same s : with_rows s.(pmm_bitmap).(memory_map) s.(pmm_bitmap).(used_frames) s = s.
Proof. by destruct s as [[] ? ? ? ?]. Qed.

(** What [pmm_free_frame_spec] below says. *)
Lemma pmm_free_frame_cases s address :
  pmm_inv s -> PAGE_SIZE_IN_BYTES <= address ->
  let l := address / PAGE_SIZE_IN_BYTES in
  (l < frames_of s /\ exists s', pmm_free_frame address s = Ret (tt, s') /\ used s' = used s ∖ {[l]} /\
     (pmm_inv s' <-> l ∈ used s)) \/
  (frames_of s <= l /\ pmm_free_frame address s = Fault OutOfBounds).
Proof.
  intros Hi Ha l. pose proof page_size_bounds. pose proof (inv_used_bound s Hi).
  pose proof (inv_capacity_small s Hi).
  assert (1 <= l) by (apply Z.div_le_lower_bound; lia).
  unfold pmm_free_frame. fold l.
  destruct (decide (l < frames_of s)) as [Hl|Hl]; [left|right]; (split; [lia|]);
    rewrite (bind_run _ _ _ _ _ (acquire_run s (inv_lock s Hi))).
  - unfold bind at 1. rewrite clear_run by (change (frames_of (lock_held s)) with (frames_of s); lia).
    unfold bind at 1. rewrite (release_run (with_rows (clear_frame l s.(pmm_bitmap).(memory_map)) s.(pmm_bitmap).(used_frames) s));
      [|apply Hi|done].
    rewrite add_used_frames_run. eexists. split; [done|]. simpl.
    assert (used_set (clear_frame l s.(pmm_bitmap).(memory_map)) = used s ∖ {[l]}) as Hset.
    { apply used_set_clear. unfold frames_of in *. lia. }
    split; [done|]. split.
    + intros Hinv'. pose proof (inv_count _ Hinv') as Hc. simpl in Hc. rewrite Hset in Hc.
      destruct (decide (l ∈ used s)) as [|Hn]; [done|exfalso].
      assert (used s ∖ {[l]} = used s) as E by set_solver. rewrite E in Hc.
      pose proof (inv_count s Hi) as Hc'. fold (used s) in Hc'.
      pose proof (inv_zero s Hi) as Hz. fold (used s) in Hz.
      assert (size (used s) <> 0%nat) by (intros ?%size_empty_inv; set_solver).
      rewrite u32_small in Hc by lia. lia.
    + intros Hu. pose proof (inv_count s Hi) as Hc'. fold (used s) in Hc'.
      assert (size (used s) <> 0%nat) by (intros ?%size_empty_inv; set_solver).
      rewrite u32_small by lia.
      assert (l <> 0) as Hl0 by lia. exact (inv_clear s l Hi Hu Hl0).
  - apply bind_fault, in_bitmap_fault.
    unfold _bitmap_free_bit, get_row, bind, get, BITMAP_ROW_BITS.
    rewrite lookup_ge_None_2; [done|]. unfold lock_held, frames_of, capacity in *. simpl.
    assert (Z.of_nat (length s.(pmm_bitmap).(memory_map)) <= l / 64) by (apply Z.div_le_lower_bound; lia). lia.
Qed.

(** [pmm_free_frame] takes the frame of its address out of the frames in use and
    decrements the counter. The invariant is kept exactly when the frame was in
    use: a second free of the same frame leaves the counter one below the number of
    frames in use. An address past the bitmap faults. *)
Theorem pmm_free_frame_spec s address :
  pmm_inv s -> PAGE_SIZE_IN_BYTES <= address ->
  let l := address / PAGE_SIZE_IN_BYTES in
  (l < frames_of s /\ exists s', pmm_free_frame address s = Ret (tt, s') /\ used s' = used s ∖ {[l]} /\
     (pmm_inv s' <-> l ∈ used s)) \/
  (frames_of s <= l /\ pmm_free_frame address s = Fault OutOfBounds).
Proof. apply pmm_free_frame_cases. Qed.

(** [s'] is [s] after the [k] frames from [l] on, all free before, are marked. *)
Record marked_area (l k : Z) s s' : Prop := {
  marked_nonneg : 0 <= k;
  marked_free : forall m, l <= m < l + k -> m ∉ used s;
  marked_used : forall m, m ∈ used s' <-> m ∈ used s \/ l <= m < l + k;
  marked_inv : pmm_inv s';
  marked_rows : exists rows, s' = with_rows rows (s.(pmm_bitmap).(used_frames) + k) s /\
                             length rows = length s.(pmm_bitmap).(memory_map);
}.

Lemma marked_area_nil l s : pmm_inv s -> marked_area l 0 s s.
Proof.
  intros Hi. constructor; [lia|lia| |done|].
  - intros m. split; [by left|]. intros [?|?]; [done|lia].
  - exists s.(pmm_bitmap).(memory_map). rewrite Z.add_0_r. by rewrite with_rows_same.
Qed.

Lemma marked_frames_of l k s s' : marked_area l k s s' -> frames_of s' = frames_of s.
Proof. intros [_ _ _ _ (rows & -> & Hl)]. unfold frames_of, capacity. simpl. by rewrite Hl. Qed.

Lemma marked_area_step l k s s' :
  marked_area l k s s' -> 0 <= l -> l + k < frames_of s -> l + k ∉ used s ->
  marked_area l (k + 1) s
    (with_rows (mark_frame (l + k) s'.(pmm_bitmap).(memory_map)) (s'.(pmm_bitmap).(used_frames) + 1) s').
Proof.
  intros Hm Hl Hlk Hu. pose proof (marked_frames_of _ _ _ _ Hm) as Hfr.
  destruct Hm as [Hk Hfree Hused Hinv (rows & Hs' & Hlen)].
  assert (0 <= l + k < frames_of s') as Hr by lia.
  assert (l + k ∉ used s') as Hu' by (rewrite Hused; intros [?|?]; [done|lia]).
  constructor; [lia| | |by apply inv_mark|].
  - intros m Hm. destruct (decide (m = l + k)) as [->|]; [done|apply Hfree; lia].
  - intros m. unfold used at 1. simpl. rewrite used_set_mark by (unfold frames_of in Hr; done).
    fold (used s'). rewrite elem_of_union, elem_of_singleton, Hused. split; [intros [->|[?|?]]|intros [?|?]];
      [right; lia|by left|right; lia|by right; left|].
    destruct (decide (m = l + k)); [by left|right; right; lia].
  - exists (mark_frame (l + k) rows). rewrite Hs'. simpl. rewrite length_mark. split; [|done].
    rewrite with_rows_twice. f_equal. lia.
Qed.

(** The loop of [pmm_reserve_area] marks the free frames from [location] up to the
    first one in use, and stays there. *)
Lemma reserve_area_loop_spec (n : nat) : forall s0 s l k,
  marked_area l k s0 s -> 0 <= l -> l + k + Z.of_nat n <= frames_of s0 ->
  exists k' s', reserve_area_loop n (l + k) (lock_held s) = Ret (tt, lock_held s') /\
    marked_area l k' s0 s' /\ k <= k' <= k + Z.of_nat n /\
    (k' < k + Z.of_nat n -> l + k' ∈ used s0).
Proof.
  induction n as [|n IH]; intros s0 s l k Hm Hl Hn; cbn [reserve_area_loop].
  { exists k, s. split; [done|]. split; [done|]. split; lia. }
  pose proof (marked_frames_of _ _ _ _ Hm) as Hfr.
  pose proof (inv_capacity_small s (marked_inv _ _ _ _ Hm)). pose proof (marked_nonneg _ _ _ _ Hm).
  assert (0 <= l + k < frames_of s) as Hr by lia.
  assert (0 <= l + k < frames_of (lock_held s)) as Hrh by exact Hr.
  rewrite (bind_run _ _ _ _ _ (test_run (lock_held s) (l + k) Hrh)).
  pose proof (elem_of_used s (l + k)) as Hused.
  pose proof (marked_used _ _ _ _ Hm (l + k)) as Hold.
  change (pmm_bitmap (lock_held s)) with (pmm_bitmap s) at 1.
  destruct (frame_used s.(pmm_bitmap).(memory_map) (l + k)) eqn:Hf; cbn [negb].
  - assert (l + k ∈ used s0) as Hu by (destruct (proj1 Hold) as [|]; [by apply Hused|done|lia]).
    destruct (IH s0 s l k Hm Hl ltac:(lia)) as (k' & s' & Hrun & Hm' & Hk & Hstop).
    exists k', s'. split; [done|]. split; [done|]. split; [lia|].
    intros _. destruct (decide (k' < k + Z.of_nat n)); [by apply Hstop|].
    destruct (decide (k' = k)) as [->|]; [done|].
    exfalso. apply (marked_free _ _ _ _ Hm' (l + k)); [lia|done].
  - assert (l + k ∉ used s0) as Hu.
    { intros Hin. assert (l + k ∈ used s) as Hin' by (apply Hold; by left).
      apply Hused in Hin' as [_ ?]. congruence. }
    pose proof (inv_used_bound s (marked_inv _ _ _ _ Hm)).
    rewrite (bind_run _ _ _ _ _ (mark_run (lock_held s) (l + k) Hrh)), (bind_run _ _ _ _ _ (add_used_frames_run _ _)).
    rewrite u32_small by (simpl; lia). rewrite u64_small by lia. rewrite <- Z.add_assoc.
    destruct (IH s0 _ l (k + 1) (marked_area_step _ _ _ _ Hm Hl ltac:(lia) Hu) Hl ltac:(lia))
      as (k' & s' & Hrun & Hm' & Hk & Hstop).
    exists k', s'. split; [exact Hrun|]. split; [done|]. split; [lia|]. intros ?. apply Hstop. lia.
Qed.
End Areas.

Section AreaTheorems.
Context `{PageConfig}.
Implicit Types (s : pmm_state).

Lemma reserve_area_run s address size :
  pmm_inv s -> 0 <= address -> 
  let l := address / PAGE_SIZE_IN_BYTES in
  let n := area_frames size in
  l + n <= frames_of s ->
  exists k s', pmm_reserve_area address size s = Ret (tt, s') /\ marked_area l k s s' /\
    0 <= k <= n /\ (k < n -> l + k ∈ used s).
Proof.
  intros Hi Ha l n Hn. pose proof page_size_bounds.
  assert (0 <= l) by (apply Z.div_pos; lia).
  assert (0 <= n) as Hn0 by (unfold n, area_frames; case_match; apply u32_range).
  destruct (reserve_area_loop_spec (Z.to_nat n) s s l 0) as (k & s' & Hrun & Hm & Hk & Hstop);
    [by apply marked_area_nil|done|lia|].
  exists k, s'. split; [|split; [done|split; [lia|intros; apply Hstop; lia]]].
  unfold pmm_reserve_area. rewrite (bind_run _ _ _ _ _ (acquire_run s (inv_lock s Hi))).
  fold l n. rewrite Z.add_0_r in Hrun. rewrite (bind_run _ _ _ _ _ Hrun).
  apply release_run; [apply (marked_inv _ _ _ _ Hm)|done].
Qed.

(** [pmm_reserve_area] marks the frames of its area from the first one up to,
    and not including, the first frame of the area already in use, counts them and
    keeps the invariant; the frames of the area after that one stay as they are. An
    area that is free throughout is reserved in full. *)
Theorem pmm_reserve_area_spec s address size :
  pmm_inv s -> 0 <= address ->
  let l := address / PAGE_SIZE_IN_BYTES in
  let n := area_frames size in
  l + n <= frames_of s ->
  exists k s', pmm_reserve_area address size s = Ret (tt, s') /\ pmm_inv s' /\ 0 <= k <= n /\
    (forall m, m ∈ used s' <-> m ∈ used s \/ l <= m < l + k) /\
    (forall m, l <= m < l + k -> m ∉ used s) /\
    (k < n -> l + k ∈ used s) /\
    s'.(pmm_bitmap).(used_frames) = s.(pmm_bitmap).(used_frames) + k.
Proof.
  intros Hi Ha l n Hn.
  destruct (reserve_area_run s address size Hi Ha Hn) as (k & s' & Hrun & Hm & Hk & Hstop).
  exists k, s'. destruct Hm as [? ? ? ? (rows & -> & _)]. split_and!; try done; lia.
Qed.

(** Marking the run [pmm_alloc_area] has found. *)
Lemma mark_range_run s l n :
  pmm_inv s -> free_run s.(pmm_bitmap).(memory_map) l n -> 0 <= n ->
  exists rows,
    for_upto n (fun i => in_bitmap (_bitmap_set_bit (u64 (l + i)))) (lock_held s) =
      Ret (tt, lock_held (with_rows rows s.(pmm_bitmap).(used_frames) s)) /\
    marked_area l n s (with_rows rows (s.(pmm_bitmap).(used_frames) + n) s).
Proof.
  intros Hi (Hl & Hln & Hfree) Hn. pose proof (inv_capacity_small s Hi).
  assert (wp (for_upto n (fun i => in_bitmap (_bitmap_set_bit (u64 (l + i)))))
    (fun _ t => exists rows, t = lock_held (with_rows rows s.(pmm_bitmap).(used_frames) s) /\
       marked_area l n s (with_rows rows (s.(pmm_bitmap).(used_frames) + n) s)) (lock_held s)) as Hwp.
  2:{ apply wp_run in Hwp as ([] & t & -> & rows & -> & Hm). eauto. }
  unfold for_upto. apply (wp_for_from (fun j t => exists rows,
    t = lock_held (with_rows rows s.(pmm_bitmap).(used_frames) s) /\
    marked_area l j s (with_rows rows (s.(pmm_bitmap).(used_frames) + j) s))).
  - exists s.(pmm_bitmap).(memory_map). rewrite Z.add_0_r, with_rows_same. split; [done|by apply marked_area_nil].
  - intros j t Hj (rows & -> & Hm). pose proof (marked_frames_of _ _ _ _ Hm) as Hfr.
    assert (frames_of (lock_held (with_rows rows s.(pmm_bitmap).(used_frames) s)) = frames_of s) as Hfr' by exact Hfr.
    rewrite u64_small by (unfold frames_of in *; lia). apply wp_run. eexists _, _. split.
    { apply mark_run. rewrite Hfr'. unfold frames_of. lia. }
    exists (mark_frame (l + j) rows). split; [done|]. rewrite Z.add_assoc.
    apply (marked_area_step l j s _ Hm); [lia|unfold frames_of in *; lia|].
    rewrite elem_of_used. intros [_ Hu]. rewrite Hfree in Hu by lia. done.
  - intros t (rows & -> & Hm). rewrite Z2Nat.id, Z.add_0_l in Hm by done. eauto.
Qed.

(** The outcomes of [pmm_alloc_area], by what the search of the bitmap gives. *)
Section AreaOutcomes.
Context (s : pmm_state) (size : Z).
Let b := s.(pmm_bitmap).
Let n := get_number_of_pages_from_size size.
Hypothesis Hi : pmm_inv s.
Hypothesis Hsize : 0 < size <= 2 ^ 64 - PAGE_SIZE_IN_BYTES.

Lemma area_pages_bounds : 1 <= n /\ size <= n * PAGE_SIZE_IN_BYTES < size + PAGE_SIZE_IN_BYTES.
Proof.
  pose proof page_size_bounds. assert (0 <= size <= 2 ^ 64 - PAGE_SIZE_IN_BYTES) as Hs by lia.
  pose proof (get_number_of_pages_no_wrap size Hs) as Hn. fold n in Hn. pose proof (round_up_spec size) as [Hup _]. nia.
Qed.

Lemma area_unavailable : b.(bitmap_size) <= b.(used_frames) -> pmm_alloc_area size s = Ret (0, s).
Proof.
  intros Hge. unfold pmm_alloc_area. rewrite !(bind_run _ _ _ _ _ (availability_run s)).
  by destruct (Z.ltb_spec s.(pmm_bitmap).(used_frames) s.(pmm_bitmap).(bitmap_size)) as [Hlt|]; [subst b; lia|].
Qed.

Hypothesis Havail : b.(used_frames) < b.(bitmap_size).

(** The -1 of the search is used as a frame number. *)
Lemma area_not_found : _bitmap_request_frames n b = Ret (-1, b) -> pmm_alloc_area size s = Fault OutOfBounds.
Proof.
  intros Hrun. pose proof area_pages_bounds. pose proof (inv_capacity_small s Hi). unfold pmm_alloc_area. fold n.
  rewrite !(bind_run _ _ _ _ _ (availability_run s)).
  destruct (Z.ltb_spec s.(pmm_bitmap).(used_frames) s.(pmm_bitmap).(bitmap_size)) as [_|]; [|subst b; lia].
  cbn [negb]. rewrite !(bind_run _ _ _ _ _ (acquire_run s (inv_lock s Hi))).
  rewrite !(bind_run _ _ _ _ _ (in_bitmap_read (_bitmap_request_frames n) (lock_held s) _ Hrun)).
  apply bind_fault. unfold for_upto. replace (Z.to_nat n) with (S (Z.to_nat (n - 1))) by lia. cbn [for_from].
  apply bind_fault, in_bitmap_fault, _bitmap_set_bit_out_of_bounds.
  unfold frames_of in *. simpl. change (u64 (u64 (-1) + 0)) with (2 ^ 64 - 1). lia.
Qed.

(** A run of free frames is marked and handed out. *)
Lemma area_found start : _bitmap_request_frames n b = Ret (start, b) -> free_run b.(memory_map) start n ->
  exists s', pmm_alloc_area size s = Ret (start * PAGE_SIZE_IN_BYTES, s') /\ 0 < start /\
    (forall m, m ∈ used s' <-> m ∈ used s \/ start <= m < start + n) /\ pmm_inv s'.
Proof.
  intros Hrun Hfree. pose proof area_pages_bounds. pose proof (inv_capacity_small s Hi). pose proof page_size_bounds.
  pose proof Hfree as (Hs0 & Hs1 & Hf).
  assert (0 < start) as Hstart.
  { destruct (decide (start = 0)) as [->|]; [|lia]. pose proof (inv_zero s Hi) as Hz.
    apply elem_of_used_set in Hz as [_ Hz]. subst b. rewrite Hf in Hz by lia. done. }
  unfold pmm_alloc_area. fold n. rewrite !(bind_run _ _ _ _ _ (availability_run s)).
  destruct (Z.ltb_spec s.(pmm_bitmap).(used_frames) s.(pmm_bitmap).(bitmap_size)) as [_|]; [|subst b; lia].
  cbn [negb]. rewrite !(bind_run _ _ _ _ _ (acquire_run s (inv_lock s Hi))).
  rewrite !(bind_run _ _ _ _ _ (in_bitmap_read (_bitmap_request_frames n) (lock_held s) _ Hrun)).
  destruct (mark_range_run s start n Hi Hfree ltac:(lia)) as (rows & Hmark & Hm).
  pose proof (inv_used_bound _ (marked_inv _ _ _ _ Hm)) as Hub.
  rewrite (marked_frames_of _ _ _ _ Hm) in Hub. simpl in Hub.
  subst b. unfold frames_of in *. rewrite (u64_small start) by lia.
  rewrite (bind_run _ _ _ _ _ Hmark), (bind_run _ _ _ _ _ (add_used_frames_run _ _)).
  rewrite u32_small by (simpl; lia).
  rewrite (bind_run _ _ _ _ _ (release_run _ _ (inv_lock _ (marked_inv _ _ _ _ Hm)) eq_refl)).
  unfold ret. rewrite page_address_small with (s := s) by (done || (unfold frames_of; lia)).
  eexists _. split; [done|]. split; [done|]. split; [apply Hm|apply Hm].
Qed.
End AreaOutcomes.

(** What [pmm_alloc_area_spec] below says. *)
Lemma pmm_alloc_area_cases s size :
  pmm_inv s -> 0 < size <= 2 ^ 64 - PAGE_SIZE_IN_BYTES -> no_skipped_row s.(pmm_bitmap).(memory_map) ->
  let b := s.(pmm_bitmap) in
  let n := get_number_of_pages_from_size size in
  size <= n * PAGE_SIZE_IN_BYTES < size + PAGE_SIZE_IN_BYTES /\
  ((b.(bitmap_size) <= b.(used_frames) /\ pmm_alloc_area size s = Ret (0, s)) \/
   (b.(used_frames) < b.(bitmap_size) /\ exists start s',
      pmm_alloc_area size s = Ret (start * PAGE_SIZE_IN_BYTES, s') /\ 0 < start /\
      free_run b.(memory_map) start n /\ (forall a, a < start -> ~ free_run b.(memory_map) a n) /\
      (forall m, m ∈ used s' <-> m ∈ used s \/ start <= m < start + n) /\ pmm_inv s') \/
   (b.(used_frames) < b.(bitmap_size) /\ (forall a, ~ free_run b.(memory_map) a n) /\
      pmm_alloc_area size s = Fault OutOfBounds)).
Proof.
  intros Hi Hsize Hskip b n. subst b. pose proof (area_pages_bounds size Hsize) as [Hn1 Hn]. split; [done|].
  destruct (decide (s.(pmm_bitmap).(used_frames) < s.(pmm_bitmap).(bitmap_size))) as [Hlt|];
    [right|left; split; [lia|apply area_unavailable; lia]].
  destruct (request_frames_run s.(pmm_bitmap) n (inv_wf s Hi) Hskip ltac:(subst n; lia))
    as (start & Hrun & [[-> Hnone]|[Hfree Hfirst]]).
  - right. split; [done|]. split; [done|]. by apply area_not_found.
  - left. split; [done|]. destruct (area_found s size Hi Hsize Hlt start Hrun Hfree) as (s' & ? & ? & ? & ?). by exists start, s'.
Qed.

(** [pmm_alloc_area], on every branch, for a size whose rounding to pages fits
    64 bits and a bitmap without skipped rows: with no frame left by the counter it
    returns NULL; otherwise it returns the address of the lowest run of adjacent
    free frames that holds the area, marks exactly those frames and keeps the
    invariant; when there is no such run, the -1 of the search is used as a frame
    number and the write falls outside the bitmap. *)
Theorem pmm_alloc_area_spec s size :
  pmm_inv s -> 0 < size <= 2 ^ 64 - PAGE_SIZE_IN_BYTES -> no_skipped_row s.(pmm_bitmap).(memory_map) ->
  let b := s.(pmm_bitmap) in
  let n := get_number_of_pages_from_size size in
  size <= n * PAGE_SIZE_IN_BYTES < size + PAGE_SIZE_IN_BYTES /\
  ((b.(bitmap_size) <= b.(used_frames) /\ pmm_alloc_area size s = Ret (0, s)) \/
   (b.(used_frames) < b.(bitmap_size) /\ exists start s',
      pmm_alloc_area size s = Ret (start * PAGE_SIZE_IN_BYTES, s') /\ 0 < start /\
      free_run b.(memory_map) start n /\ (forall a, a < start -> ~ free_run b.(memory_map) a n) /\
      (forall m, m ∈ used s' <-> m ∈ used s \/ start <= m < start + n) /\ pmm_inv s') \/
   (b.(used_frames) < b.(bitmap_size) /\ (forall a, ~ free_run b.(memory_map) a n) /\
      pmm_alloc_area size s = Fault OutOfBounds)).
Proof. apply pmm_alloc_area_cases. Qed.
End AreaTheorems.

(** *** Reserving the unusable entries of the memory map *)

(** What [_mmap_setup] takes for unusable: below the end of the last available
    entry, and of a type above 1. *)
Definition unusable (upper : Z) (e : multiboot_memory_map_t) : bool :=
  (e.(addr) <? upper) && (1 <? e.(type)).
Definition unusable_entries (upper : Z) (es : list multiboot_memory_map_t) : list multiboot_memory_map_t :=
  filter (fun e => unusable upper e = true) es.

Section MmapSetup.
Context `{PageConfig}.
Implicit Types (s t : pmm_state).
Context (s : pmm_state) (last : multiboot_memory_map_t).

Let mm := s.(pmm_bitmap).(bm_mmap).
Let es := mm.(mmap_entries).
Let upper := u64 (last.(addr) + last.(len)).

(** The memory map fits the bitmap: as many entries as the counter says, and every
    area to reserve inside the frames the bitmap has. *)
Definition setup_ok : Prop :=
  pmm_inv s /\ mm.(mmap_number_of_entries) = Z.of_nat (length es) /\
  es !! Z.to_nat mm.(_mmap_last_available_item) = Some last /\
  Forall (fun e => unusable upper e = true ->
            0 <= e.(addr) /\ e.(addr) / PAGE_SIZE_IN_BYTES + area_frames e.(len) <= frames_of s) es.

(** After the first [j] entries. *)
Definition setup_inv (j : Z) t : Prop :=
  pmm_inv t /\ frames_of t = frames_of s /\ used s ⊆ used t /\
  t.(pmm_bitmap).(bm_mmap) =
    set_count_physical_reserved (u8 (Z.of_nat (length (unusable_entries upper (take (Z.to_nat j) es))))) mm /\
  (forall e, e ∈ unusable_entries upper (take (Z.to_nat j) es) -> 0 < area_frames e.(len) ->
     e.(addr) / PAGE_SIZE_IN_BYTES ∈ used t) /\
  (forall m, m ∈ used t -> m ∈ used s \/ exists e, e ∈ unusable_entries upper es /\
     e.(addr) / PAGE_SIZE_IN_BYTES <= m < e.(addr) / PAGE_SIZE_IN_BYTES + area_frames e.(len)).

Lemma inv_other_mmap t m : pmm_inv t -> pmm_inv (set_pmm_bitmap (set_bm_mmap m t.(pmm_bitmap)) t).
Proof. intros [Hwf ? ? ? ?]. by constructor. Qed.

Lemma in_mmap_run {A} (m : M mmap_state A) t a m' :
  m t.(pmm_bitmap).(bm_mmap) = Ret (a, m') ->
  in_mmap m t = Ret (a, set_pmm_bitmap (set_bm_mmap m' t.(pmm_bitmap)) t).
Proof. intros Hm. apply in_bitmap_run. unfold zoom. by rewrite Hm. Qed.

Lemma get_entry_setup t i e c :
  t.(pmm_bitmap).(bm_mmap) = set_count_physical_reserved c mm -> es !! Z.to_nat i = Some e ->
  in_mmap (get_entry i) t = Ret (e, t).
Proof. intros Hm He. apply in_mmap_read. unfold get_entry, bind, get. rewrite Hm. simpl. fold es. by rewrite He. Qed.

Lemma unusable_entries_snoc j e :
  es !! Z.to_nat j = Some e -> 0 <= j ->
  unusable_entries upper (take (Z.to_nat (j + 1)) es) =
    unusable_entries upper (take (Z.to_nat j) es) ++ (if unusable upper e then [e] else []).
Proof.
  intros He Hj. replace (Z.to_nat (j + 1)) with (Datatypes.S (Z.to_nat j)) by lia.
  rewrite (take_S_r _ _ e He). unfold unusable_entries. rewrite filter_app. f_equal.
  rewrite filter_cons. destruct (unusable upper e) eqn:E; [by rewrite decide_True|by rewrite decide_False].
Qed.

Lemma setup_step j t :
  setup_ok -> 0 <= j < Z.of_nat (length es) -> setup_inv j t ->
  wp (_mmap_setup_step j) (fun _ => setup_inv (j + 1)) t.
Proof.
  intros (Hi & Hn & Hlast & Hall) Hj (Hit & Hfr & Hsub & Hmm & Hfirst & Honly).
  destruct (lookup_lt_is_Some_2 es (Z.to_nat j)) as [e He]; [lia|].
  pose proof (unusable_entries_snoc j e He ltac:(lia)) as Hsnoc.
  apply wp_run. unfold _mmap_setup_step. rewrite (bind_run get _ t t t eq_refl).
  rewrite Hmm. erewrite bind_run by (eapply get_entry_setup; [exact Hmm|exact Hlast]).
  erewrite bind_run by (eapply get_entry_setup; [exact Hmm|exact He]). fold upper.
  change ((e.(addr) <? upper) && (1 <? e.(type))) with (unusable upper e).
  destruct (unusable upper e) eqn:Hun.
  2:{ eexists _, _. split; [done|]. unfold setup_inv. by rewrite Hsnoc, app_nil_r. }
  destruct (Forall_lookup_1 _ _ _ _ Hall He Hun) as [Ha Hlen]. rewrite <- Hfr in Hlen.
  destruct (reserve_area_run t e.(addr) e.(len) Hit Ha Hlen) as (k & t' & Hrun & Hm & Hk & Hstop).
  rewrite (bind_run _ _ _ _ _ Hrun). pose proof (marked_used _ _ _ _ Hm) as Hused.
  pose proof (marked_frames_of _ _ _ _ Hm) as Hfr'. pose proof (marked_rows _ _ _ _ Hm) as (rows & Ht' & _).
  assert (t'.(pmm_bitmap).(bm_mmap) = t.(pmm_bitmap).(bm_mmap)) as Hmm' by by rewrite Ht'.
  eexists _, _. split; [by apply in_mmap_run|].
  unfold setup_inv. rewrite Hsnoc, length_app. cbn [pmm_bitmap set_pmm_bitmap bm_mmap set_bm_mmap].
  set (t2 := set_pmm_bitmap _ t').
  assert (used t2 = used t') as Hu2 by done. rewrite Hu2.
  split; [by apply inv_other_mmap, Hm|]. split; [by change (frames_of t' = frames_of s); rewrite Hfr'|].
  split; [intros m; rewrite Hused; set_solver|]. split; [|split].
  - rewrite Hmm', Hmm. unfold set_count_physical_reserved. simpl. f_equal.
    unfold u8. rewrite Zplus_mod_idemp_l. f_equal. lia.
  - intros e'. rewrite elem_of_app, list_elem_of_singleton. intros [Hin| ->] Hpos; rewrite Hused; [by left; apply Hfirst|].
    destruct (decide (k = 0)) as [->|]; [|right; lia]. left. rewrite <- (Z.add_0_r (_ / _)). apply Hstop. lia.
  - intros m. rewrite Hused. intros [Hin|Hin]; [by apply Honly|right]. exists e. split; [|lia].
    apply list_elem_of_filter. split; [done|]. by eapply list_elem_of_lookup_2.
Qed.

(** [_mmap_setup], given a memory map that fits the bitmap, marks the first
    frame of every unusable entry that has frames at all and no frame outside those
    entries, frees none, keeps the allocator's invariant, and leaves in
    [count_physical_reserved] the number of those entries modulo 256. *)
Theorem _mmap_setup_reserves :
  setup_ok ->
  exists s', _mmap_setup s = Ret (tt, s') /\ pmm_inv s' /\ used s ⊆ used s' /\
    (forall e, e ∈ unusable_entries upper es -> 0 < area_frames e.(len) ->
       e.(addr) / PAGE_SIZE_IN_BYTES ∈ used s') /\
    (forall m, m ∈ used s' -> m ∈ used s \/ exists e, e ∈ unusable_entries upper es /\
       e.(addr) / PAGE_SIZE_IN_BYTES <= m < e.(addr) / PAGE_SIZE_IN_BYTES + area_frames e.(len)) /\
    s'.(pmm_bitmap).(bm_mmap).(count_physical_reserved) = Z.of_nat (length (unusable_entries upper es)) mod 2 ^ 8.
Proof.
  intros Hok. pose proof Hok as (Hi & Hn & Hlast & Hall).
  set (s0 := set_pmm_bitmap (set_bm_mmap (set_count_physical_reserved 0 mm) s.(pmm_bitmap)) s).
  unfold _mmap_setup. assert (in_mmap (modify (set_count_physical_reserved 0)) s = Ret (tt, s0)) as Hr
    by by apply in_mmap_run.
  rewrite (bind_run _ _ _ _ _ Hr), (bind_run get _ s0 s0 s0 eq_refl).
  assert (0 < s0.(pmm_bitmap).(used_frames)) as Hpos.
  { change (0 < s.(pmm_bitmap).(used_frames)). rewrite (inv_count s Hi). pose proof (inv_zero s Hi) as Hz.
    assert (size (used s) <> 0%nat); [intros ?%size_empty_inv; unfold used in *; set_solver|unfold used in *; lia]. }
  destruct (Z.ltb_spec 0 s0.(pmm_bitmap).(used_frames)) as [_|]; [|lia].
  assert (wp (for_upto s0.(pmm_bitmap).(bm_mmap).(mmap_number_of_entries) _mmap_setup_step)
    (fun _ => setup_inv (Z.of_nat (length es))) s0) as Hwp.
  { unfold for_upto. apply (wp_for_from setup_inv).
    - unfold setup_inv. rewrite Z2Nat.inj_0, take_0. split_and!; [by apply inv_other_mmap|done|done|done| |].
      + intros e Hin. unfold unusable_entries in Hin. by apply elem_of_nil in Hin.
      + intros m Hin. by left.
    - intros j t Hj. change (mmap_number_of_entries _) with mm.(mmap_number_of_entries) in Hj.
      apply setup_step; [done|lia].
    - intros t. change (mmap_number_of_entries _) with mm.(mmap_number_of_entries).
      rewrite Hn. by rewrite Z2Nat.id, Z.add_0_l by lia. }
  apply wp_run in Hwp as ([] & s' & Hrun & Hi' & _ & Hsub & Hmm & Hfirst & Honly).
  rewrite Nat2Z.id, firstn_all in Hmm, Hfirst. exists s'. rewrite Hmm. by split_and!.
Qed.
End MmapSetup.

(** *** Page tables before the allocator is initialised *)

(** The availability test answers [answer] for the page at [p]. *)
Definition page_available (m : mmap_state) (p : Z) (answer : bool) : Prop :=
  _mmap_is_address_in_available_space p PAGE_DIR_SIZE m = Ret (answer, m).

Lemma page_available_total m p tags :
  mmap_wf m -> all_tags m = Some tags -> 0 <= p -> p + PAGE_DIR_SIZE < 2 ^ 64 ->
  exists answer, page_available m p answer.
Proof.
  intros Hwf Ht Hp Hb.
  destruct (available_space_total m p PAGE_DIR_SIZE tags) as (a & Ha & _); eauto. done.
Qed.

Lemma set_anon_id s : set_anon s.(anon_memory_loc) s.(anon_physical_memory_loc) s = s.
Proof. by destruct s. Qed.

Section EarlyTables.
Context (s : pmm_state) (tags : list multiboot_tag).
Let m := s.(pmm_bitmap).(bm_mmap).
Let size := s.(pmm_bitmap).(memory_size_in_bytes).
Let p0 := s.(anon_physical_memory_loc).
Let v0 := s.(anon_memory_loc).
Hypothesis Hwf : mmap_wf m.
Hypothesis Htags : all_tags m = Some tags.
Hypothesis Hp0 : 0 <= p0 < 2 ^ 62.
Hypothesis Hv0 : 0 <= v0 < 2 ^ 64 - 2 ^ 63.
Hypothesis Hsize : 0 <= size < 2 ^ 62.

(** The state with both cursors [k] pages further. *)
Definition advanced (k : Z) : pmm_state := set_anon (v0 + k * PAGE_DIR_SIZE) (p0 + k * PAGE_DIR_SIZE) s.

Lemma prepare_pagetable_loop_spec (fuel : nat) : forall k,
  0 <= k -> k * PAGE_DIR_SIZE <= size + PAGE_DIR_SIZE -> size < (k + Z.of_nat fuel - 1) * PAGE_DIR_SIZE ->
  exists k', prepare_pagetable_loop fuel (advanced k) = Ret (tt, advanced k') /\ k <= k' /\
    p0 + k' * PAGE_DIR_SIZE <= Z.max (p0 + k * PAGE_DIR_SIZE) (size + PAGE_DIR_SIZE) /\
    (page_available m (p0 + k' * PAGE_DIR_SIZE) true \/ size <= p0 + k' * PAGE_DIR_SIZE) /\
    (forall j, k <= j < k' -> page_available m (p0 + j * PAGE_DIR_SIZE) false).
Proof.
  unfold PAGE_DIR_SIZE. induction fuel as [|fuel IH]; intros k Hk Hks Hf; [lia|].
  cbn [prepare_pagetable_loop]. unfold bind at 1, get.
  destruct (page_available_total m (p0 + k * PAGE_DIR_SIZE) tags Hwf Htags) as [a Ha];
    [unfold PAGE_DIR_SIZE; lia|unfold PAGE_DIR_SIZE; lia|].
  rewrite (bind_run _ _ _ _ _ (in_mmap_read (_mmap_is_address_in_available_space
    (anon_physical_memory_loc (advanced k)) PAGE_DIR_SIZE) (advanced k) a Ha)).
  unfold page_available in *. change (anon_physical_memory_loc (advanced k)) with (p0 + k * PAGE_DIR_SIZE).
  change (memory_size_in_bytes _) with size. unfold PAGE_DIR_SIZE in *.
  destruct a; cbn [negb andb].
  { exists k. split; [done|]. split; [lia|]. split; [lia|]. split; [by left|lia]. }
  destruct (Z.ltb_spec (p0 + k * 0x1000) size) as [Hlt|Hge].
  2:{ exists k. split; [done|]. split; [lia|]. split; [lia|]. split; [by right|lia]. }
  erewrite bind_run by done. simpl anon_memory_loc. unfold PAGE_DIR_SIZE.
  rewrite (u64_small (v0 + k * 4096 + 4096)), (u64_small (p0 + k * 4096 + 4096)) by lia.
  replace (v0 + k * 4096 + 4096) with (v0 + (k + 1) * 4096) by lia.
  replace (p0 + k * 4096 + 4096) with (p0 + (k + 1) * 4096) by lia.
  destruct (IH (k + 1)) as (k' & Hrun & Hkk & Hmax & Hav & Hno); [lia|lia|lia|].
  exists k'. split; [exact Hrun|]. split; [lia|]. split; [lia|]. split; [done|].
  intros j Hj. destruct (decide (j = k)) as [->|]; [done|apply Hno; lia].
Qed.

(** Before the allocator is initialised, [pmm_prepare_new_pagetable] returns
    the first page from the cursor on that the memory map reports available, or
    the first one past the end of memory, and moves both cursors, which keep their
    distance, just past it: no two calls return overlapping pages. *)
Theorem pmm_prepare_new_pagetable_bump `{PageConfig} :
  s.(pmm_initialized) = false ->
  exists k, 0 <= k /\ let p := p0 + k * PAGE_DIR_SIZE in
    pmm_prepare_new_pagetable s =
      Ret (p, set_anon (v0 + (k + 1) * PAGE_DIR_SIZE) (p + PAGE_DIR_SIZE) s) /\
    (page_available m p true \/ size <= p) /\
    (forall j, 0 <= j < k -> page_available m (p0 + j * PAGE_DIR_SIZE) false).
Proof.
  intros Hinit.
  destruct (prepare_pagetable_loop_spec (Datatypes.S (Datatypes.S (Z.to_nat (size / PAGE_DIR_SIZE)))) 0)
    as (k & Hrun & Hk & Hmax & Hav & Hno); [done|unfold PAGE_DIR_SIZE; lia| |].
  { pose proof (div_bounds size PAGE_DIR_SIZE eq_refl).
    assert (0 <= size / PAGE_DIR_SIZE) by (apply Z.div_pos; [lia|done]). unfold PAGE_DIR_SIZE in *. lia. }
  exists k. split; [done|]. split; [|by split].
  unfold pmm_prepare_new_pagetable. unfold bind at 1, get. rewrite Hinit. cbn [negb].
  assert (advanced 0 = s) as E by (unfold advanced; rewrite !Z.add_0_r; apply set_anon_id).
  rewrite E in Hrun. rewrite (bind_run _ _ _ _ _ Hrun). erewrite bind_run by done.
  unfold gets. simpl. unfold PAGE_DIR_SIZE in *.
  rewrite (u64_small (v0 + k * 4096 + 4096)), (u64_small (p0 + k * 4096 + 4096)) by lia.
  rewrite u64_small by lia. replace (v0 + k * 4096 + 4096) with (v0 + (k + 1) * 4096) by lia.
  by replace (p0 + k * 4096 + 4096 - 4096) with (p0 + k * 4096) by lia.
Qed.
End EarlyTables.

(** *** Witnesses *)

(** Two rows, their first five frames in use. *)
Definition sample_pmm : pmm_state :=
  mk_pmm (mk_bitmap [31; 0] 0 2 128 5 0 0x3ff7fc00 0 sample_map) (mk_spinlock false) true 0x700000 0x600000.

Lemma sample_pmm_inv : pmm_inv sample_pmm.
Proof.
  constructor; simpl.
  - split; [|done]. repeat (apply Forall_cons_2; [lia|]). apply Forall_nil_2.
  - unfold capacity. simpl. lia.
  - done.
  - vm_compute. reflexivity.
  - apply elem_of_used_set. split; [unfold capacity; simpl; lia|done].
Qed.

Lemma pmm_alloc_frame_spec_witness :
  pmm_inv sample_pmm /\
  exists s', @pmm_alloc_frame large_pages sample_pmm = Ret (5 * 0x200000, s') /\ used s' = {[5]} ∪ used sample_pmm.
Proof.
  split; [exact sample_pmm_inv|].
  destruct (@pmm_alloc_frame_spec large_pages sample_pmm sample_pmm_inv)
    as [[H _]|[(_ & r & s' & Hrun & _ & _ & Hu & _)|(_ & _ & _ & H)]].
  - exfalso. simpl in H. lia.
  - assert (exists t, @pmm_alloc_frame large_pages sample_pmm = Ret (5 * 0x200000, t)) as [t Ht]
      by (eexists; vm_compute; reflexivity).
    rewrite Hrun in Ht. injection Ht as Hr <-. exists s'.
    change (@PAGE_SIZE_IN_BYTES large_pages) with 0x200000 in *.
    assert (r = 5) as -> by lia. split; [exact Hrun|exact Hu].
  - exfalso. vm_compute in H. discriminate H.
Defined.

Lemma pmm_alloc_free_round_trip_witness :
  exists r s', pmm_inv sample_pmm /\ @pmm_alloc_frame large_pages sample_pmm = Ret (r, s') /\ r <> 0 /\
    @pmm_free_frame large_pages r s' = Ret (tt, sample_pmm).
Proof.
  assert (exists s', @pmm_alloc_frame large_pages sample_pmm = Ret (0xa00000, s')) as [s' Hrun]
    by (eexists; vm_compute; reflexivity).
  exists 0xa00000, s'. split; [exact sample_pmm_inv|]. split; [exact Hrun|]. split; [lia|].
  refine (@pmm_alloc_free_round_trip large_pages sample_pmm _ s' sample_pmm_inv Hrun _). lia.
Defined.

Lemma pmm_free_frame_spec_witness :
  pmm_inv sample_pmm /\
  exists s', @pmm_free_frame large_pages 0x600000 sample_pmm = Ret (tt, s') /\
    used s' = used sample_pmm ∖ {[0x600000 / 0x200000]}.
Proof.
  split; [exact sample_pmm_inv|].
  assert (@PAGE_SIZE_IN_BYTES large_pages <= 0x600000) as Hp by (vm_compute; discriminate).
  destruct (@pmm_free_frame_spec large_pages sample_pmm 0x600000 sample_pmm_inv Hp)
    as [(_ & s' & Hrun & Hu & _)|(H & _)].
  - exists s'. split; [exact Hrun|exact Hu].
  - exfalso. vm_compute in H. by apply H.
Defined.

Lemma sample_pmm_no_skipped_row : no_skipped_row sample_pmm.(pmm_bitmap).(memory_map).
Proof. intros [|[|i]] H; vm_compute in H; discriminate H. Qed.

Lemma pmm_alloc_area_spec_witness :
  pmm_inv sample_pmm /\
  exists s', @pmm_alloc_area large_pages 0x200001 sample_pmm = Ret (0xa00000, s') /\ pmm_inv s'.
Proof.
  split; [exact sample_pmm_inv|].
  assert (exists t, @pmm_alloc_area large_pages 0x200001 sample_pmm = Ret (0xa00000, t)) as [t Ht]
    by (eexists; vm_compute; reflexivity).
  assert (0 < 0x200001 <= 2 ^ 64 - @PAGE_SIZE_IN_BYTES large_pages) as Hsz by (split; [lia|vm_compute; discriminate]).
  destruct (@pmm_alloc_area_spec large_pages sample_pmm 0x200001 sample_pmm_inv Hsz sample_pmm_no_skipped_row)
    as [_ [[H _]|[(_ & r & s' & Hrun & _ & _ & _ & _ & Hinv)|(_ & _ & H)]]].
  - exfalso. simpl in H. lia.
  - rewrite Hrun in Ht. injection Ht as Hr <-. exists s'. rewrite Hrun, Hr. split; [reflexivity|exact Hinv].
  - rewrite H in Ht. discriminate Ht.
Defined.

Lemma pmm_reserve_area_spec_witness :
  pmm_inv sample_pmm /\
  exists s', @pmm_reserve_area large_pages 0xa00000 0x400001 sample_pmm = Ret (tt, s') /\ pmm_inv s'.
Proof.
  split; [exact sample_pmm_inv|].
  assert (0 <= 0xa00000) as Ha by lia.
  assert (0xa00000 / @PAGE_SIZE_IN_BYTES large_pages + @area_frames large_pages 0x400001 <= frames_of sample_pmm) as Hl
    by (vm_compute; discriminate).
  destruct (@pmm_reserve_area_spec large_pages sample_pmm 0xa00000 0x400001 sample_pmm_inv Ha Hl)
    as (k & s' & Hrun & Hinv & _).
  exists s'. split; [exact Hrun|exact Hinv].
Defined.

(** The reserved entry of [sample_map], under a bitmap of 4 KiB pages. *)
Definition sample_setup_pmm : pmm_state :=
  mk_pmm (mk_bitmap [1; 0; 0; 0] 0 4 256 1 0 0x3ff7fc00 0 sample_map) (mk_spinlock false) false 0x700000 0x600000.

Lemma _mmap_setup_reserves_witness :
  @setup_ok small_pages sample_setup_pmm (mk_entry 0x100000 0x3fee0000 1) /\
  exists s', @_mmap_setup small_pages sample_setup_pmm = Ret (tt, s') /\ pmm_inv s' /\
    s'.(pmm_bitmap).(bm_mmap).(count_physical_reserved) = 1.
Proof.
  assert (@setup_ok small_pages sample_setup_pmm (mk_entry 0x100000 0x3fee0000 1)) as Hok.
  { split; [|split; [reflexivity|split; [reflexivity|]]].
    - constructor; simpl.
      + split; [|done]. repeat (apply Forall_cons_2; [lia|]). apply Forall_nil_2.
      + unfold capacity. simpl. lia.
      + done.
      + vm_compute. reflexivity.
      + apply elem_of_used_set. split; [unfold capacity; simpl; lia|done].
    - repeat (apply Forall_cons_2; [intros H; vm_compute in H; try discriminate H; split; vm_compute; discriminate|]).
      apply Forall_nil_2. }
  split; [exact Hok|].
  destruct (@_mmap_setup_reserves small_pages sample_setup_pmm _ Hok) as (s' & Hrun & Hinv & _ & _ & _ & Hc).
  exists s'. split; [exact Hrun|]. split; [exact Hinv|]. rewrite Hc. vm_compute. reflexivity.
Defined.

Lemma pmm_prepare_new_pagetable_bump_witness :
  mmap_wf sample_map /\ all_tags sample_map = Some [] /\
  exists k, 0 <= k /\ @pmm_prepare_new_pagetable large_pages sample_setup_pmm =
    Ret (0x600000 + k * PAGE_DIR_SIZE,
         set_anon (0x700000 + (k + 1) * PAGE_DIR_SIZE) (0x600000 + k * PAGE_DIR_SIZE + PAGE_DIR_SIZE) sample_setup_pmm).
Proof.
  assert (all_tags sample_map = Some []) as Htags by (vm_compute; reflexivity).
  split; [exact sample_map_wf|]. split; [exact Htags|].
  destruct (@pmm_prepare_new_pagetable_bump sample_setup_pmm [] sample_map_wf Htags ltac:(simpl; lia)
    ltac:(simpl; lia) ltac:(simpl; lia) large_pages eq_refl) as (k & Hk & Hrun & _).
  exists k. split; [exact Hk|exact Hrun].
Defined.

(** Allocating [n] frames in a row. *)
Fixpoint alloc_frames `{PageConfig} (n : nat) : M pmm_state Z :=
  match n with
  | O => ret 0
  | Datatypes.S n' => do! pmm_alloc_frame in alloc_frames n'
  end.

(** [sample_pmm] with the 60 low frames of both rows in use. *)
Definition full_pmm : pmm_state := with_rows [2 ^ 60 - 1; 2 ^ 60 - 1] 120 sample_pmm.

Lemma full_pmm_inv : pmm_inv full_pmm.
Proof.
  constructor.
  - split; [|done]. repeat (apply Forall_cons_2; [lia|]). apply Forall_nil_2.
  - vm_compute. split; discriminate.
  - done.
  - vm_compute. reflexivity.
  - apply elem_of_used_set. split; [unfold capacity; simpl; lia|done].
Qed.

(** Allocating until the memory is full does not end in NULL: from
    [sample_pmm], 5 of whose 128 frames are in use, 115 allocations succeed and the
    next one writes outside the bitmap, 8 frames being free still. *)
Theorem pmm_alloc_frame_exhaustion_faults :
  (exists r, @alloc_frames large_pages 115 sample_pmm = Ret (r, full_pmm)) /\ pmm_inv full_pmm /\
  full_pmm.(pmm_bitmap).(used_frames) = 120 /\ full_pmm.(pmm_bitmap).(bitmap_size) = 128 /\
  @pmm_alloc_frame large_pages full_pmm = Fault OutOfBounds.
Proof.
  split; [eexists; vm_compute; reflexivity|]. split; [exact full_pmm_inv|]. split; [done|]. split; [done|].
  apply pmm_alloc_frame_not_found; [exact full_pmm_inv|simpl; lia|vm_compute; reflexivity].
Qed.
