(* ===== verification/PmmRun.v ===== *)
(** Runs of the physical memory manager of [kernel/mem/pmm.c]: who owns which frame
    after any sequence of its operations. *)
From S2P Require Import Prelude VmmUtil Mmap Bitmap Spinlock Pmm.

Section Run.
Context `{PageConfig}.
Implicit Types (s : pmm_state) (owned : list Z).

(** The frames that a search for [n] of them gives lie in rows the search looks at: no
    row equal to [BITMAP_ENTRY_FULL] is among them. *)
Definition area_unskipped (n : Z) s : Prop := forall start l,
  _bitmap_request_frames n s.(pmm_bitmap) = Ret (start, s.(pmm_bitmap)) -> start <> -1 ->
  start <= l < start + n -> row_visible s.(pmm_bitmap).(memory_map) l.

Lemma no_skipped_unskipped n s : no_skipped_row s.(pmm_bitmap).(memory_map) -> area_unskipped n s.
Proof. intros Hs start l _ _ _. apply Hs. Qed.

(** A run, with the frames handed out and not freed. Frees are of frames handed out.
    An area is asked for where the frames found do not go across a skipped row: where
    they do, [pmm_alloc_area] hands out frames in use ([area_over_skipped_row]). *)
Inductive pmm_run : pmm_state -> list Z -> Prop :=
| run_start s : pmm_inv s -> pmm_run s []
| run_alloc_frame s owned a s' :
    pmm_run s owned -> pmm_alloc_frame s = Ret (a, s') ->
    pmm_run s' (if a =? 0 then owned else a / PAGE_SIZE_IN_BYTES :: owned)
| run_alloc_area s owned size a s' :
    pmm_run s owned -> 0 < size <= 2 ^ 64 - PAGE_SIZE_IN_BYTES ->
    area_unskipped (get_number_of_pages_from_size size) s ->
    pmm_alloc_area size s = Ret (a, s') ->
    pmm_run s' (if a =? 0 then owned
                else seqZ (a / PAGE_SIZE_IN_BYTES) (get_number_of_pages_from_size size) ++ owned)
| run_free_frame s owned1 l owned2 s' :
    pmm_run s (owned1 ++ l :: owned2) -> pmm_free_frame (l * PAGE_SIZE_IN_BYTES) s = Ret (tt, s') ->
    pmm_run s' (owned1 ++ owned2)
| run_reserve_area s owned address size s' :
    pmm_run s owned -> 0 <= address -> address / PAGE_SIZE_IN_BYTES + area_frames size <= frames_of s ->
    pmm_reserve_area address size s = Ret (tt, s') -> pmm_run s' owned.

(** What the operations keep. *)
Record frames_owned s owned : Prop := {
  fo_inv : pmm_inv s;
  fo_distinct : NoDup owned;
  fo_used : Forall (fun l => 0 < l /\ l ∈ used s) owned;
}.

Lemma owned_more s s' owned new :
  frames_owned s owned -> pmm_inv s' -> NoDup new -> (forall l, l ∈ new -> 0 < l /\ l ∉ used s) ->
  (forall l, l ∈ used s' <-> l ∈ used s \/ l ∈ new) -> frames_owned s' (new ++ owned).
Proof.
  intros [_ Hnd Hu] Hinv Hnew Hfresh Hused. rewrite Forall_forall in Hu. split; [done| |].
  - apply NoDup_app. split_and!; [done| |done]. intros l Hl Ho. destruct (Hfresh l Hl) as [_ Hn]. by apply Hn, Hu.
  - apply Forall_forall. intros l. rewrite elem_of_app, Hused. intros [Hl|Hl]; [split; [by apply Hfresh|by right]|].
    split; [|left]; by apply Hu.
Qed.

(** An area handed out is a run of free frames. *)
Lemma area_free_run s size : pmm_inv s -> 0 < size <= 2 ^ 64 - PAGE_SIZE_IN_BYTES ->
  s.(pmm_bitmap).(used_frames) < s.(pmm_bitmap).(bitmap_size) ->
  area_unskipped (get_number_of_pages_from_size size) s ->
  forall a s', pmm_alloc_area size s = Ret (a, s') -> exists start,
    _bitmap_request_frames (get_number_of_pages_from_size size) s.(pmm_bitmap) = Ret (start, s.(pmm_bitmap)) /\
    free_run s.(pmm_bitmap).(memory_map) start (get_number_of_pages_from_size size).
Proof.
  intros Hi Hsize Hlt Hskip a s' Hrun. pose proof (area_pages_bounds size Hsize) as [Hn _].
  assert (0 < get_number_of_pages_from_size size) as Hpos by lia.
  destruct (request_frames_scan s.(pmm_bitmap) _ (inv_wf s Hi) Hpos) as (start & Hreq & [[-> _]|(p & -> & Hp & _)]).
  - by rewrite (area_not_found s size Hi Hsize Hlt Hreq) in Hrun.
  - eexists. split; [done|]. apply scan_run_adjacent; [lia|done|]. intros l. apply Hskip; [done|].
    destruct Hp as (H0 & Hl & _). pose proof (scan_frame_range s.(pmm_bitmap).(memory_map) p ltac:(lia)). lia.
Qed.

Lemma run_owned s owned : pmm_run s owned -> frames_owned s owned.
Proof.
  pose proof page_size_bounds.
  induction 1 as [s Hi|s owned a s' _ IH Hrun|s owned size a s' _ IH Hsize Hskip Hrun|s o1 l o2 s' _ IH Hrun|
    s owned address size s' _ IH Ha Hfr Hrun].
  - split; [done|apply NoDup_nil_2|apply Forall_nil_2].
  - destruct (pmm_alloc_frame_cases s (fo_inv _ _ IH)) as [[_ E]|[(_ & r & s1 & E & Hr & Hfree & Hu & _ & _ & Hinv & _)|(_ & _ & _ & E)]];
      rewrite E in Hrun; [by injection Hrun as <- <-| |done].
    injection Hrun as <- <-. destruct (Z.eqb_spec (r * PAGE_SIZE_IN_BYTES) 0); [nia|]. rewrite Z.div_mul by lia.
    apply (owned_more s s1 owned [r]); [done|done|apply NoDup_singleton| |].
    + intros ? ->%list_elem_of_singleton. split; [lia|done].
    + intros l. rewrite Hu. set_solver.
  - destruct (decide (s.(pmm_bitmap).(used_frames) < s.(pmm_bitmap).(bitmap_size))) as [Hlt|];
      [|rewrite (area_unavailable s size) in Hrun by lia; by injection Hrun as <- <-].
    destruct (area_free_run s size (fo_inv _ _ IH) Hsize Hlt Hskip _ _ Hrun) as (start & Hreq & Hfree).
    destruct (area_found s size (fo_inv _ _ IH) Hsize Hlt start Hreq Hfree) as (s1 & E & Hstart & Hu & Hinv).
    rewrite E in Hrun. injection Hrun as <- <-. destruct (Z.eqb_spec (start * PAGE_SIZE_IN_BYTES) 0); [nia|]. rewrite Z.div_mul by lia.
    apply (owned_more s s1); [done|done|apply NoDup_seqZ| |].
    + intros l Hl%elem_of_seqZ. split; [lia|]. destruct Hfree as (_ & _ & Hf). unfold used. rewrite elem_of_used_set.
      intros [_ Hb]. rewrite Hf in Hb by lia. done.
    + intros l. by rewrite Hu, elem_of_seqZ.
  - destruct IH as [Hinv Hnd Hu]. rewrite Forall_forall in Hu. destruct (Hu l ltac:(set_solver)) as [Hl Hlu].
    assert (NoDup (o1 ++ o2) /\ l ∉ o1 ++ o2) as [Hnd' Hn].
    { rewrite Permutation_app_comm in Hnd. simpl in Hnd. apply NoDup_cons in Hnd as [Hn Hnd].
      rewrite (Permutation_app_comm o1 o2). by rewrite elem_of_app in Hn |- *. }
    assert (PAGE_SIZE_IN_BYTES <= l * PAGE_SIZE_IN_BYTES) as Hle by nia.
    destruct (pmm_free_frame_cases s (l * PAGE_SIZE_IN_BYTES) Hinv Hle) as [(_ & s1 & E & Hu' & Hiff)|[_ E]];
      rewrite E in Hrun; [|done]. injection Hrun as <-. rewrite Z.div_mul in Hu', Hiff by lia.
    split; [by apply Hiff|done|]. apply Forall_forall. intros m Hm. destruct (Hu m ltac:(set_solver)) as [? ?].
    split; [done|]. rewrite Hu'. assert (m <> l) by (intros ->; done). set_solver.
  - destruct IH as [Hinv Hnd Hu]. destruct (reserve_area_run s address size Hinv Ha Hfr) as (k & s1 & E & Hm & _).
    rewrite E in Hrun. injection Hrun as <-. destruct Hm as [_ _ Hused Hinv' _]. split; [done|done|].
    rewrite Forall_forall in Hu |- *. intros l Hl. destruct (Hu l Hl). split; [done|]. apply Hused. by left.
Qed.

(** C6: The operations of the physical memory manager keep it well formed. The sequences
    are of allocations of frames, of areas whose frames do not go across a row of the
    bitmap with its 60 low bits set and the others clear, of reservations, and of frees
    of frames handed out. After any of them the rows are 64-bit words, the lock is free, frame 0 is in use
    and the counter is the number of frames in use. Every frame handed out and not freed
    is in use, and no frame is handed out twice. An area that does go across such a row
    is left out, since [pmm_alloc_area] then hands out frames in use
    ([area_over_skipped_row]). *)
Theorem pmm_run_well_formed s owned : pmm_run s owned ->
  pmm_inv s /\ NoDup owned /\ Forall (fun l => 0 < l /\ l ∈ used s) owned.
Proof. intros [? ? ?]%run_owned. done. Qed.
End Run.

(** ** Witness *)

(** An area of two frames, then a frame. *)
Definition area_pmm : pmm_state := with_rows [127; 0] 7 sample_pmm.
Definition area_frame_pmm : pmm_state := with_rows [255; 0] 8 sample_pmm.

Lemma pmm_run_well_formed_witness :
  @pmm_alloc_area large_pages 0x200001 sample_pmm = Ret (0xa00000, area_pmm) /\
  @pmm_alloc_frame large_pages area_pmm = Ret (0xe00000, area_frame_pmm) /\
  pmm_inv area_frame_pmm /\ NoDup [7; 5; 6].
Proof.
  assert (@pmm_alloc_area large_pages 0x200001 sample_pmm = Ret (0xa00000, area_pmm)) as Ha by (vm_compute; reflexivity).
  assert (@pmm_alloc_frame large_pages area_pmm = Ret (0xe00000, area_frame_pmm)) as Hf by (vm_compute; reflexivity).
  split; [exact Ha|]. split; [exact Hf|].
  assert (0 < 0x200001 <= 2 ^ 64 - @PAGE_SIZE_IN_BYTES large_pages) as Hsize by (vm_compute; split; [reflexivity|discriminate]).
  pose proof (@run_alloc_area large_pages sample_pmm [] 0x200001 0xa00000 area_pmm (run_start _ sample_pmm_inv)
    Hsize (no_skipped_unskipped _ _ sample_pmm_no_skipped_row) Ha) as H1.
  pose proof (@run_alloc_frame large_pages area_pmm _ 0xe00000 area_frame_pmm H1 Hf) as H2.
  destruct (@pmm_run_well_formed large_pages _ _ H2) as (Hinv & Hnd & _).
  split; [exact Hinv|]. vm_compute in Hnd. exact Hnd.
Defined.

(** ** Areas across a skipped row *)

(** A manager of 192 frames with only frame 0 in use, after an area of 123 frames,
    and after frame 63 is freed again: row 1 has its 60 low frames in use. *)
Definition wide_pmm (rows : list Z) (n : Z) : pmm_state :=
  set_pmm_bitmap (mk_bitmap rows 0xffff800280200000 3 192 n 0 0x18000000 0xffff800280200000 sample_map) sample_pmm.
Definition after_area : pmm_state := wide_pmm [2 ^ 64 - 1; BITMAP_ENTRY_FULL; 0] 124.
Definition after_free : pmm_state := wide_pmm [2 ^ 63 - 1; BITMAP_ENTRY_FULL; 0] 123.

Lemma wide_pmm_inv : pmm_inv (wide_pmm [1; 0; 0] 1).
Proof.
  constructor; simpl.
  - split; [|done]. repeat (apply Forall_cons_2; [lia|]). apply Forall_nil_2.
  - unfold capacity. simpl. lia.
  - done.
  - vm_compute. reflexivity.
  - apply elem_of_used_set. split; [unfold capacity; simpl; lia|done].
Qed.

(** Two frames asked for next are frames 63 and 64, and frame 64 is already handed out. *)
Lemma area_over_skipped_row : exists owned s',
  @pmm_run large_pages after_free owned /\ 64 ∈ owned /\
  @pmm_alloc_area large_pages 0x400000 after_free = Ret (63 * 0x200000, s').
Proof.
  assert (@pmm_alloc_area large_pages (123 * 0x200000) (wide_pmm [1; 0; 0] 1) = Ret (0x200000, after_area)) as Ha by (vm_compute; reflexivity).
  assert (@pmm_free_frame large_pages (63 * @PAGE_SIZE_IN_BYTES large_pages) after_area = Ret (tt, after_free)) as Hf by (vm_compute; reflexivity).
  assert (0 < 123 * 0x200000 <= 2 ^ 64 - @PAGE_SIZE_IN_BYTES large_pages) as Hsize by (vm_compute; split; [reflexivity|discriminate]).
  pose proof (@run_alloc_area large_pages _ [] (123 * 0x200000) _ _ (run_start _ wide_pmm_inv) Hsize
    (no_skipped_unskipped _ (wide_pmm [1; 0; 0] 1) ltac:(intros [|[|[|i]]] H; vm_compute in H; discriminate H)) Ha) as H1.
  exists (seqZ 1 62 ++ seqZ 64 60). eexists. split; [|split].
  - exact (@run_free_frame large_pages after_area (seqZ 1 62) 63 (seqZ 64 60) after_free H1 Hf).
  - apply elem_of_app. right. apply elem_of_seqZ. lia.
  - vm_compute. reflexivity.
Qed.
