(* ===== verification/Kheap.v ===== *)
(** The kernel heap: [kernel/mem/kheap.c] (the parts compiled outside the tests).
    The heap is a doubly linked list of headers in memory; its abstraction is the
    list of its blocks, on which [alloc_blocks] and [free_blocks] say what
    [kmalloc] and [kfree] do. Pages come from the interface [VmmAlloc]. *)
From S2P Require Import Prelude VmmUtil.

Record KHeapMemoryNode : Type := mk_node {
  node_size : Z;
  is_free : bool;
  next : Z;
  prev : Z;
}.

Definition KERNEL_PAGE_SIZE `{PageConfig} : Z := if SMALL_PAGES then 0x1000 else 0x200000.
Definition HEAP_ALLOC_ALIGNMENT : Z := 0x10.
Definition KHEAP_MINIMUM_ALLOCABLE_SIZE : Z := 0x20.
Definition MERGE_RIGHT : Z := 1.
Definition MERGE_LEFT : Z := 2.
(** [sizeof(KHeapMemoryNode)]. *)
Definition header_size : Z := 32.

(** What the heap asks of the virtual memory manager, whose state is [V]:
    [vmm_alloc(size, flags, arg)] of [kernel/mem/vmm.c], 0 being NULL. *)
Class VmmAlloc (V : Type) : Type := vmm_alloc : Z -> Z -> Z -> M V Z.

Section Heap.
Context `{PageConfig} {V : Type} `{VmmAlloc V}.

(** [nodes] is the memory the headers are read from and written to, by address;
    what the owners of the blocks write is not in it. *)
Record heap_state : Type := mk_heap {
  nodes : gmap Z KHeapMemoryNode;
  kernel_heap_start : Z;
  kernel_heap_current_pos : Z;
  kernel_heap_end : Z;
  heap_vmm : V;
}.

Definition set_nodes (m : gmap Z KHeapMemoryNode) (s : heap_state) : heap_state :=
  mk_heap m s.(kernel_heap_start) s.(kernel_heap_current_pos) s.(kernel_heap_end) s.(heap_vmm).
Definition set_heap_end (e : Z) (s : heap_state) : heap_state :=
  mk_heap s.(nodes) s.(kernel_heap_start) s.(kernel_heap_current_pos) e s.(heap_vmm).
Definition set_heap_vmm (v : V) (s : heap_state) : heap_state :=
  mk_heap s.(nodes) s.(kernel_heap_start) s.(kernel_heap_current_pos) s.(kernel_heap_end) v.
Definition set_heap_start (a : Z) (s : heap_state) : heap_state :=
  mk_heap s.(nodes) a a a s.(heap_vmm).

(** Reading a header, writing one, and updating a field of one. *)
Definition read_node (p : Z) : M heap_state KHeapMemoryNode :=
  if p =? 0 then throw NullDeref
  else let! s := get in lift_opt OutOfBounds (s.(nodes) !! p).
Definition write_node (p : Z) (n : KHeapMemoryNode) : M heap_state unit :=
  if p =? 0 then throw NullDeref
  else modify (fun s => set_nodes (<[p := n]> s.(nodes)) s).
Definition update_node (p : Z) (f : KHeapMemoryNode -> KHeapMemoryNode) : M heap_state unit :=
  let! n := read_node p in write_node p (f n).

Definition with_size (v : Z) (n : KHeapMemoryNode) : KHeapMemoryNode :=
  mk_node v n.(is_free) n.(next) n.(prev).
Definition with_free (b : bool) (n : KHeapMemoryNode) : KHeapMemoryNode :=
  mk_node n.(node_size) b n.(next) n.(prev).
Definition with_next (p : Z) (n : KHeapMemoryNode) : KHeapMemoryNode :=
  mk_node n.(node_size) n.(is_free) p n.(prev).
Definition with_prev (p : Z) (n : KHeapMemoryNode) : KHeapMemoryNode :=
  mk_node n.(node_size) n.(is_free) n.(next) p.

Definition initialize_kheap : M heap_state unit :=
  let! kheap_vaddress := zoom heap_vmm set_heap_vmm
    (vmm_alloc PAGE_SIZE_IN_BYTES (Z.lor VMM_FLAGS_PRESENT VMM_FLAGS_WRITE_ENABLE) 0) in
  do! modify (set_heap_start kheap_vaddress) in
  write_node kheap_vaddress (mk_node PAGE_SIZE_IN_BYTES true 0 0).

Definition align (size : Z) : Z :=
  u64 ((size / HEAP_ALLOC_ALIGNMENT + 1) * HEAP_ALLOC_ALIGNMENT).

Definition compute_kheap_end : M heap_state Z :=
  let! s := get in
  let! e := read_node s.(kernel_heap_end) in
  ret (u64 (s.(kernel_heap_end) + e.(node_size) + header_size)).

Definition can_merge (cur_node : Z) : M heap_state Z :=
  let! cur := read_node cur_node in
  let! merges :=
    if negb (cur.(prev) =? 0) then
      let! p := read_node cur.(prev) in
      ret (if p.(is_free) && (u64 (cur.(prev) + header_size + p.(node_size)) =? cur_node) then MERGE_LEFT else 0)
    else ret 0 in
  if negb (cur.(next) =? 0) then
    let! n := read_node cur.(next) in
    ret (if n.(is_free) && (u64 (cur_node + header_size + cur.(node_size)) =? cur.(next))
         then Z.lor merges MERGE_RIGHT else merges)
  else ret merges.

Definition merge_memory_nodes (left_node right_node : Z) : M heap_state unit :=
  if (left_node =? 0) || (right_node =? 0) then ret tt
  else
    let! l := read_node left_node in
    if u64 (left_node + l.(node_size) + header_size) =? right_node then
      let! r := read_node right_node in
      do! update_node left_node (with_size (u64 (l.(node_size) + r.(node_size) + header_size))) in
      do! update_node left_node (with_next r.(next)) in
      if negb (r.(next) =? 0) then update_node r.(next) (with_prev left_node) else ret tt
    else ret tt.

Definition create_kheap_node (current_node size : Z) : M heap_state Z :=
  let new_node := u64 (current_node + header_size + size) in
  let! c := read_node current_node in
  do! write_node new_node
        (mk_node (u64 (c.(node_size) - u64 (size + header_size))) true c.(next) current_node) in
  do! (if negb (c.(next) =? 0) then update_node c.(next) (with_prev new_node) else ret tt) in
  do! update_node current_node (with_next new_node) in
  let! s := get in
  do! (if current_node =? s.(kernel_heap_end) then modify (set_heap_end new_node) else ret tt) in
  ret new_node.

Definition expand_heap (required_size : Z) : M heap_state unit :=
  let number_of_pages := get_number_of_pages_from_size required_size in
  do! compute_kheap_end in
  let! new_tail := zoom heap_vmm set_heap_vmm
    (vmm_alloc required_size (Z.lor VMM_FLAGS_PRESENT VMM_FLAGS_WRITE_ENABLE) 0) in
  let! s := get in
  do! write_node new_tail
        (mk_node (u64 (KERNEL_PAGE_SIZE * number_of_pages)) true 0 s.(kernel_heap_end)) in
  do! update_node s.(kernel_heap_end) (with_next new_tail) in
  do! modify (set_heap_end new_tail) in
  let! available_merges := can_merge new_tail in
  if negb (Z.land available_merges MERGE_LEFT =? 0) then
    let! t := read_node new_tail in merge_memory_nodes t.(prev) new_tail
  else ret tt.

(** The loop of [kmalloc], from [current_node]. *)
Fixpoint kmalloc_loop (fuel : nat) (size current_node : Z) : M heap_state Z :=
  match fuel with
  | O => diverge
  | Datatypes.S fuel' =>
      if current_node =? 0 then ret 0
      else
        let real_size := align (u64 (size + header_size)) in
        let! c := read_node current_node in
        if c.(is_free) && (real_size <=? c.(node_size)) then
          do! (if KHEAP_MINIMUM_ALLOCABLE_SIZE <? c.(node_size) - real_size then
                 do! create_kheap_node current_node real_size in
                 do! update_node current_node (with_free false) in
                 update_node current_node (with_size real_size)
               else update_node current_node (with_free false)) in
          ret (u64 (current_node + header_size))
        else
          let! s := get in
          let! at_node :=
            if current_node =? s.(kernel_heap_end) then
              do! expand_heap real_size in
              let! c' := read_node current_node in
              if negb (c'.(prev) =? 0) then ret c'.(prev) else ret current_node
            else ret current_node in
          let! n := read_node at_node in
          kmalloc_loop fuel' size n.(next)
  end.

(** The fuel covers every header there is, the one an expansion adds, and the NULL
    at the end. *)
Definition kmalloc (size : Z) : M heap_state Z :=
  let! s := get in
  if size =? 0 then ret 0
  else kmalloc_loop (Datatypes.S (Datatypes.S (Datatypes.S (base.size s.(nodes))))) size s.(kernel_heap_start).

(** The loop of [kfree]. *)
Fixpoint kfree_loop (fuel : nat) (ptr current_node : Z) : M heap_state unit :=
  match fuel with
  | O => diverge
  | Datatypes.S fuel' =>
      if current_node =? 0 then ret tt
      else if u64 (current_node + header_size) =? ptr then
        do! update_node current_node (with_free true) in
        let! available_merges := can_merge current_node in
        do! (if negb (Z.land available_merges MERGE_RIGHT =? 0) then
               let! c := read_node current_node in merge_memory_nodes current_node c.(next)
             else ret tt) in
        if negb (Z.land available_merges MERGE_LEFT =? 0) then
          let! c := read_node current_node in merge_memory_nodes c.(prev) current_node
        else ret tt
      else
        let! c := read_node current_node in
        kfree_loop fuel' ptr c.(next)
  end.

Definition kfree (ptr : Z) : M heap_state unit :=
  if ptr =? 0 then ret tt
  else
    let! s := get in
    if (ptr <? s.(kernel_heap_start)) || (s.(kernel_heap_end) <? ptr) then ret tt
    else kfree_loop (Datatypes.S (Datatypes.S (base.size s.(nodes)))) ptr s.(kernel_heap_start).
End Heap.
Arguments heap_state V : clear implicits.

(** ** The abstract heap: a list of blocks *)

Record block : Type := mk_block {
  b_addr : Z;
  b_size : Z;
  b_free : bool;
}.

(** The first byte after a block, and the block two adjacent ones merge into. *)
Definition b_end (b : block) : Z := b.(b_addr) + header_size + b.(b_size).
Definition join (b c : block) : block := mk_block b.(b_addr) (b.(b_size) + c.(b_size) + header_size) b.(b_free).
Definition busy (b : block) : block := mk_block b.(b_addr) b.(b_size) false.
Definition freed (b : block) : block := mk_block b.(b_addr) b.(b_size) true.

(** Taking [real] bytes from a block: a second block is left over when more than
    the minimum remains. *)
Definition take_block (real : Z) (b : block) : list block :=
  if KHEAP_MINIMUM_ALLOCABLE_SIZE <? b.(b_size) - real
  then [mk_block b.(b_addr) real false;
        mk_block (b.(b_addr) + header_size + real) (b.(b_size) - real - header_size) true]
  else [busy b].
Definition fits (real : Z) (b : block) : bool := b.(b_free) && (real <=? b.(b_size)).

(** First fit: the address of the block taken, and the blocks after. *)
Fixpoint alloc_blocks (real : Z) (l : list block) : option (Z * list block) :=
  match l with
  | [] => None
  | b :: l' =>
      if fits real b then Some (b.(b_addr), take_block real b ++ l')
      else option_map (fun r => (fst r, b :: snd r)) (alloc_blocks real l')
  end.

(** Freeing the block [b] between [l1] and [l2]: it absorbs a free block that
    follows it without a gap, and is absorbed by a free one that precedes it. *)
Definition joinable (b c : block) : bool := b_end b =? c.(b_addr).
Definition join_right (b : block) (l2 : list block) : list block :=
  match l2 with
  | c :: l2' => if c.(b_free) && joinable b c then join b c :: l2' else b :: l2
  | [] => [b]
  end.
Definition join_left (l1 : list block) (l : list block) : list block :=
  match last l1, l with
  | Some p, b :: l2 => if p.(b_free) && joinable p b then removelast l1 ++ join p b :: l2 else l1 ++ l
  | _, _ => l1 ++ l
  end.
Definition free_blocks (l1 : list block) (b : block) (l2 : list block) : list block :=
  join_left l1 (join_right (freed b) l2).

Definition block_ok (b : block) : Prop := 0 < b.(b_addr) /\ 0 <= b.(b_size) /\ b_end b < 2 ^ 64.
Definition apart (b c : block) : Prop := b_end b <= c.(b_addr) \/ b_end c <= b.(b_addr).
Fixpoint all_apart (l : list block) : Prop :=
  match l with
  | [] => True
  | b :: l' => Forall (apart b) l' /\ all_apart l'
  end.
(** Blocks inside the address space that do not overlap. *)
Definition blocks_ok (l : list block) : Prop := Forall block_ok l /\ all_apart l.

(** The bytes of the heap: all headers and payloads together. *)
Definition total (l : list block) : Z := foldr (fun b n => header_size + b.(b_size) + n) 0 l.

Definition addrs (l : list block) : list Z := map b_addr l.
Definition hd_addr (l : list block) (n : Z) : Z := match l with [] => n | b :: _ => b.(b_addr) end.
Definition last_addr (l : list block) (p : Z) : Z := match last l with None => p | Some b => b.(b_addr) end.

Section Blocks.
Implicit Types (b c : block) (l : list block).

Lemma all_apart_app l1 l2 :
  all_apart (l1 ++ l2) <-> all_apart l1 /\ all_apart l2 /\ forall b c, b ∈ l1 -> c ∈ l2 -> apart b c.
Proof.
  induction l1 as [|b l1 IH]; simpl.
  - split; [intros; split; [done|]; split; [done|]; intros ? ? Hb; by apply elem_of_nil in Hb|tauto].
  - rewrite IH, Forall_app, (Forall_forall (apart b) l2). split.
    + intros ((? & Hb) & ? & ? & Hc). split; [done|]. split; [done|]. intros b' c [->|?]%elem_of_cons ?; auto.
    + intros ((? & ?) & ? & Hc). split; [split; [done|]|split; [done|split; [done|]]];
        intros; apply Hc; rewrite ?elem_of_cons; auto.
Qed.

Lemma blocks_ok_app l1 l2 :
  blocks_ok (l1 ++ l2) <-> blocks_ok l1 /\ blocks_ok l2 /\ forall b c, b ∈ l1 -> c ∈ l2 -> apart b c.
Proof. unfold blocks_ok. rewrite Forall_app, all_apart_app. tauto. Qed.

Lemma blocks_ok_cons b l :
  blocks_ok (b :: l) <-> block_ok b /\ blocks_ok l /\ forall c, c ∈ l -> apart b c.
Proof. unfold blocks_ok. rewrite Forall_cons. simpl. rewrite (Forall_forall (apart b)). tauto. Qed.

Lemma blocks_ok_nil : blocks_ok [].
Proof. split; [apply Forall_nil_2|done]. Qed.

(** Replacing one block by others within its bytes, or several by one that spans
    them, keeps the rest apart from them. *)
Lemma blocks_ok_replace l1 m m' l2 :
  blocks_ok (l1 ++ m ++ l2) -> blocks_ok m' ->
  (forall z, block_ok z -> (forall x, x ∈ m -> apart x z) -> forall y, y ∈ m' -> apart y z) ->
  blocks_ok (l1 ++ m' ++ l2).
Proof.
  rewrite !blocks_ok_app. intros (H1 & (Hm & H2 & Hm2) & H12) Hm' Hap.
  assert (forall z, z ∈ l1 \/ z ∈ l2 -> block_ok z) as Hok.
  { destruct H1 as [H1 _], H2 as [H2 _]. rewrite Forall_forall in H1, H2. intros z [?|?]; auto. }
  assert (forall b c, apart b c -> apart c b) as Hsym by (unfold apart; tauto).
  split; [done|]. split; [split; [done|split; [done|]]|].
  - intros y z Hy Hz. apply (Hap z); [auto| |done]. intros x Hx. by apply Hm2.
  - intros z y Hz Hy. apply elem_of_app in Hy as [Hy|Hy].
    + apply Hsym. apply (Hap z); [auto| |done]. intros x Hx. apply Hsym, H12; [done|]. apply elem_of_app. by left.
    + apply H12; [done|]. apply elem_of_app. by right.
Qed.

Lemma blocks_ok_one b : block_ok b -> blocks_ok [b].
Proof.
  intros Hb. apply blocks_ok_cons. split; [done|]. split; [apply blocks_ok_nil|].
  intros c Hc. by apply elem_of_nil in Hc.
Qed.

Lemma blocks_ok_two b c : block_ok b -> block_ok c -> apart b c -> blocks_ok [b; c].
Proof.
  intros Hb Hc Hbc. apply blocks_ok_cons. split; [done|]. split; [by apply blocks_ok_one|].
  by intros x ->%list_elem_of_singleton.
Qed.

Lemma take_block_ok real b : block_ok b -> 0 <= real -> fits real b = true -> blocks_ok (take_block real b).
Proof.
  unfold fits, take_block, block_ok, b_end, header_size, KHEAP_MINIMUM_ALLOCABLE_SIZE. intros Hb Hr Hf. zbool.
  destruct (Z.ltb_spec 0x20 (b_size b - real)).
  - apply blocks_ok_cons. split; [unfold block_ok, b_end, header_size; simpl; lia|]. split.
    + apply blocks_ok_cons. split; [unfold block_ok, b_end, header_size; simpl; lia|].
      split; [apply blocks_ok_nil|]. intros c Hc. by apply elem_of_nil in Hc.
    + intros c ->%list_elem_of_singleton. left. unfold b_end, header_size. simpl. lia.
  - apply blocks_ok_one. unfold block_ok, b_end, header_size; simpl; lia.
Qed.

Lemma take_block_apart real b z :
  0 <= real -> fits real b = true -> block_ok z -> apart b z -> forall y, y ∈ take_block real b -> apart y z.
Proof.
  unfold fits, take_block, apart, block_ok, b_end, header_size, KHEAP_MINIMUM_ALLOCABLE_SIZE. intros Hr Hf Hz Ha y. zbool.
  destruct (Z.ltb_spec 0x20 (b_size b - real)); rewrite ?elem_of_cons.
  - intros [->|[->|Hy]]; simpl; [lia|lia|by apply elem_of_nil in Hy].
  - intros [->|Hy]; simpl; [lia|by apply elem_of_nil in Hy].
Qed.

Lemma total_app l1 l2 : total (l1 ++ l2) = total l1 + total l2.
Proof. induction l1 as [|b l1 IH]; simpl; [done|]. rewrite IH. lia. Qed.

Lemma total_take real b : total (take_block real b) = header_size + b.(b_size).
Proof. unfold take_block, total, header_size. case_match; simpl; lia. Qed.

(** [alloc_blocks] takes the first block that fits. *)
Lemma alloc_blocks_split real l a l' :
  alloc_blocks real l = Some (a, l') ->
  exists l1 b l2, l = l1 ++ b :: l2 /\ l' = l1 ++ take_block real b ++ l2 /\ a = b.(b_addr) /\
    fits real b = true /\ Forall (fun c => fits real c = false) l1.
Proof.
  revert l'. induction l as [|b l IH]; intros l'; simpl; [done|].
  destruct (fits real b) eqn:Hf.
  - intros [= <- <-]. exists [], b, l. simpl. by split_and!.
  - destruct (alloc_blocks real l) as [[a' l'']|]; [|done]. simpl. intros [= <- <-].
    destruct (IH l'' eq_refl) as (l1 & c & l2 & -> & -> & -> & Hc & Hall).
    exists (b :: l1), c, l2. split_and!; try done. by constructor.
Qed.

Lemma alloc_blocks_none real l :
  alloc_blocks real l = None <-> Forall (fun c => fits real c = false) l.
Proof.
  induction l as [|b l IH]; simpl; [by split|]. rewrite Forall_cons, <- IH.
  destruct (fits real b), (alloc_blocks real l); simpl; split; try done; intros [? ?]; done.
Qed.

(** [alloc_blocks] keeps a heap well formed, and the bytes its blocks cover. *)
Lemma alloc_blocks_ok real l a l' :
  0 <= real -> blocks_ok l -> alloc_blocks real l = Some (a, l') -> blocks_ok l' /\ total l' = total l.
Proof.
  intros Hr Hl (l1 & b & l2 & -> & -> & -> & Hf & _)%alloc_blocks_split. split.
  - apply (blocks_ok_replace l1 [b]); [done| |].
    + apply take_block_ok; [|done|done]. apply blocks_ok_app in Hl as (_ & Hl & _).
      by apply blocks_ok_cons in Hl as [? _].
    + intros z Hz Hap y. apply take_block_apart; [done|done|done|]. apply Hap. by apply list_elem_of_singleton.
  - change (b :: l2) with ([b] ++ l2). rewrite !total_app, total_take.
    change (total [b]) with (header_size + b.(b_size) + 0). lia.
Qed.

Lemma join_ok b c : block_ok b -> block_ok c -> joinable b c = true -> block_ok (join b c).
Proof. unfold block_ok, joinable, join, b_end, header_size. simpl. intros. zbool. lia. Qed.

Lemma join_apart b c z :
  joinable b c = true -> block_ok b -> block_ok c -> block_ok z -> apart b z -> apart c z -> apart (join b c) z.
Proof. unfold apart, block_ok, joinable, join, b_end, header_size. simpl. intros. zbool. lia. Qed.
End Blocks.

Section FreeBlocks.
Implicit Types (b c : block) (l : list block).

Lemma join_right_ok l1 b l2 :
  blocks_ok (l1 ++ b :: l2) -> blocks_ok (l1 ++ join_right b l2) /\ total (join_right b l2) = total (b :: l2).
Proof.
  intros Hl. unfold join_right. destruct l2 as [|c l2]; [done|].
  destruct (b_free c && joinable b c) eqn:Hj; [|done]. apply andb_prop in Hj as [_ Hj].
  assert (blocks_ok [b; c]) as Hbc.
  { change (b :: c :: l2) with ([b; c] ++ l2) in Hl. rewrite !blocks_ok_app in Hl. tauto. }
  apply blocks_ok_cons in Hbc as (Hb & Hc%blocks_ok_cons & _). destruct Hc as (Hc & _ & _).
  split; [|unfold total; simpl; lia].
  apply (blocks_ok_replace l1 [b; c] [join b c] l2); [done| |].
  - by apply blocks_ok_one, join_ok.
  - intros z Hz Hap y ->%list_elem_of_singleton. apply join_apart; try done; apply Hap; set_solver.
Qed.

Lemma freed_ok l1 b l2 :
  blocks_ok (l1 ++ b :: l2) -> blocks_ok (l1 ++ freed b :: l2) /\ total (freed b :: l2) = total (b :: l2).
Proof.
  intros Hl. split; [|done]. apply (blocks_ok_replace l1 [b] [freed b] l2); [done| |].
  - apply blocks_ok_app in Hl as (_ & Hl & _). apply blocks_ok_cons in Hl as [Hb _].
    apply blocks_ok_cons. split; [done|]. split; [apply blocks_ok_nil|]. intros x Hx. by apply elem_of_nil in Hx.
  - intros z Hz Hap y ->%list_elem_of_singleton. apply (Hap b). set_solver.
Qed.

Lemma last_split l p : last l = Some p -> l = removelast l ++ [p].
Proof.
  intros Hl. destruct (exists_last (l := l)) as (l' & x & ->); [by intros ->|].
  rewrite last_snoc in Hl. injection Hl as ->. by rewrite removelast_last.
Qed.

Lemma join_left_ok l1 l :
  blocks_ok (l1 ++ l) -> blocks_ok (join_left l1 l) /\ total (join_left l1 l) = total (l1 ++ l).
Proof.
  intros Hl. unfold join_left. destruct (last l1) as [p|] eqn:Hp; [|done].
  destruct l as [|b l2]; [done|]. destruct (b_free p && joinable p b) eqn:Hj; [|done].
  apply andb_prop in Hj as [_ Hj]. apply last_split in Hp. rewrite Hp in Hl. rewrite Hp at 3.
  rewrite <- app_assoc in *. simpl in Hl |- *.
  assert (blocks_ok [p; b]) as Hbc.
  { change (p :: b :: l2) with ([p; b] ++ l2) in Hl. rewrite !blocks_ok_app in Hl. tauto. }
  apply blocks_ok_cons in Hbc as (Hb & Hc%blocks_ok_cons & _). destruct Hc as (Hc & _ & _).
  split; [|rewrite !total_app; unfold total; simpl; lia].
  apply (blocks_ok_replace (removelast l1) [p; b] [join p b] l2); [done| |].
  - by apply blocks_ok_one, join_ok.
  - intros z Hz Hap y ->%list_elem_of_singleton. apply join_apart; try done; apply Hap; set_solver.
Qed.

(** Freeing keeps a heap well formed, and the bytes its blocks cover. *)
Lemma free_blocks_ok l1 b l2 :
  blocks_ok (l1 ++ b :: l2) ->
  blocks_ok (free_blocks l1 b l2) /\ total (free_blocks l1 b l2) = total (l1 ++ b :: l2).
Proof.
  intros [Hl Ht]%freed_ok. apply join_right_ok in Hl as [Hl Ht']. apply join_left_ok in Hl as [Hl Ht''].
  split; [done|]. unfold free_blocks. rewrite Ht'', !total_app, Ht', Ht. done.
Qed.
End FreeBlocks.

(** ** The list in memory *)

(** The headers at the addresses of [l], linked in order, [p] before the first and
    [n] after the last. *)
Fixpoint dseg (h : gmap Z KHeapMemoryNode) (p : Z) (l : list block) (n : Z) : Prop :=
  match l with
  | [] => True
  | b :: l' =>
      h !! b.(b_addr) = Some (mk_node b.(b_size) b.(b_free) (hd_addr l' n) p) /\ dseg h b.(b_addr) l' n
  end.

Section Segments.
Implicit Types (h : gmap Z KHeapMemoryNode) (b c : block) (l : list block).

Lemma hd_addr_app l1 l2 n : hd_addr (l1 ++ l2) n = hd_addr l1 (hd_addr l2 n).
Proof. by destruct l1. Qed.
Lemma last_addr_cons b l p : last_addr (b :: l) p = last_addr l b.(b_addr).
Proof. unfold last_addr. rewrite last_cons. by destruct (last l). Qed.
Lemma last_addr_snoc l b p : last_addr (l ++ [b]) p = b.(b_addr).
Proof. unfold last_addr. by rewrite last_snoc. Qed.

Lemma dseg_app h p l1 l2 n :
  dseg h p (l1 ++ l2) n <-> dseg h p l1 (hd_addr l2 n) /\ dseg h (last_addr l1 p) l2 n.
Proof.
  revert p. induction l1 as [|b l1 IH]; intros p; simpl; [tauto|].
  rewrite IH, hd_addr_app, last_addr_cons. tauto.
Qed.

Lemma dseg_frame h a x p l n : a ∉ addrs l -> dseg (<[a := x]> h) p l n <-> dseg h p l n.
Proof.
  revert p. induction l as [|b l IH]; intros p Ha; simpl; [done|].
  simpl in Ha. apply not_elem_of_cons in Ha as [Hne Ha].
  rewrite lookup_insert_ne by done. by rewrite IH.
Qed.

Lemma dseg_ext h h' p l n :
  (forall a, a ∈ addrs l -> h' !! a = h !! a) -> dseg h p l n -> dseg h' p l n.
Proof.
  revert p. induction l as [|b l IH]; intros p Hext; simpl; [done|]. intros [Hb Hl].
  rewrite Hext by (simpl; set_solver). split; [done|]. apply IH; [|done].
  intros a Ha. apply Hext. simpl. set_solver.
Qed.

Lemma dseg_lookup h p l1 b l2 :
  dseg h p (l1 ++ b :: l2) 0 ->
  h !! b.(b_addr) = Some (mk_node b.(b_size) b.(b_free) (hd_addr l2 0) (last_addr l1 p)).
Proof. rewrite dseg_app. simpl. tauto. Qed.

Lemma addrs_app l1 l2 : addrs (l1 ++ l2) = addrs l1 ++ addrs l2.
Proof. apply map_app. Qed.

Lemma elem_of_addrs l a : a ∈ addrs l <-> exists b, b ∈ l /\ b.(b_addr) = a.
Proof. unfold addrs. rewrite list_elem_of_In, in_map_iff. setoid_rewrite list_elem_of_In. naive_solver. Qed.

Lemma blocks_ok_NoDup l : blocks_ok l -> NoDup (addrs l).
Proof.
  induction l as [|b l IH]; simpl; [constructor|].
  intros (Hb & Hl & Hap)%blocks_ok_cons. constructor; [|by apply IH].
  intros (c & Hc & Ha)%elem_of_addrs. pose proof (Hap c Hc) as Hbc.
  destruct Hl as [Hl _]. rewrite Forall_forall in Hl. pose proof (Hl c Hc).
  unfold apart, block_ok, b_end, header_size in *. lia.
Qed.

(** An address inside a block is not the one of another block. *)
Lemma inside_not_other l1 b l2 a :
  blocks_ok (l1 ++ b :: l2) -> b.(b_addr) <= a < b_end b -> a ∉ addrs l1 /\ a ∉ addrs l2.
Proof.
  rewrite blocks_ok_app, blocks_ok_cons. intros ((H1 & _) & (Hb & (H2 & _) & Hap2) & Hap) Ha.
  rewrite Forall_forall in H1, H2.
  split; intros (c & Hc & <-)%elem_of_addrs.
  - pose proof (H1 c Hc). assert (apart c b) as Hcb by (apply Hap; set_solver).
    unfold apart, block_ok, b_end, header_size in *. lia.
  - pose proof (H2 c Hc). pose proof (Hap2 c Hc). unfold apart, block_ok, b_end, header_size in *. lia.
Qed.

(** Headers at different addresses, each of a block inside the address space: all the
    list in memory needs. *)
Definition headers_ok l : Prop := Forall block_ok l /\ NoDup (addrs l).

Lemma blocks_headers l : blocks_ok l -> headers_ok l.
Proof. intros Hl. split; [apply Hl|by apply blocks_ok_NoDup]. Qed.

Lemma header_in l b : headers_ok l -> b ∈ l -> block_ok b.
Proof. intros [Hl _] Hb. rewrite Forall_forall in Hl. auto. Qed.

Lemma headers_app l1 l2 : headers_ok (l1 ++ l2) <-> headers_ok l1 /\ headers_ok l2 /\ forall a, a ∈ addrs l1 -> a ∉ addrs l2.
Proof. unfold headers_ok. rewrite Forall_app, addrs_app, NoDup_app. tauto. Qed.

Lemma headers_cons b l : headers_ok (b :: l) <-> block_ok b /\ headers_ok l /\ b.(b_addr) ∉ addrs l.
Proof. unfold headers_ok. rewrite Forall_cons. simpl. rewrite NoDup_cons. tauto. Qed.

Lemma headers_differ l1 b l2 : headers_ok (l1 ++ b :: l2) -> b.(b_addr) ∉ addrs l1 /\ b.(b_addr) ∉ addrs l2.
Proof.
  rewrite headers_app, headers_cons. intros (_ & (_ & _ & H2) & H12). split; [|done].
  intros H1. apply (H12 _ H1). simpl. set_solver.
Qed.

(** A block that takes the place of one, or of two neighbours, at the same address. *)
Lemma headers_replace l1 b b' l2 : b'.(b_addr) = b.(b_addr) -> block_ok b' -> headers_ok (l1 ++ b :: l2) -> headers_ok (l1 ++ b' :: l2).
Proof. intros Ea Hb. rewrite !headers_app, !headers_cons. simpl. rewrite Ea. tauto. Qed.

Lemma headers_join l1 b c l2 : joinable b c = true -> headers_ok (l1 ++ b :: c :: l2) -> headers_ok (l1 ++ join b c :: l2).
Proof.
  intros Hj H. apply (headers_replace l1 b); [done|apply join_ok; [apply (header_in _ _ H)|apply (header_in _ _ H)|done]; set_solver|].
  rewrite !headers_app, !headers_cons in *. simpl in *. destruct H as (? & (? & (? & ? & ?) & Hb) & H12).
  split; [done|]. split; [split; [done|split; [done|]]|]; [set_solver|]. intros a Ha. specialize (H12 a Ha). set_solver.
Qed.

Lemma headers_join_right l1 b l2 : headers_ok (l1 ++ b :: l2) -> headers_ok (l1 ++ join_right b l2).
Proof.
  intros H. unfold join_right. destruct l2 as [|c l2]; [done|]. destruct (b_free c && joinable b c) eqn:Hj; [|done].
  apply andb_prop in Hj as [_ Hj]. by apply headers_join.
Qed.

Lemma headers_join_left l1 l : headers_ok (l1 ++ l) -> headers_ok (join_left l1 l).
Proof.
  intros H. unfold join_left. destruct (last l1) as [p|] eqn:Hp; [|done]. destruct l as [|b l2]; [done|].
  destruct (b_free p && joinable p b) eqn:Hj; [|done]. apply andb_prop in Hj as [_ Hj].
  apply last_split in Hp. rewrite Hp, <- app_assoc in H. by apply headers_join.
Qed.

Lemma headers_free l1 b l2 : headers_ok (l1 ++ b :: l2) -> headers_ok (free_blocks l1 b l2).
Proof.
  intros H. apply headers_join_left, headers_join_right, (headers_replace l1 b); [done| |done].
  apply (header_in _ b H). set_solver.
Qed.

(** Updating the size and the flag of a block. *)
Lemma dseg_update h p l1 b b' l2 :
  NoDup (addrs (l1 ++ b :: l2)) -> b'.(b_addr) = b.(b_addr) -> dseg h p (l1 ++ b :: l2) 0 ->
  dseg (<[b.(b_addr) := mk_node b'.(b_size) b'.(b_free) (hd_addr l2 0) (last_addr l1 p)]> h) p (l1 ++ b' :: l2) 0.
Proof.
  rewrite addrs_app, NoDup_app. simpl. rewrite NoDup_cons. intros (_ & Hn1 & Hn2 & _) Ha.
  rewrite !dseg_app. simpl. rewrite Ha. intros (H1 & _ & H2).
  rewrite !dseg_frame by (done || (intros ?; apply (Hn1 (b_addr b)); [done|set_solver])).
  by rewrite lookup_insert_eq.
Qed.
End Segments.

(** ** The operations on the list in memory *)

Section Operations.
Context `{PageConfig} {V : Type} `{VmmAlloc V}.
Implicit Types (s : heap_state V) (b c : block) (l : list block).

(** The state [s] with other headers and another end pointer. *)
Definition with_heap (h : gmap Z KHeapMemoryNode) (e : Z) s : heap_state V := set_heap_end e (set_nodes h s).

Lemma with_heap_nodes h s : set_nodes h s = with_heap h s.(kernel_heap_end) s.
Proof. done. Qed.

Lemma read_run s p n : p <> 0 -> s.(nodes) !! p = Some n -> read_node p s = Ret (n, s).
Proof. intros Hp Hn. unfold read_node, bind, get. apply Z.eqb_neq in Hp. by rewrite Hp, Hn. Qed.

Lemma write_run s p n : p <> 0 -> write_node p n s = Ret (tt, set_nodes (<[p := n]> s.(nodes)) s).
Proof. intros Hp. unfold write_node. apply Z.eqb_neq in Hp. by rewrite Hp. Qed.

Lemma update_run s p f n :
  p <> 0 -> s.(nodes) !! p = Some n ->
  update_node p f s = Ret (tt, set_nodes (<[p := f n]> s.(nodes)) s).
Proof. intros Hp Hn. unfold update_node. rewrite (bind_run _ _ _ _ _ (read_run s p n Hp Hn)). by apply write_run. Qed.

(** Setting the [prev] of the node after, when there is one. *)
Lemma relink_run s a q l :
  dseg s.(nodes) a l 0 -> headers_ok l ->
  exists h, (if negb (hd_addr l 0 =? 0) then update_node (hd_addr l 0) (with_prev q) else ret tt) s =
      Ret (tt, set_nodes h s) /\
    dseg h q l 0 /\ forall x, x ∉ addrs l -> h !! x = s.(nodes) !! x.
Proof.
  intros Hl Hok. destruct l as [|c l]; simpl.
  { exists s.(nodes). split; [by destruct s|done]. }
  destruct Hl as [Hc Hl]. pose proof (proj2 Hok) as Hnd. apply headers_cons in Hok as ([Hca _] & _ & _).
  destruct (Z.eqb_spec c.(b_addr) 0); [lia|]. cbn [negb].
  eexists. split; [eapply update_run; [lia|exact Hc]|]. simpl in Hnd. apply NoDup_cons in Hnd as [Hn _].
  split; [split; [by rewrite lookup_insert_eq|by rewrite dseg_frame]|].
  intros x [Hx _]%not_elem_of_cons. by rewrite lookup_insert_ne.
Qed.

Lemma create_run s l1 b l2 real :
  let nb := mk_block (b.(b_addr) + header_size + real) (b.(b_size) - real - header_size) true in
  dseg s.(nodes) 0 (l1 ++ b :: l2) 0 -> headers_ok (l1 ++ b :: l2) ->
  0 <= real -> KHEAP_MINIMUM_ALLOCABLE_SIZE < b.(b_size) - real -> nb.(b_addr) ∉ addrs l1 -> nb.(b_addr) ∉ addrs l2 ->
  exists h, create_kheap_node b.(b_addr) real s =
    Ret (nb.(b_addr), with_heap h (if b.(b_addr) =? s.(kernel_heap_end) then nb.(b_addr) else s.(kernel_heap_end)) s) /\
    dseg h 0 (l1 ++ b :: nb :: l2) 0.
Proof.
  intros nb Hd Hok Hr Hmin Hn1 Hn2. pose proof (dseg_lookup _ _ _ _ _ Hd) as Hb.
  pose proof Hok as Hok'. apply headers_app in Hok' as (_ & Hok2 & _). apply headers_cons in Hok2 as ((Hba & Hbs & Hbe) & Hok2 & _).
  destruct (headers_differ l1 b l2 Hok) as [Hb1 Hb2].
  unfold KHEAP_MINIMUM_ALLOCABLE_SIZE, b_end, header_size in *.
  assert (nb.(b_addr) <> b.(b_addr)) as Hne by (unfold nb, header_size; simpl; lia).
  apply dseg_app in Hd as (Hd1 & _ & Hd2). simpl in Hd1, Hd2.
  unfold create_kheap_node. rewrite (u64_small (b_addr b + header_size + real)) by (unfold header_size; lia).
  change (b_addr b + header_size + real) with nb.(b_addr).
  rewrite (bind_run _ _ _ _ _ (read_run s b.(b_addr) _ ltac:(lia) Hb)). cbn [node_size next].
  rewrite (bind_run _ _ _ _ _ (write_run s nb.(b_addr) _ ltac:(simpl; unfold header_size; lia))).
  unfold header_size. rewrite (u64_small (real + 32)), (u64_small (b_size b - (real + 32))) by lia.
  set (s1 := set_nodes _ s).
  destruct (relink_run s1 b.(b_addr) nb.(b_addr) l2) as (h2 & Hrun2 & Hd2' & Hother); [|done|].
  { simpl. by apply dseg_frame. }
  rewrite (bind_run _ _ _ _ _ Hrun2). simpl in Hother.
  assert (h2 !! b.(b_addr) = Some (mk_node b.(b_size) b.(b_free) (hd_addr l2 0) (last_addr l1 0))) as Hb2'.
  { rewrite Hother by done. by rewrite lookup_insert_ne. }
  rewrite (bind_run _ _ _ _ _ (update_run (set_nodes h2 s1) b.(b_addr) _ _ ltac:(lia) Hb2')).
  unfold bind at 1, get. simpl kernel_heap_end.
  exists (<[b.(b_addr) := with_next nb.(b_addr) (mk_node b.(b_size) b.(b_free) (hd_addr l2 0) (last_addr l1 0))]> h2).
  split; [by destruct (b_addr b =? kernel_heap_end s)|].
  rewrite dseg_app. cbn [dseg hd_addr]. split; [|split; [by rewrite lookup_insert_eq|split]].
  - rewrite dseg_frame by done. apply (dseg_ext s.(nodes)); [|done].
    intros x Hx. rewrite Hother.
    + rewrite lookup_insert_ne; [done|]. intros E. apply Hn1. unfold nb, header_size. cbn [b_addr]. by rewrite E.
    + intros Hx2. apply headers_app in Hok as (_ & _ & Hd). apply (Hd x Hx). simpl. set_solver.
  - rewrite lookup_insert_ne by done. rewrite Hother by done. rewrite lookup_insert_eq.
    do 2 f_equal. simpl. unfold header_size. lia.
  - by apply dseg_frame.
Qed.

(** The branch of [kmalloc] that takes a block. *)
Definition take_node (current_node real : Z) (c : KHeapMemoryNode) : M (heap_state V) unit :=
  if KHEAP_MINIMUM_ALLOCABLE_SIZE <? c.(node_size) - real then
    do! create_kheap_node current_node real in
    do! update_node current_node (with_free false) in
    update_node current_node (with_size real)
  else update_node current_node (with_free false).

Lemma take_run s l1 b l2 real :
  dseg s.(nodes) 0 (l1 ++ b :: l2) 0 -> headers_ok (l1 ++ b :: l2) -> headers_ok (l1 ++ take_block real b ++ l2) -> 0 <= real ->
  exists h, take_node b.(b_addr) real (mk_node b.(b_size) b.(b_free) (hd_addr l2 0) (last_addr l1 0)) s =
    Ret (tt, with_heap h (if b.(b_addr) =? s.(kernel_heap_end) then last_addr (take_block real b) 0
                          else s.(kernel_heap_end)) s) /\
    dseg h 0 (l1 ++ take_block real b ++ l2) 0.
Proof.
  intros Hd Hok Hok' Hr. unfold take_node, take_block in *. cbn [node_size].
  destruct (header_in _ b Hok) as (Hba & _); [set_solver|].
  destruct (Z.ltb_spec KHEAP_MINIMUM_ALLOCABLE_SIZE (b.(b_size) - real)) as [Hmin|_].
  - destruct (create_run s l1 b l2 real Hd Hok Hr Hmin) as (h & Hrun & Hd').
    { apply headers_app in Hok' as (_ & _ & H12). intros Hin. apply (H12 _ Hin). simpl. set_solver. }
    { apply headers_app in Hok' as (_ & (_ & Hnd) & _). simpl in Hnd. apply NoDup_cons in Hnd as [_ [Hn _]%NoDup_cons]. exact Hn. }
    rewrite (bind_run _ _ _ _ _ Hrun). set (nb := mk_block _ _ true) in *.
    set (e := if b.(b_addr) =? s.(kernel_heap_end) then nb.(b_addr) else s.(kernel_heap_end)). pose proof (dseg_lookup _ _ _ _ _ Hd') as Hb.
    assert (NoDup (addrs (l1 ++ b :: nb :: l2))) as Hnd.
    { destruct Hok' as [_ Hnd]. rewrite addrs_app in *. exact Hnd. }
    assert (NoDup (addrs (l1 ++ busy b :: nb :: l2))) as Hnd2 by (rewrite addrs_app in *; exact Hnd).
    rewrite (bind_run _ _ _ _ _ (update_run (with_heap h e s) b.(b_addr) _ _ ltac:(lia) Hb)).
    pose proof (dseg_update h 0 l1 b (busy b) (nb :: l2) Hnd eq_refl Hd') as Hd2.
    pose proof (dseg_lookup _ _ _ _ _ Hd2) as Hb2.
    erewrite update_run; [|lia|exact Hb2].
    eexists. split; [done|].
    exact (dseg_update _ 0 l1 (busy b) (mk_block b.(b_addr) real false) (nb :: l2) Hnd2 eq_refl Hd2).
  - pose proof (dseg_lookup _ _ _ _ _ Hd) as Hb.
    erewrite update_run; [|lia|exact Hb]. eexists. split.
    + destruct (Z.eqb_spec b.(b_addr) s.(kernel_heap_end)) as [E|]; [|done]. rewrite with_heap_nodes, <- E. done.
    + apply (dseg_update _ 0 l1 b (busy b) l2); [apply Hok|done|done].
Qed.

(** The size [kmalloc] looks for: header and alignment included. *)
Definition real_size (size : Z) : Z := ((size + header_size) / HEAP_ALLOC_ALIGNMENT + 1) * HEAP_ALLOC_ALIGNMENT.

Lemma real_size_bounds size : 0 <= size -> size + header_size < real_size size <= size + header_size + 16.
Proof.
  intros Hs. unfold real_size, HEAP_ALLOC_ALIGNMENT, header_size.
  pose proof (div_bounds (size + 32) 16). lia.
Qed.

Lemma align_real size : 0 <= size < 2 ^ 64 - 64 -> align (u64 (size + header_size)) = real_size size.
Proof.
  intros Hs. pose proof (real_size_bounds size ltac:(lia)). unfold header_size in *. unfold align.
  rewrite (u64_small (size + 32)) by lia. apply u64_small. unfold real_size, header_size in *. lia.
Qed.

(** One step of the loop past a block that does not fit and is not the last. *)
Lemma loop_skip size fuel : 0 <= size < 2 ^ 64 - 64 -> forall m s l1 l2,
  dseg s.(nodes) 0 (l1 ++ m ++ l2) 0 -> headers_ok m ->
  Forall (fun b => fits (real_size size) b = false /\ b.(b_addr) <> s.(kernel_heap_end)) m ->
  kmalloc_loop (length m + fuel) size (hd_addr (m ++ l2) 0) s = kmalloc_loop fuel size (hd_addr l2 0) s.
Proof.
  intros Hs. induction m as [|b m IH]; intros s l1 l2 Hd Hok Hall; [done|].
  apply Forall_cons in Hall as [[Hf He] Hall]. apply headers_cons in Hok as ((Hba & _) & Hok & _).
  pose proof (dseg_lookup _ _ l1 b (m ++ l2) Hd) as Hb.
  cbn [length Nat.add kmalloc_loop app hd_addr]. rewrite align_real by done.
  destruct (Z.eqb_spec b.(b_addr) 0); [lia|].
  rewrite (bind_run _ _ _ _ _ (read_run s b.(b_addr) _ ltac:(lia) Hb)). cbn [is_free node_size].
  change (b_free b && (real_size size <=? b_size b)) with (fits (real_size size) b). rewrite Hf.
  unfold bind at 1, get. apply Z.eqb_neq in He. rewrite He. unfold bind at 1, ret at 1.
  rewrite (bind_run _ _ _ _ _ (read_run s b.(b_addr) _ ltac:(lia) Hb)). cbn [next].
  apply (IH s (l1 ++ [b]) l2); [by rewrite <- app_assoc|done|done].
Qed.

(** The loop at a block that fits. *)
Lemma loop_take size fuel s l1 b l2 :
  0 <= size < 2 ^ 64 - 64 ->
  dseg s.(nodes) 0 (l1 ++ b :: l2) 0 -> headers_ok (l1 ++ b :: l2) -> headers_ok (l1 ++ take_block (real_size size) b ++ l2) ->
  fits (real_size size) b = true ->
  exists h, kmalloc_loop (Datatypes.S fuel) size b.(b_addr) s =
    Ret (b.(b_addr) + header_size,
         with_heap h (if b.(b_addr) =? s.(kernel_heap_end) then last_addr (take_block (real_size size) b) 0
                      else s.(kernel_heap_end)) s) /\
    dseg h 0 (l1 ++ take_block (real_size size) b ++ l2) 0.
Proof.
  intros Hs Hd Hok Hok' Hf. pose proof (dseg_lookup _ _ _ _ _ Hd) as Hb. pose proof (real_size_bounds size ltac:(lia)).
  destruct (header_in _ b Hok) as (Hba & Hbs & Hbe); [set_solver|].
  destruct (take_run s l1 b l2 (real_size size) Hd Hok Hok' ltac:(unfold header_size in *; lia)) as (h & Hrun & Hd').
  exists h. split; [|done]. cbn [kmalloc_loop]. rewrite align_real by done.
  destruct (Z.eqb_spec b.(b_addr) 0); [lia|].
  rewrite (bind_run _ _ _ _ _ (read_run s b.(b_addr) _ ltac:(lia) Hb)). cbn [is_free node_size].
  change (b_free b && (real_size size <=? b_size b)) with (fits (real_size size) b). rewrite Hf.
  unfold take_node in Hrun. cbn [node_size] in Hrun. rewrite (bind_run _ _ _ _ _ Hrun).
  unfold ret. rewrite u64_small; [done|]. unfold b_end, header_size in *. lia.
Qed.
End Operations.

(** ** Merging *)

Definition left_joins (l1 : list block) (b : block) : bool :=
  match last l1 with
  | Some p => p.(b_free) && joinable p b
  | None => false
  end.
Definition right_joins (b : block) (l2 : list block) : bool :=
  match l2 with
  | c :: _ => c.(b_free) && joinable b c
  | [] => false
  end.

Section Merging.
Context `{PageConfig} {V : Type} `{VmmAlloc V}.
Implicit Types (s : heap_state V) (b c : block) (l : list block).

Lemma block_ok_in l b : blocks_ok l -> b ∈ l -> block_ok b.
Proof. intros [Hl _] Hb. rewrite Forall_forall in Hl. auto. Qed.

Lemma joinable_u64 b c :
  block_ok b -> (u64 (b.(b_addr) + header_size + b.(b_size)) =? c.(b_addr)) = joinable b c.
Proof. intros (? & ? & ?). unfold joinable, b_end, header_size in *. by rewrite u64_small by lia. Qed.

Lemma can_merge_run s l1 b l2 :
  dseg s.(nodes) 0 (l1 ++ b :: l2) 0 -> headers_ok (l1 ++ b :: l2) ->
  can_merge b.(b_addr) s =
    Ret (Z.lor (if left_joins l1 b then MERGE_LEFT else 0) (if right_joins b l2 then MERGE_RIGHT else 0), s).
Proof.
  intros Hd Hok. pose proof (dseg_lookup _ _ _ _ _ Hd) as Hb.
  assert (forall x, x ∈ l1 ++ b :: l2 -> block_ok x) as Hin by (intros; by eapply header_in).
  destruct (Hin b ltac:(set_solver)) as (Hba & Hbs & Hbe).
  unfold can_merge. rewrite (bind_run _ _ _ _ _ (read_run s b.(b_addr) _ ltac:(lia) Hb)). cbn [prev next node_size].
  assert ((if negb (last_addr l1 0 =? 0) then
             let! p := read_node (last_addr l1 0) in
             ret (if p.(is_free) && (u64 (last_addr l1 0 + header_size + p.(node_size)) =? b.(b_addr)) then MERGE_LEFT else 0)
           else ret 0) s = Ret (if left_joins l1 b then MERGE_LEFT else 0, s)) as Hleft.
  { unfold last_addr, left_joins. destruct (last l1) as [p|] eqn:Hp; [|done].
    apply last_split in Hp. rewrite Hp, <- app_assoc in Hd. pose proof (dseg_lookup _ _ _ p _ Hd) as Hpl.
    assert (block_ok p) as Hpk by (apply Hin; rewrite Hp; set_solver). pose proof Hpk as (Hpa & _).
    destruct (Z.eqb_spec p.(b_addr) 0); [lia|]. cbn [negb].
    rewrite (bind_run _ _ _ _ _ (read_run s p.(b_addr) _ ltac:(lia) Hpl)). cbn [is_free node_size].
    by rewrite joinable_u64. }
  rewrite (bind_run _ _ _ _ _ Hleft). destruct l2 as [|c l2]; cbn [hd_addr].
  { cbn. by rewrite Z.lor_0_r. }
  assert (block_ok c) as Hck by (apply Hin; set_solver). pose proof Hck as (Hca & _).
  change (l1 ++ b :: c :: l2) with (l1 ++ [b] ++ c :: l2) in Hd. rewrite app_assoc in Hd.
  pose proof (dseg_lookup _ _ _ c _ Hd) as Hc.
  destruct (Z.eqb_spec c.(b_addr) 0); [lia|]. cbn [negb].
  rewrite (bind_run _ _ _ _ _ (read_run s c.(b_addr) _ ltac:(lia) Hc)). cbn [is_free].
  rewrite joinable_u64 by done. unfold ret, right_joins. destruct (_ && _); [done|by rewrite Z.lor_0_r].
Qed.

Lemma merge_run s l1 b c l2 :
  dseg s.(nodes) 0 (l1 ++ b :: c :: l2) 0 -> headers_ok (l1 ++ b :: c :: l2) -> joinable b c = true ->
  exists h, merge_memory_nodes b.(b_addr) c.(b_addr) s = Ret (tt, set_nodes h s) /\
    dseg h 0 (l1 ++ join b c :: l2) 0.
Proof.
  intros Hd Hok Hj. pose proof (dseg_lookup _ _ _ _ _ Hd) as Hb.
  assert (forall x, x ∈ l1 ++ b :: c :: l2 -> block_ok x) as Hin by (intros; by eapply header_in).
  destruct (Hin b ltac:(set_solver)) as (Hba & Hbs & Hbe).
  destruct (Hin c ltac:(set_solver)) as (Hca & Hcs & Hce).
  pose proof (proj2 Hok) as Hnd. rewrite addrs_app, NoDup_app in Hnd. simpl in Hnd.
  rewrite !NoDup_cons in Hnd. destruct Hnd as (Hnd1 & Hdis & Hnb & Hnc & Hnd2).
  apply not_elem_of_cons in Hnb as [Hbc Hnb].
  pose proof Hd as Hd'. apply dseg_app in Hd' as (Hd1 & _ & Hc & Hd2). simpl in Hd1.
  unfold merge_memory_nodes. destruct (Z.eqb_spec b.(b_addr) 0), (Z.eqb_spec c.(b_addr) 0); [lia|lia|lia|].
  cbn [orb]. rewrite (bind_run _ _ _ _ _ (read_run s b.(b_addr) _ ltac:(lia) Hb)). cbn [node_size].
  replace (b_addr b + b_size b + header_size) with (b_addr b + header_size + b_size b) by lia.
  rewrite joinable_u64, Hj by done.
  rewrite (bind_run _ _ _ _ _ (read_run s c.(b_addr) _ ltac:(lia) Hc)). cbn [node_size next].
  unfold joinable, b_end, header_size in *. zbool.
  rewrite (u64_small (b_size b + b_size c + 32)) by lia.
  rewrite (bind_run _ _ _ _ _ (update_run s b.(b_addr) _ _ ltac:(lia) Hb)).
  set (s1 := set_nodes _ s).
  assert (s1.(nodes) !! b.(b_addr) = Some (mk_node (b_size b + b_size c + 32) b.(b_free) c.(b_addr) (last_addr l1 0))) as Hb1
    by apply lookup_insert_eq.
  rewrite (bind_run _ _ _ _ _ (update_run s1 b.(b_addr) _ _ ltac:(lia) Hb1)).
  set (s2 := set_nodes _ s1). unfold with_next in s2. cbn [node_size is_free prev] in s2.
  assert (headers_ok l2) as Hok2.
  { rewrite headers_app, !headers_cons in Hok. tauto. }
  destruct (relink_run s2 c.(b_addr) b.(b_addr) l2) as (h & Hrun & Hd3 & Hother); [|done|].
  { unfold s2, s1. simpl. by rewrite !dseg_frame. }
  exists h. rewrite Hrun. split; [done|]. apply dseg_app. simpl.
  assert (h !! b_addr b = Some (mk_node (b_size b + b_size c + header_size) b.(b_free) (hd_addr l2 0) (last_addr l1 0))) as Hb3.
  { rewrite Hother by done. apply lookup_insert_eq. }
  split; [|split; [exact Hb3|exact Hd3]].
  apply (dseg_ext s.(nodes)); [|done]. intros x Hx.
  assert (x <> b.(b_addr) /\ x ∉ addrs l2) as [Hx1 Hx2].
  { pose proof (Hdis x Hx) as Hnot. set_solver. }
  rewrite Hother by done. unfold s2, s1. simpl. by rewrite !lookup_insert_ne.
Qed.

(** Merging to the left when the flags of [can_merge] say so. *)
Lemma merge_left_run s l1 b l2 :
  dseg s.(nodes) 0 (l1 ++ b :: l2) 0 -> headers_ok (l1 ++ b :: l2) ->
  exists h, (if left_joins l1 b
             then let! n := read_node b.(b_addr) in merge_memory_nodes n.(prev) b.(b_addr)
             else ret tt) s = Ret (tt, set_nodes h s) /\
    dseg h 0 (join_left l1 (b :: l2)) 0.
Proof.
  intros Hd Hok. unfold left_joins, join_left. destruct (last l1) as [p|] eqn:Hp.
  2:{ exists s.(nodes). split; [by destruct s|done]. }
  destruct (p.(b_free) && joinable p b) eqn:Hj.
  2:{ exists s.(nodes). split; [by destruct s|done]. }
  pose proof (dseg_lookup _ _ _ _ _ Hd) as Hb.
  destruct (header_in _ b Hok) as (Hba & _); [set_solver|].
  rewrite (bind_run _ _ _ _ _ (read_run s b.(b_addr) _ ltac:(lia) Hb)). cbn [prev].
  apply last_split in Hp as Hp'. unfold last_addr. rewrite Hp.
  rewrite Hp', <- app_assoc in Hd, Hok. apply andb_prop in Hj as [_ Hj].
  exact (merge_run s (removelast l1) p b l2 Hd Hok Hj).
Qed.

Lemma merge_right_run s l1 b l2 :
  dseg s.(nodes) 0 (l1 ++ b :: l2) 0 -> headers_ok (l1 ++ b :: l2) ->
  exists h, (if right_joins b l2
             then let! n := read_node b.(b_addr) in merge_memory_nodes b.(b_addr) n.(next)
             else ret tt) s = Ret (tt, set_nodes h s) /\
    dseg h 0 (l1 ++ join_right b l2) 0.
Proof.
  intros Hd Hok. unfold right_joins, join_right. destruct l2 as [|c l2].
  { exists s.(nodes). split; [by destruct s|done]. }
  destruct (c.(b_free) && joinable b c) eqn:Hj.
  2:{ exists s.(nodes). split; [by destruct s|done]. }
  pose proof (dseg_lookup _ _ _ _ _ Hd) as Hb.
  destruct (header_in _ b Hok) as (Hba & _); [set_solver|].
  rewrite (bind_run _ _ _ _ _ (read_run s b.(b_addr) _ ltac:(lia) Hb)). cbn [next hd_addr].
  apply andb_prop in Hj as [_ Hj]. exact (merge_run s l1 b c l2 Hd Hok Hj).
Qed.
End Merging.

(** ** Correctness *)

Section Correctness.
Context `{PageConfig} {V : Type} `{VmmAlloc V}.
Implicit Types (s : heap_state V) (b c : block) (l : list block).

(** The heap in memory is the list of blocks [l]. *)
Definition heap_repr s l : Prop :=
  l <> [] /\ dseg s.(nodes) 0 l 0 /\ s.(kernel_heap_start) = hd_addr l 0 /\ blocks_ok l.

(** The same, whether the blocks overlap or not: their headers are the list in memory. *)
Definition heap_links s l : Prop :=
  l <> [] /\ dseg s.(nodes) 0 l 0 /\ s.(kernel_heap_start) = hd_addr l 0 /\ headers_ok l.

Lemma repr_links s l : heap_repr s l -> heap_links s l.
Proof. intros (? & ? & ? & Hok). do 3 (split; [done|]). by apply blocks_headers. Qed.
Lemma links_repr s l : heap_links s l -> blocks_ok l -> heap_repr s l.
Proof. by intros (? & ? & ? & _). Qed.

(** The same, the end pointer being at the last block. *)
Definition heap_inv s l : Prop := heap_repr s l /\ s.(kernel_heap_end) = last_addr l 0.
Definition heap_tail s l : Prop := heap_links s l /\ s.(kernel_heap_end) = last_addr l 0.

Lemma inv_tail s l : heap_inv s l -> heap_tail s l.
Proof. intros [? ?]. split; [by apply repr_links|done]. Qed.

Lemma dseg_dom h p l n : dseg h p l n -> forall a, a ∈ addrs l -> a ∈ dom h.
Proof.
  revert p. induction l as [|b l IH]; intros p; simpl.
  - intros _ a Ha. by apply elem_of_nil in Ha.
  - intros [Hb Hl] a [->|Ha]%elem_of_cons; [by apply elem_of_dom_2 in Hb|by eapply IH].
Qed.

Lemma heap_fuel s l : heap_links s l -> (length l <= base.size s.(nodes))%nat.
Proof.
  intros (_ & Hd & _ & Hok). rewrite <- size_dom. unfold addrs in *.
  rewrite <- (length_map b_addr l). fold (addrs l).
  rewrite <- (size_list_to_set (C := gset Z) (addrs l)) by apply Hok.
  apply subseteq_size. intros a Ha. apply elem_of_list_to_set in Ha. by eapply dseg_dom.
Qed.

Lemma hd_addr_join_left l1 l n : l <> [] -> hd_addr (join_left l1 l) n = hd_addr (l1 ++ l) n.
Proof.
  intros Hl. unfold join_left. destruct (last l1) as [p|] eqn:Hp; [|done]. destruct l as [|b l2]; [done|].
  destruct (_ && _); [|done]. apply last_split in Hp. rewrite Hp at 2. rewrite <- app_assoc, !hd_addr_app. done.
Qed.

Lemma hd_addr_free l1 b l2 n : hd_addr (free_blocks l1 b l2) n = hd_addr (l1 ++ b :: l2) n.
Proof.
  unfold free_blocks. rewrite hd_addr_join_left by (unfold join_right; destruct l2; [done|by case_match]).
  rewrite !hd_addr_app. f_equal. unfold join_right. destruct l2; [done|]. by case_match.
Qed.

Lemma join_left_nonempty l1 b l2 : join_left l1 (b :: l2) <> [].
Proof. unfold join_left. case_match; [case_match|]; by destruct (removelast l1), l1. Qed.

Lemma join_right_cons b l2 : exists b' l2', join_right b l2 = b' :: l2' /\ b'.(b_addr) = b.(b_addr).
Proof. unfold join_right. destruct l2 as [|c l2]; [eauto|]. case_match; eauto. Qed.

Lemma kfree_skip ptr fuel : forall m s l1 l2,
  dseg s.(nodes) 0 (l1 ++ m ++ l2) 0 -> headers_ok m ->
  Forall (fun b => b.(b_addr) + header_size <> ptr) m ->
  kfree_loop (length m + fuel) ptr (hd_addr (m ++ l2) 0) s = kfree_loop fuel ptr (hd_addr l2 0) s.
Proof.
  induction m as [|b m IH]; intros s l1 l2 Hd Hok Hall; [done|].
  apply Forall_cons in Hall as [Hne Hall]. apply headers_cons in Hok as ((Hba & Hbs & Hbe) & Hok & _).
  pose proof (dseg_lookup _ _ l1 b (m ++ l2) Hd) as Hb. unfold b_end, header_size in *.
  cbn [length Nat.add kfree_loop app hd_addr]. unfold header_size.
  destruct (Z.eqb_spec b.(b_addr) 0); [lia|]. rewrite (u64_small (b_addr b + 32)) by lia.
  destruct (Z.eqb_spec (b_addr b + 32) ptr); [lia|].
  rewrite (bind_run _ _ _ _ _ (read_run s b.(b_addr) _ ltac:(lia) Hb)). cbn [next].
  apply (IH s (l1 ++ [b]) l2); [by rewrite <- app_assoc|done|done].
Qed.

(** Freeing the node the loop has found. *)
Lemma kfree_found fuel s l1 b l2 :
  dseg s.(nodes) 0 (l1 ++ b :: l2) 0 -> headers_ok (l1 ++ b :: l2) ->
  exists h, kfree_loop (Datatypes.S fuel) (b.(b_addr) + header_size) b.(b_addr) s = Ret (tt, set_nodes h s) /\
    dseg h 0 (free_blocks l1 b l2) 0.
Proof.
  intros Hd Hok. pose proof (dseg_lookup _ _ _ _ _ Hd) as Hb.
  destruct (header_in _ b Hok) as (Hba & Hbs & Hbe); [set_solver|]. unfold b_end, header_size in *.
  cbn [kfree_loop]. unfold header_size. destruct (Z.eqb_spec b.(b_addr) 0); [lia|].
  rewrite (u64_small (b_addr b + 32)), Z.eqb_refl by lia.
  rewrite (bind_run _ _ _ _ _ (update_run s b.(b_addr) _ _ ltac:(lia) Hb)).
  pose proof (dseg_update s.(nodes) 0 l1 b (freed b) l2 (proj2 Hok) eq_refl Hd) as Hd1.
  assert (headers_ok (l1 ++ freed b :: l2)) as Hok1 by (apply (headers_replace l1 b); [done|by unfold block_ok|done]).
  set (s1 := set_nodes _ s). change (b_addr b) with (freed b).(b_addr).
  rewrite (bind_run _ _ _ _ _ (can_merge_run s1 l1 (freed b) l2 Hd1 Hok1)).
  destruct (merge_right_run s1 l1 (freed b) l2 Hd1 Hok1) as (h2 & Hrun2 & Hd2).
  assert (forall x y : bool, (Z.land (Z.lor (if x then MERGE_LEFT else 0) (if y then MERGE_RIGHT else 0)) MERGE_RIGHT =? 0) = negb y /\
    (Z.land (Z.lor (if x then MERGE_LEFT else 0) (if y then MERGE_RIGHT else 0)) MERGE_LEFT =? 0) = negb x) as Hflags
    by by intros [] [].
  destruct (Hflags (left_joins l1 (freed b)) (right_joins (freed b) l2)) as [-> ->].
  rewrite !negb_involutive. rewrite (bind_run _ _ _ _ _ Hrun2).
  pose proof (headers_join_right l1 (freed b) l2 Hok1) as Hok2.
  destruct (join_right_cons (freed b) l2) as (b' & l2' & E & Ha). rewrite E in Hd2, Hok2.
  destruct (merge_left_run (set_nodes h2 s1) l1 b' l2' Hd2 Hok2) as (h3 & Hrun3 & Hd3).
  rewrite Ha in Hrun3. exists h3. split; [|unfold free_blocks; by rewrite E].
  assert (left_joins l1 b' = left_joins l1 (freed b)) as El
    by (unfold left_joins, joinable; by rewrite Ha).
  rewrite El in Hrun3. exact Hrun3.
Qed.

(** [kfree] on the list of headers. *)
Lemma kfree_links s l1 b l2 :
  heap_links s (l1 ++ b :: l2) ->
  let ptr := b.(b_addr) + header_size in
  if (s.(kernel_heap_start) <=? ptr) && (ptr <=? s.(kernel_heap_end)) then
    exists h, kfree ptr s = Ret (tt, set_nodes h s) /\ heap_links (set_nodes h s) (free_blocks l1 b l2)
  else kfree ptr s = Ret (tt, s).
Proof.
  intros Hrep ptr. pose proof (heap_fuel _ _ Hrep) as Hfuel.
  destruct Hrep as (_ & Hd & Hstart & Hok). destruct (header_in _ b Hok) as (Hba & Hbs & Hbe); [set_solver|].
  unfold kfree. destruct (Z.eqb_spec ptr 0); [unfold ptr, header_size in *; lia|].
  rewrite (bind_run get _ s s s eq_refl).
  destruct (Z.leb_spec s.(kernel_heap_start) ptr), (Z.ltb_spec ptr s.(kernel_heap_start)),
    (Z.leb_spec ptr s.(kernel_heap_end)), (Z.ltb_spec s.(kernel_heap_end) ptr); try lia; try done.
  cbn [orb andb].
  assert (forall c, c ∈ l1 -> c.(b_addr) + header_size <> ptr) as Hne.
  { intros c Hc E. destruct (headers_differ l1 b l2 Hok) as [Hn _].
    apply Hn, elem_of_addrs. exists c. split; [done|]. unfold ptr in E. lia. }
  rewrite length_app in Hfuel. simpl in Hfuel.
  replace (Datatypes.S (Datatypes.S (base.size s.(nodes))))
    with (length l1 + Datatypes.S (Datatypes.S (base.size s.(nodes)) - length l1))%nat by lia.
  rewrite Hstart. rewrite (kfree_skip ptr _ l1 s [] (b :: l2) Hd).
  2:{ by apply headers_app in Hok as [? _]. }
  2:{ by apply Forall_forall. }
  destruct (kfree_found (Datatypes.S (base.size s.(nodes)) - length l1) s l1 b l2 Hd Hok) as (h & Hrun & Hd').
  exists h. split; [exact Hrun|].
  split; [|split; [exact Hd'|split; [by rewrite hd_addr_free|by apply headers_free]]].
  unfold free_blocks. destruct (join_right_cons (freed b) l2) as (b' & l2' & -> & _). apply join_left_nonempty.
Qed.

(** What [kfree_coalesces] below says of [kfree]. *)
Lemma kfree_run s l1 b l2 :
  heap_repr s (l1 ++ b :: l2) ->
  let ptr := b.(b_addr) + header_size in
  if (s.(kernel_heap_start) <=? ptr) && (ptr <=? s.(kernel_heap_end)) then
    exists h, kfree ptr s = Ret (tt, set_nodes h s) /\ heap_repr (set_nodes h s) (free_blocks l1 b l2) /\
      total (free_blocks l1 b l2) = total (l1 ++ b :: l2)
  else kfree ptr s = Ret (tt, s).
Proof.
  intros Hrep ptr. pose proof (kfree_links s l1 b l2 (repr_links _ _ Hrep)) as Hrun. cbv zeta in Hrun. fold ptr in Hrun.
  destruct (_ && _); [|exact Hrun]. destruct Hrun as (h & Hrun & Hl). exists h.
  destruct (free_blocks_ok l1 b l2) as [Hok' Ht]; [apply Hrep|]. split; [exact Hrun|]. split; [by apply links_repr|exact Ht].
Qed.

(** C4: [kfree] of the address of a block frees exactly that block and coalesces it
    with the free neighbours it touches, [free_blocks] of the abstract heap, which
    stays well formed and covers the same bytes; [kfree] of an address below the
    first header or past [kernel_heap_end], which the last block's is, does
    nothing. *)
Theorem kfree_coalesces s l1 b l2 :
  heap_repr s (l1 ++ b :: l2) ->
  let ptr := b.(b_addr) + header_size in
  if (s.(kernel_heap_start) <=? ptr) && (ptr <=? s.(kernel_heap_end)) then
    exists s', kfree ptr s = Ret (tt, s') /\ heap_repr s' (free_blocks l1 b l2) /\
      total (free_blocks l1 b l2) = total (l1 ++ b :: l2) /\
      s'.(kernel_heap_end) = s.(kernel_heap_end) /\ s'.(heap_vmm) = s.(heap_vmm)
  else kfree ptr s = Ret (tt, s).
Proof.
  intros Hrep ptr. pose proof (kfree_run s l1 b l2 Hrep) as Hrun. cbv zeta in Hrun. fold ptr in Hrun.
  destruct (_ && _); [|exact Hrun]. destruct Hrun as (h & Hrun & Hrep' & Ht). exists (set_nodes h s). by split_and!.
Qed.

Lemma take_block_cons real b : exists b' l', take_block real b = b' :: l' /\ b'.(b_addr) = b.(b_addr) /\
  b'.(b_free) = false /\ (fits real b = true -> real <= b'.(b_size)).
Proof.
  unfold take_block, fits. case_match; eexists _, _; (split; [done|]); simpl; split_and!; try done; intros; zbool; lia.
Qed.

(** The blocks the search passes before the one it takes. *)
Fixpoint skipped (real : Z) l : list block :=
  match l with
  | [] => []
  | b :: l' => if fits real b then [] else b :: skipped real l'
  end.

Lemma skipped_split real l1 b l2 :
  Forall (fun c => fits real c = false) l1 -> fits real b = true -> skipped real (l1 ++ b :: l2) = l1.
Proof. intros Hl1 Hb. induction Hl1 as [|c l1 Hc _ IH]; simpl; [by rewrite Hb|]. by rewrite Hc, IH. Qed.

(** [kmalloc] whose search does not come to the block at [kernel_heap_end]: it takes
    the first block that is large enough. *)
Lemma kmalloc_links s l1 b l2 size :
  heap_links s (l1 ++ b :: l2) -> 0 < size < 2 ^ 64 - 64 -> fits (real_size size) b = true ->
  Forall (fun c => fits (real_size size) c = false) l1 -> s.(kernel_heap_end) ∉ addrs l1 ->
  let l' := l1 ++ take_block (real_size size) b ++ l2 in headers_ok l' ->
  exists h, let s' := with_heap h (if b.(b_addr) =? s.(kernel_heap_end) then last_addr (take_block (real_size size) b) 0
                                    else s.(kernel_heap_end)) s in
    kmalloc size s = Ret (b.(b_addr) + header_size, s') /\ heap_links s' l'.
Proof.
  intros Hrep Hs Hf Hall Hnotend l' Hok'. pose proof (heap_fuel _ _ Hrep) as Hfuel. destruct Hrep as (Hne & Hd & Hstart & Hok).
  rewrite length_app in Hfuel. simpl in Hfuel.
  set (fuel := Datatypes.S (Datatypes.S (Datatypes.S (base.size s.(nodes))))).
  assert (fuel = length l1 + Datatypes.S (fuel - length l1 - 1))%nat as Efuel by (unfold fuel; lia).
  destruct (loop_take size (fuel - length l1 - 1) s l1 b l2 ltac:(lia) Hd Hok Hok' Hf) as (h & Hrun & Hd').
  exists h. split.
  - unfold kmalloc. rewrite (bind_run get _ s s s eq_refl). destruct (Z.eqb_spec size 0); [lia|].
    fold fuel. rewrite Efuel, Hstart.
    rewrite (loop_skip size _ ltac:(lia) l1 s [] (b :: l2) Hd); [exact Hrun|by apply headers_app in Hok as [? _]|].
    rewrite Forall_forall in Hall |- *. intros c Hc. split; [by apply Hall|].
    intros E. apply Hnotend. rewrite <- E. apply elem_of_addrs. eauto.
  - destruct (take_block_cons (real_size size) b) as (b' & m & E & Ha & _).
    split; [unfold l'; rewrite E; by destruct l1|split; [exact Hd'|split; [|done]]].
    simpl. unfold l'. rewrite Hstart, !hd_addr_app, E. simpl. by rewrite Ha.
Qed.

Lemma kmalloc_takes s l1 b l2 size :
  heap_repr s (l1 ++ b :: l2) -> 0 < size < 2 ^ 64 - 64 -> fits (real_size size) b = true ->
  Forall (fun c => fits (real_size size) c = false) l1 -> s.(kernel_heap_end) ∉ addrs l1 ->
  let l' := l1 ++ take_block (real_size size) b ++ l2 in
  exists h, let s' := with_heap h (if b.(b_addr) =? s.(kernel_heap_end) then last_addr (take_block (real_size size) b) 0
                                    else s.(kernel_heap_end)) s in
    kmalloc size s = Ret (b.(b_addr) + header_size, s') /\ heap_repr s' l' /\ total l' = total (l1 ++ b :: l2).
Proof.
  intros Hrep Hs Hf Hall Hnotend l'. pose proof (real_size_bounds size ltac:(lia)) as Hreal.
  assert (alloc_blocks (real_size size) (l1 ++ b :: l2) = Some (b.(b_addr), l')) as Halloc.
  { unfold l'. clear -Hf Hall. induction Hall as [|c l1 Hc _ IH]; simpl; [by rewrite Hf|]. by rewrite Hc, IH. }
  destruct (alloc_blocks_ok (real_size size) (l1 ++ b :: l2) b.(b_addr) l') as [Hok' Ht]; [unfold header_size in *; lia|apply Hrep|done|].
  destruct (kmalloc_links s l1 b l2 size (repr_links _ _ Hrep) Hs Hf Hall Hnotend (blocks_headers _ Hok')) as (h & Hrun & Hl).
  exists h. split; [exact Hrun|]. split; [by apply links_repr|exact Ht].
Qed.

(** Two blocks of a heap are at different addresses. *)
Lemma addr_differs l1 b l2 c : blocks_ok (l1 ++ b :: l2) -> c ∈ l1 \/ c ∈ l2 -> c.(b_addr) <> b.(b_addr).
Proof.
  intros Hok Hc E. pose proof (blocks_ok_NoDup _ Hok) as Hnd. rewrite addrs_app, NoDup_app in Hnd. simpl in Hnd.
  destruct Hnd as (_ & Hd & Hnd). apply NoDup_cons in Hnd as [Hn _].
  destruct Hc as [Hc|Hc].
  - apply (Hd c.(b_addr)); [apply elem_of_addrs; eauto|]. rewrite E. apply list_elem_of_here.
  - apply Hn. rewrite <- E. apply elem_of_addrs. eauto.
Qed.

(** [kmalloc] when some free block is large enough. *)
Lemma kmalloc_fits s l size a l' :
  heap_inv s l -> 0 < size < 2 ^ 64 - 64 ->
  alloc_blocks (real_size size) l = Some (a, l') ->
  exists h e, kmalloc size s = Ret (a + header_size, with_heap h e s) /\ heap_inv (with_heap h e s) l' /\ total l' = total l /\
    exists b, b ∈ l' /\ b.(b_addr) = a /\ b.(b_free) = false /\ a + header_size + size <= b_end b.
Proof.
  intros [Hrep Hend] Hs Halloc. apply alloc_blocks_split in Halloc as (l1 & b & l2 & -> & -> & -> & Hf & Hall).
  pose proof Hrep as (_ & _ & _ & Hok). unfold last_addr in Hend. rewrite last_app, last_cons in Hend.
  destruct (kmalloc_takes s l1 b l2 size Hrep Hs Hf Hall) as (h & Hrun & Hrep' & Ht).
  { rewrite Hend. intros (c & Hc & E)%elem_of_addrs. destruct (last l2) as [x|] eqn:Hx; [|by eapply (addr_differs l1 b l2 c); auto].
    apply last_split in Hx. revert E. rewrite Hx in Hok. rewrite app_comm_cons, app_assoc in Hok.
    apply (addr_differs (l1 ++ b :: removelast l2) x []); [exact Hok|set_solver]. }
  eexists _, _. split; [exact Hrun|]. destruct (take_block_cons (real_size size) b) as (b' & m & E & Ha & Hfr & Hsz).
  split; [split; [exact Hrep'|]|split; [done|]].
  - simpl. rewrite Hend. unfold last_addr. rewrite !last_app. destruct (last l2) as [x|] eqn:Hx.
    + destruct (Z.eqb_spec b.(b_addr) x.(b_addr)) as [Eb|]; [|done]. exfalso. revert Eb. apply not_eq_sym.
      apply (addr_differs l1 b l2 x Hok). right. by apply last_Some_elem_of.
    + rewrite Z.eqb_refl. rewrite E. unfold last_addr. rewrite !last_cons. by destruct (last m).
  - exists b'. rewrite E. split; [set_solver|]. split; [done|]. split; [done|].
    specialize (Hsz Hf). pose proof (real_size_bounds size ltac:(lia)). unfold b_end, header_size in *. lia.
Qed.

(** C3: [kmalloc], when some free block is large enough, implements first fit: it
    returns the payload of the first such block, splits it when more than the
    minimum is left over, and keeps the heap well formed, its bytes and the end
    pointer's place; the payload holds the bytes asked for, inside a block that is
    now in use and overlaps no other. *)
Theorem kmalloc_first_fit s l size a l' :
  heap_inv s l -> 0 < size < 2 ^ 64 - 64 ->
  alloc_blocks (real_size size) l = Some (a, l') ->
  exists s', kmalloc size s = Ret (a + header_size, s') /\ heap_inv s' l' /\ total l' = total l /\
    s'.(heap_vmm) = s.(heap_vmm) /\
    exists b, b ∈ l' /\ b.(b_addr) = a /\ b.(b_free) = false /\ a + header_size + size <= b_end b.
Proof.
  intros Hinv Hs Halloc. destruct (kmalloc_fits s l size a l' Hinv Hs Halloc) as (h & e & Hrun & Hinv' & Ht & Hb).
  by exists (with_heap h e s).
Qed.

(** ** Expansion *)

(** The block an expansion for [real] bytes adds at address [t]. *)
Definition tail_block (real t : Z) : block :=
  mk_block t (KERNEL_PAGE_SIZE * get_number_of_pages_from_size real) true.

Lemma tail_block_fits real t :
  0 <= real <= 2 ^ 64 - PAGE_SIZE_IN_BYTES -> fits real (tail_block real t) = true.
Proof.
  intros Hr. pose proof (get_number_of_pages_no_wrap real Hr) as E. pose proof (round_up_spec real) as [? _].
  change PAGE_SIZE_IN_BYTES with KERNEL_PAGE_SIZE in E. unfold fits, tail_block. simpl. apply Z.leb_le. lia.
Qed.

Lemma link_tail_run s l0 q real t :
  dseg s.(nodes) 0 (l0 ++ [q]) 0 -> headers_ok ((l0 ++ [q]) ++ [tail_block real t]) ->
  exists h,
    (do! write_node t (mk_node (u64 (KERNEL_PAGE_SIZE * get_number_of_pages_from_size real)) true 0 q.(b_addr)) in
     update_node q.(b_addr) (with_next t)) s = Ret (tt, set_nodes h s) /\
    dseg h 0 ((l0 ++ [q]) ++ [tail_block real t]) 0.
Proof.
  intros Hd Hok. set (tb := tail_block real t) in *.
  assert (block_ok tb) as (Ht & Hts & Hte) by (eapply header_in; [exact Hok|set_solver]).
  assert (block_ok q) as (Hq & _) by (eapply header_in; [exact Hok|set_solver]).
  destruct (headers_differ (l0 ++ [q]) tb [] Hok) as [Hn _].
  rewrite addrs_app in Hn. simpl in Hn. assert (t <> q.(b_addr)) as Hne by set_solver.
  assert (t ∉ addrs l0) as Hn0 by set_solver.
  unfold tb, tail_block, b_end, header_size in *. simpl in Ht, Hts, Hte.
  rewrite (u64_small (_ * _)) by lia.
  rewrite (bind_run _ _ _ _ _ (write_run s t _ ltac:(lia))).
  pose proof (dseg_lookup _ _ _ _ _ Hd) as Hql.
  assert (q.(b_addr) ∉ addrs l0) as Hq0.
  { apply headers_app in Hok as (Hok & _ & _). by apply (headers_differ l0 q []). }
  erewrite update_run; [|lia|simpl; rewrite lookup_insert_ne by done; exact Hql].
  eexists. split; [done|]. apply dseg_app in Hd as (Hd0 & _). rewrite <- app_assoc. apply dseg_app.
  simpl. split; [|split; [by rewrite lookup_insert_eq|split; [|done]]].
  - by rewrite !dseg_frame.
  - rewrite lookup_insert_ne by done. by rewrite lookup_insert_eq.
Qed.

Lemma expand_run s l real t v :
  heap_tail s l ->
  vmm_alloc real (Z.lor VMM_FLAGS_PRESENT VMM_FLAGS_WRITE_ENABLE) 0 s.(heap_vmm) = Ret (t, v) ->
  headers_ok (l ++ [tail_block real t]) ->
  exists h, expand_heap real s = Ret (tt, set_heap_vmm v (with_heap h t s)) /\
    dseg h 0 (join_left l [tail_block real t]) 0.
Proof.
  intros [(Hne & Hd & Hstart & Hokl) Hend] Hvmm Hok.
  destruct (exists_last Hne) as (l0 & q & ->). rewrite last_addr_snoc in Hend.
  pose proof (dseg_lookup _ _ _ _ _ Hd) as Hq.
  assert (block_ok q) as (Hqa & _) by (eapply header_in; [exact Hokl|set_solver]).
  unfold expand_heap. erewrite bind_run.
  2:{ unfold compute_kheap_end. rewrite (bind_run get _ s s s eq_refl). rewrite Hend.
      rewrite (bind_run _ _ _ _ _ (read_run s q.(b_addr) _ ltac:(lia) Hq)). done. }
  rewrite (bind_run (zoom _ _ _) _ s t (set_heap_vmm v s)) by (unfold zoom; by rewrite Hvmm).
  set (s1 := set_heap_vmm v s). rewrite (bind_run get _ s1 s1 s1 eq_refl).
  change (s1.(kernel_heap_end)) with (s.(kernel_heap_end)). rewrite Hend.
  destruct (link_tail_run s1 l0 q real t Hd Hok) as (h1 & Hrun1 & Hd1).
  apply bind_inv in Hrun1 as ([] & s2 & Hw & Hu).
  rewrite (bind_run _ _ _ _ _ Hw), (bind_run _ _ _ _ _ Hu).
  set (s3 := set_heap_end t (set_nodes h1 s1)). rewrite (bind_run (modify _) _ _ tt s3) by done.
  change t with (tail_block real t).(b_addr).
  rewrite (bind_run _ _ _ _ _ (can_merge_run s3 (l0 ++ [q]) (tail_block real t) [] Hd1 Hok)).
  destruct (merge_left_run s3 (l0 ++ [q]) (tail_block real t) [] Hd1 Hok) as (h2 & Hrun2 & Hd2).
  exists h2. split; [|exact Hd2].
  assert (forall x : bool, negb (Z.land (Z.lor (if x then MERGE_LEFT else 0) 0) MERGE_LEFT =? 0) = x) as Hflag by by intros [].
  cbn [right_joins]. rewrite Hflag. exact Hrun2.
Qed.

Lemma alloc_blocks_last real l b :
  alloc_blocks real l = None -> fits real b = true ->
  alloc_blocks real (l ++ [b]) = Some (b.(b_addr), l ++ take_block real b).
Proof.
  intros Hn Hf. apply alloc_blocks_none in Hn. induction l as [|c l IH]; simpl.
  - by rewrite Hf, app_nil_r.
  - apply Forall_cons in Hn as [Hc Hn]. by rewrite Hc, IH.
Qed.

(** The loop at the last block, which does not fit: the heap is expanded, and the
    loop goes on at the node after the one before the block, or after the block
    itself when there is none before. *)
Lemma loop_expand size fuel s l0 q t v h m :
  0 <= size < 2 ^ 64 - 64 -> heap_tail s (l0 ++ [q]) -> fits (real_size size) q = false ->
  expand_heap (real_size size) s = Ret (tt, set_heap_vmm v (with_heap h t s)) ->
  dseg h 0 (l0 ++ m) 0 -> hd_addr m 0 = q.(b_addr) ->
  kmalloc_loop (Datatypes.S fuel) size q.(b_addr) s =
    kmalloc_loop fuel size (match l0 with [] => hd_addr (tail m) 0 | _ => q.(b_addr) end)
      (set_heap_vmm v (with_heap h t s)).
Proof.
  intros Hs [(Hne & Hd & Hstart & Hok) Hend] Hf Hexp Hm Hhd. rewrite last_addr_snoc in Hend.
  pose proof (dseg_lookup _ _ _ _ _ Hd) as Hq.
  assert (forall x, x ∈ l0 ++ [q] -> block_ok x) as Hin by (intros; by eapply header_in).
  destruct (Hin q ltac:(set_solver)) as (Hqa & _).
  cbn [kmalloc_loop]. rewrite align_real by done. destruct (Z.eqb_spec q.(b_addr) 0); [lia|].
  rewrite (bind_run _ _ _ _ _ (read_run s q.(b_addr) _ ltac:(lia) Hq)). cbn [is_free node_size].
  change (b_free q && (real_size size <=? b_size q)) with (fits (real_size size) q). rewrite Hf.
  rewrite (bind_run get _ s s s eq_refl). rewrite Hend, Z.eqb_refl.
  set (s' := set_heap_vmm v (with_heap h t s)). destruct m as [|q' m]; [simpl in Hhd; lia|]. simpl in Hhd.
  pose proof (dseg_lookup h 0 l0 q' m Hm) as Hq'. rewrite Hhd in Hq'. simpl tail.
  assert ((let! n0 := (do! expand_heap (real_size size) in
             let! n1 := read_node q.(b_addr) in
             if negb (n1.(prev) =? 0) then ret n1.(prev) else ret q.(b_addr)) in read_node n0) s =
    Ret (mk_node (match last l0 with Some x => x.(b_size) | None => q'.(b_size) end)
                 (match last l0 with Some x => x.(b_free) | None => q'.(b_free) end)
                 (match l0 with [] => hd_addr m 0 | _ => q.(b_addr) end)
                 (match last l0 with Some x => last_addr (removelast l0) 0 | None => 0 end), s')) as Hstep.
  { assert ((do! expand_heap (real_size size) in
             let! n1 := read_node q.(b_addr) in
             if negb (n1.(prev) =? 0) then ret n1.(prev) else ret q.(b_addr)) s =
      Ret (match last l0 with Some x => x.(b_addr) | None => q.(b_addr) end, s')) as Hat.
    { rewrite (bind_run _ _ _ _ _ Hexp). fold s'.
      rewrite (bind_run _ _ _ _ _ (read_run s' q.(b_addr) _ ltac:(lia) Hq')). cbn [prev].
      unfold last_addr. destruct (last l0) as [x|] eqn:Hx; [|done].
      destruct (Hin x) as (? & _); [apply last_Some_elem_of in Hx; set_solver|].
      destruct (Z.eqb_spec x.(b_addr) 0); [lia|done]. }
    rewrite (bind_run _ _ _ _ _ Hat). destruct (last l0) as [x|] eqn:Hx.
    - destruct (Hin x) as (? & _); [apply last_Some_elem_of in Hx; set_solver|].
      pose proof (last_split _ _ Hx) as E. rewrite E, <- app_assoc in Hm.
      pose proof (dseg_lookup h 0 (removelast l0) x (q' :: m) Hm) as Hxl. cbn [hd_addr] in Hxl.
      rewrite (read_run s' x.(b_addr) _ ltac:(lia) Hxl). rewrite Hhd. destruct l0; [done|done].
    - apply last_None in Hx as ->. exact (read_run s' q.(b_addr) _ ltac:(lia) Hq'). }
  apply bind_inv in Hstep as (n0 & s2 & Hat & Hread).
  rewrite (bind_run _ _ _ _ _ Hat), (bind_run _ _ _ _ _ Hread). done.
Qed.

Lemma join_left_last l0 q b :
  join_left (l0 ++ [q]) [b] = if q.(b_free) && joinable q b then l0 ++ [join q b] else (l0 ++ [q]) ++ [b].
Proof. unfold join_left. rewrite last_snoc. case_match; [by rewrite removelast_last|done]. Qed.

(** [kmalloc] at the end of a heap with nothing large enough. *)
Section Expanding.
Context (s : heap_state V) (l0 : list block) (q : block) (size t : Z) (v : V) (h : gmap Z KHeapMemoryNode).
Let real := real_size size.
Let tb := tail_block real t.
Let s' := set_heap_vmm v (with_heap h t s).
Hypothesis Hinv : heap_tail s (l0 ++ [q]).
Hypothesis Hs : 0 < size < 2 ^ 63.
Hypothesis Hnone : alloc_blocks real (l0 ++ [q]) = None.
Hypothesis Hok : headers_ok ((l0 ++ [q]) ++ [tb]).
Hypothesis Hexp : expand_heap real s = Ret (tt, s').

Local Lemma real_bounds : 0 <= real <= 2 ^ 64 - PAGE_SIZE_IN_BYTES.
Proof.
  pose proof (real_size_bounds size ltac:(lia)). pose proof page_size_bounds.
  unfold real, header_size in *. lia.
Qed.

Local Lemma none_fits : Forall (fun b => fits real b = false) l0 /\ fits real q = false.
Proof. pose proof Hnone as Hn. apply alloc_blocks_none, Forall_app in Hn as [? Hq].
  rewrite Forall_cons in Hq. by destruct Hq. Qed.

Local Lemma not_tail b : b ∈ l0 ++ [q] -> b.(b_addr) <> t.
Proof.
  intros Hb E. destruct (headers_differ (l0 ++ [q]) tb [] Hok) as [Hn _]. apply Hn, elem_of_addrs. eauto.
Qed.

(** Up to the expansion, [n] rounds of the loop being left after it. *)
Local Lemma kmalloc_to_expansion m :
  dseg h 0 (l0 ++ m) 0 -> hd_addr m 0 = q.(b_addr) ->
  exists fuel, (2 <= fuel)%nat /\
    kmalloc size s = kmalloc_loop fuel size (match l0 with [] => hd_addr (tail m) 0 | _ => q.(b_addr) end) s'.
Proof.
  intros Hm Hhd. pose proof Hinv as [Hrep Hend]. pose proof (heap_fuel _ _ Hrep) as Hfuel.
  rewrite last_addr_snoc in Hend. destruct Hrep as (_ & Hd & Hstart & Hokl). destruct none_fits as [Hl0 Hq].
  rewrite length_app in Hfuel. simpl in Hfuel.
  exists (Datatypes.S (Datatypes.S (base.size s.(nodes) - length l0))). split; [lia|].
  unfold kmalloc. rewrite (bind_run get _ s s s eq_refl). destruct (Z.eqb_spec size 0); [lia|].
  replace (Datatypes.S (Datatypes.S (Datatypes.S (base.size s.(nodes)))))
    with (length l0 + Datatypes.S (Datatypes.S (Datatypes.S (base.size s.(nodes) - length l0))))%nat by lia.
  rewrite Hstart, (loop_skip size _ ltac:(lia) l0 s [] [q] Hd).
  - apply loop_expand; done || lia.
  - by apply headers_app in Hokl as [? _].
  - rewrite Forall_forall in Hl0 |- *. intros b Hb. split; [by apply Hl0|]. rewrite Hend. intros E.
    apply headers_app in Hokl as (_ & _ & Hdis). apply (Hdis b.(b_addr)); [apply elem_of_addrs; eauto|simpl; set_solver].
Qed.

(** The new block stands alone. *)
Lemma kmalloc_expand_apart :
  q.(b_free) && joinable q tb = false -> dseg h 0 (join_left (l0 ++ [q]) [tb]) 0 ->
  headers_ok ((l0 ++ [q]) ++ take_block real tb) ->
  exists s2, kmalloc size s = Ret (t + header_size, s2) /\
    heap_tail s2 ((l0 ++ [q]) ++ take_block real tb) /\ s2.(heap_vmm) = v.
Proof.
  intros Hj Hd Hoktk. rewrite join_left_last, Hj in Hd. pose proof Hinv as [(_ & _ & Hstart & _) _].
  destruct none_fits as [Hl0 Hq]. pose proof real_bounds as Hr.
  assert (q.(b_addr) <> t) as Hqt by (apply not_tail; set_solver).
  destruct (kmalloc_to_expansion [q; tb]) as (fuel & Hf & Hrun); [by rewrite <- app_assoc in Hd|done|].
  assert (exists fuel', kmalloc size s = kmalloc_loop (Datatypes.S fuel') size tb.(b_addr) s') as [fuel' Hrun'].
  { rewrite Hrun. destruct l0 as [|x l0'] eqn:El.
    - destruct fuel as [|fuel]; [lia|]. by exists fuel.
    - destruct fuel as [|[|fuel]]; [lia|lia|]. exists fuel. rewrite <- El in *.
      apply (loop_skip size (Datatypes.S fuel) ltac:(lia) [q] s' l0 [tb]); [by rewrite <- app_assoc in Hd| |].
      + pose proof Hok as Hok'. rewrite !headers_app in Hok'. tauto.
      + apply Forall_singleton. split; [exact Hq|]. exact Hqt. }
  destruct (loop_take size fuel' s' (l0 ++ [q]) tb [] ltac:(lia) Hd Hok) as (h2 & Hrun2 & Hd2);
    [by rewrite app_nil_r|by apply tail_block_fits|].
  rewrite app_nil_r in Hd2. eexists. split; [rewrite Hrun'; exact Hrun2|].
  destruct (take_block_cons real tb) as (b' & m & E & Ha & _). split; [|done]. split.
  - split; [rewrite E; by destruct l0|split; [exact Hd2|split]].
    + simpl. rewrite Hstart, !hd_addr_app. simpl. done.
    + exact Hoktk.
  - simpl. rewrite Z.eqb_refl. unfold last_addr. rewrite last_app.
    destruct (last (take_block real tb)) as [x|] eqn:Hx; [by fold real; rewrite Hx|].
    apply last_None in Hx. rewrite E in Hx. done.
Qed.

(** The new block is merged into the last one. *)
Lemma kmalloc_expand_joined :
  q.(b_free) && joinable q tb = true -> dseg h 0 (join_left (l0 ++ [q]) [tb]) 0 ->
  headers_ok (l0 ++ take_block real (join q tb)) ->
  exists r s2, kmalloc size s = Ret (r, s2) /\ s2.(heap_vmm) = v /\ s2.(kernel_heap_end) = t /\
    match l0 with
    | [] => r = 0 /\ heap_links s2 [join q tb]
    | _ => r = q.(b_addr) + header_size /\ heap_links s2 (l0 ++ take_block real (join q tb))
    end.
Proof.
  intros Hj Hd Hoktk. rewrite join_left_last, Hj in Hd. pose proof Hinv as [(_ & _ & Hstart & Hokl) _].
  destruct none_fits as [Hl0 Hq]. pose proof real_bounds as Hr. apply andb_prop in Hj as [Hqf Hj].
  assert (q.(b_addr) <> t) as Hqt by (apply not_tail; set_solver).
  destruct (kmalloc_to_expansion [join q tb]) as (fuel & Hf & Hrun); [done|done|].
  assert (headers_ok (l0 ++ [join q tb])) as Hokj by (rewrite <- app_assoc in Hok; by apply headers_join).
  assert (fits real (join q tb) = true) as Hfj.
  { pose proof (tail_block_fits real t Hr) as Hft. unfold fits in Hft |- *. simpl in Hft |- *. rewrite Hqf.
    apply Z.leb_le in Hft. apply Z.leb_le. fold tb in Hft.
    destruct (header_in _ q Hokl) as (_ & ? & _); [set_solver|]. unfold header_size. simpl. lia. }
  destruct l0 as [|x l0'] eqn:El.
  - destruct fuel as [|fuel]; [lia|]. exists 0, s'. split; [by rewrite Hrun|]. split; [done|]. split; [done|].
    split; [done|]. split; [done|]. split; [exact Hd|]. by split.
  - rewrite <- El in *. destruct fuel as [|fuel]; [lia|].
    destruct (loop_take size fuel s' l0 (join q tb) [] ltac:(lia) Hd Hokj ltac:(by rewrite app_nil_r) Hfj) as (h2 & Hrun2 & Hd2).
    rewrite app_nil_r in Hd2. eexists _, _. split; [rewrite Hrun; exact Hrun2|]. split; [done|].
    split; [simpl; apply Z.eqb_neq in Hqt; by rewrite Hqt|]. split; [done|].
    destruct (take_block_cons real (join q tb)) as (b' & m & E & Ha & _).
    split; [rewrite E; by destruct l0|split; [exact Hd2|split]].
    + simpl. rewrite Hstart, !hd_addr_app, E. simpl. by rewrite Ha.
    + exact Hoktk.
Qed.
End Expanding.

(** Growing, in both cases. *)
Lemma kmalloc_grows_links s l0 q size t v :
  let real := real_size size in
  let tb := tail_block real t in
  heap_tail s (l0 ++ [q]) -> 0 < size < 2 ^ 63 -> alloc_blocks real (l0 ++ [q]) = None ->
  vmm_alloc real (Z.lor VMM_FLAGS_PRESENT VMM_FLAGS_WRITE_ENABLE) 0 s.(heap_vmm) = Ret (t, v) ->
  headers_ok ((l0 ++ [q]) ++ [tb]) ->
  headers_ok (if q.(b_free) && joinable q tb then l0 ++ take_block real (join q tb) else (l0 ++ [q]) ++ take_block real tb) ->
  exists r s2, kmalloc size s = Ret (r, s2) /\ s2.(heap_vmm) = v /\
    if q.(b_free) && joinable q tb then
      s2.(kernel_heap_end) = t /\
      match l0 with
      | [] => r = 0 /\ heap_links s2 [join q tb]
      | _ => r = q.(b_addr) + header_size /\ heap_links s2 (l0 ++ take_block real (join q tb))
      end
    else r = t + header_size /\ heap_tail s2 ((l0 ++ [q]) ++ take_block real tb).
Proof.
  intros real tb Hinv Hs Hnone Hvmm Hok Hoktk.
  destruct (expand_run s _ real t v Hinv Hvmm Hok) as (h & Hexp & Hd).
  destruct (q.(b_free) && joinable q tb) eqn:Hj.
  - eapply kmalloc_expand_joined; eauto.
  - destruct (kmalloc_expand_apart s l0 q size t v h Hinv Hs Hnone Hok Hexp Hj Hd Hoktk) as (s2 & Hrun & Hinv2 & Hv).
    eexists _, _. split; [exact Hrun|]. by split_and!.
Qed.

(** The blocks stay apart when the new one is apart from the others. *)
Lemma grown_ok l0 q real t : 0 <= real <= 2 ^ 64 - PAGE_SIZE_IN_BYTES -> alloc_blocks real (l0 ++ [q]) = None ->
  let tb := tail_block real t in
  blocks_ok ((l0 ++ [q]) ++ [tb]) ->
  if q.(b_free) && joinable q tb then blocks_ok (l0 ++ [join q tb]) /\ blocks_ok (l0 ++ take_block real (join q tb))
  else blocks_ok ((l0 ++ [q]) ++ take_block real tb).
Proof.
  intros Hr Hnone tb Hok. pose proof (tail_block_fits real t Hr) as Hft. fold tb in Hft. destruct (q.(b_free) && joinable q tb) eqn:Hj.
  - apply andb_prop in Hj as [Hqf Hj].
    assert (blocks_ok (l0 ++ [join q tb])) as Hokj.
    { pose proof Hok as Hok'. rewrite <- app_assoc in Hok'. destruct (join_right_ok l0 q [tb] Hok') as [Hr' _].
      unfold join_right in Hr'. change (b_free tb) with true in Hr'. by rewrite Hj in Hr'. }
    split; [done|]. eapply alloc_blocks_ok; [|exact Hokj|apply alloc_blocks_last]; [lia| |].
    + apply alloc_blocks_none. apply alloc_blocks_none, Forall_app in Hnone as [? _]. done.
    + unfold fits in Hft |- *. simpl in Hft |- *. rewrite Hqf. apply Z.leb_le in Hft. apply Z.leb_le.
      destruct (block_ok_in _ q Hok) as (_ & ? & _); [set_solver|]. unfold header_size. lia.
  - eapply alloc_blocks_ok; [|exact Hok|apply alloc_blocks_last; [exact Hnone|exact Hft]]. lia.
Qed.

Lemma kmalloc_grows s l0 q size t v :
  let real := real_size size in
  let tb := tail_block real t in
  heap_inv s (l0 ++ [q]) -> 0 < size < 2 ^ 63 -> alloc_blocks real (l0 ++ [q]) = None ->
  vmm_alloc real (Z.lor VMM_FLAGS_PRESENT VMM_FLAGS_WRITE_ENABLE) 0 s.(heap_vmm) = Ret (t, v) ->
  blocks_ok ((l0 ++ [q]) ++ [tb]) ->
  exists r s2, kmalloc size s = Ret (r, s2) /\ s2.(heap_vmm) = v /\
    if q.(b_free) && joinable q tb then
      s2.(kernel_heap_end) = t /\
      match l0 with
      | [] => r = 0 /\ heap_repr s2 [join q tb]
      | _ => r = q.(b_addr) + header_size /\ heap_repr s2 (l0 ++ take_block real (join q tb))
      end
    else r = t + header_size /\ heap_inv s2 ((l0 ++ [q]) ++ take_block real tb).
Proof.
  intros real tb Hinv Hs Hnone Hvmm Hok.
  assert (0 <= real <= 2 ^ 64 - PAGE_SIZE_IN_BYTES) as Hr
    by (pose proof (real_size_bounds size ltac:(lia)); pose proof page_size_bounds; unfold real, header_size in *; lia).
  pose proof (grown_ok l0 q real t Hr Hnone Hok) as Hgr. cbv zeta in Hgr. fold tb in Hgr.
  destruct (kmalloc_grows_links s l0 q size t v (inv_tail _ _ Hinv) Hs Hnone Hvmm (blocks_headers _ Hok)) as (r & s2 & Hrun & Hv & Hcase).
  { fold real tb. destruct (_ && _); apply blocks_headers; [apply Hgr|exact Hgr]. }
  exists r, s2. split; [exact Hrun|]. split; [exact Hv|]. fold real tb in Hcase. destruct (_ && _).
  - destruct Hgr as [H1 H2]. destruct Hcase as [He Hcase]. split; [done|]. destruct l0 as [|x l0]; destruct Hcase as [-> Hl]; (split; [done|]); by apply links_repr.
  - destruct Hcase as [-> [Hl He]]. split; [done|]. split; [by apply links_repr|done].
Qed.

(** [kmalloc], when nothing is large enough, asks the virtual memory manager
    for pages and adds them as a free block after the last one. If that block does
    not touch a free last block it is used for the request, and the heap invariant
    is kept. If it does, the two are merged, [kernel_heap_end] is left at the header
    merged away, and the request is served from the merged block, unless it is the
    only one: then [kmalloc] returns NULL. *)
Theorem kmalloc_expands s l0 q size t v :
  let real := real_size size in
  let tb := tail_block real t in
  heap_inv s (l0 ++ [q]) -> 0 < size < 2 ^ 63 -> alloc_blocks real (l0 ++ [q]) = None ->
  vmm_alloc real (Z.lor VMM_FLAGS_PRESENT VMM_FLAGS_WRITE_ENABLE) 0 s.(heap_vmm) = Ret (t, v) ->
  blocks_ok ((l0 ++ [q]) ++ [tb]) ->
  exists r s2, kmalloc size s = Ret (r, s2) /\ s2.(heap_vmm) = v /\
    if q.(b_free) && joinable q tb then
      s2.(kernel_heap_end) = t /\
      match l0 with
      | [] => r = 0 /\ heap_repr s2 [join q tb]
      | _ => r = q.(b_addr) + header_size /\ heap_repr s2 (l0 ++ take_block real (join q tb))
      end
    else r = t + header_size /\ heap_inv s2 ((l0 ++ [q]) ++ take_block real tb).
Proof. apply kmalloc_grows. Qed.

(** [kmalloc], when nothing is large enough and [kernel_heap_end] is at no block
    of the list, returns NULL without asking for pages. *)
Lemma kmalloc_stale_links s l size :
  heap_links s l -> s.(kernel_heap_end) ∉ addrs l -> 0 < size < 2 ^ 64 - 64 ->
  alloc_blocks (real_size size) l = None -> kmalloc size s = Ret (0, s).
Proof.
  intros Hrep Hend Hs Hnone. pose proof (heap_fuel _ _ Hrep). destruct Hrep as (_ & Hd & Hstart & Hok).
  unfold kmalloc. rewrite (bind_run get _ s s s eq_refl). destruct (Z.eqb_spec size 0); [lia|].
  replace (Datatypes.S (Datatypes.S (Datatypes.S (base.size s.(nodes)))))
    with (length l + Datatypes.S (Datatypes.S (Datatypes.S (base.size s.(nodes))) - length l))%nat by lia.
  rewrite Hstart. rewrite <- (app_nil_r l) in Hd. replace (hd_addr l 0) with (hd_addr (l ++ []) 0) by by rewrite app_nil_r.
  rewrite (loop_skip size _ ltac:(lia) l s [] [] Hd Hok); [done|].
  apply alloc_blocks_none in Hnone. rewrite Forall_forall in Hnone |- *. intros b Hb. split; [by apply Hnone|].
  intros E. apply Hend. rewrite <- E. apply elem_of_addrs. eauto.
Qed.

Theorem kmalloc_stale_end s l size :
  heap_repr s l -> s.(kernel_heap_end) ∉ addrs l -> 0 < size < 2 ^ 64 - 64 ->
  alloc_blocks (real_size size) l = None -> kmalloc size s = Ret (0, s).
Proof. intros Hrep. by apply kmalloc_stale_links, repr_links. Qed.

(** [initialize_kheap] makes a heap of one free block at the page the virtual
    memory manager gives; the block's size is that of the page, so that with its
    header it ends 32 bytes past the page. *)
Theorem initialize_kheap_block s t v :
  vmm_alloc PAGE_SIZE_IN_BYTES (Z.lor VMM_FLAGS_PRESENT VMM_FLAGS_WRITE_ENABLE) 0 s.(heap_vmm) = Ret (t, v) ->
  0 < t -> t + PAGE_SIZE_IN_BYTES + header_size < 2 ^ 64 ->
  let b := mk_block t PAGE_SIZE_IN_BYTES true in
  exists s', initialize_kheap s = Ret (tt, s') /\ heap_inv s' [b] /\ s'.(heap_vmm) = v /\
    b_end b = t + PAGE_SIZE_IN_BYTES + 32.
Proof.
  intros Hvmm Ht Hb b. pose proof page_size_bounds. unfold initialize_kheap.
  rewrite (bind_run (zoom _ _ _) _ s t (set_heap_vmm v s)) by (unfold zoom; by rewrite Hvmm).
  rewrite (bind_run (modify _) _ _ tt (set_heap_start t (set_heap_vmm v s))) by done.
  rewrite write_run by lia. eexists. split; [done|]. split; [|split; [done|unfold b_end, header_size; simpl; lia]].
  split; [split; [done|split; [|split; [done|]]]|done].
  - simpl. by rewrite lookup_insert_eq.
  - apply blocks_ok_one. unfold block_ok, b_end, header_size in *; simpl; lia.
Qed.
End Correctness.

(** ** Witnesses *)

(** A virtual memory manager that hands out pages in order and leaves an unmapped
    page after each area. *)
#[local] Instance gap_alloc : VmmAlloc Z :=
  fun size _ _ => fun v => Ret (v, v + (size / 0x200000 + 2) * 0x200000).

Definition fresh_heap : heap_state Z := mk_heap ∅ 0 0 0 0x40000000.
Definition one_block : list block := [mk_block 0x40000000 0x200000 true].

Lemma initialize_kheap_block_witness :
  exists s', @initialize_kheap large_pages Z gap_alloc fresh_heap = Ret (tt, s') /\ heap_inv s' one_block.
Proof.
  destruct (@initialize_kheap_block large_pages Z gap_alloc fresh_heap 0x40000000 0x40600000)
    as (s' & Hrun & Hinv & _); [vm_compute; reflexivity|lia|vm_compute; reflexivity|].
  exists s'. split; [exact Hrun|exact Hinv].
Defined.

Definition small_heap : heap_state Z :=
  mk_heap {[ 0x40000000 := mk_node 0x200000 true 0 0 ]} 0x40000000 0x40000000 0x40000000 0x40600000.

Lemma small_heap_inv : heap_inv small_heap one_block.
Proof.
  split; [split; [done|split; [|split; [done|]]]|done].
  - simpl. split; [vm_compute; reflexivity|done].
  - apply blocks_ok_one. unfold block_ok, b_end, header_size; simpl; lia.
Qed.

Lemma kmalloc_first_fit_witness :
  heap_inv small_heap one_block /\
  exists s', @kmalloc large_pages Z gap_alloc 100 small_heap = Ret (0x40000020, s') /\
    heap_inv s' [mk_block 0x40000000 0x90 false; mk_block 0x400000b0 0x1fff50 true].
Proof.
  split; [exact small_heap_inv|].
  assert (0 < 100 < 2 ^ 64 - 64) as Hs by lia.
  assert (alloc_blocks (real_size 100) one_block =
    Some (0x40000000, [mk_block 0x40000000 0x90 false; mk_block 0x400000b0 0x1fff50 true])) as Ha by (vm_compute; reflexivity).
  destruct (@kmalloc_first_fit large_pages Z gap_alloc small_heap one_block 100 _ _ small_heap_inv Hs Ha)
    as (s' & Hrun & Hinv & _).
  exists s'. split; [exact Hrun|exact Hinv].
Defined.

Lemma kmalloc_expands_witness :
  heap_inv small_heap one_block /\
  exists s', @kmalloc large_pages Z gap_alloc 0x200000 small_heap = Ret (0x40600020, s').
Proof.
  split; [exact small_heap_inv|].
  destruct (@kmalloc_expands large_pages Z gap_alloc small_heap [] (mk_block 0x40000000 0x200000 true) 0x200000
    0x40600000 0x40c00000 small_heap_inv) as (r & s2 & Hrun & _ & Hr);
    [lia|vm_compute; reflexivity|vm_compute; reflexivity| |].
  - apply blocks_ok_two; unfold block_ok, apart; vm_compute; [split_and!; [reflexivity|discriminate|reflexivity]..|].
    left. discriminate.
  - exists s2. assert (r = 0x40600020) as <-; [|exact Hrun].
    exact (proj1 Hr).
Defined.

(** [small_heap] after 10 bytes are allocated. *)
Definition two_blocks : list block :=
  [mk_block 0x40000000 0x30 false; mk_block 0x40000050 0x1fffb0 true].
Definition split_heap : heap_state Z :=
  mk_heap (<[0x40000000 := mk_node 0x30 false 0x40000050 0]>
             {[ 0x40000050 := mk_node 0x1fffb0 true 0 0x40000000 ]})
    0x40000000 0x40000000 0x40000050 0x40600000.

Lemma split_heap_inv : heap_inv split_heap two_blocks.
Proof.
  split; [split; [done|split; [|split; [done|]]]|done].
  - simpl. split; [vm_compute; reflexivity|split; [vm_compute; reflexivity|done]].
  - apply blocks_ok_two; unfold block_ok, apart, b_end, header_size; simpl; lia.
Qed.

Lemma kfree_coalesces_witness :
  heap_inv split_heap two_blocks /\
  exists s', @kfree Z 0x40000020 split_heap = Ret (tt, s') /\ heap_repr s' one_block.
Proof.
  split; [exact split_heap_inv|].
  pose proof (@kfree_coalesces Z split_heap [] (mk_block 0x40000000 0x30 false)
    [mk_block 0x40000050 0x1fffb0 true] (proj1 split_heap_inv)) as Hfree.
  destruct Hfree as (s' & Hrun & Hrep & _). exists s'. split; [exact Hrun|exact Hrep].
Defined.

(** [split_heap] after that block is freed again and 100 bytes are allocated: the
    end pointer is where neither operation left a header. *)
Definition stale_heap : heap_state Z :=
  mk_heap (<[0x40000000 := mk_node 0x90 false 0x400000b0 0]>
             (<[0x400000b0 := mk_node 0x1fff50 true 0 0x40000000]>
               {[ 0x40000050 := mk_node 0x1fffb0 true 0 0x40000000 ]}))
    0x40000000 0x40000000 0x40000050 0x40600000.
Definition stale_blocks : list block :=
  [mk_block 0x40000000 0x90 false; mk_block 0x400000b0 0x1fff50 true].

(** The end pointer does go stale in a run of the allocator, and from then on no
    request that needs more pages is served: allocate 10 bytes, free them, allocate
    100 and then 3 MiB. *)
Lemma kmalloc_stale_end_witness :
  (let! p := @kmalloc large_pages Z gap_alloc 10 in
   do! kfree p in
   @kmalloc large_pages Z gap_alloc 100) small_heap = Ret (0x40000020, stale_heap) /\
  @kmalloc large_pages Z gap_alloc 0x300000 stale_heap = Ret (0, stale_heap).
Proof.
  split; [vm_compute; reflexivity|].
  apply (@kmalloc_stale_end large_pages Z gap_alloc stale_heap stale_blocks 0x300000).
  - split; [done|split; [|split; [done|]]].
    + simpl. split; [vm_compute; reflexivity|split; [vm_compute; reflexivity|done]].
    + apply blocks_ok_two; unfold block_ok, apart, b_end, header_size; simpl; lia.
  - simpl. intros Hin. repeat (apply elem_of_cons in Hin as [Hin|Hin]; [discriminate Hin|]). by apply elem_of_nil in Hin.
  - lia.
  - vm_compute. reflexivity.
Defined.
