(* ===== verification/Locks.v ===== *)
(** Locks that live in the heap: [spinlock_init] and [spinlock_free] of
    [sys/spinlock.c], over [Spinlock] and [Kheap]. *)
From S2P Require Import Prelude VmmUtil Spinlock Kheap.

Definition sizeof_spinlock_t : Z := 1.

Section Locks.
Context `{PageConfig} {V : Type} `{VmmAlloc V}.

(** The locks by address, beside the heap. *)
Record locks_state : Type := mk_locks {
  locks : gmap Z spinlock_t;
  lk_heap : heap_state V;
}.
Definition in_lk_heap {A} (m : M (heap_state V) A) : M locks_state A := zoom lk_heap (fun h s => mk_locks s.(locks) h) m.

(** An operation on the lock at an address; what the heap gives holds any bit. *)
Definition at_lock (p : Z) (m : M spinlock_t unit) : M locks_state unit :=
  if p =? 0 then throw NullDeref
  else zoom (fun s => default (mk_spinlock false) (s.(locks) !! p)) (fun l s => mk_locks (<[p := l]> s.(locks)) s.(lk_heap)) m.

Definition spinlock_init : M locks_state Z :=
  let! new_spinlock := in_lk_heap (kmalloc sizeof_spinlock_t) in
  do! at_lock new_spinlock spinlock_release in
  ret new_spinlock.

Definition spinlock_free (spinlock : Z) : M locks_state unit := in_lk_heap (kfree spinlock).

(** A new lock is open, in a block of its own. *)
Lemma spinlock_init_run s l a l' :
  heap_inv s.(lk_heap) l -> alloc_blocks (real_size sizeof_spinlock_t) l = Some (a, l') ->
  exists h, spinlock_init s = Ret (a + header_size, mk_locks (<[a + header_size := mk_spinlock false]> s.(locks)) h) /\ heap_inv h l'.
Proof.
  intros Hinv Ha.
  destruct (kmalloc_fits s.(lk_heap) l sizeof_spinlock_t a l' Hinv ltac:(unfold sizeof_spinlock_t; lia) Ha)
    as (h & e & Hrun & Hinv' & _ & b & Hb & Hba & _ & _).
  pose proof Hinv' as [(_ & _ & _ & Hok) _]. pose proof (block_ok_in _ _ Hok Hb) as (Hb0 & _ & _).
  eexists. split; [|exact Hinv']. unfold spinlock_init, in_lk_heap, zoom, bind at 1. rewrite Hrun.
  unfold bind, at_lock, zoom. destruct (Z.eqb_spec (a + header_size) 0); [unfold header_size in *; lia|]. done.
Qed.

(** Without memory the flag is cleared through NULL. *)
Lemma spinlock_init_without_memory s h : kmalloc sizeof_spinlock_t s.(lk_heap) = Ret (0, h) -> spinlock_init s = Fault NullDeref.
Proof. intros E. unfold spinlock_init, in_lk_heap, zoom, bind at 1. rewrite E. done. Qed.
End Locks.
