(* ===== verification/Paging.v ===== *)
(** Page tables: [kernel/arch/x86_64/mem/vmm_mapping.c], [system/vm.c] and the
    mapping loop of [kernel/mem/hh_direct_map.c]. Physical memory is a map of words;
    tables are reached through the direct map or, in the functions the boot code
    uses, through the recursive entry 510, which takes the processor's own walk.
    Frames come from the interface [FrameSource]. *)
From S2P Require Import Prelude VmmUtil Mmap Bitmap.

Definition PML4_ENTRY (address : Z) : Z := Z.land (Z.shiftr address 39) 0x1ff.
Definition PDPR_ENTRY (address : Z) : Z := Z.land (Z.shiftr address 30) 0x1ff.
Definition PD_ENTRY (address : Z) : Z := Z.land (Z.shiftr address 21) 0x1ff.
Definition PT_ENTRY (address : Z) : Z := Z.land (Z.shiftr address 12) 0x1ff.
Definition SIGN_EXTENSION : Z := 0xFFFF000000000000.
Definition ENTRIES_TO_ADDRESS (pml4 pdpr pd pt : Z) : Z :=
  u64 (Z.lor (Z.lor (Z.lor (Z.shiftl pml4 39) (Z.shiftl pdpr 30)) (Z.shiftl pd 21)) (Z.shiftl pt 12)).
Definition PRESENT_BIT : Z := 1.
Definition WRITE_BIT : Z := 2.
Definition HUGEPAGE_BIT : Z := 0x80.
Definition VM_PAGES_PER_TABLE : Z := 0x200.
Definition VM_PAGE_TABLE_BASE_ADDRESS_MASK : Z := 0xFFFFFFF000.
Definition MMIO_HIGHER_HALF_ADDRESS_OFFSET : Z := 0xFFFF800000000000.
Definition MMIO_RESERVED_SPACE_SIZE : Z := 0x280000000.
Definition HIGHER_HALF_ADDRESS_OFFSET : Z := MMIO_HIGHER_HALF_ADDRESS_OFFSET + MMIO_RESERVED_SPACE_SIZE.
Definition VM_TYPE_MEMORY : Z := 0.
Definition VM_TYPE_MMIO : Z := 1.
Definition PHYS_ADDRESS_NOT_MAPPED : Z := 0.
Definition PHYS_ADDRESS_MAPPED : Z := 1.
Definition PHYS_ADDRESS_MISMATCH : Z := 2.
Definition _HIGHER_HALF_KERNEL_MEM_START : Z := 0xffffffff80000000.

(** [vm_walk_results]. *)
Record vm_walk_results : Type := mk_walk {
  pte : Z;
  level : Z;
  completed : bool;
}.

(** What paging asks of the physical memory manager, whose state is [F]:
    [pmm_prepare_new_pagetable] and [pmm_alloc_frame] of [kernel/mem/pmm.c]. *)
Class FrameSource (F : Type) : Type := {
  prepare_new_pagetable : M F Z;
  alloc_frame : M F Z;
}.

(** The address is in the higher half when bit 62 is set. *)
Definition is_address_higher_half (address : Z) : bool :=
  if negb (Z.land address (Z.shiftl 1 62) =? 0) then true else false.

Section Config.
  Context `{PageConfig}.

Definition VM_KERNEL_MEMORY_PADDING : Z := PAGE_SIZE_IN_BYTES.
Definition ALIGN_PHYSADDRESS (address : Z) : Z := Z.land address (not64 (PAGE_SIZE_IN_BYTES - 1)).

Definition ensure_address_in_higher_half (address type : Z) : Z :=
  if type =? VM_TYPE_MEMORY then
    if u64 (HIGHER_HALF_ADDRESS_OFFSET + VM_KERNEL_MEMORY_PADDING) <? address then address
    else u64 (address + HIGHER_HALF_ADDRESS_OFFSET + VM_KERNEL_MEMORY_PADDING)
  else if type =? VM_TYPE_MMIO then
    if u64 (MMIO_HIGHER_HALF_ADDRESS_OFFSET + VM_KERNEL_MEMORY_PADDING) <? address then address
    else u64 (address + MMIO_HIGHER_HALF_ADDRESS_OFFSET + VM_KERNEL_MEMORY_PADDING)
  else 0.
End Config.

Section Mapping.
  Context `{PageConfig} {F : Type} `{FrameSource F}.

(** [phys] holds the 64-bit words of physical memory the code has written, by
    address; [kernel_root] is [kernel_settings.paging.hhdm_page_root_address]. *)
Record vm_state : Type := mk_vm {
  frames : F;
  phys : gmap Z Z;
  vm_memory_size : Z;
  hhdm_base : Z;
  kernel_root : Z;
  cr3 : Z;
  end_of_mapped_memory : Z;
}.

Definition set_frames (f : F) (s : vm_state) : vm_state :=
  mk_vm f s.(phys) s.(vm_memory_size) s.(hhdm_base) s.(kernel_root) s.(cr3) s.(end_of_mapped_memory).
Definition set_phys (m : gmap Z Z) (s : vm_state) : vm_state :=
  mk_vm s.(frames) m s.(vm_memory_size) s.(hhdm_base) s.(kernel_root) s.(cr3) s.(end_of_mapped_memory).
Definition set_cr3 (r : Z) (s : vm_state) : vm_state :=
  mk_vm s.(frames) s.(phys) s.(vm_memory_size) s.(hhdm_base) s.(kernel_root) r s.(end_of_mapped_memory).
Definition set_end_of_mapped_memory (e : Z) (s : vm_state) : vm_state :=
  mk_vm s.(frames) s.(phys) s.(vm_memory_size) s.(hhdm_base) s.(kernel_root) s.(cr3) e.

Definition in_frames {A} (m : M F A) : M vm_state A := zoom frames set_frames m.

(** A word of physical memory; one nothing has written has no value. *)
Definition phys_read (p : Z) : M vm_state Z :=
  let! s := get in
  if (0 <=? p) && (p <? s.(vm_memory_size)) then lift_opt NoValue (s.(phys) !! p) else throw OutOfBounds.
Definition phys_write (p w : Z) : M vm_state unit :=
  let! s := get in
  if (0 <=? p) && (p <? s.(vm_memory_size)) then put (set_phys (<[p := w]> s.(phys)) s) else throw OutOfBounds.

(** [table[i]] through a pointer into the direct map. *)
Definition table_read (table i : Z) : M vm_state Z :=
  let! s := get in
  if table =? 0 then throw NullDeref else phys_read (table + 8 * i - s.(hhdm_base)).
Definition table_write (table i w : Z) : M vm_state unit :=
  let! s := get in
  if table =? 0 then throw NullDeref else phys_write (table + 8 * i - s.(hhdm_base)) w.

Definition vm_hhdm_get_variable (phys_address : Z) : M vm_state Z :=
  gets (fun s => hhdm_translate s.(vm_memory_size) s.(hhdm_base) phys_address).

Definition clean_new_table (table_to_clean : Z) : M vm_state unit :=
  for_upto VM_PAGES_PER_TABLE (fun i => table_write table_to_clean i 0).

Definition load_cr3 (cr3_value : Z) : M vm_state unit := modify (set_cr3 cr3_value).

(** One level of [map_phys_to_virt_addr_hh]: the table an entry refers to, a new
    and cleared one when the entry is not present. *)
Definition next_table (table entry user_mode_status : Z) : M vm_state Z :=
  let! e := table_read table entry in
  if Z.land e PRESENT_BIT =? 0 then
    let! new_table := in_frames prepare_new_pagetable in
    do! table_write table entry (Z.lor (Z.lor (Z.lor new_table user_mode_status) WRITE_BIT) PRESENT_BIT) in
    let! new_table_hhdm := vm_hhdm_get_variable new_table in
    do! clean_new_table new_table_hhdm in
    ret new_table_hhdm
  else vm_hhdm_get_variable (Z.land e VM_PAGE_TABLE_BASE_ADDRESS_MASK).

Definition map_phys_to_virt_addr_hh (physical_address address flags pml4_root : Z) : M vm_state Z :=
  let user_mode_status := if is_address_higher_half address then 0 else VMM_FLAGS_USER_LEVEL in
  let flags := Z.lor flags user_mode_status in
  let! s := get in
  let pml4_root := if pml4_root =? 0 then s.(kernel_root) else pml4_root in
  if negb (pml4_root =? 0) then
    let! pdpr_root := next_table pml4_root (PML4_ENTRY address) user_mode_status in
    let! pd_root := next_table pdpr_root (PDPR_ENTRY address) user_mode_status in
    if SMALL_PAGES then
      let! pt_table := next_table pd_root (PD_ENTRY address) user_mode_status in
      let! e := table_read pt_table (PT_ENTRY address) in
      if Z.land e PRESENT_BIT =? 0 then
        do! table_write pt_table (PT_ENTRY address) (Z.lor physical_address flags) in
        ret address
      else ret 0
    else
      let! e := table_read pd_root (PD_ENTRY address) in
      if Z.land e PRESENT_BIT =? 0 then
        do! table_write pd_root (PD_ENTRY address)
              (Z.lor (Z.lor (Z.lor physical_address HUGEPAGE_BIT) flags) user_mode_status) in
        ret address
      else ret 0
  else ret 0.

Definition map_vaddress (virtual_address flags pml4_root : Z) : M vm_state Z :=
  let! new_addr := in_frames prepare_new_pagetable in
  map_phys_to_virt_addr_hh new_addr virtual_address flags pml4_root.

Definition map_vaddress_range (virtual_address flags required_pages pml4_root : Z) : M vm_state unit :=
  for_upto required_pages (fun i =>
    do! map_vaddress (u64 (virtual_address + i * PAGE_SIZE_IN_BYTES)) flags pml4_root in ret tt).

(** The table a present entry refers to; [None] when it is not present. *)
Definition present_table (table entry : Z) : M vm_state (option Z) :=
  let! e := table_read table entry in
  if Z.land e PRESENT_BIT =? 0 then ret None
  else let! t := vm_hhdm_get_variable (Z.land e VM_PAGE_TABLE_BASE_ADDRESS_MASK) in ret (Some t).

Definition unmap_vaddress_hh (address pml4_root : Z) : M vm_state Z :=
  if (pml4_root =? 0) || (address =? 0) then ret (-1)
  else
    let! pdpr := present_table pml4_root (PML4_ENTRY address) in
    match pdpr with None => ret (-1) | Some pdpr_table =>
    let! pd := present_table pdpr_table (PDPR_ENTRY address) in
    match pd with None => ret (-1) | Some pd_table =>
    if SMALL_PAGES then
      let! pt := present_table pd_table (PD_ENTRY address) in
      match pt with None => ret (-1) | Some pt_table =>
      let! e := table_read pt_table (PT_ENTRY address) in
      if Z.land e PRESENT_BIT =? 0 then ret (-1)
      else do! table_write pt_table (PT_ENTRY address) 0 in ret 0
      end
    else
      let! e := table_read pd_table (PD_ENTRY address) in
      if Z.land e PRESENT_BIT =? 0 then ret (-1)
      else do! table_write pd_table (PD_ENTRY address) 0 in ret 0
    end end.

Definition vm_walk_table (virtual_address root_table_hhdm : Z) : M vm_state vm_walk_results :=
  let! pdpr := present_table root_table_hhdm (PML4_ENTRY virtual_address) in
  match pdpr with None => ret (mk_walk 0 0 false) | Some pdpr_addr =>
  let! pd := present_table pdpr_addr (PDPR_ENTRY virtual_address) in
  match pd with None => ret (mk_walk 0 1 false) | Some pd_addr =>
  if SMALL_PAGES then
    let! pt := present_table pd_addr (PD_ENTRY virtual_address) in
    match pt with None => ret (mk_walk 0 2 false) | Some pt_addr =>
    let! table_entry_value := table_read pt_addr (PT_ENTRY virtual_address) in
    if Z.land table_entry_value PRESENT_BIT =? 0 then ret (mk_walk 0 3 false)
    else
      let! local_virt_address := vm_hhdm_get_variable (Z.land table_entry_value VM_PAGE_TABLE_BASE_ADDRESS_MASK) in
      ret (mk_walk local_virt_address 3 true)
    end
  else
    let! table_entry_value := table_read pd_addr (PD_ENTRY virtual_address) in
    if Z.land table_entry_value PRESENT_BIT =? 0 then ret (mk_walk 0 2 false)
    else
      let! local_virt_address := vm_hhdm_get_variable (Z.land table_entry_value VM_PAGE_TABLE_BASE_ADDRESS_MASK) in
      ret (mk_walk local_virt_address 2 true)
  end end.

Definition vm_copy_from_different_space (virtual_address root_table_hhdm : Z) : M vm_state Z :=
  let! walked_address := vm_walk_table virtual_address root_table_hhdm in
  ret walked_address.(pte).
End Mapping.
Arguments vm_state F : clear implicits.

(** ** Entries *)

Section Entries.
Implicit Types (a f : Z).

Lemma base_mask : VM_PAGE_TABLE_BASE_ADDRESS_MASK = Z.shiftl (Z.ones 28) 12.
Proof. done. Qed.

Lemma testbit_base_mask i : 0 <= i -> Z.testbit VM_PAGE_TABLE_BASE_ADDRESS_MASK i = (12 <=? i) && (i <? 40).
Proof.
  intros Hi. rewrite base_mask, Z.shiftl_spec by lia.
  destruct (Z.leb_spec 12 i); [|by rewrite Z.testbit_neg_r by lia].
  rewrite Z.testbit_ones_nonneg by lia. simpl.
  destruct (Z.ltb_spec (i - 12) 28), (Z.ltb_spec i 40); lia.
Qed.

Lemma aligned_low_bits a n i : 0 <= i < n -> a mod 2 ^ n = 0 -> Z.testbit a i = false.
Proof. intros Hi Ha. rewrite <- (Z.mod_pow2_bits_low a n i) by lia. rewrite Ha. apply Z.bits_0. Qed.

(** An entry made of a table's address and flags below 4096 gives both back. *)
Lemma entry_base a f :
  0 <= a < 2 ^ 40 -> a mod 2 ^ 12 = 0 -> 0 <= f < 2 ^ 12 ->
  Z.land (Z.lor a f) VM_PAGE_TABLE_BASE_ADDRESS_MASK = a.
Proof.
  intros Ha Hal Hf. apply Z.bits_inj'. intros i Hi.
  rewrite Z.land_spec, Z.lor_spec, testbit_base_mask by done.
  destruct (Z.leb_spec 12 i); simpl.
  - rewrite (testbit_high f 12), orb_false_r by lia.
    destruct (Z.ltb_spec i 40); [by rewrite andb_true_r|].
    rewrite (testbit_high a 40) by lia. done.
  - rewrite andb_false_r, (aligned_low_bits a 12) by lia. done.
Qed.

Lemma entry_present a f :
  a mod 2 ^ 12 = 0 -> Z.land (Z.lor a f) PRESENT_BIT = Z.land f PRESENT_BIT.
Proof.
  intros Hal. apply Z.bits_inj'. intros i Hi. rewrite !Z.land_spec, Z.lor_spec.
  change PRESENT_BIT with (2 ^ 0). rewrite testbit_pow2 by lia.
  destruct (Z.eqb_spec 0 i) as [<-|]; [|by rewrite !andb_false_r].
  by rewrite (aligned_low_bits a 12) by (done || lia).
Qed.

(** Two words of aligned tables are at the same address only if the tables and the
    indices are the same. *)
Lemma same_word t t' i j :
  t mod 2 ^ 12 = 0 -> t' mod 2 ^ 12 = 0 -> 0 <= i < 512 -> 0 <= j < 512 ->
  t + 8 * i = t' + 8 * j -> t = t' /\ i = j.
Proof.
  intros Ht Ht' Hi Hj E. pose proof (div_mod_eq t (2 ^ 12)). pose proof (div_mod_eq t' (2 ^ 12)).
  change (2 ^ 12) with 4096 in *. lia.
Qed.
End Entries.

(** ** The tree of tables *)

Section Trees.
Implicit Types (m : gmap Z Z) (t R : Z) (p q : list Z).

(** The table entry [i] of the table at [t] refers to. *)
Definition sub m t (i : Z) : option Z :=
  match m !! (t + 8 * i) with
  | Some e => if Z.land e PRESENT_BIT =? 0 then None else Some (Z.land e VM_PAGE_TABLE_BASE_ADDRESS_MASK)
  | None => None
  end.

(** The table a path of entries leads to from the root. *)
Fixpoint table_at m R p : option Z :=
  match p with
  | [] => Some R
  | i :: p' => match sub m R i with Some t => table_at m t p' | None => None end
  end.

Lemma table_at_app m R p q :
  table_at m R (p ++ q) = match table_at m R p with Some t => table_at m t q | None => None end.
Proof. revert R. induction p as [|i p IH]; intros R; simpl; [done|]. destruct (sub m R i); [apply IH|done]. Qed.

Lemma table_at_snoc m R p i :
  table_at m R (p ++ [i]) = match table_at m R p with Some t => sub m t i | None => None end.
Proof. rewrite table_at_app. destruct (table_at m R p); [|done]. simpl. by destruct (sub m z i). Qed.

(** Paths of at most [depth] entries that do not start with the recursive one. *)
Definition path_ok (depth : nat) p : Prop :=
  (length p <= depth)%nat /\ Forall (fun i => 0 <= i < 512) p /\ head p <> Some 510.

Lemma path_ok_prefix depth p q : path_ok depth (p ++ q) -> path_ok depth p.
Proof.
  intros (Hl & Hr & Hh). rewrite length_app in Hl. apply Forall_app in Hr as [Hr _].
  split; [lia|]. split; [done|]. by destruct p.
Qed.

(** The tables reachable from [R] form a tree of whole pages of physical memory
    below [limit], all of them in [taken]. *)
Record tree_ok (depth : nat) (limit : Z) (taken : gset Z) m R : Prop := {
  tree_page : forall p t, path_ok depth p -> table_at m R p = Some t ->
    t mod 2 ^ 12 = 0 /\ 0 <= t /\ t + 2 ^ 12 <= limit /\ t ∈ taken;
  tree_words : forall p t i, path_ok depth p -> table_at m R p = Some t -> 0 <= i < 512 ->
    exists w, m !! (t + 8 * i) = Some w;
  tree_inj : forall p q t, path_ok depth p -> path_ok depth q ->
    table_at m R p = Some t -> table_at m R q = Some t -> p = q;
}.

(** [m'] differs from [m] in words of the pages [taken] at most. *)
Definition only_pages (taken : gset Z) m m' : Prop :=
  forall x, (forall t i, t ∈ taken -> t mod 2 ^ 12 = 0 -> 0 <= i < 512 -> x <> t + 8 * i) -> m' !! x = m !! x.

Lemma only_pages_refl taken m : only_pages taken m m.
Proof. by intros x _. Qed.
Lemma only_pages_mono taken taken' m m' : taken ⊆ taken' -> only_pages taken m m' -> only_pages taken' m m'.
Proof. intros Hsub Ho x Hx. apply Ho. intros t i Ht. apply Hx. by apply Hsub. Qed.
Lemma only_pages_trans taken m m' m'' : only_pages taken m m' -> only_pages taken m' m'' -> only_pages taken m m''.
Proof. intros H1 H2 x Hx. by rewrite H2, H1. Qed.

(** The pages of another set keep their words. *)
Lemma only_pages_beside taken kept m m' t i :
  only_pages taken m m' -> taken ## kept -> t ∈ kept -> t mod 2 ^ 12 = 0 -> 0 <= i < 512 -> m' !! (t + 8 * i) = m !! (t + 8 * i).
Proof. intros Ho Hd Ht Ha Hi. apply Ho. intros t' j Ht' Ha' Hj E. apply same_word in E as [-> _]; [set_solver|done..]. Qed.

(** A tree whose pages keep their words stays what it is. *)
Section Kept.
Context (depth : nat) (limit : Z) (taken : gset Z) (m m' : gmap Z Z) (R : Z).
Hypothesis Htree : tree_ok depth limit taken m R.
Hypothesis Hkept : forall t i, t ∈ taken -> t mod 2 ^ 12 = 0 -> 0 <= i < 512 -> m' !! (t + 8 * i) = m !! (t + 8 * i).

Lemma kept_word p t i : path_ok depth p -> table_at m R p = Some t -> 0 <= i < 512 -> m' !! (t + 8 * i) = m !! (t + 8 * i).
Proof. intros Hp Ht Hi. destruct (tree_page _ _ _ _ _ Htree p t Hp Ht) as (Ha & _ & _ & Hin). by apply Hkept. Qed.

Lemma table_at_kept p : path_ok depth p -> table_at m' R p = table_at m R p.
Proof.
  induction p as [|i p IH] using rev_ind; intros Hp; [done|]. pose proof (path_ok_prefix _ _ _ Hp) as Hp0.
  rewrite !table_at_snoc, IH by done. destruct (table_at m R p) as [t|] eqn:Ht; [|done].
  unfold sub. rewrite (kept_word p t i); [done|done|done|].
  destruct Hp as (_ & Hr & _). apply Forall_app in Hr as [_ Hr]. by apply Forall_cons in Hr as [? _].
Qed.

(** The same from a table of the tree on. *)
Lemma table_at_kept_from p q t : path_ok depth (p ++ q) -> table_at m R p = Some t -> table_at m' t q = table_at m t q.
Proof.
  intros Hpq Ht. pose proof (table_at_kept p (path_ok_prefix _ _ _ Hpq)) as Hp. rewrite Ht in Hp.
  pose proof (table_at_kept (p ++ q) Hpq) as E. by rewrite !table_at_app, Hp, Ht in E.
Qed.

Lemma tree_ok_kept : tree_ok depth limit taken m' R.
Proof.
  constructor.
  - intros p t Hp. rewrite table_at_kept by done. by apply (tree_page _ _ _ _ _ Htree).
  - intros p t i Hp. rewrite table_at_kept by done. intros Ht Hi. rewrite (kept_word p t i Hp Ht Hi).
    by apply (tree_words _ _ _ _ _ Htree p).
  - intros p q t Hp Hq. rewrite !table_at_kept by done. by apply (tree_inj _ _ _ _ _ Htree).
Qed.
End Kept.

Lemma tree_ok_mono depth limit taken taken' m R : taken ⊆ taken' -> tree_ok depth limit taken m R -> tree_ok depth limit taken' m R.
Proof.
  intros Hsub [Hp Hw Hi]. constructor; [|done|done]. intros p t Hpp Ht. destruct (Hp p t Hpp Ht) as (? & ? & ? & ?).
  split_and!; [done..|]. by apply Hsub.
Qed.

(** [m'] is [m] with a cleared table [new] put into the entry [i] of the table [t]. *)
Definition installed m m' t (i e new : Z) : Prop :=
  (forall j, 0 <= j < 512 -> m' !! (new + 8 * j) = Some 0) /\
  m' !! (t + 8 * i) = Some e /\
  (forall x, x <> t + 8 * i -> (forall j, 0 <= j < 512 -> x <> new + 8 * j) -> m' !! x = m !! x).

Section Install.
Context (depth : nat) (limit : Z) (taken : gset Z) (m m' : gmap Z Z) (R t i e new : Z) (p : list Z).
Hypothesis Htree : tree_ok depth limit taken m R.
Hypothesis Hp : path_ok depth (p ++ [i]).
Hypothesis Ht : table_at m R p = Some t.
Hypothesis Habsent : sub m t i = None.
Hypothesis Hinst : installed m m' t i e new.
Hypothesis He : Z.land e PRESENT_BIT <> 0 /\ Z.land e VM_PAGE_TABLE_BASE_ADDRESS_MASK = new.
Hypothesis Hnew : new mod 2 ^ 12 = 0 /\ new ∉ taken.

Local Lemma index_range : 0 <= i < 512.
Proof. destruct Hp as (_ & Hr & _). apply Forall_app in Hr as [_ Hr]. by apply Forall_cons in Hr as [? _]. Qed.

Local Lemma old_word q tq j :
  path_ok depth q -> table_at m R q = Some tq -> 0 <= j < 512 -> (q, j) <> (p, i) -> m' !! (tq + 8 * j) = m !! (tq + 8 * j).
Proof.
  intros Hq Htq Hj Hne. pose proof index_range. destruct Hnew as [Hna Hnt].
  destruct (tree_page _ _ _ _ _ Htree q tq Hq Htq) as (Ha & _ & _ & Htk).
  pose proof (path_ok_prefix _ _ _ Hp) as Hpp.
  destruct (tree_page _ _ _ _ _ Htree p t Hpp Ht) as (Ha' & _).
  apply Hinst.
  - intros E. apply same_word in E as [-> ->]; try done. apply Hne.
    by rewrite (tree_inj _ _ _ _ _ Htree q p t Hq Hpp Htq Ht).
  - intros k Hk E. apply same_word in E as [-> _]; done.
Qed.

Local Lemma sub_same q tq j :
  path_ok depth q -> table_at m R q = Some tq -> 0 <= j < 512 -> (q, j) <> (p, i) -> sub m' tq j = sub m tq j.
Proof. intros. unfold sub. by rewrite (old_word q tq j). Qed.

Local Lemma new_empty j : 0 <= j < 512 -> sub m' new j = None.
Proof. intros Hj. unfold sub. by rewrite (proj1 Hinst) by done. Qed.

Local Lemma table_at_deep q : (p ++ [i]) `prefix_of` q -> table_at m R q = None.
Proof. intros [k ->]. rewrite table_at_app, table_at_snoc, Ht. by rewrite Habsent. Qed.

(** The tables after the installation: one more, at the entry, and the others where
    they were. *)
Lemma table_at_installed q :
  path_ok depth q ->
  table_at m' R q = if decide (q = p ++ [i]) then Some new else table_at m R q.
Proof.
  induction q as [|j q IH] using rev_ind; intros Hq.
  { rewrite decide_False; [done|]. by destruct p. }
  pose proof (path_ok_prefix _ _ _ Hq) as Hq0. specialize (IH Hq0).
  assert (0 <= j < 512) as Hj.
  { destruct Hq as (_ & Hr & _). apply Forall_app in Hr as [_ Hr]. by apply Forall_cons in Hr as [? _]. }
  rewrite !table_at_snoc, IH.
  destruct (decide (q = p ++ [i])) as [->|Hne].
  - rewrite new_empty by done. rewrite decide_False.
    2:{ intros E. apply app_inj_tail in E as [E _]. apply (f_equal length) in E. rewrite length_app in E. simpl in E. lia. }
    by rewrite table_at_deep.
  - destruct (table_at m R q) as [tq|] eqn:Htq.
    + destruct (decide (q ++ [j] = p ++ [i])) as [E|E].
      * apply app_inj_tail in E as [-> ->]. rewrite Ht in Htq. injection Htq as <-.
        unfold sub. rewrite (proj1 (proj2 Hinst)). destruct He as [He1 He2].
        apply Z.eqb_neq in He1. by rewrite He1, He2.
      * apply (sub_same q); [done|done|done|]. intros [= -> ->]. done.
    + rewrite decide_False; [done|]. intros E. apply app_inj_tail in E as [-> _]. congruence.
Qed.

Lemma tree_ok_installed :
  0 <= new -> new + 2 ^ 12 <= limit -> tree_ok depth limit ({[new]} ∪ taken) m' R.
Proof.
  intros Hn0 Hn1. constructor.
  - intros q tq Hq. rewrite table_at_installed by done. case_decide as Hd.
    + intros [= <-]. split; [apply Hnew|]. split; [done|]. split; [done|]. set_solver.
    + intros Htq. destruct (tree_page _ _ _ _ _ Htree q tq Hq Htq) as (? & ? & ? & ?).
      split_and!; [done..|]. set_solver.
  - intros q tq j Hq. rewrite table_at_installed by done. case_decide as Hd.
    + intros [= <-] Hj. exists 0. by apply Hinst.
    + intros Htq Hj. destruct (decide ((q, j) = (p, i))) as [[= -> ->]|Hne].
      * rewrite Ht in Htq. injection Htq as <-. exists e. apply Hinst.
      * destruct (tree_words _ _ _ _ _ Htree q tq j Hq Htq Hj) as [w Hw]. exists w. by rewrite (old_word q tq j).
  - intros q q' tq Hq Hq'. rewrite !table_at_installed by done. repeat case_decide; subst; try done.
    + intros [= <-] Htq. destruct (tree_page _ _ _ _ _ Htree q' new Hq' Htq) as (_ & _ & _ & ?). by destruct Hnew.
    + intros Htq [= <-]. destruct (tree_page _ _ _ _ _ Htree q new Hq Htq) as (_ & _ & _ & ?). by destruct Hnew.
    + by apply (tree_inj _ _ _ _ _ Htree).
Qed.
End Install.
End Trees.

(** ** The mapping the tables make *)

Section PageTables.
Context `{PageConfig}.
Implicit Types (m : gmap Z Z) (R v : Z).

(** The levels below the root, the entries on the way to the last table and the
    entry in it. *)
Definition table_depth : nat := if SMALL_PAGES then 3%nat else 2%nat.
Definition page_path (v : Z) : list Z :=
  if SMALL_PAGES then [PML4_ENTRY v; PDPR_ENTRY v; PD_ENTRY v] else [PML4_ENTRY v; PDPR_ENTRY v].
Definition leaf_index (v : Z) : Z := if SMALL_PAGES then PT_ENTRY v else PD_ENTRY v.

(** The entry that maps the page of [v], when there is one. *)
Definition mapping m R (v : Z) : option Z :=
  match table_at m R (page_path v) with
  | Some t =>
      match m !! (t + 8 * leaf_index v) with
      | Some e => if Z.land e PRESENT_BIT =? 0 then None else Some e
      | None => None
      end
  | None => None
  end.

(** Two addresses of the same page. *)
Definition same_page (v w : Z) : Prop := page_path v = page_path w /\ leaf_index v = leaf_index w.

#[export] Instance same_page_decision v w : Decision (same_page v w).
Proof. unfold same_page. apply _. Defined.

Lemma entry_range (x : Z) : 0 <= Z.land x 0x1ff < 512.
Proof.
  change 0x1ff with (Z.ones 9). rewrite Z.land_ones by lia. apply Z.mod_pos_bound. lia.
Qed.

Lemma leaf_index_range v : 0 <= leaf_index v < 512.
Proof. unfold leaf_index. case_match; apply entry_range. Qed.

Lemma page_path_ok v : PML4_ENTRY v <> 510 -> path_ok table_depth (page_path v).
Proof.
  intros Hv. unfold path_ok, page_path, table_depth. destruct SMALL_PAGES; simpl.
  - split; [lia|]. split; [|by intros [= ?]]. repeat (apply Forall_cons_2; [apply entry_range|]). apply Forall_nil_2.
  - split; [lia|]. split; [|by intros [= ?]]. repeat (apply Forall_cons_2; [apply entry_range|]). apply Forall_nil_2.
Qed.

Lemma length_page_path v : length (page_path v) = table_depth.
Proof. unfold page_path, table_depth. by destruct SMALL_PAGES. Qed.

Lemma head_page_path v : head (page_path v) = Some (PML4_ENTRY v).
Proof. unfold page_path. by destruct SMALL_PAGES. Qed.

(** The page number of an address, as far as the tables tell pages apart. *)
Definition page_bits : Z := if SMALL_PAGES then 36 else 27.

Lemma entry_mod v k : 0 <= k -> Z.land (Z.shiftr v k) 0x1ff = (v / 2 ^ k) mod 2 ^ 9.
Proof. intros Hk. rewrite Z.shiftr_div_pow2 by done. change 0x1ff with (Z.ones 9). by rewrite Z.land_ones by lia. Qed.

Lemma mod_split q n : 0 <= n -> q mod 2 ^ (9 + n) = q mod 2 ^ 9 + 2 ^ 9 * ((q / 2 ^ 9) mod 2 ^ n).
Proof. intros Hn. rewrite Z.pow_add_r by lia. apply Z.rem_mul_r; [lia|]. apply Z.pow_pos_nonneg; lia. Qed.

Lemma div_next v k : 0 <= k -> v / 2 ^ k / 2 ^ 9 = v / 2 ^ (k + 9).
Proof. intros Hk. rewrite Z.div_div, <- Z.pow_add_r by lia. done. Qed.

Lemma same_page_number v w :
  same_page v w -> (v / PAGE_SIZE_IN_BYTES) mod 2 ^ page_bits = (w / PAGE_SIZE_IN_BYTES) mod 2 ^ page_bits.
Proof.
  unfold same_page, page_path, leaf_index, page_bits, PAGE_SIZE_IN_BYTES, PML4_ENTRY, PDPR_ENTRY, PD_ENTRY, PT_ENTRY.
  rewrite !entry_mod by lia. destruct SMALL_PAGES; intros [[= E3 E2] E1].
  - change 36 with (9 + (9 + (9 + 9))). change 0x1000 with (2 ^ 12).
    rewrite !mod_split, !div_next by lia.
    change (12 + 9 + 9 + 9) with 39. change (12 + 9 + 9) with 30. change (12 + 9) with 21. congruence.
  - change 27 with (9 + (9 + 9)). change 0x200000 with (2 ^ 21).
    rewrite !mod_split, !div_next by lia. change (21 + 9 + 9) with 39. change (21 + 9) with 30. congruence.
Qed.

(** Pages of a range of less than [2 ^ page_bits] pages are pairwise different. *)
Lemma range_pages_differ v i j :
  0 <= i < 2 ^ page_bits -> 0 <= j < 2 ^ page_bits ->
  same_page (v + i * PAGE_SIZE_IN_BYTES) (v + j * PAGE_SIZE_IN_BYTES) -> i = j.
Proof.
  intros Hi Hj Hs. pose proof page_size_bounds. apply same_page_number in Hs. rewrite !Z.div_add in Hs by lia.
  set (q := v / PAGE_SIZE_IN_BYTES) in *. set (n := 2 ^ page_bits) in *. assert (n > 0) by lia.
  pose proof (Z.div_mod (q + i) n ltac:(lia)). pose proof (Z.div_mod (q + j) n ltac:(lia)).
  assert (i - j = n * ((q + i) / n - (q + j) / n)) as E by lia.
  assert ((q + i) / n = (q + j) / n) as Ed by nia. rewrite Ed in E. lia.
Qed.

Lemma mapping_kept limit taken m m' R v :
  tree_ok table_depth limit taken m R ->
  (forall t i, t ∈ taken -> t mod 2 ^ 12 = 0 -> 0 <= i < 512 -> m' !! (t + 8 * i) = m !! (t + 8 * i)) ->
  PML4_ENTRY v <> 510 -> mapping m' R v = mapping m R v.
Proof.
  intros Htree Hkept Hv. pose proof (page_path_ok v Hv) as Hp. unfold mapping.
  rewrite (table_at_kept table_depth limit taken m m' R Htree Hkept) by done.
  destruct (table_at m R (page_path v)) as [t|] eqn:Ht; [|done].
  by rewrite (kept_word table_depth limit taken m m' R Htree Hkept (page_path v) t) by (done || apply leaf_index_range).
Qed.

Section Installing.
Context (limit : Z) (taken : gset Z) (m m' : gmap Z Z) (R t i e new : Z) (p : list Z).
Hypothesis Htree : tree_ok table_depth limit taken m R.
Hypothesis Hp : path_ok table_depth (p ++ [i]).
Hypothesis Ht : table_at m R p = Some t.
Hypothesis Habsent : sub m t i = None.
Hypothesis Hinst : installed m m' t i e new.
Hypothesis He : Z.land e PRESENT_BIT <> 0 /\ Z.land e VM_PAGE_TABLE_BASE_ADDRESS_MASK = new.
Hypothesis Hnew : new mod 2 ^ 12 = 0 /\ new ∉ taken.

(** A new table maps nothing and unmaps nothing. *)
Lemma mapping_installed v : PML4_ENTRY v <> 510 -> mapping m' R v = mapping m R v.
Proof.
  intros Hv. pose proof (page_path_ok v Hv) as Hq. pose proof (leaf_index_range v) as Hk.
  unfold mapping. rewrite (table_at_installed table_depth limit taken m m' R t i e new p) by done.
  case_decide as Hd.
  - rewrite Hd. rewrite table_at_snoc, Ht, Habsent. rewrite (proj1 Hinst) by done. done.
  - destruct (table_at m R (page_path v)) as [tq|] eqn:Htq; [|done].
    rewrite (old_word table_depth limit taken m m' R t i e new p Htree Hp Ht Hinst Hnew (page_path v) tq); try done.
    intros [= Ep _]. destruct Hp as (Hlen & _). rewrite length_app, <- Ep, length_page_path in Hlen. simpl in Hlen. lia.
Qed.
End Installing.

Section Leaf.
Context (limit : Z) (taken : gset Z) (m : gmap Z Z) (R t w v : Z).
Hypothesis Htree : tree_ok table_depth limit taken m R.
Hypothesis Hv : PML4_ENTRY v <> 510.
Hypothesis Ht : table_at m R (page_path v) = Some t.
Let m' := <[t + 8 * leaf_index v := w]> m.

Local Lemma other_word q tq j :
  path_ok table_depth q -> table_at m R q = Some tq -> 0 <= j < 512 ->
  (q, j) <> (page_path v, leaf_index v) -> m' !! (tq + 8 * j) = m !! (tq + 8 * j).
Proof.
  intros Hq Htq Hj Hne. pose proof (page_path_ok v Hv) as Hpv. pose proof (leaf_index_range v).
  unfold m'. rewrite lookup_insert_ne; [done|]. intros E. apply Hne.
  destruct (tree_page _ _ _ _ _ Htree q tq Hq Htq) as (Ha & _).
  destruct (tree_page _ _ _ _ _ Htree _ t Hpv Ht) as (Ha' & _).
  apply same_word in E as [-> ->]; try done. by rewrite (tree_inj _ _ _ _ _ Htree q (page_path v) tq).
Qed.

Lemma table_at_leaf q : path_ok table_depth q -> table_at m' R q = table_at m R q.
Proof.
  induction q as [|j q IH] using rev_ind; intros Hq; [done|].
  pose proof (path_ok_prefix _ _ _ Hq) as Hq0. rewrite !table_at_snoc, IH by done.
  destruct (table_at m R q) as [tq|] eqn:Htq; [|done]. unfold sub. rewrite (other_word q tq j); try done.
  - destruct Hq as (_ & Hr & _). apply Forall_app in Hr as [_ Hr]. by apply Forall_cons in Hr as [? _].
  - intros [= Eq _]. destruct Hq as (Hlen & _). rewrite length_app, Eq, length_page_path in Hlen. simpl in Hlen. lia.
Qed.

Lemma tree_ok_leaf : tree_ok table_depth limit taken m' R.
Proof.
  constructor.
  - intros q tq Hq. rewrite table_at_leaf by done. by apply (tree_page _ _ _ _ _ Htree).
  - intros q tq j Hq. rewrite table_at_leaf by done. intros Htq Hj.
    destruct (tree_words _ _ _ _ _ Htree q tq j Hq Htq Hj) as [x Hx].
    unfold m'. destruct (decide (t + 8 * leaf_index v = tq + 8 * j)) as [->|].
    + exists w. apply lookup_insert_eq.
    + exists x. by rewrite lookup_insert_ne.
  - intros q q' tq Hq Hq'. rewrite !table_at_leaf by done. by apply (tree_inj _ _ _ _ _ Htree).
Qed.

(** Writing the last entry changes the mapping of its page and of no other. *)
Lemma mapping_leaf u :
  PML4_ENTRY u <> 510 ->
  mapping m' R u = if decide (same_page u v) then (if Z.land w PRESENT_BIT =? 0 then None else Some w)
                   else mapping m R u.
Proof.
  intros Hu. pose proof (page_path_ok u Hu) as Hq. pose proof (leaf_index_range u).
  unfold mapping. rewrite table_at_leaf by done. case_decide as Hd.
  - destruct Hd as [Ep Ek]. rewrite Ep, Ek, Ht. unfold m'. by rewrite lookup_insert_eq.
  - destruct (table_at m R (page_path u)) as [tq|] eqn:Htq; [|done].
    rewrite (other_word (page_path u) tq); try done. intros [= ??]. by apply Hd.
Qed.
End Leaf.
End PageTables.

(** ** The code on the tree *)

(** What a frame source promises its clients: [fs_inv limit taken f] says that the
    pages of [taken] are not free in [f]; a page handed out afterwards, for a table
    or as a frame, is whole, aligned, inside memory, not one of them, and is taken
    from then on. *)
Class FrameSourceLaws (F : Type) `{PageConfig} `{FrameSource F} : Type := {
  fs_inv : Z -> gset Z -> F -> Prop;
  fs_prepare : forall limit taken f a f', fs_inv limit taken f -> prepare_new_pagetable f = Ret (a, f') -> a <> 0 ->
    a mod 2 ^ 12 = 0 /\ 0 < a /\ a + 2 ^ 12 <= limit /\ a ∉ taken /\ fs_inv limit ({[a]} ∪ taken) f';
  fs_alloc : forall limit taken f a f', fs_inv limit taken f -> alloc_frame f = Ret (a, f') -> a <> 0 ->
    a mod 2 ^ 12 = 0 /\ 0 < a /\ a + PAGE_SIZE_IN_BYTES <= limit /\ a ∉ taken /\ fs_inv limit ({[a]} ∪ taken) f';
}.

(** [f] can hand out [n] pages, whichever way they are asked for. *)
Fixpoint supplies {F : Type} `{FrameSource F} (n : nat) (f : F) : Prop :=
  match n with
  | O => True
  | Datatypes.S n' =>
      (exists a f', prepare_new_pagetable f = Ret (a, f') /\ a <> 0 /\ supplies n' f') /\
      (exists a f', alloc_frame f = Ret (a, f') /\ a <> 0 /\ supplies n' f')
  end.

Lemma supplies_weaken {F : Type} `{FrameSource F} (n : nat) : forall f : F, supplies (Datatypes.S n) f -> supplies n f.
Proof.
  induction n as [|n IH]; intros f Hs; [done|].
  destruct Hs as [(a & f' & Hp & Ha & Hs) (a2 & f2' & Hp2 & Ha2 & Hs2)].
  split; [exists a, f'|exists a2, f2']; (split; [done|]; split; [done|]; by apply IH).
Qed.

(** The same promise beside pages [kept] that belong to others. *)
Section Beside.
Context `{PageConfig} {F : Type} `{FrameSource F} `{!FrameSourceLaws F}.

Lemma beside_step limit (taken kept : gset Z) (a : Z) (f : F) :
  taken ## kept -> a ∉ taken ∪ kept -> fs_inv limit ({[a]} ∪ (taken ∪ kept)) f ->
  a ∉ taken /\ fs_inv limit ({[a]} ∪ taken ∪ kept) f /\ {[a]} ∪ taken ## kept.
Proof. intros Hd Ha Hf. split; [set_solver|]. rewrite <- (assoc_L (∪)). split; [exact Hf|set_solver]. Qed.

Definition beside (kept : gset Z) : FrameSourceLaws F.
Proof.
  refine {| fs_inv := fun limit taken f => fs_inv limit (taken ∪ kept) f /\ taken ## kept |}.
  - intros limit taken f a f' [Hf Hd] Hrun Ha. destruct (fs_prepare _ _ _ _ _ Hf Hrun Ha) as (? & ? & ? & Hn & Hf').
    destruct (beside_step limit taken kept a f' Hd Hn Hf') as (? & ? & ?). by split_and!.
  - intros limit taken f a f' [Hf Hd] Hrun Ha. destruct (fs_alloc _ _ _ _ _ Hf Hrun Ha) as (? & ? & ? & Hn & Hf').
    destruct (beside_step limit taken kept a f' Hd Hn Hf') as (? & ? & ?). by split_and!.
Defined.
End Beside.

Section Code.
Context `{PageConfig} {F : Type} `{FrameSource F} `{!FrameSourceLaws F}.
Implicit Types (s : vm_state F) (R v : Z).

(** The direct map reaches all of memory, and the tables from [R] are a tree. *)
Record vm_ok (taken : gset Z) R s : Prop := {
  ok_base : 0 < s.(hhdm_base);
  ok_limit : s.(vm_memory_size) <= 2 ^ 40;
  ok_window : s.(hhdm_base) + s.(vm_memory_size) <= 2 ^ 64;
  ok_tree : tree_ok table_depth s.(vm_memory_size) taken s.(phys) R;
  ok_frames : fs_inv s.(vm_memory_size) taken s.(frames);
}.

(** [s] with other physical memory and another state of the frame source. *)
Definition vm_with (m : gmap Z Z) (f : F) s : vm_state F := set_phys m (set_frames f s).

Lemma vm_ok_phys taken R s m : vm_ok taken R s -> tree_ok table_depth s.(vm_memory_size) taken m R -> vm_ok taken R (set_phys m s).
Proof. by intros [Hb Hl Hw _ Hf] Ht; constructor. Qed.

Lemma vm_with_same s : vm_with s.(phys) s.(frames) s = s.
Proof. by destruct s. Qed.

Lemma phys_read_run s p w :
  0 <= p < s.(vm_memory_size) -> s.(phys) !! p = Some w -> phys_read p s = Ret (w, s).
Proof.
  intros Hp Hw. unfold phys_read, bind, get.
  destruct (Z.leb_spec 0 p), (Z.ltb_spec p s.(vm_memory_size)); try lia. simpl. by rewrite Hw.
Qed.

Lemma phys_write_run s p w :
  0 <= p < s.(vm_memory_size) -> phys_write p w s = Ret (tt, set_phys (<[p := w]> s.(phys)) s).
Proof.
  intros Hp. unfold phys_write, bind, get.
  by destruct (Z.leb_spec 0 p), (Z.ltb_spec p s.(vm_memory_size)); try lia.
Qed.

Lemma table_write_run s t i w :
  0 < s.(hhdm_base) -> 0 <= t -> t + 2 ^ 12 <= s.(vm_memory_size) -> 0 <= i < 512 ->
  table_write (t + s.(hhdm_base)) i w s = Ret (tt, set_phys (<[t + 8 * i := w]> s.(phys)) s).
Proof.
  intros Hb Ht Ht' Hi. unfold table_write, bind, get.
  destruct (Z.eqb_spec (t + s.(hhdm_base)) 0); [lia|].
  replace (t + s.(hhdm_base) + 8 * i - s.(hhdm_base)) with (t + 8 * i) by lia. apply phys_write_run. lia.
Qed.

Lemma table_read_run s t i w :
  0 < s.(hhdm_base) -> 0 <= t -> t + 2 ^ 12 <= s.(vm_memory_size) -> 0 <= i < 512 ->
  s.(phys) !! (t + 8 * i) = Some w -> table_read (t + s.(hhdm_base)) i s = Ret (w, s).
Proof.
  intros Hb Ht Ht' Hi Hw. unfold table_read, bind, get.
  destruct (Z.eqb_spec (t + s.(hhdm_base)) 0); [lia|].
  replace (t + s.(hhdm_base) + 8 * i - s.(hhdm_base)) with (t + 8 * i) by lia. apply phys_read_run; [lia|done].
Qed.

Lemma hhdm_run s a :
  0 <= a < s.(vm_memory_size) -> 0 < s.(hhdm_base) -> s.(hhdm_base) + s.(vm_memory_size) <= 2 ^ 64 ->
  vm_hhdm_get_variable a s = Ret (a + s.(hhdm_base), s).
Proof.
  intros Ha Hb Hw. unfold vm_hhdm_get_variable, gets, hhdm_translate.
  destruct (Z.ltb_spec a s.(vm_memory_size)); [|lia]. by rewrite u64_small by lia.
Qed.

Lemma clean_new_table_run s t :
  0 < s.(hhdm_base) -> 0 <= t -> t + 2 ^ 12 <= s.(vm_memory_size) ->
  exists m, clean_new_table (t + s.(hhdm_base)) s = Ret (tt, set_phys m s) /\
    (forall j, 0 <= j < 512 -> m !! (t + 8 * j) = Some 0) /\
    (forall x, (forall j, 0 <= j < 512 -> x <> t + 8 * j) -> m !! x = s.(phys) !! x).
Proof.
  intros Hb Ht Ht'.
  assert (wp (clean_new_table (t + s.(hhdm_base))) (fun _ s' => exists m, s' = set_phys m s /\
    (forall j, 0 <= j < 512 -> m !! (t + 8 * j) = Some 0) /\
    (forall x, (forall j, 0 <= j < 512 -> x <> t + 8 * j) -> m !! x = s.(phys) !! x)) s) as Hwp.
  2:{ apply wp_run in Hwp as ([] & s' & Hrun & m & -> & Hm). by exists m. }
  unfold clean_new_table, for_upto. apply (wp_for_from (fun k s' => exists m, s' = set_phys m s /\
    (forall j, 0 <= j < k -> m !! (t + 8 * j) = Some 0) /\
    (forall x, (forall j, 0 <= j < k -> x <> t + 8 * j) -> m !! x = s.(phys) !! x))).
  - exists s.(phys). split; [by destruct s|]. split; [lia|done].
  - intros k s' Hk (m & -> & Hz & Hx). apply wp_run. eexists _, _. split.
    { change (hhdm_base s) with (hhdm_base (set_phys m s)).
      unfold VM_PAGES_PER_TABLE in Hk. apply table_write_run; simpl; try done; lia. }
    exists (<[t + 8 * k := 0]> m). split; [done|]. split.
    + intros j Hj. destruct (decide (j = k)) as [->|]; [apply lookup_insert_eq|].
      rewrite lookup_insert_ne by lia. apply Hz. lia.
    + intros x Hne. rewrite lookup_insert_ne by (intros E; apply (Hne k); lia). apply Hx.
      intros j Hj. apply Hne. lia.
  - intros s' (m & -> & Hz & Hx). exists m. done.
Qed.

(** The flags of an entry that refers to a table. *)
Definition table_entry (new user : Z) : Z := Z.lor (Z.lor (Z.lor new user) WRITE_BIT) PRESENT_BIT.

Lemma table_entry_ok new user :
  0 <= new < 2 ^ 40 -> new mod 2 ^ 12 = 0 -> user = 0 \/ user = VMM_FLAGS_USER_LEVEL ->
  Z.land (table_entry new user) PRESENT_BIT <> 0 /\
  Z.land (table_entry new user) VM_PAGE_TABLE_BASE_ADDRESS_MASK = new.
Proof.
  intros Hn Ha Hu. unfold table_entry. rewrite <- !Z.lor_assoc.
  rewrite entry_present by done. rewrite entry_base by (done || (destruct Hu as [-> | ->]; vm_compute; split; done)).
  split; [|done]. by destruct Hu as [-> | ->].
Qed.

(** What one level leaves behind. *)
Record level_result (taken : gset Z) R s (p : list Z) (t' : Z) s' : Prop := {
  lr_state : exists m f, s' = vm_with m f s;
  lr_table : table_at s'.(phys) R p = Some t';
  lr_ok : exists taken', taken ⊆ taken' /\ vm_ok taken' R s' /\ only_pages taken' s.(phys) s'.(phys);
  lr_mapping : forall v, PML4_ENTRY v <> 510 -> mapping s'.(phys) R v = mapping s.(phys) R v;
  lr_root : forall j, 0 <= j < 512 -> head p <> Some j -> s'.(phys) !! (R + 8 * j) = s.(phys) !! (R + 8 * j);
}.

Lemma next_table_run taken R s p t i user n :
  vm_ok taken R s -> path_ok table_depth (p ++ [i]) -> table_at s.(phys) R p = Some t ->
  user = 0 \/ user = VMM_FLAGS_USER_LEVEL -> supplies (Datatypes.S n) s.(frames) ->
  exists t' s', next_table (t + s.(hhdm_base)) i user s = Ret (t' + s.(hhdm_base), s') /\
    level_result taken R s (p ++ [i]) t' s' /\ supplies n s'.(frames).
Proof.
  intros [Hb Hlim Hwin Htree Hfr] Hp Ht Huser Hsup. pose proof (path_ok_prefix _ _ _ Hp) as Hpp.
  destruct (tree_page _ _ _ _ _ Htree p t Hpp Ht) as (Hta & Ht0 & Ht1 & Htk).
  assert (0 <= i < 512) as Hi.
  { destruct Hp as (_ & Hr & _). apply Forall_app in Hr as [_ Hr]. by apply Forall_cons in Hr as [? _]. }
  destruct (tree_words _ _ _ _ _ Htree p t i Hpp Ht Hi) as [e He].
  unfold next_table. rewrite (bind_run _ _ _ _ _ (table_read_run s t i e Hb Ht0 Ht1 Hi He)).
  destruct (Z.eqb_spec (Z.land e PRESENT_BIT) 0) as [Habs|Hpres].
  - destruct Hsup as [(a & f & Hprep & Ha0 & Hsup) _].
    destruct (fs_prepare _ _ _ _ _ Hfr Hprep Ha0) as (Haa & Hapos & Halim & Hatk & Hfr').
    set (s1 := set_frames f s).
    rewrite (bind_run _ _ _ a s1) by (unfold in_frames, zoom; by rewrite Hprep).
    change (s.(hhdm_base)) with (s1.(hhdm_base)).
    rewrite (bind_run _ _ _ _ _ (table_write_run s1 t i _ Hb Ht0 Ht1 Hi)).
    set (s2 := set_phys _ s1). change (s1.(hhdm_base)) with (s2.(hhdm_base)).
    assert (0 <= a < s2.(vm_memory_size)) as Har by (change (s2.(vm_memory_size)) with (s.(vm_memory_size)); lia).
    rewrite (bind_run _ _ _ _ _ (hhdm_run s2 a Har Hb Hwin)).
    destruct (clean_new_table_run s2 a Hb ltac:(lia) Halim) as (m & Hclean & Hzero & Hrest).
    rewrite (bind_run _ _ _ _ _ Hclean). change (s2.(hhdm_base)) with (s.(hhdm_base)).
    exists a, (set_phys m s2). split; [done|].
    assert (sub s.(phys) t i = None) as Hsub by (unfold sub; by rewrite He, Habs).
    assert (a <> t) as Hat by (intros ->; done).
    assert (installed s.(phys) m t i (table_entry a user) a) as Hinst.
    { split; [done|]. split.
      - rewrite Hrest; [by apply lookup_insert_eq|]. intros j Hj E. apply same_word in E as [? _]; congruence.
      - intros x Hx Hj. rewrite Hrest by done. by apply lookup_insert_ne. }
    assert (Z.land (table_entry a user) PRESENT_BIT <> 0 /\
            Z.land (table_entry a user) VM_PAGE_TABLE_BASE_ADDRESS_MASK = a) as Hent
      by (apply table_entry_ok; [lia|done|done]).
    split; [constructor|exact Hsup].
    + by exists m, f.
    + cbn [phys set_phys]. rewrite (table_at_installed table_depth (vm_memory_size s) taken s.(phys) m R t i (table_entry a user) a p) by done.
      by rewrite decide_True.
    + exists ({[a]} ∪ taken). split; [set_solver|]. split.
      * constructor; try done.
        apply (tree_ok_installed table_depth (vm_memory_size s) taken s.(phys) m R t i (table_entry a user) a p); try done. lia.
      * intros x Hx. apply Hinst; [apply Hx; [set_solver|done|done]|intros j Hj; apply Hx; [set_solver|done|done]].
    + intros v Hv. exact (mapping_installed _ taken s.(phys) m R t i (table_entry a user) a p Htree Hp Ht Hsub Hinst Hent (conj Haa Hatk) v Hv).
    + intros j Hj Hhd. destruct (tree_page _ _ _ _ _ Htree [] R (path_ok_prefix _ [] _ Hp) eq_refl) as (HRa & _ & _ & HRk).
      apply Hinst; [|by intros k Hk [-> _]%same_word].
      intros [-> ->]%same_word; try done. apply Hhd.
      by rewrite (tree_inj _ _ _ _ _ Htree p [] t Hpp (path_ok_prefix _ [] _ Hp) Ht eq_refl).
  - set (t' := Z.land e VM_PAGE_TABLE_BASE_ADDRESS_MASK).
    assert (table_at s.(phys) R (p ++ [i]) = Some t') as Ht'.
    { rewrite table_at_snoc, Ht. unfold sub. rewrite He. apply Z.eqb_neq in Hpres. by rewrite Hpres. }
    destruct (tree_page _ _ _ _ _ Htree _ t' Hp Ht') as (_ & Hp0 & Hp1 & _).
    exists t', s. split; [apply hhdm_run; [lia|done|done]|]. split.
    + constructor; [|done| |done|done].
      * exists s.(phys), s.(frames). by destruct s.
      * exists taken. split; [done|]. split; [by constructor|apply only_pages_refl].
    + by apply supplies_weaken.
Qed.

(** Going down the entries of [q]. *)
Fixpoint next_tables (table : Z) (q : list Z) (user : Z) : M (vm_state F) Z :=
  match q with
  | [] => ret table
  | i :: q' => let! t := next_table table i user in next_tables t q' user
  end.

Lemma next_tables_run user q : user = 0 \/ user = VMM_FLAGS_USER_LEVEL -> forall taken R s p t n,
  vm_ok taken R s -> path_ok table_depth (p ++ q) -> table_at s.(phys) R p = Some t ->
  supplies (length q + n) s.(frames) ->
  exists t' s', next_tables (t + s.(hhdm_base)) q user s = Ret (t' + s.(hhdm_base), s') /\
    level_result taken R s (p ++ q) t' s' /\ supplies n s'.(frames).
Proof.
  intros Huser. induction q as [|i q IH]; intros taken R s p t n Hok Hp Ht Hsup.
  - exists t, s. rewrite app_nil_r. split; [done|]. split; [|done]. constructor; [|done| |done|done].
    + exists s.(phys), s.(frames). by destruct s.
    + exists taken. split; [done|]. split; [done|apply only_pages_refl].
  - assert (path_ok table_depth (p ++ [i])) as Hpi.
    { apply (path_ok_prefix _ _ q). by rewrite <- app_assoc. }
    destruct (next_table_run taken R s p t i user (length q + n) Hok Hpi Ht Huser Hsup) as (t1 & s1 & Hrun & Hl & Hsup1).
    destruct Hl as [(m & f & ->) Ht1 (taken1 & Hsub1 & Hok1 & Ho1) Hmap1 Hroot1].
    destruct (IH taken1 R (vm_with m f s) (p ++ [i]) t1 n Hok1) as (t2 & s2 & Hrun2 & Hl2 & Hsup2);
      [by rewrite <- app_assoc|done|done|].
    rewrite <- app_assoc in Hl2. destruct Hl2 as [(m2 & f2 & ->) Ht2 (taken2 & Hsub2 & Hok2 & Ho2) Hmap2 Hroot2].
    exists t2, (vm_with m2 f2 (vm_with m f s)). cbn [next_tables]. rewrite (bind_run _ _ _ _ _ Hrun).
    split; [exact Hrun2|]. split; [|done]. constructor; [by exists m2, f2|done| | |].
    + exists taken2. split; [set_solver|]. split; [done|]. apply (only_pages_trans _ _ m); [by apply (only_pages_mono taken1)|done].
    + intros v Hv. by rewrite Hmap2, Hmap1.
    + intros j Hj Hhd. rewrite <- (Hroot1 j Hj) by (by destruct p). by apply Hroot2.
Qed.

(** The entry that maps a page. *)
Definition user_bit (v : Z) : Z := if is_address_higher_half v then 0 else VMM_FLAGS_USER_LEVEL.
Definition leaf_entry (pa v flags : Z) : Z :=
  if SMALL_PAGES then Z.lor pa (Z.lor flags (user_bit v))
  else Z.lor (Z.lor (Z.lor pa HUGEPAGE_BIT) (Z.lor flags (user_bit v))) (user_bit v).

(** The end of the mapping function, at the last table. *)
Definition write_leaf (table v w : Z) : M (vm_state F) Z :=
  let! e := table_read table (leaf_index v) in
  if Z.land e PRESENT_BIT =? 0 then do! table_write table (leaf_index v) w in ret v else ret 0.

Lemma map_unfold s pa v flags root :
  root <> 0 ->
  map_phys_to_virt_addr_hh pa v flags root s =
    (let! t := next_tables root (page_path v) (user_bit v) in write_leaf t v (leaf_entry pa v flags)) s.
Proof.
  intros Hr. unfold map_phys_to_virt_addr_hh, page_path, write_leaf, leaf_entry, leaf_index.
  rewrite (bind_run get _ s s s eq_refl). destruct (Z.eqb_spec root 0); [done|]. cbn [negb].
  destruct (Z.eqb_spec root 0); [done|]. cbn [negb]. fold (user_bit v).
  destruct SMALL_PAGES; cbn [next_tables]; unfold bind, ret;
    repeat match goal with |- context [match next_table ?a ?b ?c ?d with _ => _ end] =>
      destruct (next_table a b c d) as [[? ?]| |]; try done end.
Qed.

Lemma user_bit_cases v : user_bit v = 0 \/ user_bit v = VMM_FLAGS_USER_LEVEL.
Proof. unfold user_bit. case_match; auto. Qed.

Lemma leaf_entry_flags pa v flags :
  exists f, leaf_entry pa v flags = Z.lor pa f /\
    (0 <= flags < 2 ^ 12 -> 0 <= f < 2 ^ 12) /\ Z.land f PRESENT_BIT = Z.land flags PRESENT_BIT.
Proof.
  assert (forall x, (x = 0 \/ x = VMM_FLAGS_USER_LEVEL \/ x = HUGEPAGE_BIT) -> 0 <= x < 2 ^ 12 /\ Z.land x PRESENT_BIT = 0) as Hx
    by (intros x [->|[->| ->]]; (split; [vm_compute; split; [discriminate|reflexivity]|reflexivity])).
  assert (0 <= user_bit v < 2 ^ 12 /\ Z.land (user_bit v) PRESENT_BIT = 0) as [Hu1 Hu2]
    by (apply Hx; destruct (user_bit_cases v); auto).
  destruct (Hx HUGEPAGE_BIT) as [Hh1 Hh2]; [auto|].
  assert (forall a b, Z.land (Z.lor a b) PRESENT_BIT = Z.lor (Z.land a PRESENT_BIT) (Z.land b PRESENT_BIT)) as Hdist.
  { intros a b. apply Z.land_lor_distr_l. }
  unfold leaf_entry. destruct SMALL_PAGES.
  - eexists. split; [done|]. split; [intros; by apply lor_bound|]. by rewrite Hdist, Hu2, Z.lor_0_r.
  - rewrite <- !Z.lor_assoc. eexists. split; [done|]. split.
    + intros. apply lor_bound; [lia|done|]. apply lor_bound; [lia|done|]. by apply lor_bound.
    + by rewrite !Hdist, Hh2, Hu2, !Z.lor_0_r, Z.lor_0_l.
Qed.

(** The root pointer given to the code, NULL standing for the kernel's. *)
Definition root_pointer s (R pml4_root : Z) : Prop :=
  (if pml4_root =? 0 then s.(kernel_root) else pml4_root) = R + s.(hhdm_base).

Lemma map_root s R pml4_root pa v flags :
  0 <= R -> 0 < s.(hhdm_base) -> root_pointer s R pml4_root ->
  map_phys_to_virt_addr_hh pa v flags pml4_root s = map_phys_to_virt_addr_hh pa v flags (R + s.(hhdm_base)) s.
Proof.
  intros HR Hb Hroot. unfold root_pointer in Hroot. unfold map_phys_to_virt_addr_hh.
  rewrite !(bind_run get _ s s s eq_refl). rewrite Hroot.
  assert ((R + s.(hhdm_base) =? 0) = false) as E by (apply Z.eqb_neq; lia). by rewrite !E.
Qed.

Lemma tree_root taken R s : vm_ok taken R s -> R mod 2 ^ 12 = 0 /\ 0 <= R /\ R + 2 ^ 12 <= s.(vm_memory_size) /\ R ∈ taken.
Proof.
  intros Hok. apply (tree_page _ _ _ _ _ (ok_tree _ _ _ Hok) []); [|done].
  split; [simpl; lia|]. split; [apply Forall_nil_2|done].
Qed.

(** The run of the mapping function; only pages of the tree are written. *)
Lemma map_phys_to_virt_addr_hh_run taken R s pml4_root pa v flags n :
  vm_ok taken R s -> PML4_ENTRY v <> 510 -> root_pointer s R pml4_root -> supplies (3 + n) s.(frames) ->
  Z.land flags PRESENT_BIT <> 0 -> 0 <= pa -> pa mod 2 ^ 12 = 0 ->
  exists s' taken' m f, s' = vm_with m f s /\ vm_ok taken' R s' /\ supplies n f /\ taken ⊆ taken' /\
    map_phys_to_virt_addr_hh pa v flags pml4_root s =
      Ret (match mapping s.(phys) R v with None => v | Some _ => 0 end, s') /\
    (forall u, PML4_ENTRY u <> 510 -> mapping s'.(phys) R u =
      match mapping s.(phys) R v with
      | None => if decide (same_page u v) then Some (leaf_entry pa v flags) else mapping s.(phys) R u
      | Some _ => mapping s.(phys) R u
      end) /\ only_pages taken' s.(phys) s'.(phys) /\
    forall j, 0 <= j < 512 -> j <> PML4_ENTRY v -> s'.(phys) !! (R + 8 * j) = s.(phys) !! (R + 8 * j).
Proof.
  intros Hok Hv Hroot Hsup Hflags Hpa Hal. pose proof (tree_root _ _ _ Hok) as (_ & HR & _).
  pose proof (ok_base _ _ _ Hok) as Hb. rewrite (map_root s R pml4_root) by done. rewrite map_unfold by lia.
  assert (supplies (length (page_path v) + n) s.(frames)) as Hsup'.
  { rewrite length_page_path. unfold table_depth. destruct SMALL_PAGES; [done|]. by apply supplies_weaken. }
  destruct (next_tables_run (user_bit v) (page_path v) (user_bit_cases v) taken R s [] R n Hok)
    as (t & s1 & Hrun & [(m & f & ->) Ht (taken1 & Hsub & Hok1 & Ho) Hmap Hkeep] & Hsup1);
    [by apply page_path_ok|done|done|].
  rewrite (bind_run _ _ _ _ _ Hrun). simpl app in Ht, Hkeep. simpl phys in *.
  pose proof Hok1 as [Hb1 Hlim1 Hwin1 Htree1 Hfr1]. simpl in Htree1.
  destruct (tree_page _ _ _ _ _ Htree1 _ t (page_path_ok v Hv) Ht) as (Hta & Ht0 & Ht1 & _).
  destruct (tree_words _ _ _ _ _ Htree1 _ t (leaf_index v) (page_path_ok v Hv) Ht (leaf_index_range v)) as [e He].
  unfold write_leaf. change (s.(hhdm_base)) with ((vm_with m f s).(hhdm_base)).
  rewrite (bind_run _ _ _ _ _ (table_read_run (vm_with m f s) t _ e Hb Ht0 Ht1 (leaf_index_range v) He)).
  assert (mapping s.(phys) R v = if Z.land e PRESENT_BIT =? 0 then None else Some e) as Hmv.
  { rewrite <- (Hmap v Hv). unfold mapping. by rewrite Ht, He. }
  rewrite Hmv. destruct (Z.land e PRESENT_BIT =? 0) eqn:Habs.
  - rewrite (bind_run _ _ _ _ _ (table_write_run (vm_with m f s) t (leaf_index v) _ Hb Ht0 Ht1 (leaf_index_range v))).
    eexists _, taken1, _, f. split; [done|]. split; [|split; [done|split; [done|split; [done|split; [|split]]]]].
    + constructor; try done. by apply (tree_ok_leaf _ taken1 m R t _ v).
    + intros u Hu. cbn [phys set_phys vm_with]. rewrite (mapping_leaf _ taken1 m R t _ v Htree1 Hv Ht u Hu).
      case_decide; [|by apply Hmap]. destruct (leaf_entry_flags pa v flags) as (fl & -> & _ & Hfl).
      rewrite entry_present, Hfl by done. apply Z.eqb_neq in Hflags. by rewrite Hflags.
    + apply (only_pages_trans _ _ m); [done|]. destruct (tree_page _ _ _ _ _ Htree1 _ t (page_path_ok v Hv) Ht) as (_ & _ & _ & Htk).
      intros x Hx. apply lookup_insert_ne. apply not_eq_sym, Hx; [done|done|apply leaf_index_range].
    + intros j Hj Hne. cbn [phys set_phys vm_with]. rewrite lookup_insert_ne; [apply Hkeep; [done|rewrite head_page_path; congruence]|].
      intros E. apply same_word in E as [-> _]; [|done|apply tree_root in Hok as [? _]; done|apply leaf_index_range|done].
      pose proof (tree_inj _ _ _ _ _ Htree1 _ [] R (page_path_ok v Hv) (path_ok_prefix _ [] _ (page_path_ok v Hv)) Ht eq_refl) as E.
      apply (f_equal length) in E. rewrite length_page_path in E. unfold table_depth in E. by destruct SMALL_PAGES.
  - exists (vm_with m f s), taken1, m, f. split_and!; [done..| |done|].
    + intros u Hu. by apply Hmap.
    + intros j Hj Hne. apply Hkeep; [done|]. rewrite head_page_path. congruence.
Qed.

Lemma map_phys_to_virt_addr_hh_maps_gen taken R s pml4_root pa v flags n :
  vm_ok taken R s -> PML4_ENTRY v <> 510 -> root_pointer s R pml4_root -> supplies (3 + n) s.(frames) ->
  Z.land flags PRESENT_BIT <> 0 -> 0 <= pa -> pa mod 2 ^ 12 = 0 ->
  exists s' taken' m f, s' = vm_with m f s /\ vm_ok taken' R s' /\ supplies n f /\ taken ⊆ taken' /\
    map_phys_to_virt_addr_hh pa v flags pml4_root s =
      Ret (match mapping s.(phys) R v with None => v | Some _ => 0 end, s') /\
    forall u, PML4_ENTRY u <> 510 -> mapping s'.(phys) R u =
      match mapping s.(phys) R v with
      | None => if decide (same_page u v) then Some (leaf_entry pa v flags) else mapping s.(phys) R u
      | Some _ => mapping s.(phys) R u
      end.
Proof.
  intros Hok Hv Hroot Hsup Hflags Hpa Hal.
  destruct (map_phys_to_virt_addr_hh_run taken R s pml4_root pa v flags n Hok Hv Hroot Hsup Hflags Hpa Hal)
    as (s' & taken' & m & f & ? & ? & ? & ? & ? & ? & _). by exists s', taken', m, f.
Qed.

(** C7: [map_phys_to_virt_addr_hh], for either page size: a page that is not mapped
    is mapped to the frame given with the flags given, the mapping of every other
    page stays what it was, intermediate tables being created as needed, and the
    tables stay a tree of pages of their own; a page that is mapped already is left
    as it is and NULL is returned. *)
Theorem map_phys_to_virt_addr_hh_maps taken R s pml4_root pa v flags :
  vm_ok taken R s -> PML4_ENTRY v <> 510 -> root_pointer s R pml4_root -> supplies 3 s.(frames) ->
  Z.land flags PRESENT_BIT <> 0 -> 0 <= pa -> pa mod 2 ^ 12 = 0 ->
  exists s' taken', vm_ok taken' R s' /\ taken ⊆ taken' /\
    map_phys_to_virt_addr_hh pa v flags pml4_root s =
      Ret (match mapping s.(phys) R v with None => v | Some _ => 0 end, s') /\
    forall u, PML4_ENTRY u <> 510 -> mapping s'.(phys) R u =
      match mapping s.(phys) R v with
      | None => if decide (same_page u v) then Some (leaf_entry pa v flags) else mapping s.(phys) R u
      | Some _ => mapping s.(phys) R u
      end.
Proof.
  intros Hok Hv Hroot Hsup Hflags Hpa Hal.
  destruct (map_phys_to_virt_addr_hh_maps_gen taken R s pml4_root pa v flags 0 Hok Hv Hroot Hsup Hflags Hpa Hal)
    as (s' & taken' & _ & _ & _ & Hok' & _ & H'). by exists s', taken'.
Qed.

(** Going down entries that are present. *)
Fixpoint present_tables (table : Z) (q : list Z) : M (vm_state F) (option Z) :=
  match q with
  | [] => ret (Some table)
  | i :: q' =>
      let! o := present_table table i in
      match o with None => ret None | Some t => present_tables t q' end
  end.

Lemma present_tables_run taken R s : vm_ok taken R s -> forall q p t,
  path_ok table_depth (p ++ q) -> table_at s.(phys) R p = Some t ->
  present_tables (t + s.(hhdm_base)) q s =
    Ret (option_map (fun a => a + s.(hhdm_base)) (table_at s.(phys) t q), s).
Proof.
  intros [Hb Hlim Hwin Htree Hfr]. induction q as [|i q IH]; intros p t Hp Ht; [done|].
  assert (path_ok table_depth (p ++ [i])) as Hpi by (apply (path_ok_prefix _ _ q); by rewrite <- app_assoc).
  pose proof (path_ok_prefix _ _ _ Hpi) as Hpp.
  destruct (tree_page _ _ _ _ _ Htree p t Hpp Ht) as (Hta & Ht0 & Ht1 & Htk).
  assert (0 <= i < 512) as Hi.
  { destruct Hpi as (_ & Hr & _). apply Forall_app in Hr as [_ Hr]. by apply Forall_cons in Hr as [? _]. }
  destruct (tree_words _ _ _ _ _ Htree p t i Hpp Ht Hi) as [e He].
  cbn [present_tables table_at]. unfold present_table, sub. rewrite He.
  assert ((let! e0 := table_read (t + s.(hhdm_base)) i in
           if Z.land e0 PRESENT_BIT =? 0 then ret None
           else let! t0 := vm_hhdm_get_variable (Z.land e0 VM_PAGE_TABLE_BASE_ADDRESS_MASK) in ret (Some t0)) s =
    Ret (if Z.land e PRESENT_BIT =? 0 then None
         else Some (Z.land e VM_PAGE_TABLE_BASE_ADDRESS_MASK + s.(hhdm_base)), s)) as Hrun.
  { rewrite (bind_run _ _ _ _ _ (table_read_run s t i e Hb Ht0 Ht1 Hi He)).
    destruct (Z.land e PRESENT_BIT =? 0) eqn:Hpr; [done|].
    assert (table_at s.(phys) R (p ++ [i]) = Some (Z.land e VM_PAGE_TABLE_BASE_ADDRESS_MASK)) as Ht'.
    { rewrite table_at_snoc, Ht. unfold sub. by rewrite He, Hpr. }
    destruct (tree_page _ _ _ _ _ Htree _ _ Hpi Ht') as (_ & ? & ? & _).
    by rewrite (bind_run _ _ _ _ _ (hhdm_run s (Z.land e VM_PAGE_TABLE_BASE_ADDRESS_MASK) ltac:(lia) Hb Hwin)). }
  rewrite (bind_run _ _ _ _ _ Hrun). destruct (Z.land e PRESENT_BIT =? 0) eqn:Hpr; [done|].
  apply (IH (p ++ [i])); [by rewrite <- app_assoc|].
  rewrite table_at_snoc, Ht. unfold sub. by rewrite He, Hpr.
Qed.

Lemma unmap_unfold s v root :
  root <> 0 -> v <> 0 ->
  unmap_vaddress_hh v root s =
    (let! o := present_tables root (page_path v) in
     match o with
     | None => ret (-1)
     | Some t =>
         let! e := table_read t (leaf_index v) in
         if Z.land e PRESENT_BIT =? 0 then ret (-1) else do! table_write t (leaf_index v) 0 in ret 0
     end) s.
Proof.
  intros Hr Hv. unfold unmap_vaddress_hh, page_path, leaf_index.
  destruct (Z.eqb_spec root 0), (Z.eqb_spec v 0); try done. cbn [orb].
  destruct SMALL_PAGES; cbn [present_tables]; unfold bind, ret;
    repeat match goal with |- context [match present_table ?a ?b ?d with _ => _ end] =>
      destruct (present_table a b d) as [[[?|] ?]| |]; try done end.
Qed.

(** The last entry of an address, when the tables on the way are there. *)
Lemma leaf_run taken R s v t :
  vm_ok taken R s -> PML4_ENTRY v <> 510 -> table_at s.(phys) R (page_path v) = Some t ->
  exists e, s.(phys) !! (t + 8 * leaf_index v) = Some e /\ 0 <= t /\ t + 2 ^ 12 <= s.(vm_memory_size) /\
    table_read (t + s.(hhdm_base)) (leaf_index v) s = Ret (e, s) /\
    mapping s.(phys) R v = if Z.land e PRESENT_BIT =? 0 then None else Some e.
Proof.
  intros [Hb Hlim Hwin Htree Hfr] Hv Ht.
  destruct (tree_page _ _ _ _ _ Htree _ t (page_path_ok v Hv) Ht) as (_ & Ht0 & Ht1 & _).
  destruct (tree_words _ _ _ _ _ Htree _ t (leaf_index v) (page_path_ok v Hv) Ht (leaf_index_range v)) as [e He].
  exists e. split; [done|]. split; [done|]. split; [done|].
  split; [exact (table_read_run s t _ e Hb Ht0 Ht1 (leaf_index_range v) He)|]. unfold mapping. by rewrite Ht, He.
Qed.

(** C17: [unmap_vaddress_hh] removes the mapping of the page of its address and of
    no other and returns 0; when the page is not mapped it changes nothing and
    returns -1. *)
Theorem unmap_vaddress_hh_unmaps taken R s v :
  vm_ok taken R s -> PML4_ENTRY v <> 510 -> v <> 0 ->
  exists s', vm_ok taken R s' /\
    unmap_vaddress_hh v (R + s.(hhdm_base)) s =
      Ret (match mapping s.(phys) R v with None => -1 | Some _ => 0 end, s') /\
    forall u, PML4_ENTRY u <> 510 ->
      mapping s'.(phys) R u = if decide (same_page u v) then None else mapping s.(phys) R u.
Proof.
  intros Hok Hv Hv0. pose proof (tree_root _ _ _ Hok) as (_ & HR & _). pose proof (ok_base _ _ _ Hok) as Hb.
  assert (mapping s.(phys) R v = None -> forall u, PML4_ENTRY u <> 510 ->
    mapping s.(phys) R u = if decide (same_page u v) then None else mapping s.(phys) R u) as Hnone.
  { intros Hm u Hu. case_decide as Hd; [|done]. destruct Hd as [Ep El]. unfold mapping in *. by rewrite Ep, El. }
  rewrite unmap_unfold by lia.
  rewrite (bind_run _ _ _ _ _ (present_tables_run taken R s Hok (page_path v) [] R (page_path_ok v Hv) eq_refl)).
  destruct (table_at s.(phys) R (page_path v)) as [t|] eqn:Ht; simpl.
  2:{ assert (mapping s.(phys) R v = None) as Hm by (unfold mapping; by rewrite Ht).
      exists s. split; [done|]. rewrite Hm. split; [done|]. by apply Hnone. }
  destruct (leaf_run taken R s v t Hok Hv Ht) as (e & He & Ht0 & Ht1 & Hread & Hm).
  rewrite (bind_run _ _ _ _ _ Hread). rewrite Hm. destruct (Z.land e PRESENT_BIT =? 0) eqn:Hpr.
  - exists s. split; [done|]. split; [done|]. by apply Hnone.
  - rewrite (bind_run _ _ _ _ _ (table_write_run s t (leaf_index v) 0 Hb Ht0 Ht1 (leaf_index_range v))).
    eexists. split; [|split; [done|]].
    + destruct Hok as [? ? ? Htree ?]. constructor; try done. by apply (tree_ok_leaf _ taken s.(phys) R t 0 v).
    + intros u Hu. cbn [phys set_phys].
      by rewrite (mapping_leaf _ taken s.(phys) R t 0 v (ok_tree _ _ _ Hok) Hv Ht u Hu).
Qed.

(** How many entries of a path are present, one after the other, from [t] on. *)
Fixpoint reached (m : gmap Z Z) (t : Z) (q : list Z) : Z :=
  match q with
  | [] => 0
  | i :: q' => match sub m t i with Some t' => 1 + reached m t' q' | None => 0 end
  end.

Lemma reached_all m q : forall t t', table_at m t q = Some t' -> reached m t q = Z.of_nat (length q).
Proof.
  induction q as [|i q IH]; intros t t'; cbn [table_at reached]; [done|].
  destruct (sub m t i) as [t1|]; [|done]. intros Ht. rewrite (IH t1 t' Ht). simpl length. lia.
Qed.

(** The walk, with the level reached so far. *)
Fixpoint walk_from (k table : Z) (q : list Z) (v : Z) : M (vm_state F) vm_walk_results :=
  match q with
  | [] =>
      let! e := table_read table (leaf_index v) in
      if Z.land e PRESENT_BIT =? 0 then ret (mk_walk 0 k false)
      else let! a := vm_hhdm_get_variable (Z.land e VM_PAGE_TABLE_BASE_ADDRESS_MASK) in ret (mk_walk a k true)
  | i :: q' =>
      let! o := present_table table i in
      match o with None => ret (mk_walk 0 k false) | Some t => walk_from (k + 1) t q' v end
  end.

Lemma walk_unfold s v root : vm_walk_table v root s = walk_from 0 root (page_path v) v s.
Proof.
  unfold vm_walk_table, page_path. destruct SMALL_PAGES eqn:Es; cbn [walk_from]; unfold bind, ret, leaf_index; rewrite ?Es;
    repeat match goal with |- context [match present_table ?a ?b ?d with _ => _ end] =>
      destruct (present_table a b d) as [[[?|] ?]| |]; try done end.
Qed.

(** One present entry, or none, after another. *)
Lemma walk_from_run taken R s v : vm_ok taken R s -> PML4_ENTRY v <> 510 -> forall q p t k,
  page_path v = p ++ q -> table_at s.(phys) R p = Some t ->
  walk_from k (t + s.(hhdm_base)) q v s =
    Ret (match mapping s.(phys) R v with
         | Some e => mk_walk (hhdm_translate s.(vm_memory_size) s.(hhdm_base) (Z.land e VM_PAGE_TABLE_BASE_ADDRESS_MASK))
                             (k + reached s.(phys) t q) true
         | None => mk_walk 0 (k + reached s.(phys) t q) false
         end, s).
Proof.
  intros Hok Hv. induction q as [|i q IH]; intros p t k Hq Ht; cbn [walk_from reached].
  - rewrite app_nil_r in Hq. rewrite <- Hq in Ht.
    destruct (leaf_run taken R s v t Hok Hv Ht) as (e & He & Ht0 & Ht1 & Hread & Hm).
    rewrite (bind_run _ _ _ _ _ Hread), Hm, Z.add_0_r. by destruct (Z.land e PRESENT_BIT =? 0).
  - assert (path_ok table_depth (p ++ i :: q)) as Hp by (rewrite <- Hq; by apply page_path_ok).
    assert (path_ok table_depth (p ++ [i])) as Hpi by (apply (path_ok_prefix _ _ q); by rewrite <- app_assoc).
    pose proof (present_tables_run taken R s Hok [i] p t Hpi Ht) as Hrun. cbn [present_tables table_at] in Hrun.
    assert (present_table (t + s.(hhdm_base)) i s =
      Ret (option_map (fun a => a + s.(hhdm_base)) (sub s.(phys) t i), s)) as Hrun1.
    { unfold bind in Hrun. destruct (present_table _ _ s) as [[[x|] s1]| |]; try done;
        destruct (sub s.(phys) t i); try done; unfold ret in Hrun; congruence. }
    rewrite (bind_run _ _ _ _ _ Hrun1). destruct (sub s.(phys) t i) as [t1|] eqn:Hsub; simpl.
    + rewrite (IH (p ++ [i]) t1 (k + 1)); [| by rewrite <- app_assoc | by rewrite table_at_snoc, Ht].
      by rewrite Z.add_assoc.
    + rewrite Z.add_0_r. unfold mapping. rewrite Hq, table_at_app, Ht. simpl. by rewrite Hsub.
Qed.

Lemma vm_walk_table_run taken R s v :
  vm_ok taken R s -> PML4_ENTRY v <> 510 ->
  vm_walk_table v (R + s.(hhdm_base)) s =
    Ret (match mapping s.(phys) R v with
         | Some e => mk_walk (hhdm_translate s.(vm_memory_size) s.(hhdm_base) (Z.land e VM_PAGE_TABLE_BASE_ADDRESS_MASK))
                             (Z.of_nat table_depth) true
         | None => mk_walk 0 (reached s.(phys) R (page_path v)) false
         end, s).
Proof.
  intros Hok Hv. rewrite walk_unfold, (walk_from_run taken R s v Hok Hv (page_path v) [] R 0 eq_refl eq_refl).
  destruct (mapping s.(phys) R v) as [e|] eqn:Hm; [|done]. unfold mapping in Hm.
  destruct (table_at s.(phys) R (page_path v)) as [t|] eqn:Ht; [|done].
  by rewrite (reached_all _ _ _ _ Ht), length_page_path.
Qed.

(** The direct-map address of the frame of a page, NULL when it is not mapped. *)
Lemma vm_copy_run taken R s v : vm_ok taken R s -> PML4_ENTRY v <> 510 ->
  vm_copy_from_different_space v (R + s.(hhdm_base)) s =
    Ret (match mapping s.(phys) R v with
         | Some e => hhdm_translate s.(vm_memory_size) s.(hhdm_base) (Z.land e VM_PAGE_TABLE_BASE_ADDRESS_MASK)
         | None => 0
         end, s).
Proof.
  intros Hok Hv. unfold vm_copy_from_different_space. rewrite (bind_run _ _ _ _ _ (vm_walk_table_run taken R s v Hok Hv)).
  by destruct (mapping s.(phys) R v).
Qed.

(** [vm_walk_table] finds exactly the mapped pages: it completes when the page
    is mapped, with the direct-map address of the frame of the page, the offset in
    the page being dropped, and the level of the last table; otherwise it returns
    NULL and the number of levels that were present. *)
Theorem vm_walk_table_spec taken R s v :
  vm_ok taken R s -> PML4_ENTRY v <> 510 ->
  vm_walk_table v (R + s.(hhdm_base)) s =
    Ret (match mapping s.(phys) R v with
         | Some e => mk_walk (hhdm_translate s.(vm_memory_size) s.(hhdm_base) (Z.land e VM_PAGE_TABLE_BASE_ADDRESS_MASK))
                             (Z.of_nat table_depth) true
         | None => mk_walk 0 (reached s.(phys) R (page_path v)) false
         end, s).
Proof. apply vm_walk_table_run. Qed.

(** C8: mapping then walking is a round trip: after an unmapped page is mapped to a
    frame inside memory, [vm_copy_from_different_space] of any address of the page
    is the direct-map address of the frame. *)
Theorem map_walk_round_trip taken R s s' pml4_root pa v u flags :
  vm_ok taken R s -> PML4_ENTRY v <> 510 -> root_pointer s R pml4_root -> supplies 3 s.(frames) ->
  Z.land flags PRESENT_BIT <> 0 -> 0 <= flags < 2 ^ 12 -> 0 <= pa < s.(vm_memory_size) -> pa mod 2 ^ 12 = 0 ->
  mapping s.(phys) R v = None -> same_page u v ->
  map_phys_to_virt_addr_hh pa v flags pml4_root s = Ret (v, s') ->
  vm_copy_from_different_space u (R + s.(hhdm_base)) s' = Ret (pa + s.(hhdm_base), s').
Proof.
  intros Hok Hv Hroot Hsup Hfl Hflr Hpa Hal Hnone Hpage Hrun.
  destruct (map_phys_to_virt_addr_hh_maps_gen taken R s pml4_root pa v flags 0 Hok Hv Hroot Hsup Hfl ltac:(lia) Hal)
    as (s1 & taken1 & m & f & Es & Hok1 & _ & _ & Hrun1 & Hmap).
  rewrite Hrun, Hnone in Hrun1. injection Hrun1 as <-.
  assert (PML4_ENTRY u <> 510) as Hu.
  { destruct Hpage as [Ep _]. unfold page_path in Ep. destruct SMALL_PAGES; injection Ep; congruence. }
  specialize (Hmap u Hu). rewrite Hnone, decide_True in Hmap by done.
  assert (hhdm_base s' = hhdm_base s /\ vm_memory_size s' = vm_memory_size s) as [Eb Em] by by rewrite Es.
  rewrite <- Eb, (vm_copy_run taken1 R s' u Hok1 Hu), Hmap.
  destruct (leaf_entry_flags pa v flags) as (fl & -> & Hfr & _).
  pose proof (ok_limit _ _ _ Hok). pose proof (ok_base _ _ _ Hok). pose proof (ok_window _ _ _ Hok).
  rewrite entry_base by (try done; try lia; by apply Hfr).
  unfold hhdm_translate. rewrite Em, Eb. destruct (Z.ltb_spec pa s.(vm_memory_size)); [|lia].
  by rewrite u64_small by lia.
Qed.
End Code.
