(* ===== verification/Boot.v ===== *)
(** Paging on the real frame allocator, and the boot-time mapping: the instance by
    which [Pmm.v] keeps the promise [FrameSource] of [Paging.v], the functions of
    [vmm_mapping.c] that use the recursive entry, the mapping loop of
    [hh_direct_map.c] and [pmm_setup]. *)
From S2P Require Import Prelude VmmUtil Mmap Bitmap Spinlock Pmm Paging.

(** ** The frame allocator as a source of pages *)

Section Instance.
Context `{PageConfig}.

#[export] Instance pmm_frame_source : FrameSource pmm_state := {
  prepare_new_pagetable := pmm_prepare_new_pagetable;
  alloc_frame := pmm_alloc_frame;
}.

(** The allocator is initialised and consistent, the pages of [taken] lie in frames
    in use, and the frames past the end of memory are in use. *)
Record pmm_source_inv (limit : Z) (taken : gset Z) (f : pmm_state) : Prop := {
  src_inv : pmm_inv f;
  src_init : f.(pmm_initialized) = true;
  src_taken : forall a, a ∈ taken -> a / PAGE_SIZE_IN_BYTES ∈ used f;
  src_limit : forall l, 0 <= l < frames_of f -> l ∉ used f -> (l + 1) * PAGE_SIZE_IN_BYTES <= limit;
}.

Lemma page_aligned_small l : (l * PAGE_SIZE_IN_BYTES) mod 2 ^ 12 = 0.
Proof.
  destruct page_size_cases as [-> | ->]; [apply Z_mod_mult|].
  replace (l * 2 ^ 21) with (l * 2 ^ 9 * 2 ^ 12) by lia. apply Z_mod_mult.
Qed.

(** An allocation that returns a frame returns a page nobody has. *)
Lemma pmm_source_alloc limit taken f a f' :
  pmm_source_inv limit taken f -> pmm_alloc_frame f = Ret (a, f') -> a <> 0 ->
  a mod 2 ^ 12 = 0 /\ 0 < a /\ a + PAGE_SIZE_IN_BYTES <= limit /\ a ∉ taken /\ pmm_source_inv limit ({[a]} ∪ taken) f'.
Proof.
  intros [Hinv Hinit Htk Hlim] Hrun Ha. pose proof page_size_bounds.
  destruct (pmm_alloc_frame_cases f Hinv) as [[_ E]|[(_ & r & s' & E & Hr & Hru & Hused & _ & _ & Hinv' & _ & (rows & n & Hs' & Hlen))|(_ & _ & _ & E)]];
    rewrite E in Hrun; [by injection Hrun as <- _| |done].
  injection Hrun as <- <-.
  assert (frames_of s' = frames_of f) as Hfr by (rewrite Hs'; unfold frames_of, capacity; simpl; by rewrite Hlen).
  split; [apply page_aligned_small|]. split; [nia|].
  split; [pose proof (Hlim r ltac:(lia) Hru); lia|].
  assert (r * PAGE_SIZE_IN_BYTES / PAGE_SIZE_IN_BYTES = r) as Hdiv by (apply Z.div_mul; lia).
  split; [intros Hin; apply Hru; rewrite <- Hdiv; by apply Htk|].
  constructor; [done|by rewrite Hs'| |].
  - intros b [->%elem_of_singleton|Hb]%elem_of_union; rewrite Hused; [rewrite Hdiv|]; set_solver.
  - intros l Hl Hlu. rewrite Hfr in Hl. apply Hlim; [done|]. rewrite Hused in Hlu. set_solver.
Qed.

#[export] Instance pmm_frame_source_laws : FrameSourceLaws pmm_state.
Proof.
  refine {| fs_inv := pmm_source_inv |}.
  - intros limit taken f a f' Hinv Hrun Ha. pose proof page_size_bounds.
    change (pmm_prepare_new_pagetable f = Ret (a, f')) in Hrun.
    unfold pmm_prepare_new_pagetable in Hrun. rewrite (bind_run get _ f f f eq_refl), (src_init _ _ _ Hinv) in Hrun.
    destruct (pmm_source_alloc limit taken f a f' Hinv Hrun Ha) as (? & ? & ? & ? & ?).
    split_and!; try done. lia.
  - exact pmm_source_alloc.
Defined.
End Instance.

(** ** Tables through the recursive entry *)

Section Recursive.
Context `{PageConfig} {F : Type} `{FrameSource F}.

(** The address bits of a paging-structure entry, the processor's own mask. *)
Definition entry_address (e : Z) : Z := Z.land e 0x000FFFFFFFFFF000.

(** The processor's walk of a virtual address from [cr3], with pages of 4 KiB,
    2 MiB and 1 GiB; an entry that is not present is a fault. *)
Definition mmu_translate (v : Z) : M (vm_state F) Z :=
  let! s := get in
  let! e4 := phys_read (entry_address s.(cr3) + 8 * PML4_ENTRY v) in
  if Z.land e4 PRESENT_BIT =? 0 then throw OutOfBounds else
  let! e3 := phys_read (entry_address e4 + 8 * PDPR_ENTRY v) in
  if Z.land e3 PRESENT_BIT =? 0 then throw OutOfBounds else
  if negb (Z.land e3 HUGEPAGE_BIT =? 0)
  then ret (Z.land (entry_address e3) (not64 (2 ^ 30 - 1)) + Z.land v (2 ^ 30 - 1)) else
  let! e2 := phys_read (entry_address e3 + 8 * PD_ENTRY v) in
  if Z.land e2 PRESENT_BIT =? 0 then throw OutOfBounds else
  if negb (Z.land e2 HUGEPAGE_BIT =? 0)
  then ret (Z.land (entry_address e2) (not64 (2 ^ 21 - 1)) + Z.land v (2 ^ 21 - 1)) else
  let! e1 := phys_read (entry_address e2 + 8 * PT_ENTRY v) in
  if Z.land e1 PRESENT_BIT =? 0 then throw OutOfBounds
  else ret (entry_address e1 + Z.land v 0xfff).

(** [table[i]] through a virtual address the processor translates. *)
Definition virt_read (table i : Z) : M (vm_state F) Z :=
  let! p := mmu_translate (u64 (table + 8 * i)) in phys_read p.
Definition virt_write (table i w : Z) : M (vm_state F) unit :=
  let! p := mmu_translate (u64 (table + 8 * i)) in phys_write p w.

(** [SIGN_EXTENSION | ENTRIES_TO_ADDRESS(...)]. *)
Definition recursive_table (pml4 pdpr pd pt : Z) : Z :=
  Z.lor SIGN_EXTENSION (ENTRIES_TO_ADDRESS pml4 pdpr pd pt).

(** [clean_new_table] through such an address. *)
Definition clean_virt_table (table : Z) : M (vm_state F) unit :=
  for_upto VM_PAGES_PER_TABLE (fun i => virt_write table i 0).

(** One level of [map_phys_to_virt_addr]: an entry that is not present gets a new
    table, which is cleared through [below], where it appears. *)
Definition ensure_table (table entry user_mode_status below : Z) : M (vm_state F) unit :=
  let! e := virt_read table entry in
  if Z.land e PRESENT_BIT =? 0 then
    let! new_table := in_frames prepare_new_pagetable in
    do! virt_write table entry (Z.lor (Z.lor (Z.lor new_table user_mode_status) WRITE_BIT) PRESENT_BIT) in
    clean_virt_table below
  else ret tt.

Definition map_phys_to_virt_addr (physical_address address flags : Z) : M (vm_state F) Z :=
  let pml4_e := PML4_ENTRY address in
  let pdpr_e := PDPR_ENTRY address in
  let pd_e := PD_ENTRY address in
  let pml4_table := recursive_table 510 510 510 510 in
  let user_mode_status := if is_address_higher_half address then 0 else VMM_FLAGS_USER_LEVEL in
  let flags := Z.lor flags user_mode_status in
  let pdpr_table := recursive_table 510 510 510 pml4_e in
  let pd_table := recursive_table 510 510 pml4_e pdpr_e in
  do! ensure_table pml4_table pml4_e user_mode_status pdpr_table in
  do! ensure_table pdpr_table pdpr_e user_mode_status pd_table in
  if SMALL_PAGES then
    let pt_table := recursive_table 510 pml4_e pdpr_e pd_e in
    let pt_e := PT_ENTRY address in
    do! ensure_table pd_table pd_e user_mode_status pt_table in
    let! e := virt_read pt_table pt_e in
    do! (if Z.land e PRESENT_BIT =? 0 then virt_write pt_table pt_e (Z.lor physical_address flags) else ret tt) in
    ret address
  else
    let! e := virt_read pd_table pd_e in
    do! (if Z.land e PRESENT_BIT =? 0
         then virt_write pd_table pd_e (Z.lor (Z.lor (Z.lor physical_address HUGEPAGE_BIT) flags) user_mode_status)
         else ret tt) in
    ret address.

Definition identity_map_phys_address (physical_address flags : Z) : M (vm_state F) unit :=
  do! map_phys_to_virt_addr physical_address physical_address flags in ret tt.

Definition unmap_vaddress (address : Z) : M (vm_state F) Z :=
  let pml4_e := PML4_ENTRY address in
  let! e4 := virt_read (recursive_table 510 510 510 510) pml4_e in
  if Z.land e4 PRESENT_BIT =? 0 then ret (-1) else
  let pdpr_e := PDPR_ENTRY address in
  let! e3 := virt_read (recursive_table 510 510 510 pml4_e) pdpr_e in
  if Z.land e3 PRESENT_BIT =? 0 then ret (-1) else
  let pd_table := recursive_table 510 510 pml4_e pdpr_e in
  let pd_e := PD_ENTRY address in
  let! e2 := virt_read pd_table pd_e in
  if Z.land e2 PRESENT_BIT =? 0 then ret (-1) else
  if SMALL_PAGES then
    let pt_table := recursive_table 510 pml4_e pdpr_e pd_e in
    let! e1 := virt_read pt_table (PT_ENTRY address) in
    if Z.land e1 PRESENT_BIT =? 0 then ret (-1)
    else do! virt_write pt_table (PT_ENTRY address) 0 in ret 0
  else do! virt_write pd_table pd_e 0 in ret 0.

Definition is_phyisical_address_mapped (physical_address virtual_address : Z) : M (vm_state F) Z :=
  let compare e :=
    if ALIGN_PHYSADDRESS e =? ALIGN_PHYSADDRESS physical_address then PHYS_ADDRESS_MAPPED else PHYS_ADDRESS_MISMATCH in
  let pml4_e := PML4_ENTRY virtual_address in
  let! e4 := virt_read (recursive_table 510 510 510 510) pml4_e in
  if Z.land e4 PRESENT_BIT =? 0 then ret PHYS_ADDRESS_NOT_MAPPED else
  let pdpr_e := PDPR_ENTRY virtual_address in
  let! e3 := virt_read (recursive_table 510 510 510 pml4_e) pdpr_e in
  if Z.land e3 PRESENT_BIT =? 0 then ret PHYS_ADDRESS_NOT_MAPPED else
  let pd_e := PD_ENTRY virtual_address in
  let! e2 := virt_read (recursive_table 510 510 pml4_e pdpr_e) pd_e in
  if Z.land e2 PRESENT_BIT =? 0 then ret PHYS_ADDRESS_NOT_MAPPED else
  if SMALL_PAGES then
    let! e1 := virt_read (recursive_table 510 pml4_e pdpr_e pd_e) (PT_ENTRY virtual_address) in
    if Z.land e1 PRESENT_BIT =? 0 then ret PHYS_ADDRESS_NOT_MAPPED else ret (compare e1)
  else ret (compare e2).

(** The handler of page faults: it logs the entries of the walk of [cr2], the
    faulting address, and stops the processor until the next interrupt; the result
    is what it logs, in order. The index in the page table is computed before
    [cr2] is read, from 0. *)
Definition VM_OFFSET_MASK : Z := if SMALL_PAGES then 0xFFFFFFFFFFFFF000 else 0xFFFFFFFFFFE00000.
Definition page_fault_handler (cr2 error_code : Z) : M (vm_state F) (list Z) :=
  let pt := PT_ENTRY 0 in
  let cr2_content := Z.land cr2 VM_OFFSET_MASK in
  let pd := PD_ENTRY cr2_content in
  let pdpr := PDPR_ENTRY cr2_content in
  let pml4 := PML4_ENTRY cr2_content in
  let! e2 := virt_read (recursive_table 510 510 pml4 pdpr) pd in
  let! e3 := virt_read (recursive_table 510 510 510 pml4) pdpr in
  let! e4 := virt_read (recursive_table 510 510 510 510) pml4 in
  if SMALL_PAGES then
    let! e1 := virt_read (recursive_table 510 pml4 pdpr pd) pt in
    ret [error_code; cr2; e2; e3; e4; e1]
  else ret [error_code; cr2; e2; e3; e4].

(** The loop of [hhdm_map_physical_memory]. *)
Fixpoint hhdm_map_loop (fuel : nat) (address_to_map virtual_address upper : Z) : M (vm_state F) unit :=
  match fuel with
  | O => diverge
  | Datatypes.S fuel' =>
      if address_to_map <? upper then
        do! map_phys_to_virt_addr address_to_map virtual_address (Z.lor VMM_FLAGS_PRESENT VMM_FLAGS_WRITE_ENABLE) in
        hhdm_map_loop fuel' (u64 (address_to_map + PAGE_SIZE_IN_BYTES)) (u64 (virtual_address + PAGE_SIZE_IN_BYTES)) upper
      else ret tt
  end.

(** [hhdm_map_physical_memory]; [last] is the last available entry of the memory
    map. A page is mapped per round, so that the fuel is the number of pages. *)
Definition hhdm_map_physical_memory (last : multiboot_memory_map_t) : M (vm_state F) unit :=
  let! s := get in
  let end_of_mapped_physical_memory := u64 (s.(end_of_mapped_memory) - _HIGHER_HALF_KERNEL_MEM_START) in
  let! mapped := is_phyisical_address_mapped end_of_mapped_physical_memory end_of_mapped_physical_memory in
  do! (if negb (mapped =? 0)
       then modify (fun s => set_end_of_mapped_memory (u64 (s.(end_of_mapped_memory) + PAGE_SIZE_IN_BYTES)) s)
       else ret tt) in
  let upper_address_to_map := u64 (last.(addr) + last.(len)) in
  hhdm_map_loop (Datatypes.S (Datatypes.S (Z.to_nat (upper_address_to_map / PAGE_SIZE_IN_BYTES)))) 0
    s.(hhdm_base) upper_address_to_map.
End Recursive.

(** ** Setting up the frame allocator *)

Section Setup.
Context `{PageConfig}.

(** [pmm_setup]. [kernel_end] and [kernel_physical_end] are the addresses of the
    linker symbols, [&_kernel_end + PAGE_SIZE_IN_BYTES] counting in words of eight
    bytes; [raw] is the memory the bitmap is put in. *)
Definition pmm_setup (kernel_end kernel_physical_end : Z) (raw : list Z) : M (vm_state pmm_state) unit :=
  let! anon := lift_opt DivByZero (align_up (u64 (kernel_end + 8 * PAGE_SIZE_IN_BYTES)) PAGE_SIZE_IN_BYTES) in
  let! anon_physical :=
    lift_opt DivByZero (align_up (u64 (kernel_physical_end + 8 * PAGE_SIZE_IN_BYTES)) PAGE_SIZE_IN_BYTES) in
  do! in_frames (modify (set_anon anon anon_physical)) in
  let! mm := gets (fun s => s.(frames).(pmm_bitmap).(bm_mmap)) in
  let! last := lift_opt OutOfBounds (mm.(mmap_entries) !! Z.to_nat mm.(_mmap_last_available_item)) in
  do! hhdm_map_physical_memory last in
  let! f := gets frames in
  do! in_frames (in_bitmap (_initialize_bitmap raw mm.(_mmap_phys_memory_avail)
                              (u64 (f.(anon_physical_memory_loc) + PAGE_SIZE_IN_BYTES)))) in
  let! region := in_frames (in_bitmap (_bitmap_get_region ADDRESS_TYPE_PHYSICAL)) in
  do! in_frames (in_lock spinlock_release) in
  do! in_frames (pmm_reserve_area (fst region) (snd region)) in
  do! in_frames _mmap_setup in
  in_frames (modify (fun f => mk_pmm f.(pmm_bitmap) f.(memory_spinlock) true f.(anon_memory_loc) f.(anon_physical_memory_loc))).
End Setup.

(** ** Witnesses *)

(** A cleared page is a tree of one table. *)
Lemma cleared_root_tree depth limit taken m R :
  R mod 2 ^ 12 = 0 -> 0 <= R -> R + 2 ^ 12 <= limit -> R ∈ taken ->
  (forall i, 0 <= i < 512 -> m !! (R + 8 * i) = Some 0) -> tree_ok depth limit taken m R.
Proof.
  intros Ha H0 Hl Ht Hz.
  assert (forall p t, path_ok depth p -> table_at m R p = Some t -> p = [] /\ t = R) as Honly.
  { intros [|i p] t (_ & Hr & _); cbn [table_at]; [by intros [= <-]|].
    apply Forall_cons in Hr as [Hi _]. unfold sub. by rewrite (Hz i Hi). }
  constructor.
  - intros p t Hp Hat. destruct (Honly p t Hp Hat) as [_ ->]. done.
  - intros p t i Hp Hat Hi. destruct (Honly p t Hp Hat) as [_ ->]. exists 0. by apply Hz.
  - intros p q t Hp Hq Hat Hat'. destruct (Honly p t Hp Hat) as [-> _]. by destruct (Honly q t Hq Hat') as [-> _].
Qed.

Definition cleared_page (R : Z) : gmap Z Z := list_to_map ((fun i => (R + 8 * i, 0)) <$> seqZ 0 512).

Lemma cleared_page_lookup R i : 0 <= i < 512 -> cleared_page R !! (R + 8 * i) = Some 0.
Proof.
  intros Hi. unfold cleared_page. apply elem_of_list_to_map_1.
  - rewrite <- list_fmap_compose. apply NoDup_fmap_2; [|apply NoDup_seqZ]. intros x y Hxy. simpl in Hxy. lia.
  - apply list_elem_of_fmap. exists i. split; [done|]. apply elem_of_seqZ. lia.
Qed.

(** [sample_pmm] under 1 GiB of memory, the root table in its frame 1. *)
Definition sample_vm : vm_state pmm_state :=
  mk_vm sample_pmm (cleared_page 0x200000) 0x40000000 0xffff800280200000 0xffff800280400000 0x200000 0.

Lemma sample_vm_ok : @vm_ok large_pages pmm_state _ (@pmm_frame_source_laws large_pages) {[0x200000]} 0x200000 sample_vm.
Proof.
  constructor; simpl; [lia|lia|lia| |].
  - apply cleared_root_tree; [done|lia|lia|set_solver|apply cleared_page_lookup].
  - constructor.
    + exact sample_pmm_inv.
    + done.
    + intros a ->%elem_of_singleton. apply elem_of_used. split; [vm_compute; split; [discriminate|done]|done].
    + intros l Hl _. change (@PAGE_SIZE_IN_BYTES large_pages) with 0x200000.
      assert (frames_of sample_pmm = 128) as E by done. lia.
Qed.

Lemma sample_vm_supplies : @supplies pmm_state (@pmm_frame_source large_pages) 3 sample_vm.(frames).
Proof.
  simpl. repeat match goal with
  | |- _ /\ _ => split
  | |- exists _ _, _ => eexists _, _; split; [vm_compute; reflexivity|]; split; [done|]
  | |- True => done
  end.
Qed.

Lemma map_phys_to_virt_addr_hh_maps_witness :
  @vm_ok large_pages pmm_state _ (@pmm_frame_source_laws large_pages) {[0x200000]} 0x200000 sample_vm /\
  exists s', @map_phys_to_virt_addr_hh large_pages pmm_state (@pmm_frame_source large_pages) 0x800000 0xffff900000000000 3 0 sample_vm =
      Ret (0xffff900000000000, s') /\
    @mapping large_pages s'.(phys) 0x200000 0xffff900000000000 = Some 0x800083.
Proof.
  split; [exact sample_vm_ok|].
  destruct (@map_phys_to_virt_addr_hh_maps large_pages pmm_state _ (@pmm_frame_source_laws large_pages)
    {[0x200000]} 0x200000 sample_vm 0 0x800000 0xffff900000000000 3 sample_vm_ok) as (s' & taken' & _ & _ & Hrun & Hmap);
    [vm_compute; discriminate|reflexivity|exact sample_vm_supplies|vm_compute; discriminate|lia|reflexivity|].
  exists s'. split.
  - rewrite Hrun. assert (@mapping large_pages sample_vm.(phys) 0x200000 0xffff900000000000 = None) as -> by (vm_compute; reflexivity).
    reflexivity.
  - rewrite (Hmap 0xffff900000000000) by (vm_compute; discriminate).
    assert (@mapping large_pages sample_vm.(phys) 0x200000 0xffff900000000000 = None) as -> by (vm_compute; reflexivity).
    rewrite decide_True by (split; reflexivity). vm_compute. reflexivity.
Defined.

(** [sample_vm] with a page mapped. *)
Definition mapped_vm : vm_state pmm_state :=
  match @map_phys_to_virt_addr_hh large_pages pmm_state (@pmm_frame_source large_pages) 0x800000 0xffff900000000000 3 0 sample_vm with
  | Ret (_, s) => s
  | _ => sample_vm
  end.

Lemma mapped_vm_run :
  @map_phys_to_virt_addr_hh large_pages pmm_state (@pmm_frame_source large_pages) 0x800000 0xffff900000000000 3 0 sample_vm =
    Ret (0xffff900000000000, mapped_vm).
Proof.
  unfold mapped_vm. destruct (@map_phys_to_virt_addr_hh_maps_gen large_pages pmm_state _ (@pmm_frame_source_laws large_pages)
    {[0x200000]} 0x200000 sample_vm 0 0x800000 0xffff900000000000 3 0 sample_vm_ok) as (s' & taken' & _ & _ & _ & _ & _ & _ & Hrun & _);
    [vm_compute; discriminate|reflexivity|exact sample_vm_supplies|vm_compute; discriminate|lia|reflexivity|].
  rewrite Hrun. assert (@mapping large_pages sample_vm.(phys) 0x200000 0xffff900000000000 = None) as -> by (vm_compute; reflexivity).
  reflexivity.
Qed.

Lemma map_walk_round_trip_witness :
  @vm_copy_from_different_space large_pages pmm_state 0xffff900000001234 0xffff800280400000 mapped_vm =
    Ret (0xffff800280a00000, mapped_vm).
Proof.
  apply (@map_walk_round_trip large_pages pmm_state _ (@pmm_frame_source_laws large_pages)
    {[0x200000]} 0x200000 sample_vm mapped_vm 0 0x800000 0xffff900000000000 0xffff900000001234 3 sample_vm_ok);
    [vm_compute; discriminate|reflexivity|exact sample_vm_supplies|vm_compute; discriminate|lia|split; [lia|reflexivity]
    |reflexivity|vm_compute; reflexivity|split; reflexivity|exact mapped_vm_run].
Defined.

Lemma unmap_vaddress_hh_unmaps_witness :
  exists s', @unmap_vaddress_hh large_pages pmm_state 0xffff900000000000 0xffff800280400000 sample_vm = Ret (-1, s') /\
    @vm_ok large_pages pmm_state _ (@pmm_frame_source_laws large_pages) {[0x200000]} 0x200000 s'.
Proof.
  destruct (@unmap_vaddress_hh_unmaps large_pages pmm_state _ (@pmm_frame_source_laws large_pages)
    {[0x200000]} 0x200000 sample_vm 0xffff900000000000 sample_vm_ok) as (s' & Hok & Hrun & _);
    [vm_compute; discriminate|discriminate|].
  exists s'. split; [|exact Hok].
  assert (@mapping large_pages sample_vm.(phys) 0x200000 0xffff900000000000 = None) as E by (vm_compute; reflexivity).
  rewrite E in Hrun. exact Hrun.
Defined.

Lemma vm_walk_table_spec_witness :
  @vm_walk_table large_pages pmm_state 0xffff900000000000 0xffff800280400000 sample_vm =
    Ret (mk_walk 0 0 false, sample_vm).
Proof.
  assert (PML4_ENTRY 0xffff900000000000 <> 510) as Hv by (vm_compute; discriminate).
  pose proof (@vm_walk_table_spec large_pages pmm_state _ (@pmm_frame_source_laws large_pages)
    {[0x200000]} 0x200000 sample_vm 0xffff900000000000 sample_vm_ok Hv) as Hwalk.
  assert (@mapping large_pages sample_vm.(phys) 0x200000 0xffff900000000000 = None) as E by (vm_compute; reflexivity).
  rewrite E in Hwalk. assert (reached sample_vm.(phys) 0x200000 (@page_path large_pages 0xffff900000000000) = 0) as E0
    by (vm_compute; reflexivity).
  rewrite E0 in Hwalk. exact Hwalk.
Defined.
