(* ===== verification/Vmm.v ===== *)
(** The virtual memory manager: [kernel/mem/vmm.c]. An address space hands out
    addresses upward and records each area in an item of a container; containers
    are pages of virtual memory, kept here by address. *)
From S2P Require Import Prelude VmmUtil Mmap Bitmap Pmm Kheap Paging Boot.

Definition THREAD_DEFAULT_STACK_SIZE : Z := 0x10000.
Definition VMM_RESERVED_SPACE_SIZE : Z := 0x14200000000.

Inductive vmm_level_t : Type :=
| VMM_LEVEL_USER
| VMM_LEVEL_SUPERVISOR.

Record VmmItem : Type := mk_item {
  base : Z;
  item_size : Z;
  item_flags : Z;
}.

(** A container; the items are by index, those never written being absent. *)
Record VmmContainer : Type := mk_container {
  vmm_root : gmap Z VmmItem;
  vmm_items_available : Z;
  container_next : Z;
}.

(** [VmmInfo] with its [status]. *)
Record VmmInfo : Type := mk_info {
  vmmDataStart : Z;
  vmmSpaceStart : Z;
  start_of_vmm_space : Z;
  root_table_hhdm : Z;
  root_table_phys : Z;
  vmm_items_per_page : Z;
  vmm_cur_index : Z;
  next_available_address : Z;
  vmm_number_of_containers : Z;
  end_of_vmm_data : Z;
  vmm_container_root : Z;
  vmm_cur_container : Z;
}.

Definition with_root_tables (hhdm phys : Z) (i : VmmInfo) : VmmInfo :=
  mk_info i.(vmmDataStart) i.(vmmSpaceStart) i.(start_of_vmm_space) hhdm phys
    i.(vmm_items_per_page) i.(vmm_cur_index) i.(next_available_address) i.(vmm_number_of_containers)
    i.(end_of_vmm_data) i.(vmm_container_root) i.(vmm_cur_container).
Definition with_space (data start space_start root eod : Z) (i : VmmInfo) : VmmInfo :=
  mk_info data start space_start i.(root_table_hhdm) i.(root_table_phys)
    i.(vmm_items_per_page) i.(vmm_cur_index) i.(next_available_address) i.(vmm_number_of_containers)
    eod root i.(vmm_cur_container).
Definition with_cursor (items index next_address : Z) (i : VmmInfo) : VmmInfo :=
  mk_info i.(vmmDataStart) i.(vmmSpaceStart) i.(start_of_vmm_space) i.(root_table_hhdm) i.(root_table_phys)
    items index next_address i.(vmm_number_of_containers)
    i.(end_of_vmm_data) i.(vmm_container_root) i.(vmm_cur_container).
Definition with_containers (number current : Z) (i : VmmInfo) : VmmInfo :=
  mk_info i.(vmmDataStart) i.(vmmSpaceStart) i.(start_of_vmm_space) i.(root_table_hhdm) i.(root_table_phys)
    i.(vmm_items_per_page) i.(vmm_cur_index) i.(next_available_address) number
    i.(end_of_vmm_data) i.(vmm_container_root) current.
Definition with_index (index : Z) (i : VmmInfo) : VmmInfo :=
  with_cursor i.(vmm_items_per_page) index i.(next_available_address) i.
Definition with_next_address (a : Z) (i : VmmInfo) : VmmInfo :=
  with_cursor i.(vmm_items_per_page) i.(vmm_cur_index) a i.

Definition is_address_only (flags : Z) : bool :=
  if negb (Z.land flags VMM_FLAGS_ADDRESS_ONLY =? 0) then true else false.
Definition is_address_stack (flags : Z) : bool :=
  if negb (Z.land flags VMM_FLAGS_STACK =? 0) then true else false.

Section Vmm.
Context `{PageConfig} {F : Type} `{FrameSource F}.

(** The state: page tables, the containers, the kernel's address space, those of
    the tasks by address, and the global [vmm_container_root] of the file. *)
Record vmm_state : Type := mk_vmm {
  vmm_vm : vm_state F;
  containers : gmap Z VmmContainer;
  vmm_kernel : VmmInfo;
  task_infos : gmap Z VmmInfo;
  global_container_root : Z;
}.

Definition set_vmm_vm (v : vm_state F) (s : vmm_state) : vmm_state :=
  mk_vmm v s.(containers) s.(vmm_kernel) s.(task_infos) s.(global_container_root).
Definition set_containers (c : gmap Z VmmContainer) (s : vmm_state) : vmm_state :=
  mk_vmm s.(vmm_vm) c s.(vmm_kernel) s.(task_infos) s.(global_container_root).

(** The address space a [VmmInfo *] points to, NULL standing for the kernel's. *)
Definition get_info (p : Z) : M vmm_state VmmInfo :=
  let! s := get in
  if p =? 0 then ret s.(vmm_kernel) else lift_opt OutOfBounds (s.(task_infos) !! p).
Definition put_info (p : Z) (i : VmmInfo) : M vmm_state unit :=
  modify (fun s =>
    if p =? 0 then mk_vmm s.(vmm_vm) s.(containers) i s.(task_infos) s.(global_container_root)
    else mk_vmm s.(vmm_vm) s.(containers) s.(vmm_kernel) (<[p := i]> s.(task_infos)) s.(global_container_root)).
Definition update_info (p : Z) (f : VmmInfo -> VmmInfo) : M vmm_state unit :=
  let! i := get_info p in put_info p (f i).

(** A container behind its pointer. *)
Definition get_container (p : Z) : M vmm_state VmmContainer :=
  if p =? 0 then throw NullDeref
  else let! s := get in lift_opt OutOfBounds (s.(containers) !! p).
Definition put_container (p : Z) (c : VmmContainer) : M vmm_state unit :=
  if p =? 0 then throw NullDeref else modify (fun s => set_containers (<[p := c]> s.(containers)) s).

Definition in_vm {A} (m : M (vm_state F) A) : M vmm_state A := zoom vmm_vm set_vmm_vm m.

(** [sizeof(VmmItem)] and, packed, [sizeof(VmmContainer)]. *)
Definition sizeof_VmmItem : Z := 24.
Definition items_per_page : Z := PAGE_SIZE_IN_BYTES / sizeof_VmmItem - 1.
Definition sizeof_VmmContainer : Z := sizeof_VmmItem * items_per_page + 16.

(** What setting up a container writes: the link and the count. The items are not
    written, and keep what is at that address; for a page just mapped, nothing the
    code may rely on. *)
Definition init_container (p items : Z) : M vmm_state unit :=
  let! s := get in
  put_container p (mk_container (match s.(containers) !! p with Some c => c.(vmm_root) | None => ∅ end) items 0).

Definition vmm_init (vmm_level : vmm_level_t) (vmm_info : Z) : M vmm_state unit :=
  let! s := get in
  let! i := get_info vmm_info in
  let root_table_hh := if vmm_info =? 0 then s.(vmm_vm).(kernel_root) else i.(root_table_hhdm) in
  let data := align_value_to_page
    (u64 (s.(vmm_vm).(hhdm_base) + s.(vmm_vm).(vm_memory_size) + VM_KERNEL_MEMORY_PADDING)) in
  let eod := u64 (s.(global_container_root) + VMM_RESERVED_SPACE_SIZE) in
  let space :=
    match vmm_level with
    | VMM_LEVEL_SUPERVISOR => u64 (data + VMM_RESERVED_SPACE_SIZE + VM_KERNEL_MEMORY_PADDING)
    | VMM_LEVEL_USER => VM_KERNEL_MEMORY_PADDING
    end in
  do! update_info vmm_info (fun i =>
        with_cursor items_per_page 0 space (with_space data space space data eod i)) in
  let! vmm_root_phys := in_vm (in_frames alloc_frame) in
  if vmm_root_phys =? 0 then ret tt
  else
    do! in_vm (map_phys_to_virt_addr_hh vmm_root_phys data (Z.lor VMM_FLAGS_PRESENT VMM_FLAGS_WRITE_ENABLE) root_table_hh) in
    do! init_container data items_per_page in
    update_info vmm_info (with_containers 1 data).

(** The part of [vmm_alloc_at] that adds a container when the current one is full;
    a [Fatal] log line stops the kernel. *)
Definition vmm_new_container (vmm_info : Z) : M vmm_state unit :=
  let! i := get_info vmm_info in
  let! new_container_phys_address := in_vm (in_frames alloc_frame) in
  if negb (new_container_phys_address =? 0) then
    let new_container :=
      align_value_to_page (u64 (i.(vmm_cur_container) + sizeof_VmmContainer + PAGE_SIZE_IN_BYTES)) in
    do! in_vm (map_phys_to_virt_addr_hh new_container_phys_address new_container
                 (Z.lor VMM_FLAGS_PRESENT VMM_FLAGS_WRITE_ENABLE) i.(root_table_hhdm)) in
    do! update_info vmm_info (with_index 0) in
    do! init_container new_container i.(vmm_items_per_page) in
    let! c := get_container i.(vmm_cur_container) in
    do! put_container i.(vmm_cur_container) (mk_container c.(vmm_root) c.(vmm_items_available) new_container) in
    update_info vmm_info (with_containers (u64 (i.(vmm_number_of_containers) + 1)) new_container)
  else throw Halted.

(** The loop that backs an area with frames. *)
Definition vmm_map_pages (address arch_flags root required_pages : Z) : M (vm_state F) unit :=
  for_upto required_pages (fun k =>
    let! frame := in_frames alloc_frame in
    do! map_phys_to_virt_addr_hh frame (u64 (address + k * PAGE_SIZE_IN_BYTES))
          (Z.lor (Z.lor arch_flags VMM_FLAGS_PRESENT) VMM_FLAGS_WRITE_ENABLE) root in
    ret tt).

Definition vmm_alloc_at (base_address size flags vmm_info : Z) : M vmm_state Z :=
  if size =? 0 then ret 0
  else
    let! i0 := get_info vmm_info in
    do! (if i0.(vmm_items_per_page) <=? i0.(vmm_cur_index) then vmm_new_container vmm_info else ret tt) in
    let new_size := align_value_to_page size in
    let! i := get_info vmm_info in
    let! address_to_return :=
      if negb (base_address =? 0) && (i.(next_available_address) <? base_address) then
        let! aligned := lift_opt DivByZero (is_address_aligned base_address PAGE_SIZE_IN_BYTES) in
        if negb aligned then throw Halted
        else do! update_info vmm_info (with_next_address base_address) in ret base_address
      else ret i.(next_available_address) in
    let! c := get_container i.(vmm_cur_container) in
    do! put_container i.(vmm_cur_container)
          (mk_container (<[i.(vmm_cur_index) := mk_item address_to_return new_size flags]> c.(vmm_root))
             (u64 (c.(vmm_items_available) - 1)) c.(container_next)) in
    do! update_info vmm_info (fun i => with_next_address (u64 (i.(next_available_address) + new_size)) i) in
    let flags := if is_address_higher_half address_to_return then flags else Z.lor flags VMM_FLAGS_USER_LEVEL in
    do! (if negb (is_address_only flags)
         then in_vm (vmm_map_pages address_to_return (vm_parse_flags flags) i.(root_table_hhdm)
                       (get_number_of_pages_from_size size))
         else ret tt) in
    do! update_info vmm_info (fun i => with_index (u64 (i.(vmm_cur_index) + 1)) i) in
    if is_address_stack flags then ret (u64 (address_to_return + THREAD_DEFAULT_STACK_SIZE))
    else ret address_to_return.

(** [vmm_alloc]; the interface the heap uses. *)
Definition vmm_alloc_any (size flags vmm_info : Z) : M vmm_state Z := vmm_alloc_at 0 size flags vmm_info.

#[export] Instance vmm_heap_pages : VmmAlloc vmm_state := vmm_alloc_any.

(** The search of [vmm_free] for the container of the address: the last one whose
    first item starts below it, the one before the place the search stopped, and
    that place. *)
Fixpoint vmm_find_container (fuel : nat) (address selected prev_container found : Z) : M vmm_state (Z * Z * Z) :=
  match fuel with
  | O => diverge
  | Datatypes.S fuel' =>
      if selected =? 0 then ret (found, prev_container, selected)
      else
        let! c := get_container selected in
        let! first := lift_opt NoValue (c.(vmm_root) !! 0) in
        if first.(base) <? address then vmm_find_container fuel' address c.(container_next) selected selected
        else ret (found, prev_container, selected)
  end.

(** The search for the item; [n] are left. An item nothing has written has no value. *)
Fixpoint vmm_find_item (n : nat) (index address : Z) (c : VmmContainer) : M vmm_state bool :=
  match n with
  | O => ret false
  | Datatypes.S n' =>
      let! item := lift_opt NoValue (c.(vmm_root) !! index) in
      if item.(base) =? address then ret true else vmm_find_item n' (index + 1) address c
  end.

(** [vmm_free]. The log line after the first loop reads through the container found,
    so that finding none is a dereference of NULL. *)
Definition vmm_free (address : Z) (is_stack : bool) (vmm_info : Z) : M vmm_state unit :=
  if address =? 0 then ret tt
  else
    let! i := get_info vmm_info in
    let! s := get in
    if i.(vmm_items_per_page) <=? 0 then ret tt
    else
      let! r := vmm_find_container (Datatypes.S (Datatypes.S (stdpp.base.size s.(containers)))) address
                  i.(vmm_container_root) i.(vmm_container_root) 0 in
      let '(found, prev_container, selected) := r in
      let! c := get_container found in
      let address := if is_stack then u64 (address - THREAD_DEFAULT_STACK_SIZE) else address in
      let! hit := vmm_find_item (Z.to_nat i.(vmm_items_per_page)) 0 address c in
      let! cur := get_container i.(vmm_cur_container) in
      do! (if hit then put_container i.(vmm_cur_container)
                         (mk_container cur.(vmm_root) (u64 (cur.(vmm_items_available) + 1)) cur.(container_next))
           else ret tt) in
      let! cur := get_container i.(vmm_cur_container) in
      if cur.(vmm_items_available) =? i.(vmm_items_per_page) then
        if i.(vmm_number_of_containers) =? 1 then update_info vmm_info (with_index 0)
        else
          do! update_info vmm_info (with_containers (u64 (i.(vmm_number_of_containers) - 1)) i.(vmm_cur_container)) in
          let! p := get_container prev_container in
          let! sel := get_container selected in
          put_container prev_container (mk_container p.(vmm_root) p.(vmm_items_available) sel.(container_next))
      else ret tt.

Definition check_virt_address_status (virtual_address : Z) : Z := 0.
End Vmm.
Arguments vmm_state F : clear implicits.

(** ** Correctness *)

Section Correctness.
Context `{PageConfig} {F : Type} `{FrameSource F} `{!FrameSourceLaws F}.
Implicit Types (s : vmm_state F) (R : Z).

Lemma in_vm_run {A} (m : M (vm_state F) A) s a v :
  m s.(vmm_vm) = Ret (a, v) -> in_vm m s = Ret (a, set_vmm_vm v s).
Proof. unfold in_vm, zoom. by intros ->. Qed.

Lemma frame_run f a f' v : alloc_frame f = Ret (a, f') -> v.(frames) = f ->
  in_frames alloc_frame v = Ret (a, set_frames f' v).
Proof. intros Hf <-. unfold in_frames, zoom. by rewrite Hf. Qed.

(** A frame taken out of the source belongs to nobody. *)
Lemma vm_ok_alloc taken R v a f : vm_ok taken R v -> alloc_frame v.(frames) = Ret (a, f) -> a <> 0 ->
  a mod 2 ^ 12 = 0 /\ 0 < a /\ a + PAGE_SIZE_IN_BYTES <= v.(vm_memory_size) /\ a ∉ taken /\ vm_ok ({[a]} ∪ taken) R (set_frames f v).
Proof.
  intros [Hb Hl Hw Ht Hf] Ha Ha0. destruct (fs_alloc _ _ _ _ _ Hf Ha Ha0) as (? & ? & ? & ? & ?).
  split_and!; [done..|]. constructor; try done. apply (tree_ok_mono _ _ taken); [set_solver|done].
Qed.

(** The flags of a page the manager backs with a frame. *)
Definition page_flags (arch_flags : Z) : Z := Z.lor (Z.lor arch_flags VMM_FLAGS_PRESENT) VMM_FLAGS_WRITE_ENABLE.

Lemma page_flags_present x : Z.land (page_flags x) PRESENT_BIT <> 0.
Proof.
  intros E. apply (f_equal (fun z => Z.testbit z 0)) in E. unfold page_flags in E.
  rewrite Z.land_spec, !Z.lor_spec in E. change (Z.testbit PRESENT_BIT 0) with true in E.
  change (Z.testbit VMM_FLAGS_PRESENT 0) with true in E. rewrite orb_true_r in E. discriminate E.
Qed.

(** The [k] pages from [address] on are mapped to the frames [fr], which were free
    before and are all different, and no other page is. *)
Record pages_mapped (v v' : vm_state F) (taken taken' : gset Z) R (address flags k : Z) (fr : list Z) : Prop := {
  pm_state : exists m f, v' = vm_with m f v;
  pm_ok : vm_ok taken' R v';
  pm_taken : taken ⊆ taken';
  pm_length : Z.of_nat (length fr) = k;
  pm_distinct : NoDup fr;
  pm_fresh : forall a, a ∈ fr -> a ∈ taken' /\ a ∉ taken;
  pm_mapping : forall (j : nat) a, fr !! j = Some a ->
    mapping v'.(phys) R (address + Z.of_nat j * PAGE_SIZE_IN_BYTES) =
      Some (leaf_entry a (address + Z.of_nat j * PAGE_SIZE_IN_BYTES) flags);
  pm_other : forall u, PML4_ENTRY u <> 510 ->
    (forall j, 0 <= j < k -> ~ same_page u (address + j * PAGE_SIZE_IN_BYTES)) ->
    mapping v'.(phys) R u = mapping v.(phys) R u;
  pm_pages : only_pages taken' v.(phys) v'.(phys);
  pm_root : forall i, 0 <= i < 512 -> (forall j, 0 <= j < k -> i <> PML4_ENTRY (address + j * PAGE_SIZE_IN_BYTES)) ->
    v'.(phys) !! (R + 8 * i) = v.(phys) !! (R + 8 * i);
}.

Section MapPages.
Context (v0 : vm_state F) (taken : gset Z) (R address arch_flags root n : Z).
Let P := PAGE_SIZE_IN_BYTES.
Hypothesis Hok : vm_ok taken R v0.
Hypothesis Hroot : root_pointer v0 R root.
Hypothesis Hn : 0 <= n <= 2 ^ page_bits.
Hypothesis Haddr : 0 <= address /\ address + n * P <= 2 ^ 64.
Hypothesis Hfree : forall j, 0 <= j < n ->
  PML4_ENTRY (address + j * P) <> 510 /\ mapping v0.(phys) R (address + j * P) = None.
Hypothesis Hsup : supplies (4 * Z.to_nat n) v0.(frames).

(** One more page. *)
Local Lemma map_page_step v taken1 fr k (m : nat) :
  pages_mapped v0 v taken taken1 R address (page_flags arch_flags) k fr ->
  0 <= k < n -> supplies (4 + m) v.(frames) ->
  exists v' taken2 a,
    (let! frame := in_frames alloc_frame in
     do! map_phys_to_virt_addr_hh frame (u64 (address + k * P))
           (Z.lor (Z.lor arch_flags VMM_FLAGS_PRESENT) VMM_FLAGS_WRITE_ENABLE) root in
     ret tt) v = Ret (tt, v') /\
    pages_mapped v0 v' taken taken2 R address (page_flags arch_flags) (k + 1) (fr ++ [a]) /\
    supplies m v'.(frames).
Proof.
  intros [(m0 & f0 & Ev) Hok1 Hsub Hlen Hdis Hfresh Hmap Hother Ho Hkr] Hk [_ (a & f & Ha & Ha0 & Hs)].
  pose proof page_size_bounds as HP. fold P in HP.
  destruct (vm_ok_alloc taken1 R v a f Hok1 Ha Ha0) as (Haa & Hap & _ & Hat & Hokv1). set (v1 := set_frames f v) in *.
  rewrite (bind_run _ _ _ a v1) by by apply (frame_run v.(frames)).
  destruct (Hfree k Hk) as [Hv Hnone].
  rewrite u64_small by nia.
  assert (mapping v1.(phys) R (address + k * P) = None) as Hnone1.
  { change (phys v1) with (phys v). rewrite Hother; [done|done|]. intros j Hj Hsame.
    apply (range_pages_differ address k j) in Hsame; lia. }
  destruct (map_phys_to_virt_addr_hh_run ({[a]} ∪ taken1) R v1 root a (address + k * P) (page_flags arch_flags) m Hokv1 Hv)
    as (v' & taken2 & m' & f' & Ev' & Hok2 & Hsup2 & Hsub2 & Hrun & Hmap2 & Ho2 & Hkr2);
    [unfold v1; rewrite Ev; exact Hroot|exact Hs|apply page_flags_present|lia|exact Haa|].
  rewrite Hnone1 in Hrun. rewrite Hnone1 in Hmap2.
  rewrite (bind_run _ _ _ _ _ Hrun).
  exists v', taken2, a. split; [done|]. split; [|by rewrite Ev'].
  assert (forall j, 0 <= j < n -> j <> k -> mapping v'.(phys) R (address + j * P) = mapping v.(phys) R (address + j * P)) as Hkeep.
  { intros j Hj Hjk. rewrite Hmap2 by apply Hfree, Hj. rewrite decide_False; [done|].
    intros Hsame. apply range_pages_differ in Hsame; lia. }
  constructor.
  - rewrite Ev'. unfold v1. rewrite Ev. by exists m', f'.
  - done.
  - set_solver.
  - rewrite length_app. simpl. lia.
  - apply NoDup_app. split; [done|]. split; [|apply NoDup_singleton].
    intros b Hb ->%list_elem_of_singleton. apply Hat. by apply Hfresh.
  - intros b [Hb| ->%list_elem_of_singleton]%elem_of_app; [destruct (Hfresh b Hb)|]; set_solver.
  - intros j b Hj. apply lookup_app_Some in Hj as [Hj|[Hj Hb]].
    + pose proof (lookup_lt_Some _ _ _ Hj). fold P in Hmap |- *. rewrite Hkeep by lia. by apply Hmap.
    + apply list_lookup_singleton_Some in Hb as [Hj0 <-]. assert (Z.of_nat j = k) as -> by lia.
      fold P. rewrite Hmap2 by done. by rewrite decide_True.
  - intros u Hu Hno. rewrite Hmap2 by done. rewrite decide_False by (apply Hno; lia).
    change (phys v1) with (phys v). apply Hother; [done|]. intros j Hj. apply Hno. lia.
  - apply (only_pages_trans _ _ v.(phys)); [|done]. apply (only_pages_mono taken1); [set_solver|done].
  - intros i Hi Hno. fold P in Hkr, Hno. rewrite Hkr2 by (done || (apply Hno; lia)). apply Hkr; [done|]. intros j Hj. apply Hno. lia.
Qed.

Lemma vmm_map_pages_run :
  exists v' taken' fr, vmm_map_pages address arch_flags root n v0 = Ret (tt, v') /\
    pages_mapped v0 v' taken taken' R address (page_flags arch_flags) n fr.
Proof.
  assert (wp (vmm_map_pages address arch_flags root n) (fun _ t => exists taken' fr,
    pages_mapped v0 t taken taken' R address (page_flags arch_flags) n fr) v0) as Hwp.
  2:{ apply wp_run in Hwp as ([] & t & Hrun & taken' & fr & Hpm). by exists t, taken', fr. }
  unfold vmm_map_pages, for_upto. apply (wp_for_from (fun k t => exists taken' fr,
    pages_mapped v0 t taken taken' R address (page_flags arch_flags) k fr /\
    supplies (4 * Z.to_nat (n - k)) t.(frames))).
  - exists taken, []. split; [|by rewrite Z.sub_0_r].
    constructor; try done.
    + exists v0.(phys), v0.(frames). by destruct v0.
    + constructor.
    + intros a Ha. by apply elem_of_nil in Ha.
  - intros k v Hk (taken1 & fr & Hpm & Hs).
    replace (4 * Z.to_nat (n - k))%nat with (4 + 4 * Z.to_nat (n - (k + 1)))%nat in Hs by lia.
    destruct (map_page_step v taken1 fr k _ Hpm ltac:(lia) Hs) as (v' & taken2 & a & Hrun & Hpm' & Hs').
    apply wp_run. eexists _, _. split; [exact Hrun|]. by exists taken2, (fr ++ [a]).
  - intros t (taken1 & fr & Hpm & _). rewrite Z2Nat.id, Z.add_0_l in Hpm by lia. by exists taken1, fr.
Qed.
End MapPages.

(** The address space behind a pointer, and the state with another one there. *)
Definition info_of s (p : Z) : option VmmInfo :=
  if p =? 0 then Some s.(vmm_kernel) else s.(task_infos) !! p.
Definition with_info (p : Z) (i : VmmInfo) s : vmm_state F :=
  if p =? 0 then mk_vmm s.(vmm_vm) s.(containers) i s.(task_infos) s.(global_container_root)
  else mk_vmm s.(vmm_vm) s.(containers) s.(vmm_kernel) (<[p := i]> s.(task_infos)) s.(global_container_root).

Lemma get_info_run s p i : info_of s p = Some i -> get_info p s = Ret (i, s).
Proof.
  unfold info_of, get_info, bind, get. destruct (p =? 0); [by intros [= <-]|]. by intros ->.
Qed.

Lemma update_info_run s p i f : info_of s p = Some i -> update_info p f s = Ret (tt, with_info p (f i) s).
Proof. intros Hi. unfold update_info. rewrite (bind_run _ _ _ _ _ (get_info_run s p i Hi)). unfold put_info, modify, with_info. by destruct (p =? 0). Qed.

Lemma info_of_with s p i : info_of (with_info p i s) p = Some i.
Proof. unfold info_of, with_info. destruct (p =? 0); [done|]. apply lookup_insert_eq. Qed.

Lemma with_info_twice s p i j : with_info p i (with_info p j s) = with_info p i s.
Proof. unfold with_info. destruct (p =? 0); [done|]. simpl. by rewrite insert_insert_eq. Qed.

Lemma with_info_same s p i : info_of s p = Some i -> with_info p i s = s.
Proof.
  unfold info_of, with_info. destruct (p =? 0); [intros [= <-]; by destruct s|].
  intros Hi. rewrite insert_id by done. by destruct s.
Qed.

Lemma get_container_run s p c : p <> 0 -> s.(containers) !! p = Some c -> get_container p s = Ret (c, s).
Proof. intros Hp Hc. unfold get_container, bind, get. apply Z.eqb_neq in Hp. by rewrite Hp, Hc. Qed.

Lemma put_container_run s p c : p <> 0 -> put_container p c s = Ret (tt, set_containers (<[p := c]> s.(containers)) s).
Proof. intros Hp. unfold put_container. apply Z.eqb_neq in Hp. by rewrite Hp. Qed.

Lemma containers_with_info s p i : (with_info p i s).(containers) = s.(containers).
Proof. unfold with_info. by destruct (p =? 0). Qed.
Lemma vm_with_info s p i : (with_info p i s).(vmm_vm) = s.(vmm_vm).
Proof. unfold with_info. by destruct (p =? 0). Qed.
Lemma info_of_set_containers s p c : info_of (set_containers c s) p = info_of s p.
Proof. done. Qed.
Lemma info_of_set_vm s p v : info_of (set_vmm_vm v s) p = info_of s p.
Proof. done. Qed.
Lemma set_containers_with_info s p i c : set_containers c (with_info p i s) = with_info p i (set_containers c s).
Proof. unfold with_info. by destruct (p =? 0). Qed.
Lemma set_vm_with_info s p i v : set_vmm_vm v (with_info p i s) = with_info p i (set_vmm_vm v s).
Proof. unfold with_info. by destruct (p =? 0). Qed.

(** *** Setting up *)

(** Where the containers of an address space start, and its areas. *)
Definition data_start (v : vm_state F) : Z :=
  align_value_to_page (u64 (v.(hhdm_base) + v.(vm_memory_size) + VM_KERNEL_MEMORY_PADDING)).
Definition space_start (level : vmm_level_t) (data : Z) : Z :=
  match level with
  | VMM_LEVEL_SUPERVISOR => u64 (data + VMM_RESERVED_SPACE_SIZE + VM_KERNEL_MEMORY_PADDING)
  | VMM_LEVEL_USER => VM_KERNEL_MEMORY_PADDING
  end.
Definition init_info (level : vmm_level_t) (data eod : Z) (i : VmmInfo) : VmmInfo :=
  let space := space_start level data in
  with_containers 1 data (with_cursor items_per_page 0 space (with_space data space space data eod i)).
(** The container set up, on the items that are there. *)
Definition reset_container (data : Z) (c : gmap Z VmmContainer) : gmap Z VmmContainer :=
  <[data := mk_container (match c !! data with Some x => x.(vmm_root) | None => ∅ end) items_per_page 0]> c.

(** The page of the containers is backed with a fresh frame [a]. *)
Record set_up (v v' : vm_state F) (taken taken' : gset Z) R (data a : Z) (n : nat) : Prop := {
  su_state : exists m f, v' = vm_with m f v;
  su_ok : vm_ok taken' R v';
  su_taken : taken ⊆ taken';
  su_fresh : a ∈ taken' /\ a ∉ taken;
  su_supplies : supplies n v'.(frames);
  su_pages : only_pages taken' v.(phys) v'.(phys);
  su_mapping : forall u, PML4_ENTRY u <> 510 -> mapping v'.(phys) R u =
    match mapping v.(phys) R data with
    | None => if decide (same_page u data) then Some (leaf_entry a data (Z.lor VMM_FLAGS_PRESENT VMM_FLAGS_WRITE_ENABLE))
              else mapping v.(phys) R u
    | Some _ => mapping v.(phys) R u
    end;
}.

Lemma vmm_init_run s level p i taken R (n : nat) :
  let v := s.(vmm_vm) in
  let data := data_start v in
  info_of s p = Some i -> data <> 0 -> PML4_ENTRY data <> 510 -> vm_ok taken R v ->
  root_pointer v R (if p =? 0 then v.(kernel_root) else i.(root_table_hhdm)) -> supplies (4 + n) v.(frames) ->
  exists v' taken' a, set_up v v' taken taken' R data a n /\
    vmm_init level p s = Ret (tt, with_info p (init_info level data (u64 (s.(global_container_root) + VMM_RESERVED_SPACE_SIZE)) i)
      (set_containers (reset_container data s.(containers)) (set_vmm_vm v' s))).
Proof.
  intros v data Hi Hd0 Hd Hok Hroot [_ (a & f & Ha & Ha0 & Hs)].
  destruct (vm_ok_alloc taken R v a f Hok Ha Ha0) as (Haa & Hap & _ & Hat & Hok1). set (v1 := set_frames f v) in *.
  destruct (map_phys_to_virt_addr_hh_run ({[a]} ∪ taken) R v1 (if p =? 0 then v.(kernel_root) else i.(root_table_hhdm)) a data
    (Z.lor VMM_FLAGS_PRESENT VMM_FLAGS_WRITE_ENABLE) n Hok1 Hd Hroot Hs) as (v' & taken' & m & f' & Ev' & Hok' & Hs' & Hsub & Hrun & Hmap & Ho & _);
    [vm_compute; discriminate|lia|exact Haa|].
  exists v', taken', a. split.
  - constructor; try done; [by exists m, f'|set_solver|split; set_solver|by rewrite Ev'].
  - unfold vmm_init. rewrite (bind_run get _ s s s eq_refl), (bind_run _ _ _ _ _ (get_info_run s p i Hi)). cbv zeta.
    fold v. fold (data_start v). fold data. change (match level with VMM_LEVEL_USER => VM_KERNEL_MEMORY_PADDING | VMM_LEVEL_SUPERVISOR => _ end)
      with (space_start level data).
    rewrite (bind_run _ _ _ _ _ (update_info_run s p i _ Hi)). set (s1 := with_info p _ s).
    assert (s1.(vmm_vm) = v) as Ev by apply vm_with_info.
    rewrite (bind_run _ _ s1 a (set_vmm_vm v1 s1)) by (apply in_vm_run; rewrite Ev; by apply (frame_run v.(frames))).
    destruct (Z.eqb_spec a 0); [done|].
    rewrite (bind_run _ _ (set_vmm_vm v1 s1) _ (set_vmm_vm v' s1)) by exact (in_vm_run _ (set_vmm_vm v1 s1) _ v' Hrun).
    set (s2 := set_vmm_vm v' s1). assert (s2.(containers) = s.(containers)) as Ec by (unfold s2, s1; simpl; apply containers_with_info).
    rewrite (bind_run _ _ s2 tt (set_containers (reset_container data s.(containers)) s2)).
    2:{ unfold init_container. rewrite (bind_run get _ s2 s2 s2 eq_refl), put_container_run by done. by rewrite Ec. }
    set (s3 := set_containers _ s2). assert (info_of s3 p = Some (with_cursor items_per_page 0 (space_start level data)
      (with_space data (space_start level data) (space_start level data) data (u64 (global_container_root s + VMM_RESERVED_SPACE_SIZE)) i))) as Hi3
      by exact (info_of_with s p _).
    rewrite (update_info_run s3 p _ _ Hi3). unfold s3, s2, s1.
    by rewrite set_vm_with_info, set_containers_with_info, with_info_twice.
Qed.

(** The address [vmm_alloc_at] gives an area. *)
Definition area_address (i : VmmInfo) (base_address : Z) : Z :=
  if negb (base_address =? 0) && (i.(next_available_address) <? base_address) then base_address
  else i.(next_available_address).
(** The flags the area is mapped with: lower-half addresses belong to user space. *)
Definition area_flags (address flags : Z) : Z :=
  if is_address_higher_half address then flags else Z.lor flags VMM_FLAGS_USER_LEVEL.

(** The bookkeeping of an allocation: the item in the current container, the index
    and the next address. *)
Definition booked (p : Z) (i : VmmInfo) (c : VmmContainer) (address size flags : Z) s : vmm_state F :=
  with_info p (with_index (u64 (i.(vmm_cur_index) + 1)) (with_next_address (u64 (address + align_value_to_page size)) i))
    (set_containers
      (<[i.(vmm_cur_container) :=
           mk_container (<[i.(vmm_cur_index) := mk_item address (align_value_to_page size) flags]> c.(vmm_root))
             (u64 (c.(vmm_items_available) - 1)) c.(container_next)]> s.(containers)) s).

(** The run of [vmm_alloc_at] with room in the current container, given the run of
    the part that maps. *)
Lemma vmm_alloc_at_run s p i c base_address size flags v :
  let r := area_address i base_address in
  let flags' := area_flags r flags in
  info_of s p = Some i -> s.(containers) !! i.(vmm_cur_container) = Some c -> i.(vmm_cur_container) <> 0 ->
  i.(vmm_cur_index) < i.(vmm_items_per_page) -> size <> 0 ->
  (r = base_address -> base_address <> i.(next_available_address) -> base_address mod PAGE_SIZE_IN_BYTES = 0) ->
  (forall t, t.(vmm_vm) = s.(vmm_vm) ->
   (if negb (is_address_only flags')
    then in_vm (vmm_map_pages r (vm_parse_flags flags') i.(root_table_hhdm) (get_number_of_pages_from_size size))
    else ret tt) t = Ret (tt, set_vmm_vm v t)) ->
  vmm_alloc_at base_address size flags p s =
    Ret (if is_address_stack flags' then u64 (r + THREAD_DEFAULT_STACK_SIZE) else r,
         set_vmm_vm v (booked p i c r size flags s)).
Proof.
  intros r flags' Hi Hc Hc0 Hroom Hsize Halign Hmap. pose proof page_size_bounds.
  unfold vmm_alloc_at. destruct (Z.eqb_spec size 0); [done|].
  rewrite (bind_run _ _ _ _ _ (get_info_run s p i Hi)).
  destruct (Z.leb_spec i.(vmm_items_per_page) i.(vmm_cur_index)); [lia|].
  rewrite (bind_run (ret tt) _ s tt s eq_refl), (bind_run _ _ _ _ _ (get_info_run s p i Hi)).
  set (s1 := if negb (base_address =? 0) && (i.(next_available_address) <? base_address)
             then with_info p (with_next_address base_address i) s else s).
  assert (info_of s1 p = Some (with_next_address r i)) as Hi1.
  { unfold s1, r, area_address. destruct (_ && _); [by apply info_of_with|]. rewrite Hi. by destruct i. }
  erewrite (bind_run _ _ s r s1).
  2:{ unfold s1. unfold r, area_address in *. destruct (negb (base_address =? 0) && (i.(next_available_address) <? base_address)) eqn:E; [|done].
      zbool. unfold is_address_aligned. destruct (Z.eqb_spec PAGE_SIZE_IN_BYTES 0); [lia|]. simpl lift_opt.
      rewrite (bind_run (ret _) _ s _ s eq_refl). rewrite Halign by lia. cbn [Z.eqb negb].
      by rewrite (bind_run _ _ _ _ _ (update_info_run s p i _ Hi)). }
  assert (s1.(containers) = s.(containers)) as Ec.
  { unfold s1. destruct (_ && _); [apply containers_with_info|done]. }
  assert (s1.(containers) !! i.(vmm_cur_container) = Some c) as Hc1 by by rewrite Ec.
  rewrite (bind_run _ _ _ _ _ (get_container_run s1 _ c Hc0 Hc1)), (bind_run _ _ _ _ _ (put_container_run s1 _ _ Hc0)).
  set (s2 := set_containers _ s1).
  assert (info_of s2 p = Some (with_next_address r i)) as Hi2 by exact Hi1.
  rewrite (bind_run _ _ _ _ _ (update_info_run s2 p _ _ Hi2)). set (s3 := with_info p _ s2).
  assert (s3.(vmm_vm) = s.(vmm_vm)) as Ev.
  { unfold s3. rewrite vm_with_info. unfold s2. simpl. unfold s1. destruct (_ && _); [apply vm_with_info|done]. }
  fold (area_flags r flags). fold flags'.
  rewrite (bind_run _ _ _ _ _ (Hmap s3 Ev)).
  assert (info_of (set_vmm_vm v s3) p = Some (with_next_address (u64 (r + align_value_to_page size)) i)) as Hi3
    by (rewrite info_of_set_vm; apply info_of_with).
  rewrite (bind_run _ _ _ _ _ (update_info_run (set_vmm_vm v s3) p _ _ Hi3)).
  assert (forall j, with_info p j (set_vmm_vm v s3) = set_vmm_vm v (with_info p j (set_containers
    (<[i.(vmm_cur_container) :=
         mk_container (<[i.(vmm_cur_index) := mk_item r (align_value_to_page size) flags]> c.(vmm_root))
           (u64 (c.(vmm_items_available) - 1)) c.(container_next)]> s.(containers)) s))) as Es.
  { intros j. unfold s3. rewrite set_vm_with_info, with_info_twice. rewrite set_vm_with_info. unfold s2. rewrite Ec.
    unfold s1. destruct (_ && _); [|done]. by rewrite set_containers_with_info, set_vm_with_info, with_info_twice. }
  rewrite Es. by destruct (is_address_stack flags').
Qed.

(** The same with the run of the part that maps. *)
Lemma vmm_alloc_at_maps s p i c base_address size flags taken R :
  let r := area_address i base_address in
  let flags' := area_flags r flags in
  let n := get_number_of_pages_from_size size in
  info_of s p = Some i -> s.(containers) !! i.(vmm_cur_container) = Some c -> i.(vmm_cur_container) <> 0 ->
  0 <= i.(vmm_cur_index) < i.(vmm_items_per_page) -> i.(vmm_items_per_page) < 2 ^ 63 ->
  0 <= i.(next_available_address) -> 0 < size -> r + n * PAGE_SIZE_IN_BYTES < 2 ^ 64 -> size <= 2 ^ 64 - PAGE_SIZE_IN_BYTES ->
  base_address mod PAGE_SIZE_IN_BYTES = 0 ->
  (is_address_only flags' = false ->
     vm_ok taken R s.(vmm_vm) /\ root_pointer s.(vmm_vm) R i.(root_table_hhdm) /\ n <= 2 ^ page_bits /\
     supplies (4 * Z.to_nat n) s.(vmm_vm).(frames) /\
     forall j, 0 <= j < n -> PML4_ENTRY (r + j * PAGE_SIZE_IN_BYTES) <> 510 /\
       mapping s.(vmm_vm).(phys) R (r + j * PAGE_SIZE_IN_BYTES) = None) ->
  exists s' i' v, vmm_alloc_at base_address size flags p s =
      Ret (if is_address_stack flags' then u64 (r + THREAD_DEFAULT_STACK_SIZE) else r, s') /\
    s' = set_vmm_vm v (booked p i c r size flags s) /\ info_of s' p = Some i' /\
    i.(next_available_address) <= r /\ size <= n * PAGE_SIZE_IN_BYTES /\
    i'.(next_available_address) = r + n * PAGE_SIZE_IN_BYTES /\ i'.(vmm_cur_index) = i.(vmm_cur_index) + 1 /\
    (if is_address_only flags' then v = s.(vmm_vm)
     else exists taken' fr, pages_mapped s.(vmm_vm) v taken taken' R r (page_flags (vm_parse_flags flags')) n fr).
Proof.
  intros r flags' n Hi Hc Hc0 Hroom Hitems Hnext Hsize Hend Hbig Hbase Hmaps. pose proof page_size_bounds.
  assert (0 <= size <= 2 ^ 64 - PAGE_SIZE_IN_BYTES) as Hs by lia.
  pose proof (get_number_of_pages_no_wrap size Hs) as Hn. fold n in Hn.
  pose proof (align_value_to_page_no_wrap size Hs) as Hal. pose proof (round_up_spec size) as [[Hup _] _].
  assert (i.(next_available_address) <= r) as Hr.
  { unfold r, area_address. destruct (_ && _) eqn:E; [zbool; lia|lia]. }
  assert (exists v, (forall t, t.(vmm_vm) = s.(vmm_vm) ->
      (if negb (is_address_only flags')
       then in_vm (vmm_map_pages r (vm_parse_flags flags') i.(root_table_hhdm) n) else ret tt) t = Ret (tt, set_vmm_vm v t)) /\
    (if is_address_only flags' then v = s.(vmm_vm)
     else exists taken' fr, pages_mapped s.(vmm_vm) v taken taken' R r (page_flags (vm_parse_flags flags')) n fr)) as (v & Hmap & Hres).
  { destruct (is_address_only flags') eqn:Honly; cbn [negb].
    - exists s.(vmm_vm). split; [|done]. intros t <-. by destruct t.
    - destruct (Hmaps eq_refl) as (Hok & Hroot & Hnb & Hsup & Hfree).
      destruct (vmm_map_pages_run s.(vmm_vm) taken R r (vm_parse_flags flags') i.(root_table_hhdm) n Hok Hroot)
        as (v & taken' & fr & Hrun & Hpm); [nia|lia|done|done|].
      exists v. split; [|by exists taken', fr]. intros t Ht. apply in_vm_run. by rewrite Ht. }
  pose proof (vmm_alloc_at_run s p i c base_address size flags v Hi Hc Hc0) as Hrun. cbv zeta in Hrun. fold r flags' n in Hrun.
  rewrite Hrun; [|lia|lia|done|done].
  eexists _, _, v. split; [done|]. split; [done|]. rewrite info_of_set_vm. unfold booked at 1. split; [apply info_of_with|].
  split; [done|]. split; [lia|]. simpl. split; [rewrite Hal, <- Hn, u64_small by nia; done|].
  split; [rewrite u64_small by lia; done|done].
Qed.

(** C9: [vmm_alloc_at], with room in the current container: it returns the next
    address of the space, or the base address asked for when that is higher, plus
    the stack size for a stack; it moves the next address past the pages of the
    area, so that areas never overlap, and records the area. When the area is more
    than a reservation every one of its pages is mapped, to frames that were free
    and are pairwise different, and no other page is; a reservation leaves the page
    tables alone. *)
Theorem vmm_alloc_at_spec s p i c base_address size flags taken R :
  let r := area_address i base_address in
  let flags' := area_flags r flags in
  let n := get_number_of_pages_from_size size in
  info_of s p = Some i -> s.(containers) !! i.(vmm_cur_container) = Some c -> i.(vmm_cur_container) <> 0 ->
  0 <= i.(vmm_cur_index) < i.(vmm_items_per_page) -> i.(vmm_items_per_page) < 2 ^ 63 ->
  0 <= i.(next_available_address) -> 0 < size -> r + n * PAGE_SIZE_IN_BYTES < 2 ^ 64 -> size <= 2 ^ 64 - PAGE_SIZE_IN_BYTES ->
  base_address mod PAGE_SIZE_IN_BYTES = 0 ->
  (is_address_only flags' = false ->
     vm_ok taken R s.(vmm_vm) /\ root_pointer s.(vmm_vm) R i.(root_table_hhdm) /\ n <= 2 ^ page_bits /\
     supplies (4 * Z.to_nat n) s.(vmm_vm).(frames) /\
     forall j, 0 <= j < n -> PML4_ENTRY (r + j * PAGE_SIZE_IN_BYTES) <> 510 /\
       mapping s.(vmm_vm).(phys) R (r + j * PAGE_SIZE_IN_BYTES) = None) ->
  exists s' i' v, vmm_alloc_at base_address size flags p s =
      Ret (if is_address_stack flags' then u64 (r + THREAD_DEFAULT_STACK_SIZE) else r, s') /\
    s' = set_vmm_vm v (booked p i c r size flags s) /\ info_of s' p = Some i' /\
    i.(next_available_address) <= r /\ size <= n * PAGE_SIZE_IN_BYTES /\
    i'.(next_available_address) = r + n * PAGE_SIZE_IN_BYTES /\ i'.(vmm_cur_index) = i.(vmm_cur_index) + 1 /\
    (if is_address_only flags' then v = s.(vmm_vm)
     else exists taken' fr, pages_mapped s.(vmm_vm) v taken taken' R r (page_flags (vm_parse_flags flags')) n fr).
Proof. apply vmm_alloc_at_maps. Qed.

(** *** Freeing *)

(** The search for an item stops at the first one with the address. *)
Lemma vmm_find_item_run s a c m : forall (n : nat) k,
  (m < n)%nat ->
  (forall j, k <= j < k + Z.of_nat m -> exists it, c.(vmm_root) !! j = Some it /\ it.(base) <> a) ->
  (exists it, c.(vmm_root) !! (k + Z.of_nat m) = Some it /\ it.(base) = a) ->
  vmm_find_item n k a c s = Ret (true, s).
Proof.
  induction m as [|m IH]; intros [|n] k Hn Hno Hhit; try lia; cbn [vmm_find_item].
  - destruct Hhit as (it & Hit & <-). rewrite Z.add_0_r in Hit. rewrite Hit. cbn [lift_opt].
    rewrite (bind_run (ret it) _ s it s eq_refl). by rewrite Z.eqb_refl.
  - destruct (Hno k ltac:(lia)) as (it & -> & Hne). cbn [lift_opt].
    rewrite (bind_run (ret it) _ s it s eq_refl). destruct (Z.eqb_spec it.(base) a); [done|].
    apply IH; [lia|intros j Hj; apply Hno; lia|]. by replace (k + 1 + Z.of_nat m) with (k + Z.of_nat (Datatypes.S m)) by lia.
Qed.

(** The search for the container in a space with only one. *)
Lemma vmm_find_container_single s n a r c f :
  r <> 0 -> s.(containers) !! r = Some c -> c.(container_next) = 0 -> c.(vmm_root) !! 0 = Some f ->
  vmm_find_container (Datatypes.S (Datatypes.S n)) a r r 0 s =
    Ret (if f.(base) <? a then (r, r, 0) else (0, r, r), s).
Proof.
  intros Hr Hc Hnext Hf. cbn [vmm_find_container]. destruct (Z.eqb_spec r 0); [done|].
  rewrite (bind_run _ _ _ _ _ (get_container_run s r c Hr Hc)), Hf. cbn [lift_opt].
  rewrite (bind_run (ret f) _ s f s eq_refl), Hnext. by destruct (f.(base) <? a).
Qed.

(** [vmm_free] in an address space with one container. An address that is not
    above the first area dereferences NULL, also when it is the first area's own.
    Any other address given out before is found, and all that changes is the
    container's count of free items, and the index when that count is full again:
    no page is unmapped, no frame is given back, and the item keeps its address. *)
Theorem vmm_free_single s p i c f address (is_stack : bool) (k : Z) it :
  let r := i.(vmm_cur_container) in
  let a := if is_stack then u64 (address - THREAD_DEFAULT_STACK_SIZE) else address in
  let available := u64 (c.(vmm_items_available) + 1) in
  info_of s p = Some i -> r <> 0 -> i.(vmm_container_root) = r -> i.(vmm_number_of_containers) = 1 ->
  s.(containers) !! r = Some c -> c.(container_next) = 0 -> c.(vmm_root) !! 0 = Some f ->
  address <> 0 -> 0 <= k < i.(vmm_items_per_page) ->
  c.(vmm_root) !! k = Some it -> it.(base) = a ->
  (forall j, 0 <= j < k -> exists it, c.(vmm_root) !! j = Some it /\ it.(base) <> a) ->
  vmm_free address is_stack p s =
    if f.(base) <? address then
      Ret (tt, (if available =? i.(vmm_items_per_page) then with_info p (with_index 0 i) else id)
                 (set_containers (<[r := mk_container c.(vmm_root) available c.(container_next)]> s.(containers)) s))
    else Fault NullDeref.
Proof.
  intros r a available Hi Hr Hroot Hnum Hc Hnext Hf Haddr Hk Hit Hbase Hfirst. unfold vmm_free.
  destruct (Z.eqb_spec address 0); [done|]. rewrite (bind_run _ _ _ _ _ (get_info_run s p i Hi)).
  rewrite (bind_run get _ s s s eq_refl). destruct (Z.leb_spec i.(vmm_items_per_page) 0); [lia|].
  rewrite Hroot, (bind_run _ _ _ _ _ (vmm_find_container_single s _ address r c f Hr Hc Hnext Hf)).
  destruct (f.(base) <? address); [|by apply bind_fault].
  rewrite (bind_run _ _ _ _ _ (get_container_run s r c Hr Hc)). fold a.
  assert (vmm_find_item (Z.to_nat i.(vmm_items_per_page)) 0 a c s = Ret (true, s)) as Hfind.
  { apply (vmm_find_item_run s a c (Z.to_nat k)); [lia| |].
    - intros j Hj. apply Hfirst. lia.
    - exists it. rewrite Z2Nat.id, Z.add_0_l by lia. done. }
  rewrite (bind_run _ _ _ _ _ Hfind). fold r. rewrite (bind_run _ _ _ _ _ (get_container_run s r c Hr Hc)).
  rewrite (bind_run _ _ _ _ _ (put_container_run s r _ Hr)). set (s1 := set_containers _ s).
  assert (get_container r s1 = Ret (mk_container c.(vmm_root) available c.(container_next), s1)) as Hget
    by (apply get_container_run; [done|apply lookup_insert_eq]).
  rewrite (bind_run _ _ _ _ _ Hget). cbn [vmm_items_available].
  destruct (available =? i.(vmm_items_per_page)); [|done].
  rewrite Hnum. cbn [Z.eqb]. apply (update_info_run s1 p i). exact Hi.
Qed.
End Correctness.

(** ** Witnesses *)

(** The kernel's address space after [vmm_init], on [sample_vm]: nothing allocated
    yet, and the same one with two areas. *)
Definition sample_info : VmmInfo :=
  mk_info 0xffff8002c0400000 0xffff81c4c0600000 0xffff81c4c0600000 0 0 87380 0 0xffff81c4c0600000 1 0 0xffff8002c0400000 0xffff8002c0400000.
Definition sample_vmm : vmm_state pmm_state :=
  mk_vmm sample_vm {[ 0xffff8002c0400000 := mk_container ∅ 87380 0 ]} sample_info ∅ 0.
Definition two_areas : vmm_state pmm_state :=
  mk_vmm sample_vm
    {[ 0xffff8002c0400000 := mk_container
         {[ 0 := mk_item 0xffff81c4c0600000 0x200000 3; 1 := mk_item 0xffff81c4c0800000 0x200000 3 ]} 87378 0 ]}
    (with_cursor 87380 2 0xffff81c4c0a00000 sample_info) ∅ 0.

Lemma sample_vm_supplies_four : @supplies pmm_state (@pmm_frame_source large_pages) 4 sample_vm.(frames).
Proof.
  simpl. repeat match goal with
  | |- _ /\ _ => split
  | |- exists _ _, _ => eexists _, _; split; [vm_compute; reflexivity|]; split; [done|]
  | |- True => done
  end.
Qed.

Lemma vmm_alloc_at_spec_witness :
  exists s' i', @vmm_alloc_at large_pages pmm_state (@pmm_frame_source large_pages) 0 100 3 0 sample_vmm = Ret (0xffff81c4c0600000, s') /\
    info_of s' 0 = Some i' /\ i'.(next_available_address) = 0xffff81c4c0800000.
Proof.
  destruct (@vmm_alloc_at_spec large_pages pmm_state _ (@pmm_frame_source_laws large_pages) sample_vmm 0 sample_info
    (mk_container ∅ 87380 0) 0 100 3 {[0x200000]} 0x200000) as (s' & i' & v & Hrun & _ & Hi' & _ & _ & Hnext & _);
    [reflexivity|reflexivity|discriminate|simpl; lia|simpl; lia|simpl; lia|lia|vm_compute; reflexivity|vm_compute; discriminate|reflexivity| |].
  - intros _. split; [exact sample_vm_ok|]. split; [reflexivity|]. split; [vm_compute; discriminate|].
    split; [exact sample_vm_supplies_four|]. intros j Hj.
    assert (j = 0) as ->.
    { change (@get_number_of_pages_from_size large_pages 100) with 1 in Hj. lia. }
    split; [vm_compute; discriminate|vm_compute; reflexivity].
  - exists s', i'. split; [exact Hrun|]. split; [exact Hi'|]. rewrite Hnext. reflexivity.
Defined.

Lemma vmm_free_single_witness :
  @vmm_free pmm_state 0xffff81c4c0600000 false 0 two_areas = Fault NullDeref /\
  @vmm_free pmm_state 0xffff81c4c0800000 false 0 two_areas =
    Ret (tt, set_containers
      {[ 0xffff8002c0400000 := mk_container
           {[ 0 := mk_item 0xffff81c4c0600000 0x200000 3; 1 := mk_item 0xffff81c4c0800000 0x200000 3 ]} 87379 0 ]} two_areas).
Proof.
  split.
  - rewrite (vmm_free_single two_areas 0 (with_cursor 87380 2 0xffff81c4c0a00000 sample_info)
      (mk_container {[ 0 := mk_item 0xffff81c4c0600000 0x200000 3; 1 := mk_item 0xffff81c4c0800000 0x200000 3 ]} 87378 0)
      (mk_item 0xffff81c4c0600000 0x200000 3) 0xffff81c4c0600000 false 0 (mk_item 0xffff81c4c0600000 0x200000 3));
      [reflexivity|reflexivity|discriminate|reflexivity|reflexivity|reflexivity|reflexivity|reflexivity|discriminate
      |simpl; lia|reflexivity|reflexivity|intros; lia].
  - rewrite (vmm_free_single two_areas 0 (with_cursor 87380 2 0xffff81c4c0a00000 sample_info)
      (mk_container {[ 0 := mk_item 0xffff81c4c0600000 0x200000 3; 1 := mk_item 0xffff81c4c0800000 0x200000 3 ]} 87378 0)
      (mk_item 0xffff81c4c0600000 0x200000 3) 0xffff81c4c0800000 false 1 (mk_item 0xffff81c4c0800000 0x200000 3));
      [reflexivity|reflexivity|discriminate|reflexivity|reflexivity|reflexivity|reflexivity|reflexivity|discriminate
      |simpl; lia|reflexivity|reflexivity|].
    intros j Hj. assert (j = 0) as -> by lia. exists (mk_item 0xffff81c4c0600000 0x200000 3). split; [reflexivity|discriminate].
Defined.
