(* ===== verification/HeapRun.v ===== *)
(** Runs of the heap of [kernel/mem/kheap.c]: what holds after any sequence of
    [kmalloc] and [kfree], the heap growing where it has to. *)
From S2P Require Import Prelude VmmUtil Mmap Bitmap Pmm Kheap Paging Boot Vmm.

(** Two blocks that follow each other are not both free with nothing between them. *)
Definition unmerged (p : option block) (b : block) : bool :=
  match p with Some q => negb (q.(b_free) && b.(b_free) && joinable q b) | None => true end.

(** So it is for the blocks of [l], of which the first comes after [p]. *)
Fixpoint settled (p : option block) (l : list block) : Prop :=
  match l with
  | [] => True
  | b :: l' => unmerged p b = true /\ settled (Some b) l'
  end.

(** The blocks [l] follow each other from [a] to [e]. *)
Fixpoint tile (a : Z) (l : list block) (e : Z) : Prop :=
  match l with
  | [] => a = e
  | b :: l' => b.(b_addr) = a /\ tile (b_end b) l' e
  end.

(** The areas that pages were got for, by address and size in the order they came, and the blocks
    in them: those of an area follow each other from its start on, and end the
    [header_size] bytes past its end that the area is credited on top. *)
Definition tiled (areas : list (Z * Z)) (l : list block) : Prop :=
  exists segs, l = concat segs /\ Forall2 (fun x seg => tile x.1 seg (x.1 + x.2 + header_size)) areas segs.

(** A header is in the memory of an area. *)
Definition header_inside (areas : list (Z * Z)) (b : block) : Prop :=
  exists x, x ∈ areas /\ x.1 <= b.(b_addr) /\ b.(b_addr) + header_size <= x.1 + x.2.

(** The payload [p] of [n] bytes lies in a block in use, right after its header, and does
    not reach the last [header_size] bytes of the block. *)
Definition owns (l : list block) (x : Z * Z) : Prop :=
  exists b, b ∈ l /\ b.(b_free) = false /\ x.1 = b.(b_addr) + header_size /\ x.1 + x.2 <= b.(b_addr) + b.(b_size).

Section Blocks.
Implicit Types (b c q : block) (l : list block) (p : option block).

Definition or_last p l : option block := match last l with Some b => Some b | None => p end.

Lemma or_last_cons p b l : or_last p (b :: l) = or_last (Some b) l.
Proof. unfold or_last. rewrite last_cons. by destruct (last l). Qed.

Lemma settled_app l1 : forall p l2, settled p (l1 ++ l2) <-> settled p l1 /\ settled (or_last p l1) l2.
Proof.
  induction l1 as [|b l1 IH]; intros p l2; simpl; [tauto|]. rewrite IH, or_last_cons. tauto.
Qed.

(** A block can replace the one before: it is in use, or ends where that one did
    which was free too. *)
Lemma settled_next b b' l :
  (b'.(b_free) = true -> b.(b_free) = true /\ b_end b' = b_end b) -> settled (Some b) l -> settled (Some b') l.
Proof.
  intros Hb. destruct l as [|c l]; [done|]. intros [Hu Hs]. split; [|done]. simpl in *. unfold joinable in *.
  destruct (b_free b'); [|done]. destruct Hb as [E1 E2]; [done|]. rewrite E2. by rewrite E1 in Hu.
Qed.

Lemma unmerged_same p b b' :
  (b'.(b_free) = true -> b.(b_free) = true /\ b'.(b_addr) = b.(b_addr)) -> unmerged p b = true -> unmerged p b' = true.
Proof.
  intros Hb. destruct p as [q|]; [|done]. simpl. unfold joinable. destruct (b_free b'); [|by rewrite andb_false_r].
  destruct Hb as [E1 E2]; [done|]. by rewrite E2, E1.
Qed.

(** Taking a block for [real] bytes. *)
Lemma settled_take l1 b l2 p real :
  fits real b = true -> settled p (l1 ++ b :: l2) -> settled p (l1 ++ take_block real b ++ l2).
Proof.
  unfold fits. intros [Hf _]%andb_prop. rewrite !(settled_app l1). intros (H1 & Hu & H2). split; [done|].
  unfold take_block. case_match; cbn [app settled].
  - split; [by eapply unmerged_same; [|exact Hu]|]. split; [done|]. eapply settled_next; [|exact H2].
    intros _. split; [done|]. unfold b_end, header_size. simpl. lia.
  - split; [by eapply unmerged_same; [|exact Hu]|]. by eapply settled_next; [|exact H2].
Qed.

(** Freeing a block: the coalescing is complete. *)
Lemma settled_join_right p b l2 :
  settled p (b :: l2) -> exists f l', join_right (freed b) l2 = f :: l' /\ f.(b_addr) = b.(b_addr) /\
    f.(b_free) = true /\ settled (Some f) l'.
Proof.
  intros [_ H]. unfold join_right. destruct l2 as [|c l2]; [by exists (freed b), []|]. destruct H as [Hu H].
  destruct (b_free c && joinable (freed b) c) eqn:Hc.
  - apply andb_prop in Hc as [Hcf Hj]. exists (join (freed b) c), l2. split_and!; try done.
    eapply settled_next; [|exact H]. intros _. split; [done|].
    unfold joinable in Hj. apply Z.eqb_eq in Hj. unfold b_end, join in *; simpl in *; lia.
  - exists (freed b), (c :: l2). split_and!; try done. split; [|done]. simpl. by rewrite Hc.
Qed.

Lemma settled_free l1 b l2 : settled None (l1 ++ b :: l2) -> settled None (free_blocks l1 b l2).
Proof.
  rewrite settled_app. intros [H1 (f & l' & E & Ha & Hf & H2)%settled_join_right]. unfold free_blocks. rewrite E.
  unfold join_left. destruct (last l1) as [q|] eqn:Hq.
  2:{ apply last_None in Hq as ->. by split. }
  destruct (b_free q && joinable q f) eqn:Hqf.
  - apply andb_prop in Hqf as [Hqf Hj]. apply last_split in Hq. rewrite Hq in H1. apply settled_app in H1 as (H0 & Hu & _).
    apply settled_app. split; [done|]. split; [by eapply unmerged_same; [|exact Hu]|]. eapply settled_next; [|exact H2].
    intros _. split; [done|]. unfold joinable in Hj. apply Z.eqb_eq in Hj. unfold b_end, join in *; simpl in *; lia.
  - apply settled_app. split; [done|]. unfold or_last. rewrite Hq. split; [|done]. simpl. by rewrite Hf, andb_true_r, Hqf.
Qed.

(** What happens to the blocks in use. *)
Lemma take_keeps real l1 b l2 d : fits real b = true -> d ∈ l1 ++ b :: l2 -> d.(b_free) = false ->
  d ∈ l1 ++ take_block real b ++ l2.
Proof.
  intros [Hf _]%andb_prop Hd Hdf. apply elem_of_app in Hd as [Hd|Hd]; [set_solver|].
  apply elem_of_cons in Hd as [->|Hd]; [congruence|set_solver].
Qed.

Lemma free_keeps l1 b l2 d : d ∈ l1 \/ d ∈ l2 -> d.(b_free) = false -> d ∈ free_blocks l1 b l2.
Proof.
  intros Hd Hdf. unfold free_blocks.
  assert (exists f l', join_right (freed b) l2 = f :: l' /\ (d ∈ l2 -> d ∈ l')) as (f & l' & -> & Hl').
  { unfold join_right. destruct l2 as [|c l2]; [by eexists _, _|]. destruct (b_free c && _) eqn:Hc; [|by eexists _, _].
    eexists _, _. split; [done|]. apply andb_prop in Hc as [Hc _]. intros [->|?]%elem_of_cons; [congruence|done]. }
  unfold join_left. destruct (last l1) as [q|] eqn:Hq; [|set_solver].
  apply last_split in Hq. destruct (b_free q && _) eqn:Hqf; [|set_solver].
  apply andb_prop in Hqf as [Hqf _]. destruct Hd as [Hd|Hd]; [|set_solver].
  rewrite Hq in Hd. apply elem_of_app in Hd as [Hd|Hd]; [set_solver|].
  apply list_elem_of_singleton in Hd as ->. congruence.
Qed.

End Blocks.

(** ** Blocks in areas *)

Section Tiles.
Context `{PageConfig}.
Implicit Types (areas : list (Z * Z)) (b c : block) (l : list block).

Lemma tile_app l1 : forall a l2 e, tile a (l1 ++ l2) e <-> exists m, tile a l1 m /\ tile m l2 e.
Proof.
  induction l1 as [|b l1 IH]; intros a l2 e; simpl.
  - split; [by exists a|by intros (m & -> & ?)].
  - rewrite IH. split; [intros (? & m & ? & ?); by exists m|intros (m & (? & ?) & ?); split; [done|by exists m]].
Qed.

Lemma tiled_nil l : tiled [] l -> l = [].
Proof. intros (segs & -> & Hs). by apply Forall2_nil_inv_l in Hs as ->. Qed.

Lemma tiled_cons x areas l : tiled (x :: areas) l <-> exists l1 l2, l = l1 ++ l2 /\ tile x.1 l1 (x.1 + x.2 + header_size) /\ tiled areas l2.
Proof.
  split.
  - intros (segs & -> & (seg & segs' & Ht & Hs & ->)%Forall2_cons_inv_l). exists seg, (concat segs'). split; [done|]. split; [done|].
    by exists segs'.
  - intros (l1 & l2 & -> & Ht & segs & -> & Hs). exists (l1 :: segs). split; [done|]. by constructor.
Qed.

Lemma tiled_snoc areas x l l' : tiled areas l -> tile x.1 l' (x.1 + x.2 + header_size) -> tiled (areas ++ [x]) (l ++ l').
Proof.
  intros (segs & -> & Hs) Ht. exists (segs ++ [l']). split; [by rewrite concat_app; simpl; rewrite app_nil_r|].
  apply Forall2_app; [done|]. by constructor.
Qed.

(** The area of a block, with the blocks before and after it in that area. *)
Lemma tiled_at areas : forall l1 b l2, tiled areas (l1 ++ b :: l2) ->
  exists areas1 x areas2 k1 m1 m2 k2, areas = areas1 ++ x :: areas2 /\ l1 = k1 ++ m1 /\ l2 = m2 ++ k2 /\
    tiled areas1 k1 /\ tile x.1 (m1 ++ b :: m2) (x.1 + x.2 + header_size) /\ tiled areas2 k2.
Proof.
  induction areas as [|x areas IH]; intros l1 b l2 Ht.
  { apply tiled_nil in Ht. by apply app_eq_nil in Ht as [_ ?]. }
  apply tiled_cons in Ht as (s1 & s2 & E & Ht1 & Ht2). apply app_eq_inv in E as [(k & -> & E2)|(k & E1 & E2)].
  - rewrite E2 in Ht2. destruct (IH k b l2 Ht2) as (areas1 & y & areas2 & k1 & m1 & m2 & k2 & -> & -> & -> & H1 & H2 & H3).
    exists (x :: areas1), y, areas2, (s1 ++ k1), m1, m2, k2. rewrite app_assoc. do 3 (split; [done|]). split; [|done].
    apply tiled_cons. by exists s1, k1.
  - destruct k as [|c k].
    + simpl in E2. rewrite <- E2 in Ht2. rewrite app_nil_r in E1. subst s1.
      destruct (IH [] b l2 Ht2) as (areas1 & y & areas2 & k1 & m1 & m2 & k2 & -> & E3 & -> & H1 & H2 & H3).
      symmetry in E3. apply app_eq_nil in E3 as [-> ->]. exists (x :: areas1), y, areas2, l1, [], m2, k2.
      rewrite app_nil_r. do 3 (split; [done|]). split; [|done]. apply tiled_cons. exists l1, []. by rewrite app_nil_r.
    + injection E2 as <- ->. subst s1. exists [], x, areas, [], l1, k, s2. do 3 (split; [done|]). split; [by exists []|]. done.
Qed.

Lemma tiled_app areas1 : forall areas2 l1 l2, tiled areas1 l1 -> tiled areas2 l2 -> tiled (areas1 ++ areas2) (l1 ++ l2).
Proof.
  intros areas2 l1 l2 (s1 & -> & H1) (s2 & -> & H2). exists (s1 ++ s2). rewrite concat_app. split; [done|]. by apply Forall2_app.
Qed.

(** Other blocks from the same start to the same end. *)
Lemma tiled_replace areas l1 b l2 m : (forall a e, tile a [b] e -> tile a m e) -> tiled areas (l1 ++ b :: l2) -> tiled areas (l1 ++ m ++ l2).
Proof.
  intros Hm (areas1 & x & areas2 & k1 & m1 & m2 & k2 & -> & -> & -> & H1 & H2 & H3)%tiled_at.
  replace ((k1 ++ m1) ++ m ++ m2 ++ k2) with (k1 ++ (m1 ++ m ++ m2) ++ k2) by (by rewrite !app_assoc).
  apply tiled_app; [done|]. apply tiled_cons. exists (m1 ++ m ++ m2), k2. split; [done|]. split; [|done].
  change (m1 ++ b :: m2) with (m1 ++ [b] ++ m2) in H2. apply tile_app in H2 as (u & Hu & (v & Hv & Hw)%tile_app).
  apply tile_app. exists u. split; [done|]. apply tile_app. exists v. split; [by apply Hm|done].
Qed.

Lemma tiled_take areas l1 b l2 real : tiled areas (l1 ++ b :: l2) -> tiled areas (l1 ++ take_block real b ++ l2).
Proof.
  apply tiled_replace. intros a e [Ha He]. unfold take_block. case_match; simpl; (split; [done|]); [split; [done|]|]; rewrite <- He;
    unfold b_end, header_size; simpl; lia.
Qed.

(** Areas of whole pages, one after the other. *)
Definition aligned (z : Z) : Prop := z mod PAGE_SIZE_IN_BYTES = 0.
Record area_ok (x : Z * Z) : Prop := {
  ao_start : 0 < x.1;
  ao_size : 0 < x.2;
  ao_top : x.1 + x.2 + header_size < 2 ^ 64;
  ao_aligned : aligned x.1 /\ aligned (x.1 + x.2);
}.
Fixpoint areas_ok areas : Prop :=
  match areas with
  | [] => True
  | x :: areas' => area_ok x /\ Forall (fun y => x.1 + x.2 <= y.1) areas' /\ areas_ok areas'
  end.

Lemma areas_ok_app areas1 areas2 : areas_ok (areas1 ++ areas2) <->
  areas_ok areas1 /\ areas_ok areas2 /\ forall x y, x ∈ areas1 -> y ∈ areas2 -> x.1 + x.2 <= y.1.
Proof.
  induction areas1 as [|z areas1 IH]; simpl.
  - split; [intros; split; [done|split; [done|]]; intros ? ? Hx; by apply elem_of_nil in Hx|tauto].
  - rewrite IH, Forall_app, (Forall_forall _ areas2). split.
    + intros (Hz & (H1 & H2) & H3 & H4 & H5). split; [done|]. split; [done|]. intros x y [->|Hx]%elem_of_cons Hy; auto.
    + intros ((Hz & H1 & H3) & H4 & H5). split; [done|]. split; [split; [done|]|split; [done|split; [done|]]].
      * intros y Hy. apply H5; set_solver.
      * intros x y Hx Hy. apply H5; set_solver.
Qed.
Lemma areas_ok_in areas x : areas_ok areas -> x ∈ areas -> area_ok x.
Proof. induction areas as [|y areas IH]; [by intros _ ?%elem_of_nil|]. intros (? & _ & ?) [->|Hx]%elem_of_cons; auto. Qed.

(** The slack at the end of an area is no multiple of a page. *)
Lemma not_touching x y : area_ok x -> area_ok y -> x.1 + x.2 + header_size <> y.1.
Proof.
  intros [_ _ _ [_ H1]] [_ _ _ [H2 _]] E. unfold aligned in *. pose proof page_size_bounds. rewrite <- E in H2. unfold header_size in H2.
  rewrite <- Z.add_mod_idemp_l, H1 in H2 by lia. rewrite Z.add_0_l, Z.mod_small in H2 by lia. lia.
Qed.

(** Neighbours that touch are in one area, and so is the block they merge into. *)
Lemma tile_last a m b e : tile a (m ++ [b]) e -> b_end b = e.
Proof. intros (u & _ & _ & He)%tile_app. exact He. Qed.

Lemma tiled_head areas c k : tiled areas (c :: k) -> areas_ok areas -> exists y, y ∈ areas /\ c.(b_addr) = y.1.
Proof.
  intros (areas1 & x & areas2 & k1 & m1 & m2 & k2 & -> & E & _ & H1 & H2 & _)%(tiled_at areas [] c k) Hok.
  symmetry in E. apply app_eq_nil in E as [-> ->]. exists x. split; [set_solver|]. by destruct H2.
Qed.

Lemma tiled_join areas l1 b c l2 : areas_ok areas -> joinable b c = true -> tiled areas (l1 ++ b :: c :: l2) -> tiled areas (l1 ++ join b c :: l2).
Proof.
  intros Hok Hj%Z.eqb_eq (areas1 & x & areas2 & k1 & m1 & m2 & k2 & -> & -> & E & H1 & H2 & H3)%tiled_at.
  destruct m2 as [|c' m2].
  - exfalso. simpl in E. subst k2. apply areas_ok_app in Hok as (_ & (Hx & _ & Hok) & _).
    destruct (tiled_head _ _ _ H3 Hok) as (y & Hy & Ec). apply tile_last in H2.
    apply (not_touching x y Hx (areas_ok_in _ _ Hok Hy)). lia.
  - injection E as <- ->. replace ((k1 ++ m1) ++ join b c :: m2 ++ k2) with (k1 ++ (m1 ++ join b c :: m2) ++ k2) by (by rewrite <- !app_assoc).
    apply tiled_app; [done|]. apply tiled_cons. exists (m1 ++ join b c :: m2), k2. split; [done|]. split; [|done].
    apply tile_app in H2 as (u & Hu & Hb & Hc & Hm). apply tile_app. exists u. split; [done|]. simpl. split; [done|].
    replace (b_end (join b c)) with (b_end c); [done|]. unfold b_end, join in *. simpl. lia.
Qed.

Lemma tiled_free areas l1 b l2 : areas_ok areas -> tiled areas (l1 ++ b :: l2) -> tiled areas (free_blocks l1 b l2).
Proof.
  intros Hok Ht. assert (tiled areas (l1 ++ freed b :: l2)) as Hf by (by apply (tiled_replace areas l1 b l2 [freed b])).
  assert (tiled areas (l1 ++ join_right (freed b) l2)) as Hr.
  { unfold join_right. destruct l2 as [|c l2]; [done|]. destruct (b_free c && _) eqn:Hj; [|done]. apply andb_prop in Hj as [_ Hj]. by apply tiled_join. }
  unfold free_blocks, join_left. destruct (last l1) as [p|] eqn:Hp; [|done]. destruct (join_right (freed b) l2) as [|d k]; [done|].
  destruct (b_free p && joinable p d) eqn:Hj; [|done]. apply andb_prop in Hj as [_ Hj].
  apply last_split in Hp. rewrite Hp, <- app_assoc in Hr. by apply tiled_join.
Qed.

(** Where blocks are: in the area of the block, up to the slack; and one after the other. *)
Definition positive b : Prop := 0 < b.(b_size).

Lemma tile_in m1 b m2 : forall a e, Forall positive (m1 ++ b :: m2) -> tile a (m1 ++ b :: m2) e -> a <= b.(b_addr) /\ b_end b <= e.
Proof.
  assert (forall k a e, Forall positive k -> tile a k e -> a <= e) as Hle.
  { induction k as [|c k IH]; intros a e Hp Hk; simpl in Hk; [lia|]. apply Forall_cons in Hp as [Hc Hp].
    destruct Hk as [<- Hk]. apply IH in Hk; [|done]. unfold b_end, header_size, positive in *. lia. }
  intros a e Hp (u & Hu & Hb & Hv)%tile_app. apply Forall_app in Hp as [Hp1 [_ Hp2]%Forall_cons].
  apply Hle in Hu, Hv; [|done..]. lia.
Qed.

Lemma tiled_in areas l b : areas_ok areas -> Forall positive l -> tiled areas l -> b ∈ l ->
  exists x, x ∈ areas /\ x.1 <= b.(b_addr) /\ b_end b <= x.1 + x.2 + header_size.
Proof.
  intros Hok Hp Ht (l1 & l2 & ->)%list_elem_of_split.
  destruct (tiled_at _ _ _ _ Ht) as (areas1 & x & areas2 & k1 & m1 & m2 & k2 & -> & -> & -> & _ & H2 & _).
  exists x. split; [set_solver|]. apply tile_in in H2; [done|].
  apply Forall_app in Hp as [[_ Hm1]%Forall_app [Hb [Hm2 _]%Forall_app]%Forall_cons]. apply Forall_app. split; [exact Hm1|]. by constructor.
Qed.

(** A block [c] behind [b] in the list: it is behind it in memory, up to the slack; and
    touches it or is behind it in the same area, or in a later one. *)
Lemma tiled_order areas l1 b l2 c : areas_ok areas -> Forall positive (l1 ++ b :: l2) -> tiled areas (l1 ++ b :: l2) -> c ∈ l2 ->
  b_end b <= c.(b_addr) \/ exists x, x ∈ areas /\ b_end b <= x.1 + x.2 + header_size /\ x.1 <= b.(b_addr) < x.1 + x.2 /\ x.1 + x.2 <= c.(b_addr).
Proof.
  intros Hok Hp Ht Hc. destruct (tiled_at _ _ _ _ Ht) as (areas1 & x & areas2 & k1 & m1 & m2 & k2 & -> & -> & -> & _ & H2 & H3).
  apply Forall_app in Hp as [[_ Hp1]%Forall_app [Hb [Hp2 Hp3]%Forall_app]%Forall_cons].
  apply areas_ok_app in Hok as (_ & (Hx & Hlater & Hok) & _).
  apply elem_of_app in Hc as [Hc|Hc].
  - left. apply list_elem_of_split in Hc as (n1 & n2 & ->). apply tile_app in H2 as (u & _ & _ & H2). by apply (tile_in n1 c n2 _ _ Hp2) in H2 as [? _].
  - right. exists x. split; [set_solver|]. destruct (tile_in m1 b m2 _ _ ltac:(apply Forall_app; split; [done|]; by constructor) H2) as [Ha He].
    split; [done|]. split; [unfold b_end, positive in *; lia|]. destruct (tiled_in areas2 k2 c Hok Hp3 H3 Hc) as (y & Hy & Hyc & _).
    rewrite Forall_forall in Hlater. specialize (Hlater y Hy). lia.
Qed.

Lemma tiled_before areas l1 b l2 c : areas_ok areas -> Forall positive (l1 ++ b :: l2) -> tiled areas (l1 ++ b :: l2) -> c ∈ l2 ->
  b.(b_addr) + b.(b_size) <= c.(b_addr).
Proof. intros Hok Hp Ht Hc. destruct (tiled_order areas l1 b l2 c Hok Hp Ht Hc) as [?|(x & _ & ? & _ & ?)]; unfold b_end, header_size in *; lia. Qed.

(** So the headers are a list the operations can work on. *)
Lemma tiled_headers areas l : areas_ok areas -> Forall positive l -> tiled areas l -> headers_ok l.
Proof.
  intros Hok Hp Ht. split.
  - apply Forall_forall. intros b Hb. destruct (tiled_in areas l b Hok Hp Ht Hb) as (x & Hx & Ha & He). pose proof (areas_ok_in _ _ Hok Hx) as [? ? ? _].
    rewrite Forall_forall in Hp. specialize (Hp b Hb). unfold block_ok, positive in *. lia.
  - assert (forall k1 k2, l = k1 ++ k2 -> NoDup (addrs k2)) as Hall; [|by apply (Hall [] l)].
    intros k1 k2. revert k1. induction k2 as [|b k2 IH]; intros k1 ->; [constructor|]. simpl. constructor.
    + intros (c & Hc & E)%elem_of_addrs. pose proof (tiled_before areas k1 b k2 c Hok Hp Ht Hc).
      apply Forall_app in Hp as [_ [Hb _]%Forall_cons]. unfold positive in Hb. lia.
    + apply (IH (k1 ++ [b])). by rewrite <- app_assoc.
Qed.
End Tiles.

(** ** What a run keeps of the blocks *)

Section Shape.
Context `{PageConfig}.
Implicit Types (areas live : list (Z * Z)) (b q : block) (l : list block).

Record shape areas live l : Prop := {
  sh_areas : areas_ok areas;
  sh_positive : Forall positive l;
  sh_tiled : tiled areas l;
  sh_headers : Forall (header_inside areas) l;
  sh_settled : settled None l;
  sh_distinct : NoDup live.*1;
  sh_owns : Forall (owns l) live;
}.

Lemma shape_links areas live l : shape areas live l -> headers_ok l.
Proof. intros [Ha Hp Ht _ _ _ _]. by apply (tiled_headers areas). Qed.

Lemma owns_mono l l' x : (forall b, b ∈ l -> b.(b_free) = false -> b ∈ l') -> owns l x -> owns l' x.
Proof. intros Hl (b & Hb & Hf & Hx). exists b. auto. Qed.

(** A block is taken for a payload of [size] bytes. *)
Lemma positive_take real l1 b l2 : 0 < real -> fits real b = true -> Forall positive (l1 ++ b :: l2) -> Forall positive (l1 ++ take_block real b ++ l2).
Proof.
  intros Hr [_ Hf%Z.leb_le]%andb_prop [H1 [Hb H2]%Forall_cons]%Forall_app. apply Forall_app. split; [done|]. apply Forall_app. split; [|done].
  unfold take_block, positive, KHEAP_MINIMUM_ALLOCABLE_SIZE, header_size in *. destruct (Z.ltb_spec 0x20 (b_size b - real)); repeat constructor; simpl; lia.
Qed.

Lemma shape_take areas live l1 b l2 size :
  0 < size < 2 ^ 64 - 64 -> fits (real_size size) b = true -> shape areas live (l1 ++ b :: l2) ->
  Forall (header_inside areas) (l1 ++ take_block (real_size size) b ++ l2) ->
  shape areas ((b.(b_addr) + header_size, size) :: live) (l1 ++ take_block (real_size size) b ++ l2).
Proof.
  intros Hs Hf Hsh Hin. pose proof (shape_links _ _ _ Hsh) as Hok. destruct Hsh as [Hareas Hpos Htile _ Hset Hnd Hown].
  pose proof (real_size_bounds size ltac:(lia)) as Hreal. unfold header_size in Hreal.
  destruct (take_block_cons (real_size size) b) as (b' & m & E & Hb'a & Hb'f & Hb's). specialize (Hb's Hf). split; [done| | |done| | |].
  - apply positive_take; [lia|done|done].
  - by apply tiled_take.
  - by apply settled_take.
  - rewrite Forall_forall in Hown. apply NoDup_cons. split; [|done]. intros (x & Ex & Hx)%list_elem_of_fmap.
    destruct (Hown x Hx) as (c & Hc & Hcf & Exc & _). unfold fits in Hf. apply andb_prop in Hf as [Hf _].
    assert (c.(b_addr) = b.(b_addr)) as Ecb by (simpl in Ex; lia). destruct (headers_differ l1 b l2 Hok) as [Hn1 Hn2].
    apply elem_of_app in Hc as [Hc|[->|Hc]%elem_of_cons]; [apply Hn1|congruence|apply Hn2]; apply elem_of_addrs; by exists c.
  - apply Forall_cons. split.
    + exists b'. rewrite E. split; [set_solver|]. unfold header_size. simpl. split; [done|]. lia.
    + eapply Forall_impl; [exact Hown|]. intros x. apply owns_mono. intros d. by apply take_keeps.
Qed.

(** New pages become a free block after the last one. *)
Lemma shape_grow areas live l t n :
  area_ok (t, n) -> Forall (fun x => x.1 + x.2 <= t) areas -> unmerged (last l) (mk_block t n true) = true -> shape areas live l ->
  shape (areas ++ [(t, n)]) live (l ++ [mk_block t n true]).
Proof.
  intros Ha Hlater Hu [Hareas Hpos Htile Hin Hset Hnd Hown]. split; [| | | | |done|].
  - apply areas_ok_app. split; [done|]. split; [done|]. rewrite Forall_forall in Hlater. intros x y Hx ->%list_elem_of_singleton. by apply Hlater.
  - apply Forall_app. split; [done|]. apply Forall_singleton. destruct Ha. done.
  - apply tiled_snoc; [done|]. split; [done|]. unfold tile, b_end. simpl. lia.
  - apply Forall_app. split.
    + eapply Forall_impl; [exact Hin|]. intros b (x & Hx & Hb). exists x. split; [set_solver|done].
    + apply Forall_singleton. exists (t, n). split; [set_solver|]. simpl. destruct Ha as [? ? ? [H1 H2]]. pose proof page_size_bounds.
      assert (header_size <= n); [|lia]. unfold aligned in *. simpl in *. rewrite <- Z.add_mod_idemp_l, H1, Z.add_0_l in H2 by lia.
      apply Z.mod_divide in H2 as [k E]; [|lia]. assert (1 <= k) by nia. unfold header_size. nia.
  - apply settled_app. split; [done|]. split; [|done]. unfold or_last. by destruct (last l).
  - eapply Forall_impl; [exact Hown|]. intros x. apply owns_mono. set_solver.
Qed.

(** The blocks after a merge are at addresses of blocks before it, and no smaller. *)
Definition grown (l l' : list block) : Prop := forall d, d ∈ l' -> exists c, c ∈ l /\ d.(b_addr) = c.(b_addr) /\ c.(b_size) <= d.(b_size).

Lemma free_grown l1 b l2 : Forall positive (l1 ++ b :: l2) -> grown (l1 ++ b :: l2) (free_blocks l1 b l2).
Proof.
  intros Hp. assert (forall x, x ∈ l1 ++ b :: l2 -> positive x) as Hpos by by apply Forall_forall. unfold positive in Hpos.
  assert (exists f l', join_right (freed b) l2 = f :: l' /\ f.(b_addr) = b.(b_addr) /\ b.(b_size) <= f.(b_size) /\ (forall d, d ∈ l' -> d ∈ l2))
    as (f & l' & E & Ef & Hf & Hl').
  { unfold join_right. destruct l2 as [|c l2]; [by exists (freed b), []|]. destruct (_ && _).
    - exists (join (freed b) c), l2. split; [done|]. split; [done|]. split; [|set_solver].
      pose proof (Hpos c ltac:(set_solver)). unfold join, header_size. simpl. lia.
    - by exists (freed b), (c :: l2). }
  assert (forall d, d ∈ f :: l' -> exists c, c ∈ b :: l2 /\ d.(b_addr) = c.(b_addr) /\ c.(b_size) <= d.(b_size)) as Hr.
  { intros d [->|Hd]%elem_of_cons; [exists b; split; [set_solver|done]|exists d; split; [|done]]. apply Hl' in Hd. set_solver. }
  unfold free_blocks. rewrite E. unfold join_left. intros d Hd.
  assert (d ∈ l1 ++ f :: l' -> exists c, c ∈ l1 ++ b :: l2 /\ d.(b_addr) = c.(b_addr) /\ c.(b_size) <= d.(b_size)) as Hall.
  { intros [Hd'|Hd']%elem_of_app; [exists d; split; [set_solver|done]|]. destruct (Hr d Hd') as (c & Hc & ?). exists c. split; [set_solver|done]. }
  destruct (last l1) as [q|] eqn:Hq; [|by apply Hall]. destruct (_ && _); [|by apply Hall].
  pose proof (last_split _ _ Hq) as El. apply elem_of_app in Hd as [Hd|[->|Hd]%elem_of_cons].
  - exists d. rewrite El. split; [set_solver|done].
  - exists q. split; [rewrite El; set_solver|]. split; [done|]. pose proof (Hpos b ltac:(set_solver)). unfold join, header_size. simpl. lia.
  - apply Hall. set_solver.
Qed.

(** A block is freed, and its payload with it. *)
Lemma shape_free areas live1 p n live2 l1 b l2 :
  p = b.(b_addr) + header_size ->
  shape areas (live1 ++ (p, n) :: live2) (l1 ++ b :: l2) -> shape areas (live1 ++ live2) (free_blocks l1 b l2).
Proof.
  intros Ep [Hareas Hpos Htile Hin Hset Hnd Hown]. rewrite fmap_app, fmap_cons in Hnd. simpl in Hnd.
  apply NoDup_app in Hnd as (H1 & Hd & [Hp H2]%NoDup_cons). pose proof (free_grown l1 b l2 Hpos) as Hgr. split; [done| | | | | |].
  - rewrite Forall_forall in Hpos |- *. intros d (c & Hc & _ & Hle)%Hgr. specialize (Hpos c Hc). unfold positive in *. lia.
  - by apply tiled_free.
  - rewrite Forall_forall in Hin |- *. intros d (c & Hc & Ea & _)%Hgr. destruct (Hin c Hc) as (x & Hx & Hxc). exists x. by rewrite Ea.
  - by apply settled_free.
  - rewrite fmap_app. apply NoDup_app. split_and!; try done. intros x Hx. specialize (Hd x Hx). set_solver.
  - rewrite Forall_forall in Hown. apply Forall_forall. intros x Hx.
    destruct (Hown x ltac:(set_solver)) as (c & Hc & Hcf & Exc & Hxc). exists c. split; [|done].
    apply free_keeps; [|done]. apply elem_of_app in Hc as [Hc|[->|Hc]%elem_of_cons]; [by left| |by right].
    assert (x.1 = p) as E by lia. apply elem_of_app in Hx as [Hx|Hx].
    + destruct (Hd p); [|set_solver]. apply list_elem_of_fmap. by exists x.
    + destruct Hp. apply list_elem_of_fmap. by exists x.
Qed.

Lemma shape_forget areas live1 x live2 l : shape areas (live1 ++ x :: live2) l -> shape areas (live1 ++ live2) l.
Proof.
  intros [Hareas Hpos Htile Hin Hset Hnd Hown]. split; [done..| |].
  - rewrite fmap_app, fmap_cons in Hnd. rewrite fmap_app. apply NoDup_app in Hnd as (? & Hd & [? ?]%NoDup_cons).
    apply NoDup_app. split_and!; try done. intros y Hy. specialize (Hd y Hy). set_solver.
  - rewrite Forall_app, Forall_cons in Hown. apply Forall_app. tauto.
Qed.

(** ** Where headers and payloads are *)

(** Headers do not overlap. *)
Lemma headers_apart areas live l b c : shape areas live l -> b ∈ l -> c ∈ l -> b.(b_addr) < c.(b_addr) -> b.(b_addr) + header_size <= c.(b_addr).
Proof.
  intros [Hareas Hpos Htile Hin _ _ _] Hb Hc Hlt. rewrite Forall_forall in Hin. destruct (Hin b Hb) as (y & Hy & Hyb1 & Hyb2).
  apply list_elem_of_split in Hb as (l1 & l2 & ->).
  assert (positive b) as Hbp by (apply Forall_app in Hpos as [_ [? _]%Forall_cons]; done). unfold positive in Hbp.
  apply elem_of_app in Hc as [Hc|[->|Hc]%elem_of_cons]; [|lia|].
  - exfalso. apply list_elem_of_split in Hc as (k1 & k2 & ->). rewrite <- app_assoc in Htile, Hpos. simpl in Htile, Hpos.
    pose proof (tiled_before areas k1 c (k2 ++ b :: l2) b Hareas Hpos Htile ltac:(set_solver)).
    apply Forall_app in Hpos as [_ [Hcp _]%Forall_cons]. unfold positive in Hcp. lia.
  - destruct (tiled_order areas l1 b l2 c Hareas Hpos Htile Hc) as [?|(x & Hx & _ & Hxb & Hxc)]; [unfold b_end in *; lia|].
    assert (x = y) as ->; [|lia]. clear -Hareas Hx Hy Hxb Hyb1 Hyb2.
    apply list_elem_of_split in Hx as (a1 & a2 & ->). apply areas_ok_app in Hareas as (_ & (_ & H2 & _) & H1). unfold header_size in *.
    apply elem_of_app in Hy as [Hy|[->|Hy]%elem_of_cons]; [|done|].
    + specialize (H1 y x Hy ltac:(set_solver)). lia.
    + rewrite Forall_forall in H2. specialize (H2 y Hy). lia.
Qed.

(** A payload is in the memory of an area, clear of every header. *)
Lemma payload_inside areas live l x : shape areas live l -> owns l x ->
  (exists y, y ∈ areas /\ y.1 <= x.1 /\ x.1 + x.2 <= y.1 + y.2) /\
  forall c, c ∈ l -> c.(b_addr) + header_size <= x.1 \/ x.1 + x.2 <= c.(b_addr).
Proof.
  intros Hsh (b & Hb & _ & E & Hle). pose proof Hsh as [Hareas Hpos Htile Hin _ _ _]. split.
  - destruct (tiled_in areas l b Hareas Hpos Htile Hb) as (y & Hy & Hyb & Hye). exists y. split; [done|]. unfold b_end, header_size in *. lia.
  - intros c Hc. destruct (Z.lt_total b.(b_addr) c.(b_addr)) as [Hlt|[Heq|Hgt]]; [right|left; lia|left].
    + apply list_elem_of_split in Hb as (l1 & l2 & ->).
      assert (positive b) as Hbp by (apply Forall_app in Hpos as [_ [? _]%Forall_cons]; done). unfold positive in Hbp.
      apply elem_of_app in Hc as [Hc|[->|Hc]%elem_of_cons]; [|lia|].
      * exfalso. apply list_elem_of_split in Hc as (k1 & k2 & ->). rewrite <- app_assoc in Htile, Hpos. simpl in Htile, Hpos.
        pose proof (tiled_before areas k1 c (k2 ++ b :: l2) b Hareas Hpos Htile ltac:(set_solver)).
        apply Forall_app in Hpos as [_ [Hcp _]%Forall_cons]. unfold positive in Hcp. lia.
      * pose proof (tiled_before areas l1 b l2 c Hareas Hpos Htile Hc). lia.
    + pose proof (headers_apart areas live l c b Hsh Hc Hb Hgt). unfold header_size in *. lia.
Qed.

(** Payloads of different blocks do not overlap. *)
Lemma owns_apart areas live l x y : shape areas live l -> owns l x -> owns l y -> x.1 <> y.1 -> x.1 + x.2 <= y.1 \/ y.1 + y.2 <= x.1.
Proof.
  intros Hsh Hx Hy Hne. pose proof Hx as (b & Hb & _ & Eb & _). pose proof Hy as (c & Hc & _ & Ec & _).
  destruct (payload_inside _ _ _ _ Hsh Hx) as [_ Hxc]. destruct (payload_inside _ _ _ _ Hsh Hy) as [_ Hyb].
  specialize (Hxc c Hc). specialize (Hyb b Hb). unfold header_size in *. lia.
Qed.
End Shape.

(** ** Runs *)

Section Run.
Context `{PageConfig} {V : Type} `{VmmAlloc V}.
Implicit Types (s : heap_state V) (areas live : list (Z * Z)) (b q : block) (l : list block).

(** The pages [expand_heap] gets for [size] bytes, as [vmm_alloc] returned them at [t]. *)
Definition new_area (size t : Z) : Z * Z := (t, KERNEL_PAGE_SIZE * get_number_of_pages_from_size (real_size size)).

(** A run of the heap, with the areas it got pages for and the payloads handed out
    and not freed yet, by address and size. The areas are whole pages, each behind
    the ones before it, with or without pages between them. A call of [kmalloc] either
    finds a block or the end of the list before it comes to the header at
    [kernel_heap_end], or finds nothing and comes there at the last block: then it
    asks for pages. In between others use the virtual memory manager. Two kinds of calls end the run: one that comes to
    [kernel_heap_end] at a header which is not the last ([drop_blocks] below), and one
    that puts the header of what is left of a block across the end of the area
    ([split_header_past_page] below). Requests near 2^64, and from 2^63 on when the
    heap has to grow, are left out ([kmalloc_size_wraps] below). *)
Inductive heap_run : heap_state V -> list (Z * Z) -> list (Z * Z) -> Prop :=
| run_initialize s0 t v s :
    vmm_alloc PAGE_SIZE_IN_BYTES (Z.lor VMM_FLAGS_PRESENT VMM_FLAGS_WRITE_ENABLE) 0 s0.(heap_vmm) = Ret (t, v) ->
    area_ok (t, PAGE_SIZE_IN_BYTES) ->
    initialize_kheap s0 = Ret (tt, s) -> heap_run s [(t, PAGE_SIZE_IN_BYTES)] []
| run_kmalloc s areas live l size r s' :
    heap_run s areas live -> heap_links s l -> 0 < size < 2 ^ 64 - 64 ->
    s.(kernel_heap_end) ∉ addrs (skipped (real_size size) l) ->
    (forall a l', alloc_blocks (real_size size) l = Some (a, l') -> Forall (header_inside areas) l') ->
    kmalloc size s = Ret (r, s') -> heap_run s' areas (if r =? 0 then live else (r, size) :: live)
| run_kmalloc_grows s areas live l size t v r s' :
    heap_run s areas live -> heap_tail s l -> 0 < size < 2 ^ 63 -> alloc_blocks (real_size size) l = None ->
    vmm_alloc (real_size size) (Z.lor VMM_FLAGS_PRESENT VMM_FLAGS_WRITE_ENABLE) 0 s.(heap_vmm) = Ret (t, v) ->
    area_ok (new_area size t) -> Forall (fun x => x.1 + x.2 <= t) areas ->
    Forall (header_inside [new_area size t]) (take_block (real_size size) (tail_block (real_size size) t)) ->
    kmalloc size s = Ret (r, s') ->
    heap_run s' (areas ++ [new_area size t]) (if r =? 0 then live else (r, size) :: live)
| run_kfree s areas live1 p n live2 s' :
    heap_run s areas (live1 ++ (p, n) :: live2) -> kfree p s = Ret (tt, s') -> heap_run s' areas (live1 ++ live2)
| run_others s areas live v : heap_run s areas live -> heap_run (set_heap_vmm v s) areas live.

(** Two lists of blocks for the same memory are the same. *)
Lemma dseg_unique h l1 : forall p l2, headers_ok l1 -> headers_ok l2 -> hd_addr l1 0 = hd_addr l2 0 ->
  dseg h p l1 0 -> dseg h p l2 0 -> l1 = l2.
Proof.
  induction l1 as [|b l1 IH]; intros p [|c l2] Hok1 Hok2 Hh Hd1 Hd2; simpl in Hh; try done.
  - apply headers_cons in Hok2 as ((? & _) & _). lia.
  - apply headers_cons in Hok1 as ((? & _) & _). lia.
  - apply headers_cons in Hok1 as (_ & Hok1 & _). apply headers_cons in Hok2 as (_ & Hok2 & _).
    destruct Hd1 as [Hb Hd1], Hd2 as [Hc Hd2]. rewrite Hh, Hc in Hb. destruct b as [ba bs bf], c as [ca cs cf]. simpl in *.
    injection Hb as Es Ef En. subst. f_equal. by apply (IH ca).
Qed.

Lemma heap_links_unique s l1 l2 : heap_links s l1 -> heap_links s l2 -> l1 = l2.
Proof. intros (_ & Hd1 & Hs1 & Hok1) (_ & Hd2 & Hs2 & Hok2). eapply dseg_unique; try done. congruence. Qed.

Definition heap_good s areas live l : Prop := heap_links s l /\ shape areas live l.

Lemma skipped_none real l : Forall (fun c => fits real c = false) l -> skipped real l = l.
Proof. induction 1 as [|c l Hc _ IH]; [done|]. simpl. by rewrite Hc, IH. Qed.

Lemma alloc_first real l1 b l2 : fits real b = true -> Forall (fun c => fits real c = false) l1 ->
  alloc_blocks real (l1 ++ b :: l2) = Some (b.(b_addr), l1 ++ take_block real b ++ l2).
Proof. intros Hf Hall. induction Hall as [|c l1 Hc _ IH]; simpl; [by rewrite Hf|]. by rewrite Hc, IH. Qed.

Lemma good_kmalloc s areas live l size :
  heap_good s areas live l -> 0 < size < 2 ^ 64 - 64 -> s.(kernel_heap_end) ∉ addrs (skipped (real_size size) l) ->
  (forall a l', alloc_blocks (real_size size) l = Some (a, l') -> Forall (header_inside areas) l') ->
  exists r s' l', kmalloc size s = Ret (r, s') /\ heap_good s' areas (if r =? 0 then live else (r, size) :: live) l'.
Proof.
  intros [Hrep Hsh] Hs Hend Hin. destruct (alloc_blocks (real_size size) l) as [[a l']|] eqn:Ha.
  2: { exists 0, s, l. split; [|by split]. apply kmalloc_stale_links with l; try done.
       by rewrite skipped_none in Hend by by apply alloc_blocks_none. }
  specialize (Hin a l' eq_refl). apply alloc_blocks_split in Ha as (l1 & b & l2 & -> & -> & -> & Hf & Hall).
  rewrite skipped_split in Hend by done. destruct (header_in _ b (proj2 (proj2 (proj2 Hrep)))) as (Hba & _ & _); [set_solver|].
  pose proof (shape_take areas live l1 b l2 size Hs Hf Hsh Hin) as Hsh'.
  destruct (kmalloc_links s l1 b l2 size Hrep Hs Hf Hall Hend (shape_links _ _ _ Hsh')) as (h & Hrun & Hrep').
  eexists _, _, _. split; [exact Hrun|]. split; [exact Hrep'|].
  destruct (Z.eqb_spec (b.(b_addr) + header_size) 0); [unfold header_size in *; lia|done].
Qed.

(** The last block ends at no page, so that new pages never touch it. *)
Lemma tail_apart areas l0 q size t : areas_ok areas -> tiled areas (l0 ++ [q]) -> area_ok (new_area size t) ->
  joinable q (tail_block (real_size size) t) = false.
Proof.
  intros Hok (areas1 & x & areas2 & k1 & m1 & m2 & k2 & -> & _ & E & _ & H2 & _)%tiled_at Ha.
  symmetry in E. apply app_eq_nil in E as [-> ->]. apply tile_last in H2. apply Z.eqb_neq. rewrite H2.
  apply (not_touching x (new_area size t)); [|done]. apply (areas_ok_in _ x Hok). set_solver.
Qed.

Lemma header_inside_mono areas areas' b : areas ⊆ areas' -> header_inside areas b -> header_inside areas' b.
Proof. intros Hsub (x & Hx & Hb). exists x. auto. Qed.

Lemma good_kmalloc_grows s areas live l size t v :
  heap_tail s l -> shape areas live l -> 0 < size < 2 ^ 63 -> alloc_blocks (real_size size) l = None ->
  vmm_alloc (real_size size) (Z.lor VMM_FLAGS_PRESENT VMM_FLAGS_WRITE_ENABLE) 0 s.(heap_vmm) = Ret (t, v) ->
  area_ok (new_area size t) -> Forall (fun x => x.1 + x.2 <= t) areas ->
  Forall (header_inside [new_area size t]) (take_block (real_size size) (tail_block (real_size size) t)) ->
  exists r s' l', kmalloc size s = Ret (r, s') /\
    heap_good s' (areas ++ [new_area size t]) (if r =? 0 then live else (r, size) :: live) l'.
Proof.
  intros Hinv Hsh Hs Hnone Hvmm Ha Hlater Hin. pose proof Hinv as [Hrep Hend]. destruct (exists_last (proj1 Hrep)) as (l0 & q & ->).
  pose proof (tail_apart areas l0 q size t (sh_areas _ _ _ Hsh) (sh_tiled _ _ _ Hsh) Ha) as Hj.
  assert (fits (real_size size) (tail_block (real_size size) t) = true) as Hf.
  { apply tail_block_fits. pose proof (real_size_bounds size ltac:(lia)). pose proof page_size_bounds. unfold header_size in *. lia. }
  assert (shape (areas ++ [new_area size t]) live ((l0 ++ [q]) ++ [tail_block (real_size size) t])) as Hsh1.
  { apply shape_grow; [done|done| |done]. rewrite last_snoc. change (negb (b_free q && true && joinable q (tail_block (real_size size) t)) = true). by rewrite Hj, andb_false_r. }
  assert (0 < size < 2 ^ 64 - 64) as Hs' by lia.
  pose proof (shape_take _ live (l0 ++ [q]) (tail_block (real_size size) t) [] size Hs' Hf Hsh1) as Hsh2. rewrite app_nil_r in Hsh2.
  specialize (Hsh2 ltac:(apply Forall_app; split;
    (eapply Forall_impl; [first [exact (sh_headers _ _ _ Hsh)|exact Hin]|intros b; apply header_inside_mono; set_solver]))).
  assert (headers_ok ((l0 ++ [q]) ++ take_block (real_size size) (tail_block (real_size size) t))) as Hok2 by exact (shape_links _ _ _ Hsh2).
  destruct (kmalloc_grows_links s l0 q size t v Hinv Hs Hnone Hvmm (shape_links _ _ _ Hsh1)) as (r & s2 & Hrun & _ & Hcase).
  { by rewrite Hj, andb_false_r. }
  rewrite Hj, andb_false_r in Hcase. destruct Hcase as [-> [Hrep2 _]]. eexists _, s2, _. split; [exact Hrun|]. split; [exact Hrep2|].
  destruct Ha as [Ht _ _ _]. simpl in Ht. destruct (Z.eqb_spec (t + header_size) 0); [unfold header_size in *; lia|done].
Qed.

Lemma good_kfree s areas live1 p n live2 l :
  heap_good s areas (live1 ++ (p, n) :: live2) l ->
  exists s' l', kfree p s = Ret (tt, s') /\ heap_good s' areas (live1 ++ live2) l'.
Proof.
  intros [Hrep Hsh]. pose proof (sh_owns _ _ _ Hsh) as Hown. rewrite Forall_forall in Hown.
  destruct (Hown (p, n) ltac:(set_solver)) as (b & Hb & Hbf & Ep & _). simpl in Ep.
  apply list_elem_of_split in Hb as (l1 & l2 & ->).
  pose proof (kfree_links s l1 b l2 Hrep) as Hrun. cbv zeta in Hrun. rewrite <- Ep in Hrun. destruct (_ && _).
  - destruct Hrun as (h & Hrun & Hrep'). eexists _, _. split; [exact Hrun|]. split; [exact Hrep'|].
    by apply (shape_free areas live1 p n).
  - eexists _, _. split; [exact Hrun|]. split; [exact Hrep|]. by eapply shape_forget.
Qed.

Lemma good_initialize s0 t v s :
  vmm_alloc PAGE_SIZE_IN_BYTES (Z.lor VMM_FLAGS_PRESENT VMM_FLAGS_WRITE_ENABLE) 0 s0.(heap_vmm) = Ret (t, v) ->
  area_ok (t, PAGE_SIZE_IN_BYTES) -> initialize_kheap s0 = Ret (tt, s) ->
  heap_good s [(t, PAGE_SIZE_IN_BYTES)] [] [mk_block t PAGE_SIZE_IN_BYTES true].
Proof.
  intros Hv Ha Hrun. assert (shape [(t, PAGE_SIZE_IN_BYTES)] [] [mk_block t PAGE_SIZE_IN_BYTES true]) as Hsh.
  { apply (shape_grow [] [] [] t PAGE_SIZE_IN_BYTES); [done|constructor|done|]. split; try constructor. exists []. split; [done|constructor]. }
  destruct Ha as [Ht _ Htop _]. simpl in Ht, Htop.
  destruct (initialize_kheap_block s0 t v Hv Ht Htop) as (s1 & Hrun1 & [Hinv _] & _ & _).
  rewrite Hrun in Hrun1. injection Hrun1 as <-. split; [by apply repr_links|exact Hsh].
Qed.

Lemma run_good s areas live : heap_run s areas live -> exists l, heap_good s areas live l.
Proof.
  induction 1 as [s0 t v s Hv Ha Hrun|s areas live l0 size r s' _ [l Hg] Hrep Hs Hend Hin Hrun
    |s areas live l0 size t v r s' _ [l Hg] Hinv Hs Hnone Hv Ha Hlater Hin Hrun|s areas live1 p n live2 s' _ [l Hg] Hrun|s areas live v _ [l Hg]].
  - eexists. by apply (good_initialize s0 t v s).
  - rewrite (heap_links_unique s l0 l Hrep (proj1 Hg)) in Hend, Hin.
    destruct (good_kmalloc s areas live l size Hg Hs Hend Hin) as (r1 & s1 & l' & Hrun1 & Hg').
    rewrite Hrun in Hrun1. injection Hrun1 as <- <-. by exists l'.
  - pose proof (heap_links_unique s l0 l (proj1 Hinv) (proj1 Hg)) as ->.
    destruct (good_kmalloc_grows s areas live l size t v Hinv (proj2 Hg) Hs Hnone Hv Ha Hlater Hin) as (r1 & s1 & l' & Hrun1 & Hg').
    rewrite Hrun in Hrun1. injection Hrun1 as <- <-. by exists l'.
  - destruct (good_kfree s areas live1 p n live2 l Hg) as (s1 & l' & Hrun1 & Hg').
    rewrite Hrun in Hrun1. injection Hrun1 as <-. by exists l'.
  - by exists l.
Qed.

(** C5: In every state a run of [kmalloc] and [kfree] reaches after [initialize_kheap],
    the heap growing by areas of whole pages that may follow each other at once, and
    others using the virtual memory manager in between: the
    headers are linked as a list, each in the memory of an area and clear of the
    others; the blocks of an area fill it from its start on, to the 32 bytes past its
    end that it is credited on top; no two neighbours are free with nothing between
    them. Every payload handed out lies in the memory of an area, clear of every
    header, those of the next area too that its block may reach over; no two payloads
    overlap; and [kfree] of each returns. A run here does not go on after a call
    which comes to [kernel_heap_end] at a header that is not the last, or puts a
    header across the end of its area (the code does both), or asks for close to 2^64
    bytes (2^63 when the heap grows). *)
Theorem heap_run_invariant s areas live : heap_run s areas live ->
  exists l, heap_links s l /\ areas_ok areas /\ tiled areas l /\ settled None l /\
    (forall b, b ∈ l -> header_inside areas b) /\
    (forall b c, b ∈ l -> c ∈ l -> b.(b_addr) < c.(b_addr) -> b.(b_addr) + header_size <= c.(b_addr)) /\
    (forall x, x ∈ live ->
       (exists y, y ∈ areas /\ y.1 <= x.1 /\ x.1 + x.2 <= y.1 + y.2) /\
       (forall b, b ∈ l -> b.(b_addr) + header_size <= x.1 \/ x.1 + x.2 <= b.(b_addr)) /\
       exists s', kfree x.1 s = Ret (tt, s')) /\
    (forall i j x y, i <> j -> live !! i = Some x -> live !! j = Some y -> x.1 + x.2 <= y.1 \/ y.1 + y.2 <= x.1).
Proof.
  intros Hrun. destruct (run_good s areas live Hrun) as [l Hg]. pose proof Hg as [Hrep Hsh].
  pose proof Hsh as [Hareas _ Htile Hin Hset Hnd Hown]. rewrite Forall_forall in Hin. rewrite Forall_forall in Hown.
  exists l. split_and!; try done.
  - intros b c Hb Hc. by apply (headers_apart areas live l).
  - intros [p n] Hx. destruct (payload_inside areas live l (p, n) Hsh (Hown _ Hx)) as [Hy Hc]. split; [done|]. split; [done|].
    apply list_elem_of_split in Hx as (live1 & live2 & ->). destruct (good_kfree s areas live1 p n live2 l Hg) as (s' & _ & Hrun' & _). by exists s'.
  - intros i j x y Hij Hx Hy. apply (owns_apart areas live l x y Hsh); [apply Hown; by eapply list_elem_of_lookup_2|apply Hown; by eapply list_elem_of_lookup_2|].
    intros E. apply Hij. apply (NoDup_lookup live.*1 i j x.1); [done| |]; rewrite list_lookup_fmap; [by rewrite Hx|by rewrite Hy, E].
Qed.
End Run.

(** ** Witness *)

(** The heap before [initialize_kheap], over the kernel's own virtual memory manager
    on [sample_vmm]; after it; after 10 bytes are allocated; and after more than the
    page has left, which makes the heap grow by the two pages that follow at once. *)
#[local] Instance kernel_pages : VmmAlloc (vmm_state pmm_state) :=
  @vmm_heap_pages large_pages pmm_state (@pmm_frame_source large_pages).
Definition unset_heap : heap_state (vmm_state pmm_state) := mk_heap ∅ 0 0 0 sample_vmm.
Definition state_of {S A : Type} (d : S) (r : outcome (A * S)) : S := match r with Ret (_, s) => s | _ => d end.
Definition first_heap := state_of unset_heap (@initialize_kheap large_pages _ kernel_pages unset_heap).
Definition second_heap := state_of unset_heap (@kmalloc large_pages _ kernel_pages 10 first_heap).
Definition third_heap := state_of unset_heap (@kmalloc large_pages _ kernel_pages 0x200000 second_heap).
Definition first_blocks : list block := [mk_block 0xffff81c4c0600000 0x200000 true].
Definition second_blocks : list block := [mk_block 0xffff81c4c0600000 0x30 false; mk_block 0xffff81c4c0600050 0x1fffb0 true].
Definition sample_areas : list (Z * Z) := [(0xffff81c4c0600000, 0x200000); (0xffff81c4c0800000, 0x400000)].

Lemma state_of_ret {S} (r : outcome (Z * S)) d a : (match r with Ret (x, _) => x =? a | _ => false end) = true -> r = Ret (a, state_of d r).
Proof. destruct r as [[x s]| |]; try done. by intros ->%Z.eqb_eq. Qed.

Lemma headers_decide l :
  forallb (fun b => (0 <? b.(b_addr)) && (0 <=? b.(b_size)) && (b_end b <? 2 ^ 64)) l && bool_decide (NoDup (addrs l)) = true -> headers_ok l.
Proof.
  intros [Hb Hn%bool_decide_eq_true]%andb_prop. split; [|done]. apply Forall_forall. intros b Hin.
  rewrite forallb_forall in Hb. specialize (Hb b ltac:(by apply list_elem_of_In)). unfold block_ok. zbool. lia.
Qed.

Lemma second_links : heap_links second_heap second_blocks.
Proof.
  split; [done|]. split; [simpl; split_and!; vm_compute; reflexivity|]. split; [vm_compute; reflexivity|].
  apply headers_decide. vm_compute. reflexivity.
Qed.

Ltac area := split; [vm_compute; reflexivity..|split; vm_compute; reflexivity].

Lemma sample_run : @heap_run large_pages _ kernel_pages third_heap sample_areas
  [(0xffff81c4c0800020, 0x200000); (0xffff81c4c0600020, 10)].
Proof.
  assert (@heap_run large_pages _ kernel_pages first_heap [(0xffff81c4c0600000, 0x200000)] []) as H1.
  { apply (@run_initialize large_pages _ kernel_pages unset_heap 0xffff81c4c0600000
      (state_of sample_vmm (@vmm_alloc _ kernel_pages 0x200000 3 0 sample_vmm))).
    - apply state_of_ret. vm_compute. reflexivity.
    - area.
    - unfold first_heap. assert (exists s, @initialize_kheap large_pages _ kernel_pages unset_heap = Ret (tt, s)) as [s Hs]; [|by rewrite Hs].
      destruct (@initialize_kheap_block large_pages _ kernel_pages unset_heap 0xffff81c4c0600000
        (state_of sample_vmm (@vmm_alloc _ kernel_pages 0x200000 3 0 sample_vmm))) as (s & Hs & _); [| | |by exists s].
      + apply state_of_ret. vm_compute. reflexivity.
      + lia.
      + vm_compute. reflexivity. }
  assert (@heap_run large_pages _ kernel_pages second_heap [(0xffff81c4c0600000, 0x200000)] [(0xffff81c4c0600020, 10)]) as H2.
  { apply (@run_kmalloc large_pages _ kernel_pages first_heap _ [] first_blocks 10 0xffff81c4c0600020 second_heap H1).
    - split; [done|]. split; [simpl; split_and!; vm_compute; reflexivity|]. split; [vm_compute; reflexivity|].
      apply headers_decide. vm_compute. reflexivity.
    - lia.
    - vm_compute. intros Hin. by apply elem_of_nil in Hin.
    - intros a l' Ha. assert (Some (0xffff81c4c0600000, second_blocks) = Some (a, l')) as [= <- <-] by (rewrite <- Ha; vm_compute; reflexivity).
      repeat constructor; exists (0xffff81c4c0600000, 0x200000); (split; [apply list_elem_of_here|]); vm_compute; split; discriminate.
    - apply state_of_ret. vm_compute. reflexivity. }
  apply (@run_kmalloc_grows large_pages _ kernel_pages second_heap _ _ second_blocks 0x200000 0xffff81c4c0800000
    (state_of sample_vmm (@vmm_alloc _ kernel_pages 0x200030 3 0 second_heap.(heap_vmm))) 0xffff81c4c0800020 third_heap H2).
  - split; [exact second_links|vm_compute; reflexivity].
  - lia.
  - vm_compute. reflexivity.
  - apply state_of_ret. vm_compute. reflexivity.
  - area.
  - repeat constructor. vm_compute. discriminate.
  - repeat constructor; exists (@new_area large_pages 0x200000 0xffff81c4c0800000); (split; [apply list_elem_of_here|]); vm_compute; split; discriminate.
  - apply state_of_ret. vm_compute. reflexivity.
Qed.

Lemma heap_run_invariant_witness : exists l, heap_links third_heap l /\ tiled sample_areas l /\
  (forall b, b ∈ l -> b.(b_addr) + header_size <= 0xffff81c4c0600020 \/ 0xffff81c4c0600020 + 10 <= b.(b_addr)) /\
  exists s', @kfree (vmm_state pmm_state) 0xffff81c4c0800020 third_heap = Ret (tt, s').
Proof.
  destruct (@heap_run_invariant large_pages _ kernel_pages third_heap sample_areas _ sample_run)
    as (l & Hrep & _ & Htile & _ & _ & _ & Hlive & _).
  exists l. split; [exact Hrep|]. split; [exact Htile|]. split.
  - apply (Hlive (0xffff81c4c0600020, 10)). apply list_elem_of_further, list_elem_of_here.
  - apply (Hlive (0xffff81c4c0800020, 0x200000)). apply list_elem_of_here.
Defined.

(** ** Where a run ends *)

(** A heap of one page, whose virtual memory manager returns areas that follow each
    other, as [vmm_alloc] does. *)
#[local] Instance next_alloc : VmmAlloc Z :=
  fun size _ _ => fun v => Ret (v, v + @align_value_to_page large_pages size).
Definition page_heap : heap_state Z :=
  mk_heap {[ 0x40000000 := mk_node 0x200000 true 0 0 ]} 0x40000000 0x40000000 0x40000000 0x40200000.

(** The page is 0x200000 bytes, and so is its block, header not counted. A request that
    leaves 48 bytes of the block puts the header of what is left 16 bytes across the
    end of the page: over the header of the next area, or where no memory is mapped. *)
Example split_header_past_page : exists s', @kmalloc large_pages Z next_alloc 0x1fffa0 page_heap = Ret (0x40000020, s') /\
  s'.(nodes) !! 0x401ffff0 = Some (mk_node 0x10 true 0 0x40000000) /\
  0x40200000 < 0x401ffff0 + header_size.
Proof. eexists. split; [vm_compute; reflexivity|]. split; vm_compute; reflexivity. Qed.

(** Once the end pointer is stale a split can put a header at it again, with blocks
    behind it. The next request for pages links the new area after that header and
    drops those blocks: the third allocation is no longer in the list, and freeing
    it does nothing. *)
Definition drop_blocks : M (heap_state Z) Z :=
  let! p1 := @kmalloc large_pages Z next_alloc 10 in
  do! kfree p1 in
  let! p2 := @kmalloc large_pages Z next_alloc 200 in
  let! p3 := @kmalloc large_pages Z next_alloc 50 in
  do! kfree p2 in
  let! p4 := @kmalloc large_pages Z next_alloc 10 in
  let! p5 := @kmalloc large_pages Z next_alloc 0x300000 in
  ret p3.

Lemma kmalloc_drops_blocks : exists p3 s l,
  drop_blocks page_heap = Ret (p3, s) /\ heap_links s l /\ (p3 - header_size) ∉ addrs l /\
  @kfree Z p3 s = Ret (tt, s).
Proof.
  eexists _, _, [mk_block 0x40000000 0x30 false; mk_block 0x40000050 0xa0 true; mk_block 0x40200000 0x300030 false;
    mk_block 0x40500050 0xfffb0 true].
  split; [vm_compute; reflexivity|]. split; [|split; [|vm_compute; reflexivity]].
  - split; [done|split; [|split; [done|]]].
    + simpl. by split_and!.
    + apply headers_decide. vm_compute. reflexivity.
  - simpl. intros Hin. repeat (apply elem_of_cons in Hin as [Hin|Hin]; [discriminate Hin|]). by apply elem_of_nil in Hin.
Qed.

(** A size close to [2 ^ 64] wraps around when the header is added: the block handed
    out has 32 bytes. *)
Lemma kmalloc_size_wraps : exists s', @kmalloc large_pages Z next_alloc (2 ^ 64 - 1) page_heap = Ret (0x40000020, s') /\
  s'.(nodes) !! 0x40000000 = Some (mk_node 0x20 false 0x40000040 0).
Proof. eexists. split; vm_compute; reflexivity. Qed.
