(* ===== verification/Scheduler.v ===== *)
(** The scheduler: [kernel/scheduling/scheduler.c], with the structures of
    [thread.h] and [task.h]. Threads and tasks are records behind pointers; the
    thread list is linked through [thread_next]. Its abstraction is the list of the
    pointers, on which [pick] says which thread [schedule] runs. *)
From S2P Require Import Prelude.

Definition SCHEDULER_NUMBER_OF_TICKS : Z := 0x200.

Inductive thread_status : Type :=
| NEW
| INIT
| RUN
| READY
| SLEEP
| WAIT
| DEAD.
#[export] Instance thread_status_eq_dec : EqDecision thread_status.
Proof. solve_decision. Defined.

Inductive task_status_e : Type :=
| ALIVE
| EXTERMINATED.

Record thread_t : Type := mk_thread {
  tid : Z;
  thread_name : list Z;
  stack : Z;
  parent_task : Z;
  status : thread_status;
  ticks : Z;
  execution_frame : Z;
  wakeup_time : Z;
  next_sibling : Z;
  thread_next : Z;
  rsp0 : Z;
  thread_exit_code : Z;
}.

(** A task without its [VmmInfo], which is in the state of the memory manager. *)
Record task_t : Type := mk_task {
  task_id : Z;
  task_name : list Z;
  vm_root_page_table : Z;
  next_file_descriptor : Z;
  task_threads : Z;
  task_parent : Z;
  task_next : Z;
  running_threads : Z;
  task_status : task_status_e;
  task_exit_code : Z;
}.

Definition set_status (x : thread_status) (t : thread_t) : thread_t :=
  mk_thread t.(tid) t.(thread_name) t.(stack) t.(parent_task) x t.(ticks) t.(execution_frame)
    t.(wakeup_time) t.(next_sibling) t.(thread_next) t.(rsp0) t.(thread_exit_code).
Definition set_ticks (x : Z) (t : thread_t) : thread_t :=
  mk_thread t.(tid) t.(thread_name) t.(stack) t.(parent_task) t.(status) x t.(execution_frame)
    t.(wakeup_time) t.(next_sibling) t.(thread_next) t.(rsp0) t.(thread_exit_code).
Definition set_frame (x : Z) (t : thread_t) : thread_t :=
  mk_thread t.(tid) t.(thread_name) t.(stack) t.(parent_task) t.(status) t.(ticks) x
    t.(wakeup_time) t.(next_sibling) t.(thread_next) t.(rsp0) t.(thread_exit_code).
Definition set_wakeup_time (x : Z) (t : thread_t) : thread_t :=
  mk_thread t.(tid) t.(thread_name) t.(stack) t.(parent_task) t.(status) t.(ticks) t.(execution_frame)
    x t.(next_sibling) t.(thread_next) t.(rsp0) t.(thread_exit_code).
Definition set_sibling (x : Z) (t : thread_t) : thread_t :=
  mk_thread t.(tid) t.(thread_name) t.(stack) t.(parent_task) t.(status) t.(ticks) t.(execution_frame)
    t.(wakeup_time) x t.(thread_next) t.(rsp0) t.(thread_exit_code).
Definition set_thread_next (x : Z) (t : thread_t) : thread_t :=
  mk_thread t.(tid) t.(thread_name) t.(stack) t.(parent_task) t.(status) t.(ticks) t.(execution_frame)
    t.(wakeup_time) t.(next_sibling) x t.(rsp0) t.(thread_exit_code).
Definition set_parent_task (x : Z) (t : thread_t) : thread_t :=
  mk_thread t.(tid) t.(thread_name) t.(stack) x t.(status) t.(ticks) t.(execution_frame)
    t.(wakeup_time) t.(next_sibling) t.(thread_next) t.(rsp0) t.(thread_exit_code).
Definition set_running_threads (x : Z) (t : task_t) : task_t :=
  mk_task t.(task_id) t.(task_name) t.(vm_root_page_table) t.(next_file_descriptor) t.(task_threads)
    t.(task_parent) t.(task_next) x t.(task_status) t.(task_exit_code).
Definition set_task_next (x : Z) (t : task_t) : task_t :=
  mk_task t.(task_id) t.(task_name) t.(vm_root_page_table) t.(next_file_descriptor) t.(task_threads)
    t.(task_parent) x t.(running_threads) t.(task_status) t.(task_exit_code).
Definition set_task_threads (x : Z) (t : task_t) : task_t :=
  mk_task t.(task_id) t.(task_name) t.(vm_root_page_table) t.(next_file_descriptor) x
    t.(task_parent) t.(task_next) t.(running_threads) t.(task_status) t.(task_exit_code).
Definition set_next_file_descriptor (x : Z) (t : task_t) : task_t :=
  mk_task t.(task_id) t.(task_name) t.(vm_root_page_table) x t.(task_threads)
    t.(task_parent) t.(task_next) t.(running_threads) t.(task_status) t.(task_exit_code).

(** The globals of the scheduler, with the registers and the fields of
    [kernel_settings] and [kernel_tss] it works on. *)
Record sched_state : Type := mk_sched {
  threads : gmap Z thread_t;
  tasks : gmap Z task_t;
  scheduler_ticks : Z;
  next_thread_id : Z;
  next_task_id : Z;
  thread_list : Z;
  current_executing_thread : Z;
  idle_thread : Z;
  root_task : Z;
  thread_list_size : Z;
  kernel_uptime : Z;
  sched_cr3 : Z;
  tss_rsp0 : Z;
}.

Definition set_threads (m : gmap Z thread_t) (s : sched_state) : sched_state :=
  mk_sched m s.(tasks) s.(scheduler_ticks) s.(next_thread_id) s.(next_task_id) s.(thread_list)
    s.(current_executing_thread) s.(idle_thread) s.(root_task) s.(thread_list_size) s.(kernel_uptime) s.(sched_cr3) s.(tss_rsp0).
Definition set_tasks (m : gmap Z task_t) (s : sched_state) : sched_state :=
  mk_sched s.(threads) m s.(scheduler_ticks) s.(next_thread_id) s.(next_task_id) s.(thread_list)
    s.(current_executing_thread) s.(idle_thread) s.(root_task) s.(thread_list_size) s.(kernel_uptime) s.(sched_cr3) s.(tss_rsp0).
Definition set_ids (thread_id task_id : Z) (s : sched_state) : sched_state :=
  mk_sched s.(threads) s.(tasks) s.(scheduler_ticks) thread_id task_id s.(thread_list)
    s.(current_executing_thread) s.(idle_thread) s.(root_task) s.(thread_list_size) s.(kernel_uptime) s.(sched_cr3) s.(tss_rsp0).
Definition set_list (head size : Z) (s : sched_state) : sched_state :=
  mk_sched s.(threads) s.(tasks) s.(scheduler_ticks) s.(next_thread_id) s.(next_task_id) head
    s.(current_executing_thread) s.(idle_thread) s.(root_task) size s.(kernel_uptime) s.(sched_cr3) s.(tss_rsp0).
Definition set_current (p : Z) (s : sched_state) : sched_state :=
  mk_sched s.(threads) s.(tasks) s.(scheduler_ticks) s.(next_thread_id) s.(next_task_id) s.(thread_list)
    p s.(idle_thread) s.(root_task) s.(thread_list_size) s.(kernel_uptime) s.(sched_cr3) s.(tss_rsp0).
Definition set_root_task (p : Z) (s : sched_state) : sched_state :=
  mk_sched s.(threads) s.(tasks) s.(scheduler_ticks) s.(next_thread_id) s.(next_task_id) s.(thread_list)
    s.(current_executing_thread) s.(idle_thread) p s.(thread_list_size) s.(kernel_uptime) s.(sched_cr3) s.(tss_rsp0).
Definition set_clock (ticks uptime : Z) (s : sched_state) : sched_state :=
  mk_sched s.(threads) s.(tasks) ticks s.(next_thread_id) s.(next_task_id) s.(thread_list)
    s.(current_executing_thread) s.(idle_thread) s.(root_task) s.(thread_list_size) uptime s.(sched_cr3) s.(tss_rsp0).
Definition set_context (cr3 rsp0 : Z) (s : sched_state) : sched_state :=
  mk_sched s.(threads) s.(tasks) s.(scheduler_ticks) s.(next_thread_id) s.(next_task_id) s.(thread_list)
    s.(current_executing_thread) s.(idle_thread) s.(root_task) s.(thread_list_size) s.(kernel_uptime) cr3 rsp0.

Definition read_thread (p : Z) : M sched_state thread_t :=
  if p =? 0 then throw NullDeref else let! s := get in lift_opt OutOfBounds (s.(threads) !! p).
Definition write_thread (p : Z) (t : thread_t) : M sched_state unit :=
  if p =? 0 then throw NullDeref else modify (fun s => set_threads (<[p := t]> s.(threads)) s).
Definition update_thread (p : Z) (f : thread_t -> thread_t) : M sched_state unit :=
  let! t := read_thread p in write_thread p (f t).
Definition read_task (p : Z) : M sched_state task_t :=
  if p =? 0 then throw NullDeref else let! s := get in lift_opt OutOfBounds (s.(tasks) !! p).
Definition write_task (p : Z) (t : task_t) : M sched_state unit :=
  if p =? 0 then throw NullDeref else modify (fun s => set_tasks (<[p := t]> s.(tasks)) s).
Definition update_task (p : Z) (f : task_t -> task_t) : M sched_state unit :=
  let! t := read_task p in write_task p (f t).

(** The list is walked with a fuel above the number of threads there are. *)
Definition list_fuel (s : sched_state) : nat := Datatypes.S (Datatypes.S (stdpp.base.size s.(threads))).

Definition init_scheduler (s : sched_state) : sched_state :=
  mk_sched s.(threads) s.(tasks) 0 0 0 0 0 0 0 0 s.(kernel_uptime) s.(sched_cr3) s.(tss_rsp0).

Definition init_kernel_settings : M sched_state unit := modify (fun s => set_clock s.(scheduler_ticks) 0 s).

Definition get_kernel_uptime : M sched_state Z := gets kernel_uptime.

Definition scheduler_add_task (task : Z) : M sched_state unit :=
  let! s := get in
  do! update_task task (set_task_next s.(root_task)) in
  modify (set_root_task task).

Definition scheduler_add_thread (thread : Z) : M sched_state unit :=
  let! s := get in
  do! update_thread thread (set_thread_next s.(thread_list)) in
  do! modify (set_list thread (u64 (s.(thread_list_size) + 1))) in
  if s.(current_executing_thread) =? 0 then modify (set_current thread) else ret tt.

(** The search of [scheduler_delete_thread]: the item and the one before it. *)
Fixpoint find_thread (fuel : nat) (thread_id prev_item thread_item : Z) : M sched_state (Z * Z) :=
  match fuel with
  | O => diverge
  | Datatypes.S fuel' =>
      if thread_item =? 0 then ret (prev_item, 0)
      else
        let! t := read_thread thread_item in
        if t.(tid) =? thread_id then ret (prev_item, thread_item)
        else find_thread fuel' thread_id thread_item t.(thread_next)
  end.

Definition scheduler_delete_thread (thread_id : Z) : M sched_state unit :=
  let! s := get in
  let! r := find_thread (list_fuel s) thread_id 0 s.(thread_list) in
  let '(prev_item, thread_item) := r in
  if thread_item =? 0 then ret tt
  else
    let! t := read_thread thread_item in
    do! (if thread_item =? s.(thread_list) then modify (set_list t.(thread_next) s.(thread_list_size))
         else update_thread prev_item (set_thread_next t.(thread_next))) in
    do! modify (fun s => set_list s.(thread_list) (u64 (s.(thread_list_size) - 1)) s) in
    update_task t.(parent_task) (fun k => set_running_threads (u64 (k.(running_threads) - 1)) k).

Definition scheduler_get_next_thread : M sched_state Z :=
  let! s := get in
  if (s.(thread_list_size) =? 0) || (s.(thread_list) =? 0) then ret 0
  else if s.(current_executing_thread) =? 0 then ret s.(thread_list)
  else
    let! c := read_thread s.(current_executing_thread) in
    if c.(thread_next) =? 0 then ret s.(thread_list) else ret c.(thread_next).

Fixpoint queue_size_loop (fuel : nat) (thread counter : Z) : M sched_state Z :=
  match fuel with
  | O => diverge
  | Datatypes.S fuel' =>
      if thread =? 0 then ret counter
      else let! t := read_thread thread in queue_size_loop fuel' t.(thread_next) (u32 (counter + 1))
  end.
Definition scheduler_get_queue_size : M sched_state Z :=
  let! s := get in queue_size_loop (list_fuel s) s.(thread_list) 0.

(** The search of [schedule] for the thread to execute. *)
Fixpoint schedule_loop (fuel : nat) (current_thread prev_thread_tid : Z) : M sched_state Z :=
  match fuel with
  | O => diverge
  | Datatypes.S fuel' =>
      let! t := read_thread current_thread in
      if t.(tid) =? prev_thread_tid then gets idle_thread
      else
        let! uptime := get_kernel_uptime in
        if decide (t.(status) = SLEEP) then
          if t.(wakeup_time) <? uptime then do! update_thread current_thread (set_status READY) in ret current_thread
          else let! n := scheduler_get_next_thread in schedule_loop fuel' n t.(tid)
        else if decide (t.(status) = DEAD) then
          do! scheduler_delete_thread t.(tid) in
          let! n := scheduler_get_next_thread in schedule_loop fuel' n t.(tid)
        else if decide (t.(status) = READY \/ t.(status) = NEW) then ret current_thread
        else let! n := scheduler_get_next_thread in schedule_loop fuel' n t.(tid)
  end.

(** [schedule], on the pointer of the frame interrupted. The last read before the
    switch is of the frame the new thread resumes from, for a log line. *)
Definition schedule (cur_status : Z) : M sched_state Z :=
  let! s := get in
  let current := s.(current_executing_thread) in
  let! c := read_thread current in
  do! (if decide (c.(status) = SLEEP) then update_thread current (set_ticks SCHEDULER_NUMBER_OF_TICKS) else ret tt) in
  let! c := read_thread current in
  do! update_thread current (set_ticks (u64 (c.(ticks) + 1))) in
  if c.(ticks) <? SCHEDULER_NUMBER_OF_TICKS then ret cur_status
  else
    do! (if decide (c.(status) = NEW) then ret tt else update_thread current (set_frame cur_status)) in
    do! (if decide (c.(status) = SLEEP \/ c.(status) = DEAD) then ret tt else update_thread current (set_status READY)) in
    let! n := scheduler_get_next_thread in
    let! thread_to_execute := schedule_loop (list_fuel s) n c.(tid) in
    do! update_thread thread_to_execute (fun t => set_ticks 0 (set_status RUN t)) in
    do! modify (set_current thread_to_execute) in
    let! t := read_thread thread_to_execute in
    let! k := read_task t.(parent_task) in
    do! modify (fun s => set_context k.(vm_root_page_table) s.(tss_rsp0) s) in
    if t.(execution_frame) =? 0 then throw NullDeref
    else
      do! modify (fun s => set_context s.(sched_cr3) t.(rsp0) s) in
      ret t.(execution_frame).

(** ** The list of threads *)

Section Queue.
Implicit Types (m : gmap Z thread_t) (s : sched_state) (l order : list Z) (p : Z).

(** The threads from [p] on, through [thread_next], are [l]. *)
Fixpoint chain m p l : Prop :=
  match l with
  | [] => p = 0
  | x :: l' => p = x /\ x <> 0 /\ exists t, m !! x = Some t /\ chain m t.(thread_next) l'
  end.

(** Where a chain starts. *)
Definition head_or p l : Z := match l with [] => p | x :: _ => x end.

Lemma chain_head m p l : chain m p l -> p = head_or 0 l.
Proof. destruct l; simpl; [done|by intros [-> _]]. Qed.

Lemma chain_lookup m p l x : chain m p l -> x ∈ l -> x <> 0 /\ exists t, m !! x = Some t.
Proof.
  revert p. induction l as [|y l IH]; simpl; intros p Hc Hx; [set_solver|].
  destruct Hc as (-> & Hy & t & Ht & Hc). apply elem_of_cons in Hx as [->|Hx]; [eauto|]. by eapply IH.
Qed.

(** The chain does not see a thread that is not in it, nor the other fields. *)
Lemma chain_frame m m' l : (forall x, x ∈ l -> thread_next <$> m' !! x = thread_next <$> m !! x) ->
  forall p, chain m p l -> chain m' p l.
Proof.
  induction l as [|y l IH]; intros Hm p; simpl; [done|]. intros (-> & Hy & t & Ht & Hc). split_and!; [done|done|].
  specialize (Hm y ltac:(set_solver)) as Hmy. rewrite Ht in Hmy. destruct (m' !! y) as [t'|] eqn:Et'; [|done].
  injection Hmy as E. exists t'. split; [done|]. rewrite E. apply IH; [|done]. intros x Hx. apply Hm. set_solver.
Qed.

Lemma chain_app m p l1 x l2 :
  chain m p (l1 ++ x :: l2) -> exists t, m !! x = Some t /\ x <> 0 /\ chain m t.(thread_next) l2.
Proof.
  revert p. induction l1 as [|y l1 IH]; simpl; intros p.
  - intros (_ & Hx & t & Ht & Hc). eauto.
  - intros (_ & _ & t & _ & Hc). by eapply IH.
Qed.

(** Unlinking a thread that is not the first. *)
Lemma chain_unlink m p l1 y x l2 t tx :
  NoDup (l1 ++ y :: x :: l2) -> m !! y = Some t -> m !! x = Some tx ->
  chain m p (l1 ++ y :: x :: l2) ->
  chain (<[y := set_thread_next tx.(thread_next) t]> m) p (l1 ++ y :: l2).
Proof.
  intros Hnd Hy Hx. revert p Hnd. induction l1 as [|z l1 IH]; simpl; intros p Hnd.
  - intros (-> & Hy0 & t' & Ht' & (_ & _ & tx' & Htx' & Hc)). assert (tx' = tx) as -> by congruence.
    split_and!; [done|done|]. eexists. rewrite lookup_insert_eq. split; [done|]. simpl.
    eapply chain_frame; [|exact Hc]. intros z Hz. rewrite lookup_insert_ne; [done|].
    intros ->. apply NoDup_cons in Hnd as [Hn _]. set_solver.
  - intros (-> & Hz & t' & Ht' & Hc). apply NoDup_cons in Hnd as [Hn Hnd]. split_and!; [done|done|].
    exists t'. rewrite lookup_insert_ne by set_solver. split; [done|]. by apply IH.
Qed.

(** A thread list in order: distinct threads with distinct ids and a parent each,
    and a count of them. *)
Record queue s l : Prop := {
  queue_chain : chain s.(threads) s.(thread_list) l;
  queue_nodup : NoDup l;
  queue_size : s.(thread_list_size) = Z.of_nat (length l);
  queue_small : Z.of_nat (length l) < 2 ^ 64;
  queue_tids : forall p q t u, p ∈ l -> q ∈ l -> s.(threads) !! p = Some t -> s.(threads) !! q = Some u ->
    t.(tid) = u.(tid) -> p = q;
  queue_tasks : forall p t, p ∈ l -> s.(threads) !! p = Some t ->
    t.(parent_task) <> 0 /\ exists k, s.(tasks) !! t.(parent_task) = Some k;
}.

Lemma queue_fuel s l : queue s l -> (length l <= stdpp.base.size s.(threads))%nat.
Proof.
  intros Hq. rewrite <- size_dom. rewrite <- (size_list_to_set (C := gset Z) l) by apply Hq.
  apply subseteq_size. intros x Hx%elem_of_list_to_set. apply elem_of_dom.
  by destruct (chain_lookup _ _ _ _ (queue_chain s l Hq) Hx) as [_ ?].
Qed.

Lemma read_thread_run s p t : p <> 0 -> s.(threads) !! p = Some t -> read_thread p s = Ret (t, s).
Proof. intros Hp Ht. unfold read_thread, bind, get. apply Z.eqb_neq in Hp. by rewrite Hp, Ht. Qed.

Lemma update_thread_run s p f t : p <> 0 -> s.(threads) !! p = Some t ->
  update_thread p f s = Ret (tt, set_threads (<[p := f t]> s.(threads)) s).
Proof.
  intros Hp Ht. unfold update_thread. rewrite (bind_run _ _ _ _ _ (read_thread_run s p t Hp Ht)).
  unfold write_thread. apply Z.eqb_neq in Hp. by rewrite Hp.
Qed.

Lemma read_task_run s p k : p <> 0 -> s.(tasks) !! p = Some k -> read_task p s = Ret (k, s).
Proof. intros Hp Hk. unfold read_task, bind, get. apply Z.eqb_neq in Hp. by rewrite Hp, Hk. Qed.

Lemma update_task_run s p f k : p <> 0 -> s.(tasks) !! p = Some k ->
  update_task p f s = Ret (tt, set_tasks (<[p := f k]> s.(tasks)) s).
Proof.
  intros Hp Hk. unfold update_task. rewrite (bind_run _ _ _ _ _ (read_task_run s p k Hp Hk)).
  unfold write_task. apply Z.eqb_neq in Hp. by rewrite Hp.
Qed.

(** The search finds the thread with the id and its predecessor. *)
Lemma find_thread_run s x t l2 : forall l1 fuel prev p,
  (length l1 < fuel)%nat -> chain s.(threads) p (l1 ++ x :: l2) -> s.(threads) !! x = Some t ->
  (forall y u, y ∈ l1 -> s.(threads) !! y = Some u -> u.(tid) <> t.(tid)) ->
  find_thread fuel t.(tid) prev p s = Ret ((default prev (last l1), x), s).
Proof.
  induction l1 as [|y l1 IH]; intros [|fuel] prev p Hf Hc Hx Hno; simpl in Hf; try lia; cbn [find_thread].
  - destruct Hc as (-> & Hx0 & _). apply Z.eqb_neq in Hx0 as Hx1. rewrite Hx1.
    rewrite (bind_run _ _ _ _ _ (read_thread_run s x t Hx0 Hx)). by rewrite Z.eqb_refl.
  - destruct Hc as (-> & Hy0 & u & Hu & Hc). apply Z.eqb_neq in Hy0 as Hy1. rewrite Hy1.
    rewrite (bind_run _ _ _ _ _ (read_thread_run s y u Hy0 Hu)).
    specialize (Hno y u ltac:(set_solver) Hu) as Hne. apply Z.eqb_neq in Hne. rewrite Hne.
    rewrite IH; [|lia|done|done|].
    + rewrite last_cons. by destruct (last l1).
    + intros z w Hz. apply Hno. set_solver.
Qed.

(** What is left of a thread when its link does not matter. *)
Definition unlinked m : gmap Z thread_t := set_thread_next 0 <$> m.

Lemma unlinked_insert m p t : unlinked (<[p := t]> m) = <[p := set_thread_next 0 t]> (unlinked m).
Proof. apply fmap_insert. Qed.

Lemma unlinked_relink m p t n : m !! p = Some t -> unlinked (<[p := set_thread_next n t]> m) = unlinked m.
Proof.
  intros Ht. rewrite unlinked_insert. apply insert_id. unfold unlinked. by rewrite lookup_fmap, Ht.
Qed.

(** The parent of a deleted thread has one running thread less. *)
Definition release m (ts : gmap Z task_t) p : gmap Z task_t :=
  match m !! p with
  | Some t => alter (fun k => set_running_threads (u64 (k.(running_threads) - 1)) k) t.(parent_task) ts
  | None => ts
  end.

(** The state but for the threads' links, the list and the tasks. *)
Definition same_rest s s' : Prop :=
  unlinked s'.(threads) = unlinked s.(threads) /\
  (exists ml ts h n, s' = set_list h n (set_tasks ts (set_threads ml s))).

(** [scheduler_delete_thread] unlinks the thread and counts it out. *)
Lemma scheduler_delete_thread_run s l1 x t l2 :
  queue s (l1 ++ x :: l2) -> s.(threads) !! x = Some t ->
  exists s', scheduler_delete_thread t.(tid) s = Ret (tt, s') /\ queue s' (l1 ++ l2) /\
    same_rest s s' /\ s'.(tasks) = release s.(threads) s.(tasks) x.
Proof.
  intros Hq Hx. pose proof (queue_fuel _ _ Hq) as Hfuel. rewrite length_app in Hfuel. simpl in Hfuel.
  destruct Hq as [Hc Hnd Hn Hs Htid Htask]. rewrite length_app in Hn, Hs. simpl in Hn, Hs.
  destruct (Htask x t ltac:(set_solver) Hx) as (Hk0 & k & Hk).
  destruct (chain_app _ _ _ _ _ Hc) as (t' & Ht' & Hx0 & Hc2). assert (t' = t) as -> by congruence.
  assert (forall y u, y ∈ l1 -> s.(threads) !! y = Some u -> u.(tid) <> t.(tid)) as Hno.
  { intros y u Hy Hu E. apply (Htid y x u t) in E; [|set_solver..|done|done]. subst y.
    apply NoDup_app in Hnd as (_ & Hd & _). specialize (Hd x Hy). set_solver. }
  unfold scheduler_delete_thread. rewrite (bind_run get _ s s s eq_refl).
  rewrite (bind_run _ _ _ _ _ (find_thread_run s x t l2 l1 (list_fuel s) 0 _ ltac:(unfold list_fuel; lia) Hc Hx Hno)).
  apply Z.eqb_neq in Hx0 as Hx1. rewrite Hx1, (bind_run _ _ _ _ _ (read_thread_run s x t Hx0 Hx)).
  assert (exists s1, (if x =? s.(thread_list) then modify (set_list t.(thread_next) s.(thread_list_size))
         else update_thread (default 0 (last l1)) (set_thread_next t.(thread_next))) s = Ret (tt, s1) /\
       (exists ml h, s1 = set_list h s.(thread_list_size) (set_threads ml s)) /\
       chain s1.(threads) s1.(thread_list) (l1 ++ l2) /\ unlinked s1.(threads) = unlinked s.(threads)) as (s1 & Hrun & (ml & h & Es) & Hc1 & Hu).
  { destruct l1 as [|y0 l0] using rev_ind.
    - simpl in Hc. destruct Hc as (Hh & _). rewrite Hh, Z.eqb_refl. eexists. split; [done|].
      split; [exists s.(threads), t.(thread_next); by destruct s|]. simpl. split; [done|done].
    - clear IHl0. rewrite last_snoc. simpl.
      assert ((x =? s.(thread_list)) = false) as ->.
      { apply Z.eqb_neq. intros E. rewrite (chain_head _ _ _ Hc) in E.
        destruct l0 as [|z l0]; simpl in E, Hnd; apply NoDup_cons in Hnd as [Hn0 _]; apply Hn0; subst; set_solver. }
      rewrite <- app_assoc in Hc, Hnd. simpl in Hc, Hnd.
      destruct (chain_app _ _ _ _ _ Hc) as (ty & Hty & Hy0 & _).
      rewrite (update_thread_run s y0 _ ty Hy0 Hty). eexists. split; [done|].
      split; [eexists _, s.(thread_list); reflexivity|]. simpl. rewrite <- app_assoc. simpl.
      split; [by apply (chain_unlink _ _ l0 y0 x l2 ty t)|by apply unlinked_relink]. }
  rewrite (bind_run _ _ _ _ _ Hrun). unfold modify at 1. rewrite (bind_run _ _ s1 tt _ eq_refl).
  subst s1. simpl in Hc1, Hu |- *.
  erewrite update_task_run; [|exact Hk0|exact Hk]. eexists. split; [done|].
  assert (forall p u, ml !! p = Some u -> exists u', s.(threads) !! p = Some u' /\ u.(tid) = u'.(tid) /\ u.(parent_task) = u'.(parent_task)) as Hsame.
  { intros p u Hp. assert (unlinked s.(threads) !! p = Some (set_thread_next 0 u)) as Hp' by
      (rewrite <- Hu; unfold unlinked; by rewrite lookup_fmap, Hp).
    unfold unlinked in Hp'. rewrite lookup_fmap in Hp'. destruct (s.(threads) !! p) as [u'|]; [|done].
    injection Hp' as E. exists u'. split; [done|]. by destruct u, u'; simplify_eq/=. }
  split; [|split].
  - constructor; simpl.
    + done.
    + apply NoDup_app in Hnd as (? & Hd & Hnd2). apply NoDup_cons in Hnd2 as [_ ?]. apply NoDup_app. split_and!; [done| |done].
      intros z Hz Hz2. apply (Hd z Hz). set_solver.
    + rewrite Hn, length_app, u64_small by lia. lia.
    + rewrite length_app. lia.
    + intros p q u v Hp Hq Hu' Hv' E. destruct (Hsame p u Hu') as (u' & Hu2 & Eu & _). destruct (Hsame q v Hv') as (v' & Hv2 & Ev & _).
      apply (Htid p q u' v'); [set_solver|set_solver|done|done|congruence].
    + intros p u Hp Hu'. destruct (Hsame p u Hu') as (u' & Hu2 & _ & ->). destruct (Htask p u' ltac:(set_solver) Hu2) as (? & k' & Hk').
      split; [done|]. destruct (decide (u'.(parent_task) = t.(parent_task))) as [->|].
      * eexists. apply lookup_insert_eq.
      * exists k'. by rewrite lookup_insert_ne.
  - split; [done|]. eexists ml, _, _, _. reflexivity.
  - simpl. unfold release. rewrite Hx. apply map_eq. intros z. destruct (decide (z = t.(parent_task))) as [->|].
    + by rewrite lookup_insert_eq, lookup_alter_eq, Hk.
    + by rewrite lookup_insert_ne, lookup_alter_ne by done.
Qed.
End Queue.

(** ** The choice of a thread *)

Section Schedule.
Implicit Types (m : gmap Z thread_t) (s : sched_state) (l order d : list Z) (p c x idle now : Z).

Definition is_dead m p : bool :=
  match m !! p with Some t => bool_decide (t.(status) = DEAD) | None => false end.

(** The dead threads that come next, and the rest. *)
Fixpoint dead_prefix m order : list Z :=
  match order with
  | p :: order' => if is_dead m p then p :: dead_prefix m order' else []
  | [] => []
  end.
Fixpoint alive_rest m order : list Z :=
  match order with
  | p :: order' => if is_dead m p then alive_rest m order' else order
  | [] => []
  end.

Definition runnable now (t : thread_t) : bool :=
  match t.(status) with
  | SLEEP => t.(wakeup_time) <? now
  | READY | NEW => true
  | _ => false
  end.

(** The thread that runs next when the others follow in [order]: the first that is
    not dead, if it can run, else the idle thread. *)
Definition pick m now idle order : Z :=
  match alive_rest m order with
  | p :: _ => match m !! p with Some t => if runnable now t then p else idle | None => idle end
  | [] => idle
  end.

Lemma dead_prefix_rest m order : dead_prefix m order ++ alive_rest m order = order.
Proof. induction order as [|p order IH]; simpl; [done|]. destruct (is_dead m p); [simpl; by rewrite IH|done]. Qed.

Lemma unlinked_lookup m m' p t : unlinked m' = unlinked m -> m !! p = Some t ->
  exists n, m' !! p = Some (set_thread_next n t).
Proof.
  intros E Hp. assert (unlinked m' !! p = Some (set_thread_next 0 t)) as H by (rewrite E; unfold unlinked; by rewrite lookup_fmap, Hp).
  unfold unlinked in H. rewrite lookup_fmap in H. destruct (m' !! p) as [t'|]; [|done].
  injection H as H. exists t'.(thread_next). f_equal. destruct t, t'. by simplify_eq/=.
Qed.

Lemma is_dead_unlinked m m' p : unlinked m' = unlinked m -> is_dead m' p = is_dead m p.
Proof.
  intros E. unfold is_dead. destruct (m !! p) as [t|] eqn:Hp.
  - by destruct (unlinked_lookup m m' p t E Hp) as (n & ->).
  - destruct (m' !! p) as [t'|] eqn:Hp'; [|done].
    destruct (unlinked_lookup m' m p t' (eq_sym E) Hp') as (n & Hn). by rewrite Hn in Hp.
Qed.

Lemma release_unlinked m m' ts p : unlinked m' = unlinked m -> release m' ts p = release m ts p.
Proof.
  intros E. unfold release. destruct (m !! p) as [t|] eqn:Hp.
  - by destruct (unlinked_lookup m m' p t E Hp) as (n & ->).
  - destruct (m' !! p) as [t'|] eqn:Hp'; [|done].
    destruct (unlinked_lookup m' m p t' (eq_sym E) Hp') as (n & Hn). by rewrite Hn in Hp.
Qed.

(** The switch to a thread. *)
Definition running (t : thread_t) : thread_t := set_ticks 0 (set_status RUN t).

Lemma unlinked_running m x : unlinked (alter running x m) = alter running x (unlinked m).
Proof. apply fmap_alter. intros t _. by destruct t. Qed.

(** A change of a thread that is not of its link, id or parent keeps the list. *)
Lemma queue_update s l p t t' :
  queue s l -> s.(threads) !! p = Some t ->
  t'.(thread_next) = t.(thread_next) -> t'.(tid) = t.(tid) -> t'.(parent_task) = t.(parent_task) ->
  queue (set_threads (<[p := t']> s.(threads)) s) l.
Proof.
  intros [Hc Hnd Hn Hs Htid Htask] Hp En Ei Ep.
  assert (forall q u, <[p := t']> s.(threads) !! q = Some u -> exists u', s.(threads) !! q = Some u' /\ u.(tid) = u'.(tid) /\ u.(parent_task) = u'.(parent_task)) as Hold.
  { intros q u Hu. destruct (decide (q = p)) as [->|Hne].
    - rewrite lookup_insert_eq in Hu. injection Hu as <-. eauto.
    - rewrite lookup_insert_ne in Hu by done. eauto. }
  constructor; simpl; try done.
  - eapply chain_frame; [|exact Hc]. intros q _. destruct (decide (q = p)) as [->|].
    + rewrite lookup_insert_eq, Hp. simpl. by rewrite En.
    + by rewrite lookup_insert_ne.
  - intros q r u v Hq Hr Hu Hv E. destruct (Hold q u Hu) as (u' & ? & Eu & _), (Hold r v Hv) as (v' & ? & Ev & _).
    apply (Htid q r u' v'); try done. congruence.
  - intros q u Hq Hu. destruct (Hold q u Hu) as (u' & Hu' & _ & ->). by apply (Htask q u').
Qed.

(** The next thread is the one after the current, around the list. *)
Lemma scheduler_get_next_thread_run s l1 c l2 :
  queue s (l1 ++ c :: l2) -> s.(current_executing_thread) = c ->
  scheduler_get_next_thread s = Ret (head_or c (l2 ++ l1), s).
Proof.
  intros [Hc _ Hn _ _ _] <-. set (c := current_executing_thread s) in *.
  destruct (chain_app _ _ _ _ _ Hc) as (t & Ht & Hc0 & Hc2).
  unfold scheduler_get_next_thread. rewrite (bind_run get _ s s s eq_refl).
  assert (s.(thread_list) <> 0) as Hh.
  { destruct (chain_lookup _ _ _ (head_or c l1) Hc) as [Hne _]; [destruct l1; set_solver|].
    rewrite (chain_head _ _ _ Hc). by destruct l1. }
  rewrite length_app in Hn. simpl in Hn. destruct (Z.eqb_spec s.(thread_list_size) 0); [lia|].
  apply Z.eqb_neq in Hh as Hh1. rewrite Hh1. fold c. apply Z.eqb_neq in Hc0 as Hc1. rewrite Hc1. cbn [orb].
  rewrite (bind_run _ _ _ _ _ (read_thread_run s c t Hc0 Ht)). destruct l2 as [|y l2]; simpl in Hc2.
  - rewrite Hc2, Z.eqb_refl. rewrite (chain_head _ _ _ Hc). by destruct l1.
  - destruct Hc2 as (-> & Hy & _). apply Z.eqb_neq in Hy. by rewrite Hy.
Qed.

(** The state after the search: threads but for the links, tasks, and the rest. *)
Record searched s s' x d : Prop := {
  sr_threads : unlinked (alter running x s'.(threads)) = unlinked (alter running x s.(threads));
  sr_tasks : s'.(tasks) = foldl (release s.(threads)) s.(tasks) d;
  sr_rest : exists ml ts h n, s' = set_list h n (set_tasks ts (set_threads ml s));
}.

Lemma searched_refl s x : searched s s x [].
Proof. constructor; [done|done|]. exists s.(threads), s.(tasks), s.(thread_list), s.(thread_list_size). by destruct s. Qed.

Lemma foldl_release_unlinked m m' d : unlinked m' = unlinked m ->
  forall ts, foldl (release m') ts d = foldl (release m) ts d.
Proof. intros E. induction d as [|p d IH]; intros ts; simpl; [done|]. by rewrite IH, (release_unlinked m m'). Qed.

(** Looking at one thread that is not dead. *)
Lemma schedule_loop_alive s l1 c l2 t fuel prev :
  let x := head_or c (l2 ++ l1) in
  queue s (l1 ++ c :: l2) -> s.(current_executing_thread) = c -> s.(threads) !! x = Some t ->
  t.(status) <> DEAD -> t.(tid) <> prev ->
  let r := if runnable s.(kernel_uptime) t then x else s.(idle_thread) in
  exists s', schedule_loop (Datatypes.S (Datatypes.S fuel)) x prev s = Ret (r, s') /\
    queue s' (l1 ++ c :: l2) /\ searched s s' r [].
Proof.
  intros x Hq Hcur Ht Hdead Hprev r.
  assert (x <> 0) as Hx.
  { eapply chain_lookup; [apply Hq|]. unfold x. destruct l2; [destruct l1|]; set_solver. }
  pose proof (scheduler_get_next_thread_run s l1 c l2 Hq Hcur) as Hnext. fold x in Hnext.
  assert (schedule_loop (Datatypes.S fuel) x t.(tid) s = Ret (s.(idle_thread), s)) as Hagain.
  { cbn [schedule_loop]. rewrite (bind_run _ _ _ _ _ (read_thread_run s x t Hx Ht)). by rewrite Z.eqb_refl. }
  cbn [schedule_loop]. rewrite (bind_run _ _ _ _ _ (read_thread_run s x t Hx Ht)).
  apply Z.eqb_neq in Hprev. rewrite Hprev. rewrite (bind_run get_kernel_uptime _ s s.(kernel_uptime) s eq_refl).
  pose proof (searched_refl s r) as Hrefl. unfold r, runnable in *.
  destruct t.(status) eqn:Est; try (exfalso; exact (Hdead eq_refl));
    repeat first [rewrite decide_True by intuition congruence | rewrite decide_False by intuition congruence];
    try (exists s; split; [try rewrite (bind_run _ _ _ _ _ Hnext); done|by split]).
  destruct (t.(wakeup_time) <? s.(kernel_uptime)).
  - rewrite (bind_run _ _ _ _ _ (update_thread_run s x (set_status READY) t Hx Ht)). eexists. split; [done|].
    split; [by apply (queue_update s _ x t)|]. constructor; [|done|].
    + cbn [set_threads threads]. rewrite !unlinked_running, unlinked_insert. apply map_eq. intros z. destruct (decide (z = x)) as [->|].
      * rewrite !lookup_alter_eq, lookup_insert_eq. unfold unlinked. by rewrite lookup_fmap, Ht.
      * by rewrite !lookup_alter_ne, lookup_insert_ne by done.
    + eexists _, s.(tasks), s.(thread_list), s.(thread_list_size). reflexivity.
  - exists s. split; [by rewrite (bind_run _ _ _ _ _ Hnext)|done].
Qed.

Lemma alter_running_trans m1 m2 x : unlinked m2 = unlinked m1 -> unlinked (alter running x m2) = unlinked (alter running x m1).
Proof. intros E. by rewrite !unlinked_running, E. Qed.

Lemma searched_trans s s1 s2 x p d :
  same_rest s s1 -> s1.(tasks) = release s.(threads) s.(tasks) p -> searched s1 s2 x d -> searched s s2 x (p :: d).
Proof.
  intros (Hu & ml & ts & h & n & ->) Ht [Hs1 Hs2 (ml' & ts' & h' & n' & ->)]. constructor.
  - rewrite Hs1. by apply alter_running_trans.
  - rewrite Hs2. simpl. rewrite <- Ht. by apply foldl_release_unlinked.
  - exists ml', ts', h', n'. done.
Qed.

Lemma dead_prefix_cons m order x d : dead_prefix m order = x :: d ->
  exists o, order = x :: o /\ is_dead m x = true /\ dead_prefix m o = d /\ alive_rest m order = alive_rest m o.
Proof.
  destruct order as [|y o]; simpl; [done|]. destruct (is_dead m y) eqn:E; [|done]. intros [= -> <-]. by exists o.
Qed.

Lemma dead_prefix_unlinked m m' order : unlinked m' = unlinked m ->
  dead_prefix m' order = dead_prefix m order /\ alive_rest m' order = alive_rest m order.
Proof.
  intros E. induction order as [|p order [IH1 IH2]]; simpl; [done|]. rewrite (is_dead_unlinked m m' p E), IH1, IH2.
  by destruct (is_dead m p).
Qed.

Lemma pick_unlinked m m' now idle order : unlinked m' = unlinked m -> pick m' now idle order = pick m now idle order.
Proof.
  intros E. unfold pick. destruct (dead_prefix_unlinked m m' order E) as [_ ->].
  destruct (alive_rest m order) as [|p r]; [done|]. destruct (m !! p) as [t|] eqn:Hp.
  - by destruct (unlinked_lookup m m' p t E Hp) as (n & ->).
  - destruct (m' !! p) as [t'|] eqn:Hp'; [|done].
    destruct (unlinked_lookup m' m p t' (eq_sym E) Hp') as (n & Hn). by rewrite Hn in Hp.
Qed.

(** The search, over the dead threads that come next. *)
Lemma schedule_loop_run idle : forall d s l1 c l2 fuel prev ti,
  queue s (l1 ++ c :: l2) -> s.(current_executing_thread) = c -> s.(idle_thread) = idle ->
  idle ∈ l1 ++ c :: l2 -> s.(threads) !! idle = Some ti -> ti.(status) <> DEAD ->
  dead_prefix s.(threads) (l2 ++ l1) = d -> (length d + 2 <= fuel)%nat ->
  (forall t, s.(threads) !! head_or c (l2 ++ l1) = Some t -> t.(tid) <> prev \/ (l1 = [] /\ l2 = [])) ->
  let x := pick s.(threads) s.(kernel_uptime) idle (l2 ++ l1) in
  exists s', schedule_loop fuel (head_or c (l2 ++ l1)) prev s = Ret (x, s') /\
    queue s' (filter (.∉ d) (l1 ++ c :: l2)) /\ searched s s' x d.
Proof.
  induction d as [|y d IH]; intros s l1 c l2 fuel prev ti Hq Hcur Hidle Hin Hti Hdead Hd Hfuel Hprev x.
  - rewrite filter_notin_nil. pose proof (dead_prefix_rest s.(threads) (l2 ++ l1)) as Hrest. rewrite Hd in Hrest. simpl in Hrest.
    destruct fuel as [|[|fuel]]; try lia.
    assert (exists t, s.(threads) !! head_or c (l2 ++ l1) = Some t /\ head_or c (l2 ++ l1) <> 0) as (t & Ht & Hx).
    { destruct (chain_lookup _ _ _ (head_or c (l2 ++ l1)) (queue_chain _ _ Hq)) as (? & t & ?); [|by exists t].
      destruct l2; [destruct l1|]; set_solver. }
    assert (t.(status) <> DEAD) as Halive.
    { destruct (l2 ++ l1) as [|z o] eqn:E; simpl in Hd, Ht.
      - apply app_nil in E as [-> ->]. simpl in Hin. apply list_elem_of_singleton in Hin as ->. congruence.
      - unfold is_dead in Hd. rewrite Ht in Hd. by case_bool_decide. }
    destruct (decide (t.(tid) = prev)) as [Heq|Hne].
    + destruct (Hprev t Ht) as [Hne|[-> ->]]; [done|]. simpl in Ht, Hx |- *. exists s. split; [|split; [done|]].
      * cbn [schedule_loop]. rewrite (bind_run _ _ _ _ _ (read_thread_run s c t Hx Ht)).
        rewrite Heq, Z.eqb_refl. unfold gets. by rewrite Hidle.
      * apply searched_refl.
    + destruct (schedule_loop_alive s l1 c l2 t fuel prev Hq Hcur Ht Halive Hne) as (s' & Hrun & Hq' & Hs).
      assert ((if runnable s.(kernel_uptime) t then head_or c (l2 ++ l1) else s.(idle_thread)) = x) as Ex.
      { unfold x, pick. rewrite Hrest. destruct (l2 ++ l1) as [|z o] eqn:E.
        - apply app_nil in E as [-> ->]. simpl in Hin |- *. apply list_elem_of_singleton in Hin as ->. rewrite Hidle. by destruct (runnable _ _).
        - simpl in Ht |- *. by rewrite Ht, Hidle. }
      rewrite Ex in Hrun, Hs. by exists s'.
  - destruct (dead_prefix_cons _ _ _ _ Hd) as (o & Ho & Hy & Hd' & Hal).
    rewrite Ho. cbn [head_or]. unfold is_dead in Hy. destruct (s.(threads) !! y) as [t|] eqn:Ht; [|done].
    case_bool_decide as Hst; [|done]. clear Hy.
    assert (exists l1' l2' a b, l2' ++ l1' = o /\ l1 ++ c :: l2 = a ++ y :: b /\ a ++ b = l1' ++ c :: l2') as (l1' & l2' & a & b & Eo & El & Eab).
    { destruct l2 as [|z l2]; simpl in Ho.
      - subst l1. by exists o, [], [], (o ++ [c]).
      - injection Ho as -> <-. exists l1, l2, (l1 ++ [c]), l2. rewrite <- !app_assoc. done. }
    rewrite El in Hq. destruct (scheduler_delete_thread_run s a y t b Hq Ht) as (s1 & Hrun1 & Hq1 & Hsame & Hts).
    pose proof Hsame as (Hu & ml & ts & h & n & Es1). rewrite Eab in Hq1.
    assert (y <> idle) as Hyi by (intros ->; congruence).
    assert (NoDup (a ++ y :: b)) as Hnd by apply Hq.
    destruct (unlinked_lookup _ _ idle ti Hu Hti) as (ni & Hti1).
    assert (s1.(current_executing_thread) = c) as Hcur1 by (by rewrite Es1).
    destruct fuel as [|fuel]; [simpl in Hfuel; lia|].
    assert (idle ∈ l1' ++ c :: l2') as Hin1.
    { rewrite El in Hin. rewrite <- Eab. apply elem_of_app in Hin as [?|[->|?]%elem_of_cons]; set_solver. }
    assert (s1.(idle_thread) = idle) as Hid1 by (by rewrite Es1).
    destruct (IH s1 l1' c l2' fuel t.(tid) _ Hq1 Hcur1 Hid1 Hin1 Hti1 Hdead) as (s' & Hrun & Hq' & Hs).
    + rewrite Eo. by rewrite (proj1 (dead_prefix_unlinked _ _ o Hu)).
    + simpl in Hfuel. lia.
    + intros u Hu'. left. intros E.
      assert (head_or c (l2' ++ l1') ∈ a ++ b) as Hc' by (rewrite Eab; destruct l2'; [destruct l1'|]; set_solver).
      destruct (unlinked_lookup _ _ _ u (eq_sym Hu) Hu') as (nu & Hu0).
      assert (head_or c (l2' ++ l1') = y) as Ey.
      { apply (queue_tids _ _ Hq _ y (set_thread_next nu u) t); [|set_solver|exact Hu0|done|exact E]. apply elem_of_app in Hc' as [?|?]; set_solver. }
      rewrite Ey in Hc'. apply NoDup_app in Hnd as (_ & Hd1 & Hd2). apply NoDup_cons in Hd2 as [Hd2 _].
      apply elem_of_app in Hc' as [Hc'|Hc']; [apply (Hd1 y Hc'); set_solver|done].
    + assert (pick s1.(threads) s1.(kernel_uptime) idle (l2' ++ l1') = x) as Ex.
      { rewrite (pick_unlinked _ _ _ _ _ Hu), Eo, Es1. simpl. unfold x, pick. by rewrite Hal. }
      rewrite Ex in Hrun, Hs. exists s'. split; [|split].
      * assert (y <> 0) as Hy0 by (eapply chain_lookup; [apply Hq|set_solver]).
        assert (t.(tid) <> prev) as Hprev'.
        { destruct (Hprev t) as [Hp|[-> ->]]; [by rewrite Ho|done|done]. }
        cbn [schedule_loop]. rewrite (bind_run _ _ _ _ _ (read_thread_run s y t Hy0 Ht)).
        apply Z.eqb_neq in Hprev'. rewrite Hprev', Hst. rewrite (bind_run get_kernel_uptime _ s s.(kernel_uptime) s eq_refl).
        rewrite decide_False by done. rewrite decide_True by done. rewrite (bind_run _ _ _ _ _ Hrun1).
        by rewrite (bind_run _ _ _ _ _ (scheduler_get_next_thread_run s1 l1' c l2' Hq1 Hcur1)).
      * rewrite El. rewrite <- Eab in Hq'.
        by rewrite filter_notin_drop.
      * by apply (searched_trans s s1).
Qed.

(** What an interrupt leaves of the thread it stops once its time is over. *)
Definition preempted (frame : Z) (t : thread_t) : thread_t :=
  let t := set_ticks (u64 ((if decide (t.(status) = SLEEP) then SCHEDULER_NUMBER_OF_TICKS else t.(ticks)) + 1)) t in
  let t := if decide (t.(status) = NEW) then t else set_frame frame t in
  if decide (t.(status) = SLEEP \/ t.(status) = DEAD) then t else set_status READY t.

Lemma preempted_same frame t :
  (preempted frame t).(thread_next) = t.(thread_next) /\ (preempted frame t).(tid) = t.(tid) /\
  (preempted frame t).(parent_task) = t.(parent_task) /\
  (t.(status) <> DEAD <-> (preempted frame t).(status) <> DEAD).
Proof. unfold preempted. destruct t as [? ? ? ? [] ? ? ? ? ? ? ?]; repeat case_decide; simpl in *; naive_solver. Qed.

(** Up to the choice of the next thread. *)
Lemma schedule_preempts s c t frame :
  s.(current_executing_thread) = c -> c <> 0 -> s.(threads) !! c = Some t ->
  t.(status) = SLEEP \/ SCHEDULER_NUMBER_OF_TICKS <= t.(ticks) ->
  exists k, schedule frame s = k (set_threads (<[c := preempted frame t]> s.(threads)) s) /\
    k = (let! n := scheduler_get_next_thread in
         let! thread_to_execute := schedule_loop (list_fuel s) n t.(tid) in
         do! update_thread thread_to_execute running in
         do! modify (set_current thread_to_execute) in
         let! t := read_thread thread_to_execute in
         let! k := read_task t.(parent_task) in
         do! modify (fun s => set_context k.(vm_root_page_table) s.(tss_rsp0) s) in
         if t.(execution_frame) =? 0 then throw NullDeref
         else do! modify (fun s => set_context s.(sched_cr3) t.(rsp0) s) in ret t.(execution_frame)).
Proof.
  intros Hcur Hc Ht Hexp. eexists. split; [|reflexivity]. unfold schedule.
  rewrite (bind_run get _ s s s eq_refl), Hcur, (bind_run _ _ _ _ _ (read_thread_run s c t Hc Ht)).
  set (t1 := set_ticks (if decide (t.(status) = SLEEP) then SCHEDULER_NUMBER_OF_TICKS else t.(ticks)) t).
  assert ((if decide (t.(status) = SLEEP) then update_thread c (set_ticks SCHEDULER_NUMBER_OF_TICKS) else ret tt) s
    = Ret (tt, set_threads (<[c := t1]> s.(threads)) s)) as Hrun1.
  { unfold t1. case_decide; [by apply update_thread_run|]. unfold ret. do 2 f_equal.
    rewrite insert_id; [by destruct s|]. rewrite Ht. by destruct t. }
  rewrite (bind_run _ _ _ _ _ Hrun1). set (s1 := set_threads _ s).
  assert (forall r (u : thread_t), set_threads (<[c := r]> (set_threads (<[c := u]> s.(threads)) s).(threads)) (set_threads (<[c := u]> s.(threads)) s)
    = set_threads (<[c := r]> s.(threads)) s) as Htwice by (intros r u; simpl; by rewrite insert_insert_eq).
  assert (forall u, (set_threads (<[c := u]> s.(threads)) s).(threads) !! c = Some u) as Hget by (intros; apply lookup_insert_eq).
  rewrite (bind_run _ _ _ _ _ (read_thread_run s1 c t1 Hc (Hget t1))).
  rewrite (bind_run _ _ _ _ _ (update_thread_run s1 c _ t1 Hc (Hget t1))). unfold s1. rewrite Htwice. clear s1.
  assert ((t1.(ticks) <? SCHEDULER_NUMBER_OF_TICKS) = false) as ->.
  { apply Z.ltb_ge. unfold t1. simpl. case_decide; [done|naive_solver]. }
  set (t2 := set_ticks _ t1). set (t3 := if decide (t2.(status) = NEW) then t2 else set_frame frame t2).
  assert (forall f u, update_thread c f (set_threads (<[c := u]> s.(threads)) s) = Ret (tt, set_threads (<[c := f u]> s.(threads)) s)) as Hup
    by (intros f u; rewrite (update_thread_run _ c f u Hc (Hget u)); by rewrite Htwice).
  erewrite (bind_run _ _ _ tt (set_threads (<[c := t3]> s.(threads)) s)).
  2:{ unfold t3. change (status t1) with (status t2). destruct (decide (status t2 = NEW)); [done|apply Hup]. }
  erewrite (bind_run _ _ _ tt (set_threads (<[c := preempted frame t]> s.(threads)) s)).
  2:{ assert (preempted frame t = if decide (t3.(status) = SLEEP \/ t3.(status) = DEAD) then t3 else set_status READY t3) as -> by done.
      change (status t1) with (status t2). assert (status t3 = status t2) as -> by (unfold t3; by destruct (decide (status t2 = NEW))).
      repeat case_decide; solve [done | apply Hup | tauto]. }
  done.
Qed.

Lemma release_lookup m d : forall ts p k, ts !! p = Some k ->
  exists k', foldl (release m) ts d !! p = Some k' /\ k'.(vm_root_page_table) = k.(vm_root_page_table).
Proof.
  induction d as [|x d IH]; intros ts p k Hk; simpl; [eauto|].
  assert (exists k', release m ts x !! p = Some k' /\ k'.(vm_root_page_table) = k.(vm_root_page_table)) as (k' & Hk' & E).
  { unfold release. destruct (m !! x) as [t|]; [|eauto]. destruct (decide (p = t.(parent_task))) as [->|].
    - rewrite lookup_alter_eq, Hk. simpl. eauto.
    - rewrite lookup_alter_ne by done. eauto. }
  destruct (IH _ p k' Hk') as (k2 & ? & ?). exists k2. split; [done|congruence].
Qed.

Lemma pick_in m now idle order : pick m now idle order = idle \/ pick m now idle order ∈ order.
Proof.
  unfold pick. pose proof (dead_prefix_rest m order) as E. destruct (alive_rest m order) as [|p r]; [by left|].
  destruct (m !! p) as [t|]; [|by left]. destruct (runnable now t); [right|by left]. rewrite <- E. set_solver.
Qed.

Lemma next_in l1 l2 c z o : l2 ++ l1 = z :: o -> NoDup (l1 ++ c :: l2) -> z ∈ l1 ++ c :: l2 /\ z <> c.
Proof.
  intros E (_ & Hd1 & Hd2)%NoDup_app. apply NoDup_cons in Hd2 as [Hd2 _].
  assert (z ∈ l2 ++ l1) as [Hz|Hz]%elem_of_app by (rewrite E; left).
  - split; [|by intros ->]. apply elem_of_app. right. by right.
  - split; [apply elem_of_app; by left|]. intros ->. apply (Hd1 c Hz). left.
Qed.

(** The switch to the thread chosen. *)
Lemma schedule_switches s frame l1 c l2 idle t ti :
  queue s (l1 ++ c :: l2) -> s.(current_executing_thread) = c -> s.(threads) !! c = Some t ->
  s.(idle_thread) = idle -> idle ∈ l1 ++ c :: l2 -> s.(threads) !! idle = Some ti -> ti.(status) <> DEAD ->
  t.(status) = SLEEP \/ SCHEDULER_NUMBER_OF_TICKS <= t.(ticks) ->
  let m := <[c := preempted frame t]> s.(threads) in
  let d := dead_prefix m (l2 ++ l1) in
  let x := pick m s.(kernel_uptime) idle (l2 ++ l1) in
  exists tx k, m !! x = Some tx /\ s.(tasks) !! tx.(parent_task) = Some k /\
    (tx.(execution_frame) <> 0 ->
     exists s', schedule frame s = Ret (tx.(execution_frame), s') /\
       queue s' (filter (.∉ d) (l1 ++ c :: l2)) /\
       unlinked s'.(threads) = unlinked (alter running x m) /\
       s'.(tasks) = foldl (release m) s.(tasks) d /\
       exists ml ts h n, s' = set_context k.(vm_root_page_table) tx.(rsp0) (set_current x (set_list h n (set_tasks ts (set_threads ml s))))).
Proof.
  intros Hq Hcur Ht Hid Hin Hti Hdead Hexp m d x.
  assert (c <> 0) as Hc by (eapply chain_lookup; [apply Hq|set_solver]).
  destruct (schedule_preempts s c t frame Hcur Hc Ht Hexp) as (k0 & Hrun0 & Ek0).
  destruct (preempted_same frame t) as (En & Ei & Ep & Edead).
  pose proof (queue_update s _ c t (preempted frame t) Hq Ht En Ei Ep) as Hq1. fold m in Hrun0, Hq1.
  set (s1 := set_threads m s) in *.
  assert (exists ti1, m !! idle = Some ti1 /\ ti1.(status) <> DEAD) as (ti1 & Hti1 & Hdead1).
  { destruct (decide (idle = c)) as [->|Hne].
    - exists (preempted frame t). split; [apply lookup_insert_eq|]. apply Edead. congruence.
    - exists ti. split; [|done]. unfold m. by rewrite lookup_insert_ne. }
  assert (x ∈ l1 ++ c :: l2) as Hx.
  { destruct (pick_in m s.(kernel_uptime) idle (l2 ++ l1)) as [E|E]; unfold x; [by rewrite E|]. set_solver. }
  destruct (chain_lookup _ _ _ x (queue_chain _ _ Hq1) Hx) as (Hx0 & tx & Htx).
  change (m !! x = Some tx) in Htx.
  destruct (queue_tasks _ _ Hq1 x tx Hx Htx) as (Hk0 & k & Hk). exists tx, k. split; [done|]. split; [done|]. intros Hframe.
  assert (length (l1 ++ c :: l2) = length (l2 ++ l1) + 1)%nat as Hlen by (rewrite !length_app; simpl; lia).
  destruct (schedule_loop_run idle d s1 l1 c l2 (list_fuel s) t.(tid) ti1 Hq1 Hcur Hid Hin Hti1 Hdead1 eq_refl)
    as (s2 & Hrun2 & Hq2 & [Hs1 Hs2 (ml & ts & h & n & Es2)]).
  - pose proof (queue_fuel _ _ Hq). pose proof (f_equal length (dead_prefix_rest m (l2 ++ l1))) as E.
    rewrite length_app in E. unfold list_fuel. fold d in E. lia.
  - intros u Hu. destruct (l2 ++ l1) as [|z o] eqn:E.
    + right. by apply app_nil in E as [-> ->].
    + left. intros Eu. simpl in Hu. destruct (next_in l1 l2 c z o E (queue_nodup _ _ Hq)) as [Hz Hzc]. apply Hzc.
      apply (queue_tids _ _ Hq1 z c u (preempted frame t)); [done|by apply elem_of_app; right; left|exact Hu|apply lookup_insert_eq|congruence].
  - change (pick _ _ idle _) with x in Hrun2, Hs1.
    assert (exists t2, s2.(threads) !! x = Some t2 /\ t2.(parent_task) = tx.(parent_task) /\
      t2.(execution_frame) = tx.(execution_frame) /\ t2.(rsp0) = tx.(rsp0)) as (t2 & Ht2 & Epar & Efr & Ersp).
    { pose proof (f_equal (.!! x) Hs1) as E. change (threads s1) with m in E. cbv beta in E. rewrite !unlinked_running, !lookup_alter_eq in E. unfold unlinked in E.
      rewrite !lookup_fmap, Htx in E. destruct (s2.(threads) !! x) as [t2|]; [|done].
      injection E as E. exists t2. split; [done|]. destruct t2, tx. simpl in *. by simplify_eq/=. }
    destruct (release_lookup m d s.(tasks) tx.(parent_task) k Hk) as (k' & Hk' & Eroot).
    assert (s2.(tasks) !! t2.(parent_task) = Some k') as Hk2 by (by rewrite Hs2, Epar).
    rewrite Hrun0, Ek0, (bind_run _ _ _ _ _ (scheduler_get_next_thread_run s1 l1 c l2 Hq1 Hcur)).
    rewrite (bind_run _ _ _ _ _ Hrun2), (bind_run _ _ _ _ _ (update_thread_run s2 x running t2 Hx0 Ht2)).
    unfold modify at 1. rewrite (bind_run _ _ _ tt _ eq_refl). set (s3 := set_current x _).
    assert (s3.(threads) !! x = Some (running t2)) as Ht3 by apply lookup_insert_eq.
    rewrite (bind_run _ _ _ _ _ (read_thread_run s3 x (running t2) Hx0 Ht3)).
    assert (t2.(parent_task) <> 0) as Hpar by (by rewrite Epar).
    rewrite (bind_run _ _ _ _ _ (read_task_run s3 (running t2).(parent_task) k' Hpar Hk2)).
    unfold modify at 1. rewrite (bind_run _ _ _ tt _ eq_refl).
    change (execution_frame (running t2)) with (execution_frame t2). rewrite Efr. apply Z.eqb_neq in Hframe. rewrite Hframe.
    unfold modify at 1. rewrite (bind_run _ _ _ tt _ eq_refl). eexists. split; [done|].
    assert (queue (set_threads (<[x := running t2]> s2.(threads)) s2) (filter (.∉ d) (l1 ++ c :: l2))) as Hq3
      by (apply (queue_update s2 _ x t2); done).
    split; [destruct Hq3; by constructor|]. split; [|split; [exact Hs2|]].
    + change (threads s1) with m in Hs1. rewrite <- Hs1. cbn. f_equal. apply map_eq. intros z. destruct (decide (z = x)) as [->|].
      * by rewrite lookup_insert_eq, lookup_alter_eq, Ht2.
      * by rewrite lookup_insert_ne, lookup_alter_ne.
    + change (rsp0 (running t2)) with (rsp0 t2). rewrite Eroot, Ersp. unfold s3. rewrite Es2.
      exists (<[x := running t2]> ml), ts, h, n. reflexivity.
Qed.

(** The thread goes on. *)
Lemma schedule_continues s frame c t :
  s.(current_executing_thread) = c -> c <> 0 -> s.(threads) !! c = Some t -> t.(status) <> SLEEP ->
  t.(ticks) < SCHEDULER_NUMBER_OF_TICKS ->
  schedule frame s = Ret (frame, set_threads (<[c := set_ticks (u64 (t.(ticks) + 1)) t]> s.(threads)) s).
Proof.
  intros Hcur Hc Ht Hst Htk.
  unfold schedule. rewrite (bind_run get _ s s s eq_refl), Hcur, (bind_run _ _ _ _ _ (read_thread_run s c t Hc Ht)).
  rewrite decide_False by done. rewrite (bind_run (ret tt) _ s tt s eq_refl), (bind_run _ _ _ _ _ (read_thread_run s c t Hc Ht)).
  rewrite (bind_run _ _ _ _ _ (update_thread_run s c _ t Hc Ht)). apply Z.ltb_lt in Htk. by rewrite Htk.
Qed.

(** What [schedule_spec] below says. *)
Lemma schedule_cases s frame l1 c l2 idle t ti :
  queue s (l1 ++ c :: l2) -> s.(current_executing_thread) = c -> s.(threads) !! c = Some t ->
  s.(idle_thread) = idle -> idle ∈ l1 ++ c :: l2 -> s.(threads) !! idle = Some ti -> ti.(status) <> DEAD ->
  if bool_decide (t.(status) <> SLEEP) && (t.(ticks) <? SCHEDULER_NUMBER_OF_TICKS) then
    schedule frame s = Ret (frame, set_threads (<[c := set_ticks (u64 (t.(ticks) + 1)) t]> s.(threads)) s)
  else
    let m := <[c := preempted frame t]> s.(threads) in
    let d := dead_prefix m (l2 ++ l1) in
    let x := pick m s.(kernel_uptime) idle (l2 ++ l1) in
    exists tx k, m !! x = Some tx /\ s.(tasks) !! tx.(parent_task) = Some k /\
      (tx.(execution_frame) <> 0 ->
       exists s', schedule frame s = Ret (tx.(execution_frame), s') /\
         queue s' (filter (.∉ d) (l1 ++ c :: l2)) /\
         unlinked s'.(threads) = unlinked (alter running x m) /\
         s'.(tasks) = foldl (release m) s.(tasks) d /\
         exists ml ts h n, s' = set_context k.(vm_root_page_table) tx.(rsp0)
           (set_current x (set_list h n (set_tasks ts (set_threads ml s))))).
Proof.
  intros Hq Hcur Ht Hid Hin Hti Hdead. destruct (bool_decide _ && _) eqn:E.
  - zbool. apply bool_decide_eq_true in H. apply (schedule_continues s frame c t); try done.
    eapply chain_lookup; [apply Hq|set_solver].
  - apply (schedule_switches s frame l1 c l2 idle t ti); try done.
    apply andb_false_iff in E as [E|E]; [left; apply bool_decide_eq_false in E; destruct (decide (t.(status) = SLEEP)); tauto|right; zbool; done].
Qed.

(** C24: [schedule] at a timer interrupt. While the current thread has time left,
    and is not asleep, it goes on and only its ticks change. Otherwise its frame is
    saved and it is made ready, unless it is new, asleep or dead; the dead threads
    that follow it around the list are unlinked and counted out of their tasks; the
    first thread that is not dead runs if it can, a sleeping one when its time has
    come, and else the idle thread does, whatever the threads behind it could do. The
    thread that runs has its address space loaded, its kernel stack set, its ticks
    cleared, and its frame is returned; nothing else changes. *)
Theorem schedule_spec s frame l1 c l2 idle t ti :
  queue s (l1 ++ c :: l2) -> s.(current_executing_thread) = c -> s.(threads) !! c = Some t ->
  s.(idle_thread) = idle -> idle ∈ l1 ++ c :: l2 -> s.(threads) !! idle = Some ti -> ti.(status) <> DEAD ->
  if bool_decide (t.(status) <> SLEEP) && (t.(ticks) <? SCHEDULER_NUMBER_OF_TICKS) then
    schedule frame s = Ret (frame, set_threads (<[c := set_ticks (u64 (t.(ticks) + 1)) t]> s.(threads)) s)
  else
    let m := <[c := preempted frame t]> s.(threads) in
    let d := dead_prefix m (l2 ++ l1) in
    let x := pick m s.(kernel_uptime) idle (l2 ++ l1) in
    exists tx k, m !! x = Some tx /\ s.(tasks) !! tx.(parent_task) = Some k /\
      (tx.(execution_frame) <> 0 ->
       exists s', schedule frame s = Ret (tx.(execution_frame), s') /\
         queue s' (filter (.∉ d) (l1 ++ c :: l2)) /\
         unlinked s'.(threads) = unlinked (alter running x m) /\
         s'.(tasks) = foldl (release m) s.(tasks) d /\
         exists ml ts h n, s' = set_context k.(vm_root_page_table) tx.(rsp0)
           (set_current x (set_list h n (set_tasks ts (set_threads ml s))))).
Proof. apply schedule_cases. Qed.

(** *** Starvation *)

(** The timer's part of [interrupts_handler]: the counter of [timer_handler], the
    scheduler, the uptime. *)
Definition timer_interrupt (frame : Z) : M sched_state Z :=
  do! modify (fun s => set_clock (u16 (s.(scheduler_ticks) + 1)) s.(kernel_uptime) s) in
  let! r := schedule frame in
  do! modify (fun s => set_clock s.(scheduler_ticks) (u64 (s.(kernel_uptime) + 1)) s) in
  ret r.

Fixpoint timer_interrupts (n : nat) (frame : nat -> Z) : M sched_state unit :=
  match n with
  | O => ret tt
  | Datatypes.S n' => do! timer_interrupt (frame n') in timer_interrupts n' frame
  end.

(** A ready thread [b] behind a thread [x] that sleeps until [w], with [a] at the
    head of the list, the idle thread [i] at its end, and one of these running. *)
Record starving s (a x b i w : Z) : Prop := {
  sv_queue : queue s [a; x; b; i];
  sv_idle : s.(idle_thread) = i;
  sv_a : exists t, s.(threads) !! a = Some t /\ t.(execution_frame) <> 0 /\
    (t.(status) = NEW \/ t.(status) = READY \/ t.(status) = RUN /\ s.(current_executing_thread) = a);
  sv_x : exists t, s.(threads) !! x = Some t /\ t.(status) = SLEEP /\ t.(wakeup_time) = w;
  sv_b : exists t, s.(threads) !! b = Some t /\ t.(status) = READY;
  sv_i : exists t, s.(threads) !! i = Some t /\ t.(execution_frame) <> 0 /\
    (t.(status) = NEW \/ t.(status) = READY \/ t.(status) = RUN /\ s.(current_executing_thread) = i);
  sv_current : s.(current_executing_thread) = a \/ s.(current_executing_thread) = i;
}.

Lemma starving_clock s a x b i w k u : starving s a x b i w -> starving (set_clock k u s) a x b i w.
Proof. intros [[] ? ? ? ? ? ?]. constructor; try done. Qed.

(** The threads of a starving state after a change that is not of their links. *)
Lemma unlinked_keeps m m' p t : unlinked m' = unlinked m -> m !! p = Some t ->
  exists t', m' !! p = Some t' /\ t'.(status) = t.(status) /\ t'.(execution_frame) = t.(execution_frame) /\
    t'.(wakeup_time) = t.(wakeup_time).
Proof. intros E Hp. destruct (unlinked_lookup m m' p t E Hp) as (n & Hn). eauto. Qed.

Lemma preempted_runnable frame t : frame <> 0 -> t.(execution_frame) <> 0 ->
  t.(status) = NEW \/ t.(status) = READY \/ t.(status) = RUN ->
  (preempted frame t).(status) = READY /\ (preempted frame t).(execution_frame) <> 0.
Proof.
  intros Hf Ht Hs. destruct t as [? ? ? ? st ? ? ? ? ? ? ?]; simpl in Ht, Hs.
  destruct Hs as [->|[->| ->]]; (split; [reflexivity|assumption]).
Qed.

Lemma starving_schedule s a x b i w frame :
  starving s a x b i w -> s.(kernel_uptime) <= w -> frame <> 0 ->
  exists r s', schedule frame s = Ret (r, s') /\ starving s' a x b i w /\ s'.(kernel_uptime) = s.(kernel_uptime).
Proof.
  intros [Hq Hidle (ta & Hta & Hfa & Hsa) (tx & Htx & Hsx & Hwx) (tb & Htb & Hsb) (ti & Hti & Hfi & Hsi) Hcur] Hup Hframe.
  pose proof (queue_nodup _ _ Hq) as Hnd. rewrite !NoDup_cons in Hnd.
  assert (a <> x /\ a <> b /\ a <> i /\ x <> b /\ x <> i /\ b <> i) as (Hax & Hab & Hai & Hxb & Hxi & Hbi) by (clear -Hnd; set_solver).
  clear Hnd.
  assert (exists c t, s.(current_executing_thread) = c /\ (c = a \/ c = i) /\ c <> 0 /\ s.(threads) !! c = Some t /\
    t.(execution_frame) <> 0 /\ (t.(status) = NEW \/ t.(status) = READY \/ t.(status) = RUN)) as (c & t & Hc & Hci & Hc0 & Ht & Hft & Hst).
  { assert (forall p, p ∈ [a; x; b; i] -> p <> 0) as Hne by (intros p Hp; by eapply chain_lookup; [apply Hq|]).
    destruct Hcur as [E|E]; rewrite E.
    - exists a, ta. split_and!; try done; [by left|apply Hne; left|clear -Hsa; tauto].
    - exists i, ti. split_and!; try done; [by right|apply Hne; do 3 right; left|clear -Hsi; tauto]. }
  assert (t.(status) <> SLEEP) as Hns by (clear -Hst; intuition congruence).
  destruct (Z.lt_ge_cases t.(ticks) SCHEDULER_NUMBER_OF_TICKS) as [Hlt|Hge].
  - rewrite (schedule_continues s frame c t Hc Hc0 Ht Hns Hlt). eexists _, _. split; [done|]. split; [|done].
    assert (forall p u, s.(threads) !! p = Some u -> exists u', <[c := set_ticks (u64 (t.(ticks) + 1)) t]> s.(threads) !! p = Some u' /\
      u'.(status) = u.(status) /\ u'.(execution_frame) = u.(execution_frame) /\ u'.(wakeup_time) = u.(wakeup_time)) as Hkeep.
    { intros p u Hp. destruct (decide (p = c)) as [->|Hne].
      - rewrite lookup_insert_eq. assert (u = t) as -> by congruence. by eexists.
      - rewrite lookup_insert_ne by done. eauto. }
    destruct (Hkeep a ta Hta) as (ta' & ? & Ea & Efa & _), (Hkeep x tx Htx) as (tx' & ? & Ex & _ & Ewx),
      (Hkeep b tb Htb) as (tb' & ? & Eb & _), (Hkeep i ti Hti) as (ti' & ? & Ei & Efi & _).
    constructor; simpl; [by apply (queue_update s _ c t)|done| | | | |done].
    + exists ta'. rewrite Ea, Efa. by split_and!.
    + exists tx'. rewrite Ex, Ewx. by split_and!.
    + exists tb'. rewrite Eb. by split_and!.
    + exists ti'. rewrite Ei, Efi. by split_and!.
  - destruct (preempted_runnable frame t Hframe Hft Hst) as [Hps Hpf].
    set (m := <[c := preempted frame t]> s.(threads)).
    assert (m !! x = Some tx /\ m !! b = Some tb) as [Hmx Hmb] by (unfold m; destruct Hci as [-> | ->]; by rewrite !lookup_insert_ne).
    assert (exists l1 l2 z tz, [a; x; b; i] = l1 ++ c :: l2 /\ dead_prefix m (l2 ++ l1) = [] /\
      pick m s.(kernel_uptime) i (l2 ++ l1) = z /\ (z = a \/ z = i) /\ m !! z = Some tz /\ tz.(execution_frame) <> 0) as (l1 & l2 & z & tz & El & Ed & Ez & Hz & Hmz & Hfz).
    { destruct Hci as [-> | ->].
      - exists [], [x; b; i], i, ti. unfold pick. simpl. unfold is_dead. rewrite Hmx, Hsx. simpl. rewrite Hmx.
        unfold runnable. rewrite Hsx, Hwx. assert ((w <? s.(kernel_uptime)) = false) as -> by (apply Z.ltb_ge; lia).
        split_and!; try done; [by right|]. unfold m. by rewrite lookup_insert_ne.
      - assert (m !! a = Some ta) as Hma by (unfold m; by rewrite lookup_insert_ne).
        exists [a; x; b], [], a, ta. unfold pick. simpl. unfold is_dead. rewrite Hma.
        assert (ta.(status) = NEW \/ ta.(status) = READY) as [E|E] by (clear -Hsa Hc Hai; intuition congruence); rewrite E; simpl; rewrite Hma;
          unfold runnable; rewrite E; split_and!; try done; by left. }
    assert (queue s (l1 ++ c :: l2)) as Hql by by rewrite <- El.
    assert (i ∈ l1 ++ c :: l2) as Hil by (rewrite <- El; do 3 right; left).
    assert (ti.(status) <> DEAD) as Hti' by (clear -Hsi; intuition congruence).
    destruct (schedule_switches s frame l1 c l2 i t ti Hql Hc Ht Hidle Hil Hti Hti' (or_intror Hge)) as (tz' & k & Htz' & Hk & Hrun).
    fold m in Htz', Hrun. rewrite Ez in Htz', Hrun. rewrite Ed in Hrun. assert (tz' = tz) as -> by congruence.
    destruct (Hrun Hfz) as (s' & Hs' & Hq' & Hu & _ & ml & ts & h & n & Es'). rewrite <- El, filter_notin_nil in Hq'.
    eexists _, s'. split; [exact Hs'|]. split; [|by rewrite Es'].
    assert (forall p u, m !! p = Some u -> exists u', s'.(threads) !! p = Some u' /\
      (if decide (p = z) then u'.(status) = RUN else u'.(status) = u.(status)) /\
      u'.(execution_frame) = u.(execution_frame) /\ u'.(wakeup_time) = u.(wakeup_time)) as Hkeep.
    { intros p u Hp. assert (alter running z m !! p = Some (if decide (p = z) then running u else u)) as Hp'.
      { case_decide; subst; [by rewrite lookup_alter_eq, Hp|by rewrite lookup_alter_ne]. }
      destruct (unlinked_keeps _ _ p _ Hu Hp') as (u' & ? & E1 & E2 & E3). exists u'. by case_decide. }
    destruct (Hkeep x tx Hmx) as (tx' & ? & Ex & _ & Ewx), (Hkeep b tb Hmb) as (tb' & ? & Eb & _).
    rewrite decide_False in Ex by (intros ->; naive_solver). rewrite decide_False in Eb by (intros ->; naive_solver).
    assert (forall p tp, p = a \/ p = i -> s.(threads) !! p = Some tp -> tp.(execution_frame) <> 0 ->
      (tp.(status) = NEW \/ tp.(status) = READY \/ tp.(status) = RUN /\ c = p) -> exists tp', s'.(threads) !! p = Some tp' /\ tp'.(execution_frame) <> 0 /\
        (tp'.(status) = NEW \/ tp'.(status) = READY \/ tp'.(status) = RUN /\ z = p)) as Hrunnable.
    { intros p tp Hp Htp Hfp Hsp. assert (exists u, m !! p = Some u /\ u.(execution_frame) <> 0 /\ (u.(status) = NEW \/ u.(status) = READY)) as (u & Hmu & Hfu & Hsu).
      { destruct (decide (p = c)) as [->|Hne].
        - exists (preempted frame t). split; [apply lookup_insert_eq|]. clear -Hps Hpf. tauto.
        - exists tp. unfold m. rewrite lookup_insert_ne by done. split; [done|]. split; [done|]. clear -Hsp Hne. intuition congruence. }
      destruct (Hkeep p u Hmu) as (u' & Hu' & Es & Ef & _). exists u'. split; [done|]. rewrite Ef. split; [done|].
      case_decide as Hpz; [right; right; by split|rewrite Es; clear -Hsu; tauto]. }
    constructor; [done|by rewrite Es'| | | | |].
    + destruct (Hrunnable a ta) as (ta' & ? & ? & ?); [by left|done|done|by rewrite Hc in Hsa|].
      exists ta'. split; [done|]. split; [done|]. by rewrite Es'.
    + exists tx'. rewrite Ex, Ewx. by split_and!.
    + exists tb'. rewrite Eb. by split_and!.
    + destruct (Hrunnable i ti) as (ti' & ? & ? & ?); [by right|done|done|by rewrite Hc in Hsi|].
      exists ti'. split; [done|]. split; [done|]. by rewrite Es'.
    + rewrite Es'. exact Hz.
Qed.

Lemma timer_interrupt_starving s a x b i w frame :
  starving s a x b i w -> s.(kernel_uptime) <= w -> frame <> 0 ->
  exists r s', timer_interrupt frame s = Ret (r, s') /\ starving s' a x b i w /\
    s'.(kernel_uptime) = u64 (s.(kernel_uptime) + 1).
Proof.
  intros Hs Hup Hf. unfold timer_interrupt, modify. rewrite (bind_run _ _ s tt _ eq_refl).
  set (s1 := set_clock _ _ s).
  destruct (starving_schedule s1 a x b i w frame (starving_clock _ _ _ _ _ _ _ _ Hs) Hup Hf) as (r & s2 & Hrun & Hs2 & Hu).
  rewrite (bind_run _ _ _ _ _ Hrun), (bind_run _ _ s2 tt _ eq_refl). eexists _, _. split; [done|].
  split; [by apply starving_clock|]. simpl. by rewrite Hu.
Qed.

(** C25: a ready thread can starve. With a thread asleep right before it in the list,
    and the idle thread behind it, it does not run at any of the timer interrupts
    before the sleeper's time: the thread at the head of the list and the idle thread
    take turns. *)
Theorem schedule_starves n (frame : nat -> Z) : forall s a x b i w,
  starving s a x b i w -> 0 <= s.(kernel_uptime) -> s.(kernel_uptime) + Z.of_nat n <= w < 2 ^ 64 ->
  (forall k, frame k <> 0) ->
  exists s', timer_interrupts n frame s = Ret (tt, s') /\
    (s'.(current_executing_thread) = a \/ s'.(current_executing_thread) = i) /\
    (exists t, s'.(threads) !! b = Some t /\ t.(status) = READY) /\ b <> a /\ b <> i.
Proof.
  induction n as [|n IH]; intros s a x b i w Hs H0 Hup Hf; cbn [timer_interrupts].
  - exists s. split; [done|]. destruct Hs as [Hq _ _ _ Hb _ Hc]. split; [done|]. split; [done|].
    pose proof (queue_nodup _ _ Hq) as Hnd. rewrite !NoDup_cons in Hnd. clear -Hnd. set_solver.
  - destruct (timer_interrupt_starving s a x b i w (frame n) Hs) as (r & s1 & Hrun & Hs1 & Hu); [lia|done|].
    rewrite (bind_run _ _ _ _ _ Hrun). rewrite u64_small in Hu by lia. apply (IH s1 a x b i w); [done|lia|lia|done].
Qed.
End Schedule.

(** ** Witnesses *)

(** Four threads of one task: [0x10] runs, [0x20] sleeps, [0x30] is ready, [0x40]
    is the idle thread. *)
Definition sample_thread (id : Z) (st : thread_status) (wakeup next : Z) : thread_t :=
  mk_thread id [] 0 0x90 st 0x200 (0x1000 + id) wakeup 0 next (0x2000 + id) 0.
Definition sample_sched : sched_state :=
  mk_sched
    {[ 0x10 := sample_thread 1 RUN 0 0x20; 0x20 := sample_thread 2 SLEEP 500 0x30;
       0x30 := sample_thread 3 READY 0 0x40; 0x40 := sample_thread 4 NEW 0 0 ]}
    {[ 0x90 := mk_task 0 [] 0x400000 3 0 0 0 4 ALIVE 0 ]} 0 5 1 0x10 0x10 0x40 0x90 4 100 0 0.

Lemma sample_threads p t : sample_sched.(threads) !! p = Some t ->
  (p, t) ∈ [(0x10, sample_thread 1 RUN 0 0x20); (0x20, sample_thread 2 SLEEP 500 0x30);
            (0x30, sample_thread 3 READY 0 0x40); (0x40, sample_thread 4 NEW 0 0)].
Proof.
  simpl. rewrite !lookup_insert_Some, lookup_singleton_Some. intros H.
  repeat match goal with
  | H : _ \/ _ |- _ => destruct H
  | H : _ /\ _ |- _ => destruct H
  end; subst; repeat (left || right).
Qed.

Lemma sample_queue : queue sample_sched [0x10; 0x20; 0x30; 0x40].
Proof.
  constructor; simpl.
  - repeat (split; [done|]; split; [done|]; eexists; split; [reflexivity|]; simpl). done.
  - repeat (apply NoDup_cons; split; [set_solver|]). constructor.
  - done.
  - done.
  - intros p q t u _ _ Ht%sample_threads Hu%sample_threads E.
    repeat (apply elem_of_cons in Ht as [Ht|Ht]); try (by apply not_elem_of_nil in Ht); injection Ht as -> ->;
      repeat (apply elem_of_cons in Hu as [Hu|Hu]); try (by apply not_elem_of_nil in Hu); injection Hu as -> ->;
      (reflexivity || discriminate E).
  - intros p t _ Ht%sample_threads.
    repeat (apply elem_of_cons in Ht as [Ht|Ht]); try (by apply not_elem_of_nil in Ht); injection Ht as -> ->;
      (split; [done|by eexists]).
Qed.

Lemma sample_starving : starving sample_sched 0x10 0x20 0x30 0x40 500.
Proof.
  constructor; [exact sample_queue|done| | | | |by left]; eexists; (split; [reflexivity|]).
  - split; [discriminate|]. right; right. by split.
  - by split.
  - done.
  - split; [discriminate|]. by left.
Qed.

Lemma schedule_spec_witness :
  exists s', schedule 0x5000 sample_sched = Ret (0x1004, s') /\ s'.(current_executing_thread) = 0x40 /\
    s'.(sched_cr3) = 0x400000 /\ s'.(tss_rsp0) = 0x2004.
Proof.
  destruct (schedule_spec sample_sched 0x5000 [] 0x10 [0x20; 0x30; 0x40] 0x40 (sample_thread 1 RUN 0 0x20) (sample_thread 4 NEW 0 0)
    sample_queue eq_refl eq_refl eq_refl) as (tx & k & Htx & Hk & Hrun); [set_solver|reflexivity|discriminate|].
  assert (tx = sample_thread 4 NEW 0 0) as E by (vm_compute in Htx; injection Htx as <-; reflexivity). rewrite E in *.
  assert (k = mk_task 0 [] 0x400000 3 0 0 0 4 ALIVE 0) as Ek by (vm_compute in Hk; injection Hk as <-; reflexivity). rewrite Ek in *.
  destruct Hrun as (s' & Hs' & _ & _ & _ & ml & ts & h & n & Es'); [discriminate|].
  exists s'. split; [exact Hs'|]. rewrite Es'. split; reflexivity || split; reflexivity.
Defined.

Lemma schedule_starves_witness :
  exists s', timer_interrupts 400 (fun _ => 0x5000) sample_sched = Ret (tt, s') /\
    (s'.(current_executing_thread) = 0x10 \/ s'.(current_executing_thread) = 0x40).
Proof.
  destruct (schedule_starves 400 (fun _ => 0x5000) sample_sched 0x10 0x20 0x30 0x40 500 sample_starving) as (s' & Hrun & Hc & _);
    [discriminate|split; [discriminate|reflexivity]|discriminate|].
  exists s'. split; [exact Hrun|exact Hc].
Defined.
