(* ===== verification/CString.v ===== *)
(** Strings and memory blocks: [libc/string.c]. Memory is a map from addresses to
    bytes; an address that is not in it belongs to no object, and using it faults.
    Loops over strings have a fuel above the number of bytes there are. *)
From S2P Require Import Prelude VmmUtil Kheap.

Notation memory := (gmap Z Z).

Definition load (a : Z) : M memory Z := let! m := get in lift_opt OutOfBounds (m !! a).
Definition store (a v : Z) : M memory unit :=
  let! m := get in
  match m !! a with
  | Some _ => put (<[a := u8 v]> m)
  | None => throw OutOfBounds
  end.
Definition string_fuel : M memory nat := gets (fun m => Datatypes.S (stdpp.base.size m)).

Definition MEMMOVE_SMALL_COPY_SIZE : Z := 0x200.

Fixpoint strcpy_loop (fuel : nat) (output src : Z) : M memory unit :=
  match fuel with
  | O => diverge
  | Datatypes.S fuel' =>
      let! c := load src in
      if c =? 0 then store output 0
      else do! store output c in strcpy_loop fuel' (output + 1) (src + 1)
  end.
Definition strcpy (dst src : Z) : M memory Z :=
  let! fuel := string_fuel in
  do! strcpy_loop fuel dst src in ret dst.

(** The first loop of [strncpy], which gives the index it stopped at. *)
Fixpoint strncpy_loop (fuel : nat) (dest src num i : Z) : M memory Z :=
  match fuel with
  | O => diverge
  | Datatypes.S fuel' =>
      let! c := load (src + i) in
      if negb (c =? 0) && (i <? num) then
        do! store (dest + i) c in strncpy_loop fuel' dest src num (i + 1)
      else ret i
  end.
Definition strncpy (dest src num : Z) : M memory Z :=
  let! fuel := string_fuel in
  let! i := strncpy_loop fuel dest src num 0 in
  do! for_from (Z.to_nat (num - i)) i (fun i => store (dest + i) 0) in
  ret dest.

Fixpoint strlen_loop (fuel : nat) (str len : Z) : M memory Z :=
  match fuel with
  | O => diverge
  | Datatypes.S fuel' =>
      let! c := load (str + len) in
      if c =? 0 then ret len else strlen_loop fuel' str (u64 (len + 1))
  end.
Definition strlen (str : Z) : M memory Z :=
  let! fuel := string_fuel in strlen_loop fuel str 0.

(** The loop [strcat] and [strncat] share. *)
Definition append_bytes (dest begin src count : Z) : M memory unit :=
  do! for_upto count (fun i => let! c := load (src + i) in store (dest + begin + i) c) in
  store (dest + begin + count) 0.
Definition strcat (dest src : Z) : M memory Z :=
  let! count := strlen src in
  let! begin := strlen dest in
  do! append_bytes dest begin src count in ret dest.
Definition strncat (dest src count : Z) : M memory Z :=
  let! source_len := strlen src in
  let! begin := strlen dest in
  let count := if source_len <? count then source_len else count in
  do! append_bytes dest begin src count in ret dest.

(** The sign of a difference, as the comparisons return it. *)
Definition sign_of (d : Z) : Z := if d <? 0 then -1 else if 0 <? d then 1 else 0.

Fixpoint strcmp_loop (fuel : nat) (s1 s2 : Z) : M memory Z :=
  match fuel with
  | O => diverge
  | Datatypes.S fuel' =>
      let! c1 := load s1 in
      if c1 =? 0 then let! c2 := load s2 in ret (sign_of (c1 - c2))
      else
        let! c2 := load s2 in
        if c1 =? c2 then strcmp_loop fuel' (s1 + 1) (s2 + 1) else ret (sign_of (c1 - c2))
  end.
Definition strcmp (s1 s2 : Z) : M memory Z :=
  let! fuel := string_fuel in strcmp_loop fuel s1 s2.

(** [n] is the count before the decrement of the loop's condition. *)
Fixpoint strncmp_loop (n : nat) (s1 s2 : Z) : M memory Z :=
  match n with
  | O => diverge
  | Datatypes.S n' =>
      let compare := let! c1 := load s1 in let! c2 := load s2 in ret (sign_of (c1 - c2)) in
      match n' with
      | O => compare
      | _ =>
          let! c1 := load s1 in
          if c1 =? 0 then compare
          else
            let! c2 := load s2 in
            if c1 =? c2 then strncmp_loop n' (s1 + 1) (s2 + 1) else compare
      end
  end.
Definition strncmp (s1 s2 n : Z) : M memory Z :=
  if n =? 0 then ret 0 else strncmp_loop (Z.to_nat n) s1 s2.

(** [char] is signed. *)
Fixpoint strchr_loop (fuel : nat) (scan ch : Z) : M memory Z :=
  match fuel with
  | O => diverge
  | Datatypes.S fuel' =>
      let! c := load scan in
      if negb (i8 c =? ch) && negb (c =? 0) then strchr_loop fuel' (scan + 1) ch
      else if (c =? 0) && negb (ch =? 0) then ret 0 else ret scan
  end.
Definition strchr (src ch : Z) : M memory Z :=
  let! fuel := string_fuel in strchr_loop fuel src ch.

(** [n] positions are left, [scan] being the last. *)
Fixpoint strrchr_loop (n : nat) (scan ch : Z) : M memory Z :=
  match n with
  | O => ret 0
  | Datatypes.S n' =>
      let! c := load scan in
      if i8 c =? ch then ret scan else strrchr_loop n' (scan - 1) ch
  end.
Definition strrchr (src ch : Z) : M memory Z :=
  let! length := strlen src in
  strrchr_loop (Z.to_nat (length + 1)) (src + length) ch.

Fixpoint memchr_loop (n : nat) (scan ch : Z) : M memory Z :=
  match n with
  | O => ret 0
  | Datatypes.S n' =>
      let! c := load scan in
      if c =? ch then ret scan else memchr_loop n' (scan + 1) ch
  end.
Definition memchr (src ch count : Z) : M memory Z := memchr_loop (Z.to_nat count) src ch.

Fixpoint memcmp_loop (n : nat) (a b : Z) : M memory Z :=
  match n with
  | O => ret 0
  | Datatypes.S n' =>
      let! x := load a in
      let! y := load b in
      if x <? y then ret (-1) else if y <? x then ret 1 else memcmp_loop n' (a + 1) (b + 1)
  end.
Definition memcmp (a b limit : Z) : M memory Z := memcmp_loop (Z.to_nat limit) a b.

Definition memset (dest ch count : Z) : M memory Z :=
  do! for_upto count (fun i => store (dest + i) ch) in ret dest.

Definition memcpy (dest src count : Z) : M memory Z :=
  do! for_upto count (fun i => let! c := load (src + i) in store (dest + i) c) in ret dest.

Section Memmove.
Context `{PageConfig} {V : Type} `{VmmAlloc V}.

(** [memmove] also uses the heap. [alloca_address] is where the compiler puts the
    small buffer; the buffer is written and never read, so that only the reads that
    fill it are in the model. *)
Definition memmove (alloca_address dest src count : Z) : M (heap_state V * memory) Z :=
  let in_memory {A} (m : M memory A) := zoom snd (fun b s => (fst s, b)) m in
  let in_heap {A} (m : M (heap_state V) A) := zoom fst (fun h s => (h, snd s)) m in
  let dest_top := u64 (dest + count) in
  let src_top := u64 (src + count) in
  if (dest_top <? src) || (src_top <? dest) then in_memory (memcpy dest src count)
  else
    let! buff := if count <=? MEMMOVE_SMALL_COPY_SIZE then ret alloca_address else in_heap (kmalloc count) in
    do! in_memory (for_upto count (fun i => if buff =? 0 then throw NullDeref else let! _ := load (src + i) in ret tt)) in
    let! r := in_memory (memcpy dest src count) in
    do! (if count <=? MEMMOVE_SMALL_COPY_SIZE then in_heap (kfree buff) else ret tt) in
    ret r.
End Memmove.

(** ** Copying *)

Section Copy.
Implicit Types (m : memory) (a dest src count : Z).

(** The bytes from [a] on are there. *)
Definition mapped m a count : Prop := forall i, 0 <= i < count -> exists v, m !! (a + i) = Some v /\ 0 <= v < 2 ^ 8.

(** The byte a forward copy leaves at offset [k]: when the destination starts inside
    the source, the first bytes of the source over and over. *)
Definition copied_index dest src (k : Z) : Z := if src <? dest then k mod (dest - src) else k.
Definition copied m dest src (n : Z) m' : Prop :=
  forall a, m' !! a = if (dest <=? a) && (a <? dest + n) then m !! (src + copied_index dest src (a - dest)) else m !! a.

Lemma load_run m a v : m !! a = Some v -> load a m = Ret (v, m).
Proof. intros Ha. unfold load, bind, get. by rewrite Ha. Qed.

Lemma store_run m a v : is_Some (m !! a) -> store a v m = Ret (tt, <[a := u8 v]> m).
Proof. intros [w Ha]. unfold store, bind, get. by rewrite Ha. Qed.

Lemma copied_step m dest src n m' v :
  0 <= n -> copied m dest src n m' -> m' !! (src + n) = Some v -> 0 <= v < 2 ^ 8 ->
  copied m dest src (n + 1) (<[dest + n := u8 v]> m').
Proof.
  intros Hn Hc Hv Hb a. rewrite u8_small by done. destruct (decide (a = dest + n)) as [->|Hne].
  - rewrite lookup_insert_eq. rewrite Hc in Hv. rewrite <- Hv.
    replace ((dest <=? dest + n) && (dest + n <? dest + (n + 1))) with true by (symmetry; apply andb_true_iff; split; lia).
    replace (dest + n - dest) with n by lia. unfold copied_index.
    destruct (Z.ltb_spec src dest); destruct (Z.leb_spec dest (src + n)); destruct (Z.ltb_spec (src + n) (dest + n)); simpl; try lia.
    + f_equal. f_equal. replace (src + n - dest) with (n + (-1) * (dest - src)) by lia. by rewrite Z_mod_plus_full.
    + by rewrite Z.mod_small by lia.
    + done.
  - rewrite lookup_insert_ne by done. rewrite Hc.
    destruct (Z.leb_spec dest a); destruct (Z.ltb_spec a (dest + n)); destruct (Z.ltb_spec a (dest + (n + 1))); simpl; try done; lia.
Qed.

Lemma copied_mapped m dest src n m' a count :
  copied m dest src n m' -> mapped m src n -> mapped m a count -> mapped m' a count.
Proof.
  intros Hc Hs Hm i Hi. rewrite Hc. destruct (Z.leb_spec dest (a + i)); destruct (Z.ltb_spec (a + i) (dest + n)); simpl; try by apply Hm.
  apply Hs. unfold copied_index. destruct (Z.ltb_spec src dest); [|lia].
  pose proof (Z.mod_pos_bound (a + i - dest) (dest - src)). pose proof (Z.mod_le (a + i - dest) (dest - src)). lia.
Qed.

Lemma memcpy_run m dest src count :
  mapped m src count -> mapped m dest count ->
  exists m', memcpy dest src count m = Ret (dest, m') /\ copied m dest src (Z.max 0 count) m'.
Proof.
  intros Hs Hd. unfold memcpy, for_upto. assert (wp (for_from (Z.to_nat count) 0
    (fun i => let! c := load (src + i) in store (dest + i) c)) (fun _ m' => copied m dest src (Z.max 0 count) m') m) as Hwp.
  - apply (wp_for_from (fun n m' => 0 <= n /\ copied m dest src n m')).
    + split; [lia|]. intros a. destruct (Z.leb_spec dest a); destruct (Z.ltb_spec a (dest + 0)); simpl; try done; lia.
    + intros n m' Hn [H0 Hc]. assert (mapped m src n) as Hsn by (intros i Hi; apply Hs; lia).
      destruct (copied_mapped m dest src n m' src count Hc Hsn Hs n ltac:(lia)) as (v & Hv & Hb).
      destruct (copied_mapped m dest src n m' dest count Hc Hsn Hd n ltac:(lia)) as (w & Hw & _).
      apply wp_run. exists tt, (<[dest + n := u8 v]> m').
      rewrite (bind_run _ _ _ _ _ (load_run m' _ v Hv)). split; [by apply store_run|].
      split; [lia|]. by apply copied_step.
    + intros m' [_ Hc]. by replace (Z.max 0 count) with (0 + Z.of_nat (Z.to_nat count)) by lia.
  - apply wp_run in Hwp as ([] & m' & Hrun & Hc). exists m'. split; [|done]. by rewrite (bind_run _ _ _ _ _ Hrun).
Qed.
End Copy.

(** ** Moving *)

(** C29: [memmove] of at most 512 bytes. When the blocks are disjoint or the
    destination is below the source, the destination ends up with what the source
    held; when the destination starts inside the source, it ends up with the bytes of
    the source up to the destination, repeated: the copy goes forward and does not
    use the buffer it makes. No other byte changes, nor does the heap. *)
Theorem memmove_spec `{PageConfig} {V : Type} `{VmmAlloc V} (h : heap_state V) (m : memory) alloca_address dest src count :
  0 <= dest -> 0 <= src -> 0 <= count <= MEMMOVE_SMALL_COPY_SIZE ->
  dest + count < 2 ^ 64 -> src + count < 2 ^ 64 ->
  h.(kernel_heap_end) < alloca_address -> alloca_address <> 0 ->
  mapped m src count -> mapped m dest count ->
  exists m', memmove alloca_address dest src count (h, m) = Ret (dest, (h, m')) /\
    (forall a, ~ (dest <= a < dest + count) -> m' !! a = m !! a) /\
    (forall k, 0 <= k < count ->
       m' !! (dest + k) =
         if (src <? dest) && (dest <? src + count) then m !! (src + k mod (dest - src)) else m !! (src + k)).
Proof.
  intros Hd0 Hs0 Hc Hd1 Hs1 Hall Hal0 Hs Hd.
  destruct (memcpy_run m dest src count Hs Hd) as (m' & Hrun & Hcp). exists m'. split; [|split].
  - unfold memmove. rewrite !u64_small by lia.
    assert (zoom snd (fun (b : memory) (s : heap_state V * memory) => (fst s, b)) (memcpy dest src count) (h, m) = Ret (dest, (h, m'))) as Hz
      by (unfold zoom; simpl; by rewrite Hrun).
    destruct ((dest + count <? src) || (src + count <? dest)) eqn:E; [exact Hz|].
    apply orb_false_iff in E as [E1 E2]. zbool.
    replace (count <=? MEMMOVE_SMALL_COPY_SIZE) with true by (symmetry; apply Z.leb_le; lia).
    rewrite (bind_run (ret alloca_address) _ _ _ _ eq_refl).
    assert (kfree alloca_address h = Ret (tt, h)) as Hfree.
    { unfold kfree. destruct (alloca_address =? 0); [done|]. rewrite (bind_run get _ h h h eq_refl).
      apply Z.ltb_lt in Hall. by rewrite Hall, orb_true_r. }
    assert (for_upto count (fun i => if alloca_address =? 0 then throw NullDeref else let! _ := load (src + i) in ret tt) m = Ret (tt, m)) as Hbuf.
    { destruct (Z.eqb_spec alloca_address 0); [done|]. apply wp_eq. unfold for_upto.
      apply (wp_for_from (fun _ t => t = m)); [done| |by intros t ->].
      intros j t Hj ->. destruct (Hs j ltac:(lia)) as (v & Hv & _). apply wp_run. exists tt, m.
      split; [|done]. by rewrite (bind_run _ _ _ _ _ (load_run m _ v Hv)). }
    unfold zoom at 1. rewrite (bind_run _ _ _ tt (h, m)) by (simpl; by rewrite Hbuf).
    rewrite (bind_run _ _ _ _ _ Hz). by rewrite (bind_run _ _ _ tt (h, m')) by (unfold zoom; simpl; by rewrite Hfree).
  - intros a Ha. rewrite Hcp. destruct (Z.leb_spec dest a); destruct (Z.ltb_spec a (dest + Z.max 0 count)); simpl; try done; lia.
  - intros k Hk. rewrite Hcp. replace ((dest <=? dest + k) && (dest + k <? dest + Z.max 0 count)) with true by (symmetry; apply andb_true_iff; split; lia).
    replace (dest + k - dest) with k by lia. unfold copied_index.
    destruct (Z.ltb_spec src dest); destruct (Z.ltb_spec dest (src + count)); simpl; try done. by rewrite Z.mod_small by lia.
Qed.

(** ** Text in memory *)

Fixpoint write_text (m : memory) (a : Z) (text : list Z) : memory :=
  match text with
  | [] => m
  | c :: text' => write_text (<[a := u8 c]> m) (a + 1) text'
  end.

Lemma write_text_app t1 : forall m a t2, write_text m a (t1 ++ t2) = write_text (write_text m a t1) (a + Z.of_nat (length t1)) t2.
Proof.
  induction t1 as [|c t1 IH]; intros m a t2; [by rewrite Z.add_0_r|]. simpl. rewrite IH. f_equal. lia.
Qed.

(** Where two memories agree they agree after the same text. *)
Lemma write_text_ext t : forall m m' a b, m !! b = m' !! b -> write_text m a t !! b = write_text m' a t !! b.
Proof.
  induction t as [|c t IH]; intros m m' a b Hb; [done|]. simpl. apply IH.
  destruct (decide (a = b)) as [->|Hne]; [by rewrite !lookup_insert_eq|by rewrite !lookup_insert_ne].
Qed.

Lemma write_text_present t : forall m a b, is_Some (m !! b) -> is_Some (write_text m a t !! b).
Proof.
  induction t as [|c t IH]; intros m a b Hb; [done|]. simpl. apply IH.
  destruct (decide (a = b)) as [->|Hne]; [rewrite lookup_insert_eq; by eexists|by rewrite lookup_insert_ne].
Qed.

(** ** Strings *)

Section Strings.
Implicit Types (m : memory) (a b : Z) (s t : list Z).

(** A string in memory, with its terminator. *)
Fixpoint cstring m a s : Prop :=
  match s with
  | [] => m !! a = Some 0
  | c :: s' => m !! a = Some c /\ 0 < c < 2 ^ 8 /\ cstring m (a + 1) s'
  end.

(** Lexicographic comparison of bytes. *)
Fixpoint lex_compare s t : Z :=
  match s, t with
  | [], [] => 0
  | [], _ => -1
  | _, [] => 1
  | c :: s', d :: t' => if c =? d then lex_compare s' t' else if c <? d then -1 else 1
  end.

Lemma lex_compare_eq s : forall t, lex_compare s t = 0 <-> s = t.
Proof.
  induction s as [|c s IH]; intros [|d t]; simpl; try (split; congruence).
  destruct (Z.eqb_spec c d) as [->|Hne].
  - rewrite IH. split; congruence.
  - destruct (c <? d); split; congruence.
Qed.

Lemma lex_compare_opp s : forall t, lex_compare t s = - lex_compare s t.
Proof.
  induction s as [|c s IH]; intros [|d t]; simpl; try done. rewrite (Z.eqb_sym d c), IH.
  destruct (Z.eqb_spec c d); [done|]. destruct (Z.ltb_spec c d); destruct (Z.ltb_spec d c); lia.
Qed.

Lemma cstring_at m s : forall a i, cstring m a s -> 0 <= i <= Z.of_nat (length s) -> is_Some (m !! (a + i)).
Proof.
  induction s as [|c s IH]; intros a i; simpl.
  - intros Ha Hi. replace (a + i) with a by lia. eauto.
  - intros (Ha & _ & Hs) Hi. destruct (decide (i = 0)) as [->|]; [rewrite Z.add_0_r; eauto|].
    replace (a + i) with (a + 1 + (i - 1)) by lia. apply IH; [done|lia].
Qed.

Lemma cstring_ext m m' t : forall a, cstring m a t -> (forall z, a <= z <= a + Z.of_nat (length t) -> m' !! z = m !! z) -> cstring m' a t.
Proof.
  induction t as [|c t IH]; intros a; cbn [cstring length]; [intros Ha Hz; rewrite Hz by lia; done|].
  intros (Ha & Hc & Ht) Hz. rewrite Hz by lia. split_and!; [done|lia|lia|]. apply IH; [done|]. intros z Hz'. apply Hz. lia.
Qed.

Lemma cstring_lookup m t : forall a i c, cstring m a t -> t !! i = Some c -> m !! (a + Z.of_nat i) = Some c /\ 0 < c < 2 ^ 8.
Proof.
  induction t as [|d t IH]; intros a i c; [done|]. intros (Ha & Hd & Ht). destruct i as [|i]; simpl.
  - intros [= <-]. rewrite Z.add_0_r. done.
  - intros Hi. replace (a + Z.of_nat (Datatypes.S i)) with (a + 1 + Z.of_nat i) by lia. by apply IH.
Qed.

(** A string is shorter than its memory. *)
Lemma cstring_fuel m a s : cstring m a s -> (length s < stdpp.base.size m)%nat.
Proof.
  intros Hs. rewrite <- size_dom. assert (Datatypes.S (length s) = stdpp.base.size (list_to_set (seqZ a (Z.of_nat (Datatypes.S (length s)))) : gset Z)) as E.
  { rewrite size_list_to_set by apply NoDup_seqZ. rewrite length_seqZ. lia. }
  unfold lt. rewrite E. apply subseteq_size. intros x Hx%elem_of_list_to_set. apply elem_of_seqZ in Hx. apply elem_of_dom.
  replace x with (a + (x - a)) by lia. apply (cstring_at m s); [done|lia].
Qed.

Lemma strcmp_loop_run m s : forall t a b fuel, cstring m a s -> cstring m b t -> (length s < fuel)%nat ->
  strcmp_loop fuel a b m = Ret (lex_compare s t, m).
Proof.
  induction s as [|c s IH]; intros t a b [|fuel] Hs Ht Hf; simpl in Hf; try lia; cbn [strcmp_loop].
  - rewrite (bind_run _ _ _ _ _ (load_run m a 0 Hs)). simpl. destruct t as [|d t].
    + by rewrite (bind_run _ _ _ _ _ (load_run m b 0 Ht)).
    + destruct Ht as (Hd & Hb & _). rewrite (bind_run _ _ _ _ _ (load_run m b d Hd)). unfold sign_of, ret.
      destruct (Z.ltb_spec (0 - d) 0); [done|lia].
  - destruct Hs as (Hc & Hb & Hs). rewrite (bind_run _ _ _ _ _ (load_run m a c Hc)). destruct (Z.eqb_spec c 0); [lia|].
    destruct t as [|d t].
    + rewrite (bind_run _ _ _ _ _ (load_run m b 0 Ht)). destruct (Z.eqb_spec c 0); [lia|]. unfold sign_of, ret.
      destruct (Z.ltb_spec (c - 0) 0); [lia|]. destruct (Z.ltb_spec 0 (c - 0)); [done|lia].
    + destruct Ht as (Hd & Hbd & Ht). rewrite (bind_run _ _ _ _ _ (load_run m b d Hd)). cbn [lex_compare].
      destruct (Z.eqb_spec c d); [apply IH; [done|done|lia]|]. unfold sign_of, ret.
      destruct (Z.ltb_spec (c - d) 0); destruct (Z.ltb_spec c d); try lia; [done|]. destruct (Z.ltb_spec 0 (c - d)); [done|lia].
Qed.

(** C30: [strcmp] returns -1, 0 or 1 as its first string comes before, equals or comes
    after the second one, in the order of unsigned bytes; swapping the strings swaps
    the sign; it reads nothing past the strings and changes nothing. *)
Theorem strcmp_spec m a b s t : cstring m a s -> cstring m b t ->
  strcmp a b m = Ret (lex_compare s t, m) /\ strcmp b a m = Ret (- lex_compare s t, m) /\
  (lex_compare s t = 0 <-> s = t).
Proof.
  intros Hs Ht. pose proof (cstring_fuel m a s Hs). pose proof (cstring_fuel m b t Ht).
  unfold strcmp, string_fuel, gets. rewrite !(bind_run _ _ m _ m eq_refl).
  split; [|split; [|apply lex_compare_eq]]; [|rewrite <- lex_compare_opp]; apply strcmp_loop_run; try done; lia.
Qed.

Lemma strlen_loop_run m s : forall a i fuel, cstring m (a + i) s -> (length s < fuel)%nat -> 0 <= i -> i + Z.of_nat (length s) < 2 ^ 64 ->
  strlen_loop fuel a i m = Ret (i + Z.of_nat (length s), m).
Proof.
  induction s as [|c s IH]; intros a i [|fuel] Hs Hf Hi Hb; simpl in Hf, Hb; try lia; cbn [strlen_loop].
  - rewrite (bind_run _ _ _ _ _ (load_run m _ 0 Hs)). simpl. unfold ret. do 2 f_equal. lia.
  - destruct Hs as (Hc & Hcb & Hs). rewrite (bind_run _ _ _ _ _ (load_run m _ c Hc)). destruct (Z.eqb_spec c 0); [lia|].
    rewrite u64_small by lia. rewrite IH; [do 2 f_equal; simpl; lia| |lia|lia|lia]. by rewrite Z.add_assoc.
Qed.

Lemma strlen_run m a s : cstring m a s -> Z.of_nat (length s) < 2 ^ 64 -> strlen a m = Ret (Z.of_nat (length s), m).
Proof.
  intros Hs Hb. pose proof (cstring_fuel m a s Hs). unfold strlen, string_fuel, gets. rewrite (bind_run _ _ m _ m eq_refl).
  rewrite (strlen_loop_run m s a 0); [done| |lia|lia|lia]. by rewrite Z.add_0_r.
Qed.
End Strings.

(** ** Witnesses *)

(** "abc" at 100 and "abd" at 200, and six bytes to move inside at 300. *)
Definition sample_memory : memory :=
  list_to_map (zip (seqZ 100 4) [97; 98; 99; 0] ++ zip (seqZ 200 4) [97; 98; 100; 0] ++ zip (seqZ 300 6) [1; 2; 3; 4; 5; 6]).

(** No virtual memory: a heap that cannot grow. *)
Definition no_pages : VmmAlloc unit := fun _ _ _ => ret 0.
Definition sample_heap : heap_state unit := mk_heap ∅ 0x1000 0x1000 0x1000 tt.

Lemma sample_mapped a : 300 <= a <= 302 -> mapped sample_memory a 4.
Proof.
  intros Ha i Hi. assert (a + i = 300 \/ a + i = 301 \/ a + i = 302 \/ a + i = 303 \/ a + i = 304 \/ a + i = 305) as H by lia.
  destruct H as [-> | [-> | [-> | [-> | [-> | ->]]]]]; eexists; (split; [vm_compute; reflexivity|lia]).
Qed.

Lemma memmove_spec_witness :
  exists m', @memmove large_pages unit no_pages 0x9000 302 300 4 (sample_heap, sample_memory) = Ret (302, (sample_heap, m')) /\
    m' !! 302 = Some 1 /\ m' !! 303 = Some 2 /\ m' !! 304 = Some 1.
Proof.
  destruct (@memmove_spec large_pages unit no_pages sample_heap sample_memory 0x9000 302 300 4) as (m' & Hrun & _ & Hk);
    [lia|lia|unfold MEMMOVE_SMALL_COPY_SIZE; lia|lia|lia|reflexivity|discriminate|apply sample_mapped; lia|apply sample_mapped; lia|].
  exists m'. split; [exact Hrun|]. split; [|split].
  - exact (Hk 0 ltac:(lia)).
  - exact (Hk 1 ltac:(lia)).
  - exact (Hk 2 ltac:(lia)).
Defined.

Lemma strcmp_spec_witness : strcmp 100 200 sample_memory = Ret (-1, sample_memory).
Proof.
  apply (strcmp_spec sample_memory 100 200 [97; 98; 99] [97; 98; 100]); simpl; repeat split.
Defined.
