(* ===== verification/Numbers.v ===== *)
(** Numbers as strings: [base/numbers.c]. The buffers are in the memory of [CString]. *)
From S2P Require Import Prelude CString.

(** The loop that writes the digits, the least one first; it gives the place after
    the last one and their number. Sixty-four digits are enough in any base. *)
Fixpoint digits_loop (fuel : nat) (base : Z) (digit : Z -> Z) (pointer number size : Z) : M memory (Z * Z) :=
  match fuel with
  | O => diverge
  | Datatypes.S fuel' =>
      if 0 <? number then
        do! store pointer (digit (number mod base)) in
        digits_loop fuel' base digit (pointer + 1) (number / base) (size + 1)
      else ret (pointer, size)
  end.
Definition digits_fuel : nat := 65.

(** The loop that turns them round. *)
Fixpoint reverse_loop (fuel : nat) (pointer pointerbase : Z) : M memory unit :=
  match fuel with
  | O => diverge
  | Datatypes.S fuel' =>
      if pointerbase <? pointer then
        let! swap := load pointer in
        let! c := load pointerbase in
        do! store pointer c in
        do! store pointerbase swap in
        reverse_loop fuel' (pointer - 1) (pointerbase + 1)
      else ret tt
  end.

Definition _getUnsignedDecString (buffer number : Z) : M memory Z :=
  if number =? 0 then do! store buffer 48 in ret 1
  else
    let! r := digits_loop digits_fuel 10 (fun mod_ => mod_ + 48) buffer number 0 in
    let '(pointer, size) := r in
    do! store pointer 0 in
    do! reverse_loop digits_fuel (pointer - 1) buffer in
    ret size.

Definition _getDecString (buffer number : Z) : M memory Z :=
  if number <? 0 then
    do! store buffer 45 in
    let! size := _getUnsignedDecString (buffer + 1) (u64 (u64 number * -1)) in
    ret (1 + size)
  else _getUnsignedDecString buffer number.

(** The number of hexadecimal digits less one. *)
Fixpoint hex_shift (fuel : nat) (tmpnumber shift : Z) : Z :=
  match fuel with
  | O => shift
  | Datatypes.S fuel' => if 16 <=? tmpnumber then hex_shift fuel' (Z.shiftr tmpnumber 4) (shift + 1) else shift
  end.

Fixpoint hex_loop (n : nat) (hexnumber hex_base hexstring : Z) : M memory unit :=
  match n with
  | O => ret tt
  | Datatypes.S n' =>
      let tmpnumber := Z.land (Z.shiftr hexnumber (4 * Z.of_nat n')) 0xF in
      do! store hexstring (if tmpnumber <? 10 then 48 + tmpnumber else hex_base + tmpnumber - 10) in
      do! store (hexstring + 1) 0 in
      hex_loop n' hexnumber hex_base (hexstring + 1)
  end.

Definition _getHexString (buffer hexnumber : Z) (use_capital : bool) : M memory Z :=
  let shift := hex_shift 16 hexnumber 0 in
  do! hex_loop (Z.to_nat (shift + 1)) hexnumber (if use_capital then 65 else 97) buffer in
  ret (shift + 1).

(** In base 1 the loop does not end; it stops at the end of the buffer's object. *)
Definition _getNumericString (buffer number base : Z) (use_capital : bool) : M memory Z :=
  if (base <? 1) || (36 <? base) then ret 0
  else if number =? 0 then do! store buffer 48 in ret 1
  else
    let letter_base := if use_capital then 65 else 97 in
    let! fuel := string_fuel in
    let! r := digits_loop (digits_fuel + fuel) base (fun mod_ => if mod_ <? 10 then 48 + mod_ else letter_base + mod_ - 10)
                buffer number 0 in
    let '(pointer, size) := r in
    do! store pointer 0 in
    do! reverse_loop (digits_fuel + fuel) (pointer - 1) buffer in
    ret size.

(** ** The digits of a number *)

Section Digits.
Implicit Types (m : memory) (a n : Z) (l : list Z).

(** Memory with the bytes [l] from [a] on. *)
Fixpoint write_bytes m a l : memory :=
  match l with
  | [] => m
  | c :: l' => <[a := c]> (write_bytes m (a + 1) l')
  end.

Lemma write_bytes_lookup l : forall m a z, write_bytes m a l !! z =
  if (a <=? z) && (z <? a + Z.of_nat (length l)) then l !! Z.to_nat (z - a) else m !! z.
Proof.
  induction l as [|c l IH]; intros m a z; cbn [write_bytes length].
  - destruct (Z.leb_spec a z); destruct (Z.ltb_spec z (a + Z.of_nat 0)); simpl; try done; lia.
  - destruct (decide (z = a)) as [->|Hne].
    + rewrite lookup_insert_eq, Z.leb_refl, Z.sub_diag. destruct (Z.ltb_spec a (a + Z.of_nat (Datatypes.S (length l)))); [done|lia].
    + rewrite lookup_insert_ne, IH by done.
      destruct (Z.leb_spec (a + 1) z); destruct (Z.leb_spec a z); destruct (Z.ltb_spec z (a + 1 + Z.of_nat (length l)));
        destruct (Z.ltb_spec z (a + Z.of_nat (Datatypes.S (length l)))); simpl; try done; try lia.
      by replace (Z.to_nat (z - a)) with (Datatypes.S (Z.to_nat (z - (a + 1)))) by lia.
Qed.

Lemma write_bytes_snoc l : forall m a c, write_bytes m a (l ++ [c]) = write_bytes (<[a + Z.of_nat (length l) := c]> m) a l.
Proof.
  induction l as [|d l IH]; intros m a c; cbn [app write_bytes length]; [by rewrite Z.add_0_r|].
  rewrite IH. do 3 f_equal. lia.
Qed.

Lemma write_bytes_insert l : forall m a z c, z < a \/ a + Z.of_nat (length l) <= z ->
  <[z := c]> (write_bytes m a l) = write_bytes (<[z := c]> m) a l.
Proof.
  induction l as [|d l IH]; intros m a z c Hz; cbn [write_bytes]; [done|]. simpl in Hz.
  rewrite insert_insert_ne by lia. f_equal. apply IH. lia.
Qed.

Lemma write_bytes_valid l m a z : is_Some (m !! z) -> is_Some (write_bytes m a l !! z).
Proof.
  intros Hz. rewrite write_bytes_lookup. destruct (Z.leb_spec a z); destruct (Z.ltb_spec z (a + Z.of_nat (length l))); simpl; try done.
  apply lookup_lt_is_Some. lia.
Qed.

(** Turning the bytes of a block round. *)
Lemma reverse_loop_run (n : nat) : forall l m a fuel, length l = n -> (n < fuel)%nat ->
  (forall z, a <= z < a + Z.of_nat n -> is_Some (m !! z)) -> Forall (fun c => 0 <= c < 2 ^ 8) l ->
  reverse_loop fuel (a + Z.of_nat n - 1) a (write_bytes m a l) = Ret (tt, write_bytes m a (rev l)).
Proof.
  induction n as [n IH] using lt_wf_ind. intros l m a [|fuel] Hl Hf Hm Hb; [lia|]. cbn [reverse_loop].
  destruct l as [|x l]; [simpl in Hl; subst n; by replace (a <? a + Z.of_nat 0 - 1) with false by (symmetry; apply Z.ltb_ge; lia)|].
  destruct l as [|y mid _] using rev_ind.
  { simpl in Hl. subst n. by replace (a <? a + Z.of_nat 1 - 1) with false by (symmetry; apply Z.ltb_ge; lia). }
  simpl in Hl. rewrite length_app in Hl. simpl in Hl. set (k := length mid) in *. assert (n = Datatypes.S (Datatypes.S k)) as -> by lia.
  destruct (Z.ltb_spec a (a + Z.of_nat (Datatypes.S (Datatypes.S k)) - 1)); [|lia].
  apply Forall_cons in Hb as [Hx Hb]. apply Forall_app in Hb as [Hmid Hy]. apply Forall_cons in Hy as [Hy _].
  set (b := a + Z.of_nat (Datatypes.S (Datatypes.S k)) - 1).
  set (m0 := write_bytes m a (x :: mid ++ [y])).
  assert (m0 = <[a := x]> (<[b := y]> (write_bytes m (a + 1) mid))) as E0.
  { unfold m0. cbn [write_bytes]. rewrite write_bytes_snoc, <- write_bytes_insert by lia. f_equal. f_equal. unfold b. lia. }
  assert (m0 !! b = Some y) as Hb' by (rewrite E0, lookup_insert_ne by lia; apply lookup_insert_eq).
  assert (m0 !! a = Some x) as Ha' by (rewrite E0; apply lookup_insert_eq).
  rewrite (bind_run _ _ _ _ _ (load_run m0 b y Hb')), (bind_run _ _ _ _ _ (load_run m0 a x Ha')).
  rewrite (bind_run _ _ _ _ _ (store_run m0 b x (mk_is_Some _ _ Hb'))).
  assert (is_Some (<[b := u8 x]> m0 !! a)) as Hs by (rewrite lookup_insert_ne by lia; eauto).
  rewrite (bind_run _ _ _ _ _ (store_run _ a y Hs)). rewrite !u8_small by done.
  assert (<[a := y]> (<[b := x]> m0) = write_bytes (<[a := y]> (<[b := x]> m)) (a + 1) mid) as ->.
  { rewrite <- write_bytes_insert by lia. rewrite <- write_bytes_insert by (fold k; lia). rewrite E0.
    apply map_eq. intros z. destruct (decide (z = a)) as [->|]; [by rewrite !lookup_insert_eq|]. rewrite !(lookup_insert_ne _ a) by done.
    destruct (decide (z = b)) as [->|]; [by rewrite !lookup_insert_eq|]. by rewrite !lookup_insert_ne by done. }
  replace (b - 1) with (a + 1 + Z.of_nat k - 1) by lia.
  rewrite IH; [|lia|done|lia| |done].
  2:{ intros z Hz. rewrite !lookup_insert_ne by lia. apply Hm. lia. }
  f_equal. f_equal. cbn [rev]. rewrite rev_app_distr. cbn [rev app write_bytes].
  rewrite write_bytes_snoc, length_rev. fold k. rewrite write_bytes_insert by lia.
  by replace (a + 1 + Z.of_nat k) with b by lia.
Qed.

(** The digits of a number, the least first, as the loop computes them. *)
Fixpoint le_digits (fuel : nat) (base : Z) (n : Z) : list Z :=
  match fuel with
  | O => []
  | Datatypes.S fuel' => if 0 <? n then n mod base :: le_digits fuel' base (n / base) else []
  end.

Lemma digits_loop_run base digit : 2 <= base -> (forall d, 0 <= d < base -> 0 <= digit d < 2 ^ 8) ->
  forall (fuel : nat) n m a size, 0 <= n < 2 ^ Z.of_nat fuel ->
  (forall z, a <= z < a + Z.of_nat fuel -> is_Some (m !! z) \/ a + Z.of_nat (length (le_digits fuel base n)) <= z) ->
  let l := digit <$> le_digits fuel base n in
  digits_loop (Datatypes.S fuel) base digit a n size m = Ret ((a + Z.of_nat (length l), size + Z.of_nat (length l)), write_bytes m a l).
Proof.
  intros Hbase Hdig. induction fuel as [|fuel IH]; intros n m a size Hn Hm l.
  - assert (n = 0) as -> by (simpl in Hn; lia). unfold l. simpl. unfold ret. do 3 f_equal; lia.
  - unfold l in *. clear l. cbn [le_digits] in *. remember (Datatypes.S fuel) as f eqn:Ef. cbn [digits_loop]. subst f.
    destruct (Z.ltb_spec 0 n); [|unfold ret; simpl; do 3 f_equal; lia].
    pose proof (Z.mod_pos_bound n base ltac:(lia)) as Hmod. cbn [length fmap list_fmap] in *.
    assert (is_Some (m !! a)) as Ha by (destruct (Hm a); [lia|done|lia]).
    rewrite (bind_run _ _ _ _ _ (store_run m a _ Ha)), u8_small by auto.
    assert (0 <= n / base < 2 ^ Z.of_nat fuel) as Hq.
    { split; [apply Z.div_pos; lia|]. apply Z.div_lt_upper_bound; [lia|]. rewrite Nat2Z.inj_succ, Z.pow_succ_r in Hn by lia. nia. }
    rewrite IH; [|done|].
    + cbn [write_bytes]. rewrite write_bytes_insert by lia. do 3 f_equal; lia.
    + intros z Hz. destruct (Hm z) as [[v Hv]|]; [lia| |right; lia]. left. rewrite lookup_insert_ne by lia. eauto.
Qed.

(** A digit in ASCII. *)
Definition ascii_digit (d : Z) : Z := d + 48.

(** The number a list of digits stands for, the greatest digit first. *)
Definition digits_value (base : Z) (l : list Z) : Z := foldl (fun acc d => acc * base + d) 0 l.

Lemma digits_value_snoc base l d : digits_value base (l ++ [d]) = digits_value base l * base + d.
Proof. unfold digits_value. by rewrite foldl_app. Qed.

Lemma le_digits_ok base : 2 <= base -> forall (fuel : nat) n, 0 <= n < 2 ^ Z.of_nat fuel ->
  let l := le_digits fuel base n in
  digits_value base (rev l) = n /\ Forall (fun d => 0 <= d < base) l /\ (0 < n -> exists d l', rev l = d :: l' /\ 0 < d).
Proof.
  intros Hbase. induction fuel as [|fuel IH]; intros n Hn; cbn [le_digits].
  - assert (n = 0) as -> by (simpl in Hn; lia). split_and!; [done|constructor|lia].
  - destruct (Z.ltb_spec 0 n); [|assert (n = 0) as -> by lia; split_and!; [done|constructor|lia]].
    pose proof (Z.mod_pos_bound n base ltac:(lia)) as Hmod.
    assert (0 <= n / base < 2 ^ Z.of_nat fuel) as Hq.
    { split; [apply Z.div_pos; lia|]. apply Z.div_lt_upper_bound; [lia|]. rewrite Nat2Z.inj_succ, Z.pow_succ_r in Hn by lia. nia. }
    destruct (IH _ Hq) as (Hv & Hb & Hh). cbn [rev]. rewrite digits_value_snoc, Hv. split; [|split].
    + pose proof (Z.div_mod n base). lia.
    + by constructor.
    + intros _. destruct (decide (n / base = 0)) as [E|].
      * rewrite E. exists (n mod base), []. split; [by destruct fuel|]. pose proof (Z.div_mod n base). lia.
      * destruct Hh as (d & l' & -> & Hd); [lia|]. exists d, (l' ++ [n mod base]). done.
Qed.

Lemma le_digits_length base k : 2 <= base -> forall (fuel : nat) n, 0 <= n < base ^ Z.of_nat k -> (length (le_digits fuel base n) <= k)%nat.
Proof.
  intros Hbase. induction k as [|k IH]; intros fuel n Hn.
  - assert (n = 0) as -> by (simpl in Hn; lia). by destruct fuel.
  - destruct fuel as [|fuel]; simpl; [lia|]. destruct (0 <? n); simpl; [|lia].
    assert (length (le_digits fuel base (n / base)) <= k)%nat; [|lia]. apply IH. split; [apply Z.div_pos; lia|].
    apply Z.div_lt_upper_bound; [lia|]. rewrite Nat2Z.inj_succ, Z.pow_succ_r in Hn by lia. lia.
Qed.

Lemma le_digits_more base : 2 <= base -> forall (f g : nat) n, 0 <= n < 2 ^ Z.of_nat f -> (f <= g)%nat ->
  le_digits g base n = le_digits f base n.
Proof.
  intros Hbase. induction f as [|f IH]; intros g n Hn Hg.
  - assert (n = 0) as -> by (simpl in Hn; lia). by destruct g.
  - destruct g as [|g]; [lia|]. cbn [le_digits]. destruct (Z.ltb_spec 0 n); [|done]. f_equal. apply IH; [|lia].
    split; [apply Z.div_pos; lia|]. apply Z.div_lt_upper_bound; [lia|]. rewrite Nat2Z.inj_succ, Z.pow_succ_r in Hn by lia. nia.
Qed.

(** The digits of a 64-bit number, the greatest first, and its text. *)
Definition digits_of base n : list Z := rev (le_digits 64 base n).
Definition number_text base (digit : Z -> Z) n : list Z := if n =? 0 then [48] else digit <$> digits_of base n.

(** Writing the digits of a number other than 0 and turning them round. The loops
    have fuel for the 64 digits it has at most. *)
Lemma write_number_run base digit (F : nat) n m a :
  2 <= base -> (forall d, 0 <= d < base -> 0 <= digit d < 2 ^ 8) -> (64 <= F)%nat -> 0 < n < 2 ^ 64 ->
  (forall z, a <= z <= a + Z.of_nat (length (digits_of base n)) -> is_Some (m !! z)) ->
  (let! r := digits_loop (Datatypes.S F) base digit a n 0 in
   let '(pointer, size) := r in
   do! store pointer 0 in
   do! reverse_loop (Datatypes.S F) (pointer - 1) a in
   ret size) m =
  Ret (Z.of_nat (length (number_text base digit n)), write_bytes m a (number_text base digit n ++ [0])).
Proof.
  intros Hbase Hdig HF Hn Hm. unfold number_text, digits_of in *. destruct (Z.eqb_spec n 0); [lia|].
  rewrite length_rev in Hm. set (l := le_digits 64 base n) in *.
  assert (le_digits F base n = l) as El by (apply le_digits_more; [done|change (2 ^ Z.of_nat 64) with (2 ^ 64); lia|done]).
  assert (length l <= 64)%nat as Hlen.
  { apply le_digits_length; [done|]. split; [lia|]. apply Z.lt_le_trans with (2 ^ 64); [lia|]. apply Z.pow_le_mono_l. lia. }
  rewrite (bind_run _ _ _ _ _ (digits_loop_run base digit Hbase Hdig F n m a 0
    ltac:(split; [lia|]; apply Z.lt_le_trans with (2 ^ 64); [lia|]; apply Z.pow_le_mono_r; lia)
    ltac:(rewrite El; intros z Hz; destruct (Z.le_gt_cases z (a + Z.of_nat (length l))); [left; apply Hm; lia|right; lia]))).
  rewrite El, !length_fmap.
  assert (is_Some (write_bytes m a (digit <$> l) !! (a + Z.of_nat (length l)))) as Hend by (apply write_bytes_valid, Hm; lia).
  rewrite (bind_run _ _ _ _ _ (store_run _ _ 0 Hend)). change (u8 0) with 0.
  rewrite write_bytes_insert by (rewrite length_fmap; lia). set (m0 := <[_ := 0]> m).
  assert (reverse_loop (Datatypes.S F) (a + Z.of_nat (length l) - 1) a (write_bytes m0 a (digit <$> l)) =
    Ret (tt, write_bytes m0 a (rev (digit <$> l)))) as Hrev.
  { apply reverse_loop_run; [apply length_fmap|lia| |].
    - intros z Hz. unfold m0. apply lookup_insert_is_Some. destruct (decide (a + Z.of_nat (length l) = z)); [by left|].
      right. split; [done|]. apply Hm. lia.
    - apply Forall_fmap. eapply Forall_impl; [apply (le_digits_ok base Hbase 64 n); change (2 ^ Z.of_nat 64) with (2 ^ 64); lia|].
      intros d Hd. by apply Hdig. }
  rewrite (bind_run _ _ _ _ _ Hrev), write_bytes_snoc, length_fmap, length_rev. fold m0. unfold ret. simpl.
  do 2 f_equal. by rewrite <- map_rev.
Qed.

(** What is in the buffer: the digits of the number in ASCII, and a terminator
    unless the number is 0. *)
Lemma _getUnsignedDecString_run m buffer n :
  0 <= n < 2 ^ 64 -> (forall z, buffer <= z <= buffer + Z.of_nat (length (number_text 10 ascii_digit n)) -> is_Some (m !! z)) ->
  _getUnsignedDecString buffer n m =
    Ret (Z.of_nat (length (number_text 10 ascii_digit n)),
         write_bytes m buffer (number_text 10 ascii_digit n ++ (if n =? 0 then [] else [0]))).
Proof.
  intros Hn Hm. unfold _getUnsignedDecString. destruct (Z.eqb_spec n 0) as [->|Hn0].
  - by rewrite (bind_run _ _ _ _ _ (store_run m buffer 48 (Hm buffer ltac:(simpl; lia)))).
  - apply (write_number_run 10 ascii_digit 64); [lia|unfold ascii_digit; lia|lia|lia|].
    unfold number_text in Hm. destruct (Z.eqb_spec n 0); [lia|]. by rewrite length_fmap in Hm.
Qed.

(** The text of a number has its digits, which stand for it. *)
Lemma dec_text_digits n : 0 <= n < 2 ^ 64 ->
  exists ds, number_text 10 ascii_digit n = ascii_digit <$> ds /\ (length ds <= 20)%nat /\
    Forall (fun d => 0 <= d < 10) ds /\ digits_value 10 ds = n /\
    (n <> 0 -> exists d l, ds = d :: l /\ 0 < d) /\ (n = 0 -> ds = [0]).
Proof.
  intros Hn. unfold number_text. destruct (Z.eqb_spec n 0) as [->|Hn0].
  - exists [0]. split_and!; [done|simpl; lia|by repeat constructor|done|done|done].
  - destruct (le_digits_ok 10 ltac:(lia) 64 n Hn) as (Hv & Hb & Hh).
    exists (digits_of 10 n). unfold digits_of. rewrite length_rev. split_and!; [done| |by apply Forall_rev|done| |done].
    + apply le_digits_length; [lia|]. split; [lia|]. change (10 ^ Z.of_nat 20) with 100000000000000000000. lia.
    + intros _. apply Hh. lia.
Qed.

(** With a sign. *)
Definition signed_text n : list Z := if n <? 0 then 45 :: number_text 10 ascii_digit (- n) else number_text 10 ascii_digit n.

Lemma _getDecString_run m buffer n :
  - 2 ^ 63 <= n < 2 ^ 63 -> (forall z, buffer <= z <= buffer + Z.of_nat (length (signed_text n)) -> is_Some (m !! z)) ->
  _getDecString buffer n m =
    Ret (Z.of_nat (length (signed_text n)), write_bytes m buffer (signed_text n ++ (if n =? 0 then [] else [0]))).
Proof.
  intros Hn Hm. unfold _getDecString, signed_text in *. destruct (Z.ltb_spec n 0) as [Hneg|Hpos]; [|apply _getUnsignedDecString_run; [lia|done]].
  assert (u64 (u64 n * -1) = - n) as ->.
  { unfold u64. replace (n mod 2 ^ 64) with (n + 2 ^ 64) by (apply (Z.mod_unique _ _ (-1)); lia).
    symmetry. apply (Z.mod_unique _ _ (-1)); lia. }
  rewrite (bind_run _ _ _ _ _ (store_run m buffer 45 (Hm buffer ltac:(lia)))). change (u8 45) with 45.
  cbn [length] in Hm. rewrite (bind_run _ _ _ _ _ (_getUnsignedDecString_run (<[buffer := 45]> m) (buffer + 1) (- n) ltac:(lia)
    ltac:(intros z Hz; rewrite lookup_insert_ne by lia; apply Hm; lia))).
  unfold ret. f_equal. f_equal; [cbn [length]; lia|]. cbn [app write_bytes]. rewrite <- write_bytes_insert by lia.
  destruct (Z.eqb_spec (- n) 0); destruct (Z.eqb_spec n 0); try lia; done.
Qed.

(** A digit above 9 is a letter. *)
Definition letter_digit (letter_base d : Z) : Z := if d <? 10 then 48 + d else letter_base + d - 10.

Lemma letter_digit_byte letter_base d : 0 <= letter_base <= 200 -> 0 <= d < 36 -> 0 <= letter_digit letter_base d < 2 ^ 8.
Proof. intros Hb Hd. unfold letter_digit. destruct (Z.ltb_spec d 10); lia. Qed.

Lemma _getNumericString_run m buffer n base (use_capital : bool) :
  0 <= n < 2 ^ 64 -> 2 <= base <= 36 ->
  let text := number_text base (letter_digit (if use_capital then 65 else 97)) n in
  (forall z, buffer <= z <= buffer + Z.of_nat (length text) -> is_Some (m !! z)) ->
  _getNumericString buffer n base use_capital m =
    Ret (Z.of_nat (length text), write_bytes m buffer (text ++ (if n =? 0 then [] else [0]))).
Proof.
  intros Hn Hbase text Hm. unfold _getNumericString. destruct (Z.ltb_spec base 1); [lia|]. destruct (Z.ltb_spec 36 base); [lia|].
  unfold text in *. cbn [orb]. destruct (Z.eqb_spec n 0) as [->|Hn0].
  - by rewrite (bind_run _ _ _ _ _ (store_run m buffer 48 (Hm buffer ltac:(simpl; lia)))).
  - unfold string_fuel, gets. rewrite (bind_run _ _ m _ m eq_refl).
    apply (write_number_run base (letter_digit _) (64 + Datatypes.S (stdpp.base.size m))); [lia| |lia|lia|].
    + intros d Hd. apply letter_digit_byte; [destruct use_capital; lia|lia].
    + unfold number_text in Hm. destruct (Z.eqb_spec n 0); [lia|]. by rewrite length_fmap in Hm.
Qed.

(** The hexadecimal digits are cut out of the number, the greatest first. *)
Fixpoint nibbles (k : nat) n : list Z :=
  match k with
  | O => []
  | Datatypes.S k' => Z.land (Z.shiftr n (4 * Z.of_nat k')) 0xF :: nibbles k' n
  end.

Lemma nibbles_snoc k n : nibbles (Datatypes.S k) n = nibbles k (n / 16) ++ [n mod 16].
Proof.
  change 16 with (2 ^ 4). rewrite <- Z.land_ones, <- Z.shiftr_div_pow2 by lia.
  induction k as [|k IH]; [simpl; by rewrite Z.shiftr_0_r|].
  change (nibbles (Datatypes.S (Datatypes.S k)) n) with (Z.land (Z.shiftr n (4 * Z.of_nat (Datatypes.S k))) 0xF :: nibbles (Datatypes.S k) n).
  rewrite IH. cbn [nibbles app]. do 2 f_equal. rewrite Z.shiftr_shiftr by lia. f_equal. lia.
Qed.

Lemma nibbles_digits (g : nat) : forall n, 0 <= n < 2 ^ Z.of_nat g ->
  nibbles (length (le_digits g 16 n)) n = rev (le_digits g 16 n).
Proof.
  induction g as [|g IH]; intros n Hn; [done|]. cbn [le_digits]. destruct (0 <? n); [|done].
  cbn [length rev]. rewrite nibbles_snoc, IH; [done|]. split; [apply Z.div_pos; lia|].
  apply Z.div_lt_upper_bound; [lia|]. rewrite Nat2Z.inj_succ, Z.pow_succ_r in Hn by lia. lia.
Qed.

Lemma hex_shift_run (f : nat) : forall (g : nat) n s, 0 < n < 16 ^ Z.of_nat (Datatypes.S f) -> n < 2 ^ Z.of_nat g ->
  hex_shift f n s + 1 = s + Z.of_nat (length (le_digits g 16 n)).
Proof.
  assert (forall g n, 0 < n < 16 -> n < 2 ^ Z.of_nat g -> length (le_digits g 16 n) = 1%nat) as Hone.
  { intros [|g] n Hn Hg; [simpl in Hg; lia|]. cbn [le_digits]. destruct (Z.ltb_spec 0 n); [|lia].
    rewrite Z.div_small by lia. by destruct g. }
  induction f as [|f IH]; intros g n s Hn Hg; cbn [hex_shift]; [rewrite Hone by (simpl in Hn; lia); lia|].
  destruct (Z.leb_spec 16 n); [|rewrite Hone by lia; lia].
  destruct g as [|g]; [simpl in Hg; lia|]. rewrite Z.shiftr_div_pow2 by lia. change (2 ^ 4) with 16.
  assert (1 <= n / 16) by (apply Z.div_le_lower_bound; lia). assert (n / 16 < 2 ^ Z.of_nat g /\ n / 16 < 16 ^ Z.of_nat (Datatypes.S f)) as [Hg1 Hf1].
  { split; apply Z.div_lt_upper_bound; try lia; rewrite ?Nat2Z.inj_succ, ?Z.pow_succ_r in * by lia; lia. }
  rewrite (IH g) by lia.
  cbn [le_digits]. destruct (Z.ltb_spec 0 n); [|lia]. cbn [length]. lia.
Qed.

Lemma hex_loop_run letter_base n (k : nat) : forall m a, 0 <= letter_base <= 200 ->
  (forall z, a <= z <= a + Z.of_nat k -> is_Some (m !! z)) ->
  hex_loop k n letter_base a m =
    Ret (tt, write_bytes m a ((letter_digit letter_base <$> nibbles k n) ++ (if decide (k = O) then [] else [0]))).
Proof.
  intros m a Hb. revert m a. induction k as [|k IH]; intros m a Hm; [done|]. cbn [hex_loop nibbles fmap list_fmap].
  set (d := Z.land _ 0xF). assert (0 <= d < 16) as Hd by (unfold d; change 0xF with (Z.ones 4); rewrite Z.land_ones by lia; apply Z.mod_pos_bound; lia).
  change (if d <? 10 then _ else _) with (letter_digit letter_base d).
  rewrite (bind_run _ _ _ _ _ (store_run m a _ (Hm a ltac:(lia)))), u8_small by (apply letter_digit_byte; lia).
  set (c := letter_digit letter_base d).
  assert (forall z v, a <= z <= a + Z.of_nat (Datatypes.S k) -> is_Some (<[a := v]> m !! z)) as Hm1.
  { intros z v Hz. apply lookup_insert_is_Some. destruct (decide (a = z)); [by left|right]. split; [done|]. by apply Hm. }
  rewrite (bind_run _ _ _ _ _ (store_run _ (a + 1) 0 (Hm1 (a + 1) c ltac:(lia)))). change (u8 0) with 0.
  rewrite IH.
  2:{ intros z Hz. apply lookup_insert_is_Some.
      destruct (decide (a + 1 = z)); [by left|right].
      split; [done|]. apply Hm1. lia. }
  f_equal. f_equal. destruct (decide (Datatypes.S k = O)); [done|]. cbn [app write_bytes].
  rewrite insert_insert_ne by lia. rewrite <- write_bytes_insert by lia. f_equal.
  destruct k as [|k]; [done|]. destruct (decide (Datatypes.S k = O)); [done|]. cbn [nibbles fmap list_fmap app write_bytes].
  rewrite <- write_bytes_insert by lia. by rewrite insert_insert_eq.
Qed.

Lemma _getHexString_run m buffer n (use_capital : bool) :
  0 <= n < 2 ^ 64 ->
  let text := number_text 16 (letter_digit (if use_capital then 65 else 97)) n in
  (forall z, buffer <= z <= buffer + Z.of_nat (length text) -> is_Some (m !! z)) ->
  _getHexString buffer n use_capital m = Ret (Z.of_nat (length text), write_bytes m buffer (text ++ [0])).
Proof.
  intros Hn text Hm. unfold _getHexString.
  assert (hex_shift 16 n 0 + 1 = Z.of_nat (length text) /\
          letter_digit (if use_capital then 65 else 97) <$> nibbles (length text) n = text) as [Hs Ht].
  { unfold text, number_text. destruct (Z.eqb_spec n 0) as [->|Hn0]; [done|]. unfold digits_of. rewrite length_fmap, length_rev. split.
    - apply (hex_shift_run 16 64); [|change (2 ^ Z.of_nat 64) with (2 ^ 64); lia].
      split; [lia|]. apply Z.lt_le_trans with (2 ^ 64); [lia|]. change 16 with (2 ^ 4) at 1. rewrite <- Z.pow_mul_r by lia. apply Z.pow_le_mono_r; lia.
    - by rewrite nibbles_digits. }
  rewrite Hs, Nat2Z.id. erewrite bind_run by (apply hex_loop_run; [destruct use_capital; lia|exact Hm]).
  rewrite Ht. unfold ret. destruct (decide (length text = O)) as [E|]; [|done].
  exfalso. rewrite E in Hs. unfold text, number_text in E. destruct (Z.eqb_spec n 0); [done|].
  rewrite length_fmap in E. unfold digits_of in E. rewrite length_rev in E.
  destruct (le_digits_ok 16 ltac:(lia) 64 n ltac:(change (2 ^ Z.of_nat 64) with (2 ^ 64); lia)) as (_ & _ & Hh).
  destruct Hh as (d & l & El & _); [lia|]. apply (f_equal length) in El. rewrite length_rev, E in El. done.
Qed.

(** C31: [_getDecString] writes the number so that reading it back gives the number:
    a minus sign for a negative one, then the decimal digits in ASCII without a
    leading zero, and it returns how many characters these are. A terminator follows,
    except for the number 0, after whose single digit nothing is written. *)
Theorem _getDecString_round_trip m buffer n :
  - 2 ^ 63 <= n < 2 ^ 63 -> mapped m buffer 22 ->
  exists ds sign, let text := sign ++ (ascii_digit <$> ds) in
    _getDecString buffer n m = Ret (Z.of_nat (length text), write_bytes m buffer (text ++ (if n =? 0 then [] else [0]))) /\
    sign = (if n <? 0 then [45] else []) /\ n = (if n <? 0 then - digits_value 10 ds else digits_value 10 ds) /\
    Forall (fun d => 0 <= d < 10) ds /\ (n = 0 -> ds = [0]) /\ (n <> 0 -> exists d l, ds = d :: l /\ 0 < d).
Proof.
  intros Hn Hm. assert (forall k, 0 <= k < 22 -> is_Some (m !! (buffer + k))) as Hroom by (intros k Hk; destruct (Hm k Hk) as (v & Hv & _); eauto).
  pose proof (_getDecString_run m buffer n Hn) as Hrun. unfold signed_text in Hrun.
  destruct (Z.ltb_spec n 0) as [Hneg|Hpos].
  - destruct (dec_text_digits (- n) ltac:(lia)) as (ds & Et & Hlen & Hb & Hv & Hh & H0). rewrite Et in Hrun.
    exists ds, [45]. split; [|split_and!; [done|lia|done|lia|intros; apply Hh; lia]]. apply Hrun. cbn [length]. rewrite length_fmap.
    intros z Hz. replace z with (buffer + (z - buffer)) by lia. apply Hroom. lia.
  - destruct (dec_text_digits n ltac:(lia)) as (ds & Et & Hlen & Hb & Hv & Hh & H0). rewrite Et in Hrun.
    exists ds, []. split; [|split_and!; done]. apply Hrun. rewrite length_fmap.
    intros z Hz. replace z with (buffer + (z - buffer)) by lia. apply Hroom. lia.
Qed.
End Digits.

(** ** Witnesses *)

Definition sample_buffer : memory := list_to_map ((fun a => (a, 0)) <$> seqZ 64 30).

Lemma sample_buffer_mapped : mapped sample_buffer 64 22.
Proof.
  intros i Hi. exists 0. split; [|lia]. unfold sample_buffer. apply elem_of_list_to_map_1.
  - rewrite <- list_fmap_compose. apply NoDup_fmap_2; [|apply NoDup_seqZ]. intros x y E. exact E.
  - apply list_elem_of_fmap. exists (64 + i). split; [done|]. apply elem_of_seqZ. lia.
Qed.

Lemma _getDecString_round_trip_witness :
  exists ds, _getDecString 64 (-305) sample_buffer = Ret (Z.of_nat (length (45 :: (ascii_digit <$> ds))), write_bytes sample_buffer 64 ((45 :: (ascii_digit <$> ds)) ++ [0])) /\
    -305 = - digits_value 10 ds.
Proof.
  destruct (_getDecString_round_trip sample_buffer 64 (-305)) as (ds & sign & Hrun & -> & Hv & _);
    [lia|exact sample_buffer_mapped|]. exists ds. split; [exact Hrun|exact Hv].
Defined.
