(* ===== verification/Format.v ===== *)
(** Formatted output: [vsprintf] of [libc/stdio.c], and a specification of its
    conversions as a function from the format and the arguments to the text. *)
From S2P Require Import Prelude CString Numbers.

(** ** Formatting *)

Definition is_digit (c : Z) : bool := (48 <=? c) && (c <=? 57).

(** [strnlen]: [n] characters at most; [count] is what is left of them. *)
Fixpoint strnlen_loop (fuel : nat) (sc count len : Z) : M memory Z :=
  match fuel with
  | O => diverge
  | Datatypes.S fuel' =>
      let! c := load sc in
      if negb (c =? 0) && negb (count =? 0) then strnlen_loop fuel' (sc + 1) (count - 1) (len + 1) else ret len
  end.
Definition strnlen (s count : Z) : M memory Z :=
  let! fuel := string_fuel in strnlen_loop fuel s count 0.

(** [skip_atoi]: the number, an [int], and the place after it. *)
Fixpoint skip_atoi_loop (fuel : nat) (s i : Z) : M memory (Z * Z) :=
  match fuel with
  | O => diverge
  | Datatypes.S fuel' =>
      let! c := load s in
      if is_digit c then skip_atoi_loop fuel' (s + 1) (i32 (i * 10 + c - 48)) else ret (i, s)
  end.
Definition skip_atoi (s : Z) : M memory (Z * Z) :=
  let! fuel := string_fuel in skip_atoi_loop fuel s 0.

(** One conversion: the place after what it writes, and the arguments left. An
    argument that was not passed has no value. *)
Definition convert (c precision str : Z) (args : list Z) : M memory (Z * list Z) :=
  let with_arg (f : Z -> M memory Z) :=
    match args with
    | [] => throw NoValue
    | a :: args' => let! size := f a in ret (str + size, args')
    end in
  if c =? 100 then with_arg (fun a => _getDecString str (i32 a))
  else if c =? 117 then with_arg (fun a => _getUnsignedDecString str (u32 a))
  else if c =? 120 then with_arg (fun a => _getHexString str (u64 a) false)
  else if c =? 88 then with_arg (fun a => _getHexString str (u64 a) true)
  else if c =? 111 then with_arg (fun a => _getNumericString str (u64 a) 8 false)
  else if c =? 99 then with_arg (fun a => do! store str (u8 a) in ret 1)
  else if c =? 115 then
    with_arg (fun a =>
      let! len := strnlen a (u64 precision) in
      let str_len := i32 len in
      do! for_upto str_len (fun i => let! c := load (a + i) in store (str + i) c) in
      ret (Z.max 0 str_len))
  else ret (str, args).

Fixpoint vsprintf_loop (fuel : nat) (str fmt : Z) (args : list Z) : M memory Z :=
  match fuel with
  | O => diverge
  | Datatypes.S fuel' =>
      let! c := load fmt in
      if c =? 0 then ret str
      else if negb (c =? 37) then do! store str c in vsprintf_loop fuel' (str + 1) (fmt + 1) args
      else
        let fmt := fmt + 1 in
        let! c := load fmt in
        let! p := if c =? 46 then let! r := skip_atoi (fmt + 1) in ret (if fst r <? 0 then 0 else fst r, snd r)
                  else ret (-1, fmt) in
        let '(precision, fmt) := p in
        let! c := load fmt in
        let! r := convert c precision str args in
        let '(str, args) := r in
        vsprintf_loop fuel' str (fmt + 1) args
  end.

Definition vsprintf (buffer fmt : Z) (args : list Z) : M memory Z :=
  let! fuel := string_fuel in
  let! str := vsprintf_loop fuel buffer fmt args in
  do! store str 0 in
  ret (str - buffer).

Definition sprintf (buffer fmt : Z) (args : list Z) : M memory Z := vsprintf buffer fmt args.

(** ** The text a format stands for *)

(** The text of one conversion and the arguments left, given the strings that
    pointers point to; nothing when an argument is missing. A precision of -1 is
    none. A character that is no conversion gives the empty text. *)
Definition conversion (strings : Z -> option (list Z)) (c precision : Z) (args : list Z) : option (list Z * list Z) :=
  let with_arg (text : Z -> option (list Z)) :=
    match args with
    | [] => None
    | a :: args' => match text a with Some t => Some (t, args') | None => None end
    end in
  if c =? 100 then with_arg (fun a => Some (signed_text (i32 a)))
  else if c =? 117 then with_arg (fun a => Some (number_text 10 ascii_digit (u32 a)))
  else if c =? 120 then with_arg (fun a => Some (number_text 16 (letter_digit 97) (u64 a)))
  else if c =? 88 then with_arg (fun a => Some (number_text 16 (letter_digit 65) (u64 a)))
  else if c =? 111 then with_arg (fun a => Some (number_text 8 (letter_digit 97) (u64 a)))
  else if c =? 99 then with_arg (fun a => Some [u8 a])
  else if c =? 115 then
    with_arg (fun a => (fun t => if precision <? 0 then t else take (Z.to_nat precision) t) <$> strings a)
  else Some ([], args).

(** Where in a format one is: in its plain text, right after a percent sign, or in
    a precision, with the number so far. *)
Inductive place : Type := Plain | Percent | Precision (n : Z).

(** The text of a format. It has none when it ends within a conversion, when an
    argument is missing, or when a precision is too large for an [int]. *)
Fixpoint format (strings : Z -> option (list Z)) (p : place) (f : list Z) (args : list Z) : option (list Z) :=
  match f with
  | [] => match p with Plain => Some [] | _ => None end
  | c :: f' =>
      let converted precision :=
        match conversion strings c precision args with
        | Some (t, args') => app t <$> format strings Plain f' args'
        | None => None
        end in
      match p with
      | Plain => if c =? 37 then format strings Percent f' args else cons c <$> format strings Plain f' args
      | Percent => if c =? 46 then format strings (Precision 0) f' args else converted (-1)
      | Precision n =>
          if is_digit c then
            let n' := n * 10 + c - 48 in
            if n' <? 2 ^ 31 then format strings (Precision n') f' args else None
          else converted n
      end
  end.

(** ** Writing text *)

Section Format.
Implicit Types (m : memory) (a : Z) (t f : list Z).

(** [t] is written at [a]; the byte after it may be used for a terminator. *)
Definition emitted m a t m' : Prop :=
  (forall i c, t !! i = Some c -> m' !! (a + Z.of_nat i) = Some c) /\
  (forall z, z < a \/ a + Z.of_nat (length t) < z -> m' !! z = m !! z) /\
  (forall z, is_Some (m !! z) -> is_Some (m' !! z)).

Definition room m a (n : nat) : Prop := forall z, a <= z <= a + Z.of_nat n -> is_Some (m !! z).

Lemma emitted_nil m a : emitted m a [] m.
Proof. by split_and!. Qed.

Lemma emitted_write m a t (e : bool) : emitted m a t (write_bytes m a (t ++ (if e then [] else [0%Z]))).
Proof.
  split_and!.
  - intros i c Hi. pose proof (lookup_lt_Some _ _ _ Hi). rewrite write_bytes_lookup, length_app.
    destruct (Z.leb_spec a (a + Z.of_nat i)); [|lia]. destruct (Z.ltb_spec (a + Z.of_nat i) (a + Z.of_nat (length t + length (if e then [] else [0%Z])))); [|lia].
    cbn [andb]. replace (Z.to_nat (a + Z.of_nat i - a)) with i by lia. by apply lookup_app_l_Some.
  - intros z Hz. rewrite write_bytes_lookup, length_app.
    assert (length (if e then [] else [0%Z] : list Z) <= 1)%nat by (destruct e; simpl; lia).
    destruct (Z.leb_spec a z); [|done]. destruct (Z.ltb_spec z (a + Z.of_nat (length t + length (if e then [] else [0%Z] : list Z)))); [lia|done].
  - intros z. apply write_bytes_valid.
Qed.

Lemma emitted_app m a t m1 u m2 :
  emitted m a t m1 -> emitted m1 (a + Z.of_nat (length t)) u m2 -> emitted m a (t ++ u) m2.
Proof.
  intros (Ht & Ho & Hv) (Hu & Ho' & Hv'). split_and!; [| |auto].
  - intros i c [Hi|[Hlen Hi]]%lookup_app_Some.
    + pose proof (lookup_lt_Some _ _ _ Hi). rewrite Ho' by lia. by apply Ht.
    + specialize (Hu _ _ Hi). by replace (a + Z.of_nat i) with (a + Z.of_nat (length t) + Z.of_nat (i - length t)) by lia.
  - intros z. rewrite length_app. intros Hz. rewrite Ho' by lia. apply Ho. lia.
Qed.

Lemma room_emitted m a t m' n : room m a (length t + n) -> emitted m a t m' -> room m' (a + Z.of_nat (length t)) n.
Proof. intros Hr (_ & _ & Hv) z Hz. apply Hv, Hr. lia. Qed.

(** A string that is not where the text is written. *)
Definition beside a (n : nat) p t : Prop := p + Z.of_nat (length t) < a \/ a + Z.of_nat n < p.

Lemma cstring_emitted m a t m' (n : nat) p s :
  cstring m p s -> beside a n p s -> (length t <= n)%nat -> emitted m a t m' -> cstring m' p s.
Proof. intros Hs Hb Ht (_ & Ho & _). apply (cstring_ext m); [done|]. intros z Hz. apply Ho. unfold beside in Hb. lia. Qed.

(** The strings of the arguments are in memory beside the text, and their lengths
    are [int]s. *)
Definition strings_ok (strings : Z -> option (list Z)) m a (n : nat) : Prop :=
  forall p s, strings p = Some s -> cstring m p s /\ beside a n p s /\ Z.of_nat (length s) < 2 ^ 31.

(** ** The conversions *)

Lemma strnlen_loop_run m t : forall a count len fuel, cstring m a t -> (length t < fuel)%nat -> 0 <= count ->
  strnlen_loop fuel a count len m = Ret (len + Z.min (Z.of_nat (length t)) count, m).
Proof.
  induction t as [|c t IH]; intros a count len [|fuel] Hs Hf Hc; cbn [length cstring strnlen_loop] in *; try lia.
  - rewrite (bind_run _ _ _ _ _ (load_run m a 0 Hs)). unfold ret. simpl. do 2 f_equal. lia.
  - destruct Hs as (Ha & Hb & Hs). rewrite (bind_run _ _ _ _ _ (load_run m a c Ha)). destruct (Z.eqb_spec c 0); [lia|].
    destruct (Z.eqb_spec count 0); cbn [negb andb]; [unfold ret; do 2 f_equal; lia|].
    rewrite IH by (done || lia). do 2 f_equal. lia.
Qed.

(** Copying the first bytes of a string. *)
Lemma copy_string_run m str p s (k : nat) :
  cstring m p s -> beside str k p s -> (k <= length s)%nat -> room m str k ->
  for_upto (Z.of_nat k) (fun i => let! c := load (p + i) in store (str + i) c) m = Ret (tt, write_bytes m str (take k s)).
Proof.
  intros Hs Hb Hk Hr. apply wp_eq. unfold for_upto. rewrite Nat2Z.id.
  eapply (wp_for_from (fun j m' => 0 <= j /\ m' = write_bytes m str (take (Z.to_nat j) s))); [by split| |].
  2:{ intros m' [_ ->]. split; [done|]. by rewrite Z.add_0_l, Nat2Z.id. }
  intros j m' Hj [_ ->]. destruct (lookup_lt_is_Some_2 s (Z.to_nat j) ltac:(lia)) as [c Hc].
  destruct (cstring_lookup m s p (Z.to_nat j) c Hs Hc) as [Hm Hcb]. rewrite Z2Nat.id in Hm by lia.
  assert (length (take (Z.to_nat j) s) = Z.to_nat j) as Hlen by (rewrite length_take; lia).
  apply wp_run. exists tt. eexists. split; [|split; [lia|reflexivity]].
  assert (write_bytes m str (take (Z.to_nat j) s) !! (p + j) = Some c) as Hl.
  { rewrite write_bytes_lookup, Hlen. unfold beside in Hb. destruct (Z.leb_spec str (p + j)); [|done].
    destruct (Z.ltb_spec (p + j) (str + Z.of_nat (Z.to_nat j))); [lia|done]. }
  rewrite (bind_run _ _ _ _ _ (load_run _ _ _ Hl)), store_run by (apply write_bytes_valid, Hr; lia).
  rewrite u8_small by lia. do 2 f_equal. replace (Z.to_nat (j + 1)) with (Datatypes.S (Z.to_nat j)) by lia.
  rewrite (take_S_r _ _ _ Hc), write_bytes_snoc, Hlen, Z2Nat.id by lia. apply write_bytes_insert. lia.
Qed.

Lemma convert_string_run strings precision str m (n : nat) p s :
  strings_ok strings m str n -> -1 <= precision < 2 ^ 31 -> strings p = Some s ->
  let t := if precision <? 0 then s else take (Z.to_nat precision) s in
  (length t <= n)%nat -> room m str (length t) ->
  (let! len := strnlen p (u64 precision) in
   let str_len := i32 len in
   do! for_upto str_len (fun i => let! c := load (p + i) in store (str + i) c) in
   ret (Z.max 0 str_len)) m = Ret (Z.of_nat (length t), write_bytes m str t).
Proof.
  intros Hok Hp Hs t Hn Hr. destruct (Hok p s Hs) as (Hstr & Hb & Hlen).
  assert (t = take (length t) s /\ Z.of_nat (length t) = Z.min (Z.of_nat (length s)) (u64 precision)) as [Et El].
  { unfold t, u64. destruct (Z.ltb_spec precision 0).
    - assert (precision = -1) as -> by lia. rewrite firstn_all. split; [done|]. change (-1 mod 2 ^ 64) with (2 ^ 64 - 1). lia.
    - rewrite Z.mod_small by lia. rewrite length_take. split; [|lia].
      destruct (Nat.le_gt_cases (Z.to_nat precision) (length s)); [by rewrite Nat.min_l|].
      rewrite Nat.min_r by lia. rewrite !take_ge by lia. done. }
  pose proof (cstring_fuel m p s Hstr) as Hfuel.
  assert (strnlen p (u64 precision) m = Ret (Z.of_nat (length t), m)) as Hstrnlen.
  { unfold strnlen, string_fuel, gets. rewrite (bind_run _ _ m _ m eq_refl), (strnlen_loop_run m s) by (done || lia || apply u64_range).
    do 2 f_equal. lia. }
  rewrite (bind_run _ _ _ _ _ Hstrnlen). cbv zeta. rewrite i32_small by lia.
  rewrite (bind_run _ _ _ _ _ (copy_string_run m str p s (length t) Hstr ltac:(unfold beside in *; lia) ltac:(lia) Hr)).
  rewrite <- Et. unfold ret. do 2 f_equal. lia.
Qed.

(** One conversion writes its text and takes its argument. *)
Lemma convert_run strings c precision str args m (n : nat) t args' :
  strings_ok strings m str n -> -1 <= precision < 2 ^ 31 -> conversion strings c precision args = Some (t, args') ->
  (length t <= n)%nat -> room m str (length t) ->
  exists m', convert c precision str args m = Ret ((str + Z.of_nat (length t), args'), m') /\ emitted m str t m'.
Proof.
  intros Hok Hp Hc Hn Hr. unfold conversion in Hc. unfold convert.
  assert (forall (write : M memory Z) (e : bool),
    write m = Ret (Z.of_nat (length t), write_bytes m str (t ++ (if e then [] else [0]))) ->
    exists m', (let! size := write in ret (str + size, args')) m = Ret ((str + Z.of_nat (length t), args'), m') /\ emitted m str t m') as Hwith.
  { intros write e Hw. rewrite (bind_run _ _ _ _ _ Hw). eexists. split; [reflexivity|apply emitted_write]. }
  pose proof (fun z => u64_range z) as H64.
  repeat match type of Hc with (if ?b then _ else _) = _ => destruct b end.
  all: try (destruct args as [|a rest]; [done|]).
  - injection Hc as <- <-. eapply Hwith. apply _getDecString_run; [|exact Hr].
    unfold i32. pose proof (Z.mod_pos_bound (a + 2 ^ 31) (2 ^ 32) ltac:(lia)). lia.
  - injection Hc as <- <-. eapply Hwith. apply _getUnsignedDecString_run; [|exact Hr].
    pose proof (u32_range a). lia.
  - injection Hc as <- <-. eapply (Hwith _ false). apply (_getHexString_run m str _ false); [apply H64|exact Hr].
  - injection Hc as <- <-. eapply (Hwith _ false). apply (_getHexString_run m str _ true); [apply H64|exact Hr].
  - injection Hc as <- <-. eapply Hwith. apply (_getNumericString_run m str _ 8 false); [apply H64|lia|exact Hr].
  - injection Hc as <- <-. eapply (Hwith _ true).
    rewrite (bind_run _ _ _ _ _ (store_run m str _ (Hr str ltac:(simpl; lia)))). unfold ret. cbn [app write_bytes length].
    by rewrite (u8_small (u8 a)) by apply u8_range.
  - destruct (strings a) as [s|] eqn:Es; [|done]. cbn [fmap option_fmap option_map] in Hc. injection Hc as <- <-.
    eapply (Hwith _ true). rewrite app_nil_r. eapply convert_string_run; eauto.
  - injection Hc as <- <-. exists m. split; [unfold ret; simpl; by rewrite Z.add_0_r|apply emitted_nil].
Qed.

(** ** The format *)

(** What a conversion of a format comes to: the text of the conversion and that of
    the rest of the format. *)
Definition converted strings c precision f args out : Prop :=
  exists t args' rest, conversion strings c precision args = Some (t, args') /\
    format strings Plain f args' = Some rest /\ out = t ++ rest.

Lemma converted_of strings c precision f args out :
  match conversion strings c precision args with
  | Some (t, args') => app t <$> format strings Plain f args'
  | None => None
  end = Some out -> converted strings c precision f args out.
Proof.
  intros H. destruct (conversion strings c precision args) as [[t args']|] eqn:E; [|done].
  destruct (format strings Plain f args') as [rest|] eqn:Er; [|done]. injection H as <-. by exists t, args', rest.
Qed.

(** Reading a precision, up to the character after it. *)
Lemma skip_atoi_loop_run strings m args out f : forall a n fuel,
  cstring m a f -> format strings (Precision n) f args = Some out -> 0 <= n < 2 ^ 31 -> (length f < fuel)%nat ->
  exists n' c f' (k : nat), skip_atoi_loop fuel a n m = Ret ((n', a + Z.of_nat k), m) /\ 0 <= n' < 2 ^ 31 /\
    drop k f = c :: f' /\ converted strings c n' f' args out.
Proof.
  induction f as [|c f IH]; intros a n [|fuel] Hs Hf Hn Hfuel; cbn [length] in Hfuel; try lia; [done|].
  destruct Hs as (Ha & Hc & Hs). cbn [format] in Hf. cbn [skip_atoi_loop]. rewrite (bind_run _ _ _ _ _ (load_run m a c Ha)).
  destruct (is_digit c) eqn:Ed.
  - unfold is_digit in Ed. destruct (Z.ltb_spec (n * 10 + c - 48) (2 ^ 31)); [|done]. rewrite i32_small by lia.
    destruct (IH (a + 1) _ fuel Hs Hf ltac:(lia) ltac:(lia)) as (n' & c' & f' & k & Hrun & Hn' & Hd & Ho).
    exists n', c', f', (Datatypes.S k). rewrite Hrun. split_and!; [do 3 f_equal; lia|lia|lia|done|done].
  - exists n, c, f, 0%nat. split_and!; [by rewrite Z.add_0_r|lia|lia|done|by apply converted_of].
Qed.

Lemma cstring_drop m f : forall a (k : nat), cstring m a f -> (k <= length f)%nat -> cstring m (a + Z.of_nat k) (drop k f).
Proof.
  induction f as [|c f IH]; intros a [|k] Hs Hk; cbn [length drop] in *; try lia; try (by rewrite Z.add_0_r).
  destruct Hs as (_ & _ & Hs). replace (a + Z.of_nat (Datatypes.S k)) with (a + 1 + Z.of_nat k) by lia. apply IH; [done|lia].
Qed.

(** The part of a conversion before its character: whether or not there is a
    precision, the code gets to the character that says which conversion it is. *)
Lemma read_precision_run strings m args out f a :
  cstring m a f -> format strings Percent f args = Some out ->
  exists precision c f' (k : nat),
    (let! c := load a in
     if c =? 46 then let! r := skip_atoi (a + 1) in ret (if fst r <? 0 then 0 else fst r, snd r)
     else ret (-1, a)) m = Ret ((precision, a + Z.of_nat k), m) /\
    -1 <= precision < 2 ^ 31 /\ drop k f = c :: f' /\ converted strings c precision f' args out.
Proof.
  intros Hs Hf. destruct f as [|c f]; [done|]. cbn [format] in Hf. pose proof (cstring_fuel m a _ Hs) as Hfuel.
  destruct Hs as (Ha & Hc & Hs). rewrite (bind_run _ _ _ _ _ (load_run m a c Ha)). destruct (c =? 46).
  - destruct (skip_atoi_loop_run strings m args out f (a + 1) 0 (Datatypes.S (stdpp.base.size m)) Hs Hf ltac:(lia)) as
      (n & c' & f' & k & Hrun & Hn & Hd & Ho); [cbn [length] in Hfuel; lia|].
    exists n, c', f', (Datatypes.S k). split_and!; [|lia|lia|done|done].
    assert (skip_atoi (a + 1) m = Ret ((n, a + 1 + Z.of_nat k), m)) as Hskip.
    { unfold skip_atoi, string_fuel, gets. by rewrite (bind_run _ _ m _ m eq_refl). }
    rewrite (bind_run _ _ _ _ _ Hskip). cbn [fst snd]. destruct (Z.ltb_spec n 0); [lia|]. unfold ret. do 3 f_equal. lia.
  - exists (-1), c, f, 0%nat. split_and!; [by rewrite Z.add_0_r|lia|lia|done|by apply converted_of].
Qed.

Lemma strings_ok_emitted strings m a (n : nat) t m' (n' : nat) :
  strings_ok strings m a n -> emitted m a t m' -> (length t + n' <= n)%nat -> strings_ok strings m' (a + Z.of_nat (length t)) n'.
Proof.
  intros Hok He Hn p s Hs. destruct (Hok p s Hs) as (Hm & Hb & Hl). split_and!; [|unfold beside in *; lia|done].
  apply (cstring_emitted m a t m' n); [done|done|lia|done].
Qed.

(** From any place of the format on, the loop writes the text of the rest of it. *)
Lemma vsprintf_loop_run strings (fuel : nat) : forall f args out str fmt m,
  (length f < fuel)%nat -> cstring m fmt f -> format strings Plain f args = Some out ->
  room m str (length out) -> beside str (length out) fmt f -> strings_ok strings m str (length out) ->
  exists m', vsprintf_loop fuel str fmt args m = Ret (str + Z.of_nat (length out), m') /\ emitted m str out m'.
Proof.
  induction fuel as [|fuel IH]; intros f args out str fmt m Hfuel Hs Hf Hr Hb Hok; [lia|].
  assert (forall t rest m1 f' (k : nat) args', out = t ++ rest -> emitted m str t m1 -> drop k f = f' -> (0 < k <= length f)%nat ->
    format strings Plain f' args' = Some rest ->
    exists m', vsprintf_loop fuel (str + Z.of_nat (length t)) (fmt + Z.of_nat k) args' m1 = Ret (str + Z.of_nat (length out), m') /\
      emitted m str out m') as Hnext.
  { intros t rest m1 f' k args' -> He <- Hk Hf'. rewrite length_app in *.
    pose proof (cstring_drop m f fmt k Hs ltac:(lia)) as Hd. pose proof (length_drop f k) as Hdl.
    destruct (IH (drop k f) args' rest (str + Z.of_nat (length t)) (fmt + Z.of_nat k) m1) as (m' & Hrun & He'); try done.
    - lia.
    - apply (cstring_emitted m str t m1 (length t + length rest)); [done|unfold beside in *; lia|lia|done].
    - by apply (room_emitted m).
    - unfold beside in *. lia.
    - by apply (strings_ok_emitted strings m str (length t + length rest)%nat).
    - exists m'. rewrite Hrun. split; [do 2 f_equal; lia|by apply (emitted_app m str t m1)]. }
  cbn [vsprintf_loop]. destruct f as [|c f].
  { injection Hf as <-. rewrite (bind_run _ _ _ _ _ (load_run m fmt 0 Hs)). cbn. exists m. split; [by rewrite Z.add_0_r|apply emitted_nil]. }
  destruct Hs as (Hc & Hcb & Hs). rewrite (bind_run _ _ _ _ _ (load_run m fmt c Hc)). destruct (Z.eqb_spec c 0); [lia|].
  cbn [format] in Hf. destruct (c =? 37); cbn [negb].
  - destruct (read_precision_run strings m args out f (fmt + 1) Hs Hf) as (precision & c' & f' & k & Hrun & Hp & Hd & Hconv).
    destruct Hconv as (t & args' & rest & Hc' & Hf' & Ho).
    assert (k < length f)%nat as Hk by (apply (f_equal length) in Hd; rewrite length_drop in Hd; cbn [length] in Hd; lia).
    pose proof (cstring_drop m f (fmt + 1) k Hs ltac:(lia)) as Hs'. rewrite Hd in Hs'. destruct Hs' as (Hl & _ & _).
    assert (length t <= length out)%nat as Ht by (rewrite Ho, length_app; lia).
    destruct (convert_run strings c' precision str args m (length out) t args' Hok Hp Hc' Ht) as (m1 & Hconv & He).
    { intros z Hz. apply Hr. lia. }
    destruct (Hnext t rest m1 f' (Datatypes.S (Datatypes.S k)) args' Ho He) as (m' & Hrun' & He').
    { change (drop (Datatypes.S (Datatypes.S k)) (c :: f)) with (drop (Datatypes.S k) f).
      replace (Datatypes.S k) with (k + 1)%nat by lia. by rewrite <- drop_drop, Hd. }
    { cbn [length]. lia. } { done. }
    exists m'. split; [|done]. rewrite <- bind_assoc, (bind_run _ _ _ _ _ Hrun), (bind_run _ _ _ _ _ (load_run m _ c' Hl)).
    rewrite (bind_run _ _ _ _ _ Hconv). rewrite <- Hrun'. f_equal. lia.
  - destruct (format strings Plain f args) as [rest|] eqn:Ef; [|done]. injection Hf as <-.
    assert (emitted m str [c] (<[str := c]> m)) as He by apply (emitted_write m str [c] true).
    destruct (Hnext [c] rest _ f 1%nat args eq_refl He eq_refl ltac:(cbn [length]; lia) Ef) as (m' & Hrun & He').
    exists m'. split; [|done]. rewrite (bind_run _ _ _ _ _ (store_run m str c (Hr str ltac:(lia)))), u8_small by lia. exact Hrun.
Qed.

(** The whole of a run. *)
Lemma vsprintf_run strings m buffer fmt f args out :
  cstring m fmt f -> format strings Plain f args = Some out ->
  room m buffer (length out) -> beside buffer (length out) fmt f -> strings_ok strings m buffer (length out) ->
  exists m', vsprintf buffer fmt args m = Ret (Z.of_nat (length out), m') /\
    (forall i c, out !! i = Some c -> m' !! (buffer + Z.of_nat i) = Some c) /\
    m' !! (buffer + Z.of_nat (length out)) = Some 0 /\
    (forall z, z < buffer \/ buffer + Z.of_nat (length out) < z -> m' !! z = m !! z).
Proof.
  intros Hs Hf Hr Hb Hok. pose proof (cstring_fuel m fmt f Hs).
  destruct (vsprintf_loop_run strings (Datatypes.S (stdpp.base.size m)) f args out buffer fmt m ltac:(lia) Hs Hf Hr Hb Hok) as (m1 & Hrun & Ht & Ho & Hv).
  set (last := buffer + Z.of_nat (length out)). exists (<[last := 0]> m1). split_and!.
  - unfold vsprintf, string_fuel, gets. rewrite (bind_run _ _ m _ m eq_refl), (bind_run _ _ _ _ _ Hrun).
    rewrite (bind_run _ _ _ _ _ (store_run m1 last 0 (Hv last (Hr last ltac:(unfold last; lia))))). unfold ret, last. do 2 f_equal. lia.
  - intros i c Hi. pose proof (lookup_lt_Some _ _ _ Hi). rewrite lookup_insert_ne by (unfold last; lia). by apply Ht.
  - apply lookup_insert_eq.
  - intros z Hz. rewrite lookup_insert_ne by (unfold last; lia). by apply Ho.
Qed.

(** C21: [vsprintf] writes the text its format stands for. Each conversion of the
    format is replaced by the text of its argument ([%d], [%u], [%x], [%X], [%o] a
    number, [%c] a character, [%s] a string, with a precision at most so many of its
    characters), everything else is copied, and a percent sign before any other
    character disappears with it. The text is followed by a terminator, nothing but
    the room for the two changes, and the length of the text is returned. *)
Theorem vsprintf_formats strings m buffer fmt f args out :
  cstring m fmt f -> format strings Plain f args = Some out ->
  room m buffer (length out) -> beside buffer (length out) fmt f -> strings_ok strings m buffer (length out) ->
  exists m', vsprintf buffer fmt args m = Ret (Z.of_nat (length out), m') /\
    (forall i c, out !! i = Some c -> m' !! (buffer + Z.of_nat i) = Some c) /\
    m' !! (buffer + Z.of_nat (length out)) = Some 0 /\
    (forall z, z < buffer \/ buffer + Z.of_nat (length out) < z -> m' !! z = m !! z).
Proof. apply vsprintf_run. Qed.
End Format.

(** ** Witnesses *)

(** ["%d %x %.2s"], the string ["abc"], and a buffer of 32 bytes. *)
Definition sample_format : list Z := [37; 100; 32; 37; 120; 32; 37; 46; 50; 115].
Definition sample_text : memory :=
  write_bytes (write_bytes (write_bytes empty 0x100 (sample_format ++ [0])) 0x140 [97; 98; 99; 0]) 0x200 (replicate 32 7).
Definition sample_strings (p : Z) : option (list Z) := if p =? 0x140 then Some [97; 98; 99] else None.
Definition sample_args : list Z := [-7; 0x1f; 0x140].

(** The text is ["-7 1f ab"]. *)
Lemma sample_formatted :
  format sample_strings Plain sample_format sample_args = Some [45; 55; 32; 49; 102; 32; 97; 98].
Proof. by vm_compute. Qed.

(** A percent sign does not stand for itself when it is doubled. *)
Lemma doubled_percent_lost strings f args : format strings Plain (37 :: 37 :: f) args = format strings Plain f args.
Proof. simpl. by destruct (format strings Plain f args). Qed.

Lemma vsprintf_formats_witness :
  exists m', vsprintf 0x200 0x100 sample_args sample_text = Ret (8, m') /\ m' !! 0x208 = Some 0.
Proof.
  destruct (vsprintf_formats sample_strings sample_text 0x200 0x100 sample_format sample_args [45; 55; 32; 49; 102; 32; 97; 98])
    as (m' & Hrun & _ & Hend & _).
  - vm_compute. repeat split; by intros.
  - exact sample_formatted.
  - intros z Hz. unfold sample_text. rewrite write_bytes_lookup. cbn [length replicate] in *. cbn [length].
    destruct (Z.leb_spec 0x200 z); [|lia]. destruct (Z.ltb_spec z (0x200 + Z.of_nat 32)); [|lia].
    cbn [andb]. apply lookup_lt_is_Some_2. simpl. lia.
  - unfold beside. simpl. lia.
  - intros p s Hs. unfold sample_strings in Hs. destruct (Z.eqb_spec p 0x140) as [->|]; [|done]. injection Hs as <-.
    split_and!; [vm_compute; repeat split; by intros|unfold beside; simpl; lia|simpl; lia].
  - exists m'. split; [exact Hrun|exact Hend].
Defined.
