(* ===== verification/Bytes.v ===== *)
(** Numbers of several bytes in memory, little-endian as the processor keeps them:
    what the code that overlays C types on memory (the framebuffer, the fonts, the
    tables of the firmware) shares. *)
From S2P Require Import Prelude CString.

(** The value of the [n] bytes from [a] on, if they are all there. *)
Fixpoint read_le (n : nat) (m : memory) (a : Z) : option Z :=
  match n with
  | O => Some 0
  | S n' => b ← m !! a; h ← read_le n' m (a + 1); Some (b + 256 * h)
  end.

Fixpoint write_le (n : nat) (m : memory) (a v : Z) : memory :=
  match n with
  | O => m
  | S n' => write_le n' (<[a := v mod 256]> m) (a + 1) (v / 256)
  end.

Definition load_le (n : nat) (a : Z) : M memory Z :=
  let! m := get in lift_opt OutOfBounds (read_le n m a).

Definition present (m : memory) (a n : Z) : Prop := forall i, 0 <= i < n -> is_Some (m !! (a + i)).

Definition store_le (n : nat) (a v : Z) : M memory unit :=
  let! m := get in
  if forallb (fun i => match m !! (a + i) with Some _ => true | None => false end) (seqZ 0 (Z.of_nat n))
  then put (write_le n m a v) else throw OutOfBounds.

Section Lemmas.
Implicit Types (m : memory) (a v : Z).

Lemma load_le_run n m a v : read_le n m a = Some v -> load_le n a m = Ret (v, m).
Proof. intros Hv. unfold load_le, bind, get. by rewrite Hv. Qed.

Lemma store_le_run n m a v : present m a (Z.of_nat n) -> store_le n a v m = Ret (tt, write_le n m a v).
Proof.
  intros Hm. unfold store_le, bind, get.
  assert (forallb (fun i => match m !! (a + i) with Some _ => true | None => false end) (seqZ 0 (Z.of_nat n)) = true) as ->; [|done].
  apply forallb_forall. intros i Hi. apply list_elem_of_In, elem_of_seqZ in Hi.
  by destruct (Hm i ltac:(lia)) as [b ->].
Qed.

Lemma write_le_other n : forall m a v b, ~ (a <= b < a + Z.of_nat n) -> write_le n m a v !! b = m !! b.
Proof.
  induction n as [|n IH]; intros m a v b Hb; [done|]. simpl. rewrite IH by lia. apply lookup_insert_ne. lia.
Qed.

Lemma read_le_ext n : forall m m' a, (forall i, 0 <= i < Z.of_nat n -> m !! (a + i) = m' !! (a + i)) -> read_le n m a = read_le n m' a.
Proof.
  induction n as [|n IH]; intros m m' a He; [done|]. simpl. rewrite <- (Z.add_0_r a), (He 0) by lia. rewrite Z.add_0_r.
  rewrite (IH m m' (a + 1)); [done|]. intros i Hi. replace (a + 1 + i) with (a + (1 + i)) by lia. apply He. lia.
Qed.

Lemma read_write_other n k m a v b :
  b + Z.of_nat k <= a \/ a + Z.of_nat n <= b -> read_le k (write_le n m a v) b = read_le k m b.
Proof. intros Hd. apply read_le_ext. intros i Hi. apply write_le_other. lia. Qed.

Lemma read_write_same n : forall m a v, read_le n (write_le n m a v) a = Some (v mod 256 ^ Z.of_nat n).
Proof.
  induction n as [|n IH]; intros m a v; [by rewrite Z.mod_1_r|]. cbn [read_le write_le].
  rewrite write_le_other, lookup_insert_eq by lia. simpl. rewrite IH. simpl. f_equal.
  rewrite Nat2Z.inj_succ, Z.pow_succ_r by lia. pose proof (Z.pow_pos_nonneg 256 (Z.of_nat n) ltac:(lia) ltac:(lia)).
  rewrite Z.rem_mul_r by lia. done.
Qed.

Lemma read_le_present n : forall m a, present m a (Z.of_nat n) -> is_Some (read_le n m a).
Proof.
  induction n as [|n IH]; intros m a Hm; [by eexists|]. cbn [read_le].
  destruct (Hm 0 ltac:(lia)) as [b Hb]. rewrite Z.add_0_r in Hb. rewrite Hb. simpl.
  destruct (IH m (a + 1)) as [h ->]; [|by eexists].
  intros i Hi. replace (a + 1 + i) with (a + (1 + i)) by lia. apply Hm. lia.
Qed.

Lemma write_le_present n : forall m a v b k, present m b k -> present (write_le n m a v) b k.
Proof.
  induction n as [|n IH]; intros m a v b k Hm; [done|]. simpl. apply IH. intros i Hi.
  destruct (decide (a = b + i)) as [->|Hne]; [rewrite lookup_insert_eq; by eexists|rewrite lookup_insert_ne by done; by apply Hm].
Qed.

(** A memory of bytes. *)
Definition bytes_ok m : Prop := forall a b, m !! a = Some b -> 0 <= b < 256.

Lemma write_le_bytes n : forall m a v, bytes_ok m -> bytes_ok (write_le n m a v).
Proof.
  induction n as [|n IH]; intros m a v Hm; [done|]. simpl. apply IH. intros b c.
  destruct (decide (a = b)) as [->|Hne]; [rewrite lookup_insert_eq|rewrite lookup_insert_ne by done; apply Hm].
  intros [= <-]. apply Z.mod_pos_bound. lia.
Qed.

Lemma read_le_range n : forall m a v, bytes_ok m -> read_le n m a = Some v -> 0 <= v < 256 ^ Z.of_nat n.
Proof.
  induction n as [|n IH]; intros m a v Hm; [intros [= <-]; lia|]. cbn [read_le].
  destruct (m !! a) as [b|] eqn:Hb; [|done]. simpl. destruct (read_le n m (a + 1)) as [h|] eqn:Hh; [|done]. simpl.
  intros [= <-]. apply Hm in Hb. apply IH in Hh; [|done]. rewrite Nat2Z.inj_succ, Z.pow_succ_r by lia. lia.
Qed.
End Lemmas.
