(* ===== verification/Elf.v ===== *)
(** The ELF loader: [kernel/loaders/elf.c]. Headers are read from the memory of
    [CString], little-endian and packed as the ABI lays them out. *)
From S2P Require Import Prelude VmmUtil CString Bytes.

Definition EI_NIDENT : Z := 16.
Definition EI_CLASS : Z := 4.
Definition EI_DATA : Z := 5.
Definition EI_VERSION : Z := 6.
Definition ELF_MAGIC_SIZE : Z := 4.
Definition ELFCLASS64 : Z := 2.
Definition ELFDATA2LSB : Z := 1.
Definition EV_CURRENT : Z := 1.
Definition PT_LOAD : Z := 1.
Definition ELF_MACHINE : Z := 62.
Definition _elf_header_mag : list Z := [0x7f; 69; 76; 70].

Inductive executable_loader_type : Type :=
| ELF.

Record Elf64_Ehdr : Type := mk_ehdr {
  e_ident : list Z;
  e_type : Z;
  e_machine : Z;
  e_version : Z;
  e_entry : Z;
  e_phoff : Z;
  e_shoff : Z;
  e_flags : Z;
  e_ehsize : Z;
  e_phentsize : Z;
  e_phnum : Z;
  e_shentsize : Z;
  e_shnum : Z;
  e_shstrndx : Z;
}.

Record Elf64_Phdr : Type := mk_phdr {
  p_type : Z;
  p_flags : Z;
  p_offset : Z;
  p_vaddr : Z;
  p_paddr : Z;
  p_filesz : Z;
  p_memsz : Z;
  p_align : Z;
}.
Definition sizeof_Elf64_Phdr : Z := 56.

(** [n] bytes in a row, and the unsigned integer they are. *)
Fixpoint load_bytes (n : nat) (a : Z) : M memory (list Z) :=
  match n with
  | O => ret []
  | Datatypes.S n' => let! c := load a in let! l := load_bytes n' (a + 1) in ret (c :: l)
  end.
Definition little_endian (l : list Z) : Z := foldr (fun c acc => c + 256 * acc) 0 l.
Definition load_int (n : nat) (a : Z) : M memory Z := let! l := load_bytes n a in ret (little_endian l).

Definition load_ehdr (a : Z) : M memory Elf64_Ehdr :=
  let! ident := load_bytes 16 a in
  let! type := load_int 2 (a + 16) in
  let! machine := load_int 2 (a + 18) in
  let! version := load_int 4 (a + 20) in
  let! entry := load_int 8 (a + 24) in
  let! phoff := load_int 8 (a + 32) in
  let! shoff := load_int 8 (a + 40) in
  let! flags := load_int 4 (a + 48) in
  let! ehsize := load_int 2 (a + 52) in
  let! phentsize := load_int 2 (a + 54) in
  let! phnum := load_int 2 (a + 56) in
  let! shentsize := load_int 2 (a + 58) in
  let! shnum := load_int 2 (a + 60) in
  let! shstrndx := load_int 2 (a + 62) in
  ret (mk_ehdr ident type machine version entry phoff shoff flags ehsize phentsize phnum shentsize shnum shstrndx).

Definition load_phdr (a : Z) : M memory Elf64_Phdr :=
  let! type := load_int 4 a in
  let! flags := load_int 4 (a + 4) in
  let! offset := load_int 8 (a + 8) in
  let! vaddr := load_int 8 (a + 16) in
  let! paddr := load_int 8 (a + 24) in
  let! filesz := load_int 8 (a + 32) in
  let! memsz := load_int 8 (a + 40) in
  let! align := load_int 8 (a + 48) in
  ret (mk_phdr type flags offset vaddr paddr filesz memsz align).

(** [phdr_list[i]]. *)
Definition phdr_address (e_hdr : Z) (h : Elf64_Ehdr) (i : Z) : Z := u64 (e_hdr + h.(e_phoff) + sizeof_Elf64_Phdr * i).

Fixpoint loop_phdrs_from (n : nat) (e_hdr : Z) (h : Elf64_Ehdr) (i number_of_pt_loads : Z) : M memory Z :=
  match n with
  | O => ret number_of_pt_loads
  | Datatypes.S n' =>
      let! phdr := load_phdr (phdr_address e_hdr h i) in
      loop_phdrs_from n' e_hdr h (i + 1)
        (if phdr.(p_type) =? PT_LOAD then u16 (number_of_pt_loads + 1) else number_of_pt_loads)
  end.
Definition loop_phdrs (e_hdr phdr_entries : Z) : M memory Z :=
  let! h := load_ehdr e_hdr in loop_phdrs_from (Z.to_nat phdr_entries) e_hdr h 0 0.

Definition read_phdr (e_hdr phdr_entry_number : Z) : M memory Z :=
  let! h := load_ehdr e_hdr in
  if phdr_entry_number <? h.(e_phnum) then ret (phdr_address e_hdr h phdr_entry_number) else ret 0.

Definition validate_elf_magic_number (elf_start : Z) : M memory bool :=
  let! h := load_ehdr elf_start in
  ret (bool_decide (take (Z.to_nat ELF_MAGIC_SIZE) h.(e_ident) = _elf_header_mag)).

(** [parse_section_header]: the comparison with the magic number is only logged. *)
Definition ident (h : Elf64_Ehdr) (i : Z) : Z := nth (Z.to_nat i) h.(e_ident) 0.
Definition parse_section_header (elf_start size : Z) (type : executable_loader_type) : M memory bool :=
  match type with
  | ELF =>
      let! h := load_ehdr elf_start in
      if negb (ident h EI_CLASS =? ELFCLASS64) then ret false
      else if negb (ident h EI_DATA =? ELFDATA2LSB) then ret false
      else if negb (ident h EI_VERSION =? EV_CURRENT) then ret false
      else if negb (h.(e_machine) =? ELF_MACHINE) then ret false
      else ret true
  end.

Definition elf_flags_to_memory_flags (flags : Z) : Z := Z.land flags 2.

(** [load_elf] reads and logs; the first program header is read through the result
    of [read_phdr]. *)
Definition load_elf (elf_start size : Z) : M memory unit :=
  let! is_elf_valid := parse_section_header elf_start size ELF in
  if is_elf_valid then
    let! h := load_ehdr elf_start in
    let! result := loop_phdrs elf_start h.(e_phnum) in
    if 0 <? result then
      let! cur_phdr := read_phdr elf_start 0 in
      do! (if cur_phdr =? 0 then throw NullDeref else ret tt) in
      let! _ := load_phdr cur_phdr in
      let! _ := read_phdr elf_start 1 in
      ret tt
    else ret tt
  else ret tt.

(** ** The headers are only read *)

Section Reading.
Implicit Types (m : memory) (a : Z).

(** A decidable way to see that bytes are in memory. *)
Definition present_check (m : memory) (a n : Z) : bool :=
  forallb (fun i => match m !! (a + i) with Some _ => true | None => false end) (seqZ 0 n).
Lemma present_check_ok m a n : present_check m a n = true -> present m a n.
Proof.
  unfold present_check. rewrite forallb_forall. intros Hc i Hi. specialize (Hc i).
  destruct (m !! (a + i)); [by eexists|]. discriminate Hc. apply list_elem_of_In, elem_of_seqZ. lia.
Qed.

Lemma load_reads m a n i : present m a n -> 0 <= i < n -> reads (load (a + i)) m.
Proof. intros Hm Hi. destruct (Hm i Hi) as [c Hc]. exists c. by apply load_run. Qed.

Lemma load_bytes_reads m (n : nat) : forall a, present m a (Z.of_nat n) -> reads (load_bytes n a) m.
Proof.
  induction n as [|n IH]; intros a Hm; cbn [load_bytes]; [apply reads_ret|].
  apply reads_bind; [rewrite <- (Z.add_0_r a); apply (load_reads m a (Z.of_nat (S n))); [done|lia]|]. intros c _.
  apply reads_bind; [apply IH|intros; apply reads_ret]. intros i Hi. replace (a + 1 + i) with (a + (1 + i)) by lia. apply Hm. lia.
Qed.

Lemma load_int_reads m a base k (n : nat) : present m base k -> base <= a -> a + Z.of_nat n <= base + k -> reads (load_int n a) m.
Proof.
  intros Hm Ha Hk. apply reads_bind; [apply load_bytes_reads|intros; apply reads_ret].
  intros i Hi. replace (a + i) with (base + (a - base + i)) by lia. apply Hm. lia.
Qed.

Lemma load_phdr_reads m a base k : present m base k -> base <= a -> a + 56 <= base + k -> reads (load_phdr a) m.
Proof.
  intros Hm Ha Hk. unfold load_phdr.
  repeat (apply reads_bind; [apply (load_int_reads m _ base k); [done|lia|lia]|intros ? _]). apply reads_ret.
Qed.

Lemma load_ehdr_reads m a : present m a 64 -> reads (load_ehdr a) m.
Proof.
  intros Hm. unfold load_ehdr. apply reads_bind; [apply load_bytes_reads; intros i Hi; apply Hm; lia|intros ? _].
  repeat (apply reads_bind; [apply (load_int_reads m _ a 64); [done|lia|lia]|intros ? _]). apply reads_ret.
Qed.
End Reading.
