(* ===== verification/Task.v ===== *)
(** Threads and tasks: [kernel/scheduling/thread.c], [kernel/scheduling/task.c] and
    [userpsace/test_userspace.c]. The state puts the heap, the memory managers below
    it, the scheduler, the execution frames and the bytes of memory together. *)
From S2P Require Import Prelude VmmUtil Mmap Bitmap Pmm Kheap Paging Boot Vmm Scheduler CString Elf.

(** The registers of an interrupted thread. *)
Record cpu_status_t : Type := mk_cpu_status {
  r15 : Z; r14 : Z; r13 : Z; r12 : Z; r11 : Z; r10 : Z; r9 : Z; r8 : Z;
  rdi : Z; rsi : Z; rbp : Z; rdx : Z; rcx : Z; rbx : Z; rax : Z;
  interrupt_number : Z;
  error_code : Z;
  rip : Z;
  cs : Z;
  rflags : Z;
  rsp : Z;
  ss : Z;
}.

(** What [create_thread] writes of a frame, the other registers being what the heap's
    memory held; [args] are [rdi] and [rsi] when they are written. *)
Definition new_frame (args : option (Z * Z)) (ip code flags sp data : Z) (old : cpu_status_t) : cpu_status_t :=
  mk_cpu_status old.(r15) old.(r14) old.(r13) old.(r12) old.(r11) old.(r10) old.(r9) old.(r8)
    (match args with Some (a, _) => a | None => old.(rdi) end) (match args with Some (_, b) => b | None => old.(rsi) end)
    0 old.(rdx) old.(rcx) old.(rbx) old.(rax) 0x101 0 ip code flags sp data.

(** What the memory the heap gives out holds: the fields nothing writes keep it. *)
Record garbage : Type := mk_garbage {
  old_thread : thread_t;
  old_frame : cpu_status_t;
  old_task : task_t;
  old_info : VmmInfo;
}.

Definition THREAD_NAME_MAX_LEN : Z := 32.
Definition TASK_NAME_MAX_LEN : Z := 32.
Definition sizeof_thread_t : Z := 120.
Definition sizeof_cpu_status_t : Z := 176.
Definition sizeof_task_t : Z := 1216.

Section Tasks.
Context `{PageConfig}.
#[local] Notation heap := (heap_state (vmm_state pmm_state)).

(** [root_page_table] is the physical address of [p4_table], the boot page table;
    [code_to_run] the address of the array of that name. *)
Record kernel_state : Type := mk_kernel {
  ks_heap : heap;
  ks_sched : sched_state;
  ks_frames : gmap Z cpu_status_t;
  ks_memory : memory;
  root_page_table : Z;
  code_to_run : Z;
}.
Definition set_ks_heap (h : heap) (s : kernel_state) : kernel_state :=
  mk_kernel h s.(ks_sched) s.(ks_frames) s.(ks_memory) s.(root_page_table) s.(code_to_run).
Definition set_ks_sched (x : sched_state) (s : kernel_state) : kernel_state :=
  mk_kernel s.(ks_heap) x s.(ks_frames) s.(ks_memory) s.(root_page_table) s.(code_to_run).
Definition set_ks_frames (x : gmap Z cpu_status_t) (s : kernel_state) : kernel_state :=
  mk_kernel s.(ks_heap) s.(ks_sched) x s.(ks_memory) s.(root_page_table) s.(code_to_run).
Definition set_ks_memory (x : memory) (s : kernel_state) : kernel_state :=
  mk_kernel s.(ks_heap) s.(ks_sched) s.(ks_frames) x s.(root_page_table) s.(code_to_run).

Definition in_heap {A} (m : M heap A) : M kernel_state A := zoom ks_heap set_ks_heap m.
Definition in_sched {A} (m : M sched_state A) : M kernel_state A := zoom ks_sched set_ks_sched m.
Definition in_memory {A} (m : M memory A) : M kernel_state A := zoom ks_memory set_ks_memory m.
Definition in_vmm {A} (m : M (vmm_state pmm_state) A) : M kernel_state A := in_heap (zoom heap_vmm set_heap_vmm m).
Definition in_tables {A} (m : M (vm_state pmm_state) A) : M kernel_state A := in_vmm (in_vm m).

(** [strcpy] into a field of [size] characters; a longer name runs over the fields
    after it. *)
Definition copy_name (size : Z) (name : list Z) : M kernel_state (list Z) :=
  if Z.of_nat (length name) <? size then ret name else throw OutOfBounds.

Definition write_frame (p : Z) (f : cpu_status_t) : M kernel_state unit :=
  if p =? 0 then throw NullDeref else modify (fun s => set_ks_frames (<[p := f]> s.(ks_frames)) s).

(** The code of the test task, in the order it is copied. *)
Definition test_syscall : list Z := [0xbf; 0x63; 0; 0; 0; 0xbe; 1; 0; 0; 0; 0xcd; 0x80; 0xeb; 0xf2].

(** [prepare_userspace_function], on the task whose [vmm_data] it is given. The
    bytes of the page just mapped are in the memory from then on. *)
Definition prepare_userspace_function (vmm_info : Z) : M kernel_state Z :=
  if vmm_info =? 0 then throw Halted
  else
    let! temp_var := in_tables (in_frames alloc_frame) in
    let! code_page := in_vmm (vmm_alloc_any PAGE_SIZE_IN_BYTES (Z.lor VMM_FLAGS_ADDRESS_ONLY VMM_FLAGS_WRITE_ENABLE) 0) in
    let! _ := in_tables (map_phys_to_virt_addr_hh temp_var code_page (Z.lor VMM_FLAGS_PRESENT VMM_FLAGS_WRITE_ENABLE) 0) in
    do! modify (fun s => set_ks_memory (list_to_map (zip (seqZ code_page 14) test_syscall) ∪ s.(ks_memory)) s) in
    let! user_code_page := in_vmm (vmm_alloc_any PAGE_SIZE_IN_BYTES
      (Z.lor (Z.lor (Z.lor VMM_FLAGS_ADDRESS_ONLY VMM_FLAGS_WRITE_ENABLE) VMM_FLAGS_PRESENT) VMM_FLAGS_USER_LEVEL) vmm_info) in
    let! i := in_vmm (get_info vmm_info) in
    let! _ := in_tables (map_phys_to_virt_addr_hh temp_var user_code_page
      (Z.lor (Z.lor VMM_FLAGS_USER_LEVEL VMM_FLAGS_PRESENT) VMM_FLAGS_WRITE_ENABLE) i.(root_table_hhdm)) in
    let! _ := in_tables (vm_copy_from_different_space user_code_page i.(root_table_hhdm)) in
    ret user_code_page.

Definition add_thread_to_task (task thread : Z) : M sched_state bool :=
  if (task =? 0) || (thread =? 0) then ret false
  else
    let! k := read_task task in
    do! update_thread thread (fun t => set_sibling thread (set_thread_next k.(task_threads) t)) in
    ret true.

Fixpoint get_task_loop (fuel : nat) (id cur_task : Z) : M sched_state Z :=
  match fuel with
  | O => diverge
  | Datatypes.S fuel' =>
      if cur_task =? 0 then ret 0
      else let! k := read_task cur_task in if k.(task_id) =? id then ret cur_task else get_task_loop fuel' id k.(task_next)
  end.
Definition get_task (id : Z) : M sched_state Z :=
  let! s := get in
  if s.(next_task_id) <? id then ret 0
  else get_task_loop (Datatypes.S (stdpp.base.size s.(tasks))) id s.(root_task).

Definition add_thread_to_task_by_id (id thread : Z) : M sched_state bool :=
  let! task := get_task id in
  if task =? 0 then ret false
  else
    let! k := read_task task in
    do! update_thread thread (fun t => set_sibling thread (set_thread_next k.(task_threads) (set_parent_task task t))) in
    ret true.

(** [remove_thread_from_task]: the loop returns in its first round. *)
Definition remove_thread_from_task (thread_id task : Z) : M sched_state bool :=
  let! k := read_task task in
  let cur_thread := k.(task_threads) in
  if cur_thread =? 0 then ret false
  else
    let! t := read_thread cur_thread in
    if t.(tid) =? thread_id then do! update_task task (set_task_threads t.(next_sibling)) in ret true
    else ret true.

Definition create_thread (g : garbage) (name : list Z) (_entry_point arg parent : Z) (is_supervisor is_elf : bool) : M kernel_state Z :=
  if parent =? 0 then throw Halted
  else
    let! new_thread := in_heap (kmalloc sizeof_thread_t) in
    let! s := get in
    let id := s.(ks_sched).(next_thread_id) in
    do! (if new_thread =? 0 then throw NullDeref else ret tt) in
    do! in_sched (modify (fun x => set_ids (u64 (id + 1)) x.(next_task_id) x)) in
    let! name := copy_name THREAD_NAME_MAX_LEN name in
    let! frame := in_heap (kmalloc sizeof_cpu_status_t) in
    do! (if frame =? 0 then throw NullDeref else ret tt) in
    let! ip :=
      if is_supervisor then ret s.(code_to_run)
      else if is_elf then ret _entry_point else prepare_userspace_function parent in
    let! kernel_stack := in_heap (kmalloc THREAD_DEFAULT_STACK_SIZE) in
    let stack_top := u64 (kernel_stack + THREAD_DEFAULT_STACK_SIZE) in
    if stack_top =? 0 then diverge
    else
      let! stack_pointer := in_vmm (vmm_alloc_any THREAD_DEFAULT_STACK_SIZE
        (Z.lor (Z.lor VMM_FLAGS_PRESENT VMM_FLAGS_WRITE_ENABLE) VMM_FLAGS_STACK) parent) in
      if stack_pointer =? 0 then diverge
      else
        do! write_frame frame (new_frame (if is_supervisor then None else Some (0, 0)) ip
              (if is_supervisor then 0x08 else 0x1B) 0x202 stack_pointer (if is_supervisor then 0x10 else 0x23) g.(old_frame)) in
        do! in_sched (write_thread new_thread
              (mk_thread (u16 id) name stack_pointer parent NEW 0 frame 0 0 0 stack_top g.(old_thread).(thread_exit_code))) in
        do! in_sched (add_thread_to_task parent new_thread) in
        do! in_sched (scheduler_add_thread new_thread) in
        do! in_sched (update_task parent (fun k => set_running_threads (u64 (k.(running_threads) + 1)) k)) in
        ret new_thread.

Definition create_task (g : garbage) (name : list Z) (is_supervisor : bool) : M kernel_state Z :=
  let! new_task := in_heap (kmalloc sizeof_task_t) in
  do! (if new_task =? 0 then throw NullDeref else ret tt) in
  let! name := copy_name TASK_NAME_MAX_LEN name in
  let! s := get in
  let id := s.(ks_sched).(next_task_id) in
  do! in_sched (modify (fun x => set_ids x.(next_thread_id) (u64 (id + 1)) x)) in
  let! root := in_tables (in_frames alloc_frame) in
  let! vm_root_vaddress := in_tables (vm_hhdm_get_variable root) in
  let k := g.(old_task) in
  do! in_sched (write_task new_task
        (mk_task id name root 3 k.(task_threads) 0 k.(task_next) k.(running_threads) ALIVE k.(task_exit_code))) in
  do! in_vmm (put_info new_task (with_root_tables vm_root_vaddress root g.(old_info))) in
  do! in_vmm (vmm_init (if is_supervisor then VMM_LEVEL_SUPERVISOR else VMM_LEVEL_USER) new_task) in
  ret new_task.

(** The loop of [prepare_virtual_memory_environment], on the physical address of the
    new root table, its address in the direct map, and that of [p4_table]. *)
Definition fill_root_table (root vm_root_vaddress p4 : Z) : M (vm_state pmm_state) unit :=
  for_upto VM_PAGES_PER_TABLE (fun i =>
    if i <=? 255 then table_write vm_root_vaddress i 0
    else if i =? 510 then table_write vm_root_vaddress i (Z.lor (Z.lor root VMM_FLAGS_PRESENT) VMM_FLAGS_WRITE_ENABLE)
    else let! e := phys_read (p4 + 8 * i) in table_write vm_root_vaddress i e).

Definition prepare_virtual_memory_environment (task : Z) : M kernel_state unit :=
  let! k := in_sched (read_task task) in
  let! vm_root_vaddress := in_tables (vm_hhdm_get_variable k.(vm_root_page_table)) in
  let! s := get in
  in_tables (fill_root_table k.(vm_root_page_table) vm_root_vaddress s.(root_page_table)).

Definition create_task_from_func (g : garbage) (name : list Z) (_entry_point args : Z) (is_supervisor : bool) : M kernel_state Z :=
  let! new_task := create_task g name is_supervisor in
  do! prepare_virtual_memory_environment new_task in
  let! thread := create_thread g name (if is_supervisor then _entry_point else 0) args new_task is_supervisor false in
  do! in_sched (update_task new_task (set_task_threads thread)) in
  do! in_sched (scheduler_add_task new_task) in
  ret new_task.

(** One page of a program header: mapped where it is when it is aligned there, else
    copied to frames of its own. *)
Definition map_phdr_page (elf_info : VmmInfo) (phdr : Elf64_Phdr) (offset_address vaddr_address : Z) : M kernel_state unit :=
  let! s := get in
  let base := s.(ks_heap).(heap_vmm).(vmm_vm).(hhdm_base) in
  let flags := Z.lor (Z.lor VMM_FLAGS_USER_LEVEL (elf_flags_to_memory_flags phdr.(p_flags))) VMM_FLAGS_PRESENT in
  let phys_offset := u64 (offset_address - base) in
  let! aligned := lift_opt DivByZero (is_address_aligned phys_offset PAGE_SIZE_IN_BYTES) in
  if negb aligned then
    let! phys_address := in_tables (in_frames (pmm_alloc_area phdr.(p_memsz))) in
    let! new_virt_addr := in_tables (vm_hhdm_get_variable phys_address) in
    let! _ := in_memory (memcpy new_virt_addr offset_address phdr.(p_memsz)) in
    let! _ := in_tables (map_phys_to_virt_addr_hh phys_address vaddr_address flags elf_info.(root_table_hhdm)) in
    ret tt
  else
    let! _ := in_tables (map_phys_to_virt_addr_hh phys_offset vaddr_address flags elf_info.(root_table_hhdm)) in
    ret tt.

Definition load_phdr_pages (elf_info : VmmInfo) (elf_header : Z) (phdr : Elf64_Phdr) : M kernel_state unit :=
  let mem_pages := u16 (get_number_of_pages_from_size phdr.(p_memsz)) in
  let offset_address := u64 (elf_header + phdr.(p_offset)) in
  let vaddr_address := align_value_to_page phdr.(p_vaddr) in
  for_upto mem_pages (fun j =>
    map_phdr_page elf_info phdr (u64 (offset_address + j * phdr.(p_align))) (u64 (vaddr_address + j * phdr.(p_align)))).

Definition create_task_from_elf (g : garbage) (name : list Z) (args elf_header : Z) : M kernel_state Z :=
  let! new_task := create_task g name false in
  do! prepare_virtual_memory_environment new_task in
  do! (if elf_header =? 0 then ret tt
       else
         let! h := in_memory (load_ehdr elf_header) in
         let! i := in_vmm (get_info new_task) in
         do! for_upto h.(e_phnum) (fun j =>
               let! phdr := in_memory (load_phdr (phdr_address elf_header h j)) in
               load_phdr_pages i elf_header phdr) in
         let! _ := create_thread g name h.(e_entry) args new_task false true in ret tt) in
  do! in_sched (scheduler_add_task new_task) in
  ret new_task.

Fixpoint print_threads (fuel : nat) (thread : Z) : M sched_state (list (Z * list Z)) :=
  match fuel with
  | O => diverge
  | Datatypes.S fuel' =>
      if thread =? 0 then ret []
      else
        let! t := read_thread thread in
        let! l := print_threads fuel' t.(thread_next) in ret ((t.(tid), t.(thread_name)) :: l)
  end.
(** [print_thread_list]; the result is what it logs. *)
Definition print_thread_list (id : Z) : M sched_state (list (Z * list Z)) :=
  let! task := get_task id in
  if task =? 0 then ret []
  else let! k := read_task task in let! s := get in print_threads (list_fuel s) k.(task_threads).

Definition task_alloc_fd : M sched_state Z :=
  let! s := get in
  let! t := read_thread s.(current_executing_thread) in
  let! k := read_task t.(parent_task) in
  do! update_task t.(parent_task) (set_next_file_descriptor (u32 (k.(next_file_descriptor) + 1))) in
  ret k.(next_file_descriptor).

(** [thread_sleep] up to the interrupt it raises, and what [thread_suicide_trap]
    does before it loops. *)
Definition thread_sleep_until (millis : Z) : M sched_state unit :=
  let! s := get in
  do! update_thread s.(current_executing_thread) (set_status SLEEP) in
  let! kernel_uptime := get_kernel_uptime in
  update_thread s.(current_executing_thread) (set_wakeup_time (u64 (kernel_uptime + millis))).
Definition thread_suicide_trap : M sched_state unit :=
  let! s := get in update_thread s.(current_executing_thread) (set_status DEAD).

(** [sys_thread_exit]. *)
Definition thread_exit (exit_status : Z) : M sched_state unit :=
  let! s := get in
  update_thread s.(current_executing_thread) (fun t =>
    mk_thread t.(tid) t.(thread_name) t.(stack) t.(parent_task) DEAD SCHEDULER_NUMBER_OF_TICKS t.(execution_frame)
      t.(wakeup_time) t.(next_sibling) t.(thread_next) t.(rsp0) exit_status).

(** What a thread runs, [_thread_function] being its function: when it returns the thread
    is marked and loops. *)
Definition thread_execution_wrapper (_thread_function : Z -> M sched_state unit) (arg : Z) : M sched_state unit :=
  do! _thread_function arg in
  do! thread_suicide_trap in diverge.
Definition idle (c : Z) : M sched_state unit := diverge.
Definition noop (v : Z) : M sched_state unit := ret tt.
Definition thread_wakeup (thread : Z) : M sched_state unit := ret tt.

(** [get_thread_status], in ASCII. *)
Definition get_thread_status (thread : Z) : M sched_state (list Z) :=
  let! t := read_thread thread in
  ret match t.(status) with
      | NEW => [78; 69; 87]
      | INIT => [73; 78; 73; 84]
      | RUN => [82; 85; 78]
      | READY => [82; 69; 65; 68; 89]
      | SLEEP => [83; 76; 69; 69; 80]
      | WAIT => [87; 65; 73; 84]
      | DEAD => [68; 69; 65; 68]
      end.
End Tasks.

(** ** The address space of a task *)

Section Spaces.
Context `{PageConfig} {laws : FrameSourceLaws pmm_state}.
Implicit Types (s : kernel_state) (v : vm_state pmm_state) (root u : Z).

Definition tables s : vm_state pmm_state := s.(ks_heap).(heap_vmm).(vmm_vm).
Definition with_tables v s : kernel_state := set_ks_heap (set_heap_vmm (set_vmm_vm v s.(ks_heap).(heap_vmm)) s.(ks_heap)) s.

Lemma with_tables_same s : with_tables (tables s) s = s.
Proof. by destruct s as [[? ? ? ? []]]. Qed.

Lemma in_tables_run {A} (m : M (vm_state pmm_state) A) s a v :
  m (tables s) = Ret (a, v) -> in_tables m s = Ret (a, with_tables v s).
Proof. intros E. unfold tables in E. unfold in_tables, in_vmm, in_heap, zoom, Vmm.in_vm, zoom. by rewrite E. Qed.

(** The entry [i] of the new root table. *)
Definition root_entry (m : gmap Z Z) root (p4 i : Z) : option Z :=
  if i <=? 255 then Some 0
  else if i =? 510 then Some (Z.lor (Z.lor root VMM_FLAGS_PRESENT) VMM_FLAGS_WRITE_ENABLE)
  else m !! (p4 + 8 * i).

(** [m'] is [m] with the first [n] entries of the table at [root] filled. *)
Definition filled (m : gmap Z Z) root (p4 n : Z) (m' : gmap Z Z) : Prop :=
  (forall i, 0 <= i < n -> m' !! (root + 8 * i) = root_entry m root p4 i) /\
  (forall x, (forall i, 0 <= i < n -> x <> root + 8 * i) -> m' !! x = m !! x).

Lemma fill_root_table_run v root p4 :
  0 < v.(hhdm_base) -> 0 <= root -> root + 2 ^ 12 <= v.(vm_memory_size) -> root mod 2 ^ 12 = 0 ->
  p4 mod 2 ^ 12 = 0 -> 0 <= p4 -> p4 + 2 ^ 12 <= v.(vm_memory_size) -> p4 <> root ->
  (forall i, 0 <= i < 512 -> exists w, v.(phys) !! (p4 + 8 * i) = Some w) ->
  exists m', fill_root_table root (root + v.(hhdm_base)) p4 v = Ret (tt, set_phys m' v) /\ filled v.(phys) root p4 512 m'.
Proof.
  intros Hb Hr0 Hr1 Hra Hpa Hp0 Hp1 Hne Hw.
  assert (wp (fill_root_table root (root + v.(hhdm_base)) p4) (fun _ v' => exists m', v' = set_phys m' v /\ filled v.(phys) root p4 512 m') v) as Hwp.
  2:{ apply wp_run in Hwp as ([] & v' & Hrun & m' & -> & Hf). by exists m'. }
  unfold fill_root_table, for_upto.
  apply (wp_for_from (fun n v' => exists m', v' = set_phys m' v /\ filled v.(phys) root p4 n m')).
  - exists v.(phys). split; [by destruct v|]. split; [lia|done].
  - intros n v' Hn (m' & -> & Hf & Hx). unfold VM_PAGES_PER_TABLE in Hn.
    assert (exists w, root_entry v.(phys) root p4 n = Some w /\
      (if n <=? 255 then table_write (root + v.(hhdm_base)) n 0
       else if n =? 510 then table_write (root + v.(hhdm_base)) n (Z.lor (Z.lor root VMM_FLAGS_PRESENT) VMM_FLAGS_WRITE_ENABLE)
       else let! e := phys_read (p4 + 8 * n) in table_write (root + v.(hhdm_base)) n e) (set_phys m' v) =
      Ret (tt, set_phys (<[root + 8 * n := w]> m') v)) as (w & Hroot & Hrun).
    { assert (forall w, table_write (root + v.(hhdm_base)) n w (set_phys m' v) = Ret (tt, set_phys (<[root + 8 * n := w]> m') v)) as Hwr.
      { intros w. assert (0 <= n < 512) as Hn' by lia. exact (table_write_run (set_phys m' v) root n w Hb Hr0 Hr1 Hn'). }
      unfold root_entry. destruct (n <=? 255); [eauto|]. destruct (n =? 510); [eauto|].
      destruct (Hw n ltac:(lia)) as (w & Hp). exists w. split; [done|].
      rewrite (bind_run _ _ _ w (set_phys m' v)); [apply Hwr|]. apply phys_read_run; [simpl; lia|]. simpl.
      rewrite Hx; [done|]. intros i Hi E. destruct (same_word p4 root n i) as [? _]; try done; lia. }
    apply wp_run. exists tt. eexists. split; [exact Hrun|]. eexists. split; [reflexivity|]. split.
    + intros i Hi. destruct (decide (i = n)) as [->|]; [by rewrite lookup_insert_eq|].
      rewrite lookup_insert_ne by lia. apply Hf. lia.
    + intros x Hxn. rewrite lookup_insert_ne by (intros E; apply (Hxn n); lia). apply Hx. intros i Hi. apply Hxn. lia.
  - intros v' (m' & -> & Hf). by exists m'.
Qed.

Section Filled.
Context (v : vm_state pmm_state) (taken : gset Z) (root p4 : Z) (m' : gmap Z Z).
Hypothesis Hok : vm_ok taken p4 v.
Hypothesis Hroot : root mod 2 ^ 12 = 0 /\ root ∉ taken.
Hypothesis Hfilled : filled v.(phys) root p4 512 m'.

(** The tables of the kernel are not touched. *)
Lemma filled_other t i : t ∈ taken -> t mod 2 ^ 12 = 0 -> 0 <= i < 512 -> m' !! (t + 8 * i) = v.(phys) !! (t + 8 * i).
Proof.
  intros Hin Ht Hi. destruct Hroot as [Hra Hrt]. apply (proj2 Hfilled). intros j Hj E.
  destruct (same_word t root i j) as [-> _]; done.
Qed.

Lemma filled_kernel u : PML4_ENTRY u <> 510 -> mapping m' p4 u = mapping v.(phys) p4 u.
Proof. exact (mapping_kept _ taken _ _ _ u (ok_tree _ _ _ Hok) filled_other). Qed.

(** The new root has the kernel's tables in its upper half and no others. *)
Lemma filled_table_at q : path_ok table_depth q -> table_at m' root q =
  match q with [] => Some root | i :: _ => if i <=? 255 then None else table_at v.(phys) p4 q end.
Proof.
  destruct q as [|i q]; intros Hp; [done|]. pose proof Hp as (_ & Hr & Hh). apply Forall_cons in Hr as [Hi _]. cbn [table_at].
  assert (m' !! (root + 8 * i) = if i <=? 255 then Some 0 else v.(phys) !! (p4 + 8 * i)) as E.
  { rewrite (proj1 Hfilled) by done. unfold root_entry. destruct (i <=? 255); [done|]. destruct (Z.eqb_spec i 510) as [->|]; done. }
  assert (sub m' root i = if i <=? 255 then None else sub v.(phys) p4 i) as -> by (unfold sub; rewrite E; by destruct (i <=? 255)).
  destruct (i <=? 255); [done|]. destruct (sub v.(phys) p4 i) as [t|] eqn:Hs; [|done].
  apply (table_at_kept_from table_depth _ taken _ _ _ (ok_tree _ _ _ Hok) filled_other [i] q t); [done|]. cbn [table_at]. by rewrite Hs.
Qed.

(** Through the new root, the upper half is the kernel's, the lower half empty. *)
Lemma filled_mapping u : PML4_ENTRY u <> 510 ->
  mapping m' root u = if PML4_ENTRY u <=? 255 then None else mapping v.(phys) p4 u.
Proof.
  intros Hu. pose proof (page_path_ok u Hu) as Hp.
  assert (exists q, page_path u = PML4_ENTRY u :: q) as (q & Eq) by (unfold page_path; destruct SMALL_PAGES; eauto).
  unfold mapping. rewrite filled_table_at by done. rewrite Eq in Hp |- *. destruct (PML4_ENTRY u <=? 255); [done|].
  destruct (table_at v.(phys) p4 (PML4_ENTRY u :: q)) as [t|] eqn:Ht; [|done].
  by rewrite (kept_word _ _ taken _ _ _ (ok_tree _ _ _ Hok) filled_other _ t (leaf_index u) Hp Ht (leaf_index_range u)).
Qed.

(** Its tables are a tree. *)
Lemma filled_tree : 0 <= root -> root + 2 ^ 12 <= v.(vm_memory_size) ->
  tree_ok table_depth v.(vm_memory_size) ({[root]} ∪ taken ∖ {[p4]}) m' root.
Proof.
  intros H0 H1. pose proof (ok_tree _ _ _ Hok) as Htree.
  assert (path_ok table_depth []) as Hnil by (split; [simpl; lia|split; [apply Forall_nil_2|done]]).
  assert (forall i q t, path_ok table_depth (i :: q) -> table_at m' root (i :: q) = Some t ->
    255 < i /\ table_at v.(phys) p4 (i :: q) = Some t /\ t <> p4 /\ t <> root) as Hupper.
  { intros i q t Hp. rewrite filled_table_at by done. destruct (Z.leb_spec i 255); [done|]. intros Ht. split_and!; [done..| |].
    - intros ->. by pose proof (tree_inj _ _ _ _ _ Htree (i :: q) [] p4 Hp Hnil Ht eq_refl).
    - intros ->. destruct (tree_page _ _ _ _ _ Htree _ _ Hp Ht) as (_ & _ & _ & Hin). by apply Hroot. }
  constructor.
  - intros [|i q] t Hp Ht; [injection Ht as <-; split_and!; [apply Hroot|done|done|set_solver]|].
    destruct (Hupper i q t Hp Ht) as (_ & Ht' & Hne & _). destruct (tree_page _ _ _ _ _ Htree _ t Hp Ht') as (? & ? & ? & ?).
    split_and!; [done..|]. set_solver.
  - intros [|i q] t j Hp Ht Hj.
    + injection Ht as <-. rewrite (proj1 Hfilled) by done. unfold root_entry. destruct (j <=? 255); [eauto|]. destruct (j =? 510); [eauto|].
      by apply (tree_words _ _ _ _ _ Htree [] p4 j).
    + destruct (Hupper i q t Hp Ht) as (_ & Ht' & _).
      rewrite (kept_word _ _ taken _ _ _ Htree filled_other _ t j Hp Ht' Hj). by apply (tree_words _ _ _ _ _ Htree (i :: q)).
  - intros [|i q] [|j r] t Hp Hq Ht Ht'; [done| | |].
    + injection Ht as <-. by destruct (Hupper j r root Hq Ht') as (_ & _ & _ & ?).
    + injection Ht' as <-. by destruct (Hupper i q root Hp Ht) as (_ & _ & _ & ?).
    + destruct (Hupper i q t Hp Ht) as (_ & E & _), (Hupper j r t Hq Ht') as (_ & E' & _).
      by apply (tree_inj _ _ _ _ _ Htree _ _ t).
Qed.
End Filled.

Lemma prepare_virtual_memory_environment_run s task k taken :
  let v := tables s in
  let root := k.(vm_root_page_table) in
  let p4 := s.(root_page_table) in
  task <> 0 -> s.(ks_sched).(tasks) !! task = Some k -> vm_ok taken p4 v ->
  root mod 2 ^ 12 = 0 -> root ∉ taken -> 0 <= root -> root + 2 ^ 12 <= v.(vm_memory_size) ->
  exists m', prepare_virtual_memory_environment task s = Ret (tt, with_tables (set_phys m' v) s) /\ filled v.(phys) root p4 512 m'.
Proof.
  intros v root p4 Ht0 Hk Hok Hra Hrt Hr0 Hr1. destruct (tree_root taken p4 v Hok) as (Hpa & Hp0 & Hp1 & Hpin).
  pose proof (ok_base _ _ _ Hok) as Hb.
  assert (p4 <> root) as Hne by (intros E; apply Hrt; by rewrite <- E).
  assert (forall i, 0 <= i < 512 -> exists w, v.(phys) !! (p4 + 8 * i) = Some w) as Hw.
  { intros i Hi. apply (tree_words _ _ _ _ _ (ok_tree _ _ _ Hok) []); [|done|done]. split; [simpl; lia|]. by split. }
  destruct (fill_root_table_run v root p4 Hb Hr0 Hr1 Hra Hpa Hp0 Hp1 Hne Hw) as (m' & Hrun & Hf).
  exists m'. split; [|done]. unfold prepare_virtual_memory_environment.
  rewrite (bind_run _ _ s k s) by (unfold in_sched, zoom; rewrite (read_task_run _ _ _ Ht0 Hk); by destruct s).
    rewrite (bind_run _ _ s (root + v.(hhdm_base)) s).
    2:{ rewrite (in_tables_run _ s (root + v.(hhdm_base)) v); [unfold with_tables; by destruct s as [[? ? ? ? []]]|].
        apply hhdm_run; [fold v; lia|exact Hb|apply (ok_window _ _ _ Hok)]. }
    rewrite (bind_run get _ s s s eq_refl). by apply in_tables_run.
Qed.

(** After [prepare_virtual_memory_environment] a task translates every address of
    the upper half, except through its recursive entry, as the kernel does, and none of
    the lower half; the recursive entry is its own; the kernel's translation stays. *)
Theorem prepare_virtual_memory_environment_shares_kernel s task k taken :
  let v := tables s in
  let root := k.(vm_root_page_table) in
  let p4 := s.(root_page_table) in
  task <> 0 -> s.(ks_sched).(tasks) !! task = Some k -> vm_ok taken p4 v ->
  root mod 2 ^ 12 = 0 -> root ∉ taken -> 0 <= root -> root + 2 ^ 12 <= v.(vm_memory_size) ->
  exists s', prepare_virtual_memory_environment task s = Ret (tt, s') /\
    let m' := (tables s').(phys) in
    (forall u, PML4_ENTRY u <> 510 -> mapping m' root u = if PML4_ENTRY u <=? 255 then None else mapping v.(phys) p4 u) /\
    m' !! (root + 8 * 510) = Some (Z.lor (Z.lor root VMM_FLAGS_PRESENT) VMM_FLAGS_WRITE_ENABLE) /\
    (forall u, PML4_ENTRY u <> 510 -> mapping m' p4 u = mapping v.(phys) p4 u) /\
    exists m, s' = with_tables (set_phys m v) s.
Proof.
  intros v root p4 Ht0 Hk Hok Hra Hrt Hr0 Hr1.
  destruct (prepare_virtual_memory_environment_run s task k taken Ht0 Hk Hok Hra Hrt Hr0 Hr1) as (m' & Hrun & Hf).
  exists (with_tables (set_phys m' v) s). split; [exact Hrun|]. split_and!; [| | |by exists m'].
  - intros u Hu. by apply (filled_mapping v taken root p4 m').
  - simpl. rewrite (proj1 Hf) by lia. done.
  - intros u Hu. by apply (filled_kernel v taken root p4 m').
Qed.
End Spaces.

(** ** Witnesses *)

Definition sample_kernel : kernel_state :=
  mk_kernel (mk_heap ∅ 0 0 0 sample_vmm) sample_sched ∅ ∅ 0x200000 0xffffffff80100000.

Lemma prepare_virtual_memory_environment_shares_kernel_witness :
  exists s', prepare_virtual_memory_environment 0x90 sample_kernel = Ret (tt, s') /\
    (tables s').(phys) !! (0x400000 + 8 * 510) = Some 0x400003 /\
    @mapping large_pages (tables s').(phys) 0x400000 0x1000 = None.
Proof.
  destruct (@prepare_virtual_memory_environment_shares_kernel large_pages pmm_frame_source_laws sample_kernel 0x90
    (mk_task 0 [] 0x400000 3 0 0 0 4 ALIVE 0) {[0x200000]}) as (s' & Hrun & Hmap & Hrec & _);
    [discriminate|reflexivity|exact sample_vm_ok|reflexivity|set_solver|discriminate|discriminate|].
  exists s'. split; [exact Hrun|]. split; [exact Hrec|]. apply (Hmap 0x1000). discriminate.
Defined.
