(* ===== verification/Loader.v ===== *)
(** The loading of a program's segments into the address space of a task: the loop of
    [create_task_from_elf] in [kernel/scheduling/task.c], for segments that are
    page-aligned in memory. *)
From S2P Require Import Prelude VmmUtil Mmap Bitmap Pmm Kheap Paging Boot Vmm Scheduler CString Elf Task.

(** The flags of the pages of a segment. *)
Definition segment_flags (phdr : Elf64_Phdr) : Z :=
  Z.lor (Z.lor VMM_FLAGS_USER_LEVEL (elf_flags_to_memory_flags phdr.(p_flags))) VMM_FLAGS_PRESENT.

Section Load.
Context `{PageConfig} {laws : FrameSourceLaws pmm_state}.
Let P := PAGE_SIZE_IN_BYTES.

Lemma segment_flags_present phdr : Z.land (segment_flags phdr) PRESENT_BIT <> 0.
Proof.
  intros E. apply (f_equal (fun z => Z.testbit z 0)) in E. unfold segment_flags in E.
  rewrite Z.land_spec, !Z.lor_spec in E. change (Z.testbit PRESENT_BIT 0) with true in E.
  change (Z.testbit VMM_FLAGS_PRESENT 0) with true in E. rewrite orb_true_r in E. discriminate E.
Qed.

Lemma page_address_aligned pa k : pa mod P = 0 -> (pa + k * P) mod P = 0 /\ (pa + k * P) mod 2 ^ 12 = 0.
Proof.
  intros Hpa. pose proof page_size_bounds. assert ((pa + k * P) mod P = 0) as E by (unfold P in *; rewrite Z.mod_add by lia; exact Hpa).
  split; [exact E|]. destruct page_size_pow2 as (n & Hn & HP). fold P in HP. apply Z.mod_divide in E as [q ->]; [|unfold P in *; lia].
  rewrite HP. replace n with (12 + (n - 12)) by lia. rewrite Z.pow_add_r by lia.
  replace (q * (2 ^ 12 * 2 ^ (n - 12))) with (q * 2 ^ (n - 12) * 2 ^ 12) by lia. apply Z.mod_mul. lia.
Qed.

Section Segment.
Context (s0 : kernel_state) (info : VmmInfo) (elf_header : Z) (phdr : Elf64_Phdr) (taken : gset Z) (R pa : Z) (rest : nat).
Let v0 := tables s0.
Let va := align_value_to_page phdr.(p_vaddr).
Let n := get_number_of_pages_from_size phdr.(p_memsz).

(** A segment that lies page by page in physical memory at [pa], and whose pages are
    free in the address space with the root table [R]; [rest] pages are left after it. *)
Record segment_ok : Prop := {
  sg_vm : vm_ok taken R v0;
  sg_root : root_pointer v0 R info.(root_table_hhdm);
  sg_align : phdr.(p_align) = P;
  sg_file : u64 (elf_header + phdr.(p_offset)) = v0.(hhdm_base) + pa;
  sg_aligned : pa mod P = 0;
  sg_physical : 0 <= pa /\ v0.(hhdm_base) + pa + n * P <= 2 ^ 64;
  sg_virtual : va + n * P <= 2 ^ 64;
  sg_pages : 0 <= n < 2 ^ 16;
  sg_free : forall j, 0 <= j < n -> PML4_ENTRY (va + j * P) <> 510 /\ mapping v0.(phys) R (va + j * P) = None;
  sg_supply : supplies (3 * Z.to_nat n + rest) v0.(frames);
}.

(** The state when the first [k] pages are mapped. *)
Record loaded (k : Z) (v : vm_state pmm_state) : Prop := {
  ld_state : exists m f, v = vm_with m f v0;
  ld_vm : exists taken', taken ⊆ taken' /\ vm_ok taken' R v /\ only_pages taken' v0.(phys) v.(phys);
  ld_supply : supplies (3 * Z.to_nat (n - k) + rest) v.(frames);
  ld_pages : forall j, 0 <= j < k ->
    mapping v.(phys) R (va + j * P) = Some (leaf_entry (pa + j * P) (va + j * P) (segment_flags phdr));
  ld_other : forall u, PML4_ENTRY u <> 510 -> (forall j, 0 <= j < k -> ~ same_page u (va + j * P)) ->
    mapping v.(phys) R u = mapping v0.(phys) R u;
  ld_root : forall i, 0 <= i < 512 -> (forall j, 0 <= j < k -> i <> PML4_ENTRY (va + j * P)) ->
    v.(phys) !! (R + 8 * i) = v0.(phys) !! (R + 8 * i);
}.

Hypothesis Hok : segment_ok.

Lemma load_page k v : 0 <= k < n -> loaded k v ->
  exists v', map_phdr_page info phdr (u64 (u64 (elf_header + phdr.(p_offset)) + k * phdr.(p_align)))
      (u64 (va + k * phdr.(p_align))) (with_tables v s0) = Ret (tt, with_tables v' s0) /\ loaded (k + 1) v'.
Proof.
  intros Hk [(m & f & ->) (taken1 & Hsub & Hvm & Ho) Hsup Hpages Hother Hkr]. destruct Hok as [Hvm0 Hroot Hal Hfile Hpa Hph Hva Hn Hfree Hsup0].
  pose proof page_size_bounds as HP. fold P in HP. pose proof (ok_base _ _ _ Hvm0) as Hb.
  assert (0 <= va) as Hva0 by (unfold va, align_value_to_page; exact (proj1 (u64_range _))).
  destruct (page_address_aligned pa k Hpa) as [HaP Ha12]. destruct (Hfree k Hk) as [Hv Hnone].
  assert (0 <= k * P /\ k * P + P <= n * P) as HkP by nia.
  rewrite Hal, Hfile. rewrite !u64_small by lia. unfold map_phdr_page. set (s := with_tables (vm_with m f v0) s0).
  rewrite (bind_run get _ s s s eq_refl). cbv zeta.
  change (hhdm_base (vmm_vm (heap_vmm (ks_heap s)))) with (v0.(hhdm_base)).
  replace (v0.(hhdm_base) + pa + k * P - v0.(hhdm_base)) with (pa + k * P) by lia. rewrite u64_small by lia.
  unfold is_address_aligned. fold P. destruct (Z.eqb_spec P 0); [lia|]. rewrite HaP, Z.eqb_refl.
  rewrite (bind_run _ _ s true s) by done. cbn [negb]. fold (segment_flags phdr).
  assert (n < 2 ^ page_bits) as Hbits by (unfold page_bits; destruct SMALL_PAGES; lia).
  assert (mapping (vm_with m f v0).(phys) R (va + k * P) = None) as Hnone1.
  { rewrite Hother; [done|done|]. intros j Hj Hsame. apply (range_pages_differ va k j) in Hsame; lia. }
  replace (3 * Z.to_nat (n - k) + rest)%nat with (3 + (3 * Z.to_nat (n - (k + 1)) + rest))%nat in Hsup by lia.
  destruct (map_phys_to_virt_addr_hh_run taken1 R (vm_with m f v0) info.(root_table_hhdm) (pa + k * P) (va + k * P)
    (segment_flags phdr) _ Hvm Hv Hroot Hsup (segment_flags_present phdr)) as (v' & taken2 & m' & f' & Ev' & Hvm2 & Hsup2 & Hsub2 & Hrun & Hmap2 & Ho2 & Hkr2);
    [lia|exact Ha12|].
  rewrite Hnone1 in Hrun, Hmap2.
  rewrite (bind_run _ _ s (va + k * P) (with_tables v' s)) by by apply in_tables_run.
  exists v'. split; [done|]. split.
  - exists m', f'. by rewrite Ev'.
  - exists taken2. split; [by transitivity taken1|]. split; [done|].
    apply (only_pages_trans _ _ m); [by apply (only_pages_mono taken1)|done].
  - by rewrite Ev'.
  - intros j Hj. rewrite Hmap2 by (apply Hfree; lia). destruct (decide (j = k)) as [->|Hjk].
    + by rewrite decide_True.
    + rewrite decide_False; [apply Hpages; lia|]. intros Hsame. apply range_pages_differ in Hsame; lia.
  - intros u Hu Hno. rewrite Hmap2 by done. rewrite decide_False by (apply Hno; lia). apply Hother; [done|].
    intros j Hj. apply Hno. lia.
  - intros i Hi Hno. rewrite Hkr2 by (done || (apply Hno; lia)). apply Hkr; [done|]. intros j Hj. apply Hno. lia.
Qed.

(** The loop over the pages of the segment. *)
Lemma load_phdr_pages_run : exists v, load_phdr_pages info elf_header phdr s0 = Ret (tt, with_tables v s0) /\ loaded n v.
Proof.
  pose proof (sg_pages Hok) as Hn.
  assert (wp (load_phdr_pages info elf_header phdr) (fun _ t => exists v, t = with_tables v s0 /\ loaded n v) s0) as Hwp.
  2:{ apply wp_run in Hwp as ([] & t & Hrun & v & -> & Hv). by exists v. }
  unfold load_phdr_pages, for_upto. cbv zeta. fold n. rewrite u16_small by lia.
  apply (wp_for_from (fun k t => exists v, t = with_tables v s0 /\ loaded k v)).
  - exists (tables s0). split; [by rewrite with_tables_same|]. split.
    + exists (tables s0).(phys), (tables s0).(frames). by rewrite vm_with_same.
    + exists taken. split; [done|]. split; [apply Hok|apply only_pages_refl].
    + rewrite Z.sub_0_r. apply Hok.
    + lia.
    + done.
    + done.
  - intros k t Hk (v & -> & Hv). destruct (load_page k v ltac:(lia) Hv) as (v' & Hrun & Hv').
    apply wp_run. eexists _, _. split; [exact Hrun|]. by exists v'.
  - intros t. rewrite Z2Nat.id by lia. done.
Qed.
End Segment.

(** A segment is writable in memory exactly when its header says so. *)
Lemma segment_flags_write phdr : Z.testbit (segment_flags phdr) 1 = Z.testbit phdr.(p_flags) 1.
Proof.
  unfold segment_flags, elf_flags_to_memory_flags. rewrite !Z.lor_spec, Z.land_spec.
  change (Z.testbit VMM_FLAGS_USER_LEVEL 1) with false. change (Z.testbit VMM_FLAGS_PRESENT 1) with false.
  change (Z.testbit 2 1) with true. by rewrite andb_true_r, orb_false_r.
Qed.

(** Loading a segment of a program whose bytes lie page by page in memory maps
    each of its pages, at the segment's address rounded up to a page, to the page of
    the file that holds it, for the user, writable only when the segment is; no other
    page of the task changes, and nothing else in the kernel but page tables. *)
Theorem load_phdr_pages_maps s info elf_header phdr taken R pa :
  segment_ok s info elf_header phdr taken R pa 0 ->
  let va := align_value_to_page phdr.(p_vaddr) in
  let n := get_number_of_pages_from_size phdr.(p_memsz) in
  exists v taken', load_phdr_pages info elf_header phdr s = Ret (tt, with_tables v s) /\
    taken ⊆ taken' /\ vm_ok taken' R v /\
    (forall j, 0 <= j < n -> mapping v.(phys) R (va + j * P) =
       Some (leaf_entry (pa + j * P) (va + j * P) (segment_flags phdr))) /\
    (forall u, PML4_ENTRY u <> 510 -> (forall j, 0 <= j < n -> ~ same_page u (va + j * P)) ->
       mapping v.(phys) R u = mapping (tables s).(phys) R u) /\
    Z.testbit (segment_flags phdr) 1 = Z.testbit phdr.(p_flags) 1.
Proof.
  intros Hok va n.
  destruct (load_phdr_pages_run s info elf_header phdr taken R pa 0 Hok) as (v & Hrun & [_ (taken' & Hsub & Hvm & _) _ Hpages Hother _]).
  exists v, taken'. split_and!; try done. apply segment_flags_write.
Qed.
End Load.

(** ** Witness *)

(** One page of code at 6 MiB, linked at 4 MiB. *)
Definition sample_phdr : Elf64_Phdr := mk_phdr PT_LOAD 5 0 0x400000 0 100 100 0x200000.

Lemma sample_segment_ok :
  @segment_ok large_pages pmm_frame_source_laws sample_kernel sample_info 0xffff800280800000 sample_phdr {[0x200000]} 0x200000 0x600000 0.
Proof.
  constructor; try done.
  - exact sample_vm_ok.
  - intros j Hj. assert (j = 0) as -> by (change (@get_number_of_pages_from_size large_pages (p_memsz sample_phdr)) with 1 in Hj; lia).
    split; [discriminate|]. vm_compute. reflexivity.
  - exact sample_vm_supplies.
Qed.

Lemma load_phdr_pages_maps_witness : exists v,
  @load_phdr_pages large_pages sample_info 0xffff800280800000 sample_phdr sample_kernel = Ret (tt, with_tables v sample_kernel) /\
  @mapping large_pages v.(phys) 0x200000 0x400000 = Some (0x600000 + 0x85).
Proof.
  destruct (@load_phdr_pages_maps large_pages pmm_frame_source_laws sample_kernel sample_info 0xffff800280800000 sample_phdr {[0x200000]} 0x200000 0x600000
    sample_segment_ok) as (v & taken' & Hrun & _ & _ & Hpages & _).
  exists v. split; [exact Hrun|].
  etransitivity; [apply (Hpages 0)|vm_compute; reflexivity].
  change (@get_number_of_pages_from_size large_pages (p_memsz sample_phdr)) with 1. lia.
Defined.
