(* ===== verification/Spawn.v ===== *)
(** The creation of a task from a program, end to end: [create_task], the loading of
    the segments, [create_thread] and [create_task_from_elf] of [kernel/scheduling/],
    over the heap, the frames, the page tables, the areas and the scheduler. *)
From S2P Require Import Prelude VmmUtil Mmap Bitmap Pmm Kheap Paging Boot Vmm Scheduler CString Bytes Elf Task Loader.

(** ** Runs of the parts in the whole *)

Section Parts.
Context `{PageConfig}.
Implicit Types (s : kernel_state) (V : vmm_state pmm_state) (X : sched_state) (h : gmap Z KHeapMemoryNode) (fr : gmap Z cpu_status_t).

(** [s] with the headers [h] in the heap, its end at [e], and other managers of
    memory, scheduler and frames; the bytes of memory are those of [s]. *)
Definition put_parts h (e : Z) V X fr s : kernel_state :=
  mk_kernel (set_heap_vmm V (with_heap h e s.(ks_heap))) X fr s.(ks_memory) s.(root_page_table) s.(code_to_run).

Lemma put_parts_same s : put_parts s.(ks_heap).(nodes) s.(ks_heap).(kernel_heap_end) s.(ks_heap).(heap_vmm) s.(ks_sched) s.(ks_frames) s = s.
Proof. by destruct s as [[]]. Qed.

(** The heap of [put_parts h e _ _ _ s] is the list of blocks [l]. *)
Definition heap_at s h (e : Z) (l : list block) : Prop := heap_inv (with_heap h e s.(ks_heap)) l.

Lemma heap_at_same s l : heap_inv s.(ks_heap) l -> heap_at s s.(ks_heap).(nodes) s.(ks_heap).(kernel_heap_end) l.
Proof. unfold heap_at. by destruct s as [[]]. Qed.

Lemma kmalloc_part s h e V X fr l size a l' :
  heap_at s h e l -> 0 < size < 2 ^ 64 - 64 -> alloc_blocks (real_size size) l = Some (a, l') ->
  0 < a + header_size /\ a + header_size + size < 2 ^ 64 /\ exists h' e', in_heap (kmalloc size) (put_parts h e V X fr s) = Ret (a + header_size, put_parts h' e' V X fr s) /\ heap_at s h' e' l'.
Proof.
  intros Hinv Hs Ha.
  destruct (kmalloc_fits (ks_heap (put_parts h e V X fr s)) l size a l' Hinv Hs Ha) as (h' & e' & Hrun & Hinv' & _ & b & Hb & Hba & _ & Hbe).
  pose proof Hinv' as [(_ & _ & _ & Hok) _]. pose proof (block_ok_in _ _ Hok Hb) as (Hb0 & _ & Hb1).
  split; [unfold header_size in *; lia|]. split; [lia|]. exists h', e'. split; [|exact Hinv']. unfold in_heap, zoom. by rewrite Hrun.
Qed.

Lemma sched_part {A} (m : M sched_state A) s h e V X fr (a : A) X' :
  m X = Ret (a, X') -> in_sched m (put_parts h e V X fr s) = Ret (a, put_parts h e V X' fr s).
Proof. intros E. unfold in_sched, zoom. simpl. by rewrite E. Qed.

Lemma vmm_part {A} (m : M (vmm_state pmm_state) A) s h e V X fr (a : A) V' :
  m V = Ret (a, V') -> in_vmm m (put_parts h e V X fr s) = Ret (a, put_parts h e V' X fr s).
Proof. intros E. unfold in_vmm, in_heap, zoom. simpl. by rewrite E. Qed.

Lemma tables_part {A} (m : M (vm_state pmm_state) A) s h e V X fr (a : A) v :
  m V.(vmm_vm) = Ret (a, v) -> in_tables m (put_parts h e V X fr s) = Ret (a, put_parts h e (set_vmm_vm v V) X fr s).
Proof. intros E. apply vmm_part. by apply Vmm.in_vm_run. Qed.

Lemma with_tables_part s h e V X fr v : with_tables v (put_parts h e V X fr s) = put_parts h e (set_vmm_vm v V) X fr s.
Proof. done. Qed.

Lemma set_vmm_vm_same V : set_vmm_vm V.(vmm_vm) V = V.
Proof. by destruct V. Qed.

Lemma write_frame_part s h e V X fr p f :
  p <> 0 -> write_frame p f (put_parts h e V X fr s) = Ret (tt, put_parts h e V X (<[p := f]> fr) s).
Proof. intros Hp. unfold write_frame. destruct (Z.eqb_spec p 0); [done|]. done. Qed.
End Parts.

(** ** The address space of a task *)

Section Space.
Context `{PageConfig} {laws : FrameSourceLaws pmm_state}.
Let P := PAGE_SIZE_IN_BYTES.

(** What tells pages apart. *)
Definition page_id (u : Z) : list Z * Z := (page_path u, leaf_index u).

Lemma same_page_id u w : same_page u w <-> page_id u = page_id w.
Proof. unfold same_page, page_id. split; [by intros [-> ->]|by intros [= -> ->]]. Qed.

(** No two of some pages, given with their entries, are the same. *)
Definition pages_apart (pg pg' : list (Z * Z)) : Prop := forall u e w e', (u, e) ∈ pg -> (w, e') ∈ pg' -> ~ same_page u w.

Lemma apart_of_ids pg pg' : NoDup (page_id ∘ fst <$> pg ++ pg') -> pages_apart pg pg'.
Proof.
  rewrite fmap_app, NoDup_app. intros (_ & Hd & _) u e w e' Hu Hw E%same_page_id.
  apply (Hd (page_id u)); apply list_elem_of_fmap; [by exists (u, e)|by exists (w, e')].
Qed.

(** The address space with the root table [root], made over the kernel's at [p4] in
    [v0], when the pages [pg] are mapped in its lower half and [rest] pages of memory
    are left. *)
Record space (p4 root : Z) (v0 : vm_state pmm_state) (pg : list (Z * Z)) (rest : nat) (v : vm_state pmm_state) : Prop := {
  sp_state : exists m f, v = vm_with m f v0;
  sp_ok : exists taken, @vm_ok _ _ _ (beside {[p4]}) taken root v;
  sp_supply : supplies rest v.(frames);
  sp_pages : forall u e, (u, e) ∈ pg -> mapping v.(phys) root u = Some e;
  sp_other : forall u, PML4_ENTRY u <> 510 -> (forall w e, (w, e) ∈ pg -> ~ same_page u w) ->
    mapping v.(phys) root u = if PML4_ENTRY u <=? 255 then None else mapping v0.(phys) p4 u;
  sp_upper : forall i, 255 < i < 512 -> i <> 510 -> v.(phys) !! (root + 8 * i) = v0.(phys) !! (p4 + 8 * i);
  sp_p4 : forall i, 0 <= i < 512 -> v.(phys) !! (p4 + 8 * i) = v0.(phys) !! (p4 + 8 * i);
}.

Section Fixed.
Context (p4 root : Z) (v0 : vm_state pmm_state).

(** More pages of the lower half. *)
Lemma space_extend pg pg' rest rest' taken' v v' :
  p4 mod 2 ^ 12 = 0 -> space p4 root v0 pg rest v ->
  (exists m f, v' = vm_with m f v) -> @vm_ok _ _ _ (beside {[p4]}) taken' root v' -> only_pages taken' v.(phys) v'.(phys) ->
  supplies rest' v'.(frames) -> pages_apart pg pg' -> (forall w e, (w, e) ∈ pg' -> PML4_ENTRY w <= 255) ->
  (forall u e, (u, e) ∈ pg' -> mapping v'.(phys) root u = Some e) ->
  (forall u, PML4_ENTRY u <> 510 -> (forall w e, (w, e) ∈ pg' -> ~ same_page u w) -> mapping v'.(phys) root u = mapping v.(phys) root u) ->
  (forall i, 0 <= i < 512 -> (forall w e, (w, e) ∈ pg' -> i <> PML4_ENTRY w) -> v'.(phys) !! (root + 8 * i) = v.(phys) !! (root + 8 * i)) ->
  (forall u e, (u, e) ∈ pg -> PML4_ENTRY u <= 255) ->
  space p4 root v0 (pg ++ pg') rest' v'.
Proof.
  intros Hp4 [(m & f & Ev) _ _ Hpages Hother Hupper Hkp4] (m' & f' & Ev') Hok' Ho Hsup Hapart Hlow' Hpages' Hother' Hroot Hlow.
  constructor.
  - exists m', f'. by rewrite Ev', Ev.
  - by exists taken'.
  - done.
  - intros u e [Hu|Hu]%elem_of_app; [|by apply Hpages']. rewrite Hother'; [by apply Hpages|pose proof (Hlow u e Hu); lia|].
    intros w e' Hw. by apply (Hapart u e w e').
  - intros u Hu Hno. rewrite Hother'; [apply Hother; [done|]|done|]; intros w e Hw; apply (Hno w e), elem_of_app; auto.
  - intros i Hi Hne. rewrite Hroot; [by apply Hupper|lia|]. intros w e Hw. pose proof (Hlow' w e Hw). lia.
  - intros i Hi. rewrite <- Hkp4 by done. destruct Hok' as [_ _ _ _ [_ Hd]]. apply (only_pages_beside taken' {[p4]}); [done|done|by apply elem_of_singleton|done|done].
Qed.

(** The kernel's own root table still translates the upper half as it did. *)
Lemma space_kernel pg rest v u : space p4 root v0 pg rest v -> (forall w e, (w, e) ∈ pg -> PML4_ENTRY w <= 255) ->
  255 < PML4_ENTRY u -> PML4_ENTRY u <> 510 -> mapping v.(phys) p4 u = mapping v0.(phys) p4 u.
Proof.
  intros Hsp Hlow Hu Hne. pose proof (entry_range (Z.shiftr u 39)) as Hi. change (Z.land (Z.shiftr u 39) 511) with (PML4_ENTRY u) in Hi.
  transitivity (mapping v.(phys) root u).
  - assert (exists q, page_path u = PML4_ENTRY u :: q) as (q & Eq) by (unfold page_path; destruct SMALL_PAGES; eauto).
    unfold mapping. rewrite Eq. cbn [table_at].
    assert (sub v.(phys) p4 (PML4_ENTRY u) = sub v.(phys) root (PML4_ENTRY u)) as ->; [|done].
    unfold sub. by rewrite (sp_p4 _ _ _ _ _ _ Hsp), (sp_upper _ _ _ _ _ _ Hsp) by lia.
  - rewrite (sp_other _ _ _ _ _ _ Hsp) by (done || (intros w e Hw [E _]; pose proof (Hlow w e Hw);
      apply (f_equal head) in E; rewrite !head_page_path in E; injection E as E; lia)).
    by destruct (Z.leb_spec (PML4_ENTRY u) 255); [lia|].
Qed.
End Fixed.
End Space.

(** ** The task *)

Section CreateTask.
Context `{PageConfig}.
Context (s : kernel_state) (g : garbage) (name : list Z) (l l' : list block) (a : Z) (taken : gset Z) (root : Z) (f : pmm_state) (n : nat).
Let v := tables s.
Let task := a + header_size.

(** What [create_task] needs: a free block for the task, a name that fits, the
    kernel's page tables, a frame [root] for the new root table, all zeros, and [4 + n] more pages after
    it. *)
Record task_ready : Prop := {
  tr_heap : heap_inv s.(ks_heap) l;
  tr_block : alloc_blocks (real_size sizeof_task_t) l = Some (a, l');
  tr_name : Z.of_nat (length name) < TASK_NAME_MAX_LEN;
  tr_kernel : vm_ok taken s.(root_page_table) v;
  tr_frame : alloc_frame v.(frames) = Ret (root, f);
  tr_root : root <> 0;
  tr_zero : forall i, 0 <= i < 512 -> v.(phys) !! (root + 8 * i) = Some 0;
  tr_data : data_start v <> 0 /\ PML4_ENTRY (data_start v) <> 510;
  tr_supply : supplies (4 + n) f;
}.

(** The address space of the new task, and the managers of memory with it. *)
Definition new_info (is_supervisor : bool) : VmmInfo :=
  init_info (if is_supervisor then VMM_LEVEL_SUPERVISOR else VMM_LEVEL_USER) (data_start v)
    (u64 (s.(ks_heap).(heap_vmm).(global_container_root) + VMM_RESERVED_SPACE_SIZE))
    (with_root_tables (root + v.(hhdm_base)) root g.(old_info)).
Definition new_vmm (is_supervisor : bool) (v' : vm_state pmm_state) : vmm_state pmm_state :=
  with_info task (new_info is_supervisor)
    (set_containers (reset_container (data_start v) s.(ks_heap).(heap_vmm).(containers)) (set_vmm_vm v' s.(ks_heap).(heap_vmm))).
(** The task in the scheduler. *)
Definition new_task : task_t :=
  mk_task s.(ks_sched).(next_task_id) name root 3 g.(old_task).(task_threads) 0 g.(old_task).(task_next)
    g.(old_task).(running_threads) ALIVE g.(old_task).(task_exit_code).
Definition new_sched : sched_state :=
  set_tasks (<[task := new_task]> s.(ks_sched).(tasks))
    (set_ids s.(ks_sched).(next_thread_id) (u64 (s.(ks_sched).(next_task_id) + 1)) s.(ks_sched)).

Hypothesis Hready : task_ready.

(** The frame of the new root table is a tree by itself, beside the kernel's. *)
Lemma root_fresh :
  root mod 2 ^ 12 = 0 /\ 0 < root /\ root + PAGE_SIZE_IN_BYTES <= v.(vm_memory_size) /\ root ∉ taken /\
  @vm_ok _ _ _ (beside taken) {[root]} root (set_frames f v).
Proof.
  destruct Hready as [_ _ _ Hk Hf H0 Hz _ _]. pose proof page_size_bounds.
  destruct (vm_ok_alloc _ _ _ _ _ Hk Hf H0) as (Ha & Hp & Hl & Hn & [Hb Hlim Hw _ Hfr]).
  split_and!; [done..|]. constructor; try done.
  - apply cleared_root_tree; [done|lia|simpl; lia|set_solver|exact Hz].
  - split; [exact Hfr|set_solver].
Qed.

Lemma create_task_run is_supervisor :
  0 < task /\ exists h e v' taken' a1,
    create_task g name is_supervisor s = Ret (task, put_parts h e (new_vmm is_supervisor v') new_sched s.(ks_frames) s) /\
    heap_at s h e l' /\ @set_up _ _ _ (beside taken) (set_frames f v) v' {[root]} taken' root (data_start v) a1 n.
Proof.
  destruct root_fresh as (Hra & Hr0 & Hrl & Hrt & Hok). pose proof Hready as [Hheap Hblock Hname Hk Hf _ _ [Hd0 Hd] Hsup].
  pose proof page_size_bounds. set (V := s.(ks_heap).(heap_vmm)).
  destruct (kmalloc_part s s.(ks_heap).(nodes) s.(ks_heap).(kernel_heap_end) V s.(ks_sched) s.(ks_frames) l sizeof_task_t a l')
    as (Ht0 & _ & h & e & Hmalloc & Hinv); [by apply heap_at_same|by compute|exact Hblock|].
  rewrite put_parts_same in Hmalloc. fold task in Ht0, Hmalloc. split; [done|].
  set (i0 := with_root_tables (root + v.(hhdm_base)) root g.(old_info)).
  set (V1 := set_vmm_vm (set_frames f v) V). set (V2 := with_info task i0 V1).
  destruct (@vmm_init_run _ _ _ (beside taken) V2 (if is_supervisor then VMM_LEVEL_SUPERVISOR else VMM_LEVEL_USER) task i0 {[root]} root n)
    as (v' & taken' & a1 & Hup & Hinit).
  { by apply info_of_with. }
  { unfold V2. rewrite vm_with_info. exact Hd0. }
  { unfold V2. rewrite vm_with_info. exact Hd. }
  { unfold V2. rewrite vm_with_info. exact Hok. }
  { unfold V2. rewrite vm_with_info. destruct (Z.eqb_spec task 0); [lia|]. unfold root_pointer. simpl.
    destruct (Z.eqb_spec (root + v.(hhdm_base)) 0) as [E|]; [|done]. pose proof (ok_base _ _ _ Hk). fold v in E. lia. }
  { unfold V2. rewrite vm_with_info. exact Hsup. }
  exists h, e, v', taken', a1. split; [|split; [exact Hinv|]].
  2:{ unfold V2 in Hup. rewrite vm_with_info in Hup. exact Hup. }
  unfold create_task. rewrite (bind_run _ _ _ _ _ Hmalloc). destruct (Z.eqb_spec task 0); [lia|].
  set (s1 := put_parts h e V s.(ks_sched) s.(ks_frames) s). rewrite (bind_run (ret tt) _ s1 tt s1 eq_refl).
  rewrite (bind_run _ _ s1 name s1) by (unfold copy_name; by destruct (Z.ltb_spec (Z.of_nat (length name)) TASK_NAME_MAX_LEN); [|lia]).
  rewrite (bind_run get _ s1 s1 s1 eq_refl). unfold s1. cbv zeta.
  rewrite (bind_run _ _ _ _ _ (sched_part (modify _) s h e V s.(ks_sched) _ tt _ eq_refl)).
  rewrite (bind_run _ _ _ _ _ (tables_part _ s h e V _ _ root (set_frames f v) (frame_run _ _ _ _ Hf eq_refl))).
  fold V1.
  rewrite (bind_run _ _ _ (root + v.(hhdm_base)) (put_parts h e V1 (set_ids s.(ks_sched).(next_thread_id) (u64 (s.(ks_sched).(next_task_id) + 1)) s.(ks_sched)) s.(ks_frames) s)).
  2:{ refine (tables_part _ s h e V1 _ _ _ (set_frames f v) _).
      apply (hhdm_run (set_frames f v)); [simpl; lia|apply (ok_base _ _ _ Hk)|apply (ok_window _ _ _ Hk)]. }
  rewrite (bind_run _ _ _ tt (put_parts h e V1 new_sched s.(ks_frames) s)).
  2:{ apply sched_part. unfold write_task. destruct (Z.eqb_spec task 0); [lia|]. done. }
  rewrite (bind_run _ _ _ tt (put_parts h e V2 new_sched s.(ks_frames) s)) by by apply vmm_part.
  rewrite (bind_run _ _ _ tt (put_parts h e (new_vmm is_supervisor v') new_sched s.(ks_frames) s)); [done|].
  apply vmm_part. rewrite Hinit. unfold V2. rewrite containers_with_info, vm_with_info, set_vm_with_info, set_containers_with_info, with_info_twice.
  assert (global_container_root (with_info task i0 V1) = V.(global_container_root)) as -> by (unfold with_info; by destruct (task =? 0)).
  assert (data_start (vmm_vm V1) = data_start v) as -> by reflexivity. unfold new_vmm, new_info. fold i0. reflexivity.
Qed.

(** [prepare_virtual_memory_environment] on the new task makes its space over the
    kernel's. *)
Lemma prepare_run is_supervisor h e v' taken' a1 :
  0 < task -> @set_up _ _ _ (beside taken) (set_frames f v) v' {[root]} taken' root (data_start v) a1 n ->
  exists m', prepare_virtual_memory_environment task (put_parts h e (new_vmm is_supervisor v') new_sched s.(ks_frames) s) =
      Ret (tt, put_parts h e (new_vmm is_supervisor (set_phys m' v')) new_sched s.(ks_frames) s) /\
    space s.(root_page_table) root v [] n (set_phys m' v') /\
    m' !! (root + 8 * 510) = Some (Z.lor (Z.lor root VMM_FLAGS_PRESENT) VMM_FLAGS_WRITE_ENABLE) /\
    exists new, new ## taken /\ vm_ok (taken ∪ new) s.(root_page_table) (set_phys m' v') /\ only_pages new v.(phys) m'.
Proof.
  intros Ht0 [(m1 & f1 & Ev') Hok' Hsub _ Hsup Hpages _]. destruct root_fresh as (Hra & Hr0 & Hrl & Hrt & _).
  pose proof page_size_bounds. pose proof (tr_kernel Hready) as Hk. set (p4 := s.(root_page_table)) in *.
  destruct (tree_root _ _ _ Hk) as (Hpa & _ & _ & Hpk).
  destruct Hok' as [Hb Hlim Hw Htree [Hfs Hdis]]. assert (root ∈ taken') as Hrk by (by apply Hsub, elem_of_singleton).
  assert (forall t i, t ∈ taken -> t mod 2 ^ 12 = 0 -> 0 <= i < 512 -> v'.(phys) !! (t + 8 * i) = v.(phys) !! (t + 8 * i)) as Hkept.
  { intros t i. exact (only_pages_beside taken' taken v.(phys) v'.(phys) t i Hpages Hdis). }
  assert (v'.(vm_memory_size) = v.(vm_memory_size)) as El by (by rewrite Ev').
  assert (@vm_ok _ _ _ (beside taken') taken p4 v') as Hk'.
  { constructor; [done|done|done| |].
    - rewrite El. exact (tree_ok_kept _ _ _ _ _ _ (ok_tree _ _ _ Hk) Hkept).
    - split; [by rewrite (comm_L (∪))|done]. }
  set (s1 := put_parts h e (new_vmm is_supervisor v') new_sched s.(ks_frames) s).
  assert (tables s1 = v') as Et by (unfold tables, s1; simpl; unfold new_vmm; apply vm_with_info).
  destruct (@prepare_virtual_memory_environment_run _ (beside taken') s1 task new_task taken) as (m' & Hrun & Hf);
    [lia|apply lookup_insert_eq|by rewrite Et|exact Hra|exact Hrt|simpl; lia|rewrite Et, El; simpl; lia|].
  rewrite Et in Hrun, Hf. cbn [vm_root_page_table new_task] in Hf. change (root_page_table s1) with p4 in Hf.
  exists m'. split; [|split].
  - rewrite Hrun. unfold s1. rewrite with_tables_part. unfold new_vmm. by rewrite set_vm_with_info.
  - pose proof (filled_other v' taken root p4 m' (conj Hra Hrt) Hf) as Hfo. constructor.
    + exists m', f1. by rewrite Ev'.
    + exists ({[root]} ∪ taken ∖ {[p4]} ∪ taken'). constructor; [done|done|done| |split].
      * apply (tree_ok_mono _ _ ({[root]} ∪ taken ∖ {[p4]})); [set_solver|].
        apply (filled_tree (laws := beside taken') v' taken root p4 m' Hk' (conj Hra Hrt) Hf); [lia|rewrite El; lia].
      * assert ({[root]} ∪ taken ∖ {[p4]} ∪ taken' ∪ {[p4]} = taken' ∪ taken) as ->; [|exact Hfs].
        apply set_eq. intros x. destruct (decide (x = p4)) as [->|]; set_solver.
      * set_solver.
    + exact Hsup.
    + by intros u x ?%elem_of_nil.
    + intros u Hu _. change (phys (set_phys m' v')) with m'.
      rewrite (filled_mapping (laws := beside taken') v' taken root p4 m' Hk' (conj Hra Hrt) Hf u Hu).
      by rewrite (mapping_kept _ taken _ _ p4 u (ok_tree _ _ _ Hk) Hkept Hu).
    + intros i Hi Hne. change (phys (set_phys m' v')) with m'. rewrite (proj1 Hf) by lia. unfold root_entry.
      destruct (Z.leb_spec i 255); [lia|]. destruct (Z.eqb_spec i 510); [done|]. apply Hkept; [done|done|lia].
    + intros i Hi. change (phys (set_phys m' v')) with m'. rewrite Hfo by done. by apply Hkept.
  - split; [rewrite (proj1 Hf) by lia; done|]. exists taken'. split; [done|]. split.
    + destruct Hk' as [_ _ _ Htk _]. constructor; [done|done|done| |by rewrite (comm_L (∪))].
      apply (tree_ok_mono _ _ taken); [set_solver|]. apply (tree_ok_kept _ _ _ v'.(phys)); [exact Htk|].
      intros t i Ht Ha Hi. by apply (filled_other v' taken root p4 m' (conj Hra Hrt) Hf).
    + intros x Hx. rewrite (proj2 Hf); [by apply Hpages|]. intros i Hi. by apply Hx.
Qed.
End CreateTask.

(** ** The segments *)

Section Segments.
Context `{PageConfig} {laws : FrameSourceLaws pmm_state}.
Context (info : VmmInfo) (elf_header p4 root : Z) (v0 : vm_state pmm_state).
Let P := PAGE_SIZE_IN_BYTES.

(** Where the bytes of a segment are in physical memory, and the pages and entries
    that make them the segment. *)
Definition segment_pa (phdr : Elf64_Phdr) : Z := u64 (elf_header + phdr.(p_offset)) - v0.(hhdm_base).
Definition segment_count (phdr : Elf64_Phdr) : Z := get_number_of_pages_from_size phdr.(p_memsz).
Definition segment_page (phdr : Elf64_Phdr) (j : Z) : Z := align_value_to_page phdr.(p_vaddr) + j * P.
Definition segment_pages (phdr : Elf64_Phdr) : list (Z * Z) :=
  (fun j => (segment_page phdr j, leaf_entry (segment_pa phdr + j * P) (segment_page phdr j) (segment_flags phdr)))
    <$> seqZ 0 (segment_count phdr).

(** A segment that lies page by page in memory, for the lower half. *)
Record segment_fits (phdr : Elf64_Phdr) : Prop := {
  sf_align : phdr.(p_align) = P;
  sf_aligned : segment_pa phdr mod P = 0;
  sf_physical : 0 <= segment_pa phdr /\ v0.(hhdm_base) + segment_pa phdr + segment_count phdr * P <= 2 ^ 64;
  sf_virtual : segment_page phdr (segment_count phdr) <= 2 ^ 64;
  sf_pages : 0 <= segment_count phdr < 2 ^ 16;
  sf_low : forall u e, (u, e) ∈ segment_pages phdr -> PML4_ENTRY u <= 255;
}.

Lemma segment_pages_in phdr u e : (u, e) ∈ segment_pages phdr <->
  exists j, 0 <= j < segment_count phdr /\ u = segment_page phdr j /\
    e = leaf_entry (segment_pa phdr + j * P) (segment_page phdr j) (segment_flags phdr).
Proof.
  unfold segment_pages. rewrite list_elem_of_fmap. split.
  - intros (j & [= -> ->] & Hj%elem_of_seqZ). exists j. split; [lia|done].
  - intros (j & Hj & -> & ->). exists j. split; [done|]. apply elem_of_seqZ. lia.
Qed.

Lemma load_segment s pg rest phdr v :
  tables s = v -> root_pointer v0 root info.(root_table_hhdm) -> p4 mod 2 ^ 12 = 0 ->
  space p4 root v0 pg (3 * Z.to_nat (segment_count phdr) + rest) v -> segment_fits phdr ->
  pages_apart pg (segment_pages phdr) -> (forall u e, (u, e) ∈ pg -> PML4_ENTRY u <= 255) ->
  exists v', load_phdr_pages info elf_header phdr s = Ret (tt, with_tables v' s) /\ space p4 root v0 (pg ++ segment_pages phdr) rest v'.
Proof.
  intros Et Hroot Hp4 Hsp [Hal Hpa Hph Hva Hn Hlow'] Hapart Hlow. pose proof Hsp as [(m & f & Ev) (taken & Hvm) Hsup _ Hother _ _].
  assert (v.(hhdm_base) = v0.(hhdm_base)) as Eb by (by rewrite Ev).
  assert (forall j, 0 <= j < segment_count phdr -> PML4_ENTRY (segment_page phdr j) <= 255) as Hlowj.
  { intros j Hj. apply (Hlow' _ (leaf_entry (segment_pa phdr + j * P) (segment_page phdr j) (segment_flags phdr))), segment_pages_in. by exists j. }
  destruct (@load_phdr_pages_run _ (beside {[p4]}) s info elf_header phdr taken root (segment_pa phdr) rest) as (v' & Hrun & Hld).
  { constructor; rewrite ?Et, ?Eb; try done.
    - unfold root_pointer in *. by rewrite Eb, Ev.
    - unfold segment_pa. lia.
    - intros j Hj. pose proof (Hlowj j Hj) as Hl. unfold segment_page, P in Hl. split; [lia|].
      rewrite Hother; [|lia|].
      + by destruct (Z.leb_spec (PML4_ENTRY (align_value_to_page phdr.(p_vaddr) + j * PAGE_SIZE_IN_BYTES)) 255); [|lia].
      + intros w e Hw Hs. apply (Hapart w e (segment_page phdr j) (leaf_entry (segment_pa phdr + j * P) (segment_page phdr j) (segment_flags phdr)) Hw).
        * apply segment_pages_in. by exists j.
        * apply same_page_id. by apply same_page_id in Hs. }
  exists v'. split; [exact Hrun|]. destruct Hld as [Hst (taken' & _ & Hvm' & Ho) Hsup' Hpages' Hother' Hroot'].
  rewrite Z.sub_diag in Hsup'. rewrite Et in Hst, Ho, Hother', Hroot'.
  apply (space_extend p4 root v0 pg _ (3 * Z.to_nat (segment_count phdr) + rest) rest taken' v v'); try done.
  - intros u e (j & Hj & -> & ->)%segment_pages_in. by apply Hpages'.
  - intros u Hu Hno. apply Hother'; [done|]. intros j Hj. eapply Hno. apply segment_pages_in. by exists j.
  - intros i Hi Hno. apply Hroot'; [done|]. intros j Hj. eapply Hno. apply segment_pages_in. by exists j.
Qed.

(** All segments of a program, one after the other. *)
Definition program_pages (phdrs : list Elf64_Phdr) : list (Z * Z) := phdrs ≫= segment_pages.
Definition program_need (phdrs : list Elf64_Phdr) : nat := sum_list_with (fun p => 3 * Z.to_nat (segment_count p))%nat phdrs.

Lemma load_segments_run s h phdrs rest :
  root_pointer v0 root info.(root_table_hhdm) -> p4 mod 2 ^ 12 = 0 ->
  Z.of_nat (length phdrs) = h.(e_phnum) ->
  (forall j phdr, phdrs !! j = Some phdr -> load_phdr (phdr_address elf_header h (Z.of_nat j)) s.(ks_memory) = Ret (phdr, s.(ks_memory))) ->
  space p4 root v0 [] (program_need phdrs + rest) (tables s) -> Forall segment_fits phdrs ->
  NoDup (page_id ∘ fst <$> program_pages phdrs) ->
  exists v', for_upto h.(e_phnum) (fun j =>
      let! phdr := in_memory (load_phdr (phdr_address elf_header h j)) in load_phdr_pages info elf_header phdr) s = Ret (tt, with_tables v' s) /\
    space p4 root v0 (program_pages phdrs) rest v'.
Proof.
  intros Hroot Hp4 Hlen Hload Hsp Hfit Hnd. pose proof (Forall_forall segment_fits phdrs) as [Hfits _]. specialize (Hfits Hfit).
  assert (forall u e, (u, e) ∈ program_pages phdrs -> PML4_ENTRY u <= 255) as Hlow.
  { intros u e (p & Hu & Hp)%list_elem_of_bind. by apply (sf_low p (Hfits p Hp) u e). }
  match goal with |- exists v', for_upto _ ?body s = _ /\ _ =>
    assert (wp (for_upto h.(e_phnum) body) (fun _ t => exists v', t = with_tables v' s /\ space p4 root v0 (program_pages phdrs) rest v') s) as Hwp end.
  2:{ apply wp_run in Hwp as ([] & t & Hrun & v' & -> & Hv). by exists v'. }
  unfold for_upto. rewrite <- Hlen, Nat2Z.id.
  apply (wp_for_from (fun k t => exists v', t = with_tables v' s /\
    space p4 root v0 (program_pages (take (Z.to_nat k) phdrs)) (program_need (drop (Z.to_nat k) phdrs) + rest) v')).
  - exists (tables s). split; [by rewrite with_tables_same|]. exact Hsp.
  - intros k t Hk (v & -> & Hv). destruct (lookup_lt_is_Some_2 phdrs (Z.to_nat k)) as [phdr Hphdr]; [lia|].
    assert (phdr ∈ phdrs) as Hin by (by apply list_elem_of_lookup_2 in Hphdr).
    replace (Z.to_nat (k + 1)) with (S (Z.to_nat k)) by lia. rewrite (take_S_r _ _ _ Hphdr). rewrite (drop_S _ _ _ Hphdr) in Hv.
    assert (program_pages (take (Z.to_nat k) phdrs ++ [phdr]) = program_pages (take (Z.to_nat k) phdrs) ++ segment_pages phdr) as Epg
      by (unfold program_pages; rewrite bind_app; simpl; by rewrite app_nil_r).
    assert (program_pages phdrs = program_pages (take (Z.to_nat k) phdrs) ++ segment_pages phdr ++ program_pages (drop (S (Z.to_nat k)) phdrs)) as Eall.
    { rewrite app_assoc, <- Epg. unfold program_pages. by rewrite <- bind_app, <- (take_S_r _ _ _ Hphdr), take_drop. }
    destruct (load_segment (with_tables v s) (program_pages (take (Z.to_nat k) phdrs)) (program_need (drop (S (Z.to_nat k)) phdrs) + rest) phdr v)
      as (v' & Hrun & Hv'); [done|done|done| |by apply Hfits| | |].
    + simpl in Hv. by rewrite <- Nat.add_assoc in Hv.
    + apply apart_of_ids. rewrite Eall, app_assoc, fmap_app in Hnd. by apply NoDup_app in Hnd as [? _].
    + intros u e Hu. apply (Hlow u e). rewrite Eall. apply elem_of_app. by left.
    + apply wp_run. exists tt, (with_tables v' s). split; [|exists v'; by rewrite Epg].
      rewrite (bind_run _ _ (with_tables v s) phdr (with_tables v s)); [exact Hrun|].
      unfold in_memory, zoom. pose proof (Hload _ _ Hphdr) as Hl. rewrite Z2Nat.id in Hl by lia. simpl. by rewrite Hl.
  - intros t (v & -> & Hv). exists v. split; [done|]. rewrite Z.add_0_l, Nat2Z.id in Hv.
    by rewrite firstn_all, drop_all in Hv.
Qed.
End Segments.

(** ** The thread *)

Section CreateThread.
Context `{PageConfig}.
Context (s : kernel_state) (g : garbage) (name : list Z) (_entry_point parent : Z) (is_supervisor is_elf : bool).
Context (V V' : vmm_state pmm_state) (X : sched_state) (k : task_t) (stack_pointer a1 a2 a3 : Z).
Let thread := a1 + header_size.
Let frame := a2 + header_size.

(** The frame and the thread [create_thread] makes. *)
Definition first_frame : cpu_status_t :=
  new_frame (if is_supervisor then None else Some (0, 0)) (if is_supervisor then s.(code_to_run) else _entry_point)
    (if is_supervisor then 0x08 else 0x1B) 0x202 stack_pointer (if is_supervisor then 0x10 else 0x23) g.(old_frame).
Definition fresh_thread : thread_t :=
  mk_thread (u16 X.(next_thread_id)) name stack_pointer parent NEW 0 frame 0 0 0
    (a3 + header_size + THREAD_DEFAULT_STACK_SIZE) g.(old_thread).(thread_exit_code).
Definition new_thread : thread_t := set_sibling thread (set_thread_next X.(thread_list) fresh_thread).
(** The scheduler with the thread at the front of its list, and counted by its task. *)
Definition enlisted : sched_state :=
  let x := set_list thread (u64 (X.(thread_list_size) + 1))
    (set_tasks (<[parent := set_running_threads (u64 (k.(running_threads) + 1)) k]> X.(tasks))
      (set_threads (<[thread := new_thread]> X.(threads)) (set_ids (u64 (X.(next_thread_id) + 1)) X.(next_task_id) X))) in
  if X.(current_executing_thread) =? 0 then set_current thread x else x.

Lemma enlist_run : thread <> 0 -> parent <> 0 -> X.(tasks) !! parent = Some k ->
  exists X2 X3 X4, write_thread thread fresh_thread (set_ids (u64 (X.(next_thread_id) + 1)) X.(next_task_id) X) = Ret (tt, X2) /\
    add_thread_to_task parent thread X2 = Ret (true, X3) /\ scheduler_add_thread thread X3 = Ret (tt, X4) /\
    update_task parent (fun k => set_running_threads (u64 (k.(running_threads) + 1)) k) X4 = Ret (tt, enlisted).
Proof.
  intros Ht Hp Hk. set (X1 := set_ids _ _ X). set (linked := set_sibling thread (set_thread_next k.(task_threads) fresh_thread)).
  set (X2 := set_threads (<[thread := fresh_thread]> X1.(threads)) X1). set (X3 := set_threads (<[thread := linked]> X2.(threads)) X2).
  set (X4 := set_list thread (u64 (X.(thread_list_size) + 1)) (set_threads (<[thread := set_thread_next X.(thread_list) linked]> X3.(threads)) X3)).
  exists X2, X3, (if X.(current_executing_thread) =? 0 then set_current thread X4 else X4). split_and!.
  - unfold write_thread. by destruct (Z.eqb_spec thread 0).
  - unfold add_thread_to_task. destruct (Z.eqb_spec parent 0), (Z.eqb_spec thread 0); try done. cbn [orb].
    rewrite (bind_run _ _ X2 k X2) by by apply read_task_run.
    assert (X2.(threads) !! thread = Some fresh_thread) as Hl by apply lookup_insert_eq.
    by rewrite (bind_run _ _ _ _ _ (update_thread_run X2 thread _ _ Ht Hl)).
  - unfold scheduler_add_thread. rewrite (bind_run get _ X3 X3 X3 eq_refl).
    assert (X3.(threads) !! thread = Some linked) as Hl by apply lookup_insert_eq.
    rewrite (bind_run _ _ _ _ _ (update_thread_run X3 thread _ _ Ht Hl)), (bind_run (modify _) _ _ tt X4 eq_refl).
    change (current_executing_thread X3) with (current_executing_thread X). by destruct (_ =? 0).
  - rewrite (update_task_run _ parent _ k Hp) by (by destruct (_ =? 0)). unfold enlisted, X4, X3, X2. simpl.
    destruct (_ =? 0); cbn [threads set_threads set_list set_current tasks set_tasks]; by rewrite !insert_insert_eq.
Qed.

(** [create_thread], given the run of the allocation of its stack; the thread for a
    function of the user has code of its own made first, and is not covered. *)
Lemma create_thread_run h e fr arg l l1 l2 l3 :
  is_supervisor || is_elf = true ->
  heap_at s h e l -> alloc_blocks (real_size sizeof_thread_t) l = Some (a1, l1) ->
  alloc_blocks (real_size sizeof_cpu_status_t) l1 = Some (a2, l2) ->
  alloc_blocks (real_size THREAD_DEFAULT_STACK_SIZE) l2 = Some (a3, l3) ->
  Z.of_nat (length name) < THREAD_NAME_MAX_LEN -> parent <> 0 -> X.(tasks) !! parent = Some k ->
  vmm_alloc_any THREAD_DEFAULT_STACK_SIZE (Z.lor (Z.lor VMM_FLAGS_PRESENT VMM_FLAGS_WRITE_ENABLE) VMM_FLAGS_STACK) parent V = Ret (stack_pointer, V') ->
  stack_pointer <> 0 ->
  0 < thread /\ exists h' e', create_thread g name _entry_point arg parent is_supervisor is_elf (put_parts h e V X fr s) =
      Ret (thread, put_parts h' e' V' enlisted (<[frame := first_frame]> fr) s) /\ heap_at s h' e' l3.
Proof.
  intros Hkind Hinv Ha1 Ha2 Ha3 Hname Hp Hk Hstack Hsp. set (X1 := set_ids (u64 (X.(next_thread_id) + 1)) X.(next_task_id) X).
  destruct (kmalloc_part s h e V X fr l sizeof_thread_t a1 l1 Hinv) as (Ht0 & _ & h1 & e1 & Hm1 & Hinv1); [by compute|done|].
  destruct (kmalloc_part s h1 e1 V X1 fr l1 sizeof_cpu_status_t a2 l2 Hinv1) as (Hf0 & _ & h2 & e2 & Hm2 & Hinv2); [by compute|done|].
  destruct (kmalloc_part s h2 e2 V X1 fr l2 THREAD_DEFAULT_STACK_SIZE a3 l3 Hinv2) as (Hs0 & Hs1 & h3 & e3 & Hm3 & Hinv3); [by compute|done|].
  fold thread in Ht0, Hm1. fold frame in Hf0, Hm2. split; [done|]. exists h3, e3. split; [|done].
  unfold create_thread. destruct (Z.eqb_spec parent 0); [done|]. rewrite (bind_run _ _ _ _ _ Hm1).
  rewrite (bind_run get _ _ _ _ eq_refl). destruct (Z.eqb_spec thread 0); [lia|]. rewrite (bind_run (ret tt) _ _ tt _ eq_refl).
  rewrite (bind_run _ _ (put_parts h1 e1 V X fr s) tt (put_parts h1 e1 V X1 fr s)) by done.
  rewrite (bind_run _ _ _ name (put_parts h1 e1 V X1 fr s))
    by (unfold copy_name; by destruct (Z.ltb_spec (Z.of_nat (length name)) THREAD_NAME_MAX_LEN); [|lia]).
  rewrite (bind_run _ _ _ _ _ Hm2). destruct (Z.eqb_spec frame 0); [lia|]. rewrite (bind_run (ret tt) _ _ tt _ eq_refl).
  rewrite (bind_run _ _ _ (if is_supervisor then s.(code_to_run) else _entry_point) (put_parts h2 e2 V X1 fr s))
    by (by destruct is_supervisor, is_elf).
  rewrite (bind_run _ _ _ _ _ Hm3). rewrite u64_small by (unfold THREAD_DEFAULT_STACK_SIZE in *; lia).
  destruct (Z.eqb_spec (a3 + header_size + THREAD_DEFAULT_STACK_SIZE) 0); [unfold THREAD_DEFAULT_STACK_SIZE in *; lia|].
  rewrite (bind_run _ _ _ _ _ (vmm_part _ s h3 e3 V X1 fr _ V' Hstack)). destruct (Z.eqb_spec stack_pointer 0); [done|].
  rewrite (bind_run _ _ _ _ _ (write_frame_part s h3 e3 V' X1 fr frame _ ltac:(lia))).
  assert (thread <> 0) as Htn by lia. destruct (enlist_run Htn Hp Hk) as (X2 & X3 & X4 & E1 & E2 & E3 & E4). fold X1 in E1.
  rewrite (bind_run _ _ _ _ _ (sched_part _ s h3 e3 V' X1 _ tt X2 E1)).
  rewrite (bind_run _ _ _ _ _ (sched_part _ s h3 e3 V' X2 _ true X3 E2)).
  rewrite (bind_run _ _ _ _ _ (sched_part _ s h3 e3 V' X3 _ tt X4 E3)).
  by rewrite (bind_run _ _ _ _ _ (sched_part _ s h3 e3 V' X4 _ tt enlisted E4)).
Qed.
End CreateThread.

(** ** The stack *)

Section StackPages.
Context `{PageConfig}.

Definition stack_count : Z := get_number_of_pages_from_size THREAD_DEFAULT_STACK_SIZE.
Definition stack_page (j : Z) : Z := VM_KERNEL_MEMORY_PADDING + j * PAGE_SIZE_IN_BYTES.
Definition stack_top : Z := VM_KERNEL_MEMORY_PADDING + THREAD_DEFAULT_STACK_SIZE.
Definition stack_flags : Z := Z.lor (Z.lor VMM_FLAGS_PRESENT VMM_FLAGS_WRITE_ENABLE) VMM_FLAGS_STACK.
Definition stack_area_flags : Z := Z.lor stack_flags VMM_FLAGS_USER_LEVEL.
(** The pages of the stack, on the frames [fr]. *)
Definition stack_pages (fr : list Z) : list (Z * Z) :=
  imap (fun j x => (stack_page (Z.of_nat j), leaf_entry x (stack_page (Z.of_nat j)) (page_flags (vm_parse_flags stack_area_flags)))) fr.

Lemma stack_pages_in fr u e : (u, e) ∈ stack_pages fr <->
  exists (j : nat) x, fr !! j = Some x /\ u = stack_page (Z.of_nat j) /\ e = leaf_entry x u (page_flags (vm_parse_flags stack_area_flags)).
Proof.
  unfold stack_pages. split.
  - intros (j & x & [= -> ->] & Hx)%elem_of_lookup_imap_1. by exists j, x.
  - intros (j & x & Hx & -> & ->). apply (list_elem_of_lookup_2 _ j). by rewrite list_lookup_imap, Hx.
Qed.

Lemma stack_geometry : stack_count * PAGE_SIZE_IN_BYTES < 2 ^ 22 /\ 1 <= stack_count <= 16 /\
  forall j, 0 <= j < stack_count -> PML4_ENTRY (stack_page j) <= 255.
Proof.
  assert (stack_count * PAGE_SIZE_IN_BYTES < 2 ^ 22 /\ 1 <= stack_count <= 16 /\
    forallb (fun j => PML4_ENTRY (stack_page j) <=? 255) (seqZ 0 16) = true) as (H1 & H2 & H3).
  { unfold stack_count, stack_page, VM_KERNEL_MEMORY_PADDING, get_number_of_pages_from_size, align_value_to_page, PAGE_SIZE_IN_BYTES.
    destruct SMALL_PAGES; vm_compute; split_and!; (done || discriminate). }
  split_and!; [done|lia|lia|]. intros j Hj. rewrite forallb_forall in H3. specialize (H3 j).
  rewrite Z.leb_le in H3. apply H3, list_elem_of_In, elem_of_seqZ. lia.
Qed.
End StackPages.

Section Stack.
Context `{PageConfig}.
Context (s : kernel_state) (g : garbage) (a root p4 : Z) (v0 v : vm_state pmm_state) (pg : list (Z * Z)).
Let task := a + header_size.
Let data := data_start (tables s).

(** The address space of the task after the allocation: its next address, and the
    area in item 0 of the container, which is the kernel's. *)
Definition stack_vmm (v' : vm_state pmm_state) : vmm_state pmm_state :=
  let V := new_vmm s g a root false v in
  set_vmm_vm v' (booked task (new_info s g root false)
    (mk_container (match s.(ks_heap).(heap_vmm).(containers) !! data with Some x => x.(vmm_root) | None => ∅ end) items_per_page 0)
    VM_KERNEL_MEMORY_PADDING THREAD_DEFAULT_STACK_SIZE stack_flags V).

Lemma stack_run rest :
  data <> 0 -> p4 mod 2 ^ 12 = 0 -> (tables s).(hhdm_base) = v0.(hhdm_base) -> 0 < v0.(hhdm_base) -> 0 <= root ->
  space p4 root v0 pg (4 * Z.to_nat stack_count + rest) v -> (forall u e, (u, e) ∈ pg -> PML4_ENTRY u <= 255) ->
  (forall u e j, (u, e) ∈ pg -> 0 <= j < stack_count -> ~ same_page u (stack_page j)) ->
  exists v' fr, vmm_alloc_any THREAD_DEFAULT_STACK_SIZE stack_flags task (new_vmm s g a root false v) = Ret (stack_top, stack_vmm v') /\
    Z.of_nat (length fr) = stack_count /\ NoDup fr /\ space p4 root v0 (pg ++ stack_pages fr) 0 v'.
Proof.
  intros Hd0 Hp4 Hbase Hb0 Hr0 Hsp Hlow Hfree. destruct stack_geometry as (Hg1 & Hg2 & Hglow).
  pose proof Hsp as [(m & f & Ev) (taken & Hvm) Hsup _ Hother _ _]. pose proof page_size_bounds.
  set (V := new_vmm s g a root false v). set (i := new_info s g root false).
  assert (V.(vmm_vm) = v) as EV by (unfold V, new_vmm; by rewrite vm_with_info).
  assert (is_address_only stack_area_flags = false /\ is_address_stack stack_area_flags = true /\
    area_flags VM_KERNEL_MEMORY_PADDING stack_flags = stack_area_flags) as (Honly & Hstk & Hfl).
  { split; [done|]. split; [done|]. unfold area_flags, VM_KERNEL_MEMORY_PADDING, PAGE_SIZE_IN_BYTES. by destruct SMALL_PAGES. }
  destruct (@vmm_alloc_at_maps _ _ _ (beside {[p4]}) V task i
    (mk_container (match s.(ks_heap).(heap_vmm).(containers) !! data with Some x => x.(vmm_root) | None => ∅ end) items_per_page 0)
    0 THREAD_DEFAULT_STACK_SIZE stack_flags taken root) as (s' & i' & v' & Hrun & -> & _ & _ & _ & _ & _ & Hres).
  - by apply info_of_with.
  - unfold V, new_vmm. rewrite containers_with_info. apply lookup_insert_eq.
  - exact Hd0.
  - change (0 <= 0 < items_per_page). unfold items_per_page, sizeof_VmmItem, PAGE_SIZE_IN_BYTES. by destruct SMALL_PAGES.
  - change (items_per_page < 2 ^ 63). unfold items_per_page, sizeof_VmmItem, PAGE_SIZE_IN_BYTES. by destruct SMALL_PAGES.
  - change (0 <= VM_KERNEL_MEMORY_PADDING). unfold VM_KERNEL_MEMORY_PADDING. lia.
  - done.
  - change (VM_KERNEL_MEMORY_PADDING + stack_count * PAGE_SIZE_IN_BYTES < 2 ^ 64). unfold VM_KERNEL_MEMORY_PADDING. lia.
  - unfold THREAD_DEFAULT_STACK_SIZE. lia.
  - apply Z.mod_0_l. lia.
  - intros _. rewrite EV. split; [done|]. split; [|split; [|split]].
    + unfold root_pointer. cbn [i new_info init_info with_containers with_cursor with_space with_root_tables root_table_hhdm].
      destruct (Z.eqb_spec (root + (tables s).(hhdm_base)) 0); [lia|]. by rewrite Hbase, Ev.
    + change (stack_count <= 2 ^ page_bits). unfold page_bits. destruct SMALL_PAGES; lia.
    + change (supplies (4 * Z.to_nat stack_count) v.(frames)).
      clear -Hsup. revert Hsup. generalize (4 * Z.to_nat stack_count)%nat (v.(frames)). intros n f Hs.
      induction rest as [|rest IH]; [by rewrite Nat.add_0_r in Hs|]. apply IH, supplies_weaken. by rewrite Nat.add_succ_r in Hs.
    + intros j Hj. change (PML4_ENTRY (stack_page j) <> 510 /\ mapping v.(phys) root (stack_page j) = None).
      pose proof (Hglow j Hj). split; [lia|]. rewrite Hother; [by destruct (Z.leb_spec (PML4_ENTRY (stack_page j)) 255); [|lia]|lia|].
      intros w e Hw Hs. apply (Hfree w e j Hw Hj). apply same_page_id. by apply same_page_id in Hs.
  - change (area_address i 0) with VM_KERNEL_MEMORY_PADDING in Hrun, Hres. rewrite Hfl in Hrun, Hres. rewrite Honly in Hres. rewrite Hstk in Hrun.
    destruct Hres as (taken' & fr & [Hst Hok' _ Hlen Hdis _ Hmap Hother' Ho Hroot]). rewrite EV in *.
    exists v', fr. split; [|split; [exact Hlen|split; [exact Hdis|]]].
    { unfold vmm_alloc_any. rewrite Hrun. unfold stack_top.
      rewrite u64_small by (unfold VM_KERNEL_MEMORY_PADDING, THREAD_DEFAULT_STACK_SIZE; lia). done. }
    assert (forall w e, (w, e) ∈ stack_pages fr -> exists j, 0 <= j < stack_count /\ w = stack_page j) as Hin.
    { intros w e (j & x & Hx & -> & _)%stack_pages_in. exists (Z.of_nat j). split; [|done]. apply lookup_lt_Some in Hx.
      change (get_number_of_pages_from_size THREAD_DEFAULT_STACK_SIZE) with stack_count in Hlen. lia. }
    assert (forall j, 0 <= j < stack_count -> exists e, (stack_page j, e) ∈ stack_pages fr) as Hin'.
    { intros j Hj. destruct (lookup_lt_is_Some_2 fr (Z.to_nat j)) as [x Hx];
        [change (get_number_of_pages_from_size THREAD_DEFAULT_STACK_SIZE) with stack_count in Hlen; lia|].
      eexists. apply stack_pages_in. exists (Z.to_nat j), x. by rewrite Z2Nat.id by lia. }
    apply (space_extend p4 root v0 pg _ (4 * Z.to_nat stack_count + rest) 0 taken' v v'); try done.
    + intros u e w e' Hu (j & Hj & ->)%Hin. by apply (Hfree u e).
    + intros w e (j & Hj & ->)%Hin. by apply Hglow.
    + intros u e (j & x & Hx & -> & ->)%stack_pages_in. by apply Hmap.
    + intros u Hu Hno. apply Hother'; [done|]. intros j Hj. destruct (Hin' j Hj) as [e He]. by apply (Hno _ e He).
    + intros k Hk Hno. apply Hroot; [done|]. intros j Hj. destruct (Hin' j Hj) as [e He]. by apply (Hno _ e He).
Qed.
End Stack.

(** ** The whole *)

Section Program.
Context `{PageConfig}.
Context (s : kernel_state) (g : garbage) (name : list Z) (elf_header : Z) (h : Elf64_Ehdr) (phdrs : list Elf64_Phdr).
Context (l l1 l2 l3 l4 : list block) (a a1 a2 a3 : Z) (taken : gset Z) (root : Z) (f : pmm_state).
Let task := a + header_size.
Let thread := a1 + header_size.
Let frame := a2 + header_size.
Let p4 := s.(root_page_table).
Let P := PAGE_SIZE_IN_BYTES.

(** What the creation of a task from the program at [elf_header] needs: four free
    blocks, one after the other; memory for the page tables and the stack; and a
    program in memory whose segments are page by page, for the lower half, apart from
    each other and from the stack. *)
Record program_ready : Prop := {
  rd_task : task_ready s name l l1 a taken root f (program_need phdrs + 4 * Z.to_nat stack_count);
  rd_thread : alloc_blocks (real_size sizeof_thread_t) l1 = Some (a1, l2);
  rd_frame : alloc_blocks (real_size sizeof_cpu_status_t) l2 = Some (a2, l3);
  rd_stack : alloc_blocks (real_size THREAD_DEFAULT_STACK_SIZE) l3 = Some (a3, l4);
  rd_header : elf_header <> 0 /\ load_ehdr elf_header s.(ks_memory) = Ret (h, s.(ks_memory));
  rd_count : Z.of_nat (length phdrs) = h.(e_phnum);
  rd_phdrs : forall j phdr, phdrs !! j = Some phdr ->
    load_phdr (phdr_address elf_header h (Z.of_nat j)) s.(ks_memory) = Ret (phdr, s.(ks_memory));
  rd_fits : Forall (segment_fits elf_header (tables s)) phdrs;
  rd_apart : NoDup (page_id ∘ fst <$> program_pages elf_header (tables s) phdrs);
  rd_beside : forall u e j, (u, e) ∈ program_pages elf_header (tables s) phdrs -> 0 <= j < stack_count -> ~ same_page u (stack_page j);
}.

(** The scheduler afterwards. *)
Definition spawned_sched : sched_state :=
  let X := new_sched s g name a root in
  let k := new_task s g name root in
  let x := enlisted g name task X k stack_top a1 a2 a3 in
  set_root_task task (set_tasks (<[task := set_task_next X.(root_task) (set_running_threads (u64 (k.(running_threads) + 1)) k)]> x.(tasks)) x).

Lemma create_task_from_elf_run args : program_ready ->
  exists h' e' v v' fr,
    create_task_from_elf g name args elf_header s =
      Ret (task, put_parts h' e' (stack_vmm s g a root v v') spawned_sched
        (<[frame := first_frame s g h.(e_entry) false stack_top]> s.(ks_frames)) s) /\
    heap_at s h' e' l4 /\ Z.of_nat (length fr) = stack_count /\ NoDup fr /\
    space p4 root (tables s) (program_pages elf_header (tables s) phdrs ++ stack_pages fr) 0 v'.
Proof.
  intros [Htask Hth Hfr Hst [He0 Hh] Hcount Hphdrs Hfits Hapart Hbeside]. pose proof (tr_kernel _ _ _ _ _ _ _ _ _ Htask) as Hk.
  destruct (tree_root _ _ _ Hk) as (Hp4 & _). pose proof (ok_base _ _ _ Hk) as Hb0.
  destruct (root_fresh _ _ _ _ _ _ _ _ _ Htask) as (_ & Hr0 & _).
  destruct (create_task_run s g name l l1 a taken root f _ Htask false) as (Ht0 & h1 & e1 & v1 & taken1 & f1 & Hrun1 & Hinv1 & Hup).
  destruct (prepare_run s g name l l1 a taken root f _ Htask false h1 e1 v1 taken1 f1 Ht0 Hup) as (m2 & Hrun2 & Hsp2 & _ & _).
  fold task in Ht0, Hrun1, Hrun2. set (v2 := set_phys m2 v1) in *. set (X := new_sched s g name a root) in *. set (k := new_task s g name root).
  set (s2 := put_parts h1 e1 (new_vmm s g a root false v2) X s.(ks_frames) s) in *.
  assert (tables s2 = v2) as Et2 by (unfold tables, s2, new_vmm; simpl; apply vm_with_info).
  assert (root_pointer (tables s) root (root_table_hhdm (new_info s g root false))) as Hroot.
  { unfold root_pointer. change (root_table_hhdm (new_info s g root false)) with (root + (tables s).(hhdm_base)).
    destruct (Z.eqb_spec (root + (tables s).(hhdm_base)) 0); [lia|done]. }
  destruct (@load_segments_run _ pmm_frame_source_laws (new_info s g root false) elf_header p4 root (tables s) s2 h phdrs (4 * Z.to_nat stack_count))
    as (v3 & Hrun3 & Hsp3); [done|done|done|exact Hphdrs|by rewrite Et2|done|done|].
  set (pg := program_pages elf_header (tables s) phdrs) in *.
  assert (forall u e, (u, e) ∈ pg -> PML4_ENTRY u <= 255) as Hlow.
  { intros u e (p & Hu & Hp)%list_elem_of_bind. rewrite Forall_forall in Hfits. by apply (sf_low _ _ p (Hfits p Hp) u e). }
  destruct (stack_run s g a root p4 (tables s) v3 pg 0) as (v4 & fr & Hrun4 & Hlen & Hnd & Hsp4);
    [apply (tr_data _ _ _ _ _ _ _ _ _ Htask)|done|done|done|lia|by rewrite Nat.add_0_r|done|done|]. fold task in Hrun4.
  assert (with_tables v3 s2 = put_parts h1 e1 (new_vmm s g a root false v3) X s.(ks_frames) s) as E3.
  { unfold s2. rewrite with_tables_part. unfold new_vmm. by rewrite set_vm_with_info. }
  assert (X.(tasks) !! task = Some k) as Hlk by apply lookup_insert_eq.
  destruct (create_thread_run s g name h.(e_entry) task false true (new_vmm s g a root false v3) (stack_vmm s g a root v3 v4) X k stack_top a1 a2 a3
    h1 e1 s.(ks_frames) args l1 l2 l3 l4) as (_ & h5 & e5 & Hrun5 & Hinv5);
    [done|done|done|done|done|apply (tr_name _ _ _ _ _ _ _ _ _ Htask)|lia|done|exact Hrun4|unfold stack_top, VM_KERNEL_MEMORY_PADDING, THREAD_DEFAULT_STACK_SIZE; pose proof page_size_bounds; lia|].
  exists h5, e5, v3, v4, fr. split; [|done].
  unfold create_task_from_elf. rewrite (bind_run _ _ _ _ _ Hrun1), (bind_run _ _ _ _ _ Hrun2). destruct (Z.eqb_spec elf_header 0); [done|].
  set (s5 := put_parts h5 e5 _ _ _ s) in Hrun5.
  rewrite (bind_run _ _ s2 tt s5).
  - rewrite (bind_run _ _ s5 tt (put_parts h5 e5 (stack_vmm s g a root v3 v4) spawned_sched (<[frame := first_frame s g h.(e_entry) false stack_top]> s.(ks_frames)) s)); [done|].
    apply sched_part. unfold scheduler_add_task. rewrite (bind_run get _ _ _ _ eq_refl).
    set (Xe := enlisted g name task X k stack_top a1 a2 a3).
    assert (Xe.(tasks) !! task = Some (set_running_threads (u64 (k.(running_threads) + 1)) k)) as Hle
      by (unfold Xe, enlisted; destruct (_ =? 0); apply lookup_insert_eq).
    assert (task <> 0) as Htn by lia. rewrite (bind_run _ _ _ _ _ (update_task_run Xe task _ _ Htn Hle)).
    assert (Xe.(root_task) = X.(root_task)) as -> by (unfold Xe, enlisted; by destruct (_ =? 0)). done.
  - rewrite (bind_run _ _ s2 h s2) by (unfold in_memory, zoom; change (ks_memory s2) with (s.(ks_memory)); by rewrite Hh).
    rewrite (bind_run _ _ s2 (new_info s g root false) s2).
    2:{ refine (vmm_part _ s h1 e1 _ X _ _ _ _). apply get_info_run. apply info_of_with. }
    rewrite (bind_run _ _ _ _ _ Hrun3), E3. by rewrite (bind_run _ _ _ _ _ Hrun5).
Qed.

(** C10: [create_task_from_elf], on a program whose segments lie page by page in memory
    and for a heap and a memory with room, gives a task that is the first of the
    scheduler's list of tasks, with one new thread at the front of the list of threads,
    whose frame starts at the program's entry point in user mode on top of its own
    stack. In the task's address space every page of every segment is the page of the
    file that holds it, the stack is on frames of its own, the upper half is the
    kernel's, and nothing else is mapped; the kernel's own upper half is what it was. *)
Theorem create_task_from_elf_spawns args : program_ready ->
  exists s', create_task_from_elf g name args elf_header s = Ret (task, s') /\
    heap_inv s'.(ks_heap) l4 /\ s'.(ks_sched).(root_task) = task /\ s'.(ks_sched).(thread_list) = thread /\
    (exists t r, s'.(ks_sched).(threads) = <[thread := t]> s.(ks_sched).(threads) /\ s'.(ks_frames) = <[frame := r]> s.(ks_frames) /\
      t.(status) = NEW /\ t.(parent_task) = task /\ t.(execution_frame) = frame /\ t.(thread_next) = s.(ks_sched).(thread_list) /\
      r.(rip) = h.(e_entry) /\ r.(rsp) = stack_top /\ r.(cs) = 0x1B) /\
    let m := (tables s').(phys) in
    (forall u e, (u, e) ∈ program_pages elf_header (tables s) phdrs -> mapping m root u = Some e) /\
    (exists fr, Z.of_nat (length fr) = stack_count /\ NoDup fr /\ forall u e, (u, e) ∈ stack_pages fr -> mapping m root u = Some e) /\
    (forall u, PML4_ENTRY u <> 510 -> (forall w e, (w, e) ∈ program_pages elf_header (tables s) phdrs -> ~ same_page u w) ->
      (forall j, 0 <= j < stack_count -> ~ same_page u (stack_page j)) ->
      mapping m root u = if PML4_ENTRY u <=? 255 then None else mapping (tables s).(phys) p4 u) /\
    (forall u, 255 < PML4_ENTRY u -> PML4_ENTRY u <> 510 -> mapping m p4 u = mapping (tables s).(phys) p4 u).
Proof.
  intros Hready. destruct (create_task_from_elf_run args Hready) as (h' & e' & v & v' & fr & Hrun & Hinv & Hlen & Hnd & Hsp).
  eexists. split; [exact Hrun|]. split; [exact Hinv|].
  set (X := new_sched s g name a root). set (k := new_task s g name root). set (Xe := enlisted g name task X k stack_top a1 a2 a3).
  assert (Xe.(thread_list) = thread /\ Xe.(threads) = <[thread := new_thread g name task X stack_top a1 a2 a3]> s.(ks_sched).(threads)) as [El Et]
    by (unfold Xe, enlisted; by destruct (_ =? 0)).
  split; [done|]. split; [exact El|]. split; [|cbv zeta; split_and!].
  - exists (new_thread g name task X stack_top a1 a2 a3), (first_frame s g h.(e_entry) false stack_top). split; [exact Et|]. done.
  - intros u e Hu. apply (sp_pages _ _ _ _ _ _ Hsp). apply elem_of_app. by left.
  - exists fr. split_and!; [done|done|]. intros u e Hu. apply (sp_pages _ _ _ _ _ _ Hsp). apply elem_of_app. by right.
  - intros u Hu Hno Hns. apply (sp_other _ _ _ _ _ _ Hsp u Hu). intros w e [Hw|Hw]%elem_of_app; [by apply (Hno w e)|].
    apply stack_pages_in in Hw as (j & x & Hx & -> & _). apply Hns. apply lookup_lt_Some in Hx. lia.
  - intros u Hu Hne. apply (space_kernel p4 root (tables s) _ 0 v' u Hsp); [|done|done].
    intros w e [Hw|Hw]%elem_of_app.
    + apply list_elem_of_bind in Hw as (p & Hw & Hp). pose proof (rd_fits Hready) as Hf. rewrite Forall_forall in Hf.
      by apply (sf_low _ _ p (Hf p Hp) w e).
    + apply stack_pages_in in Hw as (j & x & Hx & -> & _). apply lookup_lt_Some in Hx.
      destruct stack_geometry as (_ & _ & Hg). apply Hg. lia.
Qed.

(** The area of the stack is recorded in item 0 of the kernel's own container. *)
Lemma stack_in_kernel_container v v' : exists c, (stack_vmm s g a root v v').(containers) !! data_start (tables s) = Some c /\
  c.(vmm_root) !! 0 = Some (mk_item VM_KERNEL_MEMORY_PADDING (align_value_to_page THREAD_DEFAULT_STACK_SIZE) stack_flags).
Proof.
  unfold stack_vmm, booked. eexists. split; [cbn [containers set_vmm_vm]; rewrite containers_with_info; apply lookup_insert_eq|].
  apply lookup_insert_eq.
Qed.
End Program.

(** ** Witness *)

(** A manager that hands out [n] frames one after the other is a source of [n] pages. *)
Fixpoint gives `{PageConfig} (n : nat) (f : pmm_state) : bool :=
  match n with
  | O => true
  | Datatypes.S n' =>
      f.(pmm_initialized) && match pmm_alloc_frame f with Ret (a, f') => negb (a =? 0) && gives n' f' | _ => false end
  end.

Lemma gives_supplies `{PageConfig} (n : nat) : forall f : pmm_state, gives n f = true -> supplies n f.
Proof.
  induction n as [|n IH]; intros f Hg; [done|]. cbn [gives] in Hg. apply andb_prop in Hg as [Hi Hg].
  destruct (pmm_alloc_frame f) as [[a f']| |] eqn:E; [|done|done]. apply andb_prop in Hg as [Ha Hg].
  assert (a <> 0) as Ha0 by (by destruct (Z.eqb_spec a 0)). specialize (IH f' Hg). split; exists a, f'; [|done].
  split; [|done]. change (pmm_prepare_new_pagetable f = Ret (a, f')). unfold pmm_prepare_new_pagetable.
  by rewrite (bind_run get _ f f f eq_refl), Hi.
Qed.

(** Little-endian bytes. *)
Fixpoint le_bytes (n : nat) (x : Z) : list Z :=
  match n with O => [] | Datatypes.S n' => x mod 256 :: le_bytes n' (x / 256) end.

(** A program of one page of code, entered at 4 MiB: the header at 16 MiB of physical
    memory, the segment 2 MiB further. *)
Definition sample_elf : Z := 0xffff800281200000.
Definition sample_program : list Z :=
  _elf_header_mag ++ replicate 12 0 ++ le_bytes 2 2 ++ le_bytes 2 62 ++ le_bytes 4 1 ++ le_bytes 8 0x400000 ++ le_bytes 8 64 ++ le_bytes 8 0 ++
  le_bytes 4 0 ++ le_bytes 2 64 ++ le_bytes 2 56 ++ le_bytes 2 1 ++ le_bytes 2 0 ++ le_bytes 2 0 ++ le_bytes 2 0 ++
  le_bytes 4 1 ++ le_bytes 4 5 ++ le_bytes 8 0x200000 ++ le_bytes 8 0x400000 ++ le_bytes 8 0 ++ le_bytes 8 100 ++ le_bytes 8 100 ++ le_bytes 8 0x200000.
Definition spawn_memory : memory := list_to_map (zip (seqZ sample_elf (Z.of_nat (length sample_program))) sample_program).
(** The frame the new root table gets is cleared. *)
Definition spawn_vm : vm_state pmm_state := set_phys (cleared_page 0x200000 ∪ cleared_page 0xa00000) sample_vm.
Definition spawn_blocks : list block := [mk_block 0x40000000 0x200000 true].
Definition spawn_heap {V : Type} (v : V) : heap_state V :=
  mk_heap {[ 0x40000000 := mk_node 0x200000 true 0 0 ]} 0x40000000 0x40000000 0x40000000 v.
Definition spawn_kernel : kernel_state :=
  mk_kernel (spawn_heap (set_vmm_vm spawn_vm sample_vmm)) sample_sched ∅ spawn_memory 0x200000 0xffffffff80100000.
Definition spawn_garbage : garbage :=
  mk_garbage (sample_thread 0 NEW 0 0) (mk_cpu_status 0 0 0 0 0 0 0 0 0 0 0 0 0 0 0 0 0 0 0 0 0 0) (mk_task 0 [] 0 0 0 0 0 0 ALIVE 0) sample_info.

Definition after_block {A} (o : option (A * list block)) : list block := match o with Some (_, l) => l | None => [] end.
Definition b1 : list block := after_block (alloc_blocks (real_size sizeof_task_t) spawn_blocks).
Definition b2 : list block := after_block (alloc_blocks (real_size sizeof_thread_t) b1).
Definition b3 : list block := after_block (alloc_blocks (real_size sizeof_cpu_status_t) b2).
Definition b4 : list block := after_block (alloc_blocks (real_size THREAD_DEFAULT_STACK_SIZE) b3).
Definition spawn_frames : pmm_state :=
  match @pmm_alloc_frame large_pages spawn_vm.(frames) with Ret (_, f) => f | _ => sample_pmm end.
Definition sample_ehdr : Elf64_Ehdr :=
  match load_ehdr sample_elf spawn_memory with Ret (h, _) => h | _ => mk_ehdr [] 0 0 0 0 0 0 0 0 0 0 0 0 0 end.
Definition spawn_phdr : Elf64_Phdr := mk_phdr 1 5 0x200000 0x400000 0 100 100 0x200000.

Lemma spawn_page R i : R = 0x200000 \/ R = 0xa00000 -> 0 <= i < 512 -> spawn_vm.(phys) !! (R + 8 * i) = Some 0.
Proof.
  intros HR Hi. change (phys spawn_vm) with (cleared_page 0x200000 ∪ cleared_page 0xa00000).
  destruct HR as [-> | ->]; [by apply lookup_union_Some_l, cleared_page_lookup|].
  rewrite lookup_union_r; [by apply cleared_page_lookup|]. unfold cleared_page. apply not_elem_of_list_to_map_1.
  intros (x & E & Hx)%list_elem_of_fmap. apply list_elem_of_fmap in Hx as (j & -> & Hj%elem_of_seqZ). simpl in E. lia.
Qed.

Lemma spawn_vm_ok : @vm_ok large_pages pmm_state _ (@pmm_frame_source_laws large_pages) {[0x200000]} 0x200000 spawn_vm.
Proof.
  apply (vm_ok_phys _ _ sample_vm); [exact sample_vm_ok|].
  apply cleared_root_tree; [done|lia|simpl; lia|set_solver|]. intros i Hi. apply spawn_page; [by left|done].
Qed.

Lemma spawn_heap_inv {V : Type} (v : V) : heap_inv (spawn_heap v) spawn_blocks.
Proof.
  split; [split; [done|split; [|split; [done|]]]|done].
  - simpl. split; [vm_compute; reflexivity|done].
  - apply blocks_ok_one. unfold block_ok, b_end, header_size; simpl; lia.
Qed.

Lemma spawn_task_ready : @task_ready large_pages spawn_kernel [105; 110; 105; 116] spawn_blocks b1 0x40000000 {[0x200000]} 0xa00000 spawn_frames 7.
Proof.
  constructor.
  - apply spawn_heap_inv.
  - vm_compute. reflexivity.
  - done.
  - exact spawn_vm_ok.
  - vm_compute. reflexivity.
  - done.
  - intros i Hi. apply spawn_page; [by right|done].
  - split; vm_compute; discriminate.
  - apply (@gives_supplies large_pages 11). vm_compute. reflexivity.
Qed.

Lemma spawn_program_bytes : present spawn_memory sample_elf (Z.of_nat (length sample_program)).
Proof. apply present_check_ok. vm_compute. reflexivity. Qed.

Lemma spawn_header : load_ehdr sample_elf spawn_memory = Ret (sample_ehdr, spawn_memory).
Proof.
  destruct (load_ehdr_reads spawn_memory sample_elf) as [h E]; [|unfold sample_ehdr; by rewrite E].
  intros i Hi. apply spawn_program_bytes. change (Z.of_nat (length sample_program)) with 120. lia.
Qed.

Lemma spawn_segment : load_phdr (phdr_address sample_elf sample_ehdr 0) spawn_memory = Ret (spawn_phdr, spawn_memory).
Proof.
  assert (phdr_address sample_elf sample_ehdr 0 = sample_elf + 64) as -> by (vm_compute; reflexivity).
  destruct (load_phdr_reads spawn_memory (sample_elf + 64) sample_elf 120 spawn_program_bytes) as [p E]; [lia|lia|].
  assert (match load_phdr (sample_elf + 64) spawn_memory with Ret (p, _) => p | _ => sample_phdr end = spawn_phdr) as Ep by (vm_compute; reflexivity).
  rewrite E in Ep. by rewrite E, Ep.
Qed.

Lemma spawn_ready : @program_ready large_pages spawn_kernel [105; 110; 105; 116] sample_elf sample_ehdr [spawn_phdr] spawn_blocks b1 b2 b3 b4
  0x40000000 1073743120 1073743312 1073743568 {[0x200000]} 0xa00000 spawn_frames.
Proof.
  assert (@program_pages large_pages sample_elf spawn_vm [spawn_phdr] = [(0x400000, 0x1200085)]) as Epg by (vm_compute; reflexivity).
  constructor.
  - exact spawn_task_ready.
  - vm_compute. reflexivity.
  - vm_compute. reflexivity.
  - vm_compute. reflexivity.
  - split; [done|exact spawn_header].
  - reflexivity.
  - intros [|j] phdr Hj; [|done]. injection Hj as <-. exact spawn_segment.
  - constructor; [|constructor]. constructor; try (vm_compute; split_and?; (reflexivity || discriminate)).
    intros u e Hu. change (@segment_pages large_pages sample_elf (tables spawn_kernel) spawn_phdr) with [(0x400000, 0x1200085)] in Hu.
    apply list_elem_of_singleton in Hu. injection Hu as -> ->. by compute.
  - change (tables spawn_kernel) with spawn_vm. rewrite Epg. apply NoDup_singleton.
  - intros u e j. change (tables spawn_kernel) with spawn_vm. rewrite Epg. intros Hu%list_elem_of_singleton Hj. injection Hu as -> ->.
    assert (j = 0) as -> by (change (@stack_count large_pages) with 1 in Hj; lia). vm_compute. by intros [_ ?].
Qed.

Lemma create_task_from_elf_spawns_witness : exists s',
  @create_task_from_elf large_pages spawn_garbage [105; 110; 105; 116] 0 sample_elf spawn_kernel = Ret (0x40000020, s') /\
  s'.(ks_sched).(thread_list) = 1073743152 /\ @mapping large_pages (tables s').(phys) 0xa00000 0x400000 = Some 0x1200085.
Proof.
  destruct (@create_task_from_elf_spawns large_pages spawn_kernel spawn_garbage [105; 110; 105; 116] sample_elf sample_ehdr [spawn_phdr]
    spawn_blocks b1 b2 b3 b4 0x40000000 1073743120 1073743312 1073743568 {[0x200000]} 0xa00000 spawn_frames 0 spawn_ready)
    as (s' & Hrun & _ & _ & Hlist & _ & Hpages & _).
  exists s'. split; [exact Hrun|]. split; [exact Hlist|]. apply Hpages. vm_compute. left.
Defined.
