(* ===== verification/SchedRun.v ===== *)
(** Runs of the scheduler of [kernel/scheduling/scheduler.c]: what holds after any
    sequence of timer interrupts and of what threads do. *)
From S2P Require Import Prelude VmmUtil Mmap Bitmap Pmm Kheap Paging Boot Vmm Scheduler CString Elf Task.

Section Run.
Context `{PageConfig}.
Implicit Types (s : sched_state) (l : list Z) (t : thread_t) (p x : Z).

(** The list of threads is whole, the thread that runs and the idle thread are in it,
    the idle thread is not dead, and every thread has a frame to resume from. *)
Record sched_good s l : Prop := {
  sd_queue : queue s l;
  sd_current : s.(current_executing_thread) ∈ l;
  sd_idle : s.(idle_thread) ∈ l;
  sd_alive : is_dead s.(threads) s.(idle_thread) = false;
  sd_frames : forall p t, p ∈ l -> s.(threads) !! p = Some t -> t.(execution_frame) <> 0;
}.

(** What happens to the scheduler: a timer interrupt, a thread (not the idle one) that
    sleeps, loops at its end or exits by a system call, a thread that is created. *)
Inductive sched_step : sched_state -> sched_state -> Prop :=
| step_timer s frame r s' : frame <> 0 -> timer_interrupt frame s = Ret (r, s') -> sched_step s s'
| step_sleep s millis s' :
    s.(current_executing_thread) <> s.(idle_thread) -> thread_sleep_until millis s = Ret (tt, s') -> sched_step s s'
| step_exit s s' :
    s.(current_executing_thread) <> s.(idle_thread) -> thread_suicide_trap s = Ret (tt, s') -> sched_step s s'
| step_exit_call s exit_status frame r s' :
    s.(current_executing_thread) <> s.(idle_thread) -> frame <> 0 ->
    (do! thread_exit exit_status in schedule frame) s = Ret (r, s') -> sched_step s s'
| step_create s l p t s' :
    queue s l -> p ∉ l -> p <> 0 -> Z.of_nat (length l) + 1 < 2 ^ 64 ->
    (forall q u, q ∈ l -> s.(threads) !! q = Some u -> u.(tid) <> t.(tid)) ->
    t.(parent_task) <> 0 -> is_Some (s.(tasks) !! t.(parent_task)) -> t.(execution_frame) <> 0 ->
    (do! write_thread p t in scheduler_add_thread p) s = Ret (tt, s') -> sched_step s s'.

Inductive sched_run : sched_state -> Prop :=
| sched_start s l : sched_good s l -> sched_run s
| sched_next s s' : sched_run s -> sched_step s s' -> sched_run s'.

Lemma queue_lookup s l p : queue s l -> p ∈ l -> p <> 0 /\ exists t, s.(threads) !! p = Some t.
Proof. intros Hq Hp. exact (chain_lookup _ _ _ _ (queue_chain _ _ Hq) Hp). Qed.

Lemma chain_unique m : forall l1 l2 p, chain m p l1 -> chain m p l2 -> l1 = l2.
Proof.
  induction l1 as [|x l1 IH]; intros [|y l2] p H1 H2; [done| | |].
  - destruct H2 as (-> & H2 & _). by simpl in H1.
  - destruct H1 as (-> & H1 & _). by simpl in H2.
  - destruct H1 as (-> & _ & t & Ht & H1), H2 as (-> & _ & u & Hu & H2). rewrite Ht in Hu. injection Hu as <-.
    f_equal. by apply (IH l2 t.(thread_next)).
Qed.

(** A change of one thread that keeps its links and its frame. *)
Lemma good_update s l p t t' :
  sched_good s l -> s.(threads) !! p = Some t ->
  t'.(thread_next) = t.(thread_next) -> t'.(tid) = t.(tid) -> t'.(parent_task) = t.(parent_task) ->
  t'.(execution_frame) <> 0 -> (p = s.(idle_thread) -> t'.(status) <> DEAD) ->
  sched_good (set_threads (<[p := t']> s.(threads)) s) l.
Proof.
  intros [Hq Hc Hi Ha Hf] Hp En Ei Ep Hf' Hd. constructor; try done.
  - by apply (queue_update s l p t).
  - simpl. unfold is_dead. destruct (decide (p = s.(idle_thread))) as [->|Hne].
    + rewrite lookup_insert_eq. apply bool_decide_eq_false. by apply Hd.
    + rewrite lookup_insert_ne by done. exact Ha.
  - simpl. intros q u Hq' Hu. destruct (decide (p = q)) as [->|Hne].
    + rewrite lookup_insert_eq in Hu. by injection Hu as <-.
    + rewrite lookup_insert_ne in Hu by done. by apply (Hf q).
Qed.

Lemma good_clock s l k u : sched_good s l -> sched_good (set_clock k u s) l.
Proof. intros [[] ? ? ? ?]. by constructor. Qed.

Lemma is_dead_status m p t : m !! p = Some t -> is_dead m p = bool_decide (t.(status) = DEAD).
Proof. unfold is_dead. by intros ->. Qed.

Lemma dead_prefix_dead m order p : p ∈ dead_prefix m order -> is_dead m p = true.
Proof.
  induction order as [|q order IH]; simpl; [intros Hp; by apply elem_of_nil in Hp|].
  destruct (is_dead m q) eqn:Hq; [|intros Hp; by apply elem_of_nil in Hp]. intros [->|Hp]%elem_of_cons; auto.
Qed.

Lemma pick_alive m now idle order : is_dead m idle = false -> is_dead m (pick m now idle order) = false.
Proof.
  intros Hi. unfold pick. destruct (alive_rest m order) as [|p r]; [done|].
  destruct (m !! p) as [t|] eqn:Hp; [|done]. destruct (runnable now t) eqn:Hr; [|done].
  rewrite (is_dead_status m p t Hp). apply bool_decide_eq_false. intros Hd. unfold runnable in Hr. by rewrite Hd in Hr.
Qed.

Lemma preempted_frame frame t : frame <> 0 -> t.(execution_frame) <> 0 -> (preempted frame t).(execution_frame) <> 0.
Proof. intros Hf Ht. unfold preempted. repeat case_decide; done. Qed.

(** The thread that runs gives way: another one that is alive runs, from its frame, and
    the threads change only as [schedule] says. *)
Definition switched s frame t (r : Z) s' : Prop :=
  r <> 0 /\ is_dead (<[s.(current_executing_thread) := preempted frame t]> s.(threads)) s'.(current_executing_thread) = false /\
  (exists tx, s'.(threads) !! s'.(current_executing_thread) = Some tx /\ tx.(execution_frame) = r /\ tx.(status) = RUN) /\
  unlinked s'.(threads) = unlinked (alter running s'.(current_executing_thread) (<[s.(current_executing_thread) := preempted frame t]> s.(threads))).

Lemma good_switch s l frame t : sched_good s l -> frame <> 0 -> s.(threads) !! s.(current_executing_thread) = Some t ->
  bool_decide (t.(status) <> SLEEP) && (t.(ticks) <? SCHEDULER_NUMBER_OF_TICKS) = false ->
  exists r s' l', schedule frame s = Ret (r, s') /\ sched_good s' l' /\ switched s frame t r s'.
Proof.
  intros Hg Hframe Ht Hgive. pose proof Hg as [Hq Hc Hi Ha Hf]. set (c := s.(current_executing_thread)) in *. set (idle := s.(idle_thread)) in *.
  destruct (queue_lookup s l idle Hq Hi) as (Hi0 & ti & Hti).
  pose proof Hc as Hcl. apply list_elem_of_split in Hc as (l1 & l2 & ->).
  assert (ti.(status) <> DEAD) as Hid by (rewrite (is_dead_status _ _ _ Hti) in Ha; by apply bool_decide_eq_false in Ha).
  pose proof (schedule_cases s frame l1 c l2 idle t ti Hq eq_refl Ht eq_refl Hi Hti Hid) as Hcases.
  rewrite Hgive in Hcases. cbv zeta in Hcases. set (m := <[c := preempted frame t]> s.(threads)) in *. set (x := pick _ _ _ _) in *. set (d := dead_prefix _ _) in *.
  destruct Hcases as (tx & k & Htx & Hk & Hrun).
  assert (forall p u, p ∈ l1 ++ c :: l2 -> m !! p = Some u -> u.(execution_frame) <> 0) as Hmf.
  { intros p u Hp Hu. unfold m in Hu. destruct (decide (c = p)) as [<-|Hne].
    - rewrite lookup_insert_eq in Hu. injection Hu as <-. apply preempted_frame; [done|]. exact (Hf c t Hcl Ht).
    - rewrite lookup_insert_ne in Hu by done. by apply (Hf p). }
  assert (is_dead m idle = false) as Hma.
  { unfold m. destruct (decide (c = idle)) as [E|Hne].
    - rewrite E in Ht |- *. unfold is_dead. rewrite lookup_insert_eq. apply bool_decide_eq_false.
      apply preempted_same. assert (t = ti) as -> by congruence. exact Hid.
    - unfold is_dead. rewrite lookup_insert_ne by done. exact Ha. }
  assert (x ∈ l1 ++ c :: l2) as Hx.
  { destruct (pick_in m s.(kernel_uptime) idle (l2 ++ l1)) as [E|Hp]; unfold x; [by rewrite E|]. set_solver. }
  pose proof (pick_alive m s.(kernel_uptime) idle (l2 ++ l1) Hma) as Hxa. fold x in Hxa.
  destruct (Hrun (Hmf x tx Hx Htx)) as (s' & Hs & Hq' & Hun & _ & ml & ts & h & n & Es').
  assert (s'.(current_executing_thread) = x) as Ex by (by rewrite Es').
  assert (forall p, is_dead s'.(threads) p = is_dead (alter running x m) p) as Hdead by (intros; by apply is_dead_unlinked).
  exists tx.(execution_frame), s', (filter (.∉ d) (l1 ++ c :: l2)). split; [exact Hs|]. split; [constructor; [done| | | |]|].
  - rewrite Es'. simpl. apply list_elem_of_filter. split; [|done]. intros Hd%dead_prefix_dead. congruence.
  - rewrite Es'. simpl. fold idle. apply list_elem_of_filter. split; [|done]. intros Hd%dead_prefix_dead. congruence.
  - rewrite Hdead, Es'. simpl. fold idle. unfold is_dead. destruct (decide (x = idle)) as [E|Hne].
    + rewrite E, lookup_alter_eq. by destruct (m !! idle).
    + rewrite lookup_alter_ne by done. exact Hma.
  - intros p u [_ Hp]%list_elem_of_filter Hu. symmetry in Hun.
    destruct (unlinked_lookup s'.(threads) (alter running x m) p u Hun Hu) as (nx & Hal).
    destruct (decide (x = p)) as [E|Hne].
    + rewrite E, lookup_alter_eq in Hal. destruct (m !! p) as [v|] eqn:Hv; [|done]. apply (f_equal (option_map execution_frame)) in Hal.
      simpl in Hal. injection Hal as <-. exact (Hmf p v Hp Hv).
    + rewrite lookup_alter_ne in Hal by done. exact (Hmf p _ Hp Hal).
  - unfold switched. fold c. rewrite Ex. fold m. assert (alter running x m !! x = Some (running tx)) as Hax by by rewrite lookup_alter_eq, Htx.
    split; [by apply (Hmf x)|]. split; [exact Hxa|]. split; [|exact Hun].
    destruct (unlinked_lookup (alter running x m) s'.(threads) x (running tx) Hun Hax) as (nx & Hx'). eexists. split; [exact Hx'|]. done.
Qed.

Lemma good_schedule s l frame : sched_good s l -> frame <> 0 ->
  exists r s' l', schedule frame s = Ret (r, s') /\ r <> 0 /\ sched_good s' l'.
Proof.
  intros Hg Hframe. pose proof Hg as [Hq Hc Hi Ha Hf].
  destruct (queue_lookup s l _ Hq Hc) as (Hc0 & t & Ht). destruct (queue_lookup s l _ Hq Hi) as (Hi0 & ti & Hti).
  destruct (bool_decide (t.(status) <> SLEEP) && (t.(ticks) <? SCHEDULER_NUMBER_OF_TICKS)) eqn:E.
  - pose proof E as E'. apply andb_true_iff in E' as [E1%bool_decide_eq_true E2%Z.ltb_lt].
    eexists _, _, l. split; [by apply (schedule_continues s frame s.(current_executing_thread) t)|]. split; [done|].
    apply (good_update s _ _ t); try done; [exact (Hf _ t Hc Ht)|]. intros Ei. simpl.
    rewrite <- Ei, (is_dead_status _ _ _ Ht) in Ha. by apply bool_decide_eq_false in Ha.
  - destruct (good_switch s l frame t Hg Hframe Ht E) as (r & s' & l' & Hrun & Hg' & Hr & _). by exists r, s', l'.
Qed.

Lemma good_timer s l frame : sched_good s l -> frame <> 0 ->
  exists r s' l', timer_interrupt frame s = Ret (r, s') /\ r <> 0 /\ sched_good s' l'.
Proof.
  intros Hg Hf. unfold timer_interrupt, modify. rewrite (bind_run _ _ s tt _ eq_refl).
  destruct (good_schedule _ l frame (good_clock s l (u16 (s.(scheduler_ticks) + 1)) s.(kernel_uptime) Hg) Hf) as (r & s1 & l1 & Hrun & Hr & Hg1).
  rewrite (bind_run _ _ _ _ _ Hrun), (bind_run _ _ s1 tt _ eq_refl). eexists _, _, l1. split; [done|]. split; [done|].
  by apply good_clock.
Qed.

(** A thread alone on the list, which runs and is the idle one. *)
Lemma good_first s p t :
  p <> 0 -> s.(thread_list) = p -> s.(thread_list_size) = 1 -> s.(current_executing_thread) = p -> s.(idle_thread) = p ->
  s.(threads) !! p = Some t -> t.(thread_next) = 0 -> t.(status) <> DEAD -> t.(execution_frame) <> 0 ->
  t.(parent_task) <> 0 -> is_Some (s.(tasks) !! t.(parent_task)) -> sched_good s [p].
Proof.
  intros Hp El En Ec Ei Ht Hnext Hst Hf Hk0 Hk. constructor.
  - constructor.
    + simpl. split; [done|]. split; [done|]. by exists t.
    + apply NoDup_singleton.
    + done.
    + simpl. lia.
    + by intros q1 q2 t1 t2 ->%list_elem_of_singleton ->%list_elem_of_singleton.
    + intros q u ->%list_elem_of_singleton Hu. rewrite Ht in Hu. by injection Hu as <-.
  - rewrite Ec. by left.
  - rewrite Ei. by left.
  - rewrite Ei, (is_dead_status _ _ _ Ht). by apply bool_decide_eq_false.
  - intros q u ->%list_elem_of_singleton Hu. rewrite Ht in Hu. by injection Hu as <-.
Qed.

(** A thread more at the head of the list; the tasks there were are kept. *)
Lemma good_added s l p t s' :
  sched_good s l -> p ∉ l -> p <> 0 -> Z.of_nat (length l) + 1 < 2 ^ 64 ->
  (forall q u, q ∈ l -> s.(threads) !! q = Some u -> u.(tid) <> t.(tid)) ->
  t.(parent_task) <> 0 -> is_Some (s'.(tasks) !! t.(parent_task)) -> t.(execution_frame) <> 0 ->
  t.(thread_next) = s.(thread_list) -> s'.(threads) = <[p := t]> s.(threads) ->
  s'.(thread_list) = p -> s'.(thread_list_size) = u64 (s.(thread_list_size) + 1) ->
  s'.(current_executing_thread) = s.(current_executing_thread) -> s'.(idle_thread) = s.(idle_thread) ->
  (forall k, is_Some (s.(tasks) !! k) -> is_Some (s'.(tasks) !! k)) -> sched_good s' (p :: l).
Proof.
  intros [Hq Hc Hi Ha Hf] Hp Hp0 Hlen Htid Hk0 Hk Hft Hnext Eth El En Ec Ei Htasks. pose proof Hq as [Hch Hnd Hn Hs Ht Htk].
  assert (forall q u, q ∈ l -> s'.(threads) !! q = Some u -> s.(threads) !! q = Some u) as Hold
    by (intros q u Hin Hu; rewrite Eth, lookup_insert_ne in Hu by (by intros ->); exact Hu).
  assert (s'.(threads) !! p = Some t) as Hpt by (rewrite Eth; apply lookup_insert_eq).
  constructor.
  - constructor.
    + rewrite El. split; [done|]. split; [done|]. exists t. split; [done|]. rewrite Hnext.
      apply (chain_frame s.(threads)); [|exact Hch]. intros y Hy. by rewrite Eth, lookup_insert_ne by (by intros ->).
    + by apply NoDup_cons.
    + rewrite En, Hn, u64_small by lia. simpl. lia.
    + simpl. lia.
    + intros q1 q2 u1 u2 [->|H1]%elem_of_cons [->|H2]%elem_of_cons Hu1 Hu2 E; [done| | |].
      * rewrite Hpt in Hu1. injection Hu1 as <-. exfalso. exact (Htid _ _ H2 (Hold _ _ H2 Hu2) (eq_sym E)).
      * rewrite Hpt in Hu2. injection Hu2 as <-. exfalso. exact (Htid _ _ H1 (Hold _ _ H1 Hu1) E).
      * exact (Ht q1 q2 u1 u2 H1 H2 (Hold _ _ H1 Hu1) (Hold _ _ H2 Hu2) E).
    + intros q u [->|Hin]%elem_of_cons Hu; [rewrite Hpt in Hu; injection Hu as <-; split; [done|exact Hk]|].
      destruct (Htk q u Hin (Hold _ _ Hin Hu)) as [? Hex]. split; [done|]. apply Htasks. exact Hex.
  - rewrite Ec. by right.
  - rewrite Ei. by right.
  - rewrite Ei, Eth. unfold is_dead. rewrite lookup_insert_ne by (by intros ->). exact Ha.
  - intros q u [->|Hin]%elem_of_cons Hu; [rewrite Hpt in Hu; by injection Hu as <-|]. exact (Hf q u Hin (Hold _ _ Hin Hu)).
Qed.

(** A thread written behind the list and put at its head. *)
Lemma good_create s l p t s' :
  sched_good s l -> p ∉ l -> p <> 0 -> Z.of_nat (length l) + 1 < 2 ^ 64 ->
  (forall q u, q ∈ l -> s.(threads) !! q = Some u -> u.(tid) <> t.(tid)) ->
  t.(parent_task) <> 0 -> is_Some (s.(tasks) !! t.(parent_task)) -> t.(execution_frame) <> 0 ->
  (do! write_thread p t in scheduler_add_thread p) s = Ret (tt, s') -> sched_good s' (p :: l).
Proof.
  intros Hg Hp Hp0 Hlen Htid Hk0 Hk Hft Hrun. destruct (queue_lookup s l _ (sd_queue _ _ Hg) (sd_current _ _ Hg)) as [Hc0 _].
  unfold write_thread in Hrun. apply Z.eqb_neq in Hp0 as Hp1. rewrite Hp1 in Hrun.
  set (s1 := set_threads (<[p := t]> s.(threads)) s) in *.
  rewrite (bind_run (modify (fun s => set_threads (<[p := t]> s.(threads)) s)) _ s tt s1 eq_refl) in Hrun.
  unfold scheduler_add_thread in Hrun. rewrite (bind_run get _ s1 s1 s1 eq_refl) in Hrun.
  rewrite (bind_run _ _ _ _ _ (update_thread_run s1 p _ t Hp0 (lookup_insert_eq _ _ _))) in Hrun.
  set (s2 := set_threads _ s1) in Hrun. rewrite (bind_run (modify (set_list p (u64 (s1.(thread_list_size) + 1)))) _ s2 tt _ eq_refl) in Hrun.
  apply Z.eqb_neq in Hc0. change (current_executing_thread s1) with s.(current_executing_thread) in Hrun. rewrite Hc0 in Hrun.
  injection Hrun as <-. unfold s2. apply (good_added s l p (set_thread_next s.(thread_list) t)); try done.
  simpl. by rewrite insert_insert_eq.
Qed.

(** What the running thread does to itself. *)
Lemma good_current s l t f : sched_good s l -> s.(threads) !! s.(current_executing_thread) = Some t ->
  s.(current_executing_thread) <> s.(idle_thread) ->
  (f t).(thread_next) = t.(thread_next) -> (f t).(tid) = t.(tid) -> (f t).(parent_task) = t.(parent_task) ->
  (f t).(execution_frame) = t.(execution_frame) ->
  exists s', update_thread s.(current_executing_thread) f s = Ret (tt, s') /\ sched_good s' l /\
    s'.(current_executing_thread) = s.(current_executing_thread) /\ s'.(idle_thread) = s.(idle_thread) /\
    s'.(threads) !! s.(current_executing_thread) = Some (f t).
Proof.
  intros Hg Ht Hne E1 E2 E3 E4. destruct (queue_lookup s l _ (sd_queue _ _ Hg) (sd_current _ _ Hg)) as [Hc0 _].
  rewrite (update_thread_run s _ f t Hc0 Ht). eexists. split; [done|]. split; [|split; [done|split; [done|apply lookup_insert_eq]]].
  apply (good_update s l _ t); try done. rewrite E4. exact (sd_frames _ _ Hg _ t (sd_current _ _ Hg) Ht).
Qed.

(** A thread that exits gives way to another one, and stays dead with its exit code. *)
Lemma good_exit s l exit_status frame : sched_good s l -> s.(current_executing_thread) <> s.(idle_thread) -> frame <> 0 ->
  exists r s' l', (do! thread_exit exit_status in schedule frame) s = Ret (r, s') /\ sched_good s' l' /\ r <> 0 /\
    s'.(current_executing_thread) <> s.(current_executing_thread) /\
    (exists tx, s'.(threads) !! s'.(current_executing_thread) = Some tx /\ tx.(execution_frame) = r /\ tx.(status) = RUN) /\
    exists tc, s'.(threads) !! s.(current_executing_thread) = Some tc /\ tc.(status) = DEAD /\ tc.(thread_exit_code) = exit_status.
Proof.
  intros Hg Hne Hf. set (c := s.(current_executing_thread)) in *.
  destruct (queue_lookup s l c (sd_queue _ _ Hg) (sd_current _ _ Hg)) as (Hc0 & t & Ht).
  set (f t := mk_thread t.(tid) t.(thread_name) t.(stack) t.(parent_task) DEAD SCHEDULER_NUMBER_OF_TICKS t.(execution_frame)
      t.(wakeup_time) t.(next_sibling) t.(thread_next) t.(rsp0) exit_status).
  destruct (good_current s l t f Hg Ht Hne) as (s1 & Hrun1 & Hg1 & Ec & Ei & Ht1); [done..|]. fold c in Ec, Ht1.
  rewrite <- Ec in Ht1. destruct (good_switch s1 l frame (f t) Hg1 Hf Ht1 eq_refl) as (r & s' & l' & Hrun & Hg' & Hr & Hal & Hx & Hun).
  rewrite Ec in *. set (x := s'.(current_executing_thread)) in *. set (m := <[c := preempted frame (f t)]> s1.(threads)) in *.
  assert (is_dead m c = true) as Hdc by (unfold m, is_dead; rewrite lookup_insert_eq; reflexivity).
  assert (x <> c) as Hxc.
  { intros E. fold m in Hal. rewrite E in Hal. congruence. }
  exists r, s', l'. split; [|split; [exact Hg'|split; [exact Hr|split; [exact Hxc|split]]]].
  - assert (thread_exit exit_status s = Ret (tt, s1)) as E by exact Hrun1. by rewrite (bind_run _ _ _ _ _ E).
  - exact Hx.
  - assert (alter running x m !! c = Some (preempted frame (f t))) as Hac by (rewrite lookup_alter_ne by done; apply lookup_insert_eq).
    destruct (unlinked_lookup _ _ c _ Hun Hac) as (n & Hc'). eexists. split; [exact Hc'|]. done.
Qed.

Lemma step_good s l s' : sched_good s l -> sched_step s s' -> exists l', sched_good s' l'.
Proof.
  intros Hg Hstep. destruct (queue_lookup s l _ (sd_queue _ _ Hg) (sd_current _ _ Hg)) as (_ & t & Ht).
  destruct Hstep as [s frame r s' Hf Hrun|s millis s' Hne Hrun|s s' Hne Hrun|s code frame r s' Hne Hf Hrun|s l0 p u s' Hq Hp Hp0 Hlen Htid Hk0 Hk Hfu Hrun].
  - destruct (good_timer s l frame Hg Hf) as (r1 & s1 & l1 & Hrun1 & _ & Hg1). rewrite Hrun in Hrun1. injection Hrun1 as <- <-. by exists l1.
  - unfold thread_sleep_until in Hrun. rewrite (bind_run get _ s s s eq_refl) in Hrun.
    destruct (good_current s l t (set_status SLEEP) Hg Ht Hne) as (s1 & Hrun1 & Hg1 & Ec & Ei & Ht1); [done..|].
    rewrite (bind_run _ _ _ _ _ Hrun1) in Hrun. rewrite (bind_run _ _ s1 s1.(kernel_uptime) s1 eq_refl) in Hrun.
    rewrite <- Ec in Hrun, Ht1. rewrite <- Ec, <- Ei in Hne.
    destruct (good_current s1 l _ (set_wakeup_time (u64 (s1.(kernel_uptime) + millis))) Hg1 Ht1 Hne) as (s2 & Hrun2 & Hg2 & _); [done..|].
    rewrite Hrun in Hrun2. injection Hrun2 as <-. by exists l.
  - unfold thread_suicide_trap in Hrun. rewrite (bind_run get _ s s s eq_refl) in Hrun.
    destruct (good_current s l t (set_status DEAD) Hg Ht Hne) as (s1 & Hrun1 & Hg1 & _); [done..|].
    rewrite Hrun in Hrun1. injection Hrun1 as <-. by exists l.
  - destruct (good_exit s l code frame Hg Hne Hf) as (r1 & s1 & l1 & Hrun1 & Hg1 & _). rewrite Hrun in Hrun1. injection Hrun1 as _ <-. by exists l1.
  - assert (l0 = l) as -> by exact (chain_unique _ _ _ _ (queue_chain _ _ Hq) (queue_chain _ _ (sd_queue _ _ Hg))).
    exists (p :: l). by apply (good_create s l p u).
Qed.

Lemma sched_run_good s : sched_run s -> exists l, sched_good s l.
Proof. induction 1 as [s l Hg|s s' _ [l Hg] Hstep]; [by exists l|by apply (step_good s l)]. Qed.

(** After any sequence of timer interrupts, of threads that sleep, end, exit by a
    system call or are created, the list of threads is whole and holds the thread that runs and the idle
    thread, which is alive; and the next timer interrupt finds a thread with a frame
    to resume: the scheduler never runs out of threads, loops for ever, or follows a
    dangling link. *)
Theorem timer_always_schedules s : sched_run s ->
  (exists l, queue s l /\ s.(current_executing_thread) ∈ l /\ s.(idle_thread) ∈ l /\ is_dead s.(threads) s.(idle_thread) = false) /\
  forall frame, frame <> 0 -> exists r s', timer_interrupt frame s = Ret (r, s') /\ r <> 0.
Proof.
  intros [l Hg]%sched_run_good. split; [exists l; by destruct Hg|]. intros frame Hf.
  destruct (good_timer s l frame Hg Hf) as (r & s' & _ & Hrun & Hr & _). by exists r, s'.
Qed.
End Run.

(** ** Witness *)

Lemma sample_good : sched_good sample_sched [0x10; 0x20; 0x30; 0x40].
Proof.
  constructor; [exact sample_queue|left|by do 3 right; left|reflexivity|].
  intros p t _ Ht%sample_threads.
  repeat (apply elem_of_cons in Ht as [Ht|Ht]; [injection Ht as -> ->; discriminate|]). by apply not_elem_of_nil in Ht.
Qed.

(** The running thread goes to sleep and the timer comes. *)
Lemma timer_always_schedules_witness : exists s,
  thread_sleep_until 10 sample_sched = Ret (tt, s) /\ exists r s', timer_interrupt 0x5000 s = Ret (r, s') /\ r <> 0.
Proof.
  eexists. split; [vm_compute; reflexivity|].
  match goal with |- exists r s', timer_interrupt _ ?s = _ /\ _ =>
    assert (sched_run s) as Hrun by
      (apply (sched_next sample_sched); [by apply (sched_start _ _ sample_good)|apply (step_sleep sample_sched 10); [discriminate|vm_compute; reflexivity]])
  end.
  destruct (timer_always_schedules _ Hrun) as [_ H]. apply (H 0x5000). discriminate.
Defined.
