(* ===== verification/Vfs.v ===== *)
(** The file systems: [drivers/fs/ustar.c], [fs/vfs.c], [fs/vnode.c], [fs/fcntl.c],
    [libc/unistd.c] and [octascii_to_dec] of [utils/utils.c]. Archives, paths and the
    strings of the mount points are in the memory of [CString]. *)
From S2P Require Import Prelude CString.

Definition octascii_step (number n converted i : Z) : M memory (Z * Z) :=
  let! c := load (number + i) in
  ret (i32 (converted + i32 (i8 c - 0x30) * n), i32 (8 * n)).
(** The digits at [size - 2] down to 0; [k] of them are left. *)
Fixpoint octascii_loop (k : nat) (number n converted : Z) : M memory Z :=
  match k with
  | O => ret converted
  | Datatypes.S k' =>
      let! r := octascii_step number n converted (Z.of_nat k') in
      octascii_loop k' number (snd r) (fst r)
  end.
Definition octascii_to_dec (number size : Z) : M memory Z := octascii_loop (Z.to_nat (size - 1)) number 1 0.

(** ** The archive *)

(** Offsets in [struct ustar_item]. *)
Definition file_size_offset : Z := 124.
Definition typeflag_offset : Z := 156.
Definition USTAR_FILESIZE_SIZE : Z := 12.
Definition HEADER_SIZE : Z := 512.

Inductive vnode_types : Type :=
| V_NONE
| V_REGULAR_FILE
| V_DIR
| V_BAD.

Definition ustar_get_type (type : Z) : vnode_types :=
  if type =? 48 then V_REGULAR_FILE else if type =? 53 then V_DIR else V_BAD.

Definition ustar_get_file_start (file_item : Z) : Z := if negb (file_item =? 0) then file_item + HEADER_SIZE else 0.

(** [ustar_is_zeroed] reads words; a word is not zero when one of its bytes is not. *)
Definition load_word (a : Z) : M memory bool :=
  let fix bytes (n : nat) (a : Z) : M memory bool :=
    match n with
    | O => ret true
    | Datatypes.S n' => let! c := load a in let! r := bytes n' (a + 1) in ret ((c =? 0) && r)
    end in
  bytes 8%nat a.
Fixpoint is_zeroed_loop (n : nat) (a : Z) : M memory bool :=
  match n with
  | O => ret true
  | Datatypes.S n' => let! z := load_word a in if negb z then ret false else is_zeroed_loop n' (a + 8)
  end.
Definition ustar_is_zeroed (tar_item : Z) : M memory bool := is_zeroed_loop 64 tar_item.

(** The bytes a file takes in the archive, with its header. *)
Definition ustar_stride (filesize : Z) : Z := i32 (i32 (Z.quot (i32 (filesize + 511)) 512 + 1) * 512).

(** The loop of [ustar_seek]. *)
Fixpoint ustar_seek_loop (fuel : nat) (filename tar_item n_zero_items : Z) : M memory Z :=
  match fuel with
  | O => diverge
  | Datatypes.S fuel' =>
      if n_zero_items <? 2 then
        let! z := ustar_is_zeroed tar_item in
        if z then ustar_seek_loop fuel' filename tar_item (n_zero_items + 1)
        else
          let! filesize := octascii_to_dec (tar_item + file_size_offset) 12 in
          let! r := strcmp filename tar_item in
          if r =? 0 then ret tar_item
          else ustar_seek_loop fuel' filename (tar_item + ustar_stride filesize) n_zero_items
      else ret 0
  end.
(** A header is 512 bytes, so that the memory bounds the headers there are. *)
Definition seek_fuel : M memory nat := gets (fun m => (stdpp.base.size m + 4)%nat).
Definition ustar_seek (filename tar_root : Z) : M memory Z :=
  let! fuel := seek_fuel in ustar_seek_loop fuel filename tar_root 0.

(** [ustar_find]: the count and what is written through [tar_out]. *)
Fixpoint ustar_find_loop (fuel : nat) (filename tar_item n_zero_items counter : Z) : M memory (Z * Z) :=
  match fuel with
  | O => diverge
  | Datatypes.S fuel' =>
      if n_zero_items <? 2 then
        let! z := ustar_is_zeroed tar_item in
        if z then ustar_find_loop fuel' filename tar_item (n_zero_items + 1) (u32 (counter + 1))
        else
          let! filesize := octascii_to_dec (tar_item + file_size_offset) 12 in
          let! r := strcmp filename tar_item in
          if r =? 0 then ret (counter, tar_item)
          else ustar_find_loop fuel' filename (tar_item + ustar_stride filesize) 0 (u32 (counter + 1))
      else ret (-1, 0)
  end.
Definition ustar_find (filename tar_root : Z) : M memory (Z * Z) :=
  let! fuel := seek_fuel in ustar_find_loop fuel filename tar_root 0 0.

(** ** The state of the virtual file system *)

Definition MOUNTPOINTS_MAX : Z := 5.
Definition OPENEDFILES_MAX : Z := 5.
Definition EOPEN_ERROR : Z := -1.

(** A file operation: NULL, or the one of the ustar driver. *)
Inductive operation : Type :=
| no_operation
| ustar_operation.

Record fs_file_operations_t : Type := mk_operations {
  op_open : operation;
  op_close : operation;
  op_read : operation;
}.

(** A mount point; its strings are in memory, [sizeof_mountpoint_t] bytes apart. *)
Record mountpoint_t : Type := mk_mountpoint {
  lookup_operation : operation;
  file_operations : fs_file_operations_t;
}.
Definition sizeof_mountpoint_t : Z := 136.
Definition FILESYSTEM_NAME_LEN : Z := 32.

(** [vfs_root] is the index of the mount point. *)
Record vnode_t : Type := mk_vnode {
  vnode_size : Z;
  refcount : Z;
  v_type : vnode_types;
  vfs_root : option Z;
  v_data : Z;
}.

(** [mountpoints_address] is the address of the array [mountpoints]. *)
Record vfs_state : Type := mk_vfs {
  vfs_memory : memory;
  mountpoints_address : Z;
  mountpoints : list mountpoint_t;
  vnode_cache : list vnode_t;
  vnode_index : Z;
  mountpoint_index : Z;
  ustar_root_item : Z;
}.

Definition set_vfs_memory (m : memory) (s : vfs_state) : vfs_state :=
  mk_vfs m s.(mountpoints_address) s.(mountpoints) s.(vnode_cache) s.(vnode_index) s.(mountpoint_index) s.(ustar_root_item).
Definition set_mountpoints (l : list mountpoint_t) (s : vfs_state) : vfs_state :=
  mk_vfs s.(vfs_memory) s.(mountpoints_address) l s.(vnode_cache) s.(vnode_index) s.(mountpoint_index) s.(ustar_root_item).
Definition set_vnodes (l : list vnode_t) (s : vfs_state) : vfs_state :=
  mk_vfs s.(vfs_memory) s.(mountpoints_address) s.(mountpoints) l s.(vnode_index) s.(mountpoint_index) s.(ustar_root_item).
Definition set_indices (v m : Z) (s : vfs_state) : vfs_state :=
  mk_vfs s.(vfs_memory) s.(mountpoints_address) s.(mountpoints) s.(vnode_cache) v m s.(ustar_root_item).
Definition set_ustar_root (a : Z) (s : vfs_state) : vfs_state :=
  mk_vfs s.(vfs_memory) s.(mountpoints_address) s.(mountpoints) s.(vnode_cache) s.(vnode_index) s.(mountpoint_index) a.

Definition in_bytes {A} (m : M memory A) : M vfs_state A := zoom vfs_memory set_vfs_memory m.

Definition ustar_driver_init (ustar_root_address : Z) : M vfs_state unit := modify (set_ustar_root ustar_root_address).

(** The entries of the arrays; an index past the end is past the object. *)
Definition read_vnode (i : Z) : M vfs_state vnode_t :=
  let! s := get in if i <? 0 then throw OutOfBounds else lift_opt OutOfBounds (s.(vnode_cache) !! Z.to_nat i).
Definition write_vnode (i : Z) (v : vnode_t) : M vfs_state unit :=
  let! _ := read_vnode i in modify (fun s => set_vnodes (<[Z.to_nat i := v]> s.(vnode_cache)) s).
Definition read_mountpoint (i : Z) : M vfs_state mountpoint_t :=
  let! s := get in if i <? 0 then throw OutOfBounds else lift_opt OutOfBounds (s.(mountpoints) !! Z.to_nat i).
Definition write_mountpoint (i : Z) (p : mountpoint_t) : M vfs_state unit :=
  let! _ := read_mountpoint i in modify (fun s => set_mountpoints (<[Z.to_nat i := p]> s.(mountpoints)) s).

(** The addresses of the strings of a mount point. *)
Definition name_address (base i : Z) : Z := base + sizeof_mountpoint_t * i.
Definition path_address (base i : Z) : Z := base + sizeof_mountpoint_t * i + FILESYSTEM_NAME_LEN.

(** [strcpy] from a string literal. *)
Fixpoint store_string (a : Z) (l : list Z) : M memory unit :=
  match l with
  | [] => store a 0
  | c :: l' => do! store a c in store_string (a + 1) l'
  end.

Definition no_operations : fs_file_operations_t := mk_operations no_operation no_operation no_operation.
Definition ustar_operations : fs_file_operations_t := mk_operations ustar_operation ustar_operation ustar_operation.

(** ["ArrayFS"], ["ustar"] and the paths of [vfs_init]. *)
Definition str_ArrayFS : list Z := [65; 114; 114; 97; 121; 70; 83].
Definition str_ustar : list Z := [117; 115; 116; 97; 114].
Definition str_root : list Z := [47].
Definition str_home_mount : list Z := [47; 104; 111; 109; 101; 47; 109; 111; 117; 110; 116].
Definition str_usr : list Z := [47; 117; 115; 114].
Definition str_external : list Z := [47; 101; 120; 116; 101; 114; 110; 97; 108].

Definition vfs_init : M vfs_state unit :=
  let! s := get in
  let base := s.(mountpoints_address) in
  do! for_upto MOUNTPOINTS_MAX (fun i =>
        do! in_bytes (store_string (name_address base i) []) in
        do! in_bytes (store_string (path_address base i) []) in
        let! p := read_mountpoint i in
        write_mountpoint i (mk_mountpoint p.(lookup_operation) (mk_operations no_operation no_operation p.(file_operations).(op_read)))) in
  do! in_bytes (store_string (name_address base 0) str_ArrayFS) in
  do! in_bytes (store_string (path_address base 0) str_root) in
  do! in_bytes (store_string (name_address base 1) str_ArrayFS) in
  do! in_bytes (store_string (path_address base 1) str_home_mount) in
  do! in_bytes (store_string (name_address base 2) str_ArrayFS) in
  do! in_bytes (store_string (path_address base 2) str_usr) in
  do! in_bytes (store_string (name_address base 3) str_ustar) in
  do! in_bytes (store_string (path_address base 3) str_external) in
  do! write_mountpoint 3 (mk_mountpoint ustar_operation ustar_operations) in
  modify (set_indices 0 3).

Definition vfs_register (file_system_name mountpoint : Z) (ops : fs_file_operations_t) : M vfs_state Z :=
  let! s := get in
  let i := s.(mountpoint_index) in
  if MOUNTPOINTS_MAX <? i then ret (-1)
  else
    let! _ := in_bytes (strcpy (name_address s.(mountpoints_address) i) file_system_name) in
    let! _ := in_bytes (strcpy (path_address s.(mountpoints_address) i) mountpoint) in
    let! p := read_mountpoint i in
    do! write_mountpoint i (mk_mountpoint p.(lookup_operation) ops) in
    do! modify (set_indices s.(vnode_index) (u32 (i + 1))) in
    ret 0.

(** The loop of [vfs_get_mountpoint_id]; [n] mount points are left. *)
Fixpoint mountpoint_loop (n : nat) (base path i last lastlen : Z) : M memory Z :=
  match n with
  | O => ret last
  | Datatypes.S n' =>
      let p := path_address base i in
      let! len := strlen p in
      let! result := strncmp path p len in
      let! c := load p in
      if negb (c =? 0) && (result =? 0) && (lastlen <? len)
      then mountpoint_loop n' base path (i + 1) i len
      else mountpoint_loop n' base path (i + 1) last lastlen
  end.
Definition vfs_get_mountpoint_id (path : Z) : M vfs_state Z :=
  let! s := get in
  let! len := in_bytes (strlen path) in
  if len =? 0 then ret 0
  else in_bytes (mountpoint_loop (Z.to_nat (MOUNTPOINTS_MAX - 1)) s.(mountpoints_address) path 1 0 0).

Definition vfs_get_relative_path (root_prefix absolute_path : Z) : M memory Z :=
  let! len := strlen root_prefix in ret (absolute_path + i32 len).

(** ** The ustar operations *)

Definition ustar_open (path flags : Z) : M vfs_state Z := ret 3.

Definition ustar_close (vnode : vnode_t) : M vfs_state Z :=
  if vnode.(v_data) =? 0 then throw NullDeref else ret 0.

Fixpoint ustar_read_loop (n : nat) (buf read_buffer i : Z) : M memory Z :=
  match n with
  | O => ret i
  | Datatypes.S n' =>
      let! c := load (read_buffer + i) in
      do! store (buf + i) c in
      if c =? 0 then ret i else ustar_read_loop n' buf read_buffer (i + 1)
  end.
Definition ustar_read (vnode : vnode_t) (buf nbytes : Z) : M vfs_state Z :=
  if negb (vnode.(v_data) =? 0) then
    let read_buffer := ustar_get_file_start vnode.(v_data) in
    if negb (read_buffer =? 0) then in_bytes (ustar_read_loop (Z.to_nat nbytes) buf read_buffer 0) else ret 0
  else ret 0.

(** [ustar_lookup]: the code and the vnode after it. *)
Definition ustar_lookup (path flags : Z) (vnode : vnode_t) : M vfs_state (Z * vnode_t) :=
  let! s := get in
  let! item := in_bytes (ustar_seek path s.(ustar_root_item)) in
  if item =? 0 then ret (-1, vnode)
  else
    let! type := in_bytes (load (item + typeflag_offset)) in
    let vtype := if type =? 48 then ustar_get_type type else vnode.(v_type) in
    let! size := in_bytes (octascii_to_dec (item + file_size_offset) USTAR_FILESIZE_SIZE) in
    ret (0, mk_vnode size vnode.(refcount) vtype vnode.(vfs_root) item).

(** ** Files *)

(** [vnode_get_next_free]: the index, or -1 for NULL. *)
Definition vnode_get_next_free : M vfs_state Z :=
  let! s := get in
  let i := s.(vnode_index) in
  if i <? OPENEDFILES_MAX then
    let! v := read_vnode i in
    do! write_vnode i (mk_vnode 0 0 V_NONE v.(vfs_root) 0) in
    do! modify (set_indices (i + 1) s.(mountpoint_index)) in
    ret i
  else ret (-1).

Definition vnode_clear (v : vnode_t) : vnode_t := mk_vnode 0 0 V_NONE v.(vfs_root) 0.

Definition vfs_lookup (path flags vnode : Z) : M vfs_state Z :=
  let! mountpoint_id := vfs_get_mountpoint_id path in
  let! s := get in
  let! mountpoint := read_mountpoint mountpoint_id in
  let! relative_path := in_bytes (vfs_get_relative_path (path_address s.(mountpoints_address) mountpoint_id) path) in
  match mountpoint.(file_operations).(op_open), mountpoint.(lookup_operation) with
  | ustar_operation, ustar_operation =>
      let! v := read_vnode vnode in
      let! r := ustar_lookup (relative_path + 1) flags v in
      let '(error_code, v) := r in
      let v := if error_code =? 0 then mk_vnode v.(vnode_size) v.(refcount) v.(v_type) (Some mountpoint_id) v.(v_data) else v in
      do! write_vnode vnode v in
      let! driver_fd := ustar_open relative_path flags in
      if driver_fd <? 0 then ret EOPEN_ERROR
      else
        let! s := get in
        if OPENEDFILES_MAX <? s.(vnode_index) then ret EOPEN_ERROR
        else
          do! write_vnode vnode (mk_vnode v.(vnode_size) (i32 (v.(refcount) + 1)) v.(v_type) v.(vfs_root) v.(v_data)) in
          ret 0
  | _, _ => ret EOPEN_ERROR
  end.

(** A failed lookup falls off the end of [vfs_open]: the result has no value. *)
Definition vfs_open (path flags : Z) : M vfs_state Z :=
  let! vnode := vnode_get_next_free in
  if vnode =? -1 then throw Halted
  else
    let! result := vfs_lookup path flags vnode in
    if result =? 0 then ret vnode else throw NoValue.

Definition vfs_read (vnode : vnode_t) (buf nbytes : Z) : M vfs_state Z :=
  match vnode.(vfs_root) with
  | Some i =>
      if negb (vnode.(v_data) =? 0) then
        let! mountpoint := read_mountpoint i in
        match mountpoint.(file_operations).(op_read) with
        | ustar_operation => ustar_read vnode buf nbytes
        | no_operation => throw NullDeref
        end
      else ret 0
  | None => ret 0
  end.

Definition vfs_close (vnode : Z) : M vfs_state Z :=
  let! v := read_vnode vnode in
  do! (match v.(vfs_root) with
       | Some i =>
           let! mountpoint := read_mountpoint i in
           match mountpoint.(file_operations).(op_close) with
           | ustar_operation => let! _ := ustar_close v in ret tt
           | no_operation => ret tt
           end
       | None => ret tt
       end) in
  let v := mk_vnode v.(vnode_size) (i32 (v.(refcount) - 1)) v.(v_type) v.(vfs_root) v.(v_data) in
  do! write_vnode vnode (if v.(refcount) =? 0 then vnode_clear v else v) in
  ret 0.

Definition close (fildes : Z) : M vfs_state Z :=
  if (0 <=? fildes) && (fildes <? OPENEDFILES_MAX) then let! _ := vfs_close fildes in ret 0 else ret (-1).

Definition read (fildes buf nbytes : Z) : M vfs_state Z :=
  if (0 <=? fildes) && (fildes <? OPENEDFILES_MAX) then let! v := read_vnode fildes in vfs_read v buf nbytes else ret (-1).

(** ** Finding a file in an archive *)

Section Archive.
Implicit Types (m : memory) (a : Z).

(** The value of octal digits. *)
Definition octal_value (ds : list Z) : Z := foldl (fun acc d => acc * 8 + d) 0 ds.

Lemma octal_value_snoc ds d : octal_value (ds ++ [d]) = octal_value ds * 8 + d.
Proof. unfold octal_value. by rewrite foldl_app. Qed.

Lemma octal_value_nonneg ds : Forall (fun d => 0 <= d < 8) ds -> 0 <= octal_value ds.
Proof.
  induction ds as [|d ds IH] using rev_ind; intros Hd; [done|]. apply Forall_app in Hd as [H1 H2].
  apply Forall_cons in H2 as [H2 _]. rewrite octal_value_snoc. specialize (IH H1). lia.
Qed.

(** The field of a size: eleven digits in ASCII. *)
Definition octal_field m a (size : Z) : Prop :=
  exists ds, length ds = 11%nat /\ Forall (fun d => 0 <= d < 8) ds /\ octal_value ds = size /\
    forall i d, ds !! i = Some d -> m !! (a + Z.of_nat i) = Some (48 + d).

Lemma octascii_loop_run m a ds : Forall (fun d => 0 <= d < 8) ds ->
  (forall i d, ds !! i = Some d -> m !! (a + Z.of_nat i) = Some (48 + d)) ->
  forall k converted n, (length ds + k = 11)%nat -> n = (if (11 <=? k)%nat then 0 else 8 ^ Z.of_nat k) ->
  0 <= converted -> converted + octal_value ds * 8 ^ Z.of_nat k < 2 ^ 31 ->
  octascii_loop (length ds) a n converted m = Ret (converted + octal_value ds * 8 ^ Z.of_nat k, m).
Proof.
  induction ds as [|d ds IH] using rev_ind; intros Hd Hm k converted n Hk Hn Hc Hb.
  - simpl. unfold ret. do 2 f_equal. unfold octal_value. simpl. lia.
  - apply Forall_app in Hd as [Hds Hd]. apply Forall_cons in Hd as [Hd _]. pose proof (octal_value_nonneg ds Hds) as Hpos.
    rewrite length_app in *. simpl length in *. rewrite octal_value_snoc in *. replace (length ds + 1)%nat with (Datatypes.S (length ds)) in * by lia.
    assert (k <= 10)%nat as Hk' by lia. destruct (Nat.leb_spec 11 k); [lia|]. subst n.
    assert (0 < 8 ^ Z.of_nat k) as H8 by (apply Z.pow_pos_nonneg; lia).
    assert (8 ^ Z.of_nat k <= 8 ^ 10) as H8' by (apply Z.pow_le_mono_r; lia). change (8 ^ 10) with (2 ^ 30) in H8'.
    cbn [octascii_loop]. unfold octascii_step.
    assert (m !! (a + Z.of_nat (length ds)) = Some (48 + d)) as Hl by (apply Hm; by rewrite lookup_app_r, Nat.sub_diag by lia).
    rewrite (bind_run _ _ m (i32 (converted + i32 (i8 (48 + d) - 48) * 8 ^ Z.of_nat k), i32 (8 * 8 ^ Z.of_nat k)) m)
      by (by rewrite (bind_run _ _ _ _ _ (load_run m _ _ Hl))). cbn [fst snd].
    assert (i8 (48 + d) = 48 + d) as -> by (unfold i8; rewrite Z.mod_small; lia). rewrite (i32_small (48 + d - 48)) by lia.
    replace (48 + d - 48) with d by lia.
    assert (8 ^ Z.of_nat (Datatypes.S k) = 8 * 8 ^ Z.of_nat k) as E8 by (rewrite Nat2Z.inj_succ, Z.pow_succ_r; lia).
    assert (0 <= octal_value ds * (8 * 8 ^ Z.of_nat k)) by nia.
    rewrite (i32_small (converted + d * 8 ^ Z.of_nat k)) by nia.
    rewrite (IH Hds) with (k := Datatypes.S k); [rewrite E8; do 2 f_equal; lia| |lia| |nia|rewrite E8; lia].
    + intros i x Hi. apply Hm. rewrite lookup_app_l; [done|]. by apply lookup_lt_Some in Hi.
    + destruct (Nat.leb_spec 11 (Datatypes.S k)).
      * assert (k = 10%nat) as -> by lia. done.
      * rewrite E8, i32_small; [done|]. assert (8 ^ Z.of_nat k <= 8 ^ 9) as H9 by (apply Z.pow_le_mono_r; lia).
        change (8 ^ 9) with (2 ^ 27) in H9. lia.
Qed.

Lemma octascii_run m a size : octal_field m a size -> size < 2 ^ 31 -> octascii_to_dec a 12 m = Ret (size, m).
Proof.
  intros (ds & Hl & Hd & Hv & Hm) Hs. unfold octascii_to_dec. change (Z.to_nat (12 - 1)) with 11%nat. rewrite <- Hl.
  rewrite (octascii_loop_run m a ds Hd Hm 0 0 1); [|lia|done|lia|lia]. do 2 f_equal. lia.
Qed.

(** An entry of an archive, and the archive: headers with what follows them, up to
    a block of zeros. *)
Record entry : Type := mk_entry { entry_name : list Z; entry_size : Z }.
Definition entry_stride (e : entry) : Z := 512 + 512 * ((e.(entry_size) + 511) / 512).
Definition header_ok m a (e : entry) : Prop :=
  mapped m a 512 /\ e.(entry_name) <> [] /\ cstring m a e.(entry_name) /\
  octal_field m (a + file_size_offset) e.(entry_size) /\ e.(entry_size) < 2 ^ 30.
Fixpoint archive m a (l : list entry) : Prop :=
  match l with
  | [] => forall i, 0 <= i < 512 -> m !! (a + i) = Some 0
  | e :: l' => header_ok m a e /\ archive m (a + entry_stride e) l'
  end.

(** The first entry with the name, by address. *)
Fixpoint seek_result a (l : list entry) (name : list Z) : Z :=
  match l with
  | [] => 0
  | e :: l' => if decide (e.(entry_name) = name) then a else seek_result (a + entry_stride e) l' name
  end.

Lemma entry_stride_pos m a e : header_ok m a e -> 0 <= e.(entry_size) /\ 512 <= entry_stride e.
Proof.
  intros (_ & _ & _ & (ds & _ & Hd & Hv & _) & _). pose proof (octal_value_nonneg ds Hd) as Hp. rewrite Hv in Hp. split; [done|].
  unfold entry_stride. assert (0 <= (entry_size e + 511) / 512) by (apply Z.div_pos; lia). lia.
Qed.

Lemma ustar_stride_entry m a e : header_ok m a e -> ustar_stride e.(entry_size) = entry_stride e.
Proof.
  intros He. destruct (entry_stride_pos m a e He) as [Hp _]. destruct He as (_ & _ & _ & _ & Hs).
  unfold ustar_stride, entry_stride. rewrite (i32_small (entry_size e + 511)) by lia. rewrite Z.quot_div_nonneg by lia.
  assert ((entry_size e + 511) / 512 < 2 ^ 21 + 1) by (apply Z.div_lt_upper_bound; lia).
  assert (0 <= (entry_size e + 511) / 512) by (apply Z.div_pos; lia).
  set (q := (entry_size e + 511) / 512) in *. rewrite (i32_small (q + 1)) by lia. rewrite i32_small by lia. lia.
Qed.

(** Headers lie apart, so that there are no more of them than bytes. *)
Lemma archive_fuel m l : forall a, archive m a l -> (length l <= stdpp.base.size m)%nat.
Proof.
  intros a Ha. assert (exists X : gset Z, X ⊆ dom m /\ stdpp.base.size X = length l /\ forall x, x ∈ X -> a <= x) as (X & HX & <- & _).
  2:{ rewrite <- size_dom. by apply subseteq_size. }
  revert a Ha. induction l as [|e l IH]; intros a Ha.
  - exists ∅. split_and!; [set_solver|apply size_empty|set_solver].
  - destruct Ha as [He Hl]. destruct (IH _ Hl) as (X & HX & Hs & Hx). destruct (entry_stride_pos m a e He) as [_ Hst].
    exists ({[a]} ∪ X). split_and!.
    + apply union_subseteq. split; [|done]. apply singleton_subseteq_l. apply elem_of_dom.
      destruct He as (Hm & _). destruct (Hm 0 ltac:(lia)) as (v & Hv & _). rewrite Z.add_0_r in Hv. eauto.
    + rewrite size_union, size_singleton, Hs; [done|]. apply disjoint_singleton_l. intros Hin. specialize (Hx a Hin). lia.
    + intros x [->%elem_of_singleton|Hin]%elem_of_union; [lia|]. specialize (Hx x Hin). lia.
Qed.

Lemma load_word_run m a : mapped m a 8 ->
  exists b, load_word a m = Ret (b, m) /\ (b = true <-> forall i, 0 <= i < 8 -> m !! (a + i) = Some 0).
Proof.
  intros Hm. unfold load_word.
  set (bytes := fix bytes (n : nat) (a : Z) : M memory bool :=
    match n with O => ret true | Datatypes.S n' => let! c := load a in let! r := bytes n' (a + 1) in ret ((c =? 0) && r) end).
  assert (forall (n : nat) a, mapped m a (Z.of_nat n) -> exists b, bytes n a m = Ret (b, m) /\
    (b = true <-> forall i, 0 <= i < Z.of_nat n -> m !! (a + i) = Some 0)) as Hgen; [|by apply (Hgen 8%nat)].
  clear a Hm. induction n as [|n IH]; intros a Hm; simpl.
  - exists true. split; [done|]. split; [lia|done].
  - destruct (Hm 0 ltac:(lia)) as (v & Hv & _). rewrite Z.add_0_r in Hv.
    destruct (IH (a + 1)) as (b & Hb & Hiff).
    { intros i Hi. destruct (Hm (1 + i) ltac:(lia)) as (w & Hw & ?). exists w. split; [|done]. by replace (a + 1 + i) with (a + (1 + i)) by lia. }
    exists ((v =? 0) && b). rewrite (bind_run _ _ _ _ _ (load_run m a v Hv)), (bind_run _ _ _ _ _ Hb). split; [done|].
    rewrite andb_true_iff, Z.eqb_eq, Hiff. split.
    + intros [-> Hz] i Hi. destruct (decide (i = 0)) as [->|]; [by rewrite Z.add_0_r|].
      replace (a + i) with (a + 1 + (i - 1)) by lia. apply Hz. lia.
    + intros Hz. split; [|intros i Hi; replace (a + 1 + i) with (a + (1 + i)) by lia; apply Hz; lia].
      specialize (Hz 0 ltac:(lia)). rewrite Z.add_0_r in Hz. congruence.
Qed.

Lemma is_zeroed_zero m : forall (n : nat) a, (forall i, 0 <= i < 8 * Z.of_nat n -> m !! (a + i) = Some 0) -> is_zeroed_loop n a m = Ret (true, m).
Proof.
  induction n as [|n IH]; intros a Hz; cbn [is_zeroed_loop]; [done|].
  destruct (load_word_run m a) as (b & Hb & Hiff).
  { intros i Hi. exists 0. split; [apply Hz; lia|lia]. }
  assert (b = true) as -> by (apply Hiff; intros i Hi; apply Hz; lia).
  rewrite (bind_run _ _ _ _ _ Hb). apply IH. intros i Hi. replace (a + 8 + i) with (a + (8 + i)) by lia. apply Hz. lia.
Qed.

Lemma is_zeroed_header m a e : header_ok m a e -> ustar_is_zeroed a m = Ret (false, m).
Proof.
  intros (Hm & Hn & Hs & _). unfold ustar_is_zeroed. change 64%nat with (Datatypes.S 63). cbn [is_zeroed_loop].
  destruct (load_word_run m a) as (b & Hb & Hiff); [intros i Hi; apply Hm; lia|]. rewrite (bind_run _ _ _ _ _ Hb).
  destruct b; [|done]. exfalso. destruct (entry_name e) as [|c n]; [done|]. destruct Hs as (Hc & Hc0 & _).
  pose proof (proj1 Hiff eq_refl 0 ltac:(lia)) as H0. rewrite Z.add_0_r in H0. rewrite Hc in H0. injection H0. lia.
Qed.

Lemma strcmp_run m a b s t : cstring m a s -> cstring m b t -> strcmp a b m = Ret (lex_compare s t, m).
Proof.
  intros Hs Ht. pose proof (cstring_fuel m a s Hs). unfold strcmp, string_fuel, gets.
  rewrite (bind_run _ _ m _ m eq_refl). apply strcmp_loop_run; [done|done|lia].
Qed.

Lemma ustar_seek_loop_run m filename name : cstring m filename name -> forall l fuel a,
  archive m a l -> (length l + 3 <= fuel)%nat -> ustar_seek_loop fuel filename a 0 m = Ret (seek_result a l name, m).
Proof.
  intros Hname. induction l as [|e l IH]; intros fuel a Ha Hf; simpl in Hf.
  - destruct fuel as [|[|[|fuel]]]; try lia. assert (ustar_is_zeroed a m = Ret (true, m)) as Hz by (by apply is_zeroed_zero).
    cbn [ustar_seek_loop Z.ltb]. change (0 <? 2) with true. cbn iota. rewrite (bind_run _ _ _ _ _ Hz).
    change (0 + 1 <? 2) with true. cbn iota. rewrite (bind_run _ _ _ _ _ Hz). done.
  - destruct fuel as [|fuel]; [lia|]. destruct Ha as [He Hl]. cbn [ustar_seek_loop]. change (0 <? 2) with true. cbn iota.
    rewrite (bind_run _ _ _ _ _ (is_zeroed_header m a e He)). pose proof He as (_ & _ & Hs & Ho & Hsz).
    assert (octascii_to_dec (a + file_size_offset) 12 m = Ret (entry_size e, m)) as Hoct by (apply octascii_run; [done|lia]).
    rewrite (bind_run _ _ _ _ _ Hoct), (bind_run _ _ _ _ _ (strcmp_run m filename a _ _ Hname Hs)). cbn [seek_result].
    destruct (Z.eqb_spec (lex_compare name (entry_name e)) 0) as [E|E].
    + apply lex_compare_eq in E. by rewrite decide_True.
    + rewrite decide_False by (intros <-; apply E; by apply lex_compare_eq). rewrite (ustar_stride_entry m a e He). apply IH; [done|lia].
Qed.

(** C26: [ustar_seek] finds the first file of an archive with exactly the name asked
    for, by walking the headers over the rounded sizes of the files, and NULL when
    there is none: the search ends at the first block of zeros. It changes nothing. *)
Theorem ustar_seek_finds m filename name root l :
  cstring m filename name -> archive m root l ->
  ustar_seek filename root m = Ret (seek_result root l name, m).
Proof.
  intros Hname Ha. pose proof (archive_fuel m l root Ha). unfold ustar_seek, seek_fuel, gets.
  rewrite (bind_run _ _ m _ m eq_refl). apply ustar_seek_loop_run; [done|done|lia].
Qed.
End Archive.

(** ** Choosing the mount point *)

Section Mountpoints.
Implicit Types (m : memory) (s t : list Z).

(** [strncmp] is 0 exactly when the strings agree on their first [n] bytes. *)
Lemma strncmp_loop_run m (n : nat) : forall a b s t, cstring m a s -> cstring m b t ->
  exists r, strncmp_loop (Datatypes.S n) a b m = Ret (r, m) /\ (r = 0 <-> take (Datatypes.S n) s = take (Datatypes.S n) t).
Proof.
  assert (forall a b c d, 0 <= c < 2 ^ 8 -> 0 <= d < 2 ^ 8 -> m !! a = Some c -> m !! b = Some d ->
    exists r, (let! c1 := load a in let! c2 := load b in ret (sign_of (c1 - c2))) m = Ret (r, m) /\ (r = 0 <-> c = d)) as Hcmp.
  { intros a b c d _ _ Hc Hd. exists (sign_of (c - d)). rewrite (bind_run _ _ _ _ _ (load_run m a c Hc)), (bind_run _ _ _ _ _ (load_run m b d Hd)).
    split; [done|]. unfold sign_of. destruct (Z.ltb_spec (c - d) 0); destruct (Z.ltb_spec 0 (c - d)); lia. }
  assert (forall a s, cstring m a s -> exists c, m !! a = Some c /\ 0 <= c < 2 ^ 8 /\ (c = 0 <-> s = []) /\
    (forall s', s = c :: s' -> cstring m (a + 1) s') /\ (c <> 0 -> exists s', s = c :: s')) as Hfirst.
  { intros a [|c s] Hs; simpl in Hs.
    - exists 0. split_and!; try done; lia.
    - destruct Hs as (Hc & Hb & Hs). exists c. split_and!; [done|lia|lia|split; [lia|done]|by intros s' [= <-]|eauto]. }
  induction n as [|n IH]; intros a b s t Hs Ht; destruct (Hfirst a s Hs) as (c & Hc & Hcb & Hc0 & Hcs & Hcx), (Hfirst b t Ht) as (d & Hd & Hdb & Hd0 & Hdt & Hdx).
  - destruct (Hcmp a b c d Hcb Hdb Hc Hd) as (r & Hr & Hiff). exists r. split; [done|]. rewrite Hiff.
    destruct (decide (c = 0)) as [->|Hcn]; destruct (decide (d = 0)) as [->|Hdn].
    + rewrite (proj1 Hc0 eq_refl), (proj1 Hd0 eq_refl). done.
    + destruct (Hdx Hdn) as (t' & ->). rewrite (proj1 Hc0 eq_refl). simpl. split; [lia|done].
    + destruct (Hcx Hcn) as (s' & ->). rewrite (proj1 Hd0 eq_refl). simpl. split; [lia|done].
    + destruct (Hcx Hcn) as (s' & ->), (Hdx Hdn) as (t' & ->). simpl. rewrite !take_0. split; congruence.
  - destruct (Hcmp a b c d Hcb Hdb Hc Hd) as (r & Hr & Hiff). remember (Datatypes.S n) as n1 eqn:En. cbn [strncmp_loop]. rewrite En in *. clear En.
    rewrite (bind_run _ _ _ _ _ (load_run m a c Hc)). destruct (Z.eqb_spec c 0) as [->|Hcn].
    + exists r. split; [done|]. rewrite Hiff, (proj1 Hc0 eq_refl). destruct (decide (d = 0)) as [->|Hdn].
      * rewrite (proj1 Hd0 eq_refl). done.
      * destruct (Hdx Hdn) as (t' & ->). simpl. split; [lia|done].
    + destruct (Hcx Hcn) as (s' & ->). rewrite (bind_run _ _ _ _ _ (load_run m b d Hd)). destruct (Z.eqb_spec c d) as [<-|Hcd].
      * destruct (Hdx Hcn) as (t' & ->). destruct (IH (a + 1) (b + 1) s' t' (Hcs _ eq_refl) (Hdt _ eq_refl)) as (r' & Hr' & Hiff').
        exists r'. split; [done|]. rewrite Hiff'. cbn [take]. split; [by intros ->|by intros [= ->]].
      * exists r. split; [done|]. rewrite Hiff. split; [done|]. intros E.
        destruct (decide (d = 0)) as [->|Hdn]; [by rewrite (proj1 Hd0 eq_refl) in E|].
        destruct (Hdx Hdn) as (t' & ->). cbn [take] in E. congruence.
Qed.

(** A mount point is a candidate for a path when it is not empty and a prefix of it. *)
Definition candidate s t : Prop := t <> [] /\ t `prefix_of` s.

Lemma take_prefix s t : take (length t) s = t <-> t `prefix_of` s.
Proof.
  split; [intros <-; apply prefix_take|]. intros [r ->]. apply take_app_length.
Qed.

Lemma mountpoint_test m path p s t : cstring m path s -> cstring m p t -> Z.of_nat (length t) < 2 ^ 64 ->
  exists r c, strlen p m = Ret (Z.of_nat (length t), m) /\ strncmp path p (Z.of_nat (length t)) m = Ret (r, m) /\
    m !! p = Some c /\ (negb (c =? 0) && (r =? 0) = true <-> candidate s t).
Proof.
  intros Hs Ht Hb. destruct t as [|c t].
  - exists 0, 0. split; [by apply (strlen_run m p [])|]. split; [done|]. split; [done|]. simpl. split; [done|]. by intros [? _].
  - destruct (strncmp_loop_run m (length t) path p s (c :: t) Hs Ht) as (r & Hr & Hiff). exists r, c.
    split; [by apply (strlen_run m p (c :: t))|]. split.
    { unfold strncmp. destruct (Z.eqb_spec (Z.of_nat (length (c :: t))) 0); [simpl in *; lia|]. by rewrite Nat2Z.id. }
    destruct Ht as (Hc & Hc0 & _). split; [done|]. destruct (Z.eqb_spec c 0); [lia|]. simpl negb. rewrite andb_true_l, Z.eqb_eq, Hiff.
    change (Datatypes.S (length t)) with (length (c :: t)). rewrite (take_ge (c :: t)) by done. rewrite take_prefix. unfold candidate. naive_solver.
Qed.

(** The longest candidate, the first of that length; 0 when there is none. *)
Definition longest (s : list Z) (paths : Z -> list Z) (first next r len : Z) : Prop :=
  (r = 0 /\ len = 0 /\ forall i, first <= i < next -> ~ candidate s (paths i)) \/
  (first <= r < next /\ candidate s (paths r) /\ len = Z.of_nat (length (paths r)) /\
   forall i, first <= i < next -> candidate s (paths i) ->
     Z.of_nat (length (paths i)) <= len /\ (i < r -> Z.of_nat (length (paths i)) < len)).

Lemma mountpoint_loop_run m base path s (paths : Z -> list Z) : cstring m path s ->
  forall (n : nat) i last lastlen,
  (forall j, i <= j < i + Z.of_nat n -> cstring m (path_address base j) (paths j) /\ Z.of_nat (length (paths j)) < 2 ^ 64) ->
  1 <= i -> longest s paths 1 i last lastlen ->
  exists r len, mountpoint_loop n base path i last lastlen m = Ret (r, m) /\ longest s paths 1 (i + Z.of_nat n) r len.
Proof.
  intros Hs. induction n as [|n IH]; intros i last lastlen Hp Hi Hl.
  - exists last, lastlen. split; [done|]. by replace (i + Z.of_nat 0) with i by lia.
  - destruct (Hp i ltac:(lia)) as [Hpi Hb]. destruct (mountpoint_test m path _ s _ Hs Hpi Hb) as (r & c & Hlen & Hcmp & Hc & Hcand).
    cbn [mountpoint_loop]. rewrite (bind_run _ _ _ _ _ Hlen), (bind_run _ _ _ _ _ Hcmp), (bind_run _ _ _ _ _ (load_run m _ c Hc)).
    replace (i + Z.of_nat (Datatypes.S n)) with (i + 1 + Z.of_nat n) by lia.
    destruct (negb (c =? 0) && (r =? 0)); [pose proof (proj1 Hcand eq_refl) as E|assert (~ candidate s (paths i)) as E by (by rewrite <- Hcand)].
    + cbn [andb]. assert (0 < Z.of_nat (length (paths i))) as Hpos.
      { destruct E as [Hne _]. destruct (paths i); [done|simpl; lia]. }
      destruct (Z.ltb_spec lastlen (Z.of_nat (length (paths i)))) as [Hlt|Hge].
      * apply IH; [intros j Hj; apply Hp; lia|lia|]. right. split; [lia|]. split; [done|]. split; [done|].
        intros j Hj Hcj. destruct (decide (j = i)) as [->|]; [lia|].
        destruct Hl as [(_ & -> & Hno)|(_ & _ & _ & Hmax)]; [exfalso; apply (Hno j); [lia|done]|]. destruct (Hmax j ltac:(lia) Hcj). lia.
      * apply IH; [intros j Hj; apply Hp; lia|lia|]. destruct Hl as [(_ & -> & _)|(Hr & Hcr & Hlr & Hmax)]; [lia|].
        right. split; [lia|]. split; [done|]. split; [done|]. intros j Hj Hcj. destruct (decide (j = i)) as [->|]; [lia|]. apply Hmax; [lia|done].
    + cbn [andb]. apply IH; [intros j Hj; apply Hp; lia|lia|]. destruct Hl as [(-> & -> & Hno)|(Hr & Hcr & Hlr & Hmax)].
      * left. split; [done|]. split; [done|]. intros j Hj. destruct (decide (j = i)) as [->|]; [done|apply Hno; lia].
      * right. split; [lia|]. split; [done|]. split; [done|]. intros j Hj Hcj. destruct (decide (j = i)) as [->|]; [done|apply Hmax; [lia|done]].
Qed.

Lemma vfs_get_mountpoint_id_run st path s (paths : Z -> list Z) :
  cstring st.(vfs_memory) path s -> Z.of_nat (length s) < 2 ^ 64 ->
  (forall i, 1 <= i < MOUNTPOINTS_MAX ->
     cstring st.(vfs_memory) (path_address st.(mountpoints_address) i) (paths i) /\ Z.of_nat (length (paths i)) < 2 ^ 64) ->
  exists r len, vfs_get_mountpoint_id path st = Ret (r, st) /\ longest s paths 1 MOUNTPOINTS_MAX r len.
Proof.
  intros Hs Hb Hp. assert (forall A (x : M memory A) a, x st.(vfs_memory) = Ret (a, st.(vfs_memory)) -> in_bytes x st = Ret (a, st)) as Hin.
  { intros A x a E. unfold in_bytes, zoom. rewrite E. by destruct st. }
  unfold vfs_get_mountpoint_id. rewrite (bind_run get _ st st st eq_refl), (bind_run _ _ st (Z.of_nat (length s)) st) by (apply Hin; by apply strlen_run).
  destruct (Z.eqb_spec (Z.of_nat (length s)) 0) as [E|E].
  - exists 0, 0. split; [done|]. left. split; [done|]. split; [done|]. intros i _ [Hne Hpre]. destruct s; [|simpl in E; lia].
    by apply prefix_nil_inv in Hpre.
  - destruct (mountpoint_loop_run _ st.(mountpoints_address) path s paths Hs (Z.to_nat (MOUNTPOINTS_MAX - 1)) 1 0 0) as (r & len & Hrun & Hl).
    + intros j Hj. apply Hp. unfold MOUNTPOINTS_MAX in *. lia.
    + lia.
    + left. split; [done|]. split; [done|]. lia.
    + exists r, len. split; [by apply Hin|exact Hl].
Qed.

(** C27: [vfs_get_mountpoint_id] chooses the mount point with the longest path that
    is a prefix of the path given, the first of them, and the root when there is
    none or the path is empty. The prefix is one of characters, not of components. *)
Theorem vfs_get_mountpoint_id_longest st path s (paths : Z -> list Z) :
  cstring st.(vfs_memory) path s -> Z.of_nat (length s) < 2 ^ 64 ->
  (forall i, 1 <= i < MOUNTPOINTS_MAX ->
     cstring st.(vfs_memory) (path_address st.(mountpoints_address) i) (paths i) /\ Z.of_nat (length (paths i)) < 2 ^ 64) ->
  exists r len, vfs_get_mountpoint_id path st = Ret (r, st) /\ longest s paths 1 MOUNTPOINTS_MAX r len.
Proof. apply vfs_get_mountpoint_id_run. Qed.
End Mountpoints.

(** ** Opening a file *)

Section Open.
Implicit Types (m : memory) (st : vfs_state).

(** The entry behind a file found. *)
Lemma seek_result_entry m name l : forall a, archive m a l -> seek_result a l name <> 0 ->
  exists e, header_ok m (seek_result a l name) e /\ e ∈ l /\ e.(entry_name) = name.
Proof.
  induction l as [|e l IH]; intros a Ha Hr; [done|]. destruct Ha as [He Hl]. cbn [seek_result] in *. case_decide as E.
  - exists e. split; [done|]. split; [left|done].
  - destruct (IH _ Hl Hr) as (e' & ? & ? & ?). exists e'. split; [done|]. split; [by right|done].
Qed.

Lemma in_bytes_run {A} (x : M memory A) st a : x st.(vfs_memory) = Ret (a, st.(vfs_memory)) -> in_bytes x st = Ret (a, st).
Proof. intros E. unfold in_bytes, zoom. rewrite E. by destruct st. Qed.

Lemma read_vnode_run st i v : 0 <= i -> st.(vnode_cache) !! Z.to_nat i = Some v -> read_vnode i st = Ret (v, st).
Proof. intros Hi Hv. unfold read_vnode, bind, get. destruct (Z.ltb_spec i 0); [lia|]. by rewrite Hv. Qed.

Lemma write_vnode_run st i v w : 0 <= i -> st.(vnode_cache) !! Z.to_nat i = Some v ->
  write_vnode i w st = Ret (tt, set_vnodes (<[Z.to_nat i := w]> st.(vnode_cache)) st).
Proof. intros Hi Hv. unfold write_vnode. by rewrite (bind_run _ _ _ _ _ (read_vnode_run st i v Hi Hv)). Qed.

(** The choice of the mount point depends on the memory only. *)
Lemma get_mountpoint_id_frame st st2 path k :
  st2.(vfs_memory) = st.(vfs_memory) -> st2.(mountpoints_address) = st.(mountpoints_address) ->
  vfs_get_mountpoint_id path st = Ret (k, st) -> vfs_get_mountpoint_id path st2 = Ret (k, st2).
Proof.
  intros Em Ea. unfold vfs_get_mountpoint_id. rewrite !(bind_run get _ _ _ _ eq_refl), Ea. unfold in_bytes, zoom, bind. rewrite Em.
  destruct (strlen path (vfs_memory st)) as [[len m1]| |] eqn:Elen; [|done|done].
  destruct (len =? 0).
  - unfold ret. intros [= <- Es]. assert (m1 = vfs_memory st) as -> by (by rewrite <- Es). rewrite <- Em. by destruct st2.
  - cbn [vfs_memory set_vfs_memory]. destruct (mountpoint_loop (Z.to_nat (MOUNTPOINTS_MAX - 1)) (mountpoints_address st) path 1 0 0 m1) as [[r m2]| |] eqn:El; [|done|done].
    intros [= <- Es]. assert (m2 = vfs_memory st) as -> by (by rewrite <- Es). rewrite <- Em. by destruct st2.
Qed.

(** The vnode of a file just opened: [item] is where it is in the archive, 0 when it
    is not there, and [old] what the vnode was. *)
Definition opened_vnode (old : vnode_t) (k item size type : Z) : vnode_t :=
  if item =? 0 then mk_vnode 0 1 V_NONE old.(vfs_root) 0
  else mk_vnode size 1 (if type =? 48 then V_REGULAR_FILE else V_NONE) (Some k) item.

(** [ustar_lookup] on a fresh vnode: the seek's result, and the size and type the
    header there holds. *)
Lemma ustar_lookup_run st path flags name l :
  cstring st.(vfs_memory) path name -> archive st.(vfs_memory) st.(ustar_root_item) l ->
  let item := seek_result st.(ustar_root_item) l name in
  exists size type,
    (item <> 0 -> st.(vfs_memory) !! (item + typeflag_offset) = Some type /\
       exists e, e ∈ l /\ e.(entry_name) = name /\ e.(entry_size) = size) /\
    forall v, v.(refcount) = 0 -> v.(v_type) = V_NONE ->
      ustar_lookup path flags v st =
        Ret (if item =? 0 then (-1, v)
             else (0, mk_vnode size 0 (if type =? 48 then V_REGULAR_FILE else V_NONE) v.(vfs_root) item), st).
Proof.
  intros Hname Harch item.
  assert (in_bytes (ustar_seek path st.(ustar_root_item)) st = Ret (item, st)) as Hseek.
  { apply in_bytes_run. pose proof (archive_fuel _ l _ Harch). unfold ustar_seek, seek_fuel, gets.
    rewrite (bind_run _ _ (vfs_memory st) _ _ eq_refl). apply ustar_seek_loop_run; [done|done|lia]. }
  unfold ustar_lookup. destruct (Z.eqb_spec item 0) as [E0|E0].
  - exists 0, 0. split; [done|]. intros v _ _. rewrite (bind_run get _ _ _ _ eq_refl), (bind_run _ _ _ _ _ Hseek).
    by rewrite E0.
  - destruct (seek_result_entry _ name l _ Harch E0) as (e & He & Hel & Hen). fold item in He.
    destruct He as (Hm & _ & _ & Ho & Hs). destruct (Hm typeflag_offset ltac:(unfold typeflag_offset; lia)) as (type & Ht & _).
    exists e.(entry_size), type. split; [intros _; split; [exact Ht|by exists e]|]. intros v Hr Hv.
    rewrite (bind_run get _ _ _ _ eq_refl), (bind_run _ _ _ _ _ Hseek). apply Z.eqb_neq in E0. rewrite E0.
    rewrite (bind_run _ _ st type st) by (apply in_bytes_run; by apply load_run).
    rewrite (bind_run _ _ st (entry_size e) st) by (apply in_bytes_run; apply octascii_run; [done|lia]).
    rewrite Hr, Hv. unfold ustar_get_type. by destruct (type =? 48).
Qed.

(** A vnode is taken from the cache, with what the last file left in it cleared. *)
Lemma vnode_get_next_free_run st i old :
  i = st.(vnode_index) -> 0 <= i < OPENEDFILES_MAX -> st.(vnode_cache) !! Z.to_nat i = Some old ->
  vnode_get_next_free st =
    Ret (i, set_indices (i + 1) st.(mountpoint_index)
              (set_vnodes (<[Z.to_nat i := mk_vnode 0 0 V_NONE old.(vfs_root) 0]> st.(vnode_cache)) st)).
Proof.
  intros Ei Hi Hold. unfold vnode_get_next_free. rewrite (bind_run get _ _ _ _ eq_refl), <- Ei.
  destruct (Z.ltb_spec i OPENEDFILES_MAX); [|lia]. rewrite (bind_run _ _ _ _ _ (read_vnode_run st i old (proj1 Hi) Hold)).
  by rewrite (bind_run _ _ _ _ _ (write_vnode_run st i old (mk_vnode 0 0 V_NONE old.(vfs_root) 0) (proj1 Hi) Hold)).
Qed.

(** What [vfs_lookup] does once the driver has filled in the vnode: it stores it,
    opens the file and counts the use. *)
Lemma vnode_opened_run st i old v path flags :
  0 <= i -> st.(vnode_index) <= OPENEDFILES_MAX -> st.(vnode_cache) !! Z.to_nat i = Some old -> v.(refcount) = 0 ->
  (do! write_vnode i v in
   let! driver_fd := ustar_open path flags in
   if driver_fd <? 0 then ret EOPEN_ERROR
   else let! s := get in
        if OPENEDFILES_MAX <? s.(vnode_index) then ret EOPEN_ERROR
        else do! write_vnode i (mk_vnode v.(vnode_size) (i32 (v.(refcount) + 1)) v.(v_type) v.(vfs_root) v.(v_data)) in ret 0) st =
  Ret (0, set_vnodes (<[Z.to_nat i := mk_vnode v.(vnode_size) 1 v.(v_type) v.(vfs_root) v.(v_data)]> st.(vnode_cache)) st).
Proof.
  intros Hi Hn Hold Hr. rewrite (bind_run _ _ _ _ _ (write_vnode_run st i old v Hi Hold)).
  set (st3 := set_vnodes _ st). rewrite (bind_run (ustar_open _ _) _ st3 3 st3 eq_refl). change (3 <? 0) with false. cbn iota.
  rewrite (bind_run get _ st3 st3 st3 eq_refl). change (vnode_index st3) with (vnode_index st).
  destruct (Z.ltb_spec OPENEDFILES_MAX (vnode_index st)); [lia|].
  assert (st3.(vnode_cache) !! Z.to_nat i = Some v) as Hv3
    by (apply list_lookup_insert_eq; by apply lookup_lt_Some in Hold).
  rewrite (bind_run _ _ _ _ _ (write_vnode_run st3 i v _ Hi Hv3)), Hr. unfold ret, st3. simpl. by rewrite list_insert_insert_eq.
Qed.

Lemma vfs_open_run st path flags k prefix name l old i p :
  vfs_get_mountpoint_id path st = Ret (k, st) -> 0 <= k ->
  st.(mountpoints) !! Z.to_nat k = Some p -> p.(lookup_operation) = ustar_operation -> p.(file_operations).(op_open) = ustar_operation ->
  cstring st.(vfs_memory) (path_address st.(mountpoints_address) k) prefix -> Z.of_nat (length prefix) < 2 ^ 31 ->
  cstring st.(vfs_memory) (path + Z.of_nat (length prefix) + 1) name ->
  archive st.(vfs_memory) st.(ustar_root_item) l ->
  i = st.(vnode_index) -> 0 <= i < OPENEDFILES_MAX -> st.(vnode_cache) !! Z.to_nat i = Some old ->
  let item := seek_result st.(ustar_root_item) l name in
  exists size type,
    vfs_open path flags st =
      Ret (i, set_indices (i + 1) st.(mountpoint_index)
                (set_vnodes (<[Z.to_nat i := opened_vnode old k item size type]> st.(vnode_cache)) st)) /\
    (item <> 0 -> st.(vfs_memory) !! (item + typeflag_offset) = Some type /\
       exists e, e ∈ l /\ e.(entry_name) = name /\ e.(entry_size) = size).
Proof.
  intros Hid Hk Hp Hlk Hop Hpre Hplen Hname Harch Ei Hi Hold item.
  set (v0 := mk_vnode 0 0 V_NONE old.(vfs_root) 0).
  set (st2 := set_indices (i + 1) st.(mountpoint_index) (set_vnodes (<[Z.to_nat i := v0]> st.(vnode_cache)) st)).
  destruct (ustar_lookup_run st2 (path + Z.of_nat (length prefix) + 1) flags name l Hname Harch) as (size & type & Hfacts & Hlookup).
  exists size, type. split; [|exact Hfacts].
  assert (st2.(vnode_cache) !! Z.to_nat i = Some v0) as Hv2
    by (apply list_lookup_insert_eq; by apply lookup_lt_Some in Hold).
  assert (forall w, <[Z.to_nat i := w]> st2.(vnode_cache) = <[Z.to_nat i := w]> st.(vnode_cache)) as Htwice
    by (intros w; apply list_insert_insert_eq).
  unfold vfs_open. rewrite (bind_run _ _ _ _ _ (vnode_get_next_free_run st i old Ei Hi Hold)).
  destruct (Z.eqb_spec i (-1)); [lia|]. fold v0. fold st2.
  assert (vfs_lookup path flags i st2 = Ret (0, set_vnodes (<[Z.to_nat i := opened_vnode old k item size type]> st.(vnode_cache)) st2)) as Hrun.
  2:{ by rewrite (bind_run _ _ _ _ _ Hrun). }
  unfold vfs_lookup. rewrite (bind_run _ _ _ _ _ (get_mountpoint_id_frame st st2 path k eq_refl eq_refl Hid)), (bind_run get _ _ _ _ eq_refl).
  rewrite (bind_run _ _ st2 p st2).
  2:{ unfold read_mountpoint, bind, get. destruct (Z.ltb_spec k 0); [lia|]. change (mountpoints st2) with (mountpoints st). by rewrite Hp. }
  rewrite (bind_run _ _ st2 (path + Z.of_nat (length prefix)) st2).
  2:{ apply in_bytes_run. unfold vfs_get_relative_path. change (vfs_memory st2) with (vfs_memory st).
      rewrite (bind_run _ _ _ _ _ (strlen_run _ _ _ Hpre ltac:(lia))). unfold ret. by rewrite i32_small by lia. }
  rewrite Hop, Hlk, (bind_run _ _ _ _ _ (read_vnode_run st2 i v0 (proj1 Hi) Hv2)), (bind_run _ _ _ _ _ (Hlookup v0 eq_refl eq_refl)).
  pose proof (fun v => vnode_opened_run st2 i v0 v (path + Z.of_nat (length prefix)) flags (proj1 Hi) ltac:(simpl; lia) Hv2) as Hrest.
  unfold opened_vnode. rewrite <- Htwice. change (seek_result (ustar_root_item st2) l name) with item. destruct (item =? 0).
  - exact (Hrest v0 eq_refl).
  - exact (Hrest (mk_vnode size 0 (if type =? 48 then V_REGULAR_FILE else V_NONE) (Some k) item) eq_refl).
Qed.

(** C28: [vfs_open] on a path below a mount point of the ustar driver. It takes the next
    vnode and returns its number, whether the file is there or not: for a file of the
    archive the vnode has its size, its place and the mount point; for any other name
    it is empty and keeps the mount point of the file it stood for before. *)
Theorem vfs_open_spec st path flags k prefix name l old i p :
  vfs_get_mountpoint_id path st = Ret (k, st) -> 0 <= k ->
  st.(mountpoints) !! Z.to_nat k = Some p -> p.(lookup_operation) = ustar_operation -> p.(file_operations).(op_open) = ustar_operation ->
  cstring st.(vfs_memory) (path_address st.(mountpoints_address) k) prefix -> Z.of_nat (length prefix) < 2 ^ 31 ->
  cstring st.(vfs_memory) (path + Z.of_nat (length prefix) + 1) name ->
  archive st.(vfs_memory) st.(ustar_root_item) l ->
  i = st.(vnode_index) -> 0 <= i < OPENEDFILES_MAX -> st.(vnode_cache) !! Z.to_nat i = Some old ->
  let item := seek_result st.(ustar_root_item) l name in
  exists size type,
    vfs_open path flags st =
      Ret (i, set_indices (i + 1) st.(mountpoint_index)
                (set_vnodes (<[Z.to_nat i := opened_vnode old k item size type]> st.(vnode_cache)) st)) /\
    (item <> 0 -> st.(vfs_memory) !! (item + typeflag_offset) = Some type /\
       exists e, e ∈ l /\ e.(entry_name) = name /\ e.(entry_size) = size).
Proof. apply vfs_open_run. Qed.
End Open.

(** ** Witnesses *)

(** An archive at 0x10000 with the file ["a"] of five bytes, the path ["/external/a"]
    at 0x500, ["a"] at 0x600, ["b"] at 0x610, ["/external/b"] at 0x520, a buffer at 0x700,
    and the mount points at 0x1000 as [vfs_init] leaves them. *)
Definition zeros (n : nat) : list Z := repeat 0 n.
Definition sample_archive : list Z :=
  [97] ++ zeros 123 ++ repeat 48 10 ++ [53] ++ zeros 21 ++ [48] ++ zeros 355 ++
  [104; 101; 108; 108; 111] ++ zeros 507 ++ zeros 512.
Definition bytes_at (a : Z) (l : list Z) : list (Z * Z) := zip (seqZ a (Z.of_nat (length l))) l.
Definition sample_path (c : Z) : list Z := str_external ++ [47; c; 0].
Definition sample_fs_memory : memory :=
  list_to_map (bytes_at 0x10000 sample_archive ++ bytes_at 0x500 (sample_path 97) ++ bytes_at 0x520 (sample_path 98) ++
    bytes_at 0x600 [97; 0] ++ bytes_at 0x610 [98; 0] ++ bytes_at 0x700 (zeros 16) ++ bytes_at 0x1000 (zeros 680)).
Definition sample_fs : vfs_state :=
  match vfs_init (mk_vfs sample_fs_memory 0x1000 (repeat (mk_mountpoint no_operation no_operations) 5)
                    (repeat (mk_vnode 0 0 V_NONE None 0) 5) 0 0 0x10000) with
  | Ret (_, s) => s
  | _ => mk_vfs ∅ 0 [] [] 0 0 0
  end.

Definition mapped_check (m : memory) (a n : Z) : bool :=
  forallb (fun i => match m !! (a + i) with Some v => (0 <=? v) && (v <? 2 ^ 8) | None => false end) (seqZ 0 n).
Lemma mapped_check_ok m a n : mapped_check m a n = true -> mapped m a n.
Proof.
  unfold mapped_check. rewrite forallb_forall. intros Hc i Hi. specialize (Hc i). rewrite <- list_elem_of_In, elem_of_seqZ in Hc.
  specialize (Hc ltac:(lia)). destruct (m !! (a + i)) as [v|]; [|done]. zbool. exists v. split; [done|lia].
Qed.

Definition zero_check (m : memory) (a n : Z) : bool :=
  forallb (fun i => match m !! (a + i) with Some v => v =? 0 | None => false end) (seqZ 0 n).
Lemma zero_check_ok m a n : zero_check m a n = true -> forall i, 0 <= i < n -> m !! (a + i) = Some 0.
Proof.
  unfold zero_check. rewrite forallb_forall. intros Hc i Hi. specialize (Hc i). rewrite <- list_elem_of_In, elem_of_seqZ in Hc.
  specialize (Hc ltac:(lia)). destruct (m !! (a + i)) as [v|]; [|done]. zbool. by subst.
Qed.

Lemma sample_archive_ok : archive sample_fs.(vfs_memory) 0x10000 [mk_entry [97] 5].
Proof.
  split.
  - split; [apply mapped_check_ok; vm_compute; reflexivity|]. split; [discriminate|]. split; [split; [vm_compute; reflexivity|split; [lia|vm_compute; reflexivity]]|].
    split; [|reflexivity]. exists (repeat 0 10 ++ [5]). split; [done|]. split; [by repeat constructor|]. split; [done|].
    intros i d Hi. do 11 (destruct i as [|i]; [injection Hi as <-; vm_compute; reflexivity|]). discriminate Hi.
  - cbn [archive]. apply zero_check_ok. vm_compute. reflexivity.
Qed.

(** A string in the sample, byte by byte. *)
Ltac sample_string := repeat (split; [vm_compute; reflexivity|split; [lia|]]); vm_compute; reflexivity.

Lemma sample_a : cstring sample_fs.(vfs_memory) 0x600 [97].
Proof. sample_string. Qed.
Lemma sample_b : cstring sample_fs.(vfs_memory) 0x610 [98].
Proof. sample_string. Qed.
Lemma sample_path_a : cstring sample_fs.(vfs_memory) 0x500 (str_external ++ [47; 97]).
Proof. sample_string. Qed.
Lemma sample_path_b : cstring sample_fs.(vfs_memory) 0x520 (str_external ++ [47; 98]).
Proof. sample_string. Qed.
Lemma sample_rest_a : cstring sample_fs.(vfs_memory) 0x50a [97].
Proof. sample_string. Qed.
Lemma sample_rest_b : cstring sample_fs.(vfs_memory) 0x52a [98].
Proof. sample_string. Qed.
Lemma sample_mountpoints : sample_fs.(mountpoints) !! 3%nat = Some (mk_mountpoint ustar_operation ustar_operations).
Proof. vm_compute. reflexivity. Qed.
Lemma sample_vnodes : sample_fs.(vnode_cache) !! 0%nat = Some (mk_vnode 0 0 V_NONE None 0).
Proof. vm_compute. reflexivity. Qed.
Lemma sample_indices : 0 = sample_fs.(vnode_index) /\ sample_fs.(mountpoint_index) = 3 /\
  sample_fs.(mountpoints_address) = 0x1000 /\ sample_fs.(ustar_root_item) = 0x10000.
Proof. vm_compute. repeat split. Qed.

Lemma ustar_seek_finds_witness :
  ustar_seek 0x600 0x10000 sample_fs.(vfs_memory) = Ret (0x10000, sample_fs.(vfs_memory)) /\
  ustar_seek 0x610 0x10000 sample_fs.(vfs_memory) = Ret (0, sample_fs.(vfs_memory)).
Proof.
  split.
  - apply (ustar_seek_finds sample_fs.(vfs_memory) 0x600 [97] 0x10000 [mk_entry [97] 5]); [exact sample_a|exact sample_archive_ok].
  - apply (ustar_seek_finds sample_fs.(vfs_memory) 0x610 [98] 0x10000 [mk_entry [97] 5]); [exact sample_b|exact sample_archive_ok].
Defined.

Definition sample_paths (i : Z) : list Z :=
  if i =? 1 then str_home_mount else if i =? 2 then str_usr else if i =? 3 then str_external else [].

Lemma sample_paths_ok i : 1 <= i < MOUNTPOINTS_MAX ->
  cstring sample_fs.(vfs_memory) (path_address 0x1000 i) (sample_paths i) /\ Z.of_nat (length (sample_paths i)) < 2 ^ 64.
Proof.
  intros Hi. assert (i = 1 \/ i = 2 \/ i = 3 \/ i = 4) as [-> | [-> | [-> | ->]]] by (unfold MOUNTPOINTS_MAX in Hi; lia);
    (split; [sample_string|reflexivity]).
Qed.

Lemma vfs_get_mountpoint_id_longest_witness :
  exists r len, vfs_get_mountpoint_id 0x500 sample_fs = Ret (r, sample_fs) /\
    longest (str_external ++ [47; 97]) sample_paths 1 MOUNTPOINTS_MAX r len.
Proof.
  destruct sample_indices as (_ & _ & Ea & _).
  apply vfs_get_mountpoint_id_longest; [exact sample_path_a|reflexivity|rewrite Ea; exact sample_paths_ok].
Defined.

(** The choice leaves the state alone, so that its result is enough to know its run. *)
Definition chosen (path : Z) : option Z :=
  match vfs_get_mountpoint_id path sample_fs with Ret (k, _) => Some k | _ => None end.
Lemma sample_chosen path s : cstring sample_fs.(vfs_memory) path s -> Z.of_nat (length s) < 2 ^ 64 -> chosen path = Some 3 ->
  vfs_get_mountpoint_id path sample_fs = Ret (3, sample_fs).
Proof.
  intros Hs Hl. destruct sample_indices as (_ & _ & Ea & _).
  destruct (vfs_get_mountpoint_id_run sample_fs path s sample_paths Hs Hl) as (r & len & Hrun & _); [rewrite Ea; exact sample_paths_ok|].
  unfold chosen. rewrite Hrun. by intros [= ->].
Qed.
Lemma sample_mountpoint_a : vfs_get_mountpoint_id 0x500 sample_fs = Ret (3, sample_fs).
Proof. apply (sample_chosen 0x500 _ sample_path_a); vm_compute; reflexivity. Qed.
Lemma sample_mountpoint_b : vfs_get_mountpoint_id 0x520 sample_fs = Ret (3, sample_fs).
Proof. apply (sample_chosen 0x520 _ sample_path_b); vm_compute; reflexivity. Qed.

Lemma sample_prefix : cstring sample_fs.(vfs_memory) (path_address 0x1000 3) str_external.
Proof. apply (sample_paths_ok 3). split; [discriminate|reflexivity]. Qed.

Lemma vfs_open_spec_witness :
  exists size type,
    vfs_open 0x500 2 sample_fs = Ret (0, set_indices 1 sample_fs.(mountpoint_index)
      (set_vnodes (<[0%nat := opened_vnode (mk_vnode 0 0 V_NONE None 0) 3 (seek_result sample_fs.(ustar_root_item) [mk_entry [97] 5] [97]) size type]> sample_fs.(vnode_cache)) sample_fs)) /\
    exists size' type', vfs_open 0x520 2 sample_fs = Ret (0, set_indices 1 sample_fs.(mountpoint_index)
      (set_vnodes (<[0%nat := opened_vnode (mk_vnode 0 0 V_NONE None 0) 3 (seek_result sample_fs.(ustar_root_item) [mk_entry [97] 5] [98]) size' type']> sample_fs.(vnode_cache)) sample_fs)).
Proof.
  destruct sample_indices as (Ei & _ & Ea & Er).
  assert (cstring sample_fs.(vfs_memory) (path_address sample_fs.(mountpoints_address) 3) str_external) as Hpre
    by (rewrite Ea; exact sample_prefix).
  assert (archive sample_fs.(vfs_memory) sample_fs.(ustar_root_item) [mk_entry [97] 5]) as Harch by (rewrite Er; exact sample_archive_ok).
  assert (0 <= 0 < OPENEDFILES_MAX) as Hi by (split; [discriminate|reflexivity]).
  assert (0 <= 3) as H3 by discriminate. assert (Z.of_nat (length str_external) < 2 ^ 31) as Hl by reflexivity.
  destruct (vfs_open_spec sample_fs 0x500 2 3 str_external [97] [mk_entry [97] 5] _ 0 _
    sample_mountpoint_a H3 sample_mountpoints eq_refl eq_refl Hpre Hl sample_rest_a Harch Ei Hi sample_vnodes) as (size & type & Hrun & _).
  destruct (vfs_open_spec sample_fs 0x520 2 3 str_external [98] [mk_entry [97] 5] _ 0 _
    sample_mountpoint_b H3 sample_mountpoints eq_refl eq_refl Hpre Hl sample_rest_b Harch Ei Hi sample_vnodes) as (size' & type' & Hrun' & _).
  exists size, type. split; [exact Hrun|]. exists size', type'. exact Hrun'.
Defined.
