(* ===== verification/Files.v ===== *)
(** Files from end to end: [open] of [fs/fcntl.c], [read] and [close] of
    [libc/unistd.c], over the scheduler and the virtual file system. *)
From S2P Require Import Prelude Scheduler CString Task Vfs.

Record files_state : Type := mk_files {
  fl_sched : sched_state;
  fl_vfs : vfs_state;
}.
Definition in_fl_sched {A} (m : M sched_state A) : M files_state A := zoom fl_sched (fun x s => mk_files x s.(fl_vfs)) m.
Definition in_fl_vfs {A} (m : M vfs_state A) : M files_state A := zoom fl_vfs (fun x s => mk_files s.(fl_sched) x) m.

(** The descriptor of the task is only logged: the number of the vnode is returned. *)
Definition open (path flags : Z) : M files_state Z :=
  let! new_fd := in_fl_sched task_alloc_fd in
  in_fl_vfs (vfs_open path flags).

(** ** Reading *)

Section Read.
Implicit Types (m : memory) (st : vfs_state).

(** Two stretches of memory that have no byte in common. *)
Definition apart (a n b k : Z) : Prop := a + n <= b \/ b + k <= a.

Lemma ustar_read_loop_run buf src text : forall (n : nat) i m,
  cstring m (src + i) text ->
  (forall j, 0 <= j < Z.of_nat n -> is_Some (m !! (buf + i + j))) ->
  apart (buf + i) (Z.of_nat n) (src + i) (Z.of_nat (length text) + 1) ->
  ustar_read_loop n buf src i m =
    Ret (i + Z.of_nat (Nat.min n (length text)), write_text m (buf + i) (take n (text ++ [0]))).
Proof.
  induction text as [|c text IH]; intros [|n] i m Hs Hb Ha; cbn [ustar_read_loop]; try (unfold ret; simpl; by rewrite Z.add_0_r).
  - rewrite (bind_run _ _ _ _ _ (load_run m (src + i) 0 Hs)).
    rewrite (bind_run _ _ _ _ _ (store_run m (buf + i) 0 ltac:(rewrite <- (Z.add_0_r (buf + i)); apply Hb; lia))).
    simpl. rewrite take_nil. simpl. unfold ret. do 2 f_equal. lia.
  - destruct Hs as (Hc & Hc0 & Hs). rewrite (bind_run _ _ _ _ _ (load_run m (src + i) c Hc)).
    rewrite (bind_run _ _ _ _ _ (store_run m (buf + i) c ltac:(rewrite <- (Z.add_0_r (buf + i)); apply Hb; lia))).
    destruct (Z.eqb_spec c 0); [lia|]. rewrite IH; replace (buf + (i + 1)) with (buf + i + 1) by lia; replace (src + (i + 1)) with (src + i + 1) by lia.
    + simpl. do 2 f_equal. lia.
    + apply (cstring_ext m); [done|]. intros z Hz. apply lookup_insert_ne. unfold apart in Ha. simpl in Ha. lia.
    + intros j Hj. replace (buf + i + 1 + j) with (buf + i + (1 + j)) by lia.
      rewrite lookup_insert_ne by lia. apply Hb. lia.
    + unfold apart in *. simpl in Ha. lia.
Qed.

(** [read] of a file of an archive: the bytes up to the first zero, as many as asked
    for, whatever the size of the file says. *)
Lemma vfs_read_run st i v k p buf nbytes text :
  0 <= i < OPENEDFILES_MAX -> st.(vnode_cache) !! Z.to_nat i = Some v -> v.(vfs_root) = Some k -> 0 <= k ->
  st.(mountpoints) !! Z.to_nat k = Some p -> p.(file_operations).(op_read) = ustar_operation ->
  0 < v.(v_data) -> cstring st.(vfs_memory) (v.(v_data) + HEADER_SIZE) text ->
  0 <= nbytes -> (forall j, 0 <= j < nbytes -> is_Some (st.(vfs_memory) !! (buf + j))) ->
  apart buf nbytes (v.(v_data) + HEADER_SIZE) (Z.of_nat (length text) + 1) ->
  read i buf nbytes st =
    Ret (Z.min nbytes (Z.of_nat (length text)),
         set_vfs_memory (write_text st.(vfs_memory) buf (take (Z.to_nat nbytes) (text ++ [0]))) st).
Proof.
  intros Hi Hv Hroot Hk Hp Hop Hd Hs Hn Hb Ha. unfold read.
  assert ((0 <=? i) && (i <? OPENEDFILES_MAX) = true) as -> by (apply andb_true_iff; lia).
  rewrite (bind_run _ _ _ _ _ (read_vnode_run st i v (proj1 Hi) Hv)). unfold vfs_read. rewrite Hroot.
  destruct (Z.eqb_spec v.(v_data) 0); [lia|]. change (negb false) with true. cbv iota.
  rewrite (bind_run _ _ st p st).
  2:{ unfold read_mountpoint, bind, get. destruct (Z.ltb_spec k 0); [lia|]. by rewrite Hp. }
  rewrite Hop. unfold ustar_read, ustar_get_file_start. destruct (Z.eqb_spec v.(v_data) 0); [lia|]. change (negb false) with true. cbv iota.
  destruct (Z.eqb_spec (v.(v_data) + HEADER_SIZE) 0); [unfold HEADER_SIZE in *; lia|]. change (negb false) with true. cbv iota.
  unfold in_bytes, zoom. rewrite (ustar_read_loop_run buf (v.(v_data) + HEADER_SIZE) text); rewrite ?Z.add_0_r.
  - do 2 f_equal. lia.
  - done.
  - intros j Hj. apply Hb. lia.
  - by rewrite Z2Nat.id by lia.
Qed.

(** [close] of a file opened once gives its vnode back empty; the next file is opened
    on another. *)
Lemma close_run st i v k p :
  0 <= i < OPENEDFILES_MAX -> st.(vnode_cache) !! Z.to_nat i = Some v -> v.(vfs_root) = Some k -> 0 <= k ->
  st.(mountpoints) !! Z.to_nat k = Some p -> v.(v_data) <> 0 -> v.(refcount) = 1 ->
  close i st = Ret (0, set_vnodes (<[Z.to_nat i := mk_vnode 0 0 V_NONE (Some k) 0]> st.(vnode_cache)) st).
Proof.
  intros Hi Hv Hroot Hk Hp Hd Hr. unfold close.
  assert ((0 <=? i) && (i <? OPENEDFILES_MAX) = true) as -> by (apply andb_true_iff; lia).
  unfold vfs_close. unfold bind at 1. rewrite (bind_run _ _ _ _ _ (read_vnode_run st i v (proj1 Hi) Hv)), Hroot.
  rewrite (bind_run _ _ st tt st).
  2:{ rewrite (bind_run _ _ st p st) by (unfold read_mountpoint, bind, get; destruct (Z.ltb_spec k 0); [lia|]; by rewrite Hp).
      destruct (op_close (file_operations p)); [done|]. unfold ustar_close. by destruct (Z.eqb_spec v.(v_data) 0). }
  cbv zeta. cbn [refcount]. rewrite Hr. change (i32 (1 - 1) =? 0) with true. cbv iota. unfold vnode_clear. cbn [vfs_root].
  by rewrite (bind_run _ _ _ _ _ (write_vnode_run st i v _ (proj1 Hi) Hv)).
Qed.
End Read.

(** ** From end to end *)

Section Files.
Variables (s : files_state) (t : thread_t) (task : task_t).
Variables (path flags k : Z) (prefix name : list Z) (l : list entry) (old : vnode_t) (p : mountpoint_t) (buf nbytes : Z) (text : list Z).
Let st := s.(fl_vfs).
Let item := seek_result st.(ustar_root_item) l name.
Let i := st.(vnode_index).

(** A path below a mount point of the ustar driver whose archive has a file of that name,
    with a free vnode, and a buffer apart from the bytes of the file. *)
Record file_ready : Prop := {
  fr_thread : s.(fl_sched).(current_executing_thread) <> 0 /\ s.(fl_sched).(threads) !! s.(fl_sched).(current_executing_thread) = Some t;
  fr_task : t.(parent_task) <> 0 /\ s.(fl_sched).(tasks) !! t.(parent_task) = Some task;
  fr_mountpoint : vfs_get_mountpoint_id path st = Ret (k, st) /\ 0 <= k /\ st.(mountpoints) !! Z.to_nat k = Some p;
  fr_driver : p.(lookup_operation) = ustar_operation /\ p.(file_operations) = ustar_operations;
  fr_prefix : cstring st.(vfs_memory) (path_address st.(mountpoints_address) k) prefix /\ Z.of_nat (length prefix) < 2 ^ 31;
  fr_name : cstring st.(vfs_memory) (path + Z.of_nat (length prefix) + 1) name;
  fr_archive : archive st.(vfs_memory) st.(ustar_root_item) l /\ 0 < item;
  fr_vnode : 0 <= i < OPENEDFILES_MAX /\ st.(vnode_cache) !! Z.to_nat i = Some old;
  fr_text : cstring st.(vfs_memory) (item + HEADER_SIZE) text;
  fr_buffer : 0 <= nbytes /\ (forall j, 0 <= j < nbytes -> is_Some (st.(vfs_memory) !! (buf + j))) /\
    apart buf nbytes (item + HEADER_SIZE) (Z.of_nat (length text) + 1);
}.

(** What [open] leaves, but for the size and the type in the vnode. *)
Definition opened (v : vnode_t) : files_state :=
  mk_files (set_tasks (<[t.(parent_task) := set_next_file_descriptor (u32 (task.(next_file_descriptor) + 1)) task]> s.(fl_sched).(tasks)) s.(fl_sched))
    (set_indices (i + 1) st.(mountpoint_index) (set_vnodes (<[Z.to_nat i := v]> st.(vnode_cache)) st)).

Lemma open_run : file_ready -> exists size e vt,
  e ∈ l /\ e.(entry_name) = name /\ e.(entry_size) = size /\
  open path flags s = Ret (i, opened (mk_vnode size 1 vt (Some k) item)).
Proof.
  intros [[Hc Ht] [Hq Hk] (Hid & Hk0 & Hp) [Hlk Hops] [Hpre Hplen] Hname [Harch Hitem] [Hi Hold] _ _].
  assert (p.(file_operations).(op_open) = ustar_operation) as Hop by by rewrite Hops.
  destruct (vfs_open_run st path flags k prefix name l old i p Hid Hk0 Hp Hlk Hop Hpre Hplen Hname Harch eq_refl Hi Hold)
    as (size & type & Hrun & Hfacts). fold item in Hrun, Hfacts. destruct Hfacts as (_ & e & He & Hen & Hes); [lia|].
  exists size, e, (if type =? 48 then V_REGULAR_FILE else V_NONE). split; [done|]. split; [done|]. split; [done|].
  unfold open. rewrite (bind_run _ _ s task.(next_file_descriptor) (mk_files (opened old).(fl_sched) st)).
  - unfold in_fl_vfs, zoom. cbn [fl_vfs]. rewrite Hrun. unfold opened_vnode. destruct (Z.eqb_spec item 0); [lia|done].
  - unfold in_fl_sched, zoom, task_alloc_fd. rewrite (bind_run get _ _ _ _ eq_refl), (bind_run _ _ _ _ _ (read_thread_run _ _ t Hc Ht)).
    rewrite (bind_run _ _ _ _ _ (read_task_run _ _ task Hq Hk)). by rewrite (bind_run _ _ _ _ _ (update_task_run _ _ _ task Hq Hk)).
Qed.

Lemma in_fl_vfs_run {A} (m : M vfs_state A) (x : files_state) (a : A) y :
  m x.(fl_vfs) = Ret (a, y) -> in_fl_vfs m x = Ret (a, mk_files x.(fl_sched) y).
Proof. intros E. unfold in_fl_vfs, zoom. by rewrite E. Qed.

(** C16: [open], [read] and [close] of a file of an archive, one after the other. The
    descriptor is the number of the next vnode. The buffer gets the bytes of the file up
    to the first zero, that zero too if there is room, but no more than asked for, and
    [read] gives their number without the zero; the size in the header does not matter.
    After [close] the vnode is empty; its number is not used again, and the task has
    counted one more descriptor. Nothing else changes. *)
Theorem open_read_close_reads : file_ready ->
  (let! fd := open path flags in
   let! count := in_fl_vfs (read fd buf nbytes) in
   let! result := in_fl_vfs (close fd) in
   ret (fd, count, result)) s =
  Ret ((i, Z.min nbytes (Z.of_nat (length text)), 0),
    let s' := opened (mk_vnode 0 0 V_NONE (Some k) 0) in
    mk_files s'.(fl_sched) (set_vfs_memory (write_text st.(vfs_memory) buf (take (Z.to_nat nbytes) (text ++ [0]))) s'.(fl_vfs))).
Proof.
  intros Hready. destruct (open_run Hready) as (size & e & vt & _ & _ & _ & Hopen).
  destruct Hready as [_ _ (_ & Hk0 & Hp) [_ Hops] _ _ [_ Hitem] [Hi Hold] Htext (Hn & Hbuf & Hapart)].
  rewrite (bind_run _ _ _ _ _ Hopen). set (v := mk_vnode size 1 vt (Some k) item). set (st1 := (opened v).(fl_vfs)).
  assert (st1.(vnode_cache) !! Z.to_nat i = Some v) as Hv by (apply list_lookup_insert_eq; by apply lookup_lt_Some in Hold).
  assert (p.(file_operations).(op_read) = ustar_operation) as Hop by by rewrite Hops.
  pose proof (vfs_read_run st1 i v k p buf nbytes text Hi Hv eq_refl Hk0 Hp Hop Hitem Htext Hn Hbuf Hapart) as Hread.
  rewrite (bind_run _ _ _ _ _ (in_fl_vfs_run _ (opened v) _ _ Hread)).
  match type of Hread with _ = Ret (_, ?y) => set (st2 := y) in * end.
  pose proof (close_run st2 i v k p Hi Hv eq_refl Hk0 Hp ltac:(unfold v; simpl; lia) eq_refl) as Hclose.
  rewrite (bind_run _ _ _ _ _ (in_fl_vfs_run _ (mk_files (opened v).(fl_sched) st2) _ _ Hclose)).
  unfold st2, st1, opened. simpl. by rewrite list_insert_insert_eq.
Qed.
End Files.

(** The numbers of vnodes only go up: once all were used [open] stops the kernel, even
    when every file has been closed. *)
Lemma vnodes_run_out st path flags : st.(vnode_index) = OPENEDFILES_MAX -> vfs_open path flags st = Fault Halted.
Proof. intros E. unfold vfs_open, vnode_get_next_free, bind, get. by rewrite E. Qed.
Lemma close_keeps_index st i v k p :
  0 <= i < OPENEDFILES_MAX -> st.(vnode_cache) !! Z.to_nat i = Some v -> v.(vfs_root) = Some k -> 0 <= k ->
  st.(mountpoints) !! Z.to_nat k = Some p -> v.(v_data) <> 0 -> v.(refcount) = 1 ->
  exists st', close i st = Ret (0, st') /\ st'.(vnode_index) = st.(vnode_index).
Proof. intros. eexists. split; [by eapply close_run|done]. Qed.

(** ** Witness *)

(** The file ["a"] of the archive of [Vfs], read into the buffer at 0x700. *)
Definition sample_files : files_state := mk_files sample_sched sample_fs.

Lemma sample_text : cstring sample_fs.(vfs_memory) (0x10000 + HEADER_SIZE) [104; 101; 108; 108; 111].
Proof. sample_string. Qed.

Lemma sample_file_ready :
  file_ready sample_files (sample_thread 1 RUN 0 0x20) (mk_task 0 [] 0x400000 3 0 0 0 4 ALIVE 0) 0x500 3 str_external [97] [mk_entry [97] 5]
    (mk_vnode 0 0 V_NONE None 0) (mk_mountpoint ustar_operation ustar_operations) 0x700 11 [104; 101; 108; 108; 111].
Proof.
  destruct sample_indices as (Ei & _ & Ea & Er).
  assert (seek_result sample_fs.(ustar_root_item) [mk_entry [97] 5] [97] = 0x10000) as Eitem by (rewrite Er; vm_compute; reflexivity).
  constructor; cbn [fl_vfs fl_sched sample_files]; rewrite ?Eitem, <- ?Ei.
  - split; [done|]. vm_compute. reflexivity.
  - split; [done|]. vm_compute. reflexivity.
  - split; [exact sample_mountpoint_a|]. split; [lia|exact sample_mountpoints].
  - split; reflexivity.
  - split; [rewrite Ea; exact sample_prefix|reflexivity].
  - exact sample_rest_a.
  - split; [rewrite Er; exact sample_archive_ok|lia].
  - split; [unfold OPENEDFILES_MAX; lia|exact sample_vnodes].
  - exact sample_text.
  - split; [lia|]. split; [|unfold apart, HEADER_SIZE; simpl; lia].
    intros j Hj. assert (mapped sample_fs.(vfs_memory) 0x700 11) as Hm by (apply mapped_check_ok; vm_compute; reflexivity).
    destruct (Hm j Hj) as (c & Hc & _). by exists c.
Qed.

Lemma open_read_close_reads_witness : exists s',
  (let! fd := open 0x500 2 in
   let! count := in_fl_vfs (read fd 0x700 11) in
   let! result := in_fl_vfs (close fd) in
   ret (fd, count, result)) sample_files = Ret ((sample_fs.(vnode_index), 5, 0), s') /\
  s'.(fl_vfs).(vfs_memory) = write_text sample_fs.(vfs_memory) 0x700 [104; 101; 108; 108; 111; 0].
Proof.
  eexists. split; [exact (open_read_close_reads _ _ _ _ 2 _ _ _ _ _ _ _ _ _ sample_file_ready)|]. reflexivity.
Defined.
