(* ===== verification/Window.v ===== *)
(** Rectangles of the screen: [kernel/graphics/window.c]. *)
From S2P Require Import Prelude.

Record _fb_window_t : Type := mk_window {
  x_orig : Z;
  y_orig : Z;
  width : Z;
  height : Z;
}.

(** [None] is the null pointer. *)
Definition _fb_intersect_window (x y : Z) (area_to_intersect : option _fb_window_t) : bool :=
  match area_to_intersect with
  | None => false
  | Some a =>
      if u32 (a.(x_orig) + a.(width)) <? x then false
      else if x <? a.(x_orig) then false
      else if u32 (a.(y_orig) + a.(height)) <? y then false
      else if y <? a.(y_orig) then false
      else true
  end.

(** The entries of [rectangles] that are written, their number being the result. *)
Definition _fb_get_rectangles (main_window : _fb_window_t) (area_to_intersect : option _fb_window_t) : list _fb_window_t :=
  match area_to_intersect with
  | None => []
  | Some a =>
      let w := main_window in
      (if w.(x_orig) <? a.(x_orig)
       then [mk_window w.(x_orig) w.(y_orig) (u32 (a.(x_orig) - w.(x_orig))) w.(height)] else []) ++
      (if u32 (a.(x_orig) + a.(width)) <? u32 (w.(x_orig) + w.(width))
       then [mk_window (u32 (a.(x_orig) + a.(width))) w.(y_orig)
               (u32 (u32 (w.(x_orig) + w.(width)) - u32 (a.(x_orig) + a.(width)))) w.(height)] else []) ++
      (if w.(y_orig) <? a.(y_orig)
       then [mk_window a.(x_orig) w.(y_orig) a.(width) (u32 (a.(y_orig) - w.(y_orig)))] else []) ++
      (if u32 (a.(y_orig) + a.(height)) <? u32 (w.(y_orig) + w.(height))
       then [mk_window a.(x_orig) (u32 (a.(y_orig) + a.(height))) a.(width)
               (u32 (u32 (w.(y_orig) + w.(height)) - u32 (a.(y_orig) + a.(height))))] else [])
  end.

(** The points of a window. *)
Definition inside (x y : Z) (w : _fb_window_t) : bool :=
  ((w.(x_orig) <=? x) && (x <? w.(x_orig) + w.(width))) && ((w.(y_orig) <=? y) && (y <? w.(y_orig) + w.(height))).

(** A window of the 32-bit plane. *)
Definition window_ok (w : _fb_window_t) : Prop :=
  0 <= w.(x_orig) /\ 0 <= w.(y_orig) /\ 0 <= w.(width) /\ 0 <= w.(height) /\
  w.(x_orig) + w.(width) < 2 ^ 32 /\ w.(y_orig) + w.(height) < 2 ^ 32.

Definition within (a w : _fb_window_t) : Prop :=
  w.(x_orig) <= a.(x_orig) /\ a.(x_orig) + a.(width) <= w.(x_orig) + w.(width) /\
  w.(y_orig) <= a.(y_orig) /\ a.(y_orig) + a.(height) <= w.(y_orig) + w.(height).

Lemma rectangles_ok w a : window_ok w -> window_ok a -> within a w ->
  Forall (fun r => window_ok r /\ within r w) (_fb_get_rectangles w (Some a)).
Proof.
  intros (Hw1 & Hw2 & Hw3 & Hw4 & Hw5 & Hw6) (Ha1 & Ha2 & Ha3 & Ha4 & Ha5 & Ha6) (H1 & H2 & H3 & H4).
  unfold _fb_get_rectangles. rewrite !(u32_small (_ + _)) by lia. rewrite !Forall_app.
  repeat match goal with |- context [?p <? ?q] => destruct (Z.ltb_spec p q) end; simpl; split_and!;
    repeat constructor; simpl; rewrite ?u32_small by lia; lia.
Qed.

Lemma count_if x y (c : bool) r :
  length (filter (fun r => inside x y r = true) (if c then [r] else [])) = Nat.b2n (c && inside x y r).
Proof. destruct c; [|done]. simpl. rewrite filter_cons. by destruct (inside x y r). Qed.

Lemma rectangles_partition w a :
  window_ok w -> window_ok a -> within a w ->
  (length (_fb_get_rectangles w (Some a)) <= 4)%nat /\
  forall x y, length (filter (fun r => inside x y r = true) (_fb_get_rectangles w (Some a))) =
    if inside x y w && negb (inside x y a) then 1%nat else 0%nat.
Proof.
  intros (Hw1 & Hw2 & Hw3 & Hw4 & Hw5 & Hw6) (Ha1 & Ha2 & Ha3 & Ha4 & Ha5 & Ha6) (H1 & H2 & H3 & H4).
  unfold _fb_get_rectangles. rewrite !(u32_small (_ + _)) by lia. rewrite !u32_small by lia. split.
  { rewrite !length_app. repeat match goal with |- context [length (if ?b then _ else _)] => destruct b end; simpl; lia. }
  intros x y. rewrite !filter_app, !length_app, !count_if. unfold inside; simpl.
  repeat match goal with
  | |- context [?p <=? ?q] => destruct (Z.leb_spec p q); try (exfalso; lia)
  | |- context [?p <? ?q] => destruct (Z.ltb_spec p q); try (exfalso; lia)
  end; done.
Qed.

(** The rectangles around an area of a window partition the rest of the window:
    a point is in exactly one of them when it is in the window and not in the area,
    and in none otherwise. There are at most four. *)
Theorem _fb_get_rectangles_partition w a :
  window_ok w -> window_ok a -> within a w ->
  (length (_fb_get_rectangles w (Some a)) <= 4)%nat /\
  forall x y, length (filter (fun r => inside x y r = true) (_fb_get_rectangles w (Some a))) =
    if inside x y w && negb (inside x y a) then 1%nat else 0%nat.
Proof. apply rectangles_partition. Qed.

Lemma _fb_get_rectangles_partition_witness :
  length (_fb_get_rectangles (mk_window 0 0 1024 768) (Some (mk_window 774 0 250 250))) = 2%nat /\
  length (filter (fun r => inside 800 300 r = true) (_fb_get_rectangles (mk_window 0 0 1024 768) (Some (mk_window 774 0 250 250)))) = 1%nat.
Proof.
  split; [reflexivity|].
  apply (_fb_get_rectangles_partition (mk_window 0 0 1024 768) (mk_window 774 0 250 250));
    unfold window_ok, within; simpl; lia.
Defined.
