(* ===== verification/Console.v ===== *)
(** What a screen promises to the code that writes characters on it: the interface
    between the keyboard and the framebuffer. [Framebuffer] implements it. *)
From S2P Require Import Prelude CString.

(** A screen in the memory of bytes everything shares. *)
Class Console (F : Type) : Type := {
  console_memory : F -> memory;
  set_console_memory : memory -> F -> F;
  putchar : Z -> Z -> Z -> M F unit;
  new_line : M F unit;
}.

(** The addresses of [console_area] are those it looks at or draws to. A screen with
    room for one more character draws it, and changes no other byte; with room for two
    it can go to the next line; what is stored outside its area does not change it. *)
Class ConsoleLaws (F : Type) `{Console F} : Type := {
  console_area : F -> Z -> Prop;
  console_room : F -> nat -> Prop;
  console_memory_set : forall m (f : F), console_memory (set_console_memory m f) = m;
  console_store : forall (f : F) n a v, console_room f n -> ~ console_area f a ->
    let f' := set_console_memory (<[a := u8 v]> (console_memory f)) f in
    console_room f' n /\ forall b, console_area f' b <-> console_area f b;
  console_putchar : forall (f : F) n c fg bg, console_room f (S n) -> 0 <= fg < 2 ^ 32 -> 0 <= bg < 2 ^ 32 ->
    exists f', putchar c fg bg f = Ret (tt, f') /\ console_room f' n /\
      (forall b, console_area f' b <-> console_area f b) /\
      forall b, ~ console_area f b -> console_memory f' !! b = console_memory f !! b;
  console_new_line : forall (f : F) n, console_room f (S (S n)) ->
    exists f', new_line f = Ret (tt, f') /\ console_room f' n /\ console_memory f' = console_memory f;
}.
