(* ===== verification/Framebuffer.v ===== *)
(** The screen: [kernel/framebuffer/framebuffer.c], [kernel/arch/x86_64/framebuffer/framebuffer.c],
    [kernel/graphics/psf.c] and [kernel/graphics/shapes.c]. The memory of the
    framebuffer, the font and the strings are one memory of bytes. What the code
    implements is an image, a color per point: [shows] relates the two, and drawing
    a point, a character or a scroll of lines is stated on images. *)
From S2P Require Import Prelude VmmUtil Mmap Bitmap Paging Boot CString Numbers Bytes Window Console.

Definition MAGIC_V1_0 : Z := 0x36.
Definition MAGIC_V1_1 : Z := 0x04.
Definition MAGIC_V2 : Z := 0x864ab572.
Definition PSF_V1 : Z := 1.
Definition PSF_V2 : Z := 2.
Definition sizeof_PIXEL : Z := 4.

Record framebuffer_info : Type := mk_fb_info {
  address : Z;
  bpp : Z;
  pitch : Z;
  memory_size : Z;
  fb_width : Z;
  fb_height : Z;
  number_of_lines : Z;
  number_of_rows : Z;
  phys_address : Z;
}.

(** [logo_area_ptr] is null or points to [framebuffer_logo_area]; [font] is the
    address of [_binary_fonts_default_psf_start]. *)
Record fb_state : Type := mk_fb {
  framebuffer_data : framebuffer_info;
  cur_fb_line : Z;
  cur_fb_column : Z;
  framebuffer_main_window : _fb_window_t;
  framebuffer_logo_area : _fb_window_t;
  logo_area_ptr : bool;
  psf_font_version : Z;
  font : Z;
  fb_memory : memory;
}.

Definition set_fb_cursor (line column : Z) (s : fb_state) : fb_state :=
  mk_fb s.(framebuffer_data) line column s.(framebuffer_main_window) s.(framebuffer_logo_area) s.(logo_area_ptr)
    s.(psf_font_version) s.(font) s.(fb_memory).
Definition set_fb_memory (m : memory) (s : fb_state) : fb_state :=
  mk_fb s.(framebuffer_data) s.(cur_fb_line) s.(cur_fb_column) s.(framebuffer_main_window) s.(framebuffer_logo_area) s.(logo_area_ptr)
    s.(psf_font_version) s.(font) m.
Definition set_fb_logo (area : _fb_window_t) (p : bool) (s : fb_state) : fb_state :=
  mk_fb s.(framebuffer_data) s.(cur_fb_line) s.(cur_fb_column) s.(framebuffer_main_window) area p
    s.(psf_font_version) s.(font) s.(fb_memory).
Definition set_fb_info (i : framebuffer_info) (w : _fb_window_t) (s : fb_state) : fb_state :=
  mk_fb i s.(cur_fb_line) s.(cur_fb_column) w s.(framebuffer_logo_area) s.(logo_area_ptr)
    s.(psf_font_version) s.(font) s.(fb_memory).

Definition in_fb_memory {A} (m : M memory A) : M fb_state A := zoom fb_memory set_fb_memory m.

(** ** Fonts *)

Definition _psf_get_version (_font_structure : Z) : M memory Z :=
  let! m0 := load _font_structure in
  let! v1 := if m0 =? MAGIC_V1_0 then let! m1 := load (_font_structure + 1) in ret (m1 =? MAGIC_V1_1) else ret false in
  if v1 then ret PSF_V1
  else
    let! magic := load_le 4 _font_structure in
    if magic =? MAGIC_V2 then ret PSF_V2 else ret 0.

(** The glyph's address; [symbolnumber] times the size is an [int] in the first
    format and unsigned in the second. *)
Definition _psf_get_glyph (symbolnumber version : Z) : M fb_state Z :=
  let! start := gets font in
  if version =? PSF_V1 then
    let! charsize := in_fb_memory (load (start + 3)) in
    ret (start + 4 + symbolnumber * charsize)
  else if version =? PSF_V2 then
    let! headersize := in_fb_memory (load_le 4 (start + 8)) in
    let! bytesperglyph := in_fb_memory (load_le 4 (start + 20)) in
    ret (start + headersize + u32 (symbolnumber * bytesperglyph))
  else ret 0.

Definition _psf_get_width (version : Z) : M fb_state Z :=
  let! start := gets font in
  if version =? PSF_V1 then ret 8 else in_fb_memory (load_le 4 (start + 28)).

Definition _psf_get_height (version : Z) : M fb_state Z :=
  let! start := gets font in
  if version =? PSF_V1 then in_fb_memory (load (start + 3)) else in_fb_memory (load_le 4 (start + 24)).

(** ** Points *)

(** A write through a null pointer faults. *)
Definition pixel_write (a color : Z) : M fb_state unit := in_fb_memory (store_le 4 a color).

Definition _fb_put_pixel (x y color : Z) : M fb_state unit :=
  let! s := get in
  let cy := u32 (y * s.(framebuffer_data).(pitch)) in
  let cx := u32 (x * sizeof_PIXEL) in
  pixel_write (s.(framebuffer_data).(address) + cy + cx) color.

Definition _fb_get_pixel (x y : Z) : M fb_state Z :=
  let! s := get in
  let cy := u32 (y * s.(framebuffer_data).(pitch)) in
  let cx := u32 (x * sizeof_PIXEL) in
  in_fb_memory (load_le 4 (s.(framebuffer_data).(address) + cy + cx)).

(** ** Characters *)

(** The loops of [_fb_putcharAt] over the columns and the rows of a glyph; [n]
    columns or rows are left. The address of the glyph's row and the offset of the
    line move on as the code moves them. *)
Fixpoint putchar_columns (n : nat) (framebuffer glyph x line fg bg : Z) : M fb_state unit :=
  match n with
  | O => ret tt
  | S n' =>
      let! row := in_fb_memory (load (glyph + x / 8)) in
      let bit := Z.land row (Z.shiftr 0x80 (Z.land x 7)) in
      do! pixel_write (framebuffer + line) (if negb (bit =? 0) then fg else bg) in
      putchar_columns n' framebuffer glyph (x + 1) (u32 (line + 4)) fg bg
  end.

Fixpoint putchar_rows (n : nat) (framebuffer pitch width bytesperline glyph offset fg bg : Z) : M fb_state unit :=
  match n with
  | O => ret tt
  | S n' =>
      do! putchar_columns (Z.to_nat width) framebuffer glyph 0 (u32 offset) fg bg in
      putchar_rows n' framebuffer pitch width bytesperline (glyph + bytesperline) (u64 (offset + pitch)) fg bg
  end.

Definition _fb_putcharAt (symbol cx cy fg bg : Z) : M fb_state unit :=
  let! s := get in
  let version := s.(psf_font_version) in
  let pitch := s.(framebuffer_data).(pitch) in
  let! width := _psf_get_width version in
  let! height := _psf_get_height version in
  let! glyph := _psf_get_glyph (u8 symbol) version in
  let bytesperline := u32 (width + 7) / 8 in
  let offset := u64 (u64 (u64 (cy * height) * pitch) + u64 (u64 (cx * width) * sizeof_PIXEL)) in
  putchar_rows (Z.to_nat height) s.(framebuffer_data).(address) pitch width bytesperline glyph offset fg bg.

Definition _fb_putchar (symbol fg bg : Z) : M fb_state unit :=
  let! s := get in
  if symbol =? 10 then modify (set_fb_cursor (u64 (s.(cur_fb_line) + 1)) 0)
  else
    do! _fb_putcharAt symbol s.(cur_fb_column) s.(cur_fb_line) fg bg in
    modify (fun s => set_fb_cursor s.(cur_fb_line) (u64 (s.(cur_fb_column) + 1)) s).

(** ** Scrolling *)

(** A point of [_fb_scroll]. *)
Definition scroll_point (line_height : Z) (clear_last_line : bool) (cur_y cur_x : Z) : M fb_state unit :=
  let! c := _fb_get_pixel cur_x (u32 (cur_y + line_height)) in
  do! _fb_put_pixel cur_x cur_y c in
  if clear_last_line then _fb_put_pixel cur_x (u32 (cur_y + line_height)) 0 else ret tt.

(** [while (cur < bound) { body; cur++; }]. *)
Definition while_below {S : Type} (cur bound : Z) (body : Z -> M S unit) : M S unit :=
  for_from (Z.to_nat (bound - cur)) cur body.

Definition scroll_rectangle (line_height : Z) (clear_last_line : bool) (r : _fb_window_t) : M fb_state unit :=
  while_below r.(y_orig) (u32 (r.(y_orig) + r.(height) - line_height)) (fun cur_y =>
    while_below r.(x_orig) (u32 (r.(x_orig) + r.(width))) (scroll_point line_height clear_last_line cur_y)).

Fixpoint for_each {S A : Type} (l : list A) (body : A -> M S unit) : M S unit :=
  match l with
  | [] => ret tt
  | x :: l' => do! body x in for_each l' body
  end.

(** [number_of_lines_to_scroll] is not used. *)
Definition _fb_scroll (scrolling_window : _fb_window_t) (line_height : Z) (area_to_pin : option _fb_window_t)
    (clear_last_line : bool) : M fb_state unit :=
  let! s := get in
  let rectangles := _fb_get_rectangles s.(framebuffer_main_window) area_to_pin in
  let rectangles := match rectangles with [] => [scrolling_window] | _ => rectangles end in
  for_each rectangles (scroll_rectangle line_height clear_last_line).

Definition pinned (s : fb_state) : option _fb_window_t :=
  if s.(logo_area_ptr) then Some s.(framebuffer_logo_area) else None.

(** The call the console makes. *)
Definition scroll_console : M fb_state unit :=
  let! s := get in
  let! height := _psf_get_height s.(psf_font_version) in
  _fb_scroll s.(framebuffer_main_window) height (pinned s) true.

(** ** Text *)

Definition _fb_increaseLine : M fb_state unit :=
  let! s := get in
  let line := u64 (s.(cur_fb_line) + 1) in
  do! modify (set_fb_cursor line s.(cur_fb_column)) in
  if s.(framebuffer_data).(number_of_lines) <=? line then
    do! scroll_console in
    modify (fun s => set_fb_cursor (u64 (s.(cur_fb_line) - 1)) s.(cur_fb_column) s)
  else ret tt.

Fixpoint print_loop (fuel : nat) (string cx cy fg bg : Z) : M fb_state unit :=
  match fuel with
  | O => diverge
  | S fuel' =>
      let! c := in_fb_memory (load string) in
      if c =? 0 then ret tt
      else if c =? 10 then
        do! modify (fun s => set_fb_cursor cy s.(cur_fb_column) s) in
        let! s := get in
        if s.(framebuffer_data).(number_of_lines) <=? u64 (cy + 1) then
          do! scroll_console in print_loop fuel' (string + 1) 0 cy fg bg
        else
          do! modify (fun s => set_fb_cursor (u64 (cy + 1)) s.(cur_fb_column) s) in
          print_loop fuel' (string + 1) 0 (u64 (cy + 1)) fg bg
      else if c =? 9 then
        do! for_upto 4 (fun i => _fb_putcharAt 32 (u64 (cx + i)) cy fg bg) in
        print_loop fuel' (string + 1) (u64 (cx + 4)) cy fg bg
      else
        do! _fb_putcharAt c cx cy fg bg in
        print_loop fuel' (string + 1) (u64 (cx + 1)) cy fg bg
  end.
Definition _fb_printStrAt (string cx cy fg bg : Z) : M fb_state unit :=
  let! fuel := in_fb_memory string_fuel in print_loop fuel string cx cy fg bg.

(** What [_fb_printStr] and [_fb_printStrAndNumber] do after printing. *)
Definition next_line : M fb_state unit :=
  let! s := get in
  let line := u64 (s.(cur_fb_line) + 1) in
  do! modify (set_fb_cursor line 0) in
  if s.(framebuffer_data).(number_of_lines) <=? line then
    do! scroll_console in
    modify (fun s => set_fb_cursor (u64 (s.(cur_fb_line) - 1)) s.(cur_fb_column) s)
  else ret tt.

Definition _fb_printStr (string fg bg : Z) : M fb_state unit :=
  let! line := gets cur_fb_line in
  do! _fb_printStrAt string 0 line fg bg in next_line.

(** [buffer] is the address of the buffer on the stack. *)
Definition _fb_printStrAndNumberAt (buffer string number cx cy fg bg : Z) : M fb_state unit :=
  let! _ := in_fb_memory (_getHexString buffer number true) in
  do! _fb_printStrAt string cx cy fg bg in
  let! counter := in_fb_memory (strlen string) in
  _fb_printStrAt buffer (u64 (cx + counter)) cy fg bg.

Definition _fb_printStrAndNumber (buffer string number fg bg : Z) : M fb_state unit :=
  let! line := gets cur_fb_line in
  do! _fb_printStrAndNumberAt buffer string number 0 line fg bg in next_line.

(** ** Shapes *)

Definition _fb_draw_rectangle (rectangle : _fb_window_t) (color : Z) : M fb_state unit :=
  while_below rectangle.(y_orig) (u32 (rectangle.(y_orig) + rectangle.(height))) (fun i =>
    while_below rectangle.(x_orig) (u32 (rectangle.(x_orig) + rectangle.(width))) (fun j =>
      _fb_put_pixel j i color)).

(** The macro [HEADER_PIXEL] on four characters of the picture: the bytes of the
    point, as the number of [draw_logo]. *)
Definition header_pixel (d0 d1 d2 d3 : Z) : Z :=
  let p0 := u8 (Z.lor (Z.shiftl (d0 - 33) 2) (Z.shiftr (d1 - 33) 4)) in
  let p1 := u8 (Z.lor (Z.shiftl (Z.land (d1 - 33) 0xF) 4) (Z.shiftr (d2 - 33) 2)) in
  let p2 := u8 (Z.lor (Z.shiftl (Z.land (d2 - 33) 0x3) 6) (d3 - 33)) in
  Z.lor (Z.lor (Z.lor (Z.shiftl 0 24) (Z.shiftl p0 16)) (Z.shiftl p1 8)) p2.

(** [header_data] holds the characters of the picture, of [logo_width] by
    [logo_height] points. *)
Definition draw_logo (logo_width logo_height : Z) (header_data : list Z) (start_x start_y : Z) : M fb_state unit :=
  do! modify (set_fb_logo (mk_window start_x start_y logo_width logo_height) true) in
  for_upto logo_height (fun i => for_upto logo_width (fun j =>
    let k := Z.to_nat (4 * (i * logo_width + j)) in
    match take 4 (drop k header_data) with
    | [d0; d1; d2; d3] => _fb_put_pixel (u32 (start_x + j)) (u32 (start_y + i)) (header_pixel d0 d1 d2 d3)
    | _ => throw OutOfBounds
    end)).

(** [get_framebuffer_mode] with the four pointers given. *)
Definition get_framebuffer_mode : M fb_state (Z * Z * Z * Z) :=
  let! s := get in
  let i := s.(framebuffer_data) in
  let! w := _psf_get_width s.(psf_font_version) in
  let! h := _psf_get_height s.(psf_font_version) in
  if (w =? 0) || (h =? 0) then throw DivByZero
  else ret (i.(fb_width), i.(fb_height), i.(fb_width) / w, i.(fb_height) / h).

(** ** Setting up *)

Section Setup.
Context `{PageConfig} {F : Type} `{FrameSource F}.

(** A page is mapped per round of the loop, which is that of
    [hhdm_map_physical_memory]. *)
Definition map_framebuffer (fbdata : framebuffer_info) : M (vm_state F) Z :=
  let address_to_map := fbdata.(phys_address) in
  let virtual_address_start := ensure_address_in_higher_half address_to_map VM_TYPE_MMIO in
  let upper_address_to_map := u64 (address_to_map + fbdata.(memory_size)) in
  do! hhdm_map_loop (S (S (Z.to_nat (fbdata.(memory_size) / PAGE_SIZE_IN_BYTES)))) address_to_map
        virtual_address_start upper_address_to_map in
  ret virtual_address_start.

(** [set_fb_data] on the fields of the tag's [common] part. [number_of_lines] here
    is the global of that name, which nothing reads. *)
Definition set_fb_data (framebuffer_addr framebuffer_pitch framebuffer_width framebuffer_height framebuffer_bpp : Z) :
    M (vm_state F * fb_state) unit :=
  let in_vm {A} (m : M (vm_state F) A) := zoom fst (fun v s => (v, snd s)) m in
  let! s := gets snd in
  let i := s.(framebuffer_data) in
  let i := mk_fb_info i.(address) framebuffer_bpp framebuffer_pitch (u32 (framebuffer_pitch * framebuffer_height))
             framebuffer_width framebuffer_height i.(number_of_lines) i.(number_of_rows) framebuffer_addr in
  let! _ := in_vm (map_framebuffer i) in
  let! a := in_vm (map_framebuffer i) in
  let i := mk_fb_info a i.(bpp) i.(pitch) i.(memory_size) i.(fb_width) i.(fb_height) i.(number_of_lines) i.(number_of_rows)
             i.(phys_address) in
  modify (fun s => (fst s, set_fb_logo (snd s).(framebuffer_logo_area) false (set_fb_cursor 0 0
    (set_fb_info i (mk_window 0 0 i.(fb_width) i.(fb_height)) (snd s))))).
End Setup.

(** ** Images *)

(** The cases of where a point lies. *)
Ltac compare_points :=
  repeat match goal with
  | |- context [if ?p <? ?q then _ + 1 else _] => destruct (Z.ltb_spec p q); try (exfalso; lia)
  | |- context [?p =? ?q] => destruct (Z.eqb_spec p q); try (exfalso; lia)
  | |- context [?p <=? ?q] => destruct (Z.leb_spec p q); try (exfalso; lia)
  | |- context [?p <? ?q] => destruct (Z.ltb_spec p q); try (exfalso; lia)
  end; simpl.

Section Images.
Implicit Types (s : fb_state) (img : Z -> Z -> Z).

(** The framebuffer is mapped, a line of it holds the points of a row, and offsets
    fit the 32 bits they are computed in. *)
Record fb_ok s : Prop := mk_fb_ok {
  ok_pitch : 0 <= s.(framebuffer_data).(fb_width) /\ sizeof_PIXEL * s.(framebuffer_data).(fb_width) <= s.(framebuffer_data).(pitch);
  ok_height : 0 <= s.(framebuffer_data).(fb_height);
  ok_size : s.(framebuffer_data).(pitch) * s.(framebuffer_data).(fb_height) < 2 ^ 32;
  ok_bytes : bytes_ok s.(fb_memory);
  ok_mapped : present s.(fb_memory) s.(framebuffer_data).(address) (s.(framebuffer_data).(pitch) * s.(framebuffer_data).(fb_height));
}.

Definition visible s (x y : Z) : Prop :=
  0 <= x < s.(framebuffer_data).(fb_width) /\ 0 <= y < s.(framebuffer_data).(fb_height).
Definition pixel_address s (x y : Z) : Z :=
  s.(framebuffer_data).(address) + y * s.(framebuffer_data).(pitch) + sizeof_PIXEL * x.
Definition image s (x y : Z) : Z := default 0 (read_le 4 s.(fb_memory) (pixel_address s x y)).

(** [s'] is [s] with the screen showing [img]; no byte outside the framebuffer
    changes. *)
Record drawn s img s' : Prop := mk_drawn {
  drawn_same : s' = set_fb_memory s'.(fb_memory) s;
  drawn_ok : fb_ok s';
  drawn_outside : forall a, ~ (s.(framebuffer_data).(address) <= a <
    s.(framebuffer_data).(address) + s.(framebuffer_data).(pitch) * s.(framebuffer_data).(fb_height)) ->
    s'.(fb_memory) !! a = s.(fb_memory) !! a;
  drawn_image : forall x y, visible s x y -> image s' x y = img x y;
}.

Lemma drawn_refl s : fb_ok s -> drawn s (image s) s.
Proof. intros Hok. constructor; try done. by destruct s. Qed.

Lemma drawn_ext s img img' s' : (forall x y, visible s x y -> img x y = img' x y) -> drawn s img s' -> drawn s img' s'.
Proof. intros He [H1 H2 H3 H4]. constructor; try done. intros x y Hv. rewrite H4, He; done. Qed.

Lemma drawn_trans s img s1 img' s2 : drawn s img s1 -> drawn s1 img' s2 -> drawn s img' s2.
Proof.
  intros [H1 H2 H3 H4] [K1 K2 K3 K4]. assert (s1.(framebuffer_data) = s.(framebuffer_data)) as Hd by (by rewrite H1).
  constructor; [by rewrite K1, H1|done| |].
  - intros a Ha. rewrite K3 by (by rewrite Hd). by apply H3.
  - intros x y Hv. apply K4. unfold visible. by rewrite Hd.
Qed.

(** The bytes of a point are in the framebuffer, and those of two points are
    apart. *)
Lemma pixel_range s x y : fb_ok s -> visible s x y ->
  0 <= y * s.(framebuffer_data).(pitch) + sizeof_PIXEL * x /\
  y * s.(framebuffer_data).(pitch) + sizeof_PIXEL * x + 4 <= s.(framebuffer_data).(pitch) * s.(framebuffer_data).(fb_height).
Proof. intros [Hp Hh Hs _ _] [Hx Hy]. unfold sizeof_PIXEL in *. nia. Qed.

Lemma pixel_apart s x y u v : fb_ok s -> visible s x y -> visible s u v -> (x, y) <> (u, v) ->
  pixel_address s x y + 4 <= pixel_address s u v \/ pixel_address s u v + 4 <= pixel_address s x y.
Proof.
  intros [Hp Hh Hs _ _] [Hx Hy] [Hu Hv] Hne. unfold pixel_address, sizeof_PIXEL in *.
  destruct (Z.lt_trichotomy y v) as [H|[->|H]]; [left; nia| |right; nia].
  assert (x <> u) by congruence. lia.
Qed.

(** Writing a point. *)
Lemma pixel_write_run s x y c : fb_ok s -> visible s x y ->
  exists s', pixel_write (pixel_address s x y) c s = Ret (tt, s') /\
    drawn s (fun u v => if (u =? x) && (v =? y) then u32 c else image s u v) s'.
Proof.
  intros Hok Hv. pose proof (pixel_range s x y Hok Hv) as Hr.
  assert (present s.(fb_memory) (pixel_address s x y) 4) as Hm.
  { intros i Hi. replace (pixel_address s x y + i) with
      (s.(framebuffer_data).(address) + (y * s.(framebuffer_data).(pitch) + sizeof_PIXEL * x + i)) by (unfold pixel_address; lia).
    apply (ok_mapped s Hok). lia. }
  eexists. split.
  { unfold pixel_write, in_fb_memory, zoom. rewrite (store_le_run 4) by exact Hm. reflexivity. }
  constructor.
  - done.
  - destruct Hok as [H1 H2 H3 H5 H4]. constructor; try done; [by apply write_le_bytes|by apply write_le_present].
  - intros a Ha. apply write_le_other. unfold pixel_address. lia.
  - intros u v Huv. unfold image. cbn [fb_memory set_fb_memory].
    change (pixel_address (set_fb_memory _ s) u v) with (pixel_address s u v).
    destruct (decide ((u, v) = (x, y))) as [[= -> ->]|Hne].
    + rewrite !Z.eqb_refl, read_write_same. done.
    + rewrite read_write_other by (pose proof (pixel_apart s u v x y Hok Huv Hv Hne); lia).
      destruct (Z.eqb_spec u x), (Z.eqb_spec v y); simpl; congruence.
Qed.

Lemma pixel_offset s x y : fb_ok s -> visible s x y ->
  s.(framebuffer_data).(address) + u32 (y * s.(framebuffer_data).(pitch)) + u32 (x * sizeof_PIXEL) = pixel_address s x y.
Proof.
  intros Hok Hv. pose proof (pixel_range s x y Hok Hv). destruct Hok as [Hp Hh Hs _ _]. destruct Hv.
  unfold pixel_address, sizeof_PIXEL in *. rewrite !u32_small by nia. lia.
Qed.

Lemma put_pixel_run s x y c : fb_ok s -> visible s x y ->
  exists s', _fb_put_pixel x y c s = Ret (tt, s') /\
    drawn s (fun u v => if (u =? x) && (v =? y) then u32 c else image s u v) s'.
Proof.
  intros Hok Hv. unfold _fb_put_pixel. rewrite (bind_run _ _ _ _ _ (eq_refl : get s = Ret (s, s))). cbv zeta.
  rewrite (pixel_offset s x y Hok Hv). by apply pixel_write_run.
Qed.

Lemma get_pixel_run s x y : fb_ok s -> visible s x y -> _fb_get_pixel x y s = Ret (image s x y, s).
Proof.
  intros Hok Hv. unfold _fb_get_pixel. rewrite (bind_run _ _ _ _ _ (eq_refl : get s = Ret (s, s))). cbv zeta.
  rewrite (pixel_offset s x y Hok Hv). unfold in_fb_memory, zoom, image.
  destruct (read_le_present 4 s.(fb_memory) (pixel_address s x y)) as [c Hc].
  { pose proof (pixel_range s x y Hok Hv). intros i Hi. replace (pixel_address s x y + i) with
      (s.(framebuffer_data).(address) + (y * s.(framebuffer_data).(pitch) + sizeof_PIXEL * x + i)) by (unfold pixel_address; lia).
    apply (ok_mapped s Hok). lia. }
  rewrite (load_le_run 4 _ _ _ Hc), Hc. by destruct s.
Qed.

Lemma image_range s x y : fb_ok s -> u32 (image s x y) = image s x y.
Proof.
  intros Hok. apply u32_small. unfold image. destruct (read_le 4 _ _) as [v|] eqn:Hv; [|done].
  by apply (read_le_range 4) in Hv; [|apply Hok].
Qed.

(** ** Scrolling *)

(** The image when the columns of [r] have been scrolled down to the row [k x]. *)
Definition scrolled (img : Z -> Z -> Z) (r : _fb_window_t) (l : Z) (clear : bool) (k : Z -> Z) (x y : Z) : Z :=
  if (r.(x_orig) <=? x) && (x <? r.(x_orig) + r.(width)) then
    if (r.(y_orig) <=? y) && (y <? k x) then img x (y + l)
    else if clear && ((Z.max (k x) (r.(y_orig) + l) <=? y) && (y <? k x + l)) then 0
    else img x y
  else img x y.

(** A rectangle of the screen at least a line high. *)
Definition scrollable s (r : _fb_window_t) (l : Z) : Prop :=
  window_ok r /\ 0 < l <= r.(height) /\ r.(x_orig) + r.(width) <= s.(framebuffer_data).(fb_width) /\
  r.(y_orig) + r.(height) <= s.(framebuffer_data).(fb_height).

Lemma wp_while_below {S : Type} (I : Z -> S -> Prop) (body : Z -> M S unit) (Q : unit -> S -> Prop) a b (t : S) :
  a <= b -> I a t ->
  (forall j t, a <= j < b -> I j t -> wp (body j) (fun _ t' => I (j + 1) t') t) ->
  (forall t, I b t -> Q tt t) -> wp (while_below a b body) Q t.
Proof.
  intros Hab Ha Hb HQ. unfold while_below. apply (wp_for_from I); [done| |].
  - intros j t' Hj. apply Hb. lia.
  - intros t' Ht. apply HQ. by replace b with (a + Z.of_nat (Z.to_nat (b - a))) by lia.
Qed.

Lemma scroll_point_run s img s1 r l clear cy cx :
  fb_ok s -> scrollable s r l -> r.(y_orig) <= cy < r.(y_orig) + r.(height) - l -> r.(x_orig) <= cx < r.(x_orig) + r.(width) ->
  drawn s (scrolled img r l clear (fun x => if x <? cx then cy + 1 else cy)) s1 ->
  wp (scroll_point l clear cy cx)
    (fun _ => drawn s (scrolled img r l clear (fun x => if x <? cx + 1 then cy + 1 else cy))) s1.
Proof.
  intros Hok ((Hr1 & Hr2 & Hr3 & Hr4 & Hr5 & Hr6) & Hl & Hw & Hh) Hcy Hcx Hd.
  assert (s1.(framebuffer_data) = s.(framebuffer_data)) as Hdata by (rewrite (drawn_same _ _ _ Hd); done).
  assert (visible s cx (cy + l) /\ visible s cx cy) as [Hv1 Hv2] by (unfold visible; lia).
  assert (visible s1 cx (cy + l) /\ visible s1 cx cy) as [Hv1' Hv2'] by (unfold visible; rewrite Hdata; done).
  pose proof (drawn_ok _ _ _ Hd) as Hok1. unfold scroll_point. rewrite u32_small by lia.
  set (c := image s1 cx (cy + l)). assert (c = img cx (cy + l)) as Hc.
  { unfold c. rewrite (drawn_image _ _ _ Hd) by done. unfold scrolled.
    compare_points; by rewrite ?andb_false_r. }
  apply wp_bind, wp_run. exists c, s1. split; [by apply get_pixel_run|].
  destruct (put_pixel_run s1 cx cy c Hok1 Hv2') as (s2 & Hrun2 & Hd2). rewrite (image_range s1 cx (cy + l) Hok1 : u32 c = c), Hc in Hd2.
  pose proof (drawn_trans _ _ _ _ _ Hd Hd2) as Hd02. rewrite Hc in Hrun2.
  apply wp_bind, wp_run. exists tt, s2. rewrite Hc. split; [done|].
  assert (forall u v, visible s u v -> visible s1 u v) as Hvis by (intros u v; unfold visible; by rewrite Hdata).
  destruct clear.
  - assert (s2.(framebuffer_data) = s.(framebuffer_data)) as Hdata2 by (rewrite (drawn_same _ _ _ Hd02); done).
    assert (visible s2 cx (cy + l)) as Hv3 by (unfold visible; rewrite Hdata2; done).
    destruct (put_pixel_run s2 cx (cy + l) 0 (drawn_ok _ _ _ Hd2) Hv3) as (s3 & Hrun3 & Hd3).
    apply wp_run. exists tt, s3. split; [done|]. eapply drawn_ext; [|exact (drawn_trans _ _ _ _ _ Hd02 Hd3)].
    intros u v Huv. simpl. rewrite (drawn_image _ _ _ Hd2 u v) by (by apply Hvis). rewrite (drawn_image _ _ _ Hd u v) by done.
    clear -Hcy Hcx Hl. unfold scrolled. simpl. compare_points; subst; done.
  - apply wp_ret. eapply drawn_ext; [|exact Hd02].
    intros u v Huv. simpl. rewrite (drawn_image _ _ _ Hd u v) by done.
    clear -Hcy Hcx Hl. unfold scrolled. simpl. compare_points; subst; done.
Qed.

(** One rectangle. *)
Lemma scroll_rectangle_run s r l clear :
  fb_ok s -> scrollable s r l ->
  exists s', scroll_rectangle l clear r s = Ret (tt, s') /\
    drawn s (scrolled (image s) r l clear (fun _ => r.(y_orig) + r.(height) - l)) s'.
Proof.
  intros Hok Hsc. pose proof Hsc as ((Hr1 & Hr2 & Hr3 & Hr4 & Hr5 & Hr6) & Hl & Hw & Hh).
  assert (wp (scroll_rectangle l clear r)
    (fun _ => drawn s (scrolled (image s) r l clear (fun _ => r.(y_orig) + r.(height) - l))) s) as Hwp.
  { unfold scroll_rectangle. rewrite !u32_small by lia.
    apply (wp_while_below (fun cy => drawn s (scrolled (image s) r l clear (fun _ => cy)))); [lia| | |done].
    - eapply drawn_ext; [|by apply drawn_refl]. intros x y _. unfold scrolled. compare_points; by rewrite ?andb_false_r.
    - intros cy t Hcy Ht.
      apply (wp_while_below (fun cx => drawn s (scrolled (image s) r l clear (fun x => if x <? cx then cy + 1 else cy)))); [lia| | |].
      + eapply drawn_ext; [|exact Ht]. intros x y _. unfold scrolled. destruct (Z.leb_spec r.(x_orig) x); [|done].
        destruct (Z.ltb_spec x r.(x_orig)); [lia|done].
      + intros cx t' Hcx. apply scroll_point_run; done.
      + intros t' Ht'. eapply drawn_ext; [|exact Ht']. intros x y _. unfold scrolled.
        destruct (Z.ltb_spec x (r.(x_orig) + r.(width))); [done|by rewrite andb_false_r]. }
  apply wp_run in Hwp as ([] & s' & Hrun & Hd). by exists s'.
Qed.

(** Several rectangles, apart from one another. *)
Definition scroll_value (img : Z -> Z -> Z) (l : Z) (clear : bool) (r : _fb_window_t) (x y : Z) : Z :=
  if y <? r.(y_orig) + r.(height) - l then img x (y + l)
  else if clear && (r.(y_orig) + l <=? y) then 0 else img x y.

Definition scrolled_all (img : Z -> Z -> Z) (l : Z) (clear : bool) (rs : list _fb_window_t) (x y : Z) : Z :=
  match find (inside x y) rs with Some r => scroll_value img l clear r x y | None => img x y end.

Lemma scrolled_final img r l clear x y : 0 < l <= r.(height) ->
  scrolled img r l clear (fun _ => r.(y_orig) + r.(height) - l) x y =
    if inside x y r then scroll_value img l clear r x y else img x y.
Proof. intros Hl. unfold scrolled, scroll_value, inside. compare_points; rewrite ?andb_false_r, ?andb_true_r; done. Qed.

Lemma scroll_rectangles_run rs : forall s l clear,
  fb_ok s -> Forall (fun r => scrollable s r l) rs ->
  (forall x y, (length (filter (fun r => inside x y r = true) rs) <= 1)%nat) ->
  exists s', for_each rs (scroll_rectangle l clear) s = Ret (tt, s') /\ drawn s (scrolled_all (image s) l clear rs) s'.
Proof.
  induction rs as [|r rs IH]; intros s l clear Hok Hsc Hap.
  - exists s. split; [done|]. by apply drawn_refl.
  - apply Forall_cons in Hsc as [Hr Hrs]. destruct (scroll_rectangle_run s r l clear Hok Hr) as (s1 & Hrun1 & Hd1).
    assert (s1.(framebuffer_data) = s.(framebuffer_data)) as Hdata by (rewrite (drawn_same _ _ _ Hd1); done).
    destruct (IH s1 l clear) as (s2 & Hrun2 & Hd2).
    + apply Hd1.
    + eapply Forall_impl; [exact Hrs|]. intros r'. unfold scrollable. by rewrite Hdata.
    + intros x y. specialize (Hap x y). rewrite filter_cons in Hap. destruct (decide _); simpl in Hap; lia.
    + exists s2. split; [cbn [for_each]; by rewrite (bind_run _ _ _ _ _ Hrun1)|].
      eapply drawn_ext; [|exact (drawn_trans _ _ _ _ _ Hd1 Hd2)]. intros x y Hv. unfold scrolled_all. cbn [find].
      assert (forall u v, visible s u v -> image s1 u v = if inside u v r then scroll_value (image s) l clear r u v else image s u v) as Him.
      { intros u v Huv. rewrite (drawn_image _ _ _ Hd1) by done. apply scrolled_final. apply Hr. }
      destruct (find (inside x y) rs) as [r'|] eqn:Hf; [|by rewrite Him by done; destruct (inside x y r)].
      apply find_some in Hf as [Hin Hxy]. apply list_elem_of_In in Hin.
      assert (forall u v, inside u v r' = true -> inside u v r = false) as Hdis.
      { intros u v Hu. destruct (inside u v r) eqn:E; [|done]. exfalso. specialize (Hap u v).
        rewrite filter_cons_True in Hap by done. simpl in Hap.
        assert (filter (fun r => inside u v r = true) rs = []) as Hn by (apply length_zero_iff_nil; lia).
        assert (r' ∈ filter (fun r => inside u v r = true) rs) as Hi by (by apply list_elem_of_filter). rewrite Hn in Hi. set_solver. }
      rewrite Hdis by done. rewrite Forall_forall in Hrs. destruct (Hrs r' Hin) as ((Hr1 & Hr2 & _) & Hl & Hw & Hh).
      unfold scroll_value. rewrite (Him x y Hv), (Hdis x y Hxy).
      destruct (Z.ltb_spec y (r'.(y_orig) + r'.(height) - l)) as [Hlt|_]; [|done].
      assert (inside x (y + l) r' = true) as Hxl by (unfold inside in *; zbool; apply andb_true_iff; split; apply andb_true_iff; split; lia).
      rewrite Him, (Hdis x (y + l) Hxl); [done|]. unfold inside in Hxl. zbool. unfold visible. lia.
Qed.
End Images.

(** C19: A scroll of the whole screen by a line with an area pinned. The points of the
    area do not change. Every other point takes the color of the point a line below
    when that one is in the same rectangle around the area, and is cleared
    otherwise when it is more than a line below the top of its rectangle. Nothing
    outside the framebuffer changes. Every rectangle has to be at least a line high. *)
Theorem _fb_scroll_pins (s : fb_state) area l :
  fb_ok s -> s.(framebuffer_main_window) = mk_window 0 0 s.(framebuffer_data).(fb_width) s.(framebuffer_data).(fb_height) ->
  s.(framebuffer_data).(fb_width) < 2 ^ 32 -> s.(framebuffer_data).(fb_height) < 2 ^ 32 ->
  window_ok area -> within area s.(framebuffer_main_window) ->
  let rectangles := _fb_get_rectangles s.(framebuffer_main_window) (Some area) in
  rectangles <> [] -> 0 < l -> Forall (fun r => l <= r.(height)) rectangles ->
  exists s', _fb_scroll s.(framebuffer_main_window) l (Some area) true s = Ret (tt, s') /\
    drawn s (fun x y =>
      match find (inside x y) rectangles with
      | None => image s x y
      | Some r =>
          if y <? r.(y_orig) + r.(height) - l then image s x (y + l)
          else if r.(y_orig) + l <=? y then 0 else image s x y
      end) s' /\
    (forall x y, visible s x y -> inside x y area = true -> image s' x y = image s x y).
Proof.
  intros Hok Hmain Hw32 Hh32 Ha Hin rs Hne Hl Hall.
  assert (window_ok s.(framebuffer_main_window)) as Hm.
  { rewrite Hmain. destruct Hok. unfold window_ok; simpl. lia. }
  destruct (rectangles_partition _ area Hm Ha Hin) as [_ Hpart]. fold rs in Hpart.
  pose proof (rectangles_ok _ area Hm Ha Hin) as Hrok. fold rs in Hrok.
  destruct (scroll_rectangles_run rs s l true Hok) as (s' & Hrun & Hd).
  - apply Forall_forall. intros r Hr. rewrite Forall_forall in Hall, Hrok. destruct (Hrok r Hr) as [Hr1 Hr2].
    rewrite Hmain in Hr2. unfold within in Hr2. simpl in Hr2. specialize (Hall r Hr). split_and!; try done; lia.
  - intros x y. rewrite Hpart. destruct (_ && _); lia.
  - exists s'. split; [|split].
    + unfold _fb_scroll. rewrite (bind_run _ _ _ _ _ (eq_refl : get s = Ret (s, s))). cbv zeta. fold rs.
      by destruct rs.
    + exact Hd.
    + intros x y Hv Hxy. rewrite (drawn_image _ _ _ Hd) by done. unfold scrolled_all.
      destruct (find (inside x y) rs) as [r|] eqn:Hf; [|done]. exfalso. apply find_some in Hf as [Hr Hxr].
      specialize (Hpart x y). rewrite Hxy, andb_false_r in Hpart. apply length_zero_iff_nil in Hpart.
      assert (r ∈ filter (fun r => inside x y r = true) rs) as Hi by (apply list_elem_of_filter; split; [done|by apply list_elem_of_In]).
      rewrite Hpart in Hi. set_solver.
Qed.


(** ** Drawing a character *)

Section Characters.
Implicit Types (s : fb_state).

(** The bit of column [i] of the row of a glyph that is at [g]. *)
Definition row_bit (m : memory) (g i : Z) : bool := Z.testbit (default 0 (m !! (g + i / 8))) (7 - i mod 8).

(** The bytes from [g] on are there and outside the framebuffer. *)
Definition apart_from_screen s (g n : Z) : Prop :=
  present s.(fb_memory) g n /\
  (g + n <= s.(framebuffer_data).(address) \/
   s.(framebuffer_data).(address) + s.(framebuffer_data).(pitch) * s.(framebuffer_data).(fb_height) <= g).

Lemma column_mask b i : 0 <= i -> (Z.land b (Z.shiftr 0x80 (Z.land i 7)) =? 0) = negb (Z.testbit b (7 - i mod 8)).
Proof.
  intros Hi. change 7 with (Z.ones 3) at 1. rewrite (Z.land_ones i 3) by lia. change (2 ^ 3) with 8.
  pose proof (Z.mod_pos_bound i 8 ltac:(lia)) as Hb. rewrite <- land_pow2_testbit by lia.
  assert (Z.shiftr 0x80 (i mod 8) = Z.shiftl 1 (7 - i mod 8)) as ->; [|done].
  generalize dependent (i mod 8). intros k Hk.
  assert (k = 0 \/ k = 1 \/ k = 2 \/ k = 3 \/ k = 4 \/ k = 5 \/ k = 6 \/ k = 7) as Hc by lia.
  by repeat destruct Hc as [->|Hc]; subst.
Qed.

Lemma apart_unchanged s img s' g n i : drawn s img s' -> apart_from_screen s g n -> 0 <= i < n ->
  s'.(fb_memory) !! (g + i) = s.(fb_memory) !! (g + i).
Proof. intros Hd [_ Ha] Hi. apply (drawn_outside _ _ _ Hd). lia. Qed.

Lemma apart_drawn s img s' g n : drawn s img s' -> apart_from_screen s g n -> apart_from_screen s' g n.
Proof.
  intros Hd Ha. assert (s'.(framebuffer_data) = s.(framebuffer_data)) as Hdata by (rewrite (drawn_same _ _ _ Hd); done).
  split; [|rewrite Hdata; apply Ha]. intros i Hi. rewrite (apart_unchanged _ _ _ _ _ _ Hd Ha Hi). by apply Ha.
Qed.

Lemma putchar_columns_run n : forall s px py g x fg bg,
  fb_ok s -> 0 <= px -> 0 <= x -> 0 <= py < s.(framebuffer_data).(fb_height) ->
  px + x + Z.of_nat n <= s.(framebuffer_data).(fb_width) ->
  apart_from_screen s g ((x + Z.of_nat n + 7) / 8) -> 0 <= fg < 2 ^ 32 -> 0 <= bg < 2 ^ 32 ->
  exists s', putchar_columns n s.(framebuffer_data).(address) g x
      (u32 (py * s.(framebuffer_data).(pitch) + sizeof_PIXEL * (px + x))) fg bg s = Ret (tt, s') /\
    drawn s (fun u v => if (v =? py) && ((px + x <=? u) && (u <? px + x + Z.of_nat n))
                        then (if row_bit s.(fb_memory) g (u - px) then fg else bg) else image s u v) s'.
Proof.
  induction n as [|n IH]; intros s px py g x fg bg Hok Hpx Hx Hpy Hw Hg Hfg Hbg.
  - exists s. split; [done|]. eapply drawn_ext; [|by apply drawn_refl]. intros u v _. simpl. compare_points; done.
  - assert (visible s (px + x) py) as Hv by (unfold visible; lia).
    pose proof (pixel_range s (px + x) py Hok Hv) as Hr. pose proof (ok_size s Hok) as Hsz.
    rewrite u32_small by lia. cbn [putchar_columns].
    assert (0 <= x / 8 < (x + Z.of_nat (S n) + 7) / 8) as Hx8 by (clear -Hx; Z.div_mod_to_equations; lia).
    destruct Hg as [Hgp Hga] eqn:E; clear E. destruct (Hgp (x / 8) Hx8) as [b Hb].
    rewrite (bind_run _ _ s b s) by (unfold in_fb_memory, zoom; rewrite (load_run _ _ _ Hb); by destruct s).
    rewrite column_mask, negb_involutive by done.
    replace (s.(framebuffer_data).(address) + (py * s.(framebuffer_data).(pitch) + sizeof_PIXEL * (px + x)))
      with (pixel_address s (px + x) py) by (unfold pixel_address; lia).
    set (c := if Z.testbit b (7 - x mod 8) then fg else bg).
    destruct (pixel_write_run s (px + x) py c Hok Hv) as (s1 & Hrun1 & Hd1). rewrite (bind_run _ _ _ _ _ Hrun1).
    assert (s1.(framebuffer_data) = s.(framebuffer_data)) as Hdata by (rewrite (drawn_same _ _ _ Hd1); done).
    destruct (IH s1 px py g (x + 1) fg bg) as (s2 & Hrun2 & Hd2); rewrite ?Hdata; try done; try lia; [apply Hd1| |].
    { replace (x + 1 + Z.of_nat n + 7) with (x + Z.of_nat (S n) + 7) by lia. by apply (apart_drawn _ _ _ _ _ Hd1). }
    rewrite Hdata in Hrun2. exists s2. split.
    { rewrite <- Hrun2. f_equal. f_equal. unfold sizeof_PIXEL. lia. }
    eapply drawn_ext; [|exact (drawn_trans _ _ _ _ _ Hd1 Hd2)]. intros u v Huv. simpl.
    rewrite (drawn_image _ _ _ Hd1) by done. replace (px + (x + 1)) with (px + x + 1) by lia.
    replace (px + x + 1 + Z.of_nat n) with (px + x + Z.of_nat (S n)) by lia.
    assert (forall u, px + x <= u < px + x + Z.of_nat (S n) -> row_bit s1.(fb_memory) g (u - px) = row_bit s.(fb_memory) g (u - px)) as Hbit.
    { intros w Hw'. unfold row_bit. rewrite (apart_unchanged _ _ _ _ _ _ Hd1 Hg); [done|].
      clear -Hw' Hx Hpx. Z.div_mod_to_equations; lia. }
    assert (u32 c = if row_bit s.(fb_memory) g (px + x - px) then fg else bg) as Hc.
    { unfold row_bit. replace (px + x - px) with x by lia. rewrite Hb. simpl. fold c. apply u32_small. unfold c. by destruct (Z.testbit _ _). }
    destruct (Z.eqb_spec u (px + x)) as [->|Hne]; destruct (Z.eqb_spec v py) as [->|Hne']; simpl.
    all: compare_points; try done.
    by rewrite Hbit by lia.
Qed.

Lemma putchar_rows_run n : forall s px py g w fg bg,
  fb_ok s -> 0 <= px -> 0 <= py -> 0 < w -> px + w <= s.(framebuffer_data).(fb_width) ->
  py + Z.of_nat n <= s.(framebuffer_data).(fb_height) ->
  apart_from_screen s g (Z.of_nat n * ((w + 7) / 8)) -> 0 <= fg < 2 ^ 32 -> 0 <= bg < 2 ^ 32 ->
  exists s', putchar_rows n s.(framebuffer_data).(address) s.(framebuffer_data).(pitch) w ((w + 7) / 8) g
      (py * s.(framebuffer_data).(pitch) + sizeof_PIXEL * px) fg bg s = Ret (tt, s') /\
    drawn s (fun u v => if ((py <=? v) && (v <? py + Z.of_nat n)) && ((px <=? u) && (u <? px + w))
                        then (if row_bit s.(fb_memory) (g + (v - py) * ((w + 7) / 8)) (u - px) then fg else bg)
                        else image s u v) s'.
Proof.
  induction n as [|n IH]; intros s px py g w fg bg Hok Hpx Hpy Hw Hwd Hh Hg Hfg Hbg.
  - exists s. split; [done|]. eapply drawn_ext; [|by apply drawn_refl]. intros u v _. simpl. compare_points; done.
  - cbn [putchar_rows]. assert (0 < (w + 7) / 8) as Hb by (clear -Hw; Z.div_mod_to_equations; lia).
    set (l := (w + 7) / 8) in *.
    assert (apart_from_screen s g l) as Hg1.
    { destruct Hg as [Hp Ha]. split; [intros i Hi; apply Hp; nia|nia]. }
    destruct (putchar_columns_run (Z.to_nat w) s px py g 0 fg bg) as (s1 & Hrun1 & Hd1); try done; try lia.
    { by replace (0 + Z.of_nat (Z.to_nat w) + 7) with (w + 7) by lia. }
    rewrite Z.add_0_r, Z2Nat.id in * by lia. rewrite (bind_run _ _ _ _ _ Hrun1).
    assert (s1.(framebuffer_data) = s.(framebuffer_data)) as Hdata by (rewrite (drawn_same _ _ _ Hd1); done).
    assert (apart_from_screen s (g + l) (Z.of_nat n * l)) as Hg2.
    { destruct Hg as [Hp Ha]. split; [|nia]. intros i Hi. replace (g + l + i) with (g + (l + i)) by lia. apply Hp. nia. }
    destruct (IH s1 px (py + 1) (g + l) w fg bg) as (s2 & Hrun2 & Hd2); rewrite ?Hdata; try done; try lia; [apply Hd1| |].
    { fold l. by apply (apart_drawn _ _ _ _ _ Hd1). }
    rewrite Hdata in Hrun2. fold l in Hrun2, Hd2. exists s2. split.
    { rewrite <- Hrun2. f_equal. pose proof (ok_size s Hok). pose proof (ok_pitch s Hok). unfold sizeof_PIXEL in *.
      rewrite u64_small by nia. lia. }
    eapply drawn_ext; [|exact (drawn_trans _ _ _ _ _ Hd1 Hd2)]. intros u v Huv. simpl.
    rewrite (drawn_image _ _ _ Hd1) by done.
    assert (forall v u, py + 1 <= v < py + 1 + Z.of_nat n -> px <= u < px + w ->
      row_bit s1.(fb_memory) (g + l + (v - (py + 1)) * l) (u - px) = row_bit s.(fb_memory) (g + (v - py) * l) (u - px)) as Hbit.
    { intros v' u' Hv' Hu'. unfold row_bit. replace (g + l + (v' - (py + 1)) * l) with (g + (v' - py) * l) by lia.
      rewrite <- !Z.add_assoc, (apart_unchanged _ _ _ _ _ _ Hd1 Hg); [done|].
      assert (0 <= (u' - px) / 8 < l) by (unfold l; clear -Hu'; Z.div_mod_to_equations; lia). nia. }
    compare_points; try done.
    + subst. by replace (g + (py - py) * l) with g by lia.
    + by rewrite Hbit by lia.
Qed.
End Characters.

(** A character in a cell of the screen. *)
Lemma putcharAt_run (s : fb_state) symbol cx cy fg bg w h glyph :
  fb_ok s ->
  _psf_get_width s.(psf_font_version) s = Ret (w, s) -> _psf_get_height s.(psf_font_version) s = Ret (h, s) ->
  _psf_get_glyph (u8 symbol) s.(psf_font_version) s = Ret (glyph, s) ->
  0 < w -> 0 <= h -> 0 <= cx -> 0 <= cy ->
  (cx + 1) * w <= s.(framebuffer_data).(fb_width) -> (cy + 1) * h <= s.(framebuffer_data).(fb_height) ->
  s.(framebuffer_data).(fb_width) < 2 ^ 31 ->
  apart_from_screen s glyph (h * ((w + 7) / 8)) -> 0 <= fg < 2 ^ 32 -> 0 <= bg < 2 ^ 32 ->
  exists s', _fb_putcharAt symbol cx cy fg bg s = Ret (tt, s') /\
    drawn s (fun x y =>
      if inside x y (mk_window (cx * w) (cy * h) w h)
      then (if row_bit s.(fb_memory) (glyph + (y - cy * h) * ((w + 7) / 8)) (x - cx * w) then fg else bg)
      else image s x y) s'.
Proof.
  intros Hok Hrw Hrh Hrg Hw Hh Hcx Hcy Hcw Hch Hwd Hg Hfg Hbg.
  unfold _fb_putcharAt. rewrite (bind_run _ _ _ _ _ (eq_refl : get s = Ret (s, s))). cbv zeta.
  rewrite (bind_run _ _ _ _ _ Hrw), (bind_run _ _ _ _ _ Hrh), (bind_run _ _ _ _ _ Hrg).
  pose proof (ok_size s Hok) as Hsz. pose proof (ok_pitch s Hok) as [Hp0 Hp]. unfold sizeof_PIXEL in *.
  assert (w <= s.(framebuffer_data).(fb_width)) by nia. rewrite (u32_small (w + 7)) by lia.
  assert (0 <= cy * h /\ cy * h <= s.(framebuffer_data).(fb_height)) as [Hy0 Hy1] by nia.
  assert (0 <= cx * w /\ cx * w <= s.(framebuffer_data).(fb_width)) as [Hx0 Hx1] by nia.
  assert (4 <= s.(framebuffer_data).(pitch)) by lia.
  assert (s.(framebuffer_data).(fb_height) <= 2 ^ 32) by nia.
  assert (0 <= cy * h * s.(framebuffer_data).(pitch) < 2 ^ 32) by nia.
  assert (0 <= cx * w * 4 < 2 ^ 33) by nia.
  rewrite (u64_small (cy * h)), (u64_small (cx * w)) by lia.
  rewrite (u64_small (cy * h * _)), (u64_small (cx * w * _)) by lia. rewrite u64_small by lia.
  destruct (putchar_rows_run (Z.to_nat h) s (cx * w) (cy * h) glyph w fg bg) as (s' & Hrun & Hd); try done; try lia.
  { by rewrite Z2Nat.id by lia. }
  rewrite Z2Nat.id in Hd by lia. exists s'. split.
  - rewrite <- Hrun. f_equal. unfold sizeof_PIXEL. lia.
  - eapply drawn_ext; [|exact Hd]. intros x y _. unfold inside. simpl. by rewrite andb_comm.
Qed.

(** C20: [_fb_putcharAt] in a cell of the screen: the points of the cell take the
    foreground color where the glyph has a bit set and the background color where it
    has not, the first column being the highest bit; no other point changes, and no
    byte outside the framebuffer. *)
Theorem _fb_putcharAt_draws (s : fb_state) symbol cx cy fg bg w h glyph :
  fb_ok s ->
  _psf_get_width s.(psf_font_version) s = Ret (w, s) -> _psf_get_height s.(psf_font_version) s = Ret (h, s) ->
  _psf_get_glyph (u8 symbol) s.(psf_font_version) s = Ret (glyph, s) ->
  0 < w -> 0 <= h -> 0 <= cx -> 0 <= cy ->
  (cx + 1) * w <= s.(framebuffer_data).(fb_width) -> (cy + 1) * h <= s.(framebuffer_data).(fb_height) ->
  s.(framebuffer_data).(fb_width) < 2 ^ 31 ->
  apart_from_screen s glyph (h * ((w + 7) / 8)) -> 0 <= fg < 2 ^ 32 -> 0 <= bg < 2 ^ 32 ->
  exists s', _fb_putcharAt symbol cx cy fg bg s = Ret (tt, s') /\
    drawn s (fun x y =>
      if inside x y (mk_window (cx * w) (cy * h) w h)
      then (if row_bit s.(fb_memory) (glyph + (y - cy * h) * ((w + 7) / 8)) (x - cx * w) then fg else bg)
      else image s x y) s'.
Proof. apply putcharAt_run. Qed.

(** ** The screen as a console *)

#[export] Instance fb_console : Console fb_state := {
  console_memory := fb_memory;
  set_console_memory := set_fb_memory;
  putchar := _fb_putchar;
  new_line := _fb_increaseLine;
}.

Section ConsoleLaws.
Implicit Types (s : fb_state).

(** What the header of a font says: the width and the height of its glyphs, the
    address of the first one and the bytes of each; [n] is the size of the font. *)
Record font_ok (m : memory) (version a n w h glyphs bytes : Z) : Prop := {
  font_present : present m a n;
  font_size : a <= glyphs /\ glyphs + 256 * bytes = a + n /\ 0 < w /\ 0 <= h /\ h * ((w + 7) / 8) <= bytes;
  font_header :
    (version = PSF_V1 /\ n = 4 + 256 * bytes /\ w = 8 /\ m !! (a + 3) = Some h /\ bytes = h /\ glyphs = a + 4) \/
    (version = PSF_V2 /\ 32 <= n /\ read_le 4 m (a + 28) = Some w /\ read_le 4 m (a + 24) = Some h /\
     read_le 4 m (a + 20) = Some bytes /\ 256 * bytes < 2 ^ 32 /\ exists hs, read_le 4 m (a + 8) = Some hs /\ glyphs = a + hs /\ n = hs + 256 * bytes);
}.

(** Bytes outside the font do not matter to it. *)
Lemma font_ok_ext m m' version a n w h glyphs bytes :
  (forall i, 0 <= i < n -> m' !! (a + i) = m !! (a + i)) -> font_ok m version a n w h glyphs bytes -> font_ok m' version a n w h glyphs bytes.
Proof.
  intros He [Hp Hs Hh]. assert (forall k, 0 <= k -> k + 4 <= n -> read_le 4 m' (a + k) = read_le 4 m (a + k)) as Hr.
  { intros k Hk Hkn. apply read_le_ext. intros i Hi. rewrite <- Z.add_assoc. apply He. lia. }
  constructor; [|done|].
  - intros i Hi. rewrite He by done. by apply Hp.
  - destruct Hh as [(-> & Hn & -> & Hm & -> & ->)|(-> & Hn & Hw & Hh & Hb & Hb2 & hs & Hhs & -> & Hlen)].
    + left. split_and!; try done. by rewrite He by lia.
    + right. split_and!; try done; try (rewrite Hr by lia; done). exists hs. split; [|done]. by rewrite Hr by lia.
Qed.

(** The size of a font as its header gives it. *)
Definition font_length s : Z :=
  let byte k := default 0 (s.(fb_memory) !! (s.(font) + k)) in
  let word k := default 0 (read_le 4 s.(fb_memory) (s.(font) + k)) in
  if s.(psf_font_version) =? PSF_V1 then 4 + 256 * byte 3 else word 8 + 256 * word 20.

Lemma font_ok_length s n w h glyphs bytes : font_ok s.(fb_memory) s.(psf_font_version) s.(font) n w h glyphs bytes -> font_length s = n.
Proof.
  intros [_ _ Hh]. unfold font_length.
  destruct Hh as [(-> & Hn & -> & Hm & -> & ->)|(-> & Hn & Hw & Hh & Hb & Hb2 & hs & Hhs & -> & Hlen)].
  - change (PSF_V1 =? PSF_V1) with true. cbv iota. by rewrite Hm.
  - change (PSF_V2 =? PSF_V1) with false. cbv iota. by rewrite Hhs, Hb.
Qed.

(** What the functions of the font give. *)
Lemma in_load_le_run s n a v : read_le n s.(fb_memory) a = Some v -> in_fb_memory (load_le n a) s = Ret (v, s).
Proof. intros Hv. unfold in_fb_memory, zoom. rewrite (load_le_run _ _ _ _ Hv). by destruct s. Qed.
Lemma in_load_run s a v : s.(fb_memory) !! a = Some v -> in_fb_memory (load a) s = Ret (v, s).
Proof. intros Hv. unfold in_fb_memory, zoom. rewrite (load_run _ _ _ Hv). by destruct s. Qed.

Lemma font_run s n w h glyphs bytes c :
  font_ok s.(fb_memory) s.(psf_font_version) s.(font) n w h glyphs bytes -> 0 <= c < 256 ->
  _psf_get_width s.(psf_font_version) s = Ret (w, s) /\ _psf_get_height s.(psf_font_version) s = Ret (h, s) /\
  _psf_get_glyph c s.(psf_font_version) s = Ret (glyphs + c * bytes, s).
Proof.
  intros [_ Hs Hh] Hc. unfold _psf_get_width, _psf_get_height, _psf_get_glyph.
  destruct Hh as [(-> & Hn & -> & Hm & -> & ->)|(-> & Hn & Hw & Hh & Hb & Hb2 & hs & Hhs & -> & Hlen)];
    rewrite !(bind_run (gets font) _ _ _ _ eq_refl); change (PSF_V2 =? PSF_V1) with false; change (PSF_V2 =? PSF_V2) with true;
    change (PSF_V1 =? PSF_V1) with true; cbv iota.
  - pose proof (in_load_run s _ _ Hm) as Hl. rewrite (bind_run _ _ _ _ _ Hl). by split_and!.
  - rewrite (bind_run _ _ _ _ _ (in_load_le_run s _ _ _ Hhs)), (bind_run _ _ _ _ _ (in_load_le_run s _ _ _ Hb)).
    split_and!; [by apply in_load_le_run|by apply in_load_le_run|].
    destruct Hs as (_ & _ & Hw0 & Hh0 & Hb0). assert (0 <= (w + 7) / 8) by (apply Z.div_pos; lia). rewrite u32_small by nia. done.
Qed.

(** The screen and its font, with cells for [k] more characters behind the cursor and
    as many lines below it: [_fb_putchar] never goes to the next line by itself, nor
    scrolls. *)
Definition screen_size s : Z := s.(framebuffer_data).(pitch) * s.(framebuffer_data).(fb_height).
Definition console_ok s (n w h glyphs bytes : Z) (k : nat) : Prop :=
  fb_ok s /\ font_ok s.(fb_memory) s.(psf_font_version) s.(font) n w h glyphs bytes /\
  (s.(font) + n <= s.(framebuffer_data).(address) \/ s.(framebuffer_data).(address) + screen_size s <= s.(font)) /\
  s.(framebuffer_data).(fb_width) < 2 ^ 31 /\ s.(framebuffer_data).(fb_height) < 2 ^ 31 /\ 0 < h /\ s.(framebuffer_data).(number_of_lines) = s.(framebuffer_data).(fb_height) / h /\
  0 <= s.(cur_fb_column) /\ 0 <= s.(cur_fb_line) /\
  (s.(cur_fb_column) + Z.of_nat k) * w <= s.(framebuffer_data).(fb_width) /\
  (s.(cur_fb_line) + Z.of_nat k) * h <= s.(framebuffer_data).(fb_height).

(** The addresses of the screen and of its font. *)
Definition console_addresses s (n : Z) (b : Z) : Prop :=
  s.(framebuffer_data).(address) <= b < s.(framebuffer_data).(address) + screen_size s \/ s.(font) <= b < s.(font) + n.

Lemma console_store_ok s n w h glyphs bytes k a v : console_ok s n w h glyphs bytes k -> ~ console_addresses s n a ->
  console_ok (set_fb_memory (<[a := u8 v]> s.(fb_memory)) s) n w h glyphs bytes k.
Proof.
  intros ([Hp Hh Hs Hb Hm] & Hf & Hrest) Hna. split; [|split; [|exact Hrest]].
  - constructor; try done; simpl.
    + apply map_Forall_insert_2; [apply Z.mod_pos_bound; lia|done].
    + intros i Hi. rewrite lookup_insert_ne; [by apply Hm|]. intros ->. apply Hna. left. unfold screen_size. lia.
  - apply (font_ok_ext s.(fb_memory)); [|exact Hf]. intros i Hi. simpl. apply lookup_insert_ne. intros ->. apply Hna. right. lia.
Qed.

(** Moving the cursor, and drawing apart from the font, keep all but the room. *)
Lemma console_drawn s s' img n w h glyphs bytes line column k :
  console_ok s n w h glyphs bytes (S k) -> drawn s img s' -> 0 <= line <= s.(cur_fb_line) + 1 -> 0 <= column <= s.(cur_fb_column) + 1 ->
  console_ok (set_fb_cursor line column s') n w h glyphs bytes k.
Proof.
  intros (Hok & Hf & Hapart & Hw31 & Hh31 & Hh0 & Hn & Hc & Hl & Hcw & Hlh) [E [Hp Hh Hs Hb Hm] Hout _] Hline Hcol. rewrite E in *. simpl in *.
  assert (0 < w) as Hw0 by apply Hf.
  split; [by constructor|]. split; [|split; [exact Hapart|]].
  - apply (font_ok_ext s.(fb_memory)); [|exact Hf]. intros i Hi. simpl. apply Hout. unfold screen_size in Hapart. lia.
  - simpl. rewrite Nat2Z.inj_succ in *. split_and!; try done; try lia; nia.
Qed.

Lemma putchar_ok s n w h glyphs bytes k c fg bg : console_ok s n w h glyphs bytes (S k) -> 0 <= fg < 2 ^ 32 -> 0 <= bg < 2 ^ 32 ->
  exists s', _fb_putchar c fg bg s = Ret (tt, s') /\ console_ok s' n w h glyphs bytes k /\
    s'.(framebuffer_data) = s.(framebuffer_data) /\ s'.(font) = s.(font) /\
    forall b, ~ console_addresses s n b -> s'.(fb_memory) !! b = s.(fb_memory) !! b.
Proof.
  intros Hok Hfg Hbg. pose proof Hok as (Hfb & Hf & Hapart & Hw31 & Hh31 & Hh0 & Hn & Hc & Hl & Hcw & Hlh).
  pose proof (font_size _ _ _ _ _ _ _ _ Hf) as (Hg & Hgn & Hw0 & _ & Hgb). rewrite Nat2Z.inj_succ in *.
  assert (0 < (w + 7) / 8) by (apply Z.div_str_pos; lia).
  unfold _fb_putchar. rewrite (bind_run _ _ _ _ _ (eq_refl : get s = Ret (s, s))).
  destruct (Z.eqb_spec c 10) as [->|Hne].
  - eexists. split; [reflexivity|]. split; [|done]. rewrite u64_small by nia.
    apply (console_drawn s s (image s)); [done|by apply drawn_refl|lia|lia].
  - assert (0 <= u8 c < 256) as Hu by (apply Z.mod_pos_bound; lia).
    destruct (font_run s n w h glyphs bytes (u8 c) Hf Hu) as (Hrw & Hrh & Hrg).
    destruct (putcharAt_run s c s.(cur_fb_column) s.(cur_fb_line) fg bg w h (glyphs + u8 c * bytes)) as (s1 & Hrun & Hd); try done; try nia.
    { split; [|unfold screen_size in Hapart; nia]. intros i Hi. replace (glyphs + u8 c * bytes + i) with (s.(font) + (glyphs - s.(font) + u8 c * bytes + i)) by lia.
      apply (font_present _ _ _ _ _ _ _ _ Hf). nia. }
    rewrite (bind_run _ _ _ _ _ Hrun). eexists. split; [reflexivity|].
    pose proof (drawn_same _ _ _ Hd) as E. assert (s1.(cur_fb_line) = s.(cur_fb_line) /\ s1.(cur_fb_column) = s.(cur_fb_column)) as [-> ->] by (by rewrite E).
    rewrite u64_small by nia. split; [apply (console_drawn s s1 _ _ _ _ _ _ _ _ _ Hok Hd); lia|].
    simpl. rewrite E. simpl. split_and!; try done. intros b Hb. apply (drawn_outside _ _ _ Hd). intros Hin. apply Hb. by left.
Qed.
Lemma increaseLine_ok s n w h glyphs bytes k : console_ok s n w h glyphs bytes (S (S k)) ->
  exists s', _fb_increaseLine s = Ret (tt, s') /\ console_ok s' n w h glyphs bytes k /\ s'.(fb_memory) = s.(fb_memory).
Proof.
  intros Hok. pose proof Hok as (_ & Hf & _ & _ & Hh31 & Hh0 & Hn & _ & Hl & _ & Hlh). rewrite !Nat2Z.inj_succ in Hlh.
  assert (s.(cur_fb_line) + 2 <= s.(framebuffer_data).(number_of_lines)) by (rewrite Hn; apply Z.div_le_lower_bound; nia).
  unfold _fb_increaseLine. rewrite (bind_run _ _ _ _ _ (eq_refl : get s = Ret (s, s))). cbv zeta. rewrite u64_small by nia.
  rewrite (bind_run _ _ _ tt _ eq_refl). destruct (Z.leb_spec s.(framebuffer_data).(number_of_lines) (s.(cur_fb_line) + 1)); [lia|].
  eexists. split; [reflexivity|]. split; [|done].
  destruct Hok as (H1 & H2 & H3 & H4 & H5 & H6 & H7 & H8 & H9 & H10 & H11). rewrite !Nat2Z.inj_succ in *. assert (0 < w) by apply Hf.
  split; [by destruct H1|]. do 9 (split; [done || (simpl; lia)|]). simpl. nia.
Qed.
End ConsoleLaws.

#[export] Instance fb_console_laws : ConsoleLaws fb_state.
Proof.
  refine {|
    console_area s b := console_addresses s (font_length s) b;
    console_room s k := exists n w h glyphs bytes, console_ok s n w h glyphs bytes k |}.
  - done.
  - intros s k a v (n & w & h & glyphs & bytes & Hok) Hna. cbv zeta.
    rewrite (font_ok_length _ _ _ _ _ _ (proj1 (proj2 Hok))) in *. pose proof (console_store_ok _ _ _ _ _ _ _ a v Hok Hna) as Hok'.
    split; [by exists n, w, h, glyphs, bytes|]. intros b. simpl. by rewrite (font_ok_length _ _ _ _ _ _ (proj1 (proj2 Hok'))).
  - intros s k c fg bg (n & w & h & glyphs & bytes & Hok) Hfg Hbg.
    rewrite (font_ok_length _ _ _ _ _ _ (proj1 (proj2 Hok))).
    destruct (putchar_ok _ _ _ _ _ _ _ c fg bg Hok Hfg Hbg) as (s' & Hrun & Hok' & Ed & Ef & Hm). exists s'.
    split; [done|]. split; [by exists n, w, h, glyphs, bytes|].
    rewrite (font_ok_length _ _ _ _ _ _ (proj1 (proj2 Hok'))). unfold console_addresses, screen_size. by rewrite Ed, Ef.
  - intros s k (n & w & h & glyphs & bytes & Hok). destruct (increaseLine_ok _ _ _ _ _ _ _ Hok) as (s' & Hrun & Hok' & Hm).
    exists s'. split; [done|]. split; [by exists n, w, h, glyphs, bytes|done].
Defined.

(** A screen of 16 by 16 points, with a font of one-byte rows behind it. *)
Definition sample_screen_memory : memory :=
  list_to_map (zip (seqZ 0x1000 1024) (repeat 7 1024)) ∪
  list_to_map (zip (seqZ 0x100 12) [0x36; 0x04; 0; 4; 0; 0; 0; 0; 0x80; 0x40; 0x20; 0x10]).
Definition sample_screen : fb_state :=
  mk_fb (mk_fb_info 0x1000 32 64 1024 16 16 4 2 0xE0000000) 0 0 (mk_window 0 0 16 16) (mk_window 12 0 4 8) true PSF_V1 0x100 sample_screen_memory.

Lemma sample_screen_ok : fb_ok sample_screen.
Proof.
  constructor; try (simpl; unfold sizeof_PIXEL; lia).
  - assert (map_Forall (fun _ b => 0 <= b < 256) sample_screen_memory) as Hall; [|exact Hall].
    apply (bool_decide_unpack _). vm_compute. exact I.
  - assert (Forall (fun i => is_Some (sample_screen_memory !! (0x1000 + i))) (seqZ 0 1024)) as Hall.
    { apply (bool_decide_unpack _). vm_compute. exact I. }
    rewrite Forall_forall in Hall. intros i Hi. apply Hall, elem_of_seqZ. simpl in Hi. lia.
Qed.

Lemma sample_rectangles :
  _fb_get_rectangles (mk_window 0 0 16 16) (Some (mk_window 12 0 4 8)) = [mk_window 0 0 12 16; mk_window 12 8 4 8].
Proof. reflexivity. Qed.

Lemma sample_images : image sample_screen 3 4 = 0x07070707 /\ image sample_screen 3 8 = 0x07070707.
Proof. by vm_compute. Qed.

Lemma sample_glyph : forall i, 0 <= i < 4 -> is_Some (sample_screen_memory !! (0x108 + i)).
Proof.
  assert (Forall (fun i => is_Some (sample_screen_memory !! (0x108 + i))) (seqZ 0 4)) as Hall
    by (apply (bool_decide_unpack _); vm_compute; exact I).
  rewrite Forall_forall in Hall. intros i Hi. apply Hall, elem_of_seqZ. lia.
Qed.

Lemma sample_charsize : in_fb_memory (load (0x100 + 3)) sample_screen = Ret (4, sample_screen).
Proof. apply in_load_run. vm_compute. reflexivity. Qed.

Lemma sample_bits : row_bit sample_screen_memory 0x109 1 = true /\ row_bit sample_screen_memory 0x109 0 = false.
Proof. split; vm_compute; reflexivity. Qed.

Lemma sample_font :
  _psf_get_width PSF_V1 sample_screen = Ret (8, sample_screen) /\ _psf_get_height PSF_V1 sample_screen = Ret (4, sample_screen) /\
  _psf_get_glyph 1 PSF_V1 sample_screen = Ret (0x108, sample_screen).
Proof.
  split; [reflexivity|]. split; [exact sample_charsize|].
  unfold _psf_get_glyph. rewrite (bind_run _ _ sample_screen 0x100 sample_screen eq_refl).
  change (PSF_V1 =? PSF_V1) with true. cbv iota. by rewrite (bind_run _ _ _ _ _ sample_charsize).
Qed.

Lemma _fb_scroll_pins_witness :
  exists s', _fb_scroll (mk_window 0 0 16 16) 4 (Some (mk_window 12 0 4 8)) true sample_screen = Ret (tt, s') /\
    image s' 3 13 = 0 /\ image s' 3 4 = 0x07070707.
Proof.
  destruct (_fb_scroll_pins sample_screen (mk_window 12 0 4 8) 4) as (s' & Hrun & Hd & _);
    try (unfold window_ok, within; simpl; lia).
  - exact sample_screen_ok.
  - reflexivity.
  - discriminate.
  - change (Forall (fun r => 4 <= r.(height)) [mk_window 0 0 12 16; mk_window 12 8 4 8]).
    apply Forall_cons; split; [simpl; lia|]. apply Forall_cons; split; [simpl; lia|]. apply Forall_nil_2.
  - exists s'. split; [exact Hrun|]. destruct Hd as [_ _ _ Himg]. split.
    + rewrite Himg by (split; simpl; lia). reflexivity.
    + rewrite Himg by (split; simpl; lia). exact (proj2 sample_images).
Defined.

Lemma _fb_putcharAt_draws_witness :
  exists s', _fb_putcharAt 1 1 2 0xFFFFFF 0 sample_screen = Ret (tt, s') /\
    image s' 9 9 = 0xFFFFFF /\ image s' 8 9 = 0 /\ image s' 3 4 = 0x07070707.
Proof.
  destruct sample_font as (Hw & Hh & Hg). destruct sample_bits as [Hb1 Hb0].
  destruct (_fb_putcharAt_draws sample_screen 1 1 2 0xFFFFFF 0 8 4 0x108) as (s' & Hrun & Hd);
    try assumption; try (simpl; lia).
  - exact sample_screen_ok.
  - split; [exact sample_glyph|left; vm_compute; discriminate].
  - exists s'. split; [exact Hrun|]. destruct Hd as [_ _ _ Himg]. split; [|split].
    + rewrite Himg by (split; simpl; lia). change (inside 9 9 _) with true. cbv iota.
      exact (f_equal (fun b : bool => if b then 0xFFFFFF else 0) Hb1).
    + rewrite Himg by (split; simpl; lia). change (inside 8 9 _) with true. cbv iota.
      exact (f_equal (fun b : bool => if b then 0xFFFFFF else 0) Hb0).
    + rewrite Himg by (split; simpl; lia). exact (proj1 sample_images).
Defined.
