(* ===== verification/Keyboard.v ===== *)
(** The keyboard: [kernel/hardware/keyboard.c] and
    [drivers/ps2/ps2_keyboard_driver.c], with the registry of devices
    ([hardware/devices.c]). The bytes read from the ports are arguments.
    A character that a read gets is echoed on a [Console], whose memory is the one
    the buffers of the reads are in. *)
From S2P Require Import Prelude CString Console.

Definition KEY_RELEASE_MASK : Z := 0x80.
Definition KEYBOARD_ACK_BYTE : Z := 0xFA.
Definition MAX_KEYB_BUFFER_SIZE : Z := 0x13.
Definition ASCII_DIGIT_OFFSET : Z := 0x10.
Definition BUF_STEP (x : Z) : Z := if x <? MAX_KEYB_BUFFER_SIZE - 1 then x + 1 else 0.

(** [key_codes]: the codes the code refers to by name. *)
Definition LEFT_CTRL : Z := 0x1D.
Definition LEFT_SHIFT : Z := 0x2A.
Definition RIGHT_SHIFT : Z := 0x36.
Definition LEFT_ALT : Z := 0x38.
Definition LEFT_GUI : Z := 0x5B.
Definition RIGHT_GUI : Z := 0x5C.
Definition EXTENDED_PREFIX : Z := 0xE0.

(** [key_modifiers]. *)
Definition left_shift : Z := 1.
Definition right_shift : Z := 2.
Definition left_alt : Z := 4.
Definition right_alt : Z := 8.
Definition left_ctrl : Z := 16.
Definition right_ctrl : Z := 32.
Definition left_gui : Z := 64.
Definition right_gui : Z := 128.

(** The table [scancode_mappings], row by row. *)
Definition scancode_mappings : list Z :=
  [0; 0x01; 0x02; 0x03; 0x04; 0x05; 0x06; 0x07; 0x08; 0x09; 0x0A; 0x0B; 0x0C; 0x0D; 0x0E] ++
  [0x0F; 0x10; 0x11; 0x12; 0x13; 0x14; 0x15; 0x16; 0x17; 0x18; 0x19; 0x1A; 0x1B; 0x1C] ++
  [0x1D; 0x1E; 0x1F; 0x20; 0x21; 0x22; 0x23; 0x24; 0x25; 0x26; 0x27; 0x28; 0x29] ++
  [0x2A; 0x2B; 0x2C; 0x2D; 0x2E; 0x2F; 0x30; 0x31; 0x32; 0x33; 0x34; 0x35; 0x36] ++
  [0x37; 0x38; 0x39; 0x3A] ++
  [0x3B; 0x3C; 0x3D; 0x3E; 0x3F; 0x40; 0x41; 0x42; 0x43; 0x44] ++
  [0x57; 0x58; 0x45; 0x46] ++
  [0x47; 0x48; 0x49; 0x4A; 0x4B; 0x4C; 0x4D; 0x4E; 0x4F; 0x50; 0x51; 0x52; 0x53].

(** The table [keymap]. *)
Definition keymap : list Z :=
  [0; 0x01; 49; 50; 51; 52; 53; 54; 55; 56; 57; 48; 45; 61; 8] ++
  [9; 113; 119; 101; 114; 116; 121; 117; 105; 111; 112; 91; 93; 10] ++
  [0; 97; 115; 100; 102; 103; 104; 106; 107; 108; 59; 39; 96] ++
  [0; 92; 122; 120; 99; 118; 98; 110; 109; 44; 46; 47; 0] ++
  [0; 0; 32; 0] ++
  [0; 0; 0; 0; 0; 0; 0; 0; 0; 0] ++
  [0; 0; 0; 0] ++
  [55; 56; 57; 45; 52; 53; 54; 43; 49; 50; 51; 48; 46].

Record key_status : Type := mk_key {
  code : Z;
  is_pressed : bool;
  modifiers : Z;
}.

(** [pending_operation_t] with the fields of its buffer the driver uses. *)
Record pending_operation_t : Type := mk_operation {
  op_buffer_virtual : Z;
  op_length : Z;
  op_nbytes : Z;
  op_done : bool;
  op_next : Z;
}.

(** The registry of devices: the next number, and the driver of the keyboard with its
    [init] and [read], NULL or a function. *)
Inductive device_function : Type :=
| no_function
| ps2_keyboard_read.
Record device_t : Type := mk_device {
  device_id : Z;
  device_init : device_function;
  device_read : device_function;
}.
Record devices_state : Type := mk_devices {
  _device_descriptor : Z;
  _ps2_default_driver : device_t;
}.

Section Keyboard.
Context {F : Type} `{Console F}.

Record keyboard_state : Type := mk_keyboard {
  keyboard_buffer : list key_status;
  buf_position : Z;
  current_modifiers : Z;
  extended_read : bool;
  scancode_set : Z;
  translation_enabled : bool;
  operations : gmap Z pending_operation_t;
  _ps2_op_head : Z;
  _ps2_op_tail : Z;
  devices : devices_state;
  kb_console : F;
}.
Definition kb_memory (s : keyboard_state) : memory := console_memory s.(kb_console).

Definition set_buffer (l : list key_status) (p : Z) (s : keyboard_state) : keyboard_state :=
  mk_keyboard l p s.(current_modifiers) s.(extended_read) s.(scancode_set) s.(translation_enabled) s.(operations)
    s.(_ps2_op_head) s.(_ps2_op_tail) s.(devices) s.(kb_console).
Definition set_modifiers (m : Z) (e : bool) (s : keyboard_state) : keyboard_state :=
  mk_keyboard s.(keyboard_buffer) s.(buf_position) m e s.(scancode_set) s.(translation_enabled) s.(operations)
    s.(_ps2_op_head) s.(_ps2_op_tail) s.(devices) s.(kb_console).
Definition set_settings (set : Z) (translation : bool) (s : keyboard_state) : keyboard_state :=
  mk_keyboard s.(keyboard_buffer) s.(buf_position) s.(current_modifiers) s.(extended_read) set translation s.(operations)
    s.(_ps2_op_head) s.(_ps2_op_tail) s.(devices) s.(kb_console).
Definition set_operations (ops : gmap Z pending_operation_t) (s : keyboard_state) : keyboard_state :=
  mk_keyboard s.(keyboard_buffer) s.(buf_position) s.(current_modifiers) s.(extended_read) s.(scancode_set) s.(translation_enabled) ops
    s.(_ps2_op_head) s.(_ps2_op_tail) s.(devices) s.(kb_console).
Definition set_op_list (head tail : Z) (s : keyboard_state) : keyboard_state :=
  mk_keyboard s.(keyboard_buffer) s.(buf_position) s.(current_modifiers) s.(extended_read) s.(scancode_set) s.(translation_enabled) s.(operations)
    head tail s.(devices) s.(kb_console).
Definition set_kb_console (f : F) (s : keyboard_state) : keyboard_state :=
  mk_keyboard s.(keyboard_buffer) s.(buf_position) s.(current_modifiers) s.(extended_read) s.(scancode_set) s.(translation_enabled) s.(operations)
    s.(_ps2_op_head) s.(_ps2_op_tail) s.(devices) f.
Definition set_devices (d : devices_state) (s : keyboard_state) : keyboard_state :=
  mk_keyboard s.(keyboard_buffer) s.(buf_position) s.(current_modifiers) s.(extended_read) s.(scancode_set) s.(translation_enabled) s.(operations)
    s.(_ps2_op_head) s.(_ps2_op_tail) d s.(kb_console).
Definition set_kb_memory (m : memory) (s : keyboard_state) : keyboard_state :=
  set_kb_console (set_console_memory m s.(kb_console)) s.

Definition in_kb_memory {A} (m : M memory A) : M keyboard_state A := zoom kb_memory set_kb_memory m.
Definition in_console {A} (m : M F A) : M keyboard_state A := zoom kb_console set_kb_console m.

(** [init_keyboard]: [ack] and [set] are the answers to the request for the scancode
    set, [configuration] the configuration byte. *)
Definition init_keyboard (ack set configuration : Z) : M keyboard_state unit :=
  let! s := get in
  do! modify (set_modifiers 0 s.(extended_read)) in
  do! (if ack =? KEYBOARD_ACK_BYTE then modify (fun s => set_settings set s.(translation_enabled) s) else ret tt) in
  do! modify (fun s => set_settings s.(scancode_set) (negb (Z.land configuration (Z.shiftl 1 6) =? 0)) s) in
  modify (fun s => set_buffer s.(keyboard_buffer) 0 s).

Definition update_modifiers (modifier : Z) (pressed : bool) : M keyboard_state Z :=
  let! s := get in
  let m := if pressed then u8 (Z.lor s.(current_modifiers) modifier) else u8 (Z.land s.(current_modifiers) (not64 modifier)) in
  do! modify (fun s => set_modifiers m s.(extended_read) s) in
  ret m.

(** A table of characters or codes; an index past its end is past the object. *)
Definition table_entry (t : list Z) (i : Z) : M keyboard_state Z :=
  if i <? 0 then throw OutOfBounds else lift_opt OutOfBounds (t !! Z.to_nat i).

(** [kgetch]; a code of the table is a byte when it is used as an index. *)
Definition kgetch (item : key_status) : M keyboard_state Z :=
  let char_code := u8 item.(code) in
  if item.(is_pressed) then
    let! c := table_entry keymap char_code in
    let shifted := negb (Z.land item.(modifiers) 3 =? 0) in
    if (97 <=? c) && (c <=? 122) && shifted then ret (c - (97 - 65))
    else if (48 <=? c) && (c <=? 57) && shifted then ret (c - ASCII_DIGIT_OFFSET)
    else table_entry keymap item.(code)
  else ret 0.

Definition translate (scancode : Z) : M keyboard_state Z :=
  if scancode =? EXTENDED_PREFIX then
    do! modify (fun s => set_modifiers s.(current_modifiers) true s) in ret scancode
  else
    let released := negb (Z.land scancode KEY_RELEASE_MASK =? 0) in
    let read_scancode := if released then u8 (Z.land scancode (not64 KEY_RELEASE_MASK)) else scancode in
    let pressed := negb released in
    if read_scancode <? 0x60 then
      let! s := get in
      let! _ :=
        if read_scancode =? LEFT_CTRL then update_modifiers (if s.(extended_read) then right_ctrl else left_ctrl) pressed
        else if read_scancode =? LEFT_ALT then update_modifiers (if s.(extended_read) then right_alt else left_alt) pressed
        else if read_scancode =? LEFT_GUI then update_modifiers left_gui pressed
        else if read_scancode =? RIGHT_GUI then update_modifiers right_gui pressed
        else if read_scancode =? LEFT_SHIFT then update_modifiers left_shift pressed
        else if read_scancode =? RIGHT_SHIFT then update_modifiers right_shift pressed
        else ret 0 in
      let read_scancode := if (read_scancode =? LEFT_GUI) || (read_scancode =? RIGHT_GUI) then 0 else read_scancode in
      do! modify (fun s => set_modifiers s.(current_modifiers) false s) in
      table_entry scancode_mappings read_scancode
    else
      do! modify (fun s => set_modifiers s.(current_modifiers) false s) in
      table_entry scancode_mappings 0.

(** [keyboard_buffer[buf_position]]. *)
Definition write_key (f : key_status -> key_status) : M keyboard_state unit :=
  let! s := get in
  let i := Z.to_nat s.(buf_position) in
  let! k := lift_opt OutOfBounds (s.(keyboard_buffer) !! i) in
  modify (set_buffer (<[i := f k]> s.(keyboard_buffer)) s.(buf_position)).

Definition read_operation (p : Z) : M keyboard_state pending_operation_t :=
  if p =? 0 then throw NullDeref else let! s := get in lift_opt OutOfBounds (s.(operations) !! p).
Definition write_operation (p : Z) (o : pending_operation_t) : M keyboard_state unit :=
  if p =? 0 then throw NullDeref else modify (fun s => set_operations (<[p := o]> s.(operations)) s).

(** The part of [handle_keyboard_interrupt] that gives the character to the read
    that waits for it. *)
Definition deliver (read_char : Z) : M keyboard_state unit :=
  let! s := get in
  let head := s.(_ps2_op_head) in
  if negb (head =? 0) then
    let! o := read_operation head in
    if negb o.(op_done) then
      do! (if o.(op_nbytes) <? o.(op_length) then
             do! in_kb_memory (store (o.(op_buffer_virtual) + o.(op_nbytes)) read_char) in
             do! write_operation head (mk_operation o.(op_buffer_virtual) o.(op_length) (u64 (o.(op_nbytes) + 1)) o.(op_done) o.(op_next)) in
             in_console (putchar read_char 0xe58749 0x000000)
           else ret tt) in
      let! o := read_operation head in
      if o.(op_nbytes) =? o.(op_length) then
        do! write_operation head (mk_operation o.(op_buffer_virtual) o.(op_length) o.(op_nbytes) true o.(op_next)) in
        modify (fun s => set_op_list o.(op_next) s.(_ps2_op_tail) s)
      else ret tt
    else ret tt
  else ret tt.

Definition handle_keyboard_interrupt (scancode : Z) : M keyboard_state unit :=
  let! s := get in
  if s.(translation_enabled) || (s.(scancode_set) =? 1) then
    let! translated := translate scancode in
    let read_scancode := u8 translated in
    do! write_key (fun k => mk_key read_scancode k.(is_pressed) k.(modifiers)) in
    if negb (scancode =? EXTENDED_PREFIX) then
      let! s := get in
      do! write_key (fun k => mk_key read_scancode k.(is_pressed) s.(current_modifiers)) in
      do! (if negb (Z.land scancode KEY_RELEASE_MASK =? 0)
           then write_key (fun k => mk_key k.(code) false k.(modifiers))
           else
             do! write_key (fun k => mk_key k.(code) true k.(modifiers)) in
             let! read_char := kgetch (mk_key read_scancode true s.(current_modifiers)) in
             deliver read_char) in
      modify (fun s => set_buffer s.(keyboard_buffer) (BUF_STEP s.(buf_position)) s)
    else ret tt
  else ret tt.

Definition _ps2_get_next_operation : M keyboard_state Z := gets _ps2_op_head.

Definition init_known_drivers : M keyboard_state unit :=
  modify (fun s => set_devices (mk_devices 0 s.(devices).(_ps2_default_driver)) s).

Definition _ps2_keyboard_driver_init : M keyboard_state unit :=
  do! modify (fun s =>
    let d := s.(devices).(_device_descriptor) in
    set_devices (mk_devices (u8 (d + 1)) (mk_device d no_function ps2_keyboard_read)) s) in
  modify (set_op_list 0 0).

(** They have no body. *)
Definition _ps2_keyboard_shutdown : M keyboard_state unit := ret tt.
Definition _ps2_keyboard_read (dst len : Z) : M keyboard_state unit := ret tt.

Definition _ps2_keyboard_add_operation (new_op : Z) : M keyboard_state unit :=
  let! s := get in
  if s.(_ps2_op_head) =? 0 then modify (set_op_list new_op new_op)
  else
    let! t := read_operation s.(_ps2_op_tail) in
    do! write_operation s.(_ps2_op_tail) (mk_operation t.(op_buffer_virtual) t.(op_length) t.(op_nbytes) t.(op_done) new_op) in
    modify (set_op_list s.(_ps2_op_head) new_op).

(** [_ps2_keyboard_del_operation] takes the head out, whatever it is given; the
    memory goes back to the heap. *)
Definition _ps2_keyboard_del_operation (op_to_delete : Z) : M keyboard_state unit :=
  let! s := get in
  let! o := read_operation s.(_ps2_op_head) in
  do! modify (set_op_list o.(op_next) s.(_ps2_op_tail)) in
  modify (fun t => set_operations (delete s.(_ps2_op_head) t.(operations)) t).

End Keyboard.
Arguments keyboard_state : clear implicits.

(** ** What a scancode is *)

(** The code a scancode without the release bit stands for: itself up to 0x44; from
    0x45 on the table has two entries in front of those that belong there; past its
    86 entries there is nothing. *)
Definition code_of (c : Z) : option Z :=
  if c <=? 0x44 then Some c
  else if c <=? 0x46 then Some (c + 0x12)
  else if c <=? 0x55 then Some (c - 2)
  else if (c =? LEFT_GUI) || (c =? RIGHT_GUI) || (0x60 <=? c) then Some 0
  else None.

(** The modifier of a key. *)
Definition modifier_of (c : Z) (extended : bool) : Z :=
  if c =? LEFT_CTRL then if extended then right_ctrl else left_ctrl
  else if c =? LEFT_ALT then if extended then right_alt else left_alt
  else if c =? LEFT_GUI then left_gui
  else if c =? RIGHT_GUI then right_gui
  else if c =? LEFT_SHIFT then left_shift
  else if c =? RIGHT_SHIFT then right_shift else 0.

(** The modifiers after a key is pressed or released. *)
Definition modified (m : Z) (e : bool) (c : Z) (pressed : bool) : Z :=
  let k := modifier_of c e in
  if k =? 0 then m else if pressed then u8 (Z.lor m k) else u8 (Z.land m (not64 k)).

(** The character of a code under the modifiers: a letter or a digit moves down in
    the table of characters when a shift key is held. *)
Definition key_char (m v : Z) : option Z :=
  c ← keymap !! Z.to_nat v;
  Some (if ((97 <=? c) && (c <=? 122)) && negb (Z.land m 3 =? 0) then c - 32
        else if ((48 <=? c) && (c <=? 57)) && negb (Z.land m 3 =? 0) then c - 16 else c).

(** What one byte from the keyboard means: the modifiers and the prefix it leaves,
    and the character it gives if it gives one. [None]: an index past a table. *)
Definition decode (m : Z) (e : bool) (scancode : Z) : option (Z * bool * option Z) :=
  if scancode =? EXTENDED_PREFIX then Some (m, true, None)
  else
    let pressed := scancode <? 0x80 in
    let c := scancode mod 0x80 in
    let m' := modified m e c pressed in
    v ← code_of c;
    if pressed then ch ← key_char m' v; Some (m', false, Some ch) else Some (m', false, None).

(** The text a sequence of bytes gives. *)
Fixpoint decode_all (m : Z) (e : bool) (scancodes : list Z) : option (Z * bool * list Z) :=
  match scancodes with
  | [] => Some (m, e, [])
  | sc :: scs =>
      '(m', e', ch) ← decode m e sc;
      '(m'', e'', text) ← decode_all m' e' scs;
      Some (m'', e'', option_list ch ++ text)
  end.

Section Translate.
Context {F : Type} `{Console F}.
Implicit Types (s : keyboard_state F).

(** The bits of a scancode. *)
Lemma scancode_bits sc : 0 <= sc < 0x100 ->
  (Z.land sc KEY_RELEASE_MASK =? 0) = (sc <? 0x80) /\
  (if sc <? 0x80 then sc else u8 (Z.land sc (not64 KEY_RELEASE_MASK))) = sc mod 0x80.
Proof.
  intros Hc.
  assert (Forall (fun sc => (Z.land sc KEY_RELEASE_MASK =? 0) = (sc <? 0x80) /\
    (if sc <? 0x80 then sc else u8 (Z.land sc (not64 KEY_RELEASE_MASK))) = sc mod 0x80) (seqZ 0 0x100)) as Hall
    by (apply (bool_decide_unpack _); vm_compute; exact I).
  rewrite Forall_forall in Hall. apply Hall, elem_of_seqZ. lia.
Qed.

Lemma mapping_code_of c : 0 <= c < 0x60 ->
  scancode_mappings !! Z.to_nat (if (c =? LEFT_GUI) || (c =? RIGHT_GUI) then 0 else c) = code_of c.
Proof.
  intros Hc.
  assert (Forall (fun c => scancode_mappings !! Z.to_nat (if (c =? LEFT_GUI) || (c =? RIGHT_GUI) then 0 else c) = code_of c)
    (seqZ 0 0x60)) as Hall by (apply (bool_decide_unpack _); vm_compute; exact I).
  rewrite Forall_forall in Hall. apply Hall, elem_of_seqZ. lia.
Qed.

Lemma code_of_range c v : 0 <= c -> code_of c = Some v -> 0 <= v < 2 ^ 8.
Proof. unfold code_of. repeat case_match; naive_solver lia. Qed.

Lemma table_entry_run t i s v : 0 <= i -> t !! Z.to_nat i = Some v -> table_entry t i s = Ret (v, s).
Proof. intros Hi Ht. unfold table_entry. destruct (Z.ltb_spec i 0); [lia|]. by rewrite Ht. Qed.

Lemma update_modifiers_run s k pressed :
  update_modifiers k pressed s =
    let m := if pressed then u8 (Z.lor s.(current_modifiers) k) else u8 (Z.land s.(current_modifiers) (not64 k)) in
    Ret (m, set_modifiers m s.(extended_read) s).
Proof. done. Qed.

(** The switch on the modifier keys. *)
Lemma switch_modifiers_run s c pressed :
  exists r, (if c =? LEFT_CTRL then update_modifiers (if s.(extended_read) then right_ctrl else left_ctrl) pressed
    else if c =? LEFT_ALT then update_modifiers (if s.(extended_read) then right_alt else left_alt) pressed
    else if c =? LEFT_GUI then update_modifiers left_gui pressed
    else if c =? RIGHT_GUI then update_modifiers right_gui pressed
    else if c =? LEFT_SHIFT then update_modifiers left_shift pressed
    else if c =? RIGHT_SHIFT then update_modifiers right_shift pressed
    else ret 0) s =
    Ret (r, set_modifiers (modified s.(current_modifiers) s.(extended_read) c pressed) s.(extended_read) s).
Proof.
  unfold modified, modifier_of. destruct s as [b p m e sc tr ops h t dev con].
  repeat match goal with |- context [c =? ?k] => destruct (c =? k) end;
    try (rewrite update_modifiers_run; destruct e, pressed; eexists; reflexivity).
  by exists 0.
Qed.

(** [translate] on every byte. *)
Lemma translate_run s sc v :
  0 <= sc < 0x100 -> sc <> EXTENDED_PREFIX -> code_of (sc mod 0x80) = Some v ->
  translate sc s =
    Ret (v, set_modifiers (modified s.(current_modifiers) s.(extended_read) (sc mod 0x80) (sc <? 0x80)) false s).
Proof.
  intros Hsc Hx Hv. destruct (scancode_bits sc Hsc) as (Hr & Hu).
  unfold translate. destruct (Z.eqb_spec sc EXTENDED_PREFIX) as [|_]; [done|]. rewrite Hr, negb_involutive.
  replace (if negb (sc <? 0x80) then u8 (Z.land sc (not64 KEY_RELEASE_MASK)) else sc) with (sc mod 0x80)
    by (rewrite <- Hu; by destruct (sc <? 0x80)).
  pose proof (Z.mod_pos_bound sc 0x80 ltac:(lia)) as Hb. generalize dependent (sc mod 0x80). intros c Hv _ Hb.
  destruct (Z.ltb_spec c 0x60) as [Hc|Hc].
  - rewrite (bind_run _ _ _ _ _ (eq_refl : get s = Ret (s, s))).
    destruct (switch_modifiers_run s c (sc <? 0x80)) as [r Hs]. rewrite (bind_run _ _ _ _ _ Hs).
    unfold bind at 1, modify. apply table_entry_run; [by destruct (_ || _); lia|].
    by rewrite mapping_code_of by lia.
  - unfold bind, modify.
    assert (v = 0) as -> by (unfold code_of in Hv; repeat case_match; naive_solver lia).
    assert (modified s.(current_modifiers) s.(extended_read) c (sc <? 0x80) = s.(current_modifiers)) as ->; [|done].
    unfold modified, modifier_of, LEFT_CTRL, LEFT_ALT, LEFT_GUI, RIGHT_GUI, LEFT_SHIFT, RIGHT_SHIFT.
    by repeat match goal with |- context [c =? ?k] => destruct (Z.eqb_spec c k); [lia|] end.
Qed.

Lemma kgetch_run s v m ch : 0 <= v < 2 ^ 8 -> key_char m v = Some ch -> kgetch (mk_key v true m) s = Ret (ch, s).
Proof.
  intros Hv Hch. unfold key_char in Hch. destruct (keymap !! Z.to_nat v) as [c|] eqn:Hc; [|done].
  injection Hch as <-. unfold kgetch. cbn [code is_pressed modifiers]. rewrite u8_small by done.
  rewrite (bind_run _ _ _ _ _ (table_entry_run _ _ s _ (proj1 Hv) Hc)).
  destruct ((97 <=? c) && (c <=? 122) && negb (Z.land m 3 =? 0)); [done|].
  destruct ((48 <=? c) && (c <=? 57) && negb (Z.land m 3 =? 0)); [done|]. apply table_entry_run; [lia|done].
Qed.
End Translate.

(** ** The interrupt *)

Section Interrupt.
Context {F : Type} `{ConsoleLaws F}.
Implicit Types (s : keyboard_state F) (f : F).

(** The ring of keys is whole, and the keyboard sends codes of set 1. *)
Definition keyboard_ok s : Prop :=
  length s.(keyboard_buffer) = Z.to_nat MAX_KEYB_BUFFER_SIZE /\ 0 <= s.(buf_position) < MAX_KEYB_BUFFER_SIZE /\
  (s.(translation_enabled) = true \/ s.(scancode_set) = 1).

Lemma write_key_run s upd : keyboard_ok s ->
  exists l, length l = Z.to_nat MAX_KEYB_BUFFER_SIZE /\ write_key upd s = Ret (tt, set_buffer l s.(buf_position) s).
Proof.
  intros (Hl & Hp & _). destruct (lookup_lt_is_Some_2 s.(keyboard_buffer) (Z.to_nat s.(buf_position))) as [k Hk]; [lia|].
  eexists. split; [|unfold write_key, bind, get; by rewrite Hk]. by rewrite length_insert.
Qed.

(** One interrupt: the byte changes what [decode] says, then the character goes to
    the read that waits. *)
Lemma handle_run s sc m e ch :
  keyboard_ok s -> 0 <= sc < 0x100 -> decode s.(current_modifiers) s.(extended_read) sc = Some (m, e, ch) ->
  exists l, length l = Z.to_nat MAX_KEYB_BUFFER_SIZE /\
    let s' := set_buffer l s.(buf_position) (set_modifiers m e s) in
    handle_keyboard_interrupt sc s =
      if sc =? EXTENDED_PREFIX then Ret (tt, s')
      else (do! match ch with Some c => deliver c | None => ret tt end in
            modify (fun s => set_buffer s.(keyboard_buffer) (BUF_STEP s.(buf_position)) s)) s'.
Proof.
  intros Hok Hsc Hd. destruct (scancode_bits sc Hsc) as (Hr & _).
  unfold handle_keyboard_interrupt. rewrite (bind_run _ _ _ _ _ (eq_refl : get s = Ret (s, s))).
  assert (s.(translation_enabled) || (s.(scancode_set) =? 1) = true) as ->
    by (destruct Hok as (_ & _ & [->| ->]); [done|by destruct (translation_enabled s)]).
  unfold decode in Hd. destruct (Z.eqb_spec sc EXTENDED_PREFIX) as [->|Hne].
  - injection Hd as <- <- <-.
    rewrite (bind_run _ _ _ EXTENDED_PREFIX (set_modifiers s.(current_modifiers) true s)) by done.
    destruct (write_key_run (set_modifiers s.(current_modifiers) true s) (fun k => mk_key (u8 EXTENDED_PREFIX) k.(is_pressed) k.(modifiers)))
      as (l & Hl & Hw); [done|]. exists l. split; [done|]. by rewrite (bind_run _ _ _ _ _ Hw).
  - destruct (code_of (sc mod 0x80)) as [v|] eqn:Hv; [|done]. simpl in Hd.
    rewrite (bind_run _ _ _ _ _ (translate_run s sc v Hsc Hne Hv)).
    pose proof (code_of_range _ v (proj1 (Z.mod_pos_bound sc 0x80 ltac:(lia))) Hv) as Hvr. rewrite (u8_small v) by done.
    set (m0 := modified _ _ _ _) in *. set (s0 := set_modifiers m0 false s).
    assert (keyboard_ok s0) as Hok0 by done.
    assert (forall l, length l = Z.to_nat MAX_KEYB_BUFFER_SIZE -> keyboard_ok (set_buffer l s.(buf_position) s0)) as Hokl
      by (intros l Hl; split; [done|by destruct Hok]).
    destruct (write_key_run s0 (fun k => mk_key v k.(is_pressed) k.(modifiers)) Hok0) as (l1 & Hl1 & Hw1).
    rewrite (bind_run _ _ _ _ _ Hw1). change (negb false) with true. cbv iota.
    rewrite (bind_run _ _ _ _ _ (eq_refl : get (set_buffer l1 (buf_position s0) s0) = Ret (_, _))).
    destruct (write_key_run _ (fun k => mk_key v k.(is_pressed) m0) (Hokl l1 Hl1)) as (l2 & Hl2 & Hw2).
    rewrite (bind_run _ _ _ _ _ Hw2). rewrite Hr.
    destruct (sc <? 0x80) eqn:Hp; simpl negb; cbv iota.
    + destruct (key_char m0 v) as [c|] eqn:Hc; [|done]. injection Hd as <- <- <-.
      destruct (write_key_run _ (fun k => mk_key k.(code) true k.(modifiers)) (Hokl l2 Hl2)) as (l3 & Hl3 & Hw3).
      exists l3. split; [done|]. unfold bind at 1. rewrite (bind_run _ _ _ _ _ Hw3).
      by rewrite (bind_run _ _ _ _ _ (kgetch_run _ v m0 c Hvr Hc)).
    + injection Hd as <- <- <-.
      destruct (write_key_run _ (fun k => mk_key k.(code) false k.(modifiers)) (Hokl l2 Hl2)) as (l3 & Hl3 & Hw3).
      exists l3. split; [done|]. by rewrite (bind_run _ _ _ _ _ Hw3).
Qed.

(** Interrupts one after the other. *)
Fixpoint handle_all (scancodes : list Z) : M (keyboard_state F) unit :=
  match scancodes with
  | [] => ret tt
  | sc :: scs => do! handle_keyboard_interrupt sc in handle_all scs
  end.

(** The state once the read [o] at the head of the list got a text, with the screen
    [f] after it. *)
Definition received (o : pending_operation_t) (text : list Z) f s : keyboard_state F :=
  let n := o.(op_nbytes) + Z.of_nat (length text) in
  let full := n =? o.(op_length) in
  set_op_list (if full then o.(op_next) else s.(_ps2_op_head)) s.(_ps2_op_tail)
    (set_operations (<[s.(_ps2_op_head) := mk_operation o.(op_buffer_virtual) o.(op_length) n full o.(op_next)]> s.(operations))
      (set_kb_console f s)).

(** A read that waits for more characters, its buffer in memory and apart from the
    screen. *)
Definition waiting s (o : pending_operation_t) : Prop :=
  s.(_ps2_op_head) <> 0 /\ s.(operations) !! s.(_ps2_op_head) = Some o /\ o.(op_done) = false /\
  0 <= o.(op_nbytes) < o.(op_length) /\ o.(op_length) < 2 ^ 64 /\
  forall i, 0 <= i < o.(op_length) ->
    is_Some (kb_memory s !! (o.(op_buffer_virtual) + i)) /\ ~ console_area s.(kb_console) (o.(op_buffer_virtual) + i).

(** A text put in memory from [a] on and echoed, one character after the other: each
    is stored and then drawn. *)
Fixpoint echo (a : Z) (text : list Z) : M F unit :=
  match text with
  | [] => ret tt
  | c :: text' =>
      do! modify (fun f => set_console_memory (<[a := u8 c]> (console_memory f)) f) in
      do! putchar c 0xe58749 0x000000 in
      echo (a + 1) text'
  end.

Lemma echo_app t1 : forall a t2 f f1, echo a t1 f = Ret (tt, f1) -> echo a (t1 ++ t2) f = echo (a + Z.of_nat (length t1)) t2 f1.
Proof.
  induction t1 as [|c t1 IH]; intros a t2 f f1 He; cbn [echo app length] in *.
  - injection He as <-. by rewrite Z.add_0_r.
  - unfold bind, modify in He |- *. destruct (putchar c 0xe58749 0 _) as [[[] f']| |]; [|done..].
    rewrite (IH _ _ _ _ He). f_equal. lia.
Qed.

(** The screen [f] after a text was put in the buffer of [o] and echoed: it is what
    drawing the characters gives, and apart from the screen itself the memory has the
    text in the buffer and is otherwise what it was. *)
Record typed s (o : pending_operation_t) (text : list Z) f : Prop := {
  typed_echo : echo (o.(op_buffer_virtual) + o.(op_nbytes)) text s.(kb_console) = Ret (tt, f);
  typed_area : forall b, console_area f b <-> console_area s.(kb_console) b;
  typed_memory : forall b, ~ console_area s.(kb_console) b ->
    console_memory f !! b = write_text (kb_memory s) (o.(op_buffer_virtual) + o.(op_nbytes)) text !! b;
}.

(** The read [o] after [k] more characters that do not fill it. *)
Definition partial (o : pending_operation_t) (k : nat) : pending_operation_t :=
  mk_operation o.(op_buffer_virtual) o.(op_length) (o.(op_nbytes) + Z.of_nat k) false o.(op_next).

Lemma typed_nil s o : typed s o [] s.(kb_console).
Proof. by constructor. Qed.

Lemma received_nil s o : waiting s o -> received o [] s.(kb_console) s = s.
Proof.
  intros (_ & Ho & Hd & Hn & _). unfold received. simpl length. rewrite Z.add_0_r.
  destruct (Z.eqb_spec o.(op_nbytes) o.(op_length)); [lia|]. rewrite <- Hd at 1.
  destruct o; destruct s; simpl in *. subst. by rewrite (insert_id _ _ _ Ho).
Qed.

Lemma partial_waiting s o text f : waiting s o -> typed s o text f -> o.(op_nbytes) + Z.of_nat (length text) < o.(op_length) ->
  waiting (received o text f s) (partial o (length text)) /\ (received o text f s).(_ps2_op_head) = s.(_ps2_op_head).
Proof.
  intros (Hh & Ho & Hd & Hn & Hl & Hm) [_ Ha Hf] Hlt. unfold received.
  destruct (Z.eqb_spec (o.(op_nbytes) + Z.of_nat (length text)) o.(op_length)); [lia|]. split; [|done].
  unfold waiting. simpl. split_and!; try done; try lia; [by rewrite lookup_insert_eq|].
  intros i Hi. destruct (Hm i Hi) as [Hp Hna]. split; [|by rewrite Ha].
  unfold kb_memory. simpl. rewrite Hf by done. by apply write_text_present.
Qed.

Lemma typed_app s o t1 f1 t2 f2 : typed s o t1 f1 -> typed (received o t1 f1 s) (partial o (length t1)) t2 f2 -> typed s o (t1 ++ t2) f2.
Proof.
  intros [He1 Ha1 Hm1] [He2 Ha2 Hm2]. simpl in *. constructor.
  - rewrite (echo_app _ _ _ _ _ He1). by rewrite <- Z.add_assoc.
  - intros b. by rewrite Ha2.
  - intros b Hb. rewrite Hm2 by (by rewrite Ha1). rewrite write_text_app, Z.add_assoc. apply write_text_ext. by apply Hm1.
Qed.

Lemma received_app s o t1 f1 t2 f2 : o.(op_nbytes) + Z.of_nat (length t1) < o.(op_length) ->
  received (partial o (length t1)) t2 f2 (received o t1 f1 s) = received o (t1 ++ t2) f2 s.
Proof.
  intros Hlt. unfold received. destruct (Z.eqb_spec (o.(op_nbytes) + Z.of_nat (length t1)) o.(op_length)); [lia|].
  simpl. rewrite insert_insert_eq, length_app.
  replace (o.(op_nbytes) + Z.of_nat (length t1 + length t2)) with (o.(op_nbytes) + Z.of_nat (length t1) + Z.of_nat (length t2)) by lia.
  by destruct s.
Qed.

(** One character to the read that waits. *)
Lemma deliver_run s o c n : waiting s o -> console_room s.(kb_console) (S n) ->
  exists f, deliver c s = Ret (tt, received o [c] f s) /\ typed s o [c] f /\ console_room f n.
Proof.
  intros (Hh & Ho & Hd & Hn & Hl & Hm) Hroom. unfold deliver.
  assert (forall (t : keyboard_state F) o', t.(operations) !! s.(_ps2_op_head) = Some o' -> read_operation s.(_ps2_op_head) t = Ret (o', t)) as Hread.
  { intros t o' Ho'. unfold read_operation, bind, get. destruct (Z.eqb_spec s.(_ps2_op_head) 0); [done|]. by rewrite Ho'. }
  assert (forall (t : keyboard_state F) o', write_operation s.(_ps2_op_head) o' t = Ret (tt, set_operations (<[s.(_ps2_op_head) := o']> t.(operations)) t)) as Hwrite.
  { intros t o'. unfold write_operation. by destruct (Z.eqb_spec s.(_ps2_op_head) 0). }
  set (a := o.(op_buffer_virtual) + o.(op_nbytes)). destruct (Hm o.(op_nbytes) ltac:(lia)) as [Hpres Hna]. fold a in Hpres, Hna.
  set (f1 := set_console_memory (<[a := u8 c]> (kb_memory s)) s.(kb_console)).
  destruct (console_store _ _ a c Hroom Hna) as [Hroom1 Harea1].
  destruct (console_putchar _ n c 0xe58749 0 Hroom1 ltac:(lia) ltac:(lia)) as (f & Hput & Hroom' & Harea & Hmem).
  exists f. split; [|split; [constructor|done]].
  - rewrite (bind_run _ _ _ _ _ (eq_refl : get s = Ret (s, s))). cbv zeta.
    destruct (Z.eqb_spec s.(_ps2_op_head) 0); [done|]. change (negb false) with true. cbv iota.
    rewrite (bind_run _ _ _ _ _ (Hread s o Ho)), Hd. change (negb false) with true. cbv iota.
    destruct (Z.ltb_spec o.(op_nbytes) o.(op_length)); [|lia]. fold a.
    set (o1 := mk_operation o.(op_buffer_virtual) o.(op_length) (o.(op_nbytes) + 1) false o.(op_next)).
    set (s1 := set_operations (<[s.(_ps2_op_head) := o1]> s.(operations)) (set_kb_console f s)).
    rewrite (bind_run _ _ s tt s1).
    2: { rewrite (bind_run _ _ s tt (set_kb_console f1 s)) by (unfold in_kb_memory, zoom; by rewrite store_run).
         rewrite (bind_run _ _ _ _ _ (Hwrite _ _)). unfold in_console, zoom. cbn [kb_console set_operations set_kb_console].
         unfold f1, kb_memory. rewrite Hput, u64_small by lia. done. }
    rewrite (bind_run _ _ _ _ _ (Hread s1 o1 (lookup_insert_eq _ _ _))).
    unfold received. simpl length. change (op_nbytes o1) with (o.(op_nbytes) + 1). change (op_length o1) with o.(op_length).
    change (Z.of_nat 1) with 1. destruct (Z.eqb_spec (o.(op_nbytes) + 1) o.(op_length)) as [He|He].
    + rewrite (bind_run _ _ _ _ _ (Hwrite s1 _)). unfold s1, modify. simpl. rewrite insert_insert_eq. by destruct s.
    + unfold s1, o1. by destruct s.
  - fold a. cbn [echo]. rewrite (bind_run _ _ _ tt f1) by done. by rewrite (bind_run _ _ _ _ _ Hput).
  - intros b. by rewrite Harea, Harea1.
  - intros b Hb. rewrite Hmem by (by rewrite Harea1). by rewrite console_memory_set.
Qed.

Lemma deliver_opt_run s o ch n : waiting s o -> console_room s.(kb_console) (length (option_list ch) + n) ->
  exists f, (match ch with Some c => deliver c | None => ret tt end) s = Ret (tt, received o (option_list ch) f s) /\
    typed s o (option_list ch) f /\ console_room f n.
Proof.
  intros Hw Hr. destruct ch as [c|]; [by apply deliver_run|]. exists s.(kb_console).
  split; [by rewrite received_nil|]. split; [apply typed_nil|exact Hr].
Qed.

(** One interrupt, given what its character does. *)
Lemma handle_step s sc m e ch :
  keyboard_ok s -> 0 <= sc < 0x100 -> decode s.(current_modifiers) s.(extended_read) sc = Some (m, e, ch) ->
  exists l p, keyboard_ok (set_buffer l p s) /\ forall s1,
    (match ch with Some c => deliver c | None => ret tt end) (set_buffer l s.(buf_position) (set_modifiers m e s)) =
      Ret (tt, set_buffer l s.(buf_position) (set_modifiers m e s1)) ->
    handle_keyboard_interrupt sc s = Ret (tt, set_buffer l p (set_modifiers m e s1)).
Proof.
  intros Hok Hsc Hd. destruct (handle_run s sc m e ch Hok Hsc Hd) as (l & Hl & Hrun). cbv zeta in Hrun. exists l.
  destruct (Z.eqb_spec sc EXTENDED_PREFIX) as [->|Hx].
  - exists s.(buf_position). split; [by destruct Hok as (_ & ? & ?)|]. intros s1 Hs1. rewrite Hrun.
    unfold decode in Hd. simpl in Hd. injection Hd as <- <- <-. exact Hs1.
  - exists (BUF_STEP s.(buf_position)). split.
    + destruct Hok as (_ & Hp & ?). split; [done|]. split; [|done].
      unfold BUF_STEP. simpl. destruct (Z.ltb_spec s.(buf_position) (MAX_KEYB_BUFFER_SIZE - 1)); unfold MAX_KEYB_BUFFER_SIZE in *; lia.
    + intros s1 Hs1. rewrite Hrun, (bind_run _ _ _ _ _ Hs1). done.
Qed.

(** One byte while [o] waits. *)
Lemma handle_one s o sc m e ch n :
  keyboard_ok s -> 0 <= sc < 0x100 -> waiting s o -> console_room s.(kb_console) (length (option_list ch) + n) ->
  decode s.(current_modifiers) s.(extended_read) sc = Some (m, e, ch) ->
  exists l p f, keyboard_ok (set_buffer l p s) /\ typed s o (option_list ch) f /\ console_room f n /\
    handle_keyboard_interrupt sc s = Ret (tt, set_buffer l p (set_modifiers m e (received o (option_list ch) f s))).
Proof.
  intros Hok Hsc Hw Hroom Hd. destruct (handle_step s sc m e ch Hok Hsc Hd) as (l & p & Hokp & Hstep).
  destruct (deliver_opt_run (set_buffer l s.(buf_position) (set_modifiers m e s)) o ch n Hw Hroom) as (f & Hrun & Ht & Hr).
  exists l, p, f. split; [exact Hokp|]. split; [by destruct Ht|]. split; [exact Hr|]. by apply Hstep.
Qed.

(** Sequences of interrupts: the state after them, up to the ring of keys. *)
Lemma handle_quiet_run scs : forall s m e,
  keyboard_ok s -> Forall (fun sc => 0 <= sc < 0x100) scs ->
  decode_all s.(current_modifiers) s.(extended_read) scs = Some (m, e, []) ->
  exists l p, keyboard_ok (set_buffer l p s) /\ handle_all scs s = Ret (tt, set_buffer l p (set_modifiers m e s)).
Proof.
  induction scs as [|sc scs IH]; intros s m e Hok Hr Hd.
  - injection Hd as <- <-. exists s.(keyboard_buffer), s.(buf_position). split; [exact Hok|]. by destruct s.
  - apply Forall_cons in Hr as [Hsc Hr]. cbn [decode_all] in Hd.
    destruct (decode _ _ sc) as [[[m1 e1] ch]|] eqn:Hd1; [|done]. cbn in Hd.
    destruct (decode_all m1 e1 scs) as [[[m2 e2] text1]|] eqn:Hd2; [|done]. cbn in Hd. injection Hd as <- <- Ht.
    apply app_eq_nil in Ht as [Hch ->]. destruct ch; [done|].
    destruct (handle_step s sc m1 e1 None Hok Hsc Hd1) as (l & p & Hokp & Hstep).
    destruct (IH (set_buffer l p (set_modifiers m1 e1 s)) m2 e2 Hokp Hr Hd2) as (l' & p' & Hok' & Hrun').
    exists l', p'. split; [exact Hok'|]. cbn [handle_all]. by rewrite (bind_run _ _ _ _ _ (Hstep s eq_refl)), Hrun'.
Qed.

Lemma handle_all_run scs : forall s m e text o n,
  keyboard_ok s -> Forall (fun sc => 0 <= sc < 0x100) scs -> waiting s o -> console_room s.(kb_console) (length text + n) ->
  decode_all s.(current_modifiers) s.(extended_read) scs = Some (m, e, text) ->
  o.(op_nbytes) + Z.of_nat (length text) <= o.(op_length) ->
  exists l p f, keyboard_ok (set_buffer l p s) /\ typed s o text f /\ console_room f n /\
    handle_all scs s = Ret (tt, set_buffer l p (set_modifiers m e (received o text f s))).
Proof.
  induction scs as [|sc scs IH]; intros s m e text o n Hok Hr Hw Hroom Hd Hlen.
  - injection Hd as <- <- <-. exists s.(keyboard_buffer), s.(buf_position), s.(kb_console).
    split; [exact Hok|]. split; [apply typed_nil|]. split; [exact Hroom|]. rewrite received_nil by done. by destruct s.
  - apply Forall_cons in Hr as [Hsc Hr]. cbn [decode_all] in Hd.
    destruct (decode _ _ sc) as [[[m1 e1] ch]|] eqn:Hd1; [|done]. cbn in Hd.
    destruct (decode_all m1 e1 scs) as [[[m2 e2] text1]|] eqn:Hd2; [|done]. cbn in Hd. injection Hd as <- <- <-.
    rewrite length_app in *. rewrite <- Nat.add_assoc in Hroom.
    destruct (handle_one s o sc m1 e1 ch _ Hok Hsc Hw Hroom Hd1) as (l & p & f & Hokp & Ht & Hr1 & Hstep).
    cbn [handle_all]. rewrite (bind_run _ _ _ _ _ Hstep). set (s1 := set_buffer l p (set_modifiers m1 e1 (received o (option_list ch) f s))).
    destruct (decide (text1 = [])) as [->|Hne].
    + destruct (handle_quiet_run scs s1 m2 e2 Hokp Hr Hd2) as (l' & p' & Hok' & Hrun').
      exists l', p', f. rewrite app_nil_r. done.
    + assert (length text1 <> 0%nat) by (by destruct text1).
      destruct (partial_waiting s o _ f Hw Ht ltac:(lia)) as [Hw1 _].
      destruct (IH s1 m2 e2 text1 (partial o (length (option_list ch))) n Hokp Hr Hw1 Hr1 Hd2) as (l' & p' & f' & Hok' & Ht' & Hr' & Hrun'); [simpl; lia|].
      exists l', p', f'. split; [exact Hok'|]. split; [refine (typed_app s o _ f _ _ Ht _); by destruct Ht'|]. split; [exact Hr'|].
      rewrite Hrun', <- (received_app s o _ f) by lia. done.
Qed.
End Interrupt.

(** C32: Bytes from the keyboard while a read waits. The characters they stand for
    (a prefix or a released key gives none, a pressed modifier key the character 0)
    go to the buffer of the read at the head of the list, in order, as many as it
    has room for; when the last one comes in the read is done and the next one
    becomes the head. The modifiers end up as the keys left them. Each character is
    also drawn on the screen, in the same order: the screen, with the memory it is in, is
    the one that storing and drawing the characters one by one ([echo]) leaves, and
    the drawing changes nothing outside the screen's own memory. *)
Theorem keyboard_fills_read {F : Type} `{ConsoleLaws F} (s : keyboard_state F) scs m e text o :
  keyboard_ok s -> Forall (fun sc => 0 <= sc < 0x100) scs -> waiting s o ->
  console_room s.(kb_console) (length text) ->
  decode_all s.(current_modifiers) s.(extended_read) scs = Some (m, e, text) ->
  o.(op_nbytes) + Z.of_nat (length text) <= o.(op_length) ->
  exists s', handle_all scs s = Ret (tt, s') /\ keyboard_ok s' /\
    s'.(current_modifiers) = m /\ s'.(extended_read) = e /\
    let n := o.(op_nbytes) + Z.of_nat (length text) in
    echo (o.(op_buffer_virtual) + o.(op_nbytes)) text s.(kb_console) = Ret (tt, s'.(kb_console)) /\
    (forall b, ~ console_area s.(kb_console) b ->
      kb_memory s' !! b = write_text (kb_memory s) (o.(op_buffer_virtual) + o.(op_nbytes)) text !! b) /\
    s'.(operations) = <[s.(_ps2_op_head) := mk_operation o.(op_buffer_virtual) o.(op_length) n (n =? o.(op_length)) o.(op_next)]> s.(operations) /\
    s'.(_ps2_op_head) = (if n =? o.(op_length) then o.(op_next) else s.(_ps2_op_head)) /\
    s'.(_ps2_op_tail) = s.(_ps2_op_tail).
Proof.
  intros Hok Hr Hw Hroom Hd Hlen.
  destruct (handle_all_run scs s m e text o 0 Hok Hr Hw) as (l & p & f & Hokp & [He _ Hm] & _ & Hrun); [by rewrite Nat.add_0_r|done|done|].
  eexists. split; [exact Hrun|]. by split_and!.
Qed.
