(* ===== verification/Log.v ===== *)
(** Log lines: [kernel/logging.c], and the serial line and debug console they go to,
    [kernel/io/serial.c] and [kernel/debug/qemu.c]; [cpu/stacktrace.c]. A theorem says
    which bytes a formatted log line sends where. *)
From S2P Require Import Prelude CString Numbers Format Bytes Window Framebuffer.

(** [log_level_t]. *)
Definition Debug_level : Z := 0.
Definition Verbose : Z := 1.
Definition Info : Z := 2.
Definition Error : Z := 3.
Definition Fatal : Z := 4.

Definition LOG_OUTPUT_DONT_CARE : Z := 2 ^ 64 - 1.
Definition LOG_OUTPUT_SERIAL : Z := 1.
Definition LOG_OUTPUT_DEBUGCON : Z := 2.
Definition LOG_OUTPUT_FRAMEBUFFER : Z := 4.
Definition LOG_OUTPUT_COUNT : Z := 3.
Definition QEMU_LOG_SERIAL_PORT : Z := 0x3f8.
Definition QEMU_DEBUGCON_PORT : Z := 0xe9.
Definition _SCR_W : Z := 80.
Definition _SCR_H : Z := 25.

(** The globals of the log, the screen, whose memory holds all strings, and the
    ports: what was written to them, first to last, and how many reads there were.
    [logLevelStrings] is the array of that name, [crlf] the address of the end of a
    line. *)
Record log_state : Type := mk_log {
  logDestBitmap : Z;
  logTrimLevel : Z;
  fbMaxLine : Z;
  useVgaOutput : bool;
  logLevelStrings : list Z;
  crlf : Z;
  log_screen : fb_state;
  port_writes : list (Z * Z);
  port_reads : nat;
}.
Definition set_log_outputs (dest trim lines : Z) (vga : bool) (s : log_state) : log_state :=
  mk_log dest trim lines vga s.(logLevelStrings) s.(crlf) s.(log_screen) s.(port_writes) s.(port_reads).
Definition set_trim (trim : Z) (s : log_state) : log_state :=
  set_log_outputs s.(logDestBitmap) trim s.(fbMaxLine) s.(useVgaOutput) s.
Definition set_log_screen (f : fb_state) (s : log_state) : log_state :=
  mk_log s.(logDestBitmap) s.(logTrimLevel) s.(fbMaxLine) s.(useVgaOutput) s.(logLevelStrings) s.(crlf) f s.(port_writes) s.(port_reads).
Definition set_ports (w : list (Z * Z)) (r : nat) (s : log_state) : log_state :=
  mk_log s.(logDestBitmap) s.(logTrimLevel) s.(fbMaxLine) s.(useVgaOutput) s.(logLevelStrings) s.(crlf) s.(log_screen) w r.

Definition on_screen {A} (m : M fb_state A) : M log_state A := zoom log_screen set_log_screen m.
Definition in_strings {A} (m : M memory A) : M log_state A := on_screen (in_fb_memory m).

(** What the n-th read of a port gives. [patience] bounds the rounds of the loop that
    waits for the line, which ends with the device. *)
Section Ports.
Context (port_input : nat -> Z -> Z) (patience : nat).

Definition inportb (port : Z) : M log_state Z :=
  let! s := get in
  do! put (set_ports s.(port_writes) (S s.(port_reads)) s) in
  ret (u8 (port_input s.(port_reads) port)).
Definition outportb (port v : Z) : M log_state unit :=
  modify (fun s => set_ports (s.(port_writes) ++ [(port, u8 v)]) s.(port_reads) s).

Definition init_serial (port : Z) : M log_state Z :=
  do! outportb (port + 1) 0x00 in
  do! outportb (port + 3) 0x80 in
  do! outportb (port + 0) 0x0C in
  do! outportb (port + 1) 0x00 in
  do! outportb (port + 3) 0x03 in
  do! outportb (port + 2) 0xC7 in
  do! outportb (port + 4) 0x0B in
  do! outportb (port + 0) 0xAE in
  let! echo := inportb (port + 0) in
  if negb (echo =? 0xAE) then ret 1
  else do! outportb (port + 4) 0x0F in ret 0.

Definition qemu_init_debug : M log_state Z := init_serial QEMU_LOG_SERIAL_PORT.

(** [while((inportb(QEMU_LOG_SERIAL_PORT + 5) & 0x20) == 0);] *)
Fixpoint wait_line (fuel : nat) : M log_state unit :=
  match fuel with
  | O => diverge
  | S fuel' =>
      let! status := inportb (QEMU_LOG_SERIAL_PORT + 5) in
      if Z.land status 0x20 =? 0 then wait_line fuel' else ret tt
  end.
Definition qemu_write_char (ch : Z) : M log_state unit :=
  do! wait_line patience in outportb QEMU_LOG_SERIAL_PORT ch.
Definition debugcon_write_char (c : Z) : M log_state unit := outportb QEMU_DEBUGCON_PORT c.

(** The loop of the functions that write a string. *)
Fixpoint write_chars (fuel : nat) (write_char : Z -> M log_state unit) (string : Z) : M log_state unit :=
  match fuel with
  | O => diverge
  | S fuel' =>
      let! c := in_strings (load string) in
      if c =? 0 then ret tt else do! write_char c in write_chars fuel' write_char (string + 1)
  end.
Definition qemu_write_string (string : Z) : M log_state unit :=
  let! fuel := in_strings string_fuel in write_chars fuel qemu_write_char string.
Definition debugcon_write_string (message : Z) : M log_state unit :=
  let! fuel := in_strings string_fuel in write_chars fuel debugcon_write_char message.

Definition init_log (defaultOutputs trimBelowLevel : Z) (useVgaVideo : bool) : M log_state unit :=
  let defaultOutputs := if defaultOutputs =? LOG_OUTPUT_DONT_CARE then LOG_OUTPUT_SERIAL else defaultOutputs in
  let! s := get in
  do! put (set_log_outputs defaultOutputs trimBelowLevel s.(fbMaxLine) useVgaVideo s) in
  let! lines :=
    if useVgaVideo then ret _SCR_H
    else let! m := on_screen get_framebuffer_mode in ret (snd m) in
  modify (fun s => set_log_outputs s.(logDestBitmap) s.(logTrimLevel) lines s.(useVgaOutput) s).

Definition set_log_trim_level (newTrim : Z) : M log_state unit := modify (set_trim newTrim).

(** One of the outputs of [logline]. *)
Definition log_output (level msg output : Z) : M log_state unit :=
  let! s := get in
  let! name := lift_opt OutOfBounds (s.(logLevelStrings) !! Z.to_nat level) in
  if output =? LOG_OUTPUT_SERIAL then
    do! qemu_write_string name in do! qemu_write_string msg in qemu_write_string s.(crlf)
  else if output =? LOG_OUTPUT_DEBUGCON then
    do! debugcon_write_string name in do! debugcon_write_string msg in debugcon_write_string s.(crlf)
  else
    do! on_screen (let! line := gets cur_fb_line in _fb_printStrAt name 0 line 0xFFFFFFFF 0) in
    on_screen (_fb_printStr msg 0xFFFFFFFF 0).

(** The loop of [logline] over the outputs. *)
Definition log_outputs (level msg : Z) : M log_state unit :=
  for_upto LOG_OUTPUT_COUNT (fun i =>
    let! s := get in
    if Z.land s.(logDestBitmap) (Z.shiftl 1 i) =? 0 then ret tt else log_output level msg (Z.shiftl 1 i)).

(** After a fatal line the kernel stops. *)
Definition logline (level msg : Z) : M log_state unit :=
  let! s := get in
  if level <? s.(logTrimLevel) then ret tt
  else
    do! log_outputs level msg in
    if level =? Fatal then throw Halted else ret tt.

(** [format_buffer] is the address of the buffer of 256 characters on the stack. *)
Definition loglinef (format_buffer level msg : Z) (args : list Z) : M log_state unit :=
  let! _ := in_strings (vsprintf format_buffer msg args) in
  logline level format_buffer.

(** [printStackTrace] from the frame [cur_frame] on; the result is the return
    addresses it logs. *)
Fixpoint stack_trace (n : nat) (cur_frame : Z) : M memory (list Z) :=
  match n with
  | O => ret []
  | S n' =>
      if cur_frame =? 0 then ret []
      else
        let! rip := load_le 8 (cur_frame + 8) in
        let! next := load_le 8 cur_frame in
        let! l := stack_trace n' next in ret (rip :: l)
  end.
Definition printStackTrace (frame level : Z) : M memory (list Z) := stack_trace (Z.to_nat level) frame.

(** ** What is written *)

(** The line is ready again before the wait gives up. *)
Definition line_ready : Prop :=
  forall n, exists k, (k < patience)%nat /\ Z.land (u8 (port_input (n + k) (QEMU_LOG_SERIAL_PORT + 5))) 0x20 <> 0.

(** [s'] is [s] after the bytes [out] were written to ports. *)
Definition written (s : log_state) (out : list (Z * Z)) (s' : log_state) : Prop :=
  exists r, s' = set_ports (s.(port_writes) ++ out) r s.

Definition to_port (p : Z) (t : list Z) : list (Z * Z) := pair p <$> t.

Lemma written_nil s : written s [] s.
Proof. exists s.(port_reads). rewrite app_nil_r. by destruct s. Qed.
Lemma written_app s o1 s1 o2 s2 : written s o1 s1 -> written s1 o2 s2 -> written s (o1 ++ o2) s2.
Proof. intros [r ->] [r2 ->]. exists r2. simpl. by rewrite app_assoc. Qed.
Lemma written_screen s out s' : written s out s' -> s'.(log_screen) = s.(log_screen).
Proof. by intros [r ->]. Qed.

Lemma in_strings_run {A} (m : M memory A) s a t :
  m s.(log_screen).(fb_memory) = Ret (a, t) -> in_strings m s = Ret (a, set_log_screen (set_fb_memory t s.(log_screen)) s).
Proof. intros E. unfold in_strings, on_screen, in_fb_memory, zoom. by rewrite E. Qed.
Lemma in_strings_read {A} (m : M memory A) s a :
  m s.(log_screen).(fb_memory) = Ret (a, s.(log_screen).(fb_memory)) -> in_strings m s = Ret (a, s).
Proof. intros E. rewrite (in_strings_run m s a _ E). by destruct s as [? ? ? ? ? ? []]. Qed.

Lemma wait_line_run (fuel : nat) : forall s (k : nat), (k < fuel)%nat ->
  Z.land (u8 (port_input (s.(port_reads) + k) (QEMU_LOG_SERIAL_PORT + 5))) 0x20 <> 0 ->
  exists s', wait_line fuel s = Ret (tt, s') /\ written s [] s'.
Proof.
  induction fuel as [|fuel IH]; intros s k Hk Hready; [lia|]. cbn [wait_line].
  set (s1 := set_ports s.(port_writes) (S s.(port_reads)) s).
  assert (written s [] s1) as Hw by (exists (S s.(port_reads)); by rewrite app_nil_r).
  rewrite (bind_run (inportb _) _ s (u8 (port_input s.(port_reads) (QEMU_LOG_SERIAL_PORT + 5))) s1 eq_refl).
  destruct (Z.eqb_spec (Z.land (u8 (port_input s.(port_reads) (QEMU_LOG_SERIAL_PORT + 5))) 0x20) 0) as [E|E]; [|by exists s1].
  destruct k as [|k]; [by rewrite Nat.add_0_r in Hready|].
  destruct (IH s1 k) as (s' & Hrun & Hw'); [lia|by rewrite <- Nat.add_succ_comm in Hready|].
  exists s'. split; [exact Hrun|]. by apply (written_app s [] s1).
Qed.

(** A function that writes one character. *)
Definition writes_char (f : Z -> M log_state unit) (p : Z) : Prop :=
  forall s c, 0 <= c < 2 ^ 8 -> exists s', f c s = Ret (tt, s') /\ written s [(p, c)] s'.

Lemma qemu_write_char_writes : line_ready -> writes_char qemu_write_char QEMU_LOG_SERIAL_PORT.
Proof.
  intros Hready s c Hc. destruct (Hready s.(port_reads)) as (k & Hk & Hr).
  destruct (wait_line_run patience s k Hk Hr) as (s1 & Hrun & Hw).
  unfold qemu_write_char. rewrite (bind_run _ _ _ _ _ Hrun). eexists. split; [reflexivity|].
  apply (written_app s [] s1); [done|]. rewrite u8_small by done. by eexists.
Qed.
Lemma debugcon_write_char_writes : writes_char debugcon_write_char QEMU_DEBUGCON_PORT.
Proof. intros s c Hc. eexists. split; [reflexivity|]. rewrite u8_small by done. by eexists. Qed.

Lemma write_chars_run f p t : writes_char f p -> forall (fuel : nat) s a,
  cstring s.(log_screen).(fb_memory) a t -> (length t < fuel)%nat ->
  exists s', write_chars fuel f a s = Ret (tt, s') /\ written s (to_port p t) s'.
Proof.
  intros Hf. induction t as [|c t IH]; intros [|fuel] s a Hs Hfuel; cbn [length cstring] in *; try lia; cbn [write_chars].
  - rewrite (bind_run _ _ _ _ _ (in_strings_read _ s _ (load_run _ a 0 Hs))). exists s. split; [done|apply written_nil].
  - destruct Hs as (Ha & Hc & Hs). rewrite (bind_run _ _ _ _ _ (in_strings_read _ s _ (load_run _ a c Ha))).
    destruct (Z.eqb_spec c 0); [lia|]. destruct (Hf s c ltac:(lia)) as (s1 & Hrun & Hw).
    rewrite (bind_run _ _ _ _ _ Hrun). destruct (IH fuel s1 (a + 1)) as (s2 & Hrun2 & Hw2).
    + by rewrite (written_screen _ _ _ Hw).
    + lia.
    + exists s2. split; [exact Hrun2|]. by apply (written_app s [(p, c)] s1).
Qed.

Lemma write_string_run f p s a t : writes_char f p -> cstring s.(log_screen).(fb_memory) a t ->
  exists s', (let! fuel := in_strings string_fuel in write_chars fuel f a) s = Ret (tt, s') /\ written s (to_port p t) s'.
Proof.
  intros Hf Hs. pose proof (cstring_fuel _ _ _ Hs).
  rewrite (bind_run _ _ _ _ _ (in_strings_read string_fuel s _ eq_refl)). apply write_chars_run; [done|done|lia].
Qed.

(** The strings of a log line. *)
Record line_ok (s : log_state) (level msg : Z) (prefix text : list Z) : Prop := {
  lo_name : exists name, s.(logLevelStrings) !! Z.to_nat level = Some name /\ cstring s.(log_screen).(fb_memory) name prefix;
  lo_text : cstring s.(log_screen).(fb_memory) msg text;
  lo_crlf : cstring s.(log_screen).(fb_memory) s.(crlf) [13; 10];
}.

Lemma line_ok_written s out s' level msg prefix text : written s out s' -> line_ok s level msg prefix text -> line_ok s' level msg prefix text.
Proof. intros [r ->] [Hn Ht Hc]. by split. Qed.

Lemma three_strings_run f p s level msg prefix text name :
  writes_char f p -> line_ok s level msg prefix text -> s.(logLevelStrings) !! Z.to_nat level = Some name ->
  let write a := let! fuel := in_strings string_fuel in write_chars fuel f a in
  exists s', (do! write name in do! write msg in write s.(crlf)) s = Ret (tt, s') /\
    written s (to_port p (prefix ++ text ++ [13; 10])) s'.
Proof.
  intros Hf Hok Hn write. destruct (lo_name _ _ _ _ _ Hok) as (name' & Hn' & Hp). rewrite Hn in Hn'. injection Hn' as <-.
  destruct (write_string_run f p s name prefix Hf Hp) as (s1 & Hr1 & Hw1).
  pose proof (line_ok_written _ _ _ _ _ _ _ Hw1 Hok) as Hok1.
  destruct (write_string_run f p s1 msg text Hf (lo_text _ _ _ _ _ Hok1)) as (s2 & Hr2 & Hw2).
  pose proof (line_ok_written _ _ _ _ _ _ _ Hw2 Hok1) as Hok2.
  assert (s2.(crlf) = s.(crlf)) as Ec by (destruct Hw1 as [? ->], Hw2 as [? ->]; done).
  destruct (write_string_run f p s2 s2.(crlf) [13; 10] Hf (lo_crlf _ _ _ _ _ Hok2)) as (s3 & Hr3 & Hw3).
  exists s3. rewrite (bind_run _ _ _ _ _ Hr1), (bind_run _ _ _ _ _ Hr2), <- Ec. split; [exact Hr3|].
  unfold to_port. rewrite !fmap_app. eapply written_app; [exact Hw1|]. eapply written_app; [exact Hw2|exact Hw3].
Qed.

(** What the outputs get of a line, when the screen is not one of them. *)
Definition line_bytes (dest : Z) (line : list Z) : list (Z * Z) :=
  (if Z.testbit dest 0 then to_port QEMU_LOG_SERIAL_PORT line else []) ++
  (if Z.testbit dest 1 then to_port QEMU_DEBUGCON_PORT line else []).

Lemma log_outputs_run s level msg prefix text :
  line_ready -> line_ok s level msg prefix text -> Z.testbit s.(logDestBitmap) 2 = false ->
  exists s', log_outputs level msg s = Ret (tt, s') /\
    written s (line_bytes s.(logDestBitmap) (prefix ++ text ++ [13; 10])) s'.
Proof.
  intros Hready Hok H2. destruct (lo_name _ _ _ _ _ Hok) as (name & Hn & _).
  assert (forall i t, 0 <= i -> t.(logDestBitmap) = s.(logDestBitmap) ->
    (let! s := get in
     if Z.land s.(logDestBitmap) (Z.shiftl 1 i) =? 0 then ret tt else log_output level msg (Z.shiftl 1 i)) t =
    (if Z.testbit s.(logDestBitmap) i then log_output level msg (Z.shiftl 1 i) else ret tt) t) as Hstep.
  { intros i t Hi E. rewrite (bind_run get _ t t t eq_refl), E, land_pow2_testbit by done. by destruct (Z.testbit _ i). }
  assert (exists s1, (if Z.testbit s.(logDestBitmap) 0 then log_output level msg (Z.shiftl 1 0) else ret tt) s = Ret (tt, s1) /\
    written s (if Z.testbit s.(logDestBitmap) 0 then to_port QEMU_LOG_SERIAL_PORT (prefix ++ text ++ [13; 10]) else []) s1) as (s1 & Hr1 & Hw1).
  { destruct (Z.testbit _ 0); [|exists s; split; [done|apply written_nil]]. unfold log_output.
    rewrite (bind_run get _ s s s eq_refl), Hn, (bind_run _ _ s name s eq_refl).
    by apply (three_strings_run qemu_write_char _ s level msg prefix text name (qemu_write_char_writes Hready)). }
  pose proof (line_ok_written _ _ _ _ _ _ _ Hw1 Hok) as Hok1.
  assert (s1.(logDestBitmap) = s.(logDestBitmap) /\ s1.(logLevelStrings) = s.(logLevelStrings)) as [Ed1 El1] by (destruct Hw1 as [? ->]; done).
  assert (exists s2, (if Z.testbit s.(logDestBitmap) 1 then log_output level msg (Z.shiftl 1 1) else ret tt) s1 = Ret (tt, s2) /\
    written s1 (if Z.testbit s.(logDestBitmap) 1 then to_port QEMU_DEBUGCON_PORT (prefix ++ text ++ [13; 10]) else []) s2) as (s2 & Hr2 & Hw2).
  { destruct (Z.testbit _ 1); [|exists s1; split; [done|apply written_nil]]. unfold log_output. rewrite <- El1 in Hn.
    rewrite (bind_run get _ s1 s1 s1 eq_refl), Hn, (bind_run _ _ s1 name s1 eq_refl).
    by apply (three_strings_run debugcon_write_char _ s1 level msg prefix text name debugcon_write_char_writes). }
  assert (s2.(logDestBitmap) = s.(logDestBitmap)) as Ed2 by (rewrite <- Ed1; destruct Hw2 as [? ->]; done).
  exists s2. split; [|by apply (written_app s _ s1)].
  unfold log_outputs, for_upto. change (Z.to_nat LOG_OUTPUT_COUNT) with 3%nat. cbn [for_from]. change (0 + 1) with 1. change (1 + 1) with 2.
  rewrite (bind_run _ _ s tt s1) by (by rewrite Hstep). rewrite (bind_run _ _ s1 tt s2) by (by rewrite Hstep).
  rewrite (bind_run _ _ s2 tt s2); [done|]. rewrite Hstep by done. by rewrite H2.
Qed.
End Ports.

(** ** Formatted lines *)

Section Lines.
Context (port_input : nat -> Z -> Z) (patience : nat).

(** What [loglinef] formats, and where: the format, the text it stands for in the
    buffer, whose 256 characters hold it, and the strings that are printed around it
    are apart from each other. *)
Record message_ok (s : log_state) (format_buffer level msg : Z) (args : list Z) (prefix text : list Z) : Prop := {
  mo_level : 0 <= level <= Fatal;
  mo_format : exists strings f, format strings Plain f args = Some text /\
    cstring s.(log_screen).(fb_memory) msg f /\ beside format_buffer 256 msg f /\
    strings_ok strings s.(log_screen).(fb_memory) format_buffer 256;
  mo_room : room s.(log_screen).(fb_memory) format_buffer 255;
  mo_text : (length text < 256)%nat /\ Forall (fun c => 0 < c < 2 ^ 8) text;
  mo_name : exists name, s.(logLevelStrings) !! Z.to_nat level = Some name /\
    cstring s.(log_screen).(fb_memory) name prefix /\ beside format_buffer 256 name prefix;
  mo_crlf : cstring s.(log_screen).(fb_memory) s.(crlf) [13; 10] /\ beside format_buffer 256 s.(crlf) [13; 10];
}.

Lemma cstring_of_bytes m t : forall a, Forall (fun c => 0 < c < 2 ^ 8) t ->
  (forall i c, t !! i = Some c -> m !! (a + Z.of_nat i) = Some c) -> m !! (a + Z.of_nat (length t)) = Some 0 -> cstring m a t.
Proof.
  induction t as [|c t IH]; intros a Hb Ht H0; cbn [cstring length] in *; [by rewrite Z.add_0_r in H0|].
  apply Forall_cons in Hb as [Hc Hb]. split; [|split; [done|]].
  - specialize (Ht 0%nat c eq_refl). by rewrite Z.add_0_r in Ht.
  - apply IH; [done| |].
    + intros i d Hi. replace (a + 1 + Z.of_nat i) with (a + Z.of_nat (Datatypes.S i)) by lia. by apply Ht.
    + replace (a + 1 + Z.of_nat (length t)) with (a + Z.of_nat (Datatypes.S (length t))) by lia. done.
Qed.

(** The formatted line in its buffer is one that can be written. *)
Lemma message_formatted s format_buffer level msg args prefix text :
  message_ok s format_buffer level msg args prefix text ->
  exists s1, in_strings (vsprintf format_buffer msg args) s = Ret (Z.of_nat (length text), s1) /\
    line_ok s1 level format_buffer prefix text /\
    (exists m, s1 = set_log_screen (set_fb_memory m s.(log_screen)) s /\
       forall z, z < format_buffer \/ format_buffer + 255 < z -> m !! z = s.(log_screen).(fb_memory) !! z).
Proof.
  intros [Hl (strings & f & Hf & Hs & Hb & Hok) Hroom [Hlen Hbytes] (name & Hn & Hname & Hnb) [Hcr Hcb]].
  destruct (vsprintf_run strings s.(log_screen).(fb_memory) format_buffer msg f args text) as (m & Hrun & Ht & H0 & Ho); [done|done| | | |].
  - intros z Hz. apply Hroom. lia.
  - unfold beside in *. lia.
  - intros p t Hp. destruct (Hok p t Hp) as (? & ? & ?). split_and!; [done|unfold beside in *; lia|done].
  - assert (forall p t, cstring s.(log_screen).(fb_memory) p t -> beside format_buffer 256 p t -> cstring m p t) as Hkeep.
    { intros p t Hp Hbp. apply (cstring_ext s.(log_screen).(fb_memory)); [done|]. intros z Hz. apply Ho. unfold beside in Hbp. lia. }
    eexists. split; [apply (in_strings_run _ _ _ _ Hrun)|]. split; [|exists m; split; [done|]; intros z Hz; apply Ho; lia].
    split; [exists name; split; [done|by apply Hkeep]|by apply cstring_of_bytes|exact (Hkeep _ _ Hcr Hcb)].
Qed.

(** C23: A log line below the trim level is formatted and dropped: nothing is written.
    From that level on, the prefix of its level, the text its format and arguments
    stand for and the end of the line are written, byte by byte in this order, to the
    serial line if it is an output, then to the debug console if that is one; nothing
    else is written and the log goes on, except that after a fatal line, written
    likewise, the kernel stops. (For outputs other than the screen, and a serial line
    that gets ready.) *)
Theorem loglinef_writes s format_buffer level msg args prefix text :
  line_ready port_input patience -> message_ok s format_buffer level msg args prefix text ->
  Z.testbit s.(logDestBitmap) 2 = false ->
  let run := loglinef port_input patience format_buffer level msg args s in
  (level < s.(logTrimLevel) -> exists s', run = Ret (tt, s') /\ s'.(port_writes) = s.(port_writes)) /\
  (s.(logTrimLevel) <= level -> exists s1 s',
    in_strings (vsprintf format_buffer msg args) s = Ret (Z.of_nat (length text), s1) /\
    log_outputs port_input patience level format_buffer s1 = Ret (tt, s') /\
    s'.(port_writes) = s.(port_writes) ++ line_bytes s.(logDestBitmap) (prefix ++ text ++ [13; 10]) /\
    run = if level =? Fatal then Fault Halted else Ret (tt, s')).
Proof.
  intros Hready Hok Hd run. destruct (message_formatted _ _ _ _ _ _ _ Hok) as (s1 & Hrun & Hline & m & Es1 & _).
  assert (s1.(logTrimLevel) = s.(logTrimLevel) /\ s1.(logDestBitmap) = s.(logDestBitmap) /\ s1.(port_writes) = s.(port_writes))
    as (Et & Ed & Ew) by by rewrite Es1.
  unfold run, loglinef. rewrite (bind_run _ _ _ _ _ Hrun). unfold logline. rewrite (bind_run get _ s1 s1 s1 eq_refl), Et.
  split; intros Hlevel.
  - destruct (Z.ltb_spec level s.(logTrimLevel)); [|lia]. by exists s1.
  - destruct (Z.ltb_spec level s.(logTrimLevel)); [lia|]. rewrite <- Ed in Hd.
    destruct (log_outputs_run port_input patience s1 level format_buffer prefix text Hready Hline Hd) as (s' & Hout & r & Es').
    exists s1, s'. split_and!; [done|exact Hout| |].
    + by rewrite Es', Ed, <- Ew.
    + rewrite (bind_run _ _ _ _ _ Hout). by destruct (level =? Fatal).
Qed.
End Lines.

(** ** Witness *)

(** ["[INFO] %d"] formatted with 42, to the serial line and the debug console. *)
Definition sample_log_memory : memory :=
  write_bytes (write_bytes (write_bytes (write_bytes empty 0x100 [120; 61; 37; 100; 0]) 0x140 [73; 58; 0]) 0x160 [13; 10; 0]) 0x200 (replicate 256 7).
Definition sample_log : log_state :=
  mk_log 3 1 25 false [0x140; 0x140; 0x140; 0x140; 0x140] 0x160 (set_fb_memory sample_log_memory sample_screen) [] 0.

Lemma sample_message_ok : message_ok sample_log 0x200 Info 0x100 [42] [73; 58] [120; 61; 52; 50].
Proof.
  split.
  - vm_compute. split; discriminate.
  - exists (fun _ => None), [120; 61; 37; 100]. split; [by vm_compute|]. split; [vm_compute; repeat split; by intros|].
    split; [unfold beside; simpl; lia|done].
  - intros z Hz. change (fb_memory (log_screen sample_log)) with sample_log_memory. unfold sample_log_memory. rewrite write_bytes_lookup, length_replicate.
    destruct (Z.leb_spec 0x200 z); [|lia]. destruct (Z.ltb_spec z (0x200 + Z.of_nat 256)); [|lia].
    cbn [andb]. apply lookup_lt_is_Some_2. rewrite length_replicate. lia.
  - split; [simpl; lia|]. repeat constructor; lia.
  - exists 0x140. split; [done|]. split; [vm_compute; repeat split; by intros|unfold beside; simpl; lia].
  - split; [vm_compute; repeat split; by intros|unfold beside; simpl; lia].
Qed.

Lemma loglinef_writes_witness : exists s',
  loglinef (fun _ _ => 0x20) 1 0x200 Info 0x100 [42] sample_log = Ret (tt, s') /\
  s'.(port_writes) = to_port QEMU_LOG_SERIAL_PORT [73; 58; 120; 61; 52; 50; 13; 10] ++
                     to_port QEMU_DEBUGCON_PORT [73; 58; 120; 61; 52; 50; 13; 10].
Proof.
  destruct (loglinef_writes (fun _ _ => 0x20) 1 sample_log 0x200 Info 0x100 [42] [73; 58] [120; 61; 52; 50]) as [_ H].
  - intros n. exists 0%nat. split; [lia|]. vm_compute. discriminate.
  - exact sample_message_ok.
  - reflexivity.
  - destruct H as (s1 & s' & _ & _ & Hw & Hrun); [vm_compute; discriminate|]. exists s'. split; [exact Hrun|exact Hw].
Defined.
