(* ===== verification/Video.v ===== *)
(** The legacy text screen: [kernel/io/video.c], and [printf] of [libc/stdio.c], which
    prints on it. With the framebuffer, the default, nothing is printed there. *)
From S2P Require Import Prelude CString Numbers Format Log.

Definition VIDEO_MEM : Z := 0xFFFFFFFF800b8000.
Definition WHITE : Z := 15.

(** The build: whether text goes to the framebuffer. *)
Class ScreenConfig : Type := USE_FRAMEBUFFER : bool.

Record video_state : Type := mk_video {
  video_memory : memory;
  VIDEO_PTR : Z;
}.
Definition set_video_memory (m : memory) (s : video_state) : video_state := mk_video m s.(VIDEO_PTR).
Definition set_video_ptr (p : Z) (s : video_state) : video_state := mk_video s.(video_memory) p.
Definition in_video {A} (m : M memory A) : M video_state A := zoom video_memory set_video_memory m.

Section Video.
Context `{ScreenConfig}.

Definition _printCh (c color : Z) : M video_state unit :=
  let! s := get in
  do! in_video (store s.(VIDEO_PTR) c) in
  do! in_video (store (s.(VIDEO_PTR) + 1) color) in
  modify (set_video_ptr (s.(VIDEO_PTR) + 2)).

(** Bytes of a line. *)
Definition line_size : Z := _SCR_W * 2.

Definition _scrollUp : M video_state unit :=
  let! s := get in
  if VIDEO_MEM + _SCR_H * line_size <=? s.(VIDEO_PTR) then
    do! for_upto (_SCR_H * line_size + line_size + 1) (fun k =>
          in_video (let! c := load (VIDEO_MEM + k + line_size) in store (VIDEO_MEM + k) c)) in
    modify (set_video_ptr (VIDEO_MEM + ((s.(VIDEO_PTR) - VIDEO_MEM) / line_size - 1) * line_size))
  else ret tt.

Definition _printNewLine : M video_state unit :=
  do! (if USE_FRAMEBUFFER then ret tt
       else modify (fun s => set_video_ptr (VIDEO_MEM + ((s.(VIDEO_PTR) - VIDEO_MEM) / line_size + 1) * line_size) s)) in
  _scrollUp.

Fixpoint printStr_loop (fuel : nat) (string : Z) : M video_state unit :=
  match fuel with
  | O => diverge
  | S fuel' =>
      let! c := in_video (load string) in
      if c =? 0 then ret tt
      else
        do! (if c =? 10 then _printNewLine else if USE_FRAMEBUFFER then ret tt else _printCh c WHITE) in
        printStr_loop fuel' (string + 1)
  end.
Definition _printStr (string : Z) : M video_state unit :=
  let! fuel := in_video string_fuel in printStr_loop fuel string.

Definition _printHex (buffer hexnumber : Z) : M video_state unit :=
  let! _ := in_video (_getHexString buffer hexnumber true) in _printStr buffer.
Definition _printNumber (buffer number base : Z) : M video_state unit :=
  do! (if base =? 16 then let! _ := in_video (_getHexString buffer number false) in ret tt else ret tt) in
  _printStr buffer.

(** [buffer] is the address of the buffer on the stack. *)
Definition _printStringAndNumber (buffer string number : Z) : M video_state unit :=
  do! _printStr string in do! _printHex buffer number in _printNewLine.

Definition _getLineNumber : M video_state Z :=
  let! s := get in ret (i32 (u32 (s.(VIDEO_PTR) - VIDEO_MEM) / line_size)).
Definition _setVgaCursorPos (cx cy : Z) : M video_state unit :=
  modify (set_video_ptr (VIDEO_MEM + cx + u32 (cy * _SCR_W))).

(** [printf]; [buffer] is the address of the buffer of 1024 characters on the stack. *)
Definition printf (buffer fmt : Z) (args : list Z) : M video_state Z :=
  let! len := in_video (vsprintf buffer fmt args) in
  do! _printStr buffer in ret len.
End Video.

(** ** What is printed *)

Section Printed.
Implicit Types (s : video_state).

Lemma in_video_read {A} (c : M memory A) s a : c s.(video_memory) = Ret (a, s.(video_memory)) -> in_video c s = Ret (a, s).
Proof. intros E. unfold in_video, zoom. rewrite E. by destruct s. Qed.

(** In the default build nothing is printed. *)
Lemma printStr_silent s a t (fuel : nat) : s.(VIDEO_PTR) = VIDEO_MEM -> cstring s.(video_memory) a t -> (length t < fuel)%nat ->
  @printStr_loop true fuel a s = Ret (tt, s).
Proof.
  intros Hp. revert a fuel. induction t as [|c t IH]; intros a [|fuel] Hs Hf; cbn [length cstring printStr_loop] in *; try lia.
  - by rewrite (bind_run _ _ _ _ _ (in_video_read _ s _ (load_run _ a 0 Hs))).
  - destruct Hs as (Ha & Hc & Hs). rewrite (bind_run _ _ _ _ _ (in_video_read _ s _ (load_run _ a c Ha))).
    destruct (Z.eqb_spec c 0); [lia|]. rewrite (bind_run _ _ s tt s); [apply IH; [done|lia]|].
    destruct (c =? 10); [|done]. unfold _printNewLine, USE_FRAMEBUFFER. rewrite (bind_run _ _ s tt s eq_refl).
    unfold _scrollUp. rewrite (bind_run get _ s s s eq_refl), Hp. done.
Qed.

(** [printf] formats its text, and then prints nothing. *)
Lemma printf_silent s strings buffer fmt f args out :
  s.(VIDEO_PTR) = VIDEO_MEM -> cstring s.(video_memory) fmt f -> format strings Plain f args = Some out ->
  room s.(video_memory) buffer (length out) -> beside buffer (length out) fmt f -> strings_ok strings s.(video_memory) buffer (length out) ->
  Forall (fun c => 0 < c < 2 ^ 8) out ->
  exists m, @printf true buffer fmt args s = Ret (Z.of_nat (length out), set_video_memory m s) /\ cstring m buffer out.
Proof.
  intros Hp Hs Hf Hr Hb Hok Hbytes.
  destruct (vsprintf_run strings s.(video_memory) buffer fmt f args out Hs Hf Hr Hb Hok) as (m & Hrun & Ht & H0 & _).
  pose proof (cstring_of_bytes m out buffer Hbytes Ht H0) as Hc. exists m. split; [|done].
  unfold printf. rewrite (bind_run _ _ s (Z.of_nat (length out)) (set_video_memory m s)) by (unfold in_video, zoom; by rewrite Hrun).
  set (s1 := set_video_memory m s). pose proof (cstring_fuel _ _ _ Hc).
  assert (@_printStr true buffer s1 = Ret (tt, s1)) as Hp1.
  { unfold _printStr. rewrite (bind_run _ _ _ _ _ (in_video_read string_fuel s1 _ eq_refl)).
    apply (printStr_silent s1 buffer out); [exact Hp|exact Hc|simpl; lia]. }
  by rewrite (bind_run _ _ _ _ _ Hp1).
Qed.

(** In the legacy build a character goes to the cell at the cursor. *)
Lemma printCh_cell `{ScreenConfig} s c : is_Some (s.(video_memory) !! s.(VIDEO_PTR)) -> is_Some (s.(video_memory) !! (s.(VIDEO_PTR) + 1)) ->
  0 <= c < 2 ^ 8 ->
  _printCh c WHITE s = Ret (tt, mk_video (<[s.(VIDEO_PTR) + 1 := WHITE]> (<[s.(VIDEO_PTR) := c]> s.(video_memory))) (s.(VIDEO_PTR) + 2)).
Proof.
  intros Hp Hq Hc. unfold _printCh. rewrite (bind_run get _ s s s eq_refl).
  rewrite (bind_run _ _ s tt (set_video_memory (<[s.(VIDEO_PTR) := u8 c]> s.(video_memory)) s))
    by (unfold in_video, zoom; by rewrite (store_run _ _ c Hp)).
  rewrite u8_small by done. set (s1 := set_video_memory _ s).
  assert (is_Some (s1.(video_memory) !! (s.(VIDEO_PTR) + 1))) as Hq1 by (simpl; by rewrite lookup_insert_ne by lia).
  rewrite (bind_run _ _ s1 tt (set_video_memory (<[s.(VIDEO_PTR) + 1 := u8 WHITE]> s1.(video_memory)) s1))
    by (unfold in_video, zoom; by rewrite (store_run _ _ WHITE Hq1)).
  done.
Qed.
End Printed.
