(* ===== verification/Rtc.v ===== *)
(** The real-time clock: [kernel/hardware/rtc.c]. The device is a parameter: what the
    n-th read of a register gives. The time it computes is compared with a calendar. *)
From S2P Require Import Prelude.

Definition BASE_EPOCH_YEAR : Z := 1970.
Definition BASE_CENTURY : Z := 2000.

(** [rtc_registers]. *)
Definition Seconds : Z := 0x00.
Definition Minutes : Z := 0x02.
Definition Hours : Z := 0x04.
Definition DayOfMonth : Z := 0x07.
Definition Month : Z := 0x08.
Definition Year : Z := 0x09.
Definition StatusRegisterA : Z := 0x0A.
Definition StatusRegisterB : Z := 0x0B.

Definition daysPerMonth : list Z := [31; 28; 31; 30; 31; 30; 31; 31; 30; 31; 30; 31].

Definition convert_bcd_to_binary (value : Z) : Z := value / 16 * 10 + Z.land value 0x0f.

(** The six registers of a time. *)
Record reading : Type := mk_reading {
  seconds : Z;
  minutes : Z;
  hours : Z;
  year : Z;
  dayofmonth : Z;
  month : Z;
}.
#[export] Instance reading_eq_dec : EqDecision reading.
Proof. solve_decision. Defined.

(** The sum of the first [n] entries of [daysPerMonth]; past its end the read is out
    of bounds. *)
Definition days_of_months (n : Z) : option Z :=
  if n <=? 12 then Some (foldr Z.add 0 (take (Z.to_nat n) daysPerMonth)) else None.

(** The computation of [read_rtc_time] once the registers are read. *)
Definition rtc_to_unix (rtc_register_statusB : Z) (r : reading) : option Z :=
  let is_24hours := negb (Z.land rtc_register_statusB 0x02 =? 0) in
  let is_binary := negb (Z.land rtc_register_statusB 0x04 =? 0) in
  let r := if is_binary then r else
    mk_reading (u8 (convert_bcd_to_binary r.(seconds))) (u8 (convert_bcd_to_binary r.(minutes)))
      (u8 (convert_bcd_to_binary r.(hours))) (u8 (convert_bcd_to_binary r.(year)))
      (u8 (convert_bcd_to_binary r.(dayofmonth))) (u8 (convert_bcd_to_binary r.(month))) in
  let yearsSinceEpoch := u64 (BASE_CENTURY + r.(year) - 1970) in
  let leapYears := yearsSinceEpoch / 4 in
  let leapYears := if 1 <? yearsSinceEpoch mod 4 then leapYears + 1 else leapYears in
  daysCurrentYear ← days_of_months (r.(month) - 1);
  let daysCurrentYear := daysCurrentYear + r.(dayofmonth) in
  let hours := if negb is_24hours && negb (Z.land r.(hours) 0x80 =? 0)
               then (Z.land r.(hours) 0x7F + 12) mod 24 else r.(hours) in
  let daysSinceEpoch := u64 (yearsSinceEpoch * 365 - 1) in
  let unixTimeOfDay := hours * 3600 + r.(minutes) * 60 + r.(seconds) in
  Some (u64 (daysSinceEpoch * 86400 + leapYears * 86400 + daysCurrentYear * 86400 + unixTimeOfDay)).

Section Device.
Context (cmos : nat -> Z -> Z).

(** The state is the number of reads so far. *)
Definition read_rtc_register (port_number : Z) : M nat Z :=
  let! n := get in
  do! put (S n) in
  ret (u8 (cmos n port_number)).

Definition is_rtc_updating : M nat bool :=
  let! statusRegisterA := read_rtc_register StatusRegisterA in
  ret (negb (Z.land statusRegisterA 0x80 =? 0)).

(** [while (is_rtc_updating());] *)
Fixpoint wait_update (fuel : nat) : M nat unit :=
  match fuel with
  | O => diverge
  | S fuel' => let! updating := is_rtc_updating in if updating then wait_update fuel' else ret tt
  end.

Definition read_registers : M nat reading :=
  let! s := read_rtc_register Seconds in
  let! m := read_rtc_register Minutes in
  let! h := read_rtc_register Hours in
  let! y := read_rtc_register Year in
  let! d := read_rtc_register DayOfMonth in
  let! mo := read_rtc_register Month in
  ret (mk_reading s m h y d mo).

(** The [do ... while] of [read_rtc_time], which goes on while nothing changes. *)
Fixpoint reread (fuel : nat) (last : reading) : M nat reading :=
  match fuel with
  | O => diverge
  | S fuel' =>
      do! wait_update fuel in
      let! r := read_registers in
      if bool_decide (last = r) then reread fuel' r else ret r
  end.

(** [fuel] bounds the rounds of the loops, which end with the device. *)
Definition read_rtc_time (fuel : nat) : M nat Z :=
  do! wait_update fuel in
  let! rtc_register_statusB := read_rtc_register StatusRegisterB in
  let! r := read_registers in
  let! r := reread fuel r in
  lift_opt OutOfBounds (rtc_to_unix rtc_register_statusB r).
End Device.

(** ** The calendar *)

Definition leap_year (y : Z) : bool := (y mod 4 =? 0) && (negb (y mod 100 =? 0) || (y mod 400 =? 0)).
Definition days_in_year (y : Z) : Z := if leap_year y then 366 else 365.
Definition days_in_month (y m : Z) : Z :=
  if (m =? 2) && leap_year y then 29 else default 0 (daysPerMonth !! Z.to_nat (m - 1)).

(** Days from the first of January 1970 to a date. *)
Definition calendar_days (y m d : Z) : Z :=
  foldr Z.add 0 (days_in_year <$> seqZ 1970 (y - 1970)) + foldr Z.add 0 (days_in_month y <$> seqZ 1 (m - 1)) + (d - 1).
Definition calendar_seconds (y m d h mi s : Z) : Z := calendar_days y m d * 86400 + h * 3600 + mi * 60 + s.

(** How a register holds a number in the two formats, and the register of the hours:
    on a 12-hour clock it counts 12, 1, ..., 11, and its highest bit says afternoon. *)
Definition register_of (binary : bool) (v : Z) : Z := if binary then v else v / 10 * 16 + v mod 10.
Definition hour12 (h : Z) : Z := if h mod 12 =? 0 then 12 else h mod 12.
Definition hour_register (binary hours24 : bool) (h : Z) : Z :=
  if hours24 then register_of binary h
  else register_of binary (hour12 h) + (if 12 <=? h then 0x80 else 0).
Definition status_of (binary hours24 : bool) : Z := (if binary then 0x04 else 0) + (if hours24 then 0x02 else 0).

Lemma bcd_round_trip v : 0 <= v < 100 -> u8 (convert_bcd_to_binary (register_of false v)) = v.
Proof.
  intros Hv. assert (Forall (fun v => u8 (convert_bcd_to_binary (register_of false v)) = v) (seqZ 0 100)) as H
    by (apply (bool_decide_unpack _); vm_compute; exact I).
  rewrite Forall_forall in H. apply H, elem_of_seqZ. lia.
Qed.

(** The day of the year, with a leap year counted from its first day. *)
Definition code_days (yy m : Z) : option Z :=
  let n := BASE_CENTURY + yy - 1970 in
  dm ← days_of_months (m - 1);
  Some (n * 365 - 1 + (if 1 <? n mod 4 then n / 4 + 1 else n / 4) + dm).
Definition early_day (yy m : Z) : Z := if leap_year (2000 + yy) && (m <=? 2) then 1 else 0.

Lemma code_days_calendar yy m : 0 <= yy < 100 -> 1 <= m <= 12 ->
  code_days yy m = Some (calendar_days (2000 + yy) m 1 - 1 + early_day yy m).
Proof.
  intros Hy Hm.
  assert (Forall (fun yy => Forall (fun m => code_days yy m = Some (calendar_days (2000 + yy) m 1 - 1 + early_day yy m)) (seqZ 1 12)) (seqZ 0 100)) as H
    by (apply (bool_decide_unpack _); vm_compute; exact I).
  rewrite Forall_forall in H. assert (yy ∈ seqZ 0 100) as Hyi by (apply elem_of_seqZ; lia). specialize (H yy Hyi).
  rewrite Forall_forall in H. apply H, elem_of_seqZ. lia.
Qed.

(** A date and a time of this century. *)
Definition valid_date (t : reading) : Prop :=
  0 <= t.(seconds) < 60 /\ 0 <= t.(minutes) < 60 /\ 0 <= t.(hours) < 24 /\
  0 <= t.(year) < 100 /\ 1 <= t.(month) <= 12 /\ 1 <= t.(dayofmonth) <= days_in_month (2000 + t.(year)) t.(month).
Definition registers (binary hours24 : bool) (t : reading) : reading :=
  mk_reading (register_of binary t.(seconds)) (register_of binary t.(minutes)) (hour_register binary hours24 t.(hours))
    (register_of binary t.(year)) (register_of binary t.(dayofmonth)) (register_of binary t.(month)).

(** The fields of a time one by one: a date that was read while it changed may have a
    day its month does not have. *)
Definition in_range (t : reading) : Prop :=
  0 <= t.(seconds) < 60 /\ 0 <= t.(minutes) < 60 /\ 0 <= t.(hours) < 24 /\
  0 <= t.(year) < 100 /\ 1 <= t.(month) <= 12 /\ 1 <= t.(dayofmonth) <= 31.

(** The hour the code takes the register for. On a 24-hour clock it is the hour. On a
    12-hour clock in binary it is the hour from 1 to 11 and from 13 to 23, and midnight
    and noon are exchanged. On a 12-hour clock in BCD an hour before noon is as in binary, and
    the afternoon bit, read as a digit, gives eighty hours more than [hour12]. *)
Definition code_hours (binary hours24 : bool) (h : Z) : Z :=
  if hours24 then h else if h <? 12 then hour12 h
  else if binary then (hour12 h + 12) mod 24 else 80 + hour12 h.

(** The time the code gives for a time the clock shows. *)
Definition code_time (binary hours24 : bool) (t : reading) : Z :=
  calendar_seconds (2000 + t.(year)) t.(month) t.(dayofmonth) (code_hours binary hours24 t.(hours)) t.(minutes) t.(seconds) +
  86400 * early_day t.(year) t.(month).

Lemma day_bound y m d : d <= days_in_month y m -> d <= 31.
Proof.
  unfold days_in_month. destruct (_ && _); [lia|]. intros H. transitivity (default 0 (daysPerMonth !! Z.to_nat (m - 1))); [done|].
  destruct (daysPerMonth !! Z.to_nat (m - 1)) as [v|] eqn:E; simpl; [|lia].
  assert (Forall (fun v => v <= 31) daysPerMonth) as Hall by (apply (bool_decide_unpack _); vm_compute; exact I).
  by eapply Forall_lookup_1 in Hall.
Qed.

Lemma valid_in_range t : valid_date t -> in_range t.
Proof. intros (? & ? & ? & ? & ? & ? & ?%day_bound). unfold in_range. lia. Qed.

Lemma days_of_months_bound n d : 0 <= n -> days_of_months n = Some d -> 0 <= d <= 365.
Proof.
  intros Hn. unfold days_of_months. destruct (Z.leb_spec n 12) as [Hl|]; [|done]. intros [= <-].
  assert (Forall (fun n => 0 <= foldr Z.add 0 (take (Z.to_nat n) daysPerMonth) <= 365) (seqZ 0 13)) as H
    by (apply (bool_decide_unpack _); vm_compute; exact I).
  rewrite Forall_forall in H. apply H, elem_of_seqZ. lia.
Qed.

(** What the code computes of the register of the hours. *)
Definition decoded_hours (binary hours24 : bool) (v : Z) : Z :=
  if negb (negb (Z.land (status_of binary hours24) 0x02 =? 0)) && negb (Z.land v 0x80 =? 0)
  then (Z.land v 0x7F + 12) mod 24 else v.
Lemma hour_register_run binary hours24 h : 0 <= h < 24 ->
  decoded_hours binary hours24 (if binary then hour_register binary hours24 h else u8 (convert_bcd_to_binary (hour_register binary hours24 h))) =
    code_hours binary hours24 h /\
  0 <= hour_register binary hours24 h < 256 /\ 0 <= code_hours binary hours24 h < 93.
Proof.
  intros Hh. assert (Forall (fun h =>
    decoded_hours binary hours24 (if binary then hour_register binary hours24 h else u8 (convert_bcd_to_binary (hour_register binary hours24 h))) =
      code_hours binary hours24 h /\
    0 <= hour_register binary hours24 h < 256 /\ 0 <= code_hours binary hours24 h < 93) (seqZ 0 24)) as H
    by (destruct binary, hours24; apply (bool_decide_unpack _); vm_compute; exact I).
  rewrite Forall_forall in H. apply H, elem_of_seqZ. lia.
Qed.

Lemma rtc_to_unix_run binary hours24 t : in_range t ->
  rtc_to_unix (status_of binary hours24) (registers binary hours24 t) = Some (code_time binary hours24 t).
Proof.
  destruct t as [s mi h yy d m]. unfold in_range; simpl. intros (Hs & Hmi & Hh & Hy & Hm & Hd).
  destruct (hour_register_run binary hours24 h Hh) as (Hhour & _ & Hhb).
  set (hr := hour_register binary hours24 h) in *.
  assert ((if negb (Z.land (status_of binary hours24) 0x04 =? 0) then registers binary hours24 (mk_reading s mi h yy d m) else
    mk_reading (u8 (convert_bcd_to_binary (register_of binary s))) (u8 (convert_bcd_to_binary (register_of binary mi)))
      (u8 (convert_bcd_to_binary hr)) (u8 (convert_bcd_to_binary (register_of binary yy)))
      (u8 (convert_bcd_to_binary (register_of binary d))) (u8 (convert_bcd_to_binary (register_of binary m)))) =
    mk_reading s mi (if binary then hr else u8 (convert_bcd_to_binary hr)) yy d m) as Hr.
  { destruct binary; [by destruct hours24|]. rewrite !bcd_round_trip by lia. by destruct hours24. }
  unfold rtc_to_unix. cbv zeta. unfold registers in Hr |- *. cbn [seconds minutes hours year dayofmonth month] in Hr |- *.
  fold hr. fold hr in Hr. rewrite Hr. cbn [seconds minutes hours year dayofmonth month].
  pose proof (code_days_calendar yy m Hy Hm) as Hc.
  unfold code_days, BASE_CENTURY in Hc. destruct (days_of_months (m - 1)) as [dm|] eqn:Edm; [|done].
  apply (inj Some) in Hc. cbn [mbind option_bind].
  unfold decoded_hours in Hhour. rewrite Hhour.
  unfold BASE_CENTURY. rewrite (u64_small (2000 + yy - 1970)), (u64_small (_ * 365 - 1)) by lia.
  apply days_of_months_bound in Edm as Hb; [|lia].
  assert (0 <= (2000 + yy - 1970) / 4 < 33) as Hq by (clear -Hy; Z.div_mod_to_equations; lia).
  generalize dependent ((2000 + yy - 1970) / 4). intros q Hc Hq.
  assert (0 <= early_day yy m <= 1) by (clear; unfold early_day; destruct (_ && _); lia). clear Hr Hhour Edm.
  unfold code_time, calendar_seconds. cbn [seconds minutes hours year dayofmonth month]. unfold calendar_days in *.
  destruct (1 <? (2000 + yy - 1970) mod 4); rewrite u64_small by lia; f_equal; lia.
Qed.

(** A clock of any of the four formats, that shows [d0] until the [n]-th read and [d1]
    from then on; [busy i] is the update flag that the [i]-th read finds. *)
Definition clock_register (binary hours24 busy : bool) (t : reading) (port_number : Z) : Z :=
  let r := registers binary hours24 t in
  if port_number =? Seconds then r.(seconds) else if port_number =? Minutes then r.(minutes)
  else if port_number =? Hours then r.(hours) else if port_number =? Year then r.(year)
  else if port_number =? DayOfMonth then r.(dayofmonth) else if port_number =? Month then r.(month)
  else if port_number =? StatusRegisterB then status_of binary hours24
  else if port_number =? StatusRegisterA then (if busy then 0x80 else 0) + 0x26 else 0.
Definition ticking_clock (binary hours24 : bool) (busy : nat -> bool) (n : nat) (d0 d1 : reading) (i : nat) (port_number : Z) : Z :=
  clock_register binary hours24 (busy i) (if (i <? n)%nat then d0 else d1) port_number.

(** What is read when the first [p] of the six registers, in the order the code reads
    them, are read before the change. *)
Definition torn (p : nat) (d0 d1 : reading) : reading :=
  let shown (k : nat) := if (k <? p)%nat then d0 else d1 in
  mk_reading (shown 0%nat).(seconds) (shown 1%nat).(minutes) (shown 2%nat).(hours) (shown 3%nat).(year) (shown 4%nat).(dayofmonth) (shown 5%nat).(month).

Lemma torn_none d0 d1 : torn 0 d0 d1 = d1.
Proof. by destruct d1. Qed.
Lemma torn_all p d0 d1 : (6 <= p)%nat -> torn p d0 d1 = d0.
Proof. intros Hp. unfold torn. rewrite !(proj2 (Nat.ltb_lt _ _)) by lia. by destruct d0. Qed.
Lemma torn_in_range p d0 d1 : in_range d0 -> in_range d1 -> in_range (torn p d0 d1).
Proof. unfold in_range, torn. intros H0 H1. cbn [seconds minutes hours year dayofmonth month]. repeat (case_match; try lia). Qed.

Section Reading.
Context (binary hours24 : bool) (busy : nat -> bool) (n : nat) (d0 d1 : reading).
Hypothesis (Hv0 : in_range d0) (Hv1 : in_range d1).
#[local] Notation clock := (ticking_clock binary hours24 busy n d0 d1).

Lemma register_byte v : 0 <= v < 100 -> u8 (register_of binary v) = register_of binary v.
Proof. intros Hv. apply u8_small. unfold register_of. destruct binary; [lia|]. Z.div_mod_to_equations; lia. Qed.

(** A wait ends with the first read that finds the flag down. *)
Lemma wait_update_step fuel i :
  wait_update clock (S fuel) i = if busy i then wait_update clock fuel (S i) else Ret (tt, S i).
Proof.
  cbn [wait_update]. unfold is_rtc_updating at 1, read_rtc_register, bind, get, put, ret, ticking_clock, clock_register; simpl.
  by destruct (busy i).
Qed.

Lemma wait_update_run fuel : forall i j, (i <= j < i + fuel)%nat -> busy j = false ->
  exists j', (i <= j' <= j)%nat /\ busy j' = false /\ wait_update clock fuel i = Ret (tt, S j').
Proof.
  induction fuel as [|fuel IH]; intros i j Hj Hb; [lia|]. rewrite wait_update_step.
  destruct (busy i) eqn:Ei; [|exists i; split_and!; [lia|lia|done|done]].
  assert (i <> j) by congruence. destruct (IH (S i) j ltac:(lia) Hb) as (j' & ? & Hb' & Hrun). exists j'. split; [lia|done].
Qed.

Lemma wait_or_diverge fuel : forall i, wait_update clock fuel i = Diverge \/ exists j, wait_update clock fuel i = Ret (tt, j).
Proof. induction fuel as [|fuel IH]; intros i; [by left|]. rewrite wait_update_step. destruct (busy i); [apply IH|right; by eexists]. Qed.

Lemma read_registers_run i :
  read_registers clock i = Ret (registers binary hours24 (torn (n - i) d0 d1), (i + 6)%nat).
Proof.
  pose proof (torn_in_range (n - i) d0 d1 Hv0 Hv1) as (Hs & Hmi & Hh & Hy & Hm & Hd).
  destruct (hour_register_run binary hours24 _ Hh) as (_ & Hhr & _).
  assert (forall k, (k <? n - i)%nat = (i + k <? n)%nat) as Hk
    by (intros k; apply eq_iff_eq_true; rewrite !Nat.ltb_lt; lia).
  unfold read_registers, read_rtc_register, bind, get, put, ret, ticking_clock, clock_register. simpl.
  unfold registers. f_equal. f_equal; [|lia].
  unfold torn in *. cbn [seconds minutes hours year dayofmonth month] in *. rewrite !Hk in *.
  rewrite !Nat.add_0_r, <- !plus_n_Sm, !Nat.add_0_r in *. rewrite !register_byte by lia. by rewrite u8_small.
Qed.

Lemma register_of_inj v w : 0 <= v < 100 -> 0 <= w < 100 -> register_of binary v = register_of binary w -> v = w.
Proof. intros Hv Hw. destruct binary; [done|]. intros He. rewrite <- (bcd_round_trip v), <- (bcd_round_trip w) by done. by rewrite He. Qed.

Lemma hour_register_inj v w : 0 <= v < 24 -> 0 <= w < 24 -> hour_register binary hours24 v = hour_register binary hours24 w -> v = w.
Proof.
  intros Hv Hw. assert (Forall (fun v => Forall (fun w => hour_register binary hours24 v = hour_register binary hours24 w -> v = w)
    (seqZ 0 24)) (seqZ 0 24)) as H by (destruct binary, hours24; apply (bool_decide_unpack _); vm_compute; exact I).
  rewrite Forall_forall in H. specialize (H v ltac:(apply elem_of_seqZ; lia)). rewrite Forall_forall in H. apply H, elem_of_seqZ. lia.
Qed.

Lemma registers_inj t u : in_range t -> in_range u -> registers binary hours24 t = registers binary hours24 u -> t = u.
Proof.
  intros (? & ? & ? & ? & ? & ?) (? & ? & ? & ? & ? & ?). destruct t, u. simpl in *. intros [= K1 K2 K3 K4 K5 K6].
  apply register_of_inj in K1, K2, K4, K5, K6; try lia. apply hour_register_inj in K3; [by subst|done|done].
Qed.

Lemma read_status_B_run i : read_rtc_register clock StatusRegisterB i = Ret (status_of binary hours24, S i).
Proof. unfold read_rtc_register, bind, get, put, ret, ticking_clock, clock_register; simpl. by destruct (i <? n)%nat, binary, hours24. Qed.

(** The update flag goes down again within [B] reads. *)
Context (B : nat).
Hypothesis Hwaits : forall i, exists j, (i <= j < i + B)%nat /\ busy j = false.

Lemma wait_run fuel i : (B <= fuel)%nat -> exists j, (i <= j)%nat /\ busy j = false /\ wait_update clock fuel i = Ret (tt, S j).
Proof.
  intros Hf. destruct (Hwaits i) as (j & Hj & Hb). destruct (wait_update_run fuel i j ltac:(lia) Hb) as (j' & ? & ? & ?).
  exists j'. split; [lia|done].
Qed.

(** Rounds in which nothing changes, and one that sees the change. *)
Lemma reread_run fuel : forall i, (n - i + B < fuel)%nat -> d0 <> d1 ->
  exists p i', (p < 6)%nat /\ reread clock fuel (registers binary hours24 d0) i = Ret (registers binary hours24 (torn p d0 d1), (i' + 6)%nat) /\
    busy (i' - 1)%nat = false /\ (0 < i')%nat /\ p = (n - i')%nat.
Proof.
  induction fuel as [|fuel IH]; intros i Hf Hne; [lia|]. cbn [reread].
  destruct (wait_run (S fuel) i ltac:(lia)) as (j & Hj & Hb & Hw). rewrite (bind_run _ _ _ _ _ Hw).
  rewrite (bind_run _ _ _ _ _ (read_registers_run (S j))). case_bool_decide as He.
  - apply registers_inj in He; [|done|by apply torn_in_range]. rewrite <- He.
    apply IH; [|done]. assert (n - S j <> 0)%nat by (intros E; rewrite E, torn_none in He; done). lia.
  - exists (n - S j)%nat, (S j). split; [|split; [done|split; [by rewrite Nat.sub_1_r|split; [lia|done]]]].
    destruct (decide (n - S j < 6)%nat); [done|]. exfalso. apply He. by rewrite torn_all by lia.
Qed.
End Reading.

(** A clock that stands still keeps the loop going. *)
Lemma reread_still binary hours24 busy d (Hv : in_range d) fuel : forall i,
  reread (ticking_clock binary hours24 busy 0 d d) fuel (registers binary hours24 d) i = Diverge.
Proof.
  induction fuel as [|fuel IH]; intros i; [done|]. cbn [reread].
  destruct (wait_or_diverge binary hours24 busy 0 d d (S fuel) i) as [Hw|(j & Hw)]; [unfold bind at 1; by rewrite Hw|].
  rewrite (bind_run _ _ _ _ _ Hw), (bind_run _ _ _ _ _ (read_registers_run binary hours24 busy 0 d d Hv Hv _)).
  change (0 - _)%nat with 0%nat. rewrite torn_none, bool_decide_eq_true_2 by done. apply IH.
Qed.

(** C18: [read_rtc_time] on a clock of any format, 24 or 12 hours, binary or BCD, whose
    update flag [busy] goes down within [B] reads whenever it is up. The loop goes on
    while two readings are the same: it returns once the clock has changed from [d0] to
    [d1], and never returns when the clock stands still. The time returned is that of the
    calendar for what is read, with three exceptions. In January and February of a leap
    year it is a day ahead. On a 12-hour clock the hour is [code_hours]: midnight and noon
    are exchanged in binary, and in BCD midnight is 12 and an hour from noon on is 80 plus
    the hour of the 12-hour clock. And when the change falls between the reads of the last
    round, the first [p] fields read are those of [d0]. This last cannot happen when the
    flag is up at the six reads before the change: what is read is then [d1]. *)
Theorem read_rtc_time_calendar binary hours24 busy B n d0 d1 :
  valid_date d0 -> valid_date d1 -> d0 <> d1 ->
  (forall i, exists j, (i <= j < i + B)%nat /\ busy j = false) ->
  (forall fuel, (B + 8 <= n)%nat -> (n + B < fuel)%nat -> exists p i,
     let t := torn p d0 d1 in
     read_rtc_time (ticking_clock binary hours24 busy n d0 d1) fuel 0%nat =
       Ret (calendar_seconds (2000 + t.(year)) t.(month) t.(dayofmonth) (code_hours binary hours24 t.(hours)) t.(minutes) t.(seconds) +
            (if leap_year (2000 + t.(year)) && (t.(month) <=? 2) then 86400 else 0), (i + 6)%nat) /\
     (p < 6)%nat /\ (p = 0 \/ n = i + p)%nat /\
     ((forall k, (n - 6 <= k < n)%nat -> busy k = true) -> p = 0%nat)) /\
  (forall fuel, read_rtc_time (ticking_clock binary hours24 busy 0 d0 d0) fuel 0%nat = Diverge).
Proof.
  intros Hv0%valid_in_range Hv1%valid_in_range Hne Hwaits. split; intros fuel.
  - intros Hn Hf. unfold read_rtc_time.
    destruct (Hwaits 0%nat) as (j0 & Hj0 & Hb0).
    destruct (wait_update_run binary hours24 busy n d0 d1 fuel 0%nat j0 ltac:(lia) Hb0) as (j & Hj & _ & Hw).
    rewrite (bind_run _ _ _ _ _ Hw), (bind_run _ _ _ _ _ (read_status_B_run _ _ _ _ _ _ _)).
    rewrite (bind_run _ _ _ _ _ (read_registers_run binary hours24 busy n d0 d1 Hv0 Hv1 _)), torn_all by lia.
    destruct (reread_run binary hours24 busy n d0 d1 Hv0 Hv1 B Hwaits fuel (S (S j) + 6)%nat ltac:(lia) Hne)
      as (p & i & Hp & Hrun & Hbusy & Hi & Hpn).
    exists p, i. cbv zeta. rewrite (bind_run _ _ _ _ _ Hrun), rtc_to_unix_run by (by apply torn_in_range).
    split; [|split; [done|split; [lia|]]].
    + unfold lift_opt, ret, code_time, early_day. do 2 f_equal. f_equal. by destruct (_ && _).
    + intros Hup. destruct (decide (p = 0)%nat); [done|]. rewrite Hup in Hbusy by lia. done.
  - unfold read_rtc_time.
    destruct (wait_or_diverge binary hours24 busy 0 d0 d0 fuel 0%nat) as [Hw|(j & Hw)]; [unfold bind at 1; by rewrite Hw|].
    rewrite (bind_run _ _ _ _ _ Hw), (bind_run _ _ _ _ _ (read_status_B_run _ _ _ _ _ _ _)).
    rewrite (bind_run _ _ _ _ _ (read_registers_run binary hours24 busy 0 d0 d0 Hv0 Hv0 _)). change (0 - _)%nat with 0%nat.
    rewrite torn_none. unfold bind. by rewrite (reread_still binary hours24 busy d0 Hv0).
Qed.

(** The second of January 2024 in BCD, the flag up during the seven reads before the
    change: a day ahead. *)
Definition flag_before (n i : nat) : bool := (n - 7 <=? i)%nat && (i <? n)%nat.
Definition silvester : reading := mk_reading 59 59 23 24 1 1.
Definition second_of_january : reading := mk_reading 0 0 0 24 2 1.

Lemma flag_before_22 i : exists j, (i <= j < i + 8)%nat /\ flag_before 22 j = false.
Proof.
  destruct (decide (15 <= i < 22)%nat) as [Hi|Hi].
  - exists 22%nat. split; [lia|done].
  - exists i. split; [lia|]. unfold flag_before. apply andb_false_iff. rewrite Nat.leb_gt, Nat.ltb_ge. lia.
Qed.

Lemma read_rtc_time_calendar_witness : exists i,
  read_rtc_time (ticking_clock false true (flag_before 22) 22 silvester second_of_january) 31 0%nat = Ret (1704153600 + 86400, i).
Proof.
  destruct (read_rtc_time_calendar false true (flag_before 22) 8 22 silvester second_of_january) as [H _].
  - by apply (bool_decide_unpack _).
  - by apply (bool_decide_unpack _).
  - discriminate.
  - exact flag_before_22.
  - destruct (H 31%nat ltac:(lia) ltac:(lia)) as (p & i & Hrun & _ & _ & Hp). exists (i + 6)%nat.
    rewrite (Hp ltac:(intros k Hk; unfold flag_before; apply andb_true_iff; rewrite Nat.leb_le, Nat.ltb_lt; lia)) in Hrun. exact Hrun.
Defined.

(** A change in the middle of a round, with the flag never found up: the second is the
    old one, the minute and the rest are new. *)
Example torn_reading :
  read_rtc_time (ticking_clock true true (fun _ => false) 24 silvester second_of_january) 3 0%nat =
    Ret (1704153600 + 86400 + 59, 29%nat).
Proof. vm_compute. reflexivity. Qed.

(** Half past one in the afternoon in the 12-hour BCD format, where the highest bit
    of the hours register says afternoon: it is read as 81 hours. *)
Example afternoon_lost :
  rtc_to_unix (status_of false false) (mk_reading 0 0x30 0x81 0x24 0x02 0x03) =
    Some (calendar_seconds 2024 3 2 81 30 0).
Proof. vm_compute. reflexivity. Qed.
