(* ===== verification/Idt.v ===== *)
(** Interrupt descriptors and the task state segment: [cpu/idt.c] and [cpu/tss.c].
    The entry points written in assembly are a parameter, the address of the routine
    of each vector. *)
From S2P Require Import Prelude.

Definition IDT_SIZE : Z := 256.
Definition IDT_PRESENT_FLAG : Z := 0x80.
Definition IDT_INTERRUPT_TYPE_FLAG : Z := 0x0E.
Definition IDT_DPL_USER_FLAG : Z := 0x60.
Definition KERNEL_CS : Z := 0x8.
Definition SYSCALL_VECTOR_NUMBER : Z := 0x80.
Definition TSS_ENTRY_LOW : Z := 5.
Definition TSS_ENTRY_HIGH : Z := 6.

Record IDT_descriptor : Type := mk_idt {
  offset_low : Z;
  segment_selector : Z;
  ist : Z;
  flags : Z;
  offset_mid : Z;
  offset_high : Z;
  reserved : Z;
}.
#[export] Instance IDT_descriptor_eq_dec : EqDecision IDT_descriptor.
Proof. solve_decision. Defined.

Notation idt_table_t := (list IDT_descriptor).

(** A write past the table is past the object. *)
Definition set_idt_entry (idx flags selector ist handler : Z) : M idt_table_t unit :=
  let! t := get in
  if (0 <=? idx) && (idx <? Z.of_nat (length t)) then
    put (<[Z.to_nat idx := mk_idt (u16 (Z.land (u64 handler) 0xFFFF)) selector ist flags
                             (u16 (Z.shiftr (u64 handler) 16)) (u32 (Z.shiftr (u64 handler) 32)) 0]> t)
  else throw OutOfBounds.

Definition clear_idt_entry (i : Z) : M idt_table_t unit :=
  let! t := get in
  if i <? Z.of_nat (length t) then put (<[Z.to_nat i := mk_idt 0 0 0 0 0 0 0]> t) else throw OutOfBounds.

(** The vectors [init_idt] sets, in its order. *)
Definition idt_vectors : list Z := seqZ 0 19 ++ [0x20; 0x21; 0x22; 0xFF].

Fixpoint set_idt_entries (isr : Z -> Z) (vectors : list Z) : M idt_table_t unit :=
  match vectors with
  | [] => ret tt
  | v :: vs =>
      do! set_idt_entry v (Z.lor IDT_PRESENT_FLAG IDT_INTERRUPT_TYPE_FLAG) KERNEL_CS 0 (isr v) in
      set_idt_entries isr vs
  end.

Definition init_idt (isr : Z -> Z) : M idt_table_t unit :=
  do! for_upto IDT_SIZE clear_idt_entry in
  set_idt_entries isr idt_vectors.

(** [_syscalls_init] of [cpu/syscalls.c]. *)
Definition _syscalls_init (isr : Z -> Z) : M idt_table_t bool :=
  do! set_idt_entry SYSCALL_VECTOR_NUMBER (Z.lor (Z.lor IDT_PRESENT_FLAG IDT_INTERRUPT_TYPE_FLAG) IDT_DPL_USER_FLAG)
        KERNEL_CS 0 (isr SYSCALL_VECTOR_NUMBER) in
  ret true.

(** The operand of [lidt]: limit and address. *)
Definition load_idt (idt_table : Z) : Z * Z := (u16 (IDT_SIZE * 16 - 1), idt_table).

(** ** The task state segment *)

Record tss_t : Type := mk_tss {
  tss_reserved0 : Z;
  tss_rsp0 : Z;
  tss_rsp1 : Z;
  tss_rsp2 : Z;
  tss_reserved1 : Z;
  tss_ists : list Z;
  tss_reserved2 : Z;
  tss_reserved3 : Z;
  io_bitmap_offset : Z;
}.
Definition sizeof_tss_t : Z := 104.

Definition initialize_tss (stack : Z) : tss_t := mk_tss 0 (u64 (stack + 16384)) 0 0 0 [0; 0; 0; 0; 0; 0; 0] 0 0 0.

(** The two words [load_tss] puts in the table of descriptors, for the segment at
    [kernel_tss]. *)
Definition load_tss (kernel_tss : Z) (gdt64 : list Z) : list Z :=
  let limit_low := u16 sizeof_tss_t in
  let tss_entry_base_1 := Z.land kernel_tss 0xFFFF in
  let tss_entry_base_2 := Z.land (Z.shiftr kernel_tss 16) 0xFF in
  let flags_1 := 0x89 in
  let flags_2 := 0 in
  let tss_entry_base_3 := Z.land (Z.shiftr kernel_tss 24) 0xFF in
  let tss_entry_base_4 := Z.land (Z.shiftr kernel_tss 32) 0xFFFFFFFF in
  let reserved_part := 0 in
  let entry_low :=
    Z.lor (Z.lor (Z.lor (Z.lor (Z.lor (Z.shiftl tss_entry_base_3 56) (Z.shiftl flags_2 48)) (Z.shiftl flags_1 40))
      (Z.shiftl tss_entry_base_2 32)) (Z.shiftl tss_entry_base_1 16)) limit_low in
  let entry_high := Z.lor reserved_part tss_entry_base_4 in
  <[Z.to_nat TSS_ENTRY_HIGH := entry_high]> (<[Z.to_nat TSS_ENTRY_LOW := entry_low]> gdt64).

(** ** What the processor reads *)

(** A gate: where it leads, through which segment, at which type and privilege, and
    whether it is there. *)
Record gate : Type := mk_gate {
  g_offset : Z;
  g_selector : Z;
  g_type : Z;
  g_dpl : Z;
  g_present : bool;
}.
Definition decode_gate (d : IDT_descriptor) : gate :=
  mk_gate (d.(offset_low) + d.(offset_mid) * 2 ^ 16 + d.(offset_high) * 2 ^ 32) d.(segment_selector)
    (d.(flags) mod 16) (d.(flags) / 32 mod 4) (Z.testbit d.(flags) 7).

(** The base, the limit and the access byte of a system descriptor of two words. *)
Definition descriptor_base (low high : Z) : Z :=
  low / 2 ^ 16 mod 2 ^ 24 + low / 2 ^ 56 * 2 ^ 24 + high * 2 ^ 32.
Definition descriptor_limit (low : Z) : Z := low mod 2 ^ 16 + low / 2 ^ 48 mod 2 ^ 4 * 2 ^ 16.
Definition descriptor_access (low : Z) : Z := low / 2 ^ 40 mod 2 ^ 8.

Section Tables.
Implicit Types (t : idt_table_t) (isr : Z -> Z).

Lemma split_offset h : 0 <= h < 2 ^ 64 ->
  u16 (Z.land (u64 h) 0xFFFF) + u16 (Z.shiftr (u64 h) 16) * 2 ^ 16 + u32 (Z.shiftr (u64 h) 32) * 2 ^ 32 = h.
Proof.
  intros Hh. rewrite u64_small by done. change 0xFFFF with (Z.ones 16). rewrite Z.land_ones, !Z.shiftr_div_pow2 by lia.
  unfold u16, u32. Z.div_mod_to_equations. lia.
Qed.

(** The descriptor [set_idt_entry] writes. *)
Definition entry_of (flags handler : Z) : IDT_descriptor :=
  mk_idt (u16 (Z.land (u64 handler) 0xFFFF)) KERNEL_CS 0 flags (u16 (Z.shiftr (u64 handler) 16)) (u32 (Z.shiftr (u64 handler) 32)) 0.

Lemma set_idt_entries_run isr vs : forall t, length t = 256%nat -> Forall (fun v => 0 <= v < 256) vs ->
  exists t', set_idt_entries isr vs t = Ret (tt, t') /\ length t' = 256%nat /\
    forall v, 0 <= v < 256 -> t' !! Z.to_nat v =
      if bool_decide (v ∈ vs) then Some (entry_of 0x8E (isr v)) else t !! Z.to_nat v.
Proof.
  induction vs as [|w vs IH]; intros t Hl Hvs.
  - exists t. split; [done|]. split; [done|]. intros v _. rewrite bool_decide_eq_false_2; [done|set_solver].
  - apply Forall_cons in Hvs as [Hw Hvs]. cbv beta in Hw.
    destruct (IH (<[Z.to_nat w := entry_of 0x8E (isr w)]> t)) as (t' & Hrun & Hl' & Hlook); [by rewrite length_insert|done|].
    exists t'. split.
    { cbn [set_idt_entries]. erewrite bind_run; [exact Hrun|]. unfold set_idt_entry, bind, get, put. rewrite Hl.
      change (Z.of_nat 256) with 256. destruct (Z.leb_spec 0 w); [|lia]. by destruct (Z.ltb_spec w 256); [|lia]. }
    split; [done|]. intros v Hv. rewrite Hlook by done.
    destruct (decide (v ∈ vs)) as [Hin|Hin].
    + rewrite !bool_decide_eq_true_2; [done|set_solver|done].
    + rewrite (bool_decide_eq_false_2 (v ∈ vs)) by done. destruct (decide (v = w)) as [->|Hne].
      * rewrite bool_decide_eq_true_2 by set_solver. rewrite list_lookup_insert_eq by lia. done.
      * rewrite bool_decide_eq_false_2 by set_solver. rewrite list_lookup_insert_ne; [done|]. lia.
Qed.

Lemma clear_table_run t : length t = 256%nat ->
  for_upto IDT_SIZE clear_idt_entry t = Ret (tt, replicate 256 (mk_idt 0 0 0 0 0 0 0)).
Proof.
  intros Hl. apply wp_eq. unfold for_upto.
  apply (wp_for_from (fun i t' => 0 <= i /\ length t' = 256%nat /\
    forall j, (j < Z.to_nat i)%nat -> (j < 256)%nat -> t' !! j = Some (mk_idt 0 0 0 0 0 0 0))).
  - split; [done|]. split; [done|]. intros j Hj. simpl in Hj. lia.
  - intros i t' Hi (H0 & Hl' & Hj). unfold IDT_SIZE in Hi. apply wp_run. eexists tt, _. unfold clear_idt_entry, bind, get, put. rewrite Hl'.
    change (Z.of_nat 256) with 256. destruct (Z.ltb_spec i 256); [|lia]. split; [reflexivity|]. split; [lia|]. split; [by rewrite length_insert|].
    intros j Hlt Hj256. destruct (decide (j = Z.to_nat i)) as [->|Hne]; [by rewrite list_lookup_insert_eq by lia|].
    rewrite list_lookup_insert_ne by lia. apply Hj; lia.
  - intros t' (H0 & Hl' & Hj). split; [done|]. apply list_eq. intros j. destruct (decide (j < 256)%nat) as [Hlt|Hge].
    + rewrite Hj by (unfold IDT_SIZE; lia). symmetry. by apply lookup_replicate_2.
    + rewrite !lookup_ge_None_2; [done|rewrite length_replicate; lia|lia].
Qed.
End Tables.

(** C35: After [init_idt] and [_syscalls_init] the processor finds, for each vector the
    kernel serves, a present interrupt gate that leads to the whole 64-bit address of
    its routine through the code segment of the kernel; only the system call's gate
    may be used from user mode. No other gate is present. *)
Theorem init_idt_gates (isr : Z -> Z) (t : list IDT_descriptor) :
  length t = 256%nat -> (forall v, 0 <= isr v < 2 ^ 64) ->
  exists t', (do! init_idt isr in _syscalls_init isr) t = Ret (true, t') /\ length t' = 256%nat /\
    forall v, 0 <= v < 256 -> exists d, t' !! Z.to_nat v = Some d /\
      if bool_decide (v ∈ idt_vectors) || (v =? SYSCALL_VECTOR_NUMBER)
      then decode_gate d = mk_gate (isr v) KERNEL_CS 14 (if v =? SYSCALL_VECTOR_NUMBER then 3 else 0) true
      else (decode_gate d).(g_present) = false.
Proof.
  intros Hl Hisr. unfold init_idt.
  destruct (set_idt_entries_run isr idt_vectors (replicate 256 (mk_idt 0 0 0 0 0 0 0))) as (t1 & Hrun1 & Hl1 & Hlook).
  { by rewrite length_replicate. }
  { apply (bool_decide_unpack _). vm_compute. exact I. }
  rewrite (bind_run _ _ t tt t1) by (rewrite (bind_run _ _ _ _ _ (clear_table_run t Hl)); exact Hrun1).
  exists (<[128%nat := mk_idt (u16 (Z.land (u64 (isr 128)) 0xFFFF)) KERNEL_CS 0 0xEE (u16 (Z.shiftr (u64 (isr 128)) 16)) (u32 (Z.shiftr (u64 (isr 128)) 32)) 0]> t1).
  split.
  { unfold _syscalls_init, set_idt_entry, bind, get, put. by rewrite Hl1. }
  split; [by rewrite length_insert|]. intros v Hv.
  destruct (Z.eqb_spec v SYSCALL_VECTOR_NUMBER) as [->|Hne].
  - eexists. split; [apply list_lookup_insert_eq; rewrite Hl1; simpl; lia|]. rewrite orb_true_r.
    unfold decode_gate. simpl. by rewrite split_offset by apply Hisr.
  - rewrite list_lookup_insert_ne by (unfold SYSCALL_VECTOR_NUMBER in Hne; lia). rewrite Hlook by done. rewrite orb_false_r.
    case_bool_decide.
    + eexists. split; [done|]. unfold decode_gate, entry_of. simpl. by rewrite split_offset by apply Hisr.
    + rewrite lookup_replicate_2 by lia. eexists. split; [done|]. reflexivity.
Qed.

(** Routines sixteen bytes apart in the higher half. *)
Lemma init_idt_gates_witness :
  exists t', (do! init_idt (fun v => u64 (0xFFFFFFFF80001000 + 16 * v)) in
              _syscalls_init (fun v => u64 (0xFFFFFFFF80001000 + 16 * v))) (replicate 256 (mk_idt 7 7 7 0xFF 7 7 7)) = Ret (true, t') /\
    exists d, t' !! 14%nat = Some d /\ decode_gate d = mk_gate 0xFFFFFFFF800010E0 KERNEL_CS 14 0 true.
Proof.
  destruct (init_idt_gates (fun v => u64 (0xFFFFFFFF80001000 + 16 * v)) (replicate 256 (mk_idt 7 7 7 0xFF 7 7 7)))
    as (t' & Hrun & _ & Hg).
  - reflexivity.
  - intros v. apply u64_range.
  - exists t'. split; [exact Hrun|]. destruct (Hg 14 ltac:(lia)) as (d & Hd & Hdec). exists d. split; [exact Hd|]. exact Hdec.
Defined.

Lemma lor_shiftl_add a b k : 0 <= k -> 0 <= b < 2 ^ k -> Z.lor (Z.shiftl a k) b = a * 2 ^ k + b.
Proof.
  intros Hk Hb. rewrite <- Z.shiftl_mul_pow2 by done.
  assert (Z.land (Z.shiftl a k) b = 0) as Hz.
  { apply Z.bits_inj'. intros i Hi. rewrite Z.land_spec, Z.bits_0. destruct (Z.lt_ge_cases i k).
    - by rewrite Z.shiftl_spec_low.
    - by rewrite (testbit_high b k i), andb_false_r. }
  by rewrite Z.add_nocarry_lxor, Z.lxor_lor.
Qed.

(** The descriptor [load_tss] makes: its base is the whole 64-bit address of the
    segment and it is a present 64-bit task state segment; its limit is 104, one more
    than the offset of the segment's last byte. The other entries of the table stay. *)
Theorem load_tss_descriptor (kernel_tss : Z) (gdt : list Z) :
  0 <= kernel_tss < 2 ^ 64 -> (7 <= length gdt)%nat ->
  exists low high,
    load_tss kernel_tss gdt !! 5%nat = Some low /\ load_tss kernel_tss gdt !! 6%nat = Some high /\
    (forall i, i <> 5%nat -> i <> 6%nat -> load_tss kernel_tss gdt !! i = gdt !! i) /\
    descriptor_base low high = kernel_tss /\ descriptor_access low = 0x89 /\ descriptor_limit low = sizeof_tss_t.
Proof.
  intros Ha Hl. unfold load_tss. cbv zeta.
  change 0xFFFF with (Z.ones 16). change 0xFFFFFFFF with (Z.ones 32). change 0xFF with (Z.ones 8).
  rewrite !Z.land_ones, !Z.shiftr_div_pow2 by lia. change (u16 sizeof_tss_t) with 104. rewrite Z.lor_0_l.
  set (b1 := kernel_tss mod 2 ^ 16). set (b2 := kernel_tss / 2 ^ 16 mod 2 ^ 8). set (b3 := kernel_tss / 2 ^ 24 mod 2 ^ 8).
  set (b4 := kernel_tss / 2 ^ 32 mod 2 ^ 32).
  assert (0 <= b1 < 2 ^ 16) by (apply Z.mod_pos_bound; lia). assert (0 <= b2 < 2 ^ 8) by (apply Z.mod_pos_bound; lia).
  assert (0 <= b3 < 2 ^ 8) by (apply Z.mod_pos_bound; lia). assert (0 <= b4 < 2 ^ 32) by (apply Z.mod_pos_bound; lia).
  assert (kernel_tss = b1 + b2 * 2 ^ 16 + b3 * 2 ^ 24 + b4 * 2 ^ 32) as He
    by (unfold b1, b2, b3, b4; clear -Ha; Z.div_mod_to_equations; lia).
  clearbody b1 b2 b3 b4. rewrite <- !Z.lor_assoc.
  rewrite (lor_shiftl_add b1 104 16), (lor_shiftl_add b2 _ 32), (lor_shiftl_add 0x89 _ 40), (lor_shiftl_add 0 _ 48), (lor_shiftl_add b3 _ 56) by lia.
  eexists _, _. split; [rewrite list_lookup_insert_ne by done; apply list_lookup_insert_eq; change (5 < length gdt)%nat; lia|].
  split; [apply list_lookup_insert_eq; rewrite length_insert; change (6 < length gdt)%nat; lia|].
  split; [intros i H5 H6; rewrite !list_lookup_insert_ne; [done|change (5%nat <> i); lia|change (6%nat <> i); lia]|].
  unfold descriptor_base, descriptor_access, descriptor_limit, sizeof_tss_t. rewrite He. clear He Ha Hl.
  repeat split; Z.div_mod_to_equations; lia.
Qed.

Lemma load_tss_descriptor_witness :
  exists low high, load_tss 0xFFFFFFFF80123456 (replicate 8 1) !! 5%nat = Some low /\
    load_tss 0xFFFFFFFF80123456 (replicate 8 1) !! 6%nat = Some high /\ descriptor_base low high = 0xFFFFFFFF80123456.
Proof.
  destruct (load_tss_descriptor 0xFFFFFFFF80123456 (replicate 8 1)) as (low & high & Hlow & Hhigh & _ & Hbase & _).
  - lia.
  - simpl. lia.
  - exists low, high. split; [exact Hlow|]. split; [exact Hhigh|exact Hbase].
Defined.
