(* ===== verification/Acpi.v ===== *)
(** The tables of the firmware: [cpu/acpi.c] and [cpu/madt.c]. The tables are bytes of
    the memory at their addresses in the higher half. *)
From S2P Require Import Prelude VmmUtil Mmap Bitmap Pmm Kheap Paging Boot CString Bytes.

Definition RSDT_V1 : Z := 14.
Definition RSDT_V2 : Z := 15.
Definition sizeof_ACPISDTHeader : Z := 36.
Definition sizeof_MADT : Z := 44.
Definition sizeof_MADT_Item : Z := 2.
Definition MADT_IO_APIC : Z := 1.
Definition MADT_IO_APIC_INTERRUPT_SOURCE_OVERRIDE : Z := 2.

(** [madt_id] is the address of the string [MADT_ID]. *)
Record acpi_state : Type := mk_acpi {
  acpi_vm : vm_state pmm_state;
  acpi_memory : memory;
  rsdt_root : Z;
  xsdt_root : Z;
  rsdtTablesTotal : Z;
  sdt_version : Z;
  madt_base : Z;
  is_madt_mapped : bool;
  madt_id : Z;
}.
Definition set_acpi_vm (v : vm_state pmm_state) (s : acpi_state) : acpi_state :=
  mk_acpi v s.(acpi_memory) s.(rsdt_root) s.(xsdt_root) s.(rsdtTablesTotal) s.(sdt_version) s.(madt_base) s.(is_madt_mapped) s.(madt_id).
Definition set_acpi_memory (m : memory) (s : acpi_state) : acpi_state :=
  mk_acpi s.(acpi_vm) m s.(rsdt_root) s.(xsdt_root) s.(rsdtTablesTotal) s.(sdt_version) s.(madt_base) s.(is_madt_mapped) s.(madt_id).
Definition set_roots (r x : Z) (s : acpi_state) : acpi_state :=
  mk_acpi s.(acpi_vm) s.(acpi_memory) r x s.(rsdtTablesTotal) s.(sdt_version) s.(madt_base) s.(is_madt_mapped) s.(madt_id).
Definition set_tables_total (n : Z) (s : acpi_state) : acpi_state :=
  mk_acpi s.(acpi_vm) s.(acpi_memory) s.(rsdt_root) s.(xsdt_root) n s.(sdt_version) s.(madt_base) s.(is_madt_mapped) s.(madt_id).
Definition set_sdt_version (v : Z) (s : acpi_state) : acpi_state :=
  mk_acpi s.(acpi_vm) s.(acpi_memory) s.(rsdt_root) s.(xsdt_root) s.(rsdtTablesTotal) v s.(madt_base) s.(is_madt_mapped) s.(madt_id).
Definition set_madt_base (b : Z) (s : acpi_state) : acpi_state :=
  mk_acpi s.(acpi_vm) s.(acpi_memory) s.(rsdt_root) s.(xsdt_root) s.(rsdtTablesTotal) s.(sdt_version) b true s.(madt_id).

Section Tables.
Context `{PageConfig}.

Definition on_vm {A} (m : M (vm_state pmm_state) A) : M acpi_state A := zoom acpi_vm set_acpi_vm m.
Definition on_memory {A} (m : M memory A) : M acpi_state A := zoom acpi_memory set_acpi_memory m.
Definition reserve_address (a : Z) : M acpi_state unit :=
  on_vm (in_frames (in_bitmap (_bitmap_set_bit_from_address a))).
Definition map_table_page (physical virtual : Z) : M acpi_state unit :=
  do! on_vm (map_phys_to_virt_addr physical virtual (Z.lor VMM_FLAGS_PRESENT VMM_FLAGS_WRITE_ENABLE)) in ret tt.
Definition hh (address : Z) : Z := ensure_address_in_higher_half address VM_TYPE_MMIO.

(** [header.Length] of a table. *)
Definition sdt_length (table : Z) : M acpi_state Z := on_memory (load_le 4 (table + 4)).

Definition parse_RSDT (descriptor : Z) : M acpi_state unit :=
  let! RsdtAddress := on_memory (load_le 4 (descriptor + 16)) in
  do! reserve_address (ALIGN_PHYSADDRESS RsdtAddress) in
  do! modify (fun s => set_roots (hh RsdtAddress) s.(xsdt_root) s) in
  do! map_table_page (ALIGN_PHYSADDRESS RsdtAddress) (hh RsdtAddress) in
  let! Length := sdt_length (hh RsdtAddress) in
  do! modify (set_sdt_version RSDT_V1) in
  let required_extra_pages := Length / KERNEL_PAGE_SIZE + 1 in
  do! for_from (Z.to_nat (required_extra_pages - 1)) 1 (fun j =>
        let new_physical_address := u64 (RsdtAddress + j * KERNEL_PAGE_SIZE) in
        do! map_table_page (ALIGN_PHYSADDRESS new_physical_address) (hh new_physical_address) in
        reserve_address (ALIGN_PHYSADDRESS new_physical_address)) in
  let total := u32 (u64 (Length - sizeof_ACPISDTHeader) / 4) in
  do! modify (set_tables_total total) in
  for_upto total (fun i =>
    let! table := on_memory (load_le 4 (hh RsdtAddress + sizeof_ACPISDTHeader + 4 * i)) in
    map_table_page (ALIGN_PHYSADDRESS table) (hh table)).

Definition parse_RSDTv2 (descriptor : Z) : M acpi_state unit :=
  let! XsdtAddress := on_memory (load_le 8 (descriptor + 24)) in
  do! map_table_page (ALIGN_PHYSADDRESS XsdtAddress) (hh XsdtAddress) in
  do! reserve_address (ALIGN_PHYSADDRESS XsdtAddress) in
  do! modify (fun s => set_roots s.(rsdt_root) (hh XsdtAddress) s) in
  let! Length := sdt_length (hh XsdtAddress) in
  do! modify (set_sdt_version RSDT_V2) in
  let required_extra_pages := Length / KERNEL_PAGE_SIZE + 1 in
  do! for_from (Z.to_nat (required_extra_pages - 1)) 1 (fun j =>
        let new_physical_address := u64 (XsdtAddress + j * KERNEL_PAGE_SIZE) in
        do! map_table_page new_physical_address (hh new_physical_address) in
        reserve_address (ALIGN_PHYSADDRESS new_physical_address)) in
  let total := u32 (u64 (Length - sizeof_ACPISDTHeader) / 8) in
  do! modify (set_tables_total total) in
  for_upto total (fun i =>
    let! table := on_memory (load_le 8 (hh XsdtAddress + sizeof_ACPISDTHeader + 8 * i)) in
    do! map_table_page (ALIGN_PHYSADDRESS table) (hh table) in
    reserve_address (ALIGN_PHYSADDRESS table)).

Definition parse_SDT (address type : Z) : M acpi_state unit :=
  if type =? RSDT_V1 then parse_RSDT address
  else if type =? RSDT_V2 then parse_RSDTv2 address
  else ret tt.

(** The loop of [get_SDT_item]: [n] tables are left. *)
Fixpoint get_SDT_item_loop (n : nat) (i table_name : Z) : M acpi_state Z :=
  match n with
  | O => ret 0
  | S n' =>
      let! s := get in
      let table :=
        if s.(sdt_version) =? RSDT_V1 then load_le 4 (s.(rsdt_root) + sizeof_ACPISDTHeader + 4 * i)
        else if s.(sdt_version) =? RSDT_V2 then load_le 8 (s.(xsdt_root) + sizeof_ACPISDTHeader + 8 * i)
        else throw Halted in
      let! table := on_memory table in
      let tableItem := hh table in
      let! return_value := on_memory (strncmp table_name tableItem 4) in
      if return_value =? 0 then ret tableItem else get_SDT_item_loop n' (i + 1) table_name
  end.
Definition get_SDT_item (table_name : Z) : M acpi_state Z :=
  let! s := get in
  if ((s.(sdt_version) =? RSDT_V1) && (s.(rsdt_root) =? 0)) || ((s.(sdt_version) =? RSDT_V2) && (s.(xsdt_root) =? 0))
  then ret 0
  else get_SDT_item_loop (Z.to_nat s.(rsdtTablesTotal)) 0 table_name.

(** [char] is signed. *)
Fixpoint sum_chars (n : nat) (descriptor sum : Z) : M memory Z :=
  match n with
  | O => ret sum
  | S n' => let! c := load descriptor in sum_chars n' (descriptor + 1) (u32 (sum + i8 c))
  end.
Definition validate_SDT (descriptor size : Z) : M memory bool :=
  let! sum := sum_chars (Z.to_nat size) descriptor 0 in
  ret (Z.land sum 0xFF =? 0).

(** ** The table of interrupt controllers *)

Definition map_madt (table : Z) : M acpi_state unit :=
  let! s := get in
  let! c := on_memory (strncmp table s.(madt_id) 4) in
  if negb (c =? 0) then ret tt
  else
    let madt_address := u64 (table + sizeof_MADT) in
    do! map_table_page (ALIGN_PHYSADDRESS madt_address) (hh madt_address) in
    do! reserve_address (ALIGN_PHYSADDRESS madt_address) in
    modify (set_madt_base (hh madt_address)).

(** The loop of [get_MADT_item]. An item is a byte long at least when the table is
    well formed, so that its length bounds the rounds. *)
Fixpoint get_MADT_item_loop (fuel : nat) (base length type offset total_length counter : Z) : M memory Z :=
  match fuel with
  | O => diverge
  | S fuel' =>
      if (total_length + sizeof_MADT <? length) && (counter <=? offset) then
        let item := u64 (base + total_length) in
        let! item_type := load item in
        if (item_type =? type) && (counter =? offset) then ret item
        else
          let! item_length := load (item + 1) in
          get_MADT_item_loop fuel' base length type offset (u64 (total_length + item_length))
            (if item_type =? type then u8 (counter + 1) else counter)
      else ret 0
  end.
Definition get_MADT_item (table type offset : Z) : M acpi_state Z :=
  let! s := get in
  do! (if s.(madt_base) =? 0 then map_madt table else ret tt) in
  let! c := on_memory (strncmp table s.(madt_id) 4) in
  if negb (c =? 0) then ret 0
  else
    let! base := gets madt_base in
    let! length := sdt_length table in
    on_memory (get_MADT_item_loop (S (Z.to_nat length)) base length type offset 0 0).

(** [print_madt_table] only goes over the items. *)
Fixpoint madt_items_loop (fuel : nat) (base length total_length : Z) : M memory unit :=
  match fuel with
  | O => diverge
  | S fuel' =>
      if total_length + sizeof_MADT <? length then
        let! item_length := load (u64 (base + total_length) + 1) in
        madt_items_loop fuel' base length (u32 (total_length + item_length))
      else ret tt
  end.
Definition print_madt_table (table : Z) : M acpi_state unit :=
  let! s := get in
  do! (if s.(madt_base) =? 0 then map_madt table else ret tt) in
  let! base := gets madt_base in
  let! length := sdt_length table in
  on_memory (madt_items_loop (S (Z.to_nat length)) base length 0).
End Tables.

(** ** Finding an item *)

(** Items laid out one after the other: type and length. *)
Fixpoint items_at (m : memory) (a : Z) (items : list (Z * Z)) : Prop :=
  match items with
  | [] => True
  | (ty, len) :: items' => m !! a = Some ty /\ m !! (a + 1) = Some len /\ 2 <= len < 256 /\ items_at m (a + len) items'
  end.
Definition items_length (items : list (Z * Z)) : Z := foldr (fun i n => snd i + n) 0 items.

(** The address of the [n]-th item of a type, counted from 0; 0 when there is none. *)
Fixpoint nth_item (a : Z) (items : list (Z * Z)) (type : Z) (n : nat) : Z :=
  match items with
  | [] => 0
  | (ty, len) :: items' =>
      if ty =? type then match n with O => a | S n' => nth_item (a + len) items' type n' end
      else nth_item (a + len) items' type n
  end.

Lemma items_length_nonneg m items : forall a, items_at m a items -> 0 <= items_length items.
Proof. induction items as [|[ty len] items IH]; intros a Hi; [done|]. destruct Hi as (_ & _ & Hl & Hi). apply IH in Hi. simpl. lia. Qed.

Lemma get_MADT_item_loop_run m items : forall base length type offset total counter fuel,
  items_at m (base + total) items -> 0 <= base -> 0 <= total -> base + total + items_length items < 2 ^ 64 ->
  length = total + items_length items + sizeof_MADT -> 0 <= counter <= offset -> offset < 256 ->
  (Z.to_nat (items_length items) < fuel)%nat ->
  get_MADT_item_loop fuel base length type offset total counter m =
    Ret (nth_item (base + total) items type (Z.to_nat (offset - counter)), m).
Proof.
  induction items as [|[ty len] items IH]; intros base length type offset total counter fuel Hi Hb Ht Hw Hl Hc Ho Hf;
    (destruct fuel as [|fuel]; [lia|]); cbn [get_MADT_item_loop].
  - simpl in Hl. destruct (Z.ltb_spec (total + sizeof_MADT) length); [lia|]. done.
  - destruct Hi as (Hty & Hlen & Hr & Hi). pose proof (items_length_nonneg m items _ Hi) as Hn.
    cbn [items_length foldr snd] in *. fold (items_length items) in *.
    destruct (Z.ltb_spec (total + sizeof_MADT) length); [|lia]. destruct (Z.leb_spec counter offset); [|lia]. cbn [andb].
    cbv zeta. rewrite u64_small by lia. rewrite (bind_run _ _ _ _ _ (load_run _ _ _ Hty)).
    assert (items_at m (base + (total + len)) items) as Hi' by (by rewrite Z.add_assoc).
    destruct (Z.eqb_spec ty type) as [->|Hne]; cbn [andb].
    + destruct (Z.eqb_spec counter offset) as [->|Hne].
      * rewrite Z.sub_diag. simpl. by rewrite Z.eqb_refl.
      * rewrite (bind_run _ _ _ _ _ (load_run _ _ _ Hlen)). rewrite u64_small, u8_small by lia.
        rewrite (IH base length type offset (total + len) (counter + 1) fuel) by (lia || done).
        cbn [nth_item]. rewrite Z.eqb_refl. replace (Z.to_nat (offset - counter)) with (S (Z.to_nat (offset - (counter + 1)))) by lia.
        by rewrite Z.add_assoc.
    + rewrite (bind_run _ _ _ _ _ (load_run _ _ _ Hlen)). rewrite u64_small by lia.
      rewrite (IH base length type offset (total + len) counter fuel) by (lia || done).
      cbn [nth_item]. destruct (Z.eqb_spec ty type); [done|]. by rewrite Z.add_assoc.
Qed.

(** C34: [get_MADT_item] on a mapped table whose items are each at least two bytes
    long: it gives the address of the item of the type asked for at the position asked
    for, and 0 when the table has fewer of them. It always returns. *)
Theorem get_MADT_item_finds `{PageConfig} (s : acpi_state) table items type offset :
  s.(madt_base) <> 0 -> strncmp table s.(madt_id) 4 s.(acpi_memory) = Ret (0, s.(acpi_memory)) ->
  read_le 4 s.(acpi_memory) (table + 4) = Some (items_length items + sizeof_MADT) ->
  items_at s.(acpi_memory) s.(madt_base) items -> 0 <= s.(madt_base) -> s.(madt_base) + items_length items < 2 ^ 64 ->
  0 <= offset < 256 ->
  get_MADT_item table type offset s = Ret (nth_item s.(madt_base) items type (Z.to_nat offset), s).
Proof.
  intros Hb Hsig Hlen Hi H0 Hw Ho. unfold get_MADT_item. rewrite (bind_run _ _ _ _ _ (eq_refl : get s = Ret (s, s))).
  destruct (Z.eqb_spec s.(madt_base) 0); [done|]. rewrite (bind_run _ _ _ tt s) by done.
  assert (forall {A} (m : M memory A) a, m s.(acpi_memory) = Ret (a, s.(acpi_memory)) -> on_memory m s = Ret (a, s)) as Hon.
  { intros A mm a Hm. unfold on_memory, zoom. rewrite Hm. by destruct s. }
  rewrite (bind_run _ _ _ _ _ (Hon _ _ _ Hsig)). change (negb (0 =? 0)) with false. cbv iota.
  rewrite (bind_run _ _ _ _ _ (eq_refl : gets madt_base s = Ret (_, s))).
  rewrite (bind_run _ _ _ _ _ (Hon _ _ _ (load_le_run 4 _ _ _ Hlen))). apply Hon.
  rewrite (get_MADT_item_loop_run _ items) by (rewrite ?Z.add_0_r; try done; unfold sizeof_MADT; lia).
  by rewrite Z.add_0_r, Z.sub_0_r.
Qed.

(** A table with a local APIC, an I/O APIC and two overrides. *)
Definition madt_bytes : list Z :=
  [65; 80; 73; 67; 84; 0; 0; 0] ++ repeat 0 36 ++
  [0; 8; 0; 0; 0; 0; 0; 0] ++ [1; 12; 0; 0; 0; 0; 0xC0; 0xFE; 0; 0; 0; 0] ++
  [2; 10; 0; 0; 2; 0; 0; 0; 0; 0] ++ [2; 10; 0; 9; 9; 0; 0; 0; 0; 0].
Definition madt_memory : memory :=
  list_to_map (zip (seqZ 0x2000 84) madt_bytes) ∪ list_to_map (zip (seqZ 0x100 5) [65; 80; 73; 67; 0]).
Definition sample_acpi : acpi_state :=
  mk_acpi sample_vm madt_memory 0 0 0 RSDT_V2 0x202C true 0x100.
Definition madt_items : list (Z * Z) := [(0, 8); (1, 12); (2, 10); (2, 10)].

Lemma madt_items_at : items_at madt_memory 0x202C madt_items.
Proof. repeat split; try lia; vm_compute; reflexivity. Qed.
Lemma madt_signature : strncmp 0x2000 0x100 4 madt_memory = Ret (0, madt_memory).
Proof. vm_compute. reflexivity. Qed.
Lemma madt_length : read_le 4 madt_memory (0x2000 + 4) = Some (items_length madt_items + sizeof_MADT).
Proof. vm_compute. reflexivity. Qed.

(** The second override, and none at position 2. *)
Lemma get_MADT_item_finds_witness :
  @get_MADT_item large_pages 0x2000 2 1 sample_acpi = Ret (0x204A, sample_acpi).
Proof.
  apply (@get_MADT_item_finds large_pages sample_acpi 0x2000 madt_items 2 1);
    [discriminate|exact madt_signature|exact madt_length|exact madt_items_at|simpl; lia|simpl; lia|lia].
Defined.

(** An item of length 0 keeps the loop where it is. *)
Lemma get_MADT_item_loop_stuck m base length type offset total counter fuel :
  (total + sizeof_MADT <? length) && (counter <=? offset) = true -> 0 <= total < 2 ^ 64 ->
  m !! u64 (base + total) <> Some type -> is_Some (m !! u64 (base + total)) -> m !! (u64 (base + total) + 1) = Some 0 ->
  get_MADT_item_loop fuel base length type offset total counter m = Diverge.
Proof.
  intros Hc Ht Hne [ty Hty] Hz. induction fuel as [|fuel IH]; [done|]. cbn [get_MADT_item_loop]. rewrite Hc. cbv zeta.
  rewrite (bind_run _ _ _ _ _ (load_run _ _ _ Hty)). destruct (Z.eqb_spec ty type) as [->|_]; [done|]. cbn [andb].
  rewrite (bind_run _ _ _ _ _ (load_run _ _ _ Hz)). by rewrite Z.add_0_r, u64_small.
Qed.
