(* ===== verification/Start.v ===== *)
(** The start of the kernel: [_init_basic_system] of [kernel/main.c], over the state
    of the parts it sets up, and the tests of a boot module of [utils/utils.c]. A
    theorem says which modules the walk over the tags keeps. *)
From S2P Require Import Prelude VmmUtil Mmap Bitmap Pmm Paging Boot Vmm CString Numbers Bytes Window Framebuffer Elf Acpi.

Definition USTAR_START_BYTE : Z := 257.
Definition USTAR_SIZE : Z := 5.
Definition MULTIBOOT_TAG_TYPE_ACPI_OLD : Z := 14.
Definition MULTIBOOT_TAG_TYPE_ACPI_NEW : Z := 15.
Definition sizeof_multiboot_tag : Z := 8.
Definition sizeof_RSDPDescriptor : Z := 20.
Definition sizeof_RSDPDescriptor20 : Z := 36.

(** What the boot code leaves pointers to: the fields of the tags for memory, memory
    map, framebuffer and ACPI that [_init_basic_system] reads. *)
Record boot_info : Type := mk_boot_info {
  mem_upper : Z;
  info_mmap : multiboot_tag_mmap;
  framebuffer_addr : Z;
  framebuffer_pitch : Z;
  framebuffer_width : Z;
  framebuffer_height : Z;
  framebuffer_bpp : Z;
  acpi_tag : Z;
  acpi_tag_type : Z;
}.

(** [p4_table] is the address of the boot page table, [ustar_id] that of the string
    [USTAR_ID]; [raw_bitmap] the memory the bitmap is put in. *)
Record linked : Type := mk_linked {
  kernel_end : Z;
  kernel_physical_end : Z;
  p4_table : Z;
  ustar_id : Z;
  raw_bitmap : list Z;
}.

Section Start.
Context `{PageConfig}.

(** The parts, with the modules found. The tables of the firmware have the page
    tables and the memory of the rest, and the screen has that memory. *)
Record boot_state : Type := mk_boot {
  bt_vmm : vmm_state pmm_state;
  bt_memory : memory;
  bt_screen : fb_state;
  bt_acpi : acpi_state;
  bt_uptime : Z;
  elf_module : Z;
  tar_module : Z;
  tar_module_start_hh : Z;
}.
Definition set_bt_vmm (v : vmm_state pmm_state) (s : boot_state) : boot_state :=
  mk_boot v s.(bt_memory) s.(bt_screen) s.(bt_acpi) s.(bt_uptime) s.(elf_module) s.(tar_module) s.(tar_module_start_hh).
Definition set_bt_memory (m : memory) (s : boot_state) : boot_state :=
  mk_boot s.(bt_vmm) m s.(bt_screen) s.(bt_acpi) s.(bt_uptime) s.(elf_module) s.(tar_module) s.(tar_module_start_hh).
Definition set_bt_screen (f : fb_state) (s : boot_state) : boot_state :=
  mk_boot s.(bt_vmm) s.(bt_memory) f s.(bt_acpi) s.(bt_uptime) s.(elf_module) s.(tar_module) s.(tar_module_start_hh).
Definition set_bt_acpi (a : acpi_state) (s : boot_state) : boot_state :=
  mk_boot s.(bt_vmm) s.(bt_memory) s.(bt_screen) a s.(bt_uptime) s.(elf_module) s.(tar_module) s.(tar_module_start_hh).
Definition set_bt_uptime (u : Z) (s : boot_state) : boot_state :=
  mk_boot s.(bt_vmm) s.(bt_memory) s.(bt_screen) s.(bt_acpi) u s.(elf_module) s.(tar_module) s.(tar_module_start_hh).
Definition set_modules (elf tar tar_start : Z) (s : boot_state) : boot_state :=
  mk_boot s.(bt_vmm) s.(bt_memory) s.(bt_screen) s.(bt_acpi) s.(bt_uptime) elf tar tar_start.

Definition bt_in_vmm {A} (m : M (vmm_state pmm_state) A) : M boot_state A := zoom bt_vmm set_bt_vmm m.
Definition bt_in_vm {A} (m : M (vm_state pmm_state) A) : M boot_state A := bt_in_vmm (in_vm m).
Definition bt_in_mmap {A} (m : M mmap_state A) : M boot_state A := bt_in_vm (in_frames (in_mmap m)).
Definition bt_in_memory {A} (m : M memory A) : M boot_state A := zoom bt_memory set_bt_memory m.
Definition bt_in_screen {A} (m : M fb_state A) : M boot_state A :=
  zoom (fun s => set_fb_memory s.(bt_memory) s.(bt_screen)) (fun f s => set_bt_memory f.(fb_memory) (set_bt_screen f s)) m.
Definition bt_in_acpi {A} (m : M acpi_state A) : M boot_state A :=
  zoom (fun s => set_acpi_vm s.(bt_vmm).(vmm_vm) (set_acpi_memory s.(bt_memory) s.(bt_acpi)))
    (fun a s => set_bt_vmm (set_vmm_vm a.(acpi_vm) s.(bt_vmm)) (set_bt_memory a.(acpi_memory) (set_bt_acpi a s))) m.

(** ** Boot modules *)

(** The loop over the magic number. *)
Fixpoint magic_matches (start i : Z) (magic : list Z) : M memory bool :=
  match magic with
  | [] => ret true
  | b :: magic' =>
      let! c := load (start + i) in
      if c =? b then magic_matches start (i + 1) magic' else ret false
  end.

Definition _is_module_elf_hh (loaded_module : multiboot_tag) : M boot_state bool :=
  let module_phys_start := loaded_module.(mod_start) in
  let module_size := u64 (loaded_module.(mod_end) - module_phys_start) in
  let! module_hh_start := bt_in_vm (vm_hhdm_get_variable module_phys_start) in
  let! _is_elf := bt_in_memory (magic_matches module_hh_start 0 _elf_header_mag) in
  if _is_elf then do! bt_in_memory (load_elf module_hh_start module_size) in ret true
  else ret false.

Definition _is_module_tar_hh (l : linked) (loaded_module : multiboot_tag) : M boot_state bool :=
  let! module_hh_start := bt_in_vm (vm_hhdm_get_variable loaded_module.(mod_start)) in
  let! result := bt_in_memory (strncmp (module_hh_start + USTAR_START_BYTE) l.(ustar_id) USTAR_SIZE) in
  ret (result =? 0).

(** The body of the loop of [_init_basic_system] over the tags, for the one at [tag]. *)
Definition take_module (l : linked) (tag : Z) (t : multiboot_tag) : M boot_state unit :=
  if t.(tag_type) =? MULTIBOOT_TAG_TYPE_MODULE then
    let! elf := _is_module_elf_hh t in
    if elf then modify (fun s => set_modules tag s.(tar_module) s.(tar_module_start_hh) s)
    else
      let! tar := _is_module_tar_hh l t in
      if tar then
        let! start := bt_in_vm (vm_hhdm_get_variable t.(mod_start)) in
        modify (fun s => set_modules s.(elf_module) tag start s)
      else ret tt
  else ret tt.

Fixpoint tags_loop (fuel : nat) (l : linked) (tag : Z) : M boot_state Z :=
  match fuel with
  | O => diverge
  | S fuel' =>
      let! mm := bt_in_mmap get in
      let! t := lift_opt OutOfBounds (mm.(boot_tags) !! tag) in
      if t.(tag_type) =? MULTIBOOT_TAG_TYPE_END then ret tag
      else do! take_module l tag t in tags_loop fuel' l (u64 (tag + tag_stride t.(tag_size)))
  end.

Definition set_tag_start (a : Z) (s : mmap_state) : mmap_state :=
  mk_mmap s.(mmap_number_of_entries) s.(mmap_entries) s.(count_physical_reserved) s.(_mmap_last_available_item)
    s.(_mmap_phys_memory_avail) s.(multiboot_tag_start) s.(multiboot_tag_end) a s.(boot_tags).
Definition set_tag_end (a : Z) (s : mmap_state) : mmap_state :=
  mk_mmap s.(mmap_number_of_entries) s.(mmap_entries) s.(count_physical_reserved) s.(_mmap_last_available_item)
    s.(_mmap_phys_memory_avail) s.(multiboot_tag_start) a s.(tag_start) s.(boot_tags).

(** The walk from the first tag on, whose end is left in [multiboot_tag_end]. A walk
    over more tags than there are has met one twice. *)
Definition find_modules (l : linked) (first : Z) : M boot_state unit :=
  let! mm := bt_in_mmap get in
  let! e := tags_loop (S (base.size mm.(boot_tags))) l first in
  bt_in_mmap (modify (set_tag_end e)).

(** ** Setting up *)

(** [(tagmem->mem_upper + 1024) * 1024], in the 32 bits of the field. *)
Definition boot_memory_size (upper : Z) : Z := u32 (u32 (upper + 1024) * 1024).
Definition set_memory_size (n : Z) (v : vm_state pmm_state) : vm_state pmm_state :=
  let b := v.(frames).(pmm_bitmap) in
  mk_vm (set_pmm_bitmap (mk_bitmap b.(memory_map) b.(memory_map_addr) b.(number_of_entries) b.(bitmap_size) b.(used_frames)
           b.(memory_map_phys_addr) n b.(higherHalfDirectMapBase) b.(bm_mmap)) v.(frames))
    v.(phys) n v.(hhdm_base) v.(kernel_root) v.(cr3) v.(end_of_mapped_memory).
Definition set_kernel_root (r : Z) (v : vm_state pmm_state) : vm_state pmm_state :=
  mk_vm v.(frames) v.(phys) v.(vm_memory_size) v.(hhdm_base) r v.(cr3) v.(end_of_mapped_memory).

(** What is done with the descriptor that follows the tag. *)
Definition init_acpi_tag (info : boot_info) : M boot_state unit :=
  let descriptor := u64 (info.(acpi_tag) + sizeof_multiboot_tag) in
  if info.(acpi_tag_type) =? MULTIBOOT_TAG_TYPE_ACPI_OLD then
    do! bt_in_acpi (parse_SDT descriptor MULTIBOOT_TAG_TYPE_ACPI_OLD) in
    let! _ := bt_in_memory (validate_SDT descriptor sizeof_RSDPDescriptor) in ret tt
  else if info.(acpi_tag_type) =? MULTIBOOT_TAG_TYPE_ACPI_NEW then
    do! bt_in_acpi (parse_SDT descriptor MULTIBOOT_TAG_TYPE_ACPI_NEW) in
    let! _ := bt_in_memory (validate_SDT descriptor sizeof_RSDPDescriptor20) in ret tt
  else ret tt.

Definition set_console_size (columns lines : Z) (f : fb_state) : fb_state :=
  let i := f.(framebuffer_data) in
  set_fb_info (mk_fb_info i.(address) i.(bpp) i.(pitch) i.(memory_size) i.(fb_width) i.(fb_height) lines columns i.(phys_address))
    f.(framebuffer_main_window) f.

Definition _init_basic_system (l : linked) (info : boot_info) (addr : Z) : M boot_state unit :=
  let first := u64 (addr + _HIGHER_HALF_KERNEL_MEM_START + 8) in
  do! bt_in_vm (modify (set_memory_size (boot_memory_size info.(mem_upper)))) in
  do! bt_in_mmap (modify (set_tag_start first)) in
  do! bt_in_mmap (_mmap_parse info.(info_mmap)) in
  do! bt_in_vm (pmm_setup l.(kernel_end) l.(kernel_physical_end) l.(raw_bitmap)) in
  do! modify (set_bt_uptime 0) in
  let! root := bt_in_vm (vm_hhdm_get_variable (u64 (l.(p4_table) - _HIGHER_HALF_KERNEL_MEM_START))) in
  do! bt_in_vm (modify (set_kernel_root root)) in
  do! bt_in_vmm (vmm_init VMM_LEVEL_SUPERVISOR 0) in
  do! zoom (fun s => (s.(bt_vmm).(vmm_vm), s.(bt_screen)))
        (fun p s => set_bt_vmm (set_vmm_vm (fst p) s.(bt_vmm)) (set_bt_screen (snd p) s))
        (set_fb_data info.(framebuffer_addr) info.(framebuffer_pitch) info.(framebuffer_width) info.(framebuffer_height) info.(framebuffer_bpp)) in
  let! mode := bt_in_screen get_framebuffer_mode in
  let '(_, _, cw, ch) := mode in
  do! bt_in_screen (modify (set_console_size cw ch)) in
  do! init_acpi_tag info in
  do! bt_in_mmap (modify (set_tag_start first)) in
  find_modules l first.
End Start.

(** ** Reading a module *)

Section Modules.
Implicit Types (m : memory) (a : Z).

(** The header of a program at [a] and its table of program headers are in memory. *)
Definition elf_readable m a : Prop :=
  present m a 64 /\ forall h, load_ehdr a m = Ret (h, m) ->
    0 <= h.(e_phnum) /\ 0 < a + h.(e_phoff) /\ a + h.(e_phoff) + 56 * h.(e_phnum) < 2 ^ 64 /\
    present m (a + h.(e_phoff)) (56 * h.(e_phnum)).

Lemma loop_phdrs_reads m e h base (n : nat) : forall i r,
  0 <= i -> base = e + h.(e_phoff) -> 0 < base -> base + 56 * (i + Z.of_nat n) < 2 ^ 64 -> present m base (56 * (i + Z.of_nat n)) ->
  reads (loop_phdrs_from n e h i r) m.
Proof.
  induction n as [|n IH]; intros i r Hi Hb H0 Hmax Hm; cbn [loop_phdrs_from]; [apply reads_ret|].
  apply reads_bind.
  - unfold phdr_address, sizeof_Elf64_Phdr. rewrite <- Hb, u64_small by lia. apply (load_phdr_reads m _ base (56 * (i + Z.of_nat (S n)))); [done|lia|lia].
  - intros p _. apply IH; [lia|done|done| |]; replace (i + 1 + Z.of_nat n) with (i + Z.of_nat (S n)) by lia; done.
Qed.

(** [load_elf] reads the headers and nothing else. *)
Lemma load_elf_run m a size : elf_readable m a -> load_elf a size m = Ret (tt, m).
Proof.
  intros [Hm Hh]. destruct (load_ehdr_reads m a Hm) as [h Eh]. destruct (Hh h Eh) as (Hn & H0 & Hmax & Hp).
  assert (reads (load_elf a size) m) as [[] E]; [|exact E]. unfold load_elf.
  apply reads_bind.
  { unfold parse_section_header. apply reads_bind; [by exists h|]. intros h' _. by repeat case_match; apply reads_ret. }
  intros [] _; [|apply reads_ret]. apply reads_bind; [by exists h|]. intros h' E'. rewrite Eh in E'. injection E' as <-.
  assert (forall i, phdr_address a h i = u64 (a + h.(e_phoff) + 56 * i)) as Haddr by done.
  apply reads_bind.
  { unfold loop_phdrs. apply reads_bind; [by exists h|]. intros h' E'. rewrite Eh in E'. injection E' as <-.
    apply (loop_phdrs_reads m a h (a + h.(e_phoff))); rewrite ?Z2Nat.id, ?Z.add_0_l by done; done. }
  intros r Er. destruct (Z.ltb_spec 0 r) as [Hr|]; [|apply reads_ret].
  assert (0 < h.(e_phnum)) as Hpos.
  { destruct (decide (h.(e_phnum) = 0)) as [E0|]; [|lia]. unfold loop_phdrs in Er. rewrite (bind_run _ _ _ _ _ Eh), E0 in Er.
    cbn in Er. injection Er as <-. lia. }
  unfold read_phdr. apply reads_bind.
  { apply reads_bind; [by exists h|]. intros h' _. case_match; apply reads_ret. }
  intros cur Ecur. rewrite (bind_run _ _ _ _ _ Eh) in Ecur. destruct (Z.ltb_spec 0 h.(e_phnum)); [|lia]. injection Ecur as <-.
  rewrite Haddr, Z.mul_0_r, Z.add_0_r, u64_small by lia. destruct (Z.eqb_spec (a + h.(e_phoff)) 0); [lia|].
  apply reads_bind; [apply reads_ret|]. intros _ _.
  apply reads_bind; [apply (load_phdr_reads m _ (a + h.(e_phoff)) (56 * h.(e_phnum))); [done|lia|lia]|]. intros _ _.
  apply reads_bind; [|intros; apply reads_ret]. apply reads_bind; [by exists h|]. intros h' _. case_match; apply reads_ret.
Qed.

(** ** What a module is *)

(** The bytes of [l] are at [a]. *)
Fixpoint bytes_are m a (l : list Z) : bool :=
  match l with
  | [] => true
  | b :: l' => bool_decide (m !! a = Some b) && bytes_are m (a + 1) l'
  end.

Lemma magic_matches_run m start magic : forall i,
  present m (start + i) (Z.of_nat (length magic)) ->
  magic_matches start i magic m = Ret (bytes_are m (start + i) magic, m).
Proof.
  induction magic as [|b l IH]; intros i Hm; cbn [magic_matches bytes_are]; [done|]. cbn [length] in Hm.
  destruct (Hm 0 ltac:(lia)) as [c Hc]. rewrite Z.add_0_r in Hc. rewrite (bind_run _ _ _ _ _ (load_run m _ c Hc)), Hc.
  destruct (Z.eqb_spec c b) as [->|Hne].
  - rewrite IH; [|intros j Hj; replace (start + (i + 1) + j) with (start + i + (1 + j)) by lia; apply Hm; lia].
    rewrite bool_decide_eq_true_2 by done. cbn [andb]. by rewrite Z.add_assoc.
  - by rewrite bool_decide_eq_false_2 by congruence.
Qed.

Lemma strncmp_loop_bytes m l : forall a b, l <> [] -> Forall (fun c => c <> 0) l ->
  present m a (Z.of_nat (length l)) -> bytes_are m b l = true ->
  exists r, strncmp_loop (length l) a b m = Ret (r, m) /\ (r =? 0) = bytes_are m a l.
Proof.
  induction l as [|c l IH]; intros a b Hl Hz Hm Hb; [done|]. apply Forall_cons in Hz as [Hc Hz].
  cbn [bytes_are] in Hb. apply andb_prop in Hb as [Hbc Hb]. apply bool_decide_eq_true_1 in Hbc.
  destruct (Hm 0 ltac:(simpl; lia)) as [d Hd]. rewrite Z.add_0_r in Hd.
  assert (forall x, (let! c1 := load a in let! c2 := load b in ret (sign_of (c1 - c2))) m = Ret (x, m) <-> x = sign_of (d - c)) as Hcmp.
  { intros x. rewrite (bind_run _ _ _ _ _ (load_run m a d Hd)), (bind_run _ _ _ _ _ (load_run m b c Hbc)). split; [by intros [= <-]|by intros ->]. }
  assert ((sign_of (d - c) =? 0) = (d =? c)) as Hsign.
  { unfold sign_of. destruct (Z.ltb_spec (d - c) 0); [destruct (Z.eqb_spec d c); [lia|done]|].
    destruct (Z.ltb_spec 0 (d - c)); destruct (Z.eqb_spec d c); done || lia. }
  assert (bytes_are m a (c :: l) = (d =? c) && bytes_are m (a + 1) l) as Ea.
  { cbn [bytes_are]. rewrite Hd. f_equal. destruct (Z.eqb_spec d c) as [->|]; [by apply bool_decide_eq_true_2|apply bool_decide_eq_false_2; congruence]. }
  cbn [length strncmp_loop]. destruct l as [|c' l].
  - exists (sign_of (d - c)). split; [by apply Hcmp|]. rewrite Hsign, Ea. cbn [bytes_are]. by rewrite andb_true_r.
  - change (length (c' :: l)) with (S (length l)) at 1. cbv iota beta. rewrite (bind_run _ _ _ _ _ (load_run m a d Hd)).
    destruct (Z.eqb_spec d 0) as [Hd0|].
    + exists (sign_of (d - c)). split; [by apply Hcmp|]. rewrite Hsign, Ea. destruct (Z.eqb_spec d c); [congruence|done].
    + rewrite (bind_run _ _ _ _ _ (load_run m b c Hbc)). destruct (Z.eqb_spec d c) as [->|Hne].
      * rewrite Ea. apply IH; [done|done| |done]. intros i Hi. replace (a + 1 + i) with (a + (1 + i)) by lia. apply Hm. simpl in *. lia.
      * exists (sign_of (d - c)). split; [by apply Hcmp|]. rewrite Hsign, Ea. by destruct (Z.eqb_spec d c).
Qed.
End Modules.

(** ** The modules found *)

Inductive module_kind : Type := ElfModule | TarModule | OtherModule.
#[export] Instance module_kind_eq_dec : EqDecision module_kind.
Proof. solve_decision. Defined.

Definition str_ustar_id : list Z := [117; 115; 116; 97; 114].

Section Found.
Context `{PageConfig}.
Implicit Types (s : boot_state) (t : multiboot_tag).

(** Where a module is in the direct map, and what its first bytes say it is. *)
Definition module_start s t : Z :=
  hhdm_translate s.(bt_vmm).(vmm_vm).(vm_memory_size) s.(bt_vmm).(vmm_vm).(hhdm_base) t.(mod_start).
Definition kind_of s t : module_kind :=
  if t.(tag_type) =? MULTIBOOT_TAG_TYPE_MODULE then
    if bytes_are s.(bt_memory) (module_start s t) _elf_header_mag then ElfModule
    else if bytes_are s.(bt_memory) (module_start s t + USTAR_START_BYTE) str_ustar_id then TarModule
    else OtherModule
  else OtherModule.

(** The bytes of a module that are looked at are in memory. *)
Definition module_readable s t : Prop :=
  t.(tag_type) = MULTIBOOT_TAG_TYPE_MODULE ->
  present s.(bt_memory) (module_start s t) ELF_MAGIC_SIZE /\
  present s.(bt_memory) (module_start s t + USTAR_START_BYTE) USTAR_SIZE /\
  (kind_of s t = ElfModule -> elf_readable s.(bt_memory) (module_start s t)).

Definition boot_tags_of s : gmap Z multiboot_tag := s.(bt_vmm).(vmm_vm).(frames).(pmm_bitmap).(bm_mmap).(boot_tags).

(** The tags from [p] on, each with its address, and the address of the end tag. *)
Fixpoint tags_of (fuel : nat) (p : Z) (tags : gmap Z multiboot_tag) : option (list (Z * multiboot_tag) * Z) :=
  match fuel with
  | O => None
  | S fuel' =>
      match tags !! p with
      | None => None
      | Some t =>
          if t.(tag_type) =? MULTIBOOT_TAG_TYPE_END then Some ([], p)
          else option_map (fun r => ((p, t) :: fst r, snd r)) (tags_of fuel' (u64 (p + tag_stride t.(tag_size))) tags)
      end
  end.

(** The address of the last tag of a kind, or what was there before. *)
Definition last_of s (k : module_kind) (before : Z) (tags : list (Z * multiboot_tag)) : Z :=
  foldl (fun r x => if decide (kind_of s x.2 = k) then x.1 else r) before tags.
Definition last_start s (before : Z) (tags : list (Z * multiboot_tag)) : Z :=
  foldl (fun r x => if decide (kind_of s x.2 = TarModule) then module_start s x.2 else r) before tags.
Definition after_modules s (tags : list (Z * multiboot_tag)) : boot_state :=
  set_modules (last_of s ElfModule s.(elf_module) tags) (last_of s TarModule s.(tar_module) tags)
    (last_start s s.(tar_module_start_hh) tags) s.

Lemma bt_in_memory_read {A} (c : M memory A) s a : c s.(bt_memory) = Ret (a, s.(bt_memory)) -> bt_in_memory c s = Ret (a, s).
Proof. intros E. unfold bt_in_memory, zoom. rewrite E. by destruct s. Qed.
Lemma bt_in_vm_read {A} (c : M (vm_state pmm_state) A) s a :
  c s.(bt_vmm).(vmm_vm) = Ret (a, s.(bt_vmm).(vmm_vm)) -> bt_in_vm c s = Ret (a, s).
Proof. intros E. unfold bt_in_vm, bt_in_vmm, in_vm, zoom. rewrite E. by destruct s as [[]]. Qed.
Lemma bt_in_mmap_read s : bt_in_mmap get s = Ret (s.(bt_vmm).(vmm_vm).(frames).(pmm_bitmap).(bm_mmap), s).
Proof. by destruct s as [[[[[] ? ? ? ?]]]]. Qed.

Lemma present_prefix m a n k : present m a n -> k <= n -> present m a k.
Proof. intros Hm Hk i Hi. apply Hm. lia. Qed.

(** One tag. *)
Lemma take_module_run s l tag t :
  module_readable s t -> bytes_are s.(bt_memory) l.(ustar_id) str_ustar_id = true ->
  take_module l tag t s = Ret (tt, after_modules s [(tag, t)]).
Proof.
  intros Hm Hid. unfold take_module, after_modules, last_of, last_start. cbn [foldl fst snd].
  assert (forall s0, set_modules s0.(elf_module) s0.(tar_module) s0.(tar_module_start_hh) s0 = s0) as Hsame by by destruct s0.
  destruct (Z.eqb_spec t.(tag_type) MULTIBOOT_TAG_TYPE_MODULE) as [Et|Et].
  2:{ assert (kind_of s t = OtherModule) as Ek by (unfold kind_of; by apply Z.eqb_neq in Et as ->).
      rewrite Ek, !decide_False by done. by rewrite Hsame. }
  destruct (Hm Et) as (Hmag & Htar & Helf).
  assert (forall A (k : Z -> M boot_state A), (let! a := bt_in_vm (vm_hhdm_get_variable t.(mod_start)) in k a) s = k (module_start s t) s) as Hstart
    by (intros A k; by rewrite (bind_run _ _ _ _ _ (bt_in_vm_read _ s (module_start s t) eq_refl))).
  assert (_is_module_elf_hh t s = Ret (bytes_are s.(bt_memory) (module_start s t) _elf_header_mag, s)) as Eelf.
  { unfold _is_module_elf_hh. cbv zeta. rewrite Hstart.
    assert (magic_matches (module_start s t) 0 _elf_header_mag s.(bt_memory) =
      Ret (bytes_are s.(bt_memory) (module_start s t) _elf_header_mag, s.(bt_memory))) as E.
    { rewrite <- (Z.add_0_r (module_start s t)) at 2. apply magic_matches_run. by rewrite Z.add_0_r. }
    rewrite (bind_run _ _ _ _ _ (bt_in_memory_read _ s _ E)). unfold kind_of in Helf. rewrite Et, Z.eqb_refl in Helf. revert Helf.
    destruct (bytes_are s.(bt_memory) (module_start s t) _elf_header_mag); [|done]. intros Helf. by rewrite (bind_run _ _ _ _ _ (bt_in_memory_read _ s _ (load_elf_run _ _ _ (Helf eq_refl)))). }
  rewrite (bind_run _ _ _ _ _ Eelf). unfold kind_of. rewrite Et, Z.eqb_refl.
  destruct (bytes_are _ (module_start s t) _elf_header_mag); [by rewrite decide_True, !decide_False by done|].
  assert (_is_module_tar_hh l t s = Ret (bytes_are s.(bt_memory) (module_start s t + USTAR_START_BYTE) str_ustar_id, s)) as Etar.
  { unfold _is_module_tar_hh. rewrite Hstart.
    destruct (strncmp_loop_bytes s.(bt_memory) str_ustar_id (module_start s t + USTAR_START_BYTE) l.(ustar_id)) as (r & Hr & Er); [done|by repeat constructor|exact Htar|exact Hid|].
    rewrite (bind_run _ _ _ _ _ (bt_in_memory_read _ s r Hr)), Er. done. }
  rewrite (bind_run _ _ _ _ _ Etar). destruct (bytes_are s.(bt_memory) (module_start s t + USTAR_START_BYTE) str_ustar_id).
  - rewrite Hstart, decide_False, !decide_True by done. done.
  - rewrite !decide_False by done. by rewrite Hsame.
Qed.

Lemma after_modules_cons s x tags : after_modules (after_modules s [x]) tags = after_modules s (x :: tags).
Proof. done. Qed.

Lemma tags_loop_run l (fuel : nat) : forall s p tags e,
  tags_of fuel p (boot_tags_of s) = Some (tags, e) -> Forall (fun x => module_readable s x.2) tags ->
  bytes_are s.(bt_memory) l.(ustar_id) str_ustar_id = true ->
  tags_loop fuel l p s = Ret (e, after_modules s tags).
Proof.
  induction fuel as [|fuel IH]; intros s p tags e Ht Hm Hid; cbn [tags_of tags_loop] in *; [done|].
  rewrite (bind_run _ _ _ _ _ (bt_in_mmap_read s)). fold (boot_tags_of s).
  destruct (boot_tags_of s !! p) as [t|] eqn:Ep; [|done]. rewrite (bind_run _ _ s t s eq_refl).
  destruct (tag_type t =? MULTIBOOT_TAG_TYPE_END).
  { injection Ht as <- <-. unfold after_modules. simpl. by destruct s. }
  destruct (tags_of fuel _ _) as [[tags' e']|] eqn:Et; [|done]. injection Ht as <- <-. apply Forall_cons in Hm as [Ht Hm].
  rewrite (bind_run _ _ _ _ _ (take_module_run s l p t Ht Hid)), (IH _ _ tags' e'); [by rewrite after_modules_cons|exact Et|exact Hm|exact Hid].
Qed.

Lemma foldl_last {A B} (P : A -> Prop) `{forall x, Decision (P x)} (f : A -> B) (l : list A) before :
  foldl (fun r x => if decide (P x) then f x else r) before l = default before (f <$> last (filter P l)).
Proof.
  induction l as [|x l IH] using rev_ind; [done|]. rewrite foldl_app, filter_app, filter_cons, filter_nil. cbn [foldl].
  destruct (decide (P x)); [by rewrite last_snoc|]. by rewrite app_nil_r.
Qed.

(** C22: The walk over the tags of the boot loader ends at the end tag and keeps, of
    the modules, the last that starts with the magic number of ELF, and the last of
    the others that has the magic of tar, with its address in the direct map. Nothing
    else changes but the recorded end of the tags. *)
Theorem find_modules_keeps_last s l first tags e :
  tags_of (S (base.size (boot_tags_of s))) first (boot_tags_of s) = Some (tags, e) ->
  Forall (fun x => module_readable s x.2) tags -> bytes_are s.(bt_memory) l.(ustar_id) str_ustar_id = true ->
  exists s', find_modules l first s = Ret (tt, s') /\
    (forall k before, last_of s k before tags = default before (fst <$> last (filter (fun x => kind_of s x.2 = k) tags))) /\
    s'.(elf_module) = last_of s ElfModule s.(elf_module) tags /\
    s'.(tar_module) = last_of s TarModule s.(tar_module) tags /\
    (forall x, last (filter (fun x => kind_of s x.2 = TarModule) tags) = Some x -> s'.(tar_module_start_hh) = module_start s x.2) /\
    s'.(bt_memory) = s.(bt_memory) /\ s'.(bt_screen) = s.(bt_screen) /\
    s'.(bt_vmm).(vmm_vm).(frames).(pmm_bitmap).(bm_mmap) = set_tag_end e s.(bt_vmm).(vmm_vm).(frames).(pmm_bitmap).(bm_mmap) /\
    s'.(bt_vmm).(vmm_vm).(phys) = s.(bt_vmm).(vmm_vm).(phys).
Proof.
  intros Ht Hm Hid. eexists. split; [|split_and!].
  - unfold find_modules. rewrite (bind_run _ _ _ _ _ (bt_in_mmap_read s)). fold (boot_tags_of s).
    rewrite (bind_run _ _ _ _ _ (tags_loop_run l _ s first tags e Ht Hm Hid)). reflexivity.
  - intros k before. apply foldl_last.
  - done.
  - done.
  - intros x Hx. simpl. unfold last_start. by rewrite foldl_last, Hx.
  - done.
  - done.
  - done.
  - done.
Qed.
End Found.

(** In the 32 bits of the field the size of 4 GiB of memory wraps around to 0. *)
Lemma boot_memory_size_wraps : boot_memory_size (4 * 1024 * 1024 - 1024) = 0.
Proof. reflexivity. Qed.

(** ** Witness *)


(** An ELF module at 6 MiB and a tar module at 8 MiB. *)
Definition sample_elf_module : multiboot_tag := mk_tag 3 24 0x600000 0x600040.
Definition sample_tar_module : multiboot_tag := mk_tag 3 24 0x800000 0x800200.
Definition sample_tags : gmap Z multiboot_tag :=
  list_to_map [(0x9008, sample_elf_module); (0x9020, sample_tar_module); (0x9038, mk_tag 0 8 0 0)].
Definition sample_boot_memory : memory :=
  write_bytes (write_bytes (write_bytes empty 0xffff800280800000 (_elf_header_mag ++ repeat 0 258))
    0xffff800280a00000 (repeat 0 257 ++ str_ustar_id)) 0x100 str_ustar_id.
Definition sample_boot : boot_state :=
  let f := sample_vm.(frames) in
  let mm := f.(pmm_bitmap).(bm_mmap) in
  let mm := mk_mmap mm.(mmap_number_of_entries) mm.(mmap_entries) mm.(count_physical_reserved) mm.(_mmap_last_available_item)
              mm.(_mmap_phys_memory_avail) mm.(multiboot_tag_start) mm.(multiboot_tag_end) mm.(tag_start) sample_tags in
  mk_boot (set_vmm_vm (set_frames (set_pmm_bitmap (set_bm_mmap mm f.(pmm_bitmap)) f) sample_vm) sample_vmm)
    sample_boot_memory sample_screen sample_acpi 0 0 0 0.
Definition sample_linked : linked := mk_linked 0 0 0 0x100 [].

Lemma sample_modules_readable :
  Forall (fun x => module_readable sample_boot x.2) [(0x9008, sample_elf_module); (0x9020, sample_tar_module)].
Proof.
  apply Forall_cons; split; [|apply Forall_singleton]; intros _;
    (split; [by apply present_check_ok; vm_compute|]; split; [by apply present_check_ok; vm_compute|]).
  - intros _. split; [by apply present_check_ok; vm_compute|]. intros h Hh.
    assert (match load_ehdr (module_start sample_boot sample_elf_module) (bt_memory sample_boot) with
            | Ret (h, _) => h.(e_phnum) = 0 /\ h.(e_phoff) = 0 | _ => True end) as Hz by (vm_compute; by split).
    cbn [snd] in Hh. rewrite Hh in Hz. destruct Hz as [-> ->].
    split; [lia|]. split; [done|]. split; [done|]. intros i Hi. lia.
  - intros Hk. vm_compute in Hk. discriminate Hk.
Qed.

Lemma find_modules_keeps_last_witness : exists s', find_modules sample_linked 0x9008 sample_boot = Ret (tt, s') /\
  s'.(elf_module) = 0x9008 /\ s'.(tar_module) = 0x9020 /\ s'.(tar_module_start_hh) = 0xffff800280a00000.
Proof.
  destruct (find_modules_keeps_last sample_boot sample_linked 0x9008
    [(0x9008, sample_elf_module); (0x9020, sample_tar_module)] 0x9038) as (s' & Hrun & _ & He & Ht & Hs & _).
  - vm_compute. reflexivity.
  - exact sample_modules_readable.
  - vm_compute. reflexivity.
  - exists s'. split; [exact Hrun|]. split; [rewrite He; vm_compute; reflexivity|]. split; [rewrite Ht; vm_compute; reflexivity|].
    rewrite (Hs (0x9020, sample_tar_module)) by (vm_compute; reflexivity). vm_compute. reflexivity.
Defined.
