(* ===== verification/Apic.v ===== *)
(** Interrupt controllers and their timer: [cpu/ioapic.c], [cpu/lapic.c] and
    [kernel/hardware/timer.c]. The controllers are hardware: their registers are
    reached through the class [Registers], of which the code relies on the laws of
    [RedirectionRegisters] for the redirection table. *)
From S2P Require Import Prelude VmmUtil Mmap Bitmap Pmm Kheap Paging Boot CString Bytes Acpi Idt.

(** A bank of 32-bit registers by index. *)
Class Registers (D : Type) : Type := {
  reg_read : D -> Z -> Z;
  reg_write : D -> Z -> Z -> D;
}.

(** The bits of a redirection register software may write: not the delivery status,
    the remote interrupt flag and the reserved ones. *)
Definition redirection_mask (index : Z) : Z := if index mod 2 =? 0 then 0x1AFFF else 0xFF000000.
Class RedirectionRegisters (D : Type) `{Registers D} : Prop := {
  reg_range : forall d i, 0 <= reg_read d i < 2 ^ 32;
  reg_write_same : forall d i v, 0x10 <= i <= 0x3F ->
    Z.land (reg_read (reg_write d i v) i) (redirection_mask i) = Z.land v (redirection_mask i);
  reg_write_other : forall d i j v, i <> j -> reg_read (reg_write d i v) j = reg_read d j;
}.

Definition IO_APIC_VER_OFFSET : Z := 0x1.
Definition IO_APIC_SOURCE_OVERRIDE_MAX_ITEMS : Z := 0x10.
Definition IOREDTBL1 : Z := 0x12.
Definition IOREDTBL2 : Z := 0x14.

Record IO_APIC_source_override_item_t : Type := mk_override {
  bus_source : Z;
  irq_source : Z;
  global_system_interrupt : Z;
  override_flags : Z;
}.

(** [local] is the local controller and [msrs] the model-specific registers;
    [ports] is what was written to the ports, the last write first. *)
Record apic_state (D L : Type) : Type := mk_apic {
  ap_acpi : acpi_state;
  device : D;
  io_apic_base_address : Z;
  io_apic_hh_base_address : Z;
  io_apic_max_redirections : Z;
  io_apic_source_overrides : list IO_APIC_source_override_item_t;
  local : L;
  msrs : L;
  apic_base_address : Z;
  apic_hh_base_address : Z;
  apicInX2Mode : bool;
  use_x2_apic : bool;
  pit_timer_counter : Z;
  pitTicks : Z;
  apic_calibrated_ticks : Z;
  timer_ticks_base : Z;
  timer_divisor : Z;
  ports : list (Z * Z);
}.
Arguments mk_apic {D L}.
Arguments ap_acpi {D L}. Arguments device {D L}. Arguments io_apic_base_address {D L}.
Arguments io_apic_hh_base_address {D L}. Arguments io_apic_max_redirections {D L}.
Arguments io_apic_source_overrides {D L}. Arguments local {D L}. Arguments msrs {D L}.
Arguments apic_base_address {D L}. Arguments apic_hh_base_address {D L}. Arguments apicInX2Mode {D L}.
Arguments use_x2_apic {D L}. Arguments pit_timer_counter {D L}. Arguments pitTicks {D L}.
Arguments apic_calibrated_ticks {D L}. Arguments timer_ticks_base {D L}. Arguments timer_divisor {D L}.
Arguments ports {D L}.

Section Setters.
Context {D L : Type}.
Implicit Types (s : apic_state D L).

Definition set_ap_acpi (a : acpi_state) s : apic_state D L :=
  mk_apic a s.(device) s.(io_apic_base_address) s.(io_apic_hh_base_address) s.(io_apic_max_redirections) s.(io_apic_source_overrides)
    s.(local) s.(msrs) s.(apic_base_address) s.(apic_hh_base_address) s.(apicInX2Mode) s.(use_x2_apic)
    s.(pit_timer_counter) s.(pitTicks) s.(apic_calibrated_ticks) s.(timer_ticks_base) s.(timer_divisor) s.(ports).
Definition set_device (d : D) s : apic_state D L :=
  mk_apic s.(ap_acpi) d s.(io_apic_base_address) s.(io_apic_hh_base_address) s.(io_apic_max_redirections) s.(io_apic_source_overrides)
    s.(local) s.(msrs) s.(apic_base_address) s.(apic_hh_base_address) s.(apicInX2Mode) s.(use_x2_apic)
    s.(pit_timer_counter) s.(pitTicks) s.(apic_calibrated_ticks) s.(timer_ticks_base) s.(timer_divisor) s.(ports).
Definition set_io_apic (base hh_base max : Z) (o : list IO_APIC_source_override_item_t) s : apic_state D L :=
  mk_apic s.(ap_acpi) s.(device) base hh_base max o
    s.(local) s.(msrs) s.(apic_base_address) s.(apic_hh_base_address) s.(apicInX2Mode) s.(use_x2_apic)
    s.(pit_timer_counter) s.(pitTicks) s.(apic_calibrated_ticks) s.(timer_ticks_base) s.(timer_divisor) s.(ports).
Definition set_local (l m : L) s : apic_state D L :=
  mk_apic s.(ap_acpi) s.(device) s.(io_apic_base_address) s.(io_apic_hh_base_address) s.(io_apic_max_redirections) s.(io_apic_source_overrides)
    l m s.(apic_base_address) s.(apic_hh_base_address) s.(apicInX2Mode) s.(use_x2_apic)
    s.(pit_timer_counter) s.(pitTicks) s.(apic_calibrated_ticks) s.(timer_ticks_base) s.(timer_divisor) s.(ports).
Definition set_apic_base (base hh_base : Z) s : apic_state D L :=
  mk_apic s.(ap_acpi) s.(device) s.(io_apic_base_address) s.(io_apic_hh_base_address) s.(io_apic_max_redirections) s.(io_apic_source_overrides)
    s.(local) s.(msrs) base hh_base s.(apicInX2Mode) s.(use_x2_apic)
    s.(pit_timer_counter) s.(pitTicks) s.(apic_calibrated_ticks) s.(timer_ticks_base) s.(timer_divisor) s.(ports).
Definition set_x2 (mode use : bool) s : apic_state D L :=
  mk_apic s.(ap_acpi) s.(device) s.(io_apic_base_address) s.(io_apic_hh_base_address) s.(io_apic_max_redirections) s.(io_apic_source_overrides)
    s.(local) s.(msrs) s.(apic_base_address) s.(apic_hh_base_address) mode use
    s.(pit_timer_counter) s.(pitTicks) s.(apic_calibrated_ticks) s.(timer_ticks_base) s.(timer_divisor) s.(ports).
Definition set_pit (counter ticks : Z) s : apic_state D L :=
  mk_apic s.(ap_acpi) s.(device) s.(io_apic_base_address) s.(io_apic_hh_base_address) s.(io_apic_max_redirections) s.(io_apic_source_overrides)
    s.(local) s.(msrs) s.(apic_base_address) s.(apic_hh_base_address) s.(apicInX2Mode) s.(use_x2_apic)
    counter ticks s.(apic_calibrated_ticks) s.(timer_ticks_base) s.(timer_divisor) s.(ports).
Definition set_calibration (ticks base divisor : Z) s : apic_state D L :=
  mk_apic s.(ap_acpi) s.(device) s.(io_apic_base_address) s.(io_apic_hh_base_address) s.(io_apic_max_redirections) s.(io_apic_source_overrides)
    s.(local) s.(msrs) s.(apic_base_address) s.(apic_hh_base_address) s.(apicInX2Mode) s.(use_x2_apic)
    s.(pit_timer_counter) s.(pitTicks) ticks base divisor s.(ports).
Definition set_ports (p : list (Z * Z)) s : apic_state D L :=
  mk_apic s.(ap_acpi) s.(device) s.(io_apic_base_address) s.(io_apic_hh_base_address) s.(io_apic_max_redirections) s.(io_apic_source_overrides)
    s.(local) s.(msrs) s.(apic_base_address) s.(apic_hh_base_address) s.(apicInX2Mode) s.(use_x2_apic)
    s.(pit_timer_counter) s.(pitTicks) s.(apic_calibrated_ticks) s.(timer_ticks_base) s.(timer_divisor) p.
End Setters.

(** ** Redirection entries *)

(** The bit field of [width] bits at [offset] of a 64-bit word. *)
Definition field (raw offset width : Z) : Z := raw / 2 ^ offset mod 2 ^ width.
Definition set_field (raw offset width v : Z) : Z :=
  Z.lor (Z.land raw (not64 (Z.shiftl (Z.ones width) offset))) (Z.shiftl (v mod 2 ^ width) offset).

Section IoApic.
Context `{PageConfig} {D L : Type} `{Registers D} `{Registers L}.
#[local] Notation state := (apic_state D L).

Definition on_acpi {A} (m : M acpi_state A) : M state A := zoom ap_acpi set_ap_acpi m.

(** The index goes to the first register of the mapped page and the value through
    the one at 0x10. *)
Definition read_io_apic_register (offset : Z) : M state Z :=
  let! s := get in
  if s.(io_apic_hh_base_address) =? 0 then ret 0 else ret (reg_read s.(device) offset).
Definition write_io_apic_register (offset value : Z) : M state unit :=
  let! s := get in
  if s.(io_apic_hh_base_address) =? 0 then throw NullDeref
  else put (set_device (reg_write s.(device) offset value) s).

Definition redirect_index_ok (index : Z) : bool := negb ((index <? 0x10) || (0x3F <? index)) && (index mod 2 =? 0).

(** The result and the entry read, when there is one. *)
Definition read_io_apic_redirect (index : Z) : M state (Z * option Z) :=
  if (index <? 0x10) || (0x3F <? index) then ret (-1, None)
  else if negb (index mod 2 =? 0) then ret (-1, None)
  else
    let! lower_part := read_io_apic_register index in
    let! upper_part := read_io_apic_register (index + 1) in
    ret (0, Some (Z.lor (Z.shiftl upper_part 32) lower_part)).

Definition write_io_apic_redirect (index raw : Z) : M state Z :=
  if (index <? 0x10) || (0x3F <? index) then ret (-1)
  else if negb (index mod 2 =? 0) then ret (-1)
  else
    let upper_part := u32 (Z.shiftr raw 32) in
    let lower_part := u32 raw in
    do! write_io_apic_register index lower_part in
    do! write_io_apic_register (index + 1) upper_part in
    ret 0.

(** The entry [set_irq] makes. The pin of an override is computed there and not
    used; here it is left out. *)
Definition irq_entry (overrides : list IO_APIC_source_override_item_t) (irq_type idt_entry destination_field flags : Z) (masked : bool) : Z :=
  let raw := Z.lor flags (Z.land idt_entry 0xFF) in
  let raw :=
    match find (fun o => o.(irq_source) =? irq_type) overrides with
    | Some o =>
        let raw := set_field raw 13 1 (if Z.land o.(override_flags) 3 =? 2 then 1 else 0) in
        set_field raw 15 1 (if Z.land (Z.shiftr o.(override_flags) 2) 3 =? 2 then 1 else 0)
    | None => raw
    end in
  let raw := set_field raw 56 8 destination_field in
  set_field raw 16 1 (if masked then 1 else 0).

Definition set_irq (irq_type redirect_table_pos idt_entry destination_field flags : Z) (masked : bool) : M state unit :=
  let! s := get in
  let! _ := write_io_apic_redirect redirect_table_pos (irq_entry s.(io_apic_source_overrides) irq_type idt_entry destination_field flags masked) in
  let! _ := read_io_apic_redirect IOREDTBL1 in
  ret tt.

Definition set_irq_mask (redirect_table_pos : Z) (masked_status : bool) : M state Z :=
  let! r := read_io_apic_redirect redirect_table_pos in
  match r with
  | (_, Some raw) => let! _ := write_io_apic_redirect redirect_table_pos (set_field raw 16 1 (if masked_status then 1 else 0)) in ret 0
  | (_, None) => ret (-1)
  end.

(** [parse_io_apic_interrupt_source_overrides]: every round reads an override or is
    the last, so that there are at most as many as overrides are kept. The length of
    an item is read before the item is compared with the null pointer. *)
Fixpoint parse_overrides_loop (fuel : nat) (table length item total_length : Z) (acc : list IO_APIC_source_override_item_t) :
    M state (list IO_APIC_source_override_item_t) :=
  match fuel with
  | O => diverge
  | S fuel' =>
      let counter := Z.of_nat (stdpp.base.length acc) in
      if (total_length <? length) && (counter <? IO_APIC_SOURCE_OVERRIDE_MAX_ITEMS) then
        let! item_length := if item =? 0 then throw NullDeref else on_acpi (on_memory (load (item + 1))) in
        let! item_type := on_acpi (on_memory (load item)) in
        let! acc :=
          if item_type =? MADT_IO_APIC_INTERRUPT_SOURCE_OVERRIDE then
            let! bus := on_acpi (on_memory (load (item + 2))) in
            let! irq := on_acpi (on_memory (load (item + 3))) in
            let! gsi := on_acpi (on_memory (load_le 4 (item + 4))) in
            let! fl := on_acpi (on_memory (load_le 2 (item + 8))) in
            ret (acc ++ [mk_override bus irq gsi fl])
          else ret acc in
        let! item := on_acpi (get_MADT_item table MADT_IO_APIC_INTERRUPT_SOURCE_OVERRIDE (u8 (Z.of_nat (stdpp.base.length acc)))) in
        if item =? 0 then ret acc
        else parse_overrides_loop fuel' table length item (u32 (total_length + item_length)) acc
      else ret acc
  end.
Definition parse_io_apic_interrupt_source_overrides (table : Z) : M state (list IO_APIC_source_override_item_t) :=
  let! item := on_acpi (get_MADT_item table MADT_IO_APIC_INTERRUPT_SOURCE_OVERRIDE 0) in
  let! length := on_acpi (sdt_length table) in
  parse_overrides_loop (S (Z.to_nat IO_APIC_SOURCE_OVERRIDE_MAX_ITEMS)) table length item sizeof_MADT [].

Definition init_ioapic (madt_table : Z) : M state unit :=
  let! item := on_acpi (get_MADT_item madt_table MADT_IO_APIC 0) in
  do! modify (fun s => set_io_apic s.(io_apic_base_address) s.(io_apic_hh_base_address) s.(io_apic_max_redirections) [] s) in
  if item =? 0 then ret tt
  else
    let ioapic_item := hh (u64 (item + sizeof_MADT_Item)) in
    let! mapped := on_acpi (on_vm (is_phyisical_address_mapped (ALIGN_PHYSADDRESS item) (hh item))) in
    do! (if mapped =? PHYS_ADDRESS_NOT_MAPPED then on_acpi (map_table_page (ALIGN_PHYSADDRESS item) (hh item)) else ret tt) in
    let! address := on_acpi (on_memory (load_le 4 (ioapic_item + 2))) in
    do! modify (fun s => set_io_apic address (hh address) s.(io_apic_max_redirections) s.(io_apic_source_overrides) s) in
    do! on_acpi (map_table_page address (hh address)) in
    let! s := get in
    do! (if address <? s.(ap_acpi).(acpi_vm).(frames).(pmm_bitmap).(bm_mmap).(_mmap_phys_memory_avail)
         then on_acpi (on_vm (in_frames (in_bitmap (_bitmap_set_bit (ADDRESS_TO_BITMAP_ENTRY address))))) else ret tt) in
    let! ioapic_version := read_io_apic_register IO_APIC_VER_OFFSET in
    let! r := read_io_apic_redirect 0x10 in
    do! (if negb (fst r =? 0) then throw Halted else ret tt) in
    do! modify (fun s => set_io_apic s.(io_apic_base_address) s.(io_apic_hh_base_address) (u8 (Z.shiftr ioapic_version 16)) s.(io_apic_source_overrides) s) in
    let! o := parse_io_apic_interrupt_source_overrides madt_table in
    modify (fun s => set_io_apic s.(io_apic_base_address) s.(io_apic_hh_base_address) s.(io_apic_max_redirections) o s).
End IoApic.

(** ** The local controller *)

Definition IA32_APIC_BASE : Z := 0x1b.
Definition APIC_BSP_BIT : Z := 8.
Definition APIC_GLOBAL_ENABLE_BIT : Z := 11.
Definition APIC_BASE_ADDRESS_MASK : Z := 0xFFFFF000.
Definition APIC_TIMER_LVT_OFFSET : Z := 0x320.
Definition APIC_TIMER_IDT_ENTRY : Z := 0x20.
Definition APIC_TIMER_CONFIGURATION_OFFSET : Z := 0x3E0.
Definition APIC_TIMER_INITIAL_COUNT_REGISTER_OFFSET : Z := 0x380.
Definition APIC_TIMER_CURRENT_COUNT_REGISTER_OFFSET : Z := 0x390.
Definition APIC_TIMER_DIVIDER_2 : Z := 0x0.
Definition APIC_VERSION_REGISTER_OFFSET : Z := 0x30.
Definition APIC_EOI_REGISTER_OFFSET : Z := 0xB0.
Definition APIC_SPURIOUS_VECTOR_REGISTER_OFFSET : Z := 0xF0.
Definition APIC_SOFTWARE_ENABLE : Z := Z.shiftl 1 8.
Definition APIC_SPURIOUS_INTERRUPT : Z := 255.
Definition APIC_ID_REGISTER_OFFSET : Z := 0x20.
Definition PIT_CHANNEL_0_DATA_PORT : Z := 0x40.
Definition PIT_MODE_COMMAND_REGISTER : Z := 0x43.
Definition PIT_COUNTER_VALUE : Z := 0x4A9.
Definition CALIBRATION_MS_TO_WAIT : Z := 30.

(** [disable_pic]: the bytes it writes to the ports of the two old controllers. *)
Definition disable_pic_writes : list (Z * Z) :=
  [(0x20, 0x11); (0xA0, 0x11); (0x21, 0x20); (0xA1, 0x28); (0x21, 0x04); (0xA1, 0x02); (0x21, 0x01); (0xA1, 0x01);
   (0x21, 0xFF); (0xA1, 0xFF)].

Section LocalApic.
Context `{PageConfig} {D L : Type} `{Registers D} `{Registers L}.
#[local] Notation state := (apic_state D L).

Definition outportb (port value : Z) : M state unit := modify (fun s => set_ports ((port, value) :: s.(ports)) s).
Fixpoint outportbs (l : list (Z * Z)) : M state unit :=
  match l with [] => ret tt | (p, v) :: l' => do! outportb p v in outportbs l' end.
Definition disable_pic : M state unit := outportbs disable_pic_writes.

(** [rdmsr] and [wrmsr]; the 64 bits of a model-specific register are one number of
    the bank [msrs]. *)
Definition rdmsr (address : Z) : M state Z := gets (fun s => reg_read s.(msrs) address).
Definition wrmsr (address value : Z) : M state unit :=
  modify (fun s => set_local s.(local) (reg_write s.(msrs) address value) s).

Definition read_apic_register (register_offset : Z) : M state Z :=
  let! s := get in
  if s.(apicInX2Mode) then let! v := rdmsr (Z.shiftr register_offset 4 + 0x800) in ret (u32 v)
  else ret (reg_read s.(local) (u64 (s.(apic_hh_base_address) + register_offset))).
Definition write_apic_register (register_offset value : Z) : M state unit :=
  let! s := get in
  if s.(apicInX2Mode) then wrmsr (Z.shiftr register_offset 4 + 0x800) value
  else modify (fun s => set_local (reg_write s.(local) (u64 (s.(apic_hh_base_address) + register_offset)) value) s.(msrs) s).

Definition lapic_id : M state Z :=
  let! id := read_apic_register APIC_ID_REGISTER_OFFSET in
  let! x2 := gets apicInX2Mode in
  ret (if x2 then id else Z.shiftr id 24).
Definition lapic_is_x2 : M state bool := gets apicInX2Mode.

(** [ecx] is what [__get_cpuid] leaves in [x2ApicLeaf] and [edx] what it leaves in
    [xApicLeaf]. *)
Definition init_apic (ecx edx memory_size_in_bytes : Z) : M state unit :=
  let! msr_output := rdmsr IA32_APIC_BASE in
  let base := u32 (Z.land msr_output APIC_BASE_ADDRESS_MASK) in
  do! modify (set_apic_base base (hh base)) in
  let! msr_output :=
    if negb (Z.land ecx (Z.shiftl 1 21) =? 0) then
      do! modify (set_x2 true true) in
      let msr_output := Z.lor msr_output (Z.shiftl 1 10) in
      do! wrmsr IA32_APIC_BASE msr_output in ret (Some msr_output)
    else if negb (Z.land edx (Z.shiftl 1 9) =? 0) then
      do! modify (set_x2 false false) in
      do! on_acpi (map_table_page base (hh base)) in ret (Some msr_output)
    else
      do! modify (fun s => set_x2 s.(apicInX2Mode) false s) in ret None in
  match msr_output with
  | None => ret tt
  | Some msr_output =>
      let! _ := read_apic_register APIC_SPURIOUS_VECTOR_REGISTER_OFFSET in
      if Z.land 1 (Z.shiftr msr_output APIC_GLOBAL_ENABLE_BIT) =? 0 then ret tt
      else
        do! write_apic_register APIC_SPURIOUS_VECTOR_REGISTER_OFFSET (Z.lor APIC_SOFTWARE_ENABLE APIC_SPURIOUS_INTERRUPT) in
        do! (if base <? memory_size_in_bytes
             then on_acpi (on_vm (in_frames (in_bitmap (_bitmap_set_bit (ADDRESS_TO_BITMAP_ENTRY base))))) else ret tt) in
        let! _ := read_apic_register APIC_VERSION_REGISTER_OFFSET in
        disable_pic
  end.

(** ** The timer *)

Definition pit_irq_handler : M state unit :=
  modify (fun s => set_pit (if s.(pit_timer_counter) =? 0 then 1 else 0) (u32 (s.(pitTicks) + 1)) s).

(** [timer_handler] without the counter of the scheduler, which is in its state. *)
Definition timer_handler_flag : M state unit :=
  modify (fun s => set_pit (if s.(pit_timer_counter) =? 0 then 1 else 0) s.(pitTicks) s).

(** While [calibrate_apic] waits, the interrupts of the PIT come; the local timer
    counts down, so that [count] is what it holds at the end of the wait. *)
Definition calibrate_apic (count : Z) : M state Z :=
  do! modify (fun s => set_pit s.(pit_timer_counter) 0 s) in
  do! outportb PIT_MODE_COMMAND_REGISTER 0x34 in
  do! outportb PIT_CHANNEL_0_DATA_PORT (Z.land PIT_COUNTER_VALUE 0xFF) in
  do! outportb PIT_CHANNEL_0_DATA_PORT (Z.shiftr PIT_COUNTER_VALUE 8) in
  do! write_apic_register APIC_TIMER_INITIAL_COUNT_REGISTER_OFFSET 0 in
  do! write_apic_register APIC_TIMER_CONFIGURATION_OFFSET APIC_TIMER_DIVIDER_2 in
  let! _ := set_irq_mask IOREDTBL2 false in
  do! write_apic_register APIC_TIMER_INITIAL_COUNT_REGISTER_OFFSET (2 ^ 32 - 1) in
  do! for_upto CALIBRATION_MS_TO_WAIT (fun _ => pit_irq_handler) in
  let current_apic_count := count in
  do! write_apic_register APIC_TIMER_INITIAL_COUNT_REGISTER_OFFSET 0 in
  let! _ := set_irq_mask IOREDTBL2 true in
  let time_elapsed := u32 (2 ^ 32 - 1 - current_apic_count) in
  let ticks := time_elapsed / CALIBRATION_MS_TO_WAIT in
  do! modify (set_calibration ticks ticks APIC_TIMER_DIVIDER_2) in
  ret ticks.

Definition start_apic_timer (initial_count flags divider : Z) : M state unit :=
  let! _ := read_apic_register APIC_TIMER_LVT_OFFSET in
  do! write_apic_register APIC_TIMER_INITIAL_COUNT_REGISTER_OFFSET initial_count in
  do! write_apic_register APIC_TIMER_CONFIGURATION_OFFSET divider in
  write_apic_register APIC_TIMER_LVT_OFFSET (Z.lor flags APIC_TIMER_IDT_ENTRY).
End LocalApic.

(** ** Programming an interrupt *)

Section Fields.
Implicit Types (raw v : Z).

Lemma testbit_set_field raw off w v i : 0 <= off -> 0 <= w -> off + w <= 64 -> 0 <= i < 64 ->
  Z.testbit (set_field raw off w v) i = if (off <=? i) && (i <? off + w) then Z.testbit v (i - off) else Z.testbit raw i.
Proof.
  intros Ho Hw Hs Hi. unfold set_field. rewrite Z.lor_spec, Z.land_spec, testbit_not64, !Z.shiftl_spec by lia.
  destruct (Z.leb_spec off i) as [Hl|Hl]; cbn [andb].
  - destruct (Z.ltb_spec i (off + w)).
    + rewrite Z.ones_spec_low, Z.mod_pow2_bits_low by lia. by rewrite andb_false_r.
    + rewrite Z.ones_spec_high, Z.mod_pow2_bits_high by lia. by rewrite andb_true_r, orb_false_r.
  - rewrite !(Z.testbit_neg_r _ (i - off)) by lia. by rewrite andb_true_r, orb_false_r.
Qed.

Lemma set_field_range raw off w v : 0 <= off -> 0 <= w -> off + w <= 64 -> 0 <= raw < 2 ^ 64 -> 0 <= set_field raw off w v < 2 ^ 64.
Proof.
  intros Ho Hw Hs Hr. unfold set_field. apply lor_bound; [lia|by apply land_bound|].
  rewrite Z.shiftl_mul_pow2 by lia. pose proof (Z.mod_pos_bound v (2 ^ w) ltac:(lia)).
  split; [nia|]. apply Z.lt_le_trans with (2 ^ w * 2 ^ off); [nia|]. rewrite <- Z.pow_add_r by lia. apply Z.pow_le_mono_r; lia.
Qed.
End Fields.

Section SetIrq.
Context `{PageConfig} {D L : Type} `{RedirectionRegisters D} `{Registers L}.
Implicit Types (s : apic_state D L) (d : D).

Lemma written_bit d i v k : 0x10 <= i <= 0x3F -> Z.testbit (redirection_mask i) k = true ->
  Z.testbit (reg_read (reg_write d i v) i) k = Z.testbit v k.
Proof.
  intros Hi Hk. pose proof (f_equal (fun z => Z.testbit z k) (reg_write_same d i v Hi)) as Hb. simpl in Hb.
  by rewrite !Z.land_spec, Hk, !andb_true_r in Hb.
Qed.

Lemma read_register_run s i : s.(io_apic_hh_base_address) <> 0 -> read_io_apic_register i s = Ret (reg_read s.(device) i, s).
Proof. intros Hh. unfold read_io_apic_register, bind, get. by destruct (Z.eqb_spec s.(io_apic_hh_base_address) 0). Qed.

Lemma write_register_run s i v : s.(io_apic_hh_base_address) <> 0 ->
  write_io_apic_register i v s = Ret (tt, set_device (reg_write s.(device) i v) s).
Proof. intros Hh. unfold write_io_apic_register, bind, get. by destruct (Z.eqb_spec s.(io_apic_hh_base_address) 0). Qed.

(** The two registers after an entry is written. *)
Lemma write_redirect_run s pos raw :
  s.(io_apic_hh_base_address) <> 0 -> 0x10 <= pos <= 0x3F -> pos mod 2 = 0 ->
  write_io_apic_redirect pos raw s =
    Ret (0, set_device (reg_write (reg_write s.(device) pos (u32 raw)) (pos + 1) (u32 (Z.shiftr raw 32))) s).
Proof.
  intros Hh Hp He. unfold write_io_apic_redirect. destruct (Z.ltb_spec pos 0x10); [lia|]. destruct (Z.ltb_spec 0x3F pos); [lia|].
  cbn [orb]. rewrite He. change (negb (0 =? 0)) with false. cbv iota zeta.
  rewrite (bind_run _ _ _ _ _ (write_register_run s _ _ Hh)).
  by rewrite (bind_run _ _ _ _ _ (write_register_run (set_device _ s) _ _ Hh)).
Qed.

Lemma entry_low_bit s raw pos k : 0x10 <= pos <= 0x3F -> pos mod 2 = 0 -> Z.testbit 0x1AFFF k = true -> 0 <= k < 32 ->
  Z.testbit (reg_read (reg_write (reg_write s.(device) pos (u32 raw)) (pos + 1) (u32 (Z.shiftr raw 32))) pos) k = Z.testbit raw k.
Proof.
  intros Hp He Hk Hk32. rewrite reg_write_other by lia. rewrite written_bit; [|lia|unfold redirection_mask; by rewrite He].
  unfold u32. by rewrite Z.mod_pow2_bits_low by lia.
Qed.

Lemma entry_destination s raw pos dest : 0x10 <= pos -> pos + 1 <= 0x3F -> pos mod 2 = 0 -> 0 <= dest < 256 ->
  (forall k, 0 <= k < 8 -> Z.testbit raw (56 + k) = Z.testbit dest k) ->
  reg_read (reg_write (reg_write s.(device) pos (u32 raw)) (pos + 1) (u32 (Z.shiftr raw 32))) (pos + 1) / 2 ^ 24 = dest.
Proof.
  intros Hp1 Hp2 He Hd Hraw. set (d1 := reg_write s.(device) pos (u32 raw)).
  pose proof (reg_range (reg_write d1 (pos + 1) (u32 (Z.shiftr raw 32))) (pos + 1)) as Hr.
  rewrite <- Z.shiftr_div_pow2 by lia. apply Z.bits_inj'. intros k Hk. rewrite Z.shiftr_spec by lia.
  destruct (Z.lt_ge_cases k 8).
  - assert ((pos + 1) mod 2 = 1) as Ho by (clear -He; Z.div_mod_to_equations; lia).
    rewrite written_bit; [|lia|].
    + unfold u32. rewrite Z.mod_pow2_bits_low, Z.shiftr_spec by lia. rewrite <- Hraw by lia. f_equal. lia.
    + unfold redirection_mask. rewrite Ho. change (1 =? 0) with false. cbv iota.
      change 0xFF000000 with (Z.shiftl (Z.ones 8) 24). rewrite Z.shiftl_spec, Z.ones_spec_low by lia. done.
  - rewrite (testbit_high _ 32) by lia. by rewrite (testbit_high dest 8) by lia.
Qed.
End SetIrq.

(** Reading an entry back, as [set_irq] does at its end, gives some value and changes nothing. *)
Lemma read_back_run `{PageConfig} {D L : Type} `{RedirectionRegisters D} `{Registers L} (t : apic_state D L) :
  t.(io_apic_hh_base_address) <> 0 -> exists r, read_io_apic_redirect IOREDTBL1 t = Ret (r, t).
Proof.
  intros Ht. unfold read_io_apic_redirect. change ((IOREDTBL1 <? 0x10) || (0x3F <? IOREDTBL1)) with false.
  change (negb (IOREDTBL1 mod 2 =? 0)) with false. cbv iota.
  rewrite (bind_run _ _ _ _ _ (read_register_run t _ Ht)), (bind_run _ _ _ _ _ (read_register_run t _ Ht)). by eexists.
Qed.

(** The entry [set_irq] composes, bit by bit. *)
Lemma irq_entry_bits overrides irq_type idt_entry dest flags masked k :
  0 <= idt_entry < 256 -> 0 <= dest < 256 -> 0 <= flags < 2 ^ 32 -> 0 <= k < 64 ->
  Z.testbit (irq_entry overrides irq_type idt_entry dest flags masked) k =
    if k =? 16 then masked else if (56 <=? k) && (k <? 64) then Z.testbit dest (k - 56)
    else match find (fun o => o.(irq_source) =? irq_type) overrides with
         | Some o => if k =? 15 then Z.land (Z.shiftr o.(override_flags) 2) 3 =? 2
                     else if k =? 13 then Z.land o.(override_flags) 3 =? 2
                     else Z.testbit (Z.lor flags (Z.land idt_entry 0xFF)) k
         | None => Z.testbit (Z.lor flags (Z.land idt_entry 0xFF)) k
         end.
Proof.
  intros Hidt Hdest Hfl Hk. unfold irq_entry.
  rewrite testbit_set_field by lia. destruct (Z.eqb_spec k 16) as [->|Hk16]; [simpl; by destruct masked|].
  replace ((16 <=? k) && (k <? 16 + 1)) with false by (symmetry; apply andb_false_iff; lia).
  rewrite testbit_set_field by lia. change (56 + 8) with 64. destruct ((56 <=? k) && (k <? 64)); [done|].
  destruct (find _ _) as [o|]; [|done]. rewrite !testbit_set_field by lia.
  destruct (Z.eqb_spec k 15) as [->|Hk15]; [simpl; by destruct (_ =? 2)|].
  replace ((15 <=? k) && (k <? 15 + 1)) with false by (symmetry; apply andb_false_iff; lia).
  destruct (Z.eqb_spec k 13) as [->|Hk13]; [simpl; by destruct (_ =? 2)|].
  by replace ((13 <=? k) && (k <? 13 + 1)) with false by (symmetry; apply andb_false_iff; lia).
Qed.

Lemma entry_flag_bit flags idt_entry k :
  0 <= idt_entry < 256 -> 8 <= k < 64 -> Z.testbit (Z.lor flags (Z.land idt_entry 0xFF)) k = Z.testbit flags k.
Proof. intros Hidt Hk. rewrite Z.lor_spec, Z.land_spec, (testbit_high idt_entry 8 k) by lia. by rewrite orb_false_r. Qed.

(** C33: [set_irq] at a position of the redirection table: the two registers of the
    entry get the vector with the flags, the mask, the destination and, when the
    firmware overrides the interrupt, its polarity and trigger mode; no other register
    changes. At any other position it does nothing. *)
Theorem set_irq_programs_entry `{PageConfig} {D L : Type} `{RedirectionRegisters D} `{Registers L}
    (s : apic_state D L) irq_type pos idt_entry dest flags masked :
  s.(io_apic_hh_base_address) <> 0 -> 0 <= idt_entry < 256 -> 0 <= dest < 256 -> 0 <= flags < 2 ^ 32 -> 0 <= pos < 256 ->
  (redirect_index_ok pos = false -> set_irq irq_type pos idt_entry dest flags masked s = Ret (tt, s)) /\
  (redirect_index_ok pos = true -> exists d,
    set_irq irq_type pos idt_entry dest flags masked s = Ret (tt, set_device d s) /\
    let low := reg_read d pos in
    let override := find (fun o => o.(irq_source) =? irq_type) s.(io_apic_source_overrides) in
    (forall k, 0 <= k < 8 -> Z.testbit low k = Z.testbit flags k || Z.testbit idt_entry k) /\
    Z.testbit low 16 = masked /\
    Z.testbit low 13 = match override with Some o => Z.land o.(override_flags) 3 =? 2 | None => Z.testbit flags 13 end /\
    Z.testbit low 15 = match override with Some o => Z.land (Z.shiftr o.(override_flags) 2) 3 =? 2 | None => Z.testbit flags 15 end /\
    reg_read d (pos + 1) / 2 ^ 24 = dest /\
    forall j, j <> pos -> j <> pos + 1 -> reg_read d j = reg_read s.(device) j).
Proof.
  intros Hh Hidt Hdest Hfl Hpos. unfold redirect_index_ok.
  set (raw := irq_entry s.(io_apic_source_overrides) irq_type idt_entry dest flags masked).
  split; intros Hok; unfold set_irq; rewrite (bind_run _ _ _ _ _ (eq_refl : get s = Ret (s, s))); fold raw.
  - rewrite (bind_run _ _ s (-1) s).
    2: { unfold write_io_apic_redirect. destruct ((pos <? 0x10) || (0x3F <? pos)); [done|]. cbn in Hok. by rewrite Hok. }
    destruct (read_back_run s Hh) as [r Hr]. by rewrite (bind_run _ _ _ _ _ Hr).
  - apply andb_true_iff in Hok as [Hb He]. apply negb_true_iff, orb_false_iff in Hb as [Hb1 Hb2]. zbool.
    assert (pos + 1 <= 0x3F) as Hp1 by (clear -Hb2 He; Z.div_mod_to_equations; lia).
    rewrite (bind_run _ _ _ _ _ (write_redirect_run s pos raw Hh ltac:(lia) He)). eexists. split.
    { match goal with |- bind _ _ ?t = _ => destruct (read_back_run t Hh) as [r Hr] end. by rewrite (bind_run _ _ _ _ _ Hr). }
    cbv zeta.
    pose proof (fun k => irq_entry_bits s.(io_apic_source_overrides) irq_type idt_entry dest flags masked k Hidt Hdest Hfl) as Hraw.
    fold raw in Hraw.
    split_and!.
    + intros k Hk. rewrite entry_low_bit, Hraw by (lia || (change 0x1AFFF with (Z.lor (Z.ones 12) 0x1A000);
        rewrite Z.lor_spec, Z.ones_spec_low by lia; done)).
      destruct (Z.eqb_spec k 16), (Z.eqb_spec k 15), (Z.eqb_spec k 13), (Z.leb_spec 56 k); try lia. cbn [andb].
      change 0xFF with (Z.ones 8). rewrite Z.lor_spec, Z.land_spec, (Z.ones_spec_low 8) by lia. rewrite andb_true_r.
      by destruct (find _ _).
    + rewrite entry_low_bit, Hraw by (done || lia). done.
    + rewrite entry_low_bit, Hraw by (done || lia). rewrite entry_flag_bit by lia. by destruct (find _ _).
    + rewrite entry_low_bit, Hraw by (done || lia). rewrite entry_flag_bit by lia. by destruct (find _ _).
    + apply entry_destination; try lia. intros k Hk. rewrite Hraw by lia.
      destruct (Z.eqb_spec (56 + k) 16); [lia|]. destruct (Z.leb_spec 56 (56 + k)); [|lia]. destruct (Z.ltb_spec (56 + k) 64); [|lia].
      cbn [andb]. f_equal. lia.
    + intros j Hj Hj'. by rewrite !reg_write_other by done.
Qed.

(** A bank of registers whose read-only bits stay 0. *)
Definition register_file : Type := Z -> Z.
#[export] Instance register_file_registers : Registers register_file := {
  reg_read f i := Z.land (f i) (redirection_mask i);
  reg_write f i v := fun j => if j =? i then v else f j;
}.
#[export] Instance register_file_laws : RedirectionRegisters register_file.
Proof.
  constructor.
  - intros d i. change (reg_read d i) with (Z.land (d i) (redirection_mask i)). rewrite Z.land_comm.
    apply land_bound; [lia|]. unfold redirection_mask. destruct (_ =? 0); lia.
  - intros d i v _. change (reg_read (reg_write d i v) i) with (Z.land (if i =? i then v else d i) (redirection_mask i)).
    rewrite Z.eqb_refl, <- Z.land_assoc. by rewrite Z.land_diag.
  - intros d i j v Hne. change (reg_read (reg_write d i v) j) with (Z.land (if j =? i then v else d j) (redirection_mask j)).
    destruct (Z.eqb_spec j i); [congruence|done].
Qed.

Definition sample_apic : apic_state register_file register_file :=
  mk_apic sample_acpi (fun _ => 0x10000) 0xFEC00000 0xFFFF8000FEE00000 23 [mk_override 0 9 9 0xF] (fun _ => 0) (fun _ => 0)
    0xFEE00000 0 false false 0 0 0 0 0 [].

(** The keyboard's interrupt, which nothing overrides, and one that is overridden. *)
Lemma set_irq_programs_entry_witness :
  (exists d, set_irq 1 IOREDTBL1 0x21 0 0 false sample_apic = Ret (tt, set_device d sample_apic) /\
    Z.testbit (reg_read d IOREDTBL1) 16 = false) /\
  (exists d, set_irq 9 0x22 0x29 3 0 true sample_apic = Ret (tt, set_device d sample_apic) /\
    Z.testbit (reg_read d 0x22) 15 = false /\ reg_read d (0x22 + 1) / 2 ^ 24 = 3).
Proof.
  split.
  - destruct (@set_irq_programs_entry large_pages _ _ _ _ _ sample_apic 1 IOREDTBL1 0x21 0 0 false) as [_ H];
      [discriminate|lia|lia|lia|unfold IOREDTBL1; lia|].
    destruct (H eq_refl) as (d & Hrun & _ & Hm & _). exists d. split; [exact Hrun|exact Hm].
  - destruct (@set_irq_programs_entry large_pages _ _ _ _ _ sample_apic 9 0x22 0x29 3 0 true) as [_ H];
      [discriminate|lia|lia|lia|lia|].
    destruct (H eq_refl) as (d & Hrun & _ & _ & _ & Ht & Hd & _). exists d. split; [exact Hrun|]. split; [exact Ht|exact Hd].
Defined.
