(* ===== verification/Syscalls.v ===== *)
(** System calls and the dispatch of interrupts: [kernel/syscalls/], [cpu/syscalls.c]
    and [interrupts_handler] of [cpu/idt.c]. The machine puts the components together;
    they share one memory of bytes. *)
From S2P Require Import Prelude VmmUtil Mmap Bitmap Pmm Kheap Paging Boot Vmm Scheduler CString Vfs Bytes Window Framebuffer.
From S2P Require Import Console Keyboard Elf Task Acpi Idt Apic.

Definition SYS_EXAMPLE : Z := 1.
Definition SYS_PRINT : Z := 2.
Definition SYS_OPEN : Z := 3.
Definition SYS_READ : Z := 4.
Definition SYS_EXIT : Z := 5.
Definition E_NO_SYSCALL : Z := -1.
Definition sizeof_pending_operation_t : Z := 32.
Definition sizeof_userspace_buffer_t : Z := 120.

Definition PAGE_FAULT : Z := 14.
Definition GENERAL_PROTECTION : Z := 13.
Definition APIC_TIMER_INTERRUPT : Z := 32.
Definition KEYBOARD_INTERRUPT : Z := 33.
Definition PIT_INTERRUPT : Z := 34.

(** ** Reading from the keyboard *)

(** The part of [sys_read_keyboard] that puts the operation on the list. *)
Definition keyboard_queue {F : Type} `{Console F} (op buffer_virtual nbytes : Z) : M (keyboard_state F) unit :=
  if 0 <? nbytes then
    do! write_operation op (mk_operation buffer_virtual nbytes 0 false 0) in
    _ps2_keyboard_add_operation op
  else ret tt.

(** What the loop of [sys_read_keyboard] has on the stack of a thread that yields in it:
    the operation it looks at, the bytes it waits for, and the frame of the system call
    to which the result goes. *)
Record waiting_read : Type := mk_waiting {
  wr_op : Z;
  wr_nbytes : Z;
  wr_regs : Z;
}.

(** What the kernel finds outside the machine's state: the register of the faulting
    address, the byte at the keyboard's port, where [int 0x20] pushes its frame when a
    read yields and the registers it pushes, and the address of the string of
    [SYS_EXAMPLE]. *)
Record inputs : Type := mk_inputs {
  in_cr2 : Z;
  in_scancode : Z;
  in_frame : Z;
  in_saved : cpu_status_t;
  in_hello : Z;
}.

Section Machine.
Context `{PageConfig} {D L : Type} `{Registers D} `{Registers L}.

(** The screen is the one the keyboard echoes on. [mc_reads] has the threads that have
    yielded in a read, by the frame they were interrupted in. *)
Record machine : Type := mk_machine {
  mc_kernel : kernel_state;
  mc_keyboard : keyboard_state fb_state;
  mc_apic : apic_state D L;
  mc_reads : gmap Z waiting_read;
}.
Definition set_mc_kernel (k : kernel_state) (s : machine) : machine := mk_machine k s.(mc_keyboard) s.(mc_apic) s.(mc_reads).
Definition set_mc_apic (a : apic_state D L) (s : machine) : machine := mk_machine s.(mc_kernel) s.(mc_keyboard) a s.(mc_reads).
Definition set_mc_reads (r : gmap Z waiting_read) (s : machine) : machine := mk_machine s.(mc_kernel) s.(mc_keyboard) s.(mc_apic) r.

(** The components that look at memory get that of the kernel and give it back. *)
Definition mc_input (s : machine) : keyboard_state fb_state := set_kb_memory s.(mc_kernel).(ks_memory) s.(mc_keyboard).
Definition set_mc_input (k : keyboard_state fb_state) (s : machine) : machine :=
  mk_machine (set_ks_memory (kb_memory k) s.(mc_kernel)) k s.(mc_apic) s.(mc_reads).
Definition in_kernel {A} (m : M kernel_state A) : M machine A := zoom mc_kernel set_mc_kernel m.
Definition in_keyboard {A} (m : M (keyboard_state fb_state) A) : M machine A := zoom mc_input set_mc_input m.
Definition in_screen {A} (m : M fb_state A) : M machine A := in_keyboard (in_console m).
Definition in_apic {A} (m : M (apic_state D L) A) : M machine A := zoom mc_apic set_mc_apic m.

(** The registers of a frame are read and written where the handler's argument points. *)
Definition read_regs (p : Z) : M machine cpu_status_t :=
  if p =? 0 then throw NullDeref else let! s := get in lift_opt OutOfBounds (s.(mc_kernel).(ks_frames) !! p).
Definition set_rax (v : Z) (r : cpu_status_t) : cpu_status_t :=
  mk_cpu_status r.(r15) r.(r14) r.(r13) r.(r12) r.(r11) r.(r10) r.(r9) r.(r8)
    r.(rdi) r.(rsi) r.(rbp) r.(rdx) r.(rcx) r.(rbx) v r.(interrupt_number) r.(error_code) r.(rip) r.(cs) r.(rflags) r.(rsp) r.(ss).
Definition write_rax (p v : Z) : M machine unit :=
  let! r := read_regs p in in_kernel (write_frame p (set_rax v r)).

(** The case of the timer in [interrupts_handler]. *)
Definition end_of_interrupt : M machine unit := in_apic (write_apic_register APIC_EOI_REGISTER_OFFSET 0).
Definition timer_case (status : Z) : M machine Z :=
  do! in_apic timer_handler_flag in
  let! status := in_kernel (in_sched (timer_interrupt status)) in
  do! end_of_interrupt in ret status.

(** [scheduler_yield], that is [int 0x20]: the registers are pushed with the number of
    the timer's interrupt, which [interrupts_handler] then serves. The processor goes on
    from the frame this gives, which is that of another thread when there is one. *)
Definition interrupt_regs (number : Z) (r : cpu_status_t) : cpu_status_t :=
  mk_cpu_status r.(r15) r.(r14) r.(r13) r.(r12) r.(r11) r.(r10) r.(r9) r.(r8)
    r.(rdi) r.(rsi) r.(rbp) r.(rdx) r.(rcx) r.(rbx) r.(rax) number 0 r.(rip) r.(cs) r.(rflags) r.(rsp) r.(ss).
Definition scheduler_yield (frame : Z) (saved : cpu_status_t) : M machine Z :=
  do! in_kernel (write_frame frame (interrupt_regs APIC_TIMER_INTERRUPT saved)) in
  timer_case frame.

(** The loop at the end of [sys_read_keyboard], and the new line after it. The result is
    the number of bytes, or, when the thread yields, the frame the processor goes on
    from; the thread is then in [mc_reads], and comes back to the test of the loop by
    [resume_read] once it is scheduled again. *)
Definition read_loop (frame : Z) (saved : cpu_status_t) (w : waiting_read) : M machine (Z + Z) :=
  let! o := in_keyboard (read_operation w.(wr_op)) in
  if o.(op_nbytes) <? w.(wr_nbytes) then
    do! modify (fun s => set_mc_reads (<[frame := w]> s.(mc_reads)) s) in
    let! next := scheduler_yield frame saved in
    ret (inr next)
  else
    do! in_screen _fb_increaseLine in
    ret (inl o.(op_nbytes)).

(** [regs] is the frame of the system call. *)
Definition sys_read_keyboard (i : inputs) (regs buffer nbytes : Z) : M machine (Z + Z) :=
  let! current := gets (fun s => s.(mc_kernel).(ks_sched).(current_executing_thread)) in
  let! thread := in_kernel (in_sched (read_thread current)) in
  do! (if thread.(parent_task) =? 0 then throw NullDeref else ret tt) in
  let! vmm_info := in_kernel (in_vmm (get_info thread.(parent_task))) in
  let! new_pending_operation := in_kernel (in_heap (kmalloc sizeof_pending_operation_t)) in
  let! userspace_buffer := in_kernel (in_heap (kmalloc sizeof_userspace_buffer_t)) in
  if (new_pending_operation =? 0) || (userspace_buffer =? 0) then throw Halted
  else
    let! buffer_virtual := in_kernel (in_tables (vm_copy_from_different_space buffer vmm_info.(root_table_hhdm))) in
    if buffer_virtual =? 0 then ret (inl 0)
    else
      do! in_keyboard (keyboard_queue new_pending_operation buffer_virtual nbytes) in
      read_loop i.(in_frame) i.(in_saved) (mk_waiting new_pending_operation nbytes regs).

(** [fildes] is an [int]. *)
Definition sys_read (i : inputs) (regs fildes buffer nbytes : Z) : M machine (Z + Z) :=
  if (0 <=? fildes) && (fildes <? OPENEDFILES_MAX) then
    if fildes =? 0 then sys_read_keyboard i regs buffer nbytes else ret (inl 0)
  else ret (inl (-1)).

(** The end of a read call: the result goes to [rax], unless the thread has yielded. *)
Definition read_result (regs : Z) (r : Z + Z) : M machine Z :=
  match r with
  | inl bytes_read => do! write_rax regs (u64 bytes_read) in ret regs
  | inr next => ret next
  end.

(** A thread that yielded in a read goes on from its frame: back to the test of the loop
    and from there, when the read is complete, to the end of the call. *)
Definition resume_read (i : inputs) (frame : Z) : M machine Z :=
  let! s := get in
  let! w := lift_opt OutOfBounds (s.(mc_reads) !! frame) in
  do! modify (fun s => set_mc_reads (delete frame s.(mc_reads)) s) in
  let! r := read_loop frame i.(in_saved) w in
  read_result w.(wr_regs) r.

(** [sys_open] only logs. *)
Definition sys_open (path flags : Z) : M machine Z := ret 0.

Definition sys_print (buffer nbytes pos_x pos_y : Z) : M machine unit :=
  if (pos_x =? 0) && (pos_y =? 0) then in_screen (_fb_printStr buffer 0x27F549 0)
  else in_screen (_fb_printStrAt buffer pos_x pos_y 0x27F549 0).

(** [sys_exit] only logs. *)
Definition sys_exit (status : Z) : M machine unit := ret tt.

Definition sys_thread_exit (status : Z) : M machine unit := in_kernel (in_sched (thread_exit status)).

Definition syscall_dispatch (i : inputs) (regs : Z) : M machine Z :=
  let! r := read_regs regs in
  let sc_num := u32 r.(rdi) in
  if sc_num =? SYS_EXAMPLE then do! in_screen (_fb_printStrAt i.(in_hello) 0 15 0xf5c4f1 0) in ret regs
  else if sc_num =? SYS_OPEN then let! _ := sys_open r.(rsi) (i32 r.(rdx)) in ret regs
  else if sc_num =? SYS_READ then
    let! bytes_read := sys_read i regs (i32 r.(rsi)) r.(rdx) r.(rcx) in
    read_result regs bytes_read
  else if sc_num =? SYS_PRINT then do! sys_print r.(rsi) r.(rdx) r.(rcx) r.(r8) in ret regs
  else if sc_num =? SYS_EXIT then
    do! sys_thread_exit (i32 r.(rsi)) in in_kernel (in_sched (schedule regs))
  else do! write_rax regs (u64 E_NO_SYSCALL) in ret regs.

(** [interrupts_handler]. After a page fault or a protection fault the processor is
    stopped until the next interrupt, and the thread resumes where it was. *)
Definition interrupts_handler (i : inputs) (status : Z) : M machine Z :=
  let! r := read_regs status in
  let n := r.(interrupt_number) in
  if n =? PAGE_FAULT then
    let! _ := in_kernel (in_tables (page_fault_handler i.(in_cr2) r.(error_code))) in ret status
  else if n =? GENERAL_PROTECTION then ret status
  else if n =? APIC_TIMER_INTERRUPT then timer_case status
  else if n =? APIC_SPURIOUS_INTERRUPT then do! end_of_interrupt in ret status
  else if n =? KEYBOARD_INTERRUPT then
    do! in_keyboard (handle_keyboard_interrupt i.(in_scancode)) in
    do! end_of_interrupt in ret status
  else if n =? PIT_INTERRUPT then
    do! in_apic pit_irq_handler in
    do! end_of_interrupt in ret status
  else if n =? SYSCALL_VECTOR_NUMBER then syscall_dispatch i status
  else throw Halted.
End Machine.

(** ** Witnesses *)

(** A screen of five columns and five lines with its font behind it, and two places of
    three bytes for a read. *)
Definition echo_font : list Z := [0x36; 0x04; 0; 4] ++ repeat 0x55 1024.
Definition echo_memory : memory :=
  list_to_map (zip (seqZ 0x1000 3200) (repeat 7 3200)) ∪ list_to_map (zip (seqZ 0x3000 1028) echo_font) ∪
  {[500 := 0; 501 := 0; 502 := 0]} ∪ {[0xffff800280a00000 := 0; 0xffff800280a00001 := 0; 0xffff800280a00002 := 0]}.
Definition echo_screen : fb_state :=
  mk_fb (mk_fb_info 0x1000 32 160 3200 40 20 5 5 0xE0000000) 0 0 (mk_window 0 0 40 20) (mk_window 0 0 0 0) false PSF_V1 0x3000 echo_memory.
Definition sample_read : pending_operation_t := mk_operation 500 3 0 false 0.
Definition sample_devices : devices_state := mk_devices 1 (mk_device 0 no_function ps2_keyboard_read).
Definition sample_keyboard : keyboard_state fb_state :=
  mk_keyboard (repeat (mk_key 0 false 0) 19) 17 0 false 1 false {[64 := sample_read]} 64 64 sample_devices echo_screen.

Lemma echo_screen_room k : (k <= 5)%nat -> console_room echo_screen k.
Proof.
  intros Hk. exists 1028, 8, 4, 0x3004, 4. split; [|split; [|split_and!; simpl; unfold screen_size; simpl; (reflexivity || lia)]].
  - constructor; try (simpl; unfold sizeof_PIXEL; lia).
    + assert (map_Forall (fun _ b => 0 <= b < 256) echo_memory) as Hall; [|exact Hall]. apply (bool_decide_unpack _). vm_compute. exact I.
    + apply present_check_ok. vm_compute. reflexivity.
  - constructor.
    + apply present_check_ok. vm_compute. reflexivity.
    + simpl. split_and!; try lia. vm_compute. discriminate.
    + left. split; [done|]. split; [done|]. split; [done|]. split; [vm_compute; reflexivity|]. done.
Qed.

Lemma echo_place a : a = 500 \/ a = 0xffff800280a00000 -> forall i, 0 <= i < 3 -> is_Some (echo_memory !! (a + i)) /\ ~ console_area echo_screen (a + i).
Proof.
  intros Ha i Hi. split.
  - assert (i = 0 \/ i = 1 \/ i = 2) as Hc by lia. destruct Ha as [-> | ->]; destruct Hc as [-> |[-> | ->]]; vm_compute; eauto.
  - change (~ console_addresses echo_screen (font_length echo_screen) (a + i)).
    assert (font_length echo_screen = 1028) as -> by (vm_compute; reflexivity).
    unfold console_addresses, screen_size. simpl. lia.
Qed.

Lemma echo_apart : ~ console_area echo_screen 501 /\ ~ console_area echo_screen 502.
Proof. split; [apply (echo_place 500 ltac:(by left) 1)|apply (echo_place 500 ltac:(by left) 2)]; lia. Qed.
Lemma echo_written : write_text echo_memory 500 [0; 65; 98] !! 501 = Some 65 /\ write_text echo_memory 500 [0; 65; 98] !! 502 = Some 98.
Proof. split; vm_compute; reflexivity. Qed.

(** Left shift, A, release of both, B: the text is 0, 65, 98. *)
Lemma keyboard_fills_read_witness :
  exists s', handle_all [0x2A; 0x1E; 0x9E; 0xAA; 0x30] sample_keyboard = Ret (tt, s') /\ keyboard_ok s' /\
    s'.(_ps2_op_head) = 0 /\ kb_memory s' !! 501 = Some 65.
Proof.
  destruct (keyboard_fills_read sample_keyboard [0x2A; 0x1E; 0x9E; 0xAA; 0x30] 0 false [0; 65; 98] sample_read)
    as (s' & Hrun & Hok & _ & _ & _ & Hmem & _ & Hhead & _).
  - split; [done|split; [done|by right]].
  - repeat constructor; lia.
  - unfold waiting. split; [done|]. split; [done|]. split; [done|]. split; [done|]. split; [done|]. exact (echo_place 500 ltac:(by left)).
  - apply echo_screen_room; simpl; lia.
  - vm_compute. reflexivity.
  - simpl. lia.
  - exists s'. split; [exact Hrun|]. split; [exact Hok|]. rewrite Hhead. split; [done|].
    exact (eq_trans (Hmem 501 (proj1 echo_apart)) (proj1 echo_written)).
Defined.

(** A keyboard no read waits for. *)
Definition empty_keyboard : keyboard_state fb_state :=
  mk_keyboard (repeat (mk_key 0 false 0) 19) 17 0 false 1 false ∅ 0 0 sample_devices echo_screen.
