(* ===== verification/Calls.v ===== *)
(** System calls from end to end: a read with its waiting ([interrupts_handler],
    [syscall_dispatch], [sys_read] and [scheduler_yield] over the scheduler, the heap, the
    page tables, the keyboard and the screen), the exit of a thread, and what the dispatch refuses. *)
From S2P Require Import Prelude VmmUtil Mmap Bitmap Pmm Kheap Paging Boot Vmm Scheduler CString Bytes Window Console Framebuffer.
From S2P Require Import Keyboard Elf Task Spawn SchedRun Acpi Idt Apic Vfs Syscalls.

(** ** Runs of the parts in the machine *)

Section Machine.
Context `{PageConfig} {D L : Type} `{Registers D} `{Registers L}.
Implicit Types (s : machine (D := D) (L := L)) (k : kernel_state) (q : keyboard_state fb_state).

Lemma in_kernel_run {A} (m : M kernel_state A) s (a : A) k :
  m s.(mc_kernel) = Ret (a, k) -> in_kernel m s = Ret (a, set_mc_kernel k s).
Proof. intros E. unfold in_kernel, zoom. by rewrite E. Qed.

Lemma in_kernel_reads {A} (m : M kernel_state A) s (a : A) :
  m s.(mc_kernel) = Ret (a, s.(mc_kernel)) -> in_kernel m s = Ret (a, s).
Proof. intros E. rewrite (in_kernel_run m s a _ E). by destruct s. Qed.

Lemma in_keyboard_run {A} (m : M (keyboard_state fb_state) A) s (a : A) q :
  m (mc_input s) = Ret (a, q) -> in_keyboard m s = Ret (a, set_mc_input q s).
Proof. intros E. unfold in_keyboard, zoom. by rewrite E. Qed.

(** The keyboard finds the memory it left. *)
Lemma mc_input_set q s : mc_input (set_mc_input q s) = q.
Proof. destruct q as [? ? ? ? ? ? ? ? ? ? []]. done. Qed.

Lemma set_mc_input_twice q q' s : set_mc_input q' (set_mc_input q s) = set_mc_input q' s.
Proof. by destruct s as [[]]. Qed.

(** The registers of a call. *)
Lemma read_regs_run s p r : p <> 0 -> s.(mc_kernel).(ks_frames) !! p = Some r -> read_regs p s = Ret (r, s).
Proof. intros Hp Hr. unfold read_regs, bind, get. destruct (Z.eqb_spec p 0); [done|]. by rewrite Hr. Qed.

Definition put_frame (p : Z) (r : cpu_status_t) s : machine (D := D) (L := L) :=
  set_mc_kernel (set_ks_frames (<[p := r]> s.(mc_kernel).(ks_frames)) s.(mc_kernel)) s.

Lemma write_rax_run s p r v : p <> 0 -> s.(mc_kernel).(ks_frames) !! p = Some r ->
  write_rax p v s = Ret (tt, put_frame p (set_rax v r) s).
Proof.
  intros Hp Hr. unfold write_rax. rewrite (bind_run _ _ _ _ _ (read_regs_run s p r Hp Hr)). apply in_kernel_run.
  unfold write_frame. by destruct (Z.eqb_spec p 0).
Qed.

(** Two steps of the scheduler. *)
Lemma in_sched_seq (m1 : M sched_state unit) (m2 : M sched_state Z) s (a : Z) (x : sched_state) :
  (do! m1 in m2) s.(mc_kernel).(ks_sched) = Ret (a, x) ->
  (do! in_kernel (in_sched m1) in in_kernel (in_sched m2)) s = Ret (a, set_mc_kernel (set_ks_sched x s.(mc_kernel)) s).
Proof.
  unfold in_kernel, in_sched, zoom, bind. destruct (m1 _) as [[[] y]| |]; [|done|done]. simpl. intros E. by rewrite E.
Qed.

(** The handler of an interrupt that is a system call. *)
Lemma handle_call inp s p r : p <> 0 -> s.(mc_kernel).(ks_frames) !! p = Some r -> r.(interrupt_number) = SYSCALL_VECTOR_NUMBER ->
  interrupts_handler inp p s = syscall_dispatch inp p s.
Proof.
  intros Hp Hr Hint. unfold interrupts_handler. rewrite (bind_run _ _ _ _ _ (read_regs_run s p r Hp Hr)). cbv zeta. by rewrite Hint.
Qed.

(** ** Calls that are refused *)

(** C36: What the dispatch of system calls refuses. A number that is no system call, and a
    read of a descriptor that is not one, leave -1 in [rax]; a read of a descriptor other
    than the standard input leaves 0. The memory of the caller, the heap and everything
    else but that register stay as they are. *)
Theorem syscall_dispatch_refuses inp p r s :
  p <> 0 -> s.(mc_kernel).(ks_frames) !! p = Some r ->
  (u32 r.(rdi) ∉ [SYS_EXAMPLE; SYS_OPEN; SYS_READ; SYS_PRINT; SYS_EXIT] \/
   u32 r.(rdi) = SYS_READ /\ i32 r.(rsi) <> 0) ->
  syscall_dispatch inp p s =
    Ret (p, put_frame p (set_rax (if (u32 r.(rdi) =? SYS_READ) && (0 <=? i32 r.(rsi)) && (i32 r.(rsi) <? OPENEDFILES_MAX)
                                  then 0 else 2 ^ 64 - 1) r) s).
Proof.
  intros Hp Hr Hc. unfold syscall_dispatch. rewrite (bind_run _ _ _ _ _ (read_regs_run s p r Hp Hr)). cbv zeta.
  destruct Hc as [Hno|[-> Hfd]].
  - rewrite !not_elem_of_cons in Hno. destruct Hno as (N1 & N2 & N3 & N4 & N5 & _).
    repeat match goal with |- context [u32 ?x =? ?y] => destruct (Z.eqb_spec (u32 x) y); [done|] end.
    by rewrite (bind_run _ _ _ _ _ (write_rax_run s p r _ Hp Hr)).
  - change (SYS_READ =? SYS_EXAMPLE) with false. change (SYS_READ =? SYS_OPEN) with false. change (SYS_READ =? SYS_READ) with true.
    cbv iota. rewrite andb_true_l. unfold sys_read.
    destruct ((0 <=? i32 r.(rsi)) && (i32 r.(rsi) <? OPENEDFILES_MAX)).
    + destruct (Z.eqb_spec (i32 r.(rsi)) 0); [done|]. rewrite (bind_run _ _ _ _ _ (eq_refl : ret (inl 0) s = Ret (inl 0, s))).
      unfold read_result. by rewrite (bind_run _ _ _ _ _ (write_rax_run s p r _ Hp Hr)).
    + rewrite (bind_run _ _ _ _ _ (eq_refl : ret (inl (-1)) s = Ret (inl (-1), s))).
      unfold read_result. by rewrite (bind_run _ _ _ _ _ (write_rax_run s p r _ Hp Hr)).
Qed.

(** ** The exit of a thread *)

(** The thread [c] has ended with the status [code]. *)
Definition exited (x : sched_state) (c code : Z) : Prop :=
  exists t, x.(threads) !! c = Some t /\ t.(status) = DEAD /\ t.(thread_exit_code) = code.

(** The running thread is alive and the frame [r] is the one it was interrupted in. *)
Definition resumes (x : sched_state) (r : Z) : Prop :=
  exists t, x.(threads) !! x.(current_executing_thread) = Some t /\ t.(status) = RUN /\ t.(execution_frame) = r /\ r <> 0.

Lemma exit_call_run inp p r s l : p <> 0 -> s.(mc_kernel).(ks_frames) !! p = Some r -> u32 r.(rdi) = SYS_EXIT ->
  sched_good s.(mc_kernel).(ks_sched) l ->
  s.(mc_kernel).(ks_sched).(current_executing_thread) <> s.(mc_kernel).(ks_sched).(idle_thread) ->
  exists r' x l', syscall_dispatch inp p s = Ret (r', set_mc_kernel (set_ks_sched x s.(mc_kernel)) s) /\
    sched_good x l' /\ x.(current_executing_thread) <> s.(mc_kernel).(ks_sched).(current_executing_thread) /\
    resumes x r' /\ exited x s.(mc_kernel).(ks_sched).(current_executing_thread) (i32 r.(rsi)).
Proof.
  intros Hp Hr Hnum Hg Hc.
  destruct (good_exit _ l (i32 r.(rsi)) p Hg Hc Hp) as (r' & x & l' & Hrun & Hg' & Hr' & Hne & (tx & Htx & Efr & Est) & Hdead).
  exists r', x, l'. split; [|split; [done|split; [done|split; [by exists tx|done]]]].
  unfold syscall_dispatch. rewrite (bind_run _ _ _ _ _ (read_regs_run s p r Hp Hr)). cbv zeta. rewrite Hnum.
  change (SYS_EXIT =? SYS_EXAMPLE) with false. change (SYS_EXIT =? SYS_OPEN) with false. change (SYS_EXIT =? SYS_READ) with false.
  change (SYS_EXIT =? SYS_PRINT) with false. change (SYS_EXIT =? SYS_EXIT) with true. cbv iota. by apply in_sched_seq.
Qed.

(** C15: An exit system call of a thread other than the idle one. The thread is dead from
    then on, with its exit status; another thread that is alive runs instead, and the
    interrupt returns to that thread's frame. The list of threads stays whole, and
    nothing but the scheduler changes. *)
Theorem exit_call_switches inp p r s l :
  p <> 0 -> s.(mc_kernel).(ks_frames) !! p = Some r -> r.(interrupt_number) = SYSCALL_VECTOR_NUMBER -> u32 r.(rdi) = SYS_EXIT ->
  sched_good s.(mc_kernel).(ks_sched) l ->
  let c := s.(mc_kernel).(ks_sched).(current_executing_thread) in
  c <> s.(mc_kernel).(ks_sched).(idle_thread) ->
  exists r' x l', interrupts_handler inp p s = Ret (r', set_mc_kernel (set_ks_sched x s.(mc_kernel)) s) /\
    sched_good x l' /\ x.(current_executing_thread) <> c /\
    resumes x r' /\ exited x c (i32 r.(rsi)).
Proof.
  intros Hp Hr Hint Hnum Hg c Hc. rewrite (handle_call inp s p r Hp Hr Hint). by apply (exit_call_run _ p r s l).
Qed.

(** ** A thread that yields *)

(** The frame that a yield pushes. *)
Definition yielded (frame : Z) (saved : cpu_status_t) s : machine (D := D) (L := L) :=
  put_frame frame (interrupt_regs APIC_TIMER_INTERRUPT saved) s.

(** [scheduler_yield] is the interrupt of the timer, at the frame it pushes. *)
Lemma yield_interrupts inp frame saved s : frame <> 0 ->
  scheduler_yield frame saved s = interrupts_handler inp frame (yielded frame saved s).
Proof.
  intros Hf. unfold scheduler_yield, interrupts_handler.
  rewrite (bind_run _ _ s tt (yielded frame saved s)) by (apply in_kernel_run; unfold write_frame; by destruct (Z.eqb_spec frame 0)).
  rewrite (bind_run _ _ _ _ _ (read_regs_run (yielded frame saved s) frame (interrupt_regs APIC_TIMER_INTERRUPT saved) Hf (lookup_insert_eq _ _ _))). done.
Qed.

(** What the timer's interrupt does to the interrupt controllers. *)
Definition timer_apic : M (apic_state D L) unit :=
  do! timer_handler_flag in write_apic_register APIC_EOI_REGISTER_OFFSET 0.

Lemma end_run (a : apic_state D L) : exists a', write_apic_register APIC_EOI_REGISTER_OFFSET 0 a = Ret (tt, a').
Proof. unfold write_apic_register, bind, get, wrmsr, modify. destruct (apicInX2Mode a); by eexists. Qed.

(** The state after a timer interrupt: other threads to run, and the controllers. *)
Definition switched (x : sched_state) (a' : apic_state D L) s : machine (D := D) (L := L) :=
  set_mc_apic a' (set_mc_kernel (set_ks_sched x s.(mc_kernel)) s).

Lemma timer_case_run frame s lq : sched_good s.(mc_kernel).(ks_sched) lq -> frame <> 0 ->
  exists v x a' l', timer_case frame s = Ret (v, switched x a' s) /\ v <> 0 /\ sched_good x l' /\
    timer_interrupt frame s.(mc_kernel).(ks_sched) = Ret (v, x) /\ timer_apic s.(mc_apic) = Ret (tt, a').
Proof.
  intros Hg Hf. destruct (good_timer _ lq frame Hg Hf) as (v & x & l' & Hrun & Hv & Hg').
  set (a1 := set_pit (if s.(mc_apic).(pit_timer_counter) =? 0 then 1 else 0) s.(mc_apic).(pitTicks) s.(mc_apic)).
  destruct (end_run a1) as [a' Ha]. exists v, x, a', l'. split; [|done].
  unfold timer_case. rewrite (bind_run _ _ s tt (set_mc_apic a1 s)) by done.
  assert (in_sched (timer_interrupt frame) (set_mc_apic a1 s).(mc_kernel) = Ret (v, set_ks_sched x s.(mc_kernel))) as Hk
    by (unfold in_sched, zoom; simpl; by rewrite Hrun).
  rewrite (bind_run _ _ _ _ _ (in_kernel_run _ _ _ _ Hk)).
  rewrite (bind_run _ _ _ tt (switched x a' s)); [done|]. unfold end_of_interrupt, in_apic, zoom. cbn [mc_apic set_mc_kernel set_mc_apic].
  by rewrite Ha.
Qed.

(** The test of the loop of a read, both ways. *)
Definition normal s : machine (D := D) (L := L) := set_mc_input (mc_input s) s.
Definition parked (frame : Z) (saved : cpu_status_t) (w : waiting_read) s : machine (D := D) (L := L) :=
  yielded frame saved (set_mc_reads (<[frame := w]> s.(mc_reads)) (normal s)).

Lemma operation_read s op o : op <> 0 -> (mc_input s).(operations) !! op = Some o ->
  in_keyboard (read_operation op) s = Ret (o, normal s).
Proof.
  intros Hop Ho. apply in_keyboard_run. unfold read_operation, bind, get. destruct (Z.eqb_spec op 0); [done|]. by rewrite Ho.
Qed.

Lemma loop_yields frame saved w s o lq : sched_good s.(mc_kernel).(ks_sched) lq -> frame <> 0 -> w.(wr_op) <> 0 ->
  (mc_input s).(operations) !! w.(wr_op) = Some o -> o.(op_nbytes) < w.(wr_nbytes) ->
  exists v x a' l', read_loop frame saved w s = Ret (inr v, switched x a' (parked frame saved w s)) /\ v <> 0 /\ sched_good x l' /\
    timer_interrupt frame s.(mc_kernel).(ks_sched) = Ret (v, x) /\ timer_apic s.(mc_apic) = Ret (tt, a').
Proof.
  intros Hg Hf Hop Ho Hlt. destruct (timer_case_run frame (parked frame saved w s) lq Hg Hf) as (v & x & a' & l' & Hrun & Hv & Hg' & Ht & Ha).
  exists v, x, a', l'. split; [|done]. unfold read_loop.
  rewrite (bind_run _ _ _ _ _ (operation_read s _ o Hop Ho)). destruct (Z.ltb_spec o.(op_nbytes) w.(wr_nbytes)); [|lia].
  rewrite (bind_run _ _ _ tt (set_mc_reads (<[frame := w]> s.(mc_reads)) (normal s))) by done.
  unfold scheduler_yield. rewrite (bind_run _ _ _ v (switched x a' (parked frame saved w s))); [done|].
  rewrite (bind_run _ _ _ tt (parked frame saved w s)); [exact Hrun|]. apply in_kernel_run. unfold write_frame. by destruct (Z.eqb_spec frame 0).
Qed.

Lemma loop_ends frame saved w s o n : w.(wr_op) <> 0 -> (mc_input s).(operations) !! w.(wr_op) = Some o -> w.(wr_nbytes) <= o.(op_nbytes) ->
  console_room (mc_input s).(kb_console) (S (S n)) ->
  exists f, new_line (mc_input s).(kb_console) = Ret (tt, f) /\ console_memory f = s.(mc_kernel).(ks_memory) /\
    read_loop frame saved w s = Ret (inl o.(op_nbytes), set_mc_input (set_kb_console f (mc_input s)) s).
Proof.
  intros Hop Ho Hle Hroom. destruct (console_new_line _ n Hroom) as (f & Hline & _ & Hmem). exists f. split; [done|]. split; [exact Hmem|].
  unfold read_loop. rewrite (bind_run _ _ _ _ _ (operation_read s _ o Hop Ho)). destruct (Z.ltb_spec o.(op_nbytes) w.(wr_nbytes)); [lia|].
  rewrite (bind_run _ _ (normal s) tt (set_mc_input (set_kb_console f (mc_input s)) s)); [done|].
  rewrite <- (set_mc_input_twice (mc_input s) (set_kb_console f (mc_input s))). apply in_keyboard_run.
  unfold normal. rewrite mc_input_set. unfold in_console, zoom. change _fb_increaseLine with (new_line (F := fb_state)). by rewrite Hline.
Qed.

(** ** A read of the keyboard *)

(** Bytes one after the other. *)
Lemma decode_all_snoc scs : forall m e sc m2 e2 text, decode_all m e (scs ++ [sc]) = Some (m2, e2, text) ->
  exists m1 e1 t1 ch, decode_all m e scs = Some (m1, e1, t1) /\ decode m1 e1 sc = Some (m2, e2, ch) /\ text = t1 ++ option_list ch.
Proof.
  induction scs as [|sc0 scs IH]; intros m e sc m2 e2 text Hd; cbn [app decode_all] in *.
  - destruct (decode m e sc) as [[[m1 e1] ch]|] eqn:Hd1; [|done]. cbn in Hd. injection Hd as <- <- <-.
    exists m, e, [], ch. by rewrite app_nil_r.
  - destruct (decode m e sc0) as [[[m1 e1] ch]|]; [|done]. cbn in Hd |- *.
    destruct (decode_all m1 e1 (scs ++ [sc])) as [[[m3 e3] t3]|] eqn:Hd3; [|done]. cbn in Hd. injection Hd as <- <- <-.
    destruct (IH _ _ _ _ _ _ Hd3) as (m4 & e4 & t4 & ch4 & -> & Hd4 & ->). exists m4, e4, (option_list ch ++ t4), ch4.
    by rewrite app_assoc.
Qed.

Section Read.
Variables (s : machine (D := D) (L := L)) (inp : inputs) (p : Z) (r : cpu_status_t) (t : thread_t) (i : VmmInfo).
Variables (l l1 l2 : list block) (a b : Z) (taken : gset Z) (R e nbytes : Z).
Let k := s.(mc_kernel).
Let q := mc_input s.
Let frame := inp.(in_frame).

(** The direct-map address of the page of the caller's buffer. *)
Definition read_page : Z :=
  hhdm_translate (tables k).(vm_memory_size) (tables k).(hhdm_base) (Z.land e VM_PAGE_TABLE_BASE_ADDRESS_MASK).

(** What the call needs: registers that ask for bytes from the standard input; a thread
    whose task has the buffer mapped, in a scheduler whose list is whole; a place for
    the frame of a yield other than that of the call; two free blocks in the heap; no
    other read that waits; and the buffer in memory, apart from the screen. *)
Record read_ready : Prop := {
  rr_call : p <> 0 /\ k.(ks_frames) !! p = Some r /\ r.(interrupt_number) = SYSCALL_VECTOR_NUMBER /\
    u32 r.(rdi) = SYS_READ /\ i32 r.(rsi) = 0 /\ r.(rcx) = nbytes;
  rr_thread : k.(ks_sched).(current_executing_thread) <> 0 /\
    k.(ks_sched).(threads) !! k.(ks_sched).(current_executing_thread) = Some t /\ t.(parent_task) <> 0 /\ info_of k.(ks_heap).(heap_vmm) t.(parent_task) = Some i;
  rr_sched : (exists lq, sched_good k.(ks_sched) lq) /\ frame <> 0 /\ frame <> p;
  rr_heap : heap_inv k.(ks_heap) l /\ alloc_blocks (real_size sizeof_pending_operation_t) l = Some (a, l1) /\
    alloc_blocks (real_size sizeof_userspace_buffer_t) l1 = Some (b, l2);
  rr_tables : vm_ok taken R (tables k) /\ i.(root_table_hhdm) = R + (tables k).(hhdm_base) /\ PML4_ENTRY r.(rdx) <> 510 /\
    mapping (tables k).(phys) R r.(rdx) = Some e /\ read_page <> 0;
  rr_keyboard : keyboard_ok q /\ q.(_ps2_op_head) = 0;
  rr_buffer : 0 < nbytes < 2 ^ 64 /\
    forall j, 0 <= j < nbytes -> is_Some (k.(ks_memory) !! (read_page + j)) /\ ~ console_area q.(kb_console) (read_page + j);
}.
Let op := a + header_size.
Let w := mk_waiting op nbytes p.

(** The kernel once the two structures are allocated. *)
Lemma read_allocates : read_ready -> exists k', heap_inv k'.(ks_heap) l2 /\ op <> 0 /\
  k'.(ks_sched) = k.(ks_sched) /\ k'.(ks_frames) = k.(ks_frames) /\ k'.(ks_memory) = k.(ks_memory) /\
  k'.(ks_heap).(heap_vmm) = k.(ks_heap).(heap_vmm) /\
  forall (K : Z -> Z -> M (machine (D := D) (L := L)) (Z + Z)),
    (let! current := gets (fun s => s.(mc_kernel).(ks_sched).(current_executing_thread)) in
     let! thread := in_kernel (in_sched (read_thread current)) in
     do! (if thread.(parent_task) =? 0 then throw NullDeref else ret tt) in
     let! vmm_info := in_kernel (in_vmm (get_info thread.(parent_task))) in
     let! new_pending_operation := in_kernel (in_heap (kmalloc sizeof_pending_operation_t)) in
     let! userspace_buffer := in_kernel (in_heap (kmalloc sizeof_userspace_buffer_t)) in
     if (new_pending_operation =? 0) || (userspace_buffer =? 0) then throw Halted
     else
       let! buffer_virtual := in_kernel (in_tables (vm_copy_from_different_space r.(rdx) vmm_info.(root_table_hhdm))) in
       if buffer_virtual =? 0 then ret (inl 0) else K new_pending_operation buffer_virtual) s = K op read_page (set_mc_kernel k' s).
Proof.
  intros [Hcall (Hc & Ht & Hpt & Hi) _ (Hinv & Ha & Hb) (Hok & Hroot & Hne & Hmap & Hpage) _ _].
  set (V := k.(ks_heap).(heap_vmm)). set (X := k.(ks_sched)). set (fr := k.(ks_frames)).
  pose proof (heap_at_same k l Hinv) as Hat.
  destruct (kmalloc_part k _ _ V X fr l sizeof_pending_operation_t a l1 Hat) as (Ha0 & Ha1 & h1 & e1 & Hrun1 & Hat1); [unfold sizeof_pending_operation_t; lia|done|].
  destruct (kmalloc_part k h1 e1 V X fr l1 sizeof_userspace_buffer_t b l2 Hat1) as (Hb0 & Hb1 & h2 & e2 & Hrun2 & Hat2); [unfold sizeof_userspace_buffer_t; lia|done|].
  assert (put_parts k.(ks_heap).(nodes) k.(ks_heap).(kernel_heap_end) V X fr k = k) as Ek by apply put_parts_same. rewrite Ek in Hrun1.
  exists (put_parts h2 e2 V X fr k). split; [exact Hat2|]. split; [lia|]. do 4 (split; [done|]). intros K.
  rewrite (bind_run _ _ _ _ _ (eq_refl : gets _ s = Ret (_, s))).
  pose proof (sched_part _ k k.(ks_heap).(nodes) k.(ks_heap).(kernel_heap_end) V X fr _ _ (read_thread_run X _ t Hc Ht)) as Hread.
  pose proof (vmm_part _ k k.(ks_heap).(nodes) k.(ks_heap).(kernel_heap_end) V X fr _ _ (get_info_run V _ i Hi)) as Hinfo.
  rewrite Ek in Hread, Hinfo.
  rewrite (bind_run _ _ _ _ _ (in_kernel_reads _ s _ Hread)).
  destruct (Z.eqb_spec t.(parent_task) 0); [done|]. rewrite (bind_run _ _ _ _ _ (eq_refl : ret tt s = Ret (tt, s))).
  rewrite (bind_run _ _ _ _ _ (in_kernel_reads _ s _ Hinfo)).
  rewrite (bind_run _ _ _ _ _ (in_kernel_run _ s _ _ Hrun1)).
  rewrite (bind_run _ _ _ _ _ (in_kernel_run _ (set_mc_kernel (put_parts h1 e1 V X fr k) s) _ _ Hrun2)).
  destruct (Z.eqb_spec (a + header_size) 0); [lia|]. destruct (Z.eqb_spec (b + header_size) 0); [lia|]. cbv iota beta delta [orb].
  pose proof (vm_copy_run taken R (tables k) r.(rdx) Hok Hne) as Hcopy. rewrite Hmap, <- Hroot in Hcopy.
  pose proof (tables_part _ k h2 e2 V X fr _ _ Hcopy) as Hrun3.
  change (set_vmm_vm (tables k) V) with (set_vmm_vm V.(vmm_vm) V) in Hrun3. rewrite set_vmm_vm_same in Hrun3.
  rewrite (bind_run _ _ _ _ _ (in_kernel_run _ (set_mc_kernel (put_parts h2 e2 V X fr k) s) _ _ Hrun3)).
  fold read_page. by destruct (Z.eqb_spec read_page 0).
Qed.

(** The keyboard with the operation on its list. *)
Definition queued (k0 : keyboard_state fb_state) : keyboard_state fb_state :=
  set_op_list op op (set_operations (<[op := mk_operation read_page nbytes 0 false 0]> k0.(operations)) k0).

Lemma queue_run (k0 : keyboard_state fb_state) : op <> 0 -> 0 < nbytes -> k0.(_ps2_op_head) = 0 ->
  keyboard_queue op read_page nbytes k0 = Ret (tt, queued k0).
Proof.
  intros Hop Hn Hh. unfold keyboard_queue. destruct (Z.ltb_spec 0 nbytes); [|lia].
  unfold write_operation, _ps2_keyboard_add_operation, bind, modify, get. destruct (Z.eqb_spec op 0); [done|]. simpl. by rewrite Hh.
Qed.

(** The call up to the first yield. *)
Lemma read_starts : read_ready -> exists k' v x a' lq,
  heap_inv k'.(ks_heap) l2 /\ op <> 0 /\
  k'.(ks_sched) = k.(ks_sched) /\ k'.(ks_frames) = k.(ks_frames) /\ k'.(ks_memory) = k.(ks_memory) /\
  k'.(ks_heap).(heap_vmm) = k.(ks_heap).(heap_vmm) /\
  interrupts_handler inp p s = Ret (v, switched x a' (parked frame inp.(in_saved) w (set_mc_input (queued q) (set_mc_kernel k' s)))) /\
  v <> 0 /\ sched_good x lq /\ timer_interrupt frame k.(ks_sched) = Ret (v, x) /\ timer_apic s.(mc_apic) = Ret (tt, a').
Proof.
  intros Hready. destruct (read_allocates Hready) as (k' & Hinv & Hop & Esched & Efr & Emem & Evmm & Hrun1).
  pose proof Hready as [(Hp & Hr & Hint & Hnum & Hfd & Hcx) _ ([lq Hg] & Hf & _) _ _ (Hok & Hhead) (Hnb & _)].
  set (s1 := set_mc_input (queued q) (set_mc_kernel k' s)).
  assert (mc_input (set_mc_kernel k' s) = q) as Eq by (unfold mc_input, q; simpl; by rewrite Emem).
  assert (mc_input s1 = queued q) as E1 by apply mc_input_set.
  destruct (loop_yields frame inp.(in_saved) w s1 (mk_operation read_page nbytes 0 false 0) lq) as (v & x & a' & l' & Hrun2 & Hv & Hg' & Ht & Ha);
    [simpl; by rewrite Esched|done|done|rewrite E1; apply lookup_insert_eq|simpl; lia|].
  exists k', v, x, a', l'. do 6 (split; [done|]). split; [|split; [done|split; [done|split; [|done]]]].
  2: { rewrite <- Esched. exact Ht. }
  rewrite (handle_call inp s p r Hp Hr Hint).
  unfold syscall_dispatch. rewrite (bind_run _ _ _ _ _ (read_regs_run s p r Hp Hr)). cbv zeta. rewrite Hnum.
  change (SYS_READ =? SYS_EXAMPLE) with false. change (SYS_READ =? SYS_OPEN) with false. change (SYS_READ =? SYS_READ) with true. cbv iota.
  rewrite (bind_run _ _ s (inr v) (switched x a' (parked frame inp.(in_saved) w s1))); [done|].
  unfold sys_read. rewrite Hfd, Hcx. change ((0 <=? 0) && (0 <? OPENEDFILES_MAX)) with true. cbv iota. change (0 =? 0) with true. cbv iota.
  etransitivity; [|exact Hrun2]. unfold sys_read_keyboard.
  rewrite (Hrun1 (fun op page => do! in_keyboard (keyboard_queue op page nbytes) in
                                 read_loop inp.(in_frame) inp.(in_saved) (mk_waiting op nbytes p))).
  rewrite (bind_run _ _ _ tt s1); [done|]. apply in_keyboard_run. rewrite Eq. by apply queue_run; [|lia|].
Qed.
(** What the interrupts, the other threads and the other calls may do while the thread
    waits: anything that leaves the list of threads whole and keeps the state the thread
    yielded in, the frame of its call, the keyboard with the operation, the place of the
    screen and its room, and the bytes of the buffer. *)
Record undisturbed (s2 s3 : machine (D := D) (L := L)) : Prop := {
  un_sched : exists lq, sched_good s3.(mc_kernel).(ks_sched) lq;
  un_read : s3.(mc_reads) !! frame = s2.(mc_reads) !! frame;
  un_frame : s3.(mc_kernel).(ks_frames) !! p = s2.(mc_kernel).(ks_frames) !! p;
  un_ring : keyboard_ok (mc_input s3);
  un_modifiers : s3.(mc_keyboard).(current_modifiers) = s2.(mc_keyboard).(current_modifiers) /\
    s3.(mc_keyboard).(extended_read) = s2.(mc_keyboard).(extended_read);
  un_operation : s3.(mc_keyboard).(operations) !! op = s2.(mc_keyboard).(operations) !! op /\
    s3.(mc_keyboard).(_ps2_op_head) = s2.(mc_keyboard).(_ps2_op_head);
  un_screen : (forall c, console_area (mc_input s3).(kb_console) c <-> console_area (mc_input s2).(kb_console) c) /\
    forall n, console_room (mc_input s2).(kb_console) n -> console_room (mc_input s3).(kb_console) n;
  un_buffer : forall j, 0 <= j < nbytes -> s3.(mc_kernel).(ks_memory) !! (read_page + j) = s2.(mc_kernel).(ks_memory) !! (read_page + j);
}.

(** The time between the yield and the next turn of the thread, with the bytes that came
    from the keyboard in it: interrupts of the keyboard that are handled, at whatever
    frame, and whatever leaves the read undisturbed. *)
Inductive meanwhile (s1 : machine (D := D) (L := L)) : list Z -> machine (D := D) (L := L) -> Prop :=
| mw_start : meanwhile s1 [] s1
| mw_key typed s2 inp' p' r' v s3 :
    meanwhile s1 typed s2 -> s2.(mc_kernel).(ks_frames) !! p' = Some r' -> r'.(interrupt_number) = KEYBOARD_INTERRUPT ->
    0 <= inp'.(in_scancode) < 0x100 -> interrupts_handler inp' p' s2 = Ret (v, s3) ->
    meanwhile s1 (typed ++ [inp'.(in_scancode)]) s3
| mw_other typed s2 s3 : meanwhile s1 typed s2 -> undisturbed s2 s3 -> meanwhile s1 typed s3.

(** The interrupts of the timers, a spurious one, a protection fault, an exit and a call
    that is refused leave a read undisturbed. *)
Lemma undisturbed_parts x a' s2 : (exists lq, sched_good x lq) -> keyboard_ok (mc_input s2) -> undisturbed s2 (switched x a' s2).
Proof. intros Hg Hk. by constructor. Qed.

Lemma signal_undisturbed inp' p' r' s2 v s3 : (exists lq, sched_good s2.(mc_kernel).(ks_sched) lq) -> keyboard_ok (mc_input s2) ->
  s2.(mc_kernel).(ks_frames) !! p' = Some r' ->
  r'.(interrupt_number) ∈ [GENERAL_PROTECTION; APIC_TIMER_INTERRUPT; APIC_SPURIOUS_INTERRUPT; PIT_INTERRUPT] ->
  interrupts_handler inp' p' s2 = Ret (v, s3) -> undisturbed s2 s3.
Proof.
  intros [lq Hg] Hk Hr Hn Hrun. destruct (Z.eqb_spec p' 0) as [->|Hp]; [done|].
  unfold interrupts_handler in Hrun. rewrite (bind_run _ _ _ _ _ (read_regs_run s2 p' r' Hp Hr)) in Hrun. cbv zeta in Hrun.
  assert (forall a0, exists a', end_of_interrupt (set_mc_apic a0 s2) = Ret (tt, switched s2.(mc_kernel).(ks_sched) a' s2)) as Hend.
  { intros a0. destruct (end_run a0) as [a' Ha]. exists a'. unfold end_of_interrupt, in_apic, zoom. cbn [mc_apic set_mc_apic]. rewrite Ha. by destruct s2 as [[]]. }
  rewrite !elem_of_cons in Hn. destruct Hn as [E|[E|[E|[E|[]%not_elem_of_nil]]]]; rewrite E in Hrun.
  - injection Hrun as _ <-. destruct s2 as [[] ? a0 ?]. apply (undisturbed_parts _ a0); [by exists lq|done].
  - destruct (timer_case_run p' s2 lq Hg Hp) as (v' & x' & a' & l' & Hrun' & _ & Hg' & _).
    change (timer_case p' s2 = Ret (v, s3)) in Hrun. rewrite Hrun' in Hrun. injection Hrun as _ <-. apply undisturbed_parts; [by exists l'|done].
  - destruct (Hend s2.(mc_apic)) as [a' Ha]. destruct (Hend s2.(mc_apic)) as [a'' Ha'].
    change ((do! end_of_interrupt in ret p') s2 = Ret (v, s3)) in Hrun. destruct s2 as [k2 q2 a2 w2].
    rewrite (bind_run _ _ _ _ _ Ha) in Hrun. injection Hrun as _ <-. apply undisturbed_parts; [by exists lq|done].
  - change ((do! in_apic pit_irq_handler in do! end_of_interrupt in ret p') s2 = Ret (v, s3)) in Hrun.
    rewrite (bind_run _ _ s2 tt (set_mc_apic _ s2)) in Hrun by (unfold in_apic, zoom; done).
    destruct (Hend (set_pit (if s2.(mc_apic).(pit_timer_counter) =? 0 then 1 else 0) (u32 (s2.(mc_apic).(pitTicks) + 1)) s2.(mc_apic))) as [a' Ha].
    rewrite (bind_run _ _ _ _ _ Ha) in Hrun. injection Hrun as _ <-. apply undisturbed_parts; [by exists lq|done].
Qed.

Lemma frame_undisturbed p' r' s2 : p' <> p -> (exists lq, sched_good s2.(mc_kernel).(ks_sched) lq) -> keyboard_ok (mc_input s2) ->
  undisturbed s2 (put_frame p' r' s2).
Proof. intros Hne Hg Hk. constructor; try done. simpl. by rewrite lookup_insert_ne. Qed.

(** The operation after a text was typed: it got as much of it as it asks for. *)
Definition got (text : list Z) : list Z := take (Z.to_nat nbytes) text.
Definition operation_after (text : list Z) : pending_operation_t :=
  let n := Z.of_nat (length (got text)) in mk_operation read_page nbytes n (n =? nbytes) 0.

Record read_waits (s2 : machine (D := D) (L := L)) (m : Z) (x : bool) (text : list Z) (n : nat) : Prop := {
  rw_sched : exists lq, sched_good s2.(mc_kernel).(ks_sched) lq;
  rw_read : s2.(mc_reads) !! frame = Some w;
  rw_frame : s2.(mc_kernel).(ks_frames) !! p = Some r;
  rw_ring : keyboard_ok (mc_input s2);
  rw_modifiers : s2.(mc_keyboard).(current_modifiers) = m /\ s2.(mc_keyboard).(extended_read) = x;
  rw_operation : s2.(mc_keyboard).(operations) !! op = Some (operation_after text);
  rw_head : s2.(mc_keyboard).(_ps2_op_head) = if Z.of_nat (length (got text)) =? nbytes then 0 else op;
  rw_area : forall c, console_area (mc_input s2).(kb_console) c <-> console_area q.(kb_console) c;
  rw_room : console_room (mc_input s2).(kb_console) n;
  rw_buffer : forall j, 0 <= j < nbytes -> is_Some (s2.(mc_kernel).(ks_memory) !! (read_page + j));
  rw_text : forall j c, got text !! j = Some c -> s2.(mc_kernel).(ks_memory) !! (read_page + Z.of_nat j) = Some (u8 c);
}.

Lemma got_length text : 0 <= nbytes -> Z.of_nat (length (got text)) = Z.min nbytes (Z.of_nat (length text)).
Proof. intros Hn. unfold got. rewrite length_take. lia. Qed.

Lemma waits_undisturbed s2 s3 m x text n : undisturbed s2 s3 -> read_waits s2 m x text n -> read_waits s3 m x text n.
Proof.
  intros [Us Ur Uf Uk [Um Ux] [Uo Uh] [Ua Un] Ub] [Ws Wr Wf Wk [Wm Wx] Wo Wh Wa Wn Wb Wt].
  constructor; try congruence; try done.
  - split; congruence.
  - intros c. by rewrite Ua.
  - by apply Un.
  - intros j Hj. rewrite Ub by done. by apply Wb.
  - intros j c Hj. rewrite Ub; [by apply Wt|]. apply lookup_lt_Some in Hj. unfold got in Hj. rewrite length_take in Hj. lia.
Qed.

(** The end of the interrupt changes only the controllers. *)
Lemma waits_apic s2 a' m x text n : read_waits s2 m x text n -> read_waits (set_mc_apic a' s2) m x text n.
Proof. by intros []. Qed.

Hypothesis Hready : read_ready.

Lemma buffer_apart j : 0 <= j < nbytes -> ~ console_area q.(kb_console) (read_page + j).
Proof. intros Hj. by apply Hready. Qed.

(** One byte of the keyboard. *)
Lemma waits_key s2 m x text sc m' x' ch n : op <> 0 -> 0 <= sc < 0x100 -> decode m x sc = Some (m', x', ch) ->
  read_waits s2 m x text (length (got (text ++ option_list ch)) - length (got text) + n) ->
  exists K, handle_keyboard_interrupt sc (mc_input s2) = Ret (tt, K) /\ read_waits (set_mc_input K s2) m' x' (text ++ option_list ch) n /\
    forall c, ~ console_area q.(kb_console) c -> (forall j, 0 <= j < nbytes -> c <> read_page + j) -> kb_memory K !! c = s2.(mc_kernel).(ks_memory) !! c.
Proof.
  intros Hop Hsc Hd [Ws Wr Wf Wk [Wm Wx] Wo Wh Wa Wn Wb Wt]. pose proof (rr_buffer Hready) as [Hnb _].
  assert (decode (mc_input s2).(current_modifiers) (mc_input s2).(extended_read) sc = Some (m', x', ch)) as Hd'
    by (change (decode s2.(mc_keyboard).(current_modifiers) s2.(mc_keyboard).(extended_read) sc = Some (m', x', ch)); by rewrite Wm, Wx).
  pose proof (got_length text ltac:(lia)) as Lg. pose proof (got_length (text ++ option_list ch) ltac:(lia)) as Lg'. rewrite length_app in Lg'.
  destruct (Z.eqb_spec (Z.of_nat (length (got text))) nbytes) as [Efull|Enf].
  - (* the read is complete: the character goes nowhere *)
    assert (got (text ++ option_list ch) = got text) as Eg.
    { unfold got. rewrite take_app_le; [done|]. lia. }
    rewrite Eg, Nat.sub_diag in Wn. simpl in Wn.
    destruct (handle_step (mc_input s2) sc m' x' ch Wk Hsc Hd') as (lk & pk & Hok & Hstep).
    eexists. split; [apply (Hstep (mc_input s2))|].
    { destruct ch as [c|]; [|done]. unfold deliver. rewrite (bind_run _ _ _ _ _ (eq_refl : get _ = Ret (_, _))). simpl. by rewrite Wh. }
    split; [|done]. constructor; try done; simpl; rewrite ?Eg; try done.
    + unfold operation_after. by rewrite Eg.
    + by rewrite Efull, Z.eqb_refl.
  - (* it waits *)
    assert (waiting (mc_input s2) (operation_after text)) as Hw.
    { unfold waiting. change (_ps2_op_head (mc_input s2)) with s2.(mc_keyboard).(_ps2_op_head). rewrite Wh.
      split; [done|]. split; [exact Wo|]. unfold operation_after. simpl. split; [by apply Z.eqb_neq|]. split; [lia|]. split; [lia|].
      intros j Hj. split; [by apply Wb|]. intros Hc%Wa. by apply (buffer_apart j Hj). }
    assert (got (text ++ option_list ch) = got text ++ option_list ch) as Eg.
    { unfold got in *. rewrite length_take in Enf, Lg. rewrite take_app, (take_ge text) by lia. f_equal.
      apply take_ge. destruct ch; simpl; [lia|lia]. }
    rewrite Eg, length_app in Wn. replace (length (got text) + length (option_list ch) - length (got text))%nat with (length (option_list ch)) in Wn by lia.
    destruct (handle_one (mc_input s2) (operation_after text) sc m' x' ch n Wk Hsc Hw Wn Hd') as (lk & pk & f & Hok & [_ Ta Tm] & Hr & Hrun).
    eexists. split; [exact Hrun|]. cbn [op_buffer_virtual op_nbytes operation_after] in Tm.
    assert (mc_input (set_mc_input (set_buffer lk pk (set_modifiers m' x' (received (operation_after text) (option_list ch) f (mc_input s2)))) s2) =
      set_buffer lk pk (set_modifiers m' x' (received (operation_after text) (option_list ch) f (mc_input s2)))) as E3 by apply mc_input_set.
    rewrite Eg, length_app in Lg'. split.
    2: { intros c Hc Hj. change (console_memory f !! c = s2.(mc_kernel).(ks_memory) !! c). rewrite Tm by (by intros ?%Wa).
         destruct ch as [c'|]; simpl; [|done]. rewrite lookup_insert_ne; [done|]. intros E. apply (Hj (Z.of_nat (length (got text)))); [lia|done]. }
    constructor; try done.
    + cbn [mc_keyboard set_mc_input operations set_buffer set_modifiers received set_op_list set_operations].
      change (_ps2_op_head (mc_input s2)) with s2.(mc_keyboard).(_ps2_op_head). rewrite Wh. rewrite lookup_insert_eq. f_equal.
      unfold operation_after. rewrite Eg, length_app, Nat2Z.inj_add. done.
    + cbn [mc_keyboard set_mc_input _ps2_op_head set_buffer set_modifiers received set_op_list].
      unfold operation_after. cbn [op_nbytes op_length op_next]. change (_ps2_op_head (mc_input s2)) with s2.(mc_keyboard).(_ps2_op_head).
      rewrite Wh, Eg, length_app, Nat2Z.inj_add. done.
    + intros c. rewrite E3. cbn [kb_console set_buffer set_modifiers received set_op_list set_operations set_kb_console]. by rewrite Ta.
    + rewrite E3. exact Hr.
    + intros j Hj. change (is_Some (console_memory f !! (read_page + j))). rewrite Tm; [|intros Hc%Wa; by apply (buffer_apart j Hj)].
      apply write_text_present. by apply Wb.
    + rewrite Eg. intros j c Hj. change (console_memory f !! (read_page + Z.of_nat j) = Some (u8 c)).
      assert (Z.of_nat j < nbytes) by (apply lookup_lt_Some in Hj; rewrite length_app in Hj; destruct ch; simpl in *; lia).
      rewrite Tm by (intros Hc%Wa; by apply (buffer_apart (Z.of_nat j) ltac:(lia))).
      destruct ch as [c'|]; cbn [option_list write_text] in *.
      * apply lookup_snoc_Some in Hj as [[Hl Hj]|[-> ->]]; [|by simpl; rewrite lookup_insert_eq].
        simpl. rewrite lookup_insert_ne by lia. by apply Wt.
      * rewrite app_nil_r in Hj. by apply Wt.
Qed.

Lemma key_case inp' p' r' s2 v s3 : s2.(mc_kernel).(ks_frames) !! p' = Some r' -> r'.(interrupt_number) = KEYBOARD_INTERRUPT ->
  interrupts_handler inp' p' s2 = Ret (v, s3) ->
  exists K a', handle_keyboard_interrupt inp'.(in_scancode) (mc_input s2) = Ret (tt, K) /\ s3 = set_mc_apic a' (set_mc_input K s2).
Proof.
  intros Hr Hn Hrun. destruct (Z.eqb_spec p' 0) as [->|Hp]; [done|].
  unfold interrupts_handler in Hrun. rewrite (bind_run _ _ _ _ _ (read_regs_run s2 p' r' Hp Hr)) in Hrun. cbv zeta in Hrun. rewrite Hn in Hrun.
  change (KEYBOARD_INTERRUPT =? PAGE_FAULT) with false in Hrun. cbv iota in Hrun.
  apply bind_inv in Hrun as ([] & s4 & E1 & E2). unfold in_keyboard, zoom in E1.
  destruct (handle_keyboard_interrupt _ _) as [[[] K]| |]; [|done|done]. injection E1 as <-.
  destruct (end_run (mc_apic (set_mc_input K s2))) as [a' Ha]. unfold end_of_interrupt, in_apic, zoom, bind in E2. rewrite Ha in E2.
  injection E2 as _ <-. by exists K, a'.
Qed.

(** What holds after any such time. *)
Lemma meanwhile_waits s1 typed s2 : op <> 0 -> (forall n, console_room q.(kb_console) n -> read_waits s1 q.(current_modifiers) q.(extended_read) [] n) ->
  meanwhile s1 typed s2 -> forall m x text n,
  decode_all q.(current_modifiers) q.(extended_read) typed = Some (m, x, text) ->
  console_room q.(kb_console) (length (got text) + n) -> read_waits s2 m x text n.
Proof.
  intros Hop Hfirst. induction 1 as [|typed s2 inp' p' r' v s3 _ IH Hr Hn Hsc Hrun|typed s2 s3 _ IH Hu]; intros m x text n Hd Hroom.
  - injection Hd as <- <- <-. unfold got in Hroom. rewrite take_nil in Hroom. by apply Hfirst.
  - destruct (decode_all_snoc _ _ _ _ _ _ _ Hd) as (m1 & x1 & t1 & ch & Hd1 & Hdc & ->).
    destruct (key_case inp' p' r' s2 v s3 Hr Hn Hrun) as (K & a' & HK & ->). apply waits_apic.
    assert (length (got t1) <= length (got (t1 ++ option_list ch)))%nat by (unfold got; rewrite !length_take, length_app; lia).
    destruct (waits_key s2 m1 x1 t1 inp'.(in_scancode) m x ch n Hop Hsc Hdc) as (K' & HK' & Hw & _); [|rewrite HK in HK'; by injection HK' as ->].
    apply IH; [done|]. by replace (length (got t1) + (length (got (t1 ++ option_list ch)) - length (got t1) + n))%nat with
      (length (got (t1 ++ option_list ch)) + n)%nat by lia.
  - apply (waits_undisturbed s2 s3 m x text n Hu). by apply IH.
Qed.

(** The state the first yield leaves. *)
Lemma mc_input_parked x a' saved s1 : mc_input (switched x a' (parked frame saved w s1)) = mc_input s1.
Proof. by destruct s1 as [[] [? ? ? ? ? ? ? ? ? []]]. Qed.

Lemma first_waits k' x a' lq n : op <> 0 -> sched_good x lq -> k'.(ks_frames) = k.(ks_frames) -> console_room q.(kb_console) n ->
  read_waits (switched x a' (parked frame inp.(in_saved) w (set_mc_input (queued q) (set_mc_kernel k' s)))) q.(current_modifiers) q.(extended_read) [] n.
Proof.
  intros Hop Hg Efr Hroom. pose proof Hready as [(_ & Hr & _) _ (_ & _ & Hne) _ _ (Hok & _) (Hnb & Hbuf)].
  set (s1 := set_mc_input (queued q) (set_mc_kernel k' s)).
  assert (mc_input (switched x a' (parked frame inp.(in_saved) w s1)) = queued q) as E by (rewrite mc_input_parked; apply mc_input_set).
  assert ((switched x a' (parked frame inp.(in_saved) w s1)).(mc_keyboard) = queued q) as Ek by (exact (mc_input_set (queued q) (set_mc_kernel k' s))).
  assert (got [] = []) as Eg by apply take_nil. assert ((Z.of_nat 0 =? nbytes) = false) as En by (apply Z.eqb_neq; lia).
  constructor; rewrite ?E, ?Ek; try done.
  - by exists lq.
  - apply lookup_insert_eq.
  - change (<[frame := interrupt_regs APIC_TIMER_INTERRUPT inp.(in_saved)]> k'.(ks_frames) !! p = Some r). rewrite lookup_insert_ne by done. by rewrite Efr.
  - unfold operation_after. rewrite Eg. change (length []) with 0%nat. rewrite En. apply lookup_insert_eq.
  - rewrite Eg. change (length []) with 0%nat. by rewrite En.
  - intros j Hj. by apply (Hbuf j).
  - intros j c. by rewrite Eg.
Qed.

(** The next turn of the thread. *)
Lemma resume_starts inp' s2 m x text n : read_waits s2 m x text n ->
  resume_read inp' frame s2 = (let! res := read_loop frame inp'.(in_saved) w in read_result p res) (set_mc_reads (delete frame s2.(mc_reads)) s2).
Proof. intros Hw. unfold resume_read. rewrite (bind_run get _ s2 s2 s2 eq_refl). by rewrite (rw_read _ _ _ _ _ Hw). Qed.

Lemma resume_waits inp' s2 m x text n : op <> 0 -> read_waits s2 m x text n -> Z.of_nat (length text) < nbytes ->
  exists v s3, resume_read inp' frame s2 = Ret (v, s3) /\ v <> 0 /\
    timer_interrupt frame s2.(mc_kernel).(ks_sched) = Ret (v, s3.(mc_kernel).(ks_sched)) /\ undisturbed s2 s3.
Proof.
  intros Hop Hw Hlt. pose proof Hw as [[lq Hg] Wr Wf Wk _ Wo _ _ _ _ _]. pose proof Hready as [_ _ (_ & Hf & Hne) _ _ _ _].
  set (s2' := set_mc_reads (delete frame s2.(mc_reads)) s2).
  destruct (loop_yields frame inp'.(in_saved) w s2' (operation_after text) lq Hg Hf Hop Wo) as (v & x' & a' & l' & Hrun & Hv & Hg' & Ht & _).
  { unfold operation_after. simpl. rewrite got_length by lia. lia. }
  assert (mc_input (switched x' a' (parked frame inp'.(in_saved) w s2')) = mc_input s2) as E by (rewrite mc_input_parked; done).
  eexists v, _. split; [rewrite (resume_starts inp' s2 m x text n Hw), (bind_run _ _ _ _ _ Hrun); done|]. split; [done|]. split; [exact Ht|].
  constructor; rewrite ?E; try done.
  - by exists l'.
  - rewrite Wr. apply lookup_insert_eq.
  - change (<[frame := interrupt_regs APIC_TIMER_INTERRUPT inp'.(in_saved)]> s2.(mc_kernel).(ks_frames) !! p = s2.(mc_kernel).(ks_frames) !! p).
    by rewrite lookup_insert_ne.
Qed.

(** The state at the end of the call. *)
Definition read_ended (f : fb_state) s2 : machine (D := D) (L := L) :=
  put_frame p (set_rax nbytes r) (set_mc_input (set_kb_console f (mc_input s2)) (set_mc_reads (delete frame s2.(mc_reads)) s2)).

Lemma resume_ends inp' s2 m x text : op <> 0 -> read_waits s2 m x text 2 -> nbytes <= Z.of_nat (length text) ->
  exists f, new_line (mc_input s2).(kb_console) = Ret (tt, f) /\ console_memory f = s2.(mc_kernel).(ks_memory) /\
    resume_read inp' frame s2 = Ret (p, read_ended f s2) /\ s2.(mc_keyboard).(_ps2_op_head) = 0.
Proof.
  intros Hop Hw Hle. pose proof Hw as [_ _ Wf _ _ Wo Wh _ Wn _ _]. pose proof Hready as [(Hp & _) _ _ _ _ _ (Hnb & _)].
  assert (Z.of_nat (length (got text)) = nbytes) as Eg by (rewrite got_length; lia).
  set (s2' := set_mc_reads (delete frame s2.(mc_reads)) s2).
  destruct (loop_ends frame inp'.(in_saved) w s2' (operation_after text) 0 Hop Wo) as (f & Hline & Hmem & Hrun); [unfold operation_after; simpl; lia|exact Wn|].
  exists f. split; [exact Hline|]. split; [exact Hmem|]. split; [|by rewrite Wh, Eg, Z.eqb_refl].
  rewrite (resume_starts inp' s2 m x text 2 Hw), (bind_run _ _ _ _ _ Hrun). unfold operation_after. cbn [read_result op_nbytes].
  rewrite Eg, u64_small by lia.
  by rewrite (bind_run _ _ _ _ _ (write_rax_run (set_mc_input (set_kb_console f (mc_input s2')) s2') p r nbytes Hp Wf)).
Qed.

(** C11: A read system call from end to end, with the waiting. The call takes the two
    structures of the read from the heap, puts the operation at the head of the list of
    the keyboard and yields: the scheduler, the tick counters and the interrupt
    controllers take the step of a timer interrupt, and the processor goes on from the
    frame [v] that this gives. Then other threads run, and interrupts come ([meanwhile]).
    Whatever they are, as long as they leave the read [undisturbed]: each key that is
    typed is handled, and changes no byte outside the screen and the buffer; when the thread is scheduled again before as
    many characters came as the call asks for, it yields again; when they have come, the
    call returns to the caller with their number in [rax], no read is left on the list, and
    the first of the characters typed are in order at the start of the page of the
    caller's buffer (whatever the offset of the buffer in that page). *)
Theorem read_call_returns : exists v s1,
  interrupts_handler inp p s = Ret (v, s1) /\ v <> 0 /\
  timer_interrupt frame k.(ks_sched) = Ret (v, s1.(mc_kernel).(ks_sched)) /\ timer_apic s.(mc_apic) = Ret (tt, s1.(mc_apic)) /\
  heap_inv s1.(mc_kernel).(ks_heap) l2 /\ s1.(mc_kernel).(ks_heap).(heap_vmm) = k.(ks_heap).(heap_vmm) /\
  s1.(mc_kernel).(ks_memory) = k.(ks_memory) /\
  s1.(mc_kernel).(ks_frames) = <[frame := interrupt_regs APIC_TIMER_INTERRUPT inp.(in_saved)]> k.(ks_frames) /\
  s1.(mc_reads) = <[frame := w]> s.(mc_reads) /\ s1.(mc_keyboard) = queued q /\
  forall typed s2 m x text, meanwhile s1 typed s2 ->
    decode_all q.(current_modifiers) q.(extended_read) typed = Some (m, x, text) ->
    console_room q.(kb_console) (length (got text) + 2) ->
    (forall inp' p' r' m' x' ch, p' <> 0 -> s2.(mc_kernel).(ks_frames) !! p' = Some r' -> r'.(interrupt_number) = KEYBOARD_INTERRUPT ->
       0 <= inp'.(in_scancode) < 0x100 -> decode m x inp'.(in_scancode) = Some (m', x', ch) ->
       exists s3, interrupts_handler inp' p' s2 = Ret (p', s3) /\ meanwhile s1 (typed ++ [inp'.(in_scancode)]) s3 /\
         s3.(mc_kernel).(ks_frames) = s2.(mc_kernel).(ks_frames) /\
         forall c, ~ console_area q.(kb_console) c -> (forall j, 0 <= j < nbytes -> c <> read_page + j) ->
           s3.(mc_kernel).(ks_memory) !! c = s2.(mc_kernel).(ks_memory) !! c) /\
    (Z.of_nat (length text) < nbytes -> forall inp', exists v' s3,
       resume_read inp' frame s2 = Ret (v', s3) /\ v' <> 0 /\
       timer_interrupt frame s2.(mc_kernel).(ks_sched) = Ret (v', s3.(mc_kernel).(ks_sched)) /\ meanwhile s1 typed s3) /\
    (nbytes <= Z.of_nat (length text) -> forall inp', exists f,
       new_line (mc_input s2).(kb_console) = Ret (tt, f) /\ console_memory f = s2.(mc_kernel).(ks_memory) /\
       resume_read inp' frame s2 = Ret (p, read_ended f s2) /\ s2.(mc_keyboard).(_ps2_op_head) = 0 /\
       forall j c, take (Z.to_nat nbytes) text !! j = Some c -> s2.(mc_kernel).(ks_memory) !! (read_page + Z.of_nat j) = Some (u8 c)).
Proof.
  destruct (read_starts Hready) as (k' & v & x1 & a' & lq & Hinv & Hop & Esched & Efr & Emem & Evmm & Hrun & Hv & Hg & Ht & Ha).
  set (s1 := switched x1 a' _) in Hrun. exists v, s1. split; [exact Hrun|]. split; [exact Hv|]. split; [exact Ht|]. split; [exact Ha|].
  split; [exact Hinv|]. split; [exact Evmm|]. split; [done|]. split; [by rewrite <- Efr|]. split; [done|].
  split; [exact (mc_input_set (queued q) (set_mc_kernel k' s))|].
  intros typed s2 m x text Hmw Hd Hroom.
  pose proof (meanwhile_waits s1 typed s2 Hop (fun n Hn => first_waits k' x1 a' lq n Hop Hg Efr Hn) Hmw m x text 2 Hd Hroom) as Hw.
  split; [|split].
  - intros inp' p' r' m' x' ch Hp' Hr' Hn' Hsc Hdc.
    destruct (waits_key s2 m x text inp'.(in_scancode) m' x' ch (2 - (length (got (text ++ option_list ch)) - length (got text))) Hop Hsc Hdc)
      as (K & HK & _ & Hmem).
    { replace (_ + _)%nat with 2%nat; [done|]. unfold got. rewrite !length_take, length_app. destruct ch; simpl; lia. }
    destruct (end_run (mc_apic (set_mc_input K s2))) as [a2 Ha2].
    assert (interrupts_handler inp' p' s2 = Ret (p', set_mc_apic a2 (set_mc_input K s2))) as Hrun'.
    { unfold interrupts_handler. rewrite (bind_run _ _ _ _ _ (read_regs_run s2 p' r' Hp' Hr')), Hn'. cbv zeta.
      change ((do! in_keyboard (handle_keyboard_interrupt inp'.(in_scancode)) in do! end_of_interrupt in ret p') s2 = Ret (p', set_mc_apic a2 (set_mc_input K s2))).
      rewrite (bind_run _ _ _ _ _ (in_keyboard_run _ s2 tt K HK)). unfold end_of_interrupt, in_apic, zoom, bind. by rewrite Ha2. }
    eexists. split; [exact Hrun'|]. split; [by eapply mw_key|]. split; [done|exact Hmem].
  - intros Hlt inp'. destruct (resume_waits inp' s2 m x text 2 Hop Hw Hlt) as (v' & s3 & Hrun' & Hv' & Ht' & Hu).
    exists v', s3. do 3 (split; [done|]). by apply (mw_other s1 typed s2).
  - intros Hle inp'. destruct (resume_ends inp' s2 m x text Hop Hw Hle) as (f & Hline & Hmem & Hrun' & Hh).
    exists f. do 4 (split; [done|]). exact (rw_text _ _ _ _ _ Hw).
Qed.
End Read.
End Machine.

(** ** Witnesses *)

(** Shift, A, release of both, B, for a thread that reads three bytes into a buffer that is
    not at the start of its page. *)
Definition read_regs_of (number fd buffer count : Z) : cpu_status_t :=
  mk_cpu_status 0 0 0 0 0 0 0 0 number fd 0 buffer count 0 77 SYSCALL_VECTOR_NUMBER 0 0x400000 0x1B 0 0x500000 0x23.
Definition read_info : VmmInfo :=
  mk_info 0xffff8002c0400000 0xffff81c4c0600000 0xffff81c4c0600000 0xffff800280400000 0x200000 87380 0 0xffff81c4c0600000 1 0
    0xffff8002c0400000 0xffff8002c0400000.
(** The registers of an interrupt of the keyboard, at their own frame. *)
Definition interrupt_regs_of (number : Z) : cpu_status_t :=
  mk_cpu_status 0 0 0 0 0 0 0 0 0 0 0 0 0 0 0 number 0 0x400000 0x1B 0 0x500000 0x23.
Definition read_kernel (call : cpu_status_t) : kernel_state :=
  mk_kernel (spawn_heap (with_info 0x90 read_info (set_vmm_vm mapped_vm sample_vmm))) sample_sched
    (<[0x5000 := call]> {[ 0x7000 := interrupt_regs_of KEYBOARD_INTERRUPT ]}) echo_memory
    0x200000 0xffffffff80100000.
Definition read_machine (call : cpu_status_t) : machine (D := register_file) (L := register_file) :=
  mk_machine (read_kernel call) empty_keyboard sample_apic ∅.
(** What the kernel finds when the byte [sc] comes; a yield pushes its frame at 0x6000. *)
Definition inputs_of (sc : Z) : inputs := mk_inputs 0 sc 0x6000 (interrupt_regs_of 0) 0.
Definition reading : cpu_status_t := read_regs_of SYS_READ 0 0xffff900000001234 3.
Definition blocks_after (size : Z) (l : list block) : list block := after_block (alloc_blocks (real_size size) l).

Lemma mapped_vm_ok : exists taken, @vm_ok large_pages pmm_state _ (@pmm_frame_source_laws large_pages) taken 0x200000 mapped_vm.
Proof.
  destruct (@map_phys_to_virt_addr_hh_maps_gen large_pages pmm_state _ (@pmm_frame_source_laws large_pages)
    {[0x200000]} 0x200000 sample_vm 0 0x800000 0xffff900000000000 3 0 sample_vm_ok) as (s' & taken & _ & _ & _ & Hok & _ & _ & Hrun & _);
    [vm_compute; discriminate|reflexivity|exact sample_vm_supplies|vm_compute; discriminate|lia|reflexivity|].
  rewrite mapped_vm_run in Hrun. exists taken.
  pose proof (f_equal (fun o => match o with Ret (_, v) => v | _ => sample_vm end) Hrun) as E. cbv beta iota in E. rewrite E. exact Hok.
Qed.

Lemma read_machine_page : read_page (read_machine reading) 0x800083 = 0xffff800280a00000.
Proof. unfold read_page. change (tables (mc_kernel (read_machine reading))) with mapped_vm. vm_compute. reflexivity. Qed.

Lemma read_machine_ready taken : @vm_ok large_pages pmm_state _ (@pmm_frame_source_laws large_pages) taken 0x200000 mapped_vm ->
  @read_ready large_pages _ _ (read_machine reading) (inputs_of 0) 0x5000 reading
    (sample_thread 1 RUN 0 0x20) read_info spawn_blocks (blocks_after 32 spawn_blocks) (blocks_after 120 (blocks_after 32 spawn_blocks))
    0x40000000 0x40000070 taken 0x200000 0x800083 3.
Proof.
  intros Hok. constructor.
  - split; [done|]. split; [apply lookup_insert_eq|]. by vm_compute.
  - split; [done|]. split; [change (sample_sched.(threads) !! 0x10 = Some (sample_thread 1 RUN 0 0x20)); vm_compute; reflexivity|].
    split; [done|]. apply info_of_with.
  - split; [exists [0x10; 0x20; 0x30; 0x40]; exact sample_good|]. by split.
  - split; [apply spawn_heap_inv|]. split; vm_compute; reflexivity.
  - change (tables (mc_kernel (read_machine reading))) with mapped_vm. split; [exact Hok|]. split; [vm_compute; reflexivity|].
    split; [vm_compute; discriminate|]. split; [vm_compute; reflexivity|]. by rewrite read_machine_page.
  - split; [|done]. split; [done|split; [done|by right]].
  - split; [done|]. intros j Hj. rewrite read_machine_page.
    by apply echo_place; [right|].
Qed.

(** Shift, A and release of both are not enough: the thread yields again. After B the
    call returns. *)
Lemma read_call_returns_witness : exists v s1 v' s2 s3,
  @interrupts_handler large_pages _ _ _ (inputs_of 0) 0x5000 (read_machine reading) = Ret (v, s1) /\
  @resume_read register_file register_file _ (inputs_of 0) 0x6000 s2 = Ret (v', s3) /\ v' <> 0 /\
  exists s4 s5, @resume_read register_file register_file _ (inputs_of 0) 0x6000 s4 = Ret (0x5000, s5) /\
    s5.(mc_kernel).(ks_frames) !! 0x5000 = Some (set_rax 3 reading) /\ s4.(mc_kernel).(ks_memory) !! 0xffff800280a00001 = Some 65.
Proof.
  destruct mapped_vm_ok as [taken Hok].
  destruct (@read_call_returns large_pages _ _ _ _ _ _ _ _ _ _ _ _ _ _ _ _ _ _ (read_machine_ready taken Hok))
    as (v & s1 & Hrun & _ & _ & _ & _ & _ & _ & Hfr & _ & _ & Hnext).
  assert (s1.(mc_kernel).(ks_frames) !! 0x7000 = Some (interrupt_regs_of KEYBOARD_INTERRUPT)) as Hk1 by (rewrite Hfr; reflexivity).
  pose proof (@mw_start large_pages _ _ _ (read_machine reading) (inputs_of 0) 0x5000 0x40000000 0x800083 3 s1) as M1.
  assert (forall (typed : list Z) (s2 : machine) (m : Z) (x : bool) (text : list Z) (sc m' : Z) (x' : bool) (ch : option Z),
    s2.(mc_kernel).(ks_frames) !! 0x7000 = Some (interrupt_regs_of KEYBOARD_INTERRUPT) ->
    @meanwhile large_pages _ _ _ (read_machine reading) (inputs_of 0) 0x5000 0x40000000 0x800083 3 s1 typed s2 ->
    decode_all 0 false typed = Some (m, x, text) -> (length (got 3 text) <= 3)%nat -> 0 <= sc < 0x100 -> decode m x sc = Some (m', x', ch) ->
    exists s3, @meanwhile large_pages _ _ _ (read_machine reading) (inputs_of 0) 0x5000 0x40000000 0x800083 3 s1 (typed ++ [sc]) s3 /\
      s3.(mc_kernel).(ks_frames) !! 0x7000 = Some (interrupt_regs_of KEYBOARD_INTERRUPT)) as Hkey.
  { intros typed s2 m x text sc m' x' ch Hk M Hd Hl Hsc Hdc.
    destruct (Hnext typed s2 m x text M Hd (echo_screen_room (length (got 3 text) + 2) ltac:(lia))) as (Hty & _).
    destruct (Hty (inputs_of sc) 0x7000 _ m' x' ch ltac:(discriminate) Hk eq_refl Hsc Hdc) as (s3 & _ & M3 & Ef & _).
    exists s3. split; [exact M3|]. by rewrite Ef. }
  destruct (Hkey [] s1 0 false [] 0x2A 1 false (Some 0) Hk1 M1 eq_refl ltac:(simpl; lia) ltac:(lia) eq_refl) as (s2 & M2 & Hk2).
  destruct (Hkey _ s2 1 false [0] 0x1E 1 false (Some 65) Hk2 M2 eq_refl ltac:(simpl; lia) ltac:(lia) eq_refl) as (s3 & M3 & Hk3).
  destruct (Hkey _ s3 1 false [0; 65] 0x9E 1 false None Hk3 M3 eq_refl ltac:(simpl; lia) ltac:(lia) eq_refl) as (s4 & M4 & Hk4).
  destruct (Hkey _ s4 1 false [0; 65] 0xAA 0 false None Hk4 M4 eq_refl ltac:(simpl; lia) ltac:(lia) eq_refl) as (s5 & M5 & Hk5).
  destruct (Hnext _ s5 0 false [0; 65] M5 eq_refl (echo_screen_room 4 ltac:(lia))) as (_ & Hwait & _).
  destruct (Hwait eq_refl (inputs_of 0)) as (v' & s5' & Hrun5 & Hv' & _ & _).
  destruct (Hkey _ s5 0 false [0; 65] 0x30 0 false (Some 98) Hk5 M5 eq_refl ltac:(simpl; lia) ltac:(lia) eq_refl) as (s6 & M6 & _).
  destruct (Hnext _ s6 0 false [0; 65; 98] M6 eq_refl (echo_screen_room 5 ltac:(lia))) as (_ & _ & Hend).
  destruct (Hend ltac:(discriminate) (inputs_of 0)) as (f & _ & _ & Hrun6 & _ & Htext).
  exists v, s1, v', s5, s5'. split; [exact Hrun|]. split; [exact Hrun5|]. split; [exact Hv'|].
  exists s6. eexists. split; [exact Hrun6|]. split; [apply lookup_insert_eq|].
  pose proof (Htext 1%nat 65 eq_refl) as H1. rewrite read_machine_page in H1. exact H1.
Defined.

(** A number that is no system call, and a read of descriptor 9. *)
Lemma syscall_dispatch_refuses_witness :
  (exists s', @syscall_dispatch large_pages _ _ _ (inputs_of 0) 0x5000 (read_machine (read_regs_of 99 0 0 0)) = Ret (0x5000, s') /\
     s'.(mc_kernel).(ks_frames) !! 0x5000 = Some (set_rax 0xffffffffffffffff (read_regs_of 99 0 0 0))) /\
  (exists s', @syscall_dispatch large_pages _ _ _ (inputs_of 0) 0x5000 (read_machine (read_regs_of SYS_READ 9 0 0)) = Ret (0x5000, s') /\
     s'.(mc_kernel).(ks_frames) !! 0x5000 = Some (set_rax 0xffffffffffffffff (read_regs_of SYS_READ 9 0 0))).
Proof.
  split; eexists; (split; [apply syscall_dispatch_refuses; [done|apply lookup_insert_eq|]|apply lookup_insert_eq]).
  - left. change (99 ∉ [SYS_EXAMPLE; SYS_OPEN; SYS_READ; SYS_PRINT; SYS_EXIT]). apply (bool_decide_unpack _). vm_compute. exact I.
  - right. split; [reflexivity|]. discriminate.
Defined.

(** The running thread exits with status 7. *)
Lemma exit_call_switches_witness : exists r' x,
  @interrupts_handler large_pages _ _ _ (inputs_of 0) 0x5000 (read_machine (read_regs_of SYS_EXIT 7 0 0)) =
    Ret (r', set_mc_kernel (set_ks_sched x (read_kernel (read_regs_of SYS_EXIT 7 0 0))) (read_machine (read_regs_of SYS_EXIT 7 0 0))) /\
  exists t, x.(threads) !! 0x10 = Some t /\ t.(status) = DEAD /\ t.(thread_exit_code) = 7.
Proof.
  destruct (@exit_call_switches large_pages _ _ _ (inputs_of 0) 0x5000 (read_regs_of SYS_EXIT 7 0 0)
    (read_machine (read_regs_of SYS_EXIT 7 0 0)) [0x10; 0x20; 0x30; 0x40] ltac:(discriminate) (lookup_insert_eq _ _ _) eq_refl eq_refl
    sample_good ltac:(discriminate)) as (r' & x & l' & Hrun & _ & _ & _ & Hdead).
  exists r', x. split; [exact Hrun|exact Hdead].
Defined.
