(* ===== verification/MachineRun.v ===== *)
(** Runs of the machine: what holds after any sequence of interrupts
    ([interrupts_handler] of [cpu/idt.c], whole), of turns of threads that wait in a read,
    of what the threads do in between, and of what the scheduler's own functions do. *)
From S2P Require Import Prelude VmmUtil Mmap Bitmap Pmm Kheap Paging Boot Vmm Scheduler CString Bytes Window Console Framebuffer.
From S2P Require Import Keyboard Elf Task Spawn SchedRun Acpi Idt Apic Vfs Syscalls Calls.

(** ** The keyboard *)

Section Keyboard.
Context {F : Type} `{Console F}.
Implicit Types (s : keyboard_state F) (Q : gmap Z pending_operation_t -> Z -> Prop).

(** The ring of keys is whole, and [Q] holds of the reads and of the head of their list. *)
Definition kb_inv Q s : Prop := keyboard_ok s /\ Q s.(operations) s.(_ps2_op_head).

Lemma inv_buffer Q s l p : kb_inv Q s -> length l = length s.(keyboard_buffer) -> 0 <= p < MAX_KEYB_BUFFER_SIZE -> kb_inv Q (set_buffer l p s).
Proof. intros [(Hl & _ & Ht) HQ] El Hp. split; [|exact HQ]. split; [simpl; congruence|]. by split. Qed.

Lemma inv_modifiers Q s m e : kb_inv Q s -> kb_inv Q (set_modifiers m e s).
Proof. done. Qed.

Lemma keeps_table_entry Q t i : keeps (kb_inv Q) (table_entry t i).
Proof. unfold table_entry. keeps_auto. Qed.

Lemma keeps_write_key Q upd : keeps (kb_inv Q) (write_key upd).
Proof.
  intros s a s' Hs. unfold write_key. rewrite (bind_run get _ s s s eq_refl). cbv zeta.
  intros (k & s1 & E & [= _ <-])%bind_inv. destruct (_ !! _); [|done]. injection E as _ <-.
  apply inv_buffer; [done|by rewrite length_insert|]. by destruct Hs as [(_ & ? & _) _].
Qed.

Lemma keeps_kgetch Q k : keeps (kb_inv Q) (kgetch k).
Proof. unfold kgetch. keeps_auto; apply keeps_table_entry. Qed.

Lemma keeps_update_modifiers Q k pressed : keeps (kb_inv Q) (update_modifiers k pressed).
Proof. unfold update_modifiers. keeps_auto; by apply inv_modifiers. Qed.

Lemma keeps_translate Q sc : keeps (kb_inv Q) (translate sc).
Proof.
  unfold translate. keeps_auto; first [apply keeps_update_modifiers|apply keeps_table_entry|by apply inv_modifiers].
Qed.

Lemma keeps_handle Q sc : (forall c, keeps (kb_inv Q) (deliver c)) -> keeps (kb_inv Q) (handle_keyboard_interrupt sc).
Proof.
  intros Hd. unfold handle_keyboard_interrupt.
  keeps_auto; first [apply keeps_translate|apply keeps_write_key|apply keeps_kgetch|apply Hd|idtac].
  apply inv_buffer; [done|done|]. destruct Hs as [(_ & Hp & _) _]. unfold BUF_STEP, MAX_KEYB_BUFFER_SIZE in *.
  destruct (Z.ltb_spec s.(buf_position) (0x13 - 1)); lia.
Qed.

Lemma deliver_quiet s c : s.(_ps2_op_head) = 0 -> deliver c s = Ret (tt, s).
Proof. intros E. unfold deliver. rewrite (bind_run get _ s s s eq_refl). by rewrite E. Qed.

(** The operations of the reads that wait are there. *)
Definition reads_there (reads : gmap Z waiting_read) (ops : gmap Z pending_operation_t) (head : Z) : Prop :=
  forall p w, reads !! p = Some w -> p <> 0 /\ w.(wr_op) <> 0 /\ w.(wr_regs) <> 0 /\ is_Some (ops !! w.(wr_op)).
Implicit Types (reads : gmap Z waiting_read).

Lemma there_insert reads ops head head' p o : reads_there reads ops head -> reads_there reads (<[p := o]> ops) head'.
Proof.
  intros Hr f w Hw. destruct (Hr f w Hw) as (Hf & Hop & Hre & Ho). do 3 (split; [done|]). by apply lookup_insert_is_Some'; right.
Qed.

Lemma keeps_read_operation Q p : keeps (kb_inv Q) (read_operation p).
Proof. unfold read_operation. keeps_auto. Qed.
Lemma keeps_write_operation reads p o : keeps (kb_inv (reads_there reads)) (write_operation p o).
Proof.
  unfold write_operation. intros s u s' [Hok Hr]. destruct (p =? 0); [done|]. intros [= _ <-]. split; [done|].
  by apply (there_insert reads _ s.(_ps2_op_head)).
Qed.

Lemma keeps_deliver reads c : keeps (kb_inv (reads_there reads)) (deliver c).
Proof.
  unfold deliver, in_kb_memory, in_console. keeps_auto;
    first [apply keeps_read_operation|apply keeps_write_operation|by apply keeps_zoom|done].
Qed.

Lemma keeps_queue reads op buffer n : keeps (kb_inv (reads_there reads)) (keyboard_queue op buffer n).
Proof.
  unfold keyboard_queue, _ps2_keyboard_add_operation. keeps_auto;
    first [apply keeps_read_operation|apply keeps_write_operation|done].
Qed.
End Keyboard.

(** ** The machine *)

Section Machine.
Context `{PageConfig} {D L : Type} `{Registers D} `{Registers L}.
Implicit Types (s : machine (D := D) (L := L)) (k : kernel_state) (x : sched_state).

(** What every interrupt and every thread keeps: the threads are in order, the keyboard
    is, and the threads that have yielded in a read find its operation. *)
Definition sched_ok x : Prop := exists l, sched_good x l.
Record machine_ok s : Prop := {
  mo_sched : sched_ok s.(mc_kernel).(ks_sched);
  mo_keyboard : kb_inv (reads_there s.(mc_reads)) s.(mc_keyboard);
}.

Lemma machine_ok_same s s' : machine_ok s -> s'.(mc_kernel).(ks_sched) = s.(mc_kernel).(ks_sched) ->
  kb_inv (reads_there s'.(mc_reads)) s'.(mc_keyboard) -> machine_ok s'.
Proof. intros [Hs _] E Hk. constructor; [by rewrite E|done]. Qed.

Lemma keeps_heap {A} (m : M (heap_state (vmm_state pmm_state)) A) : keeps machine_ok (in_kernel (in_heap m)).
Proof.
  intros s a s' Hs. unfold in_kernel, in_heap, zoom. destruct (m _) as [[b h]| |]; [|done|done]. intros [= _ <-].
  by apply (machine_ok_same s); [..|destruct Hs].
Qed.
Lemma keeps_sched {A} (m : M sched_state A) : keeps sched_ok m -> keeps machine_ok (in_kernel (in_sched m)).
Proof.
  intros Hm s a s' [Hs Hk]. unfold in_kernel, in_sched, zoom. destruct (m _) as [[b x]| |] eqn:E; [|done|done].
  intros [= _ <-]. constructor; [exact (Hm _ _ _ Hs E)|exact Hk].
Qed.
Lemma keeps_keyboard {A} (m : M (keyboard_state fb_state) A) : (forall reads, keeps (kb_inv (reads_there reads)) m) -> keeps machine_ok (in_keyboard m).
Proof.
  intros Hm s a s' [Hs Hk]. unfold in_keyboard, zoom. destruct (m _) as [[b q]| |] eqn:E; [|done|done].
  intros [= _ <-]. constructor; [exact Hs|]. exact (Hm s.(mc_reads) (mc_input s) _ _ Hk E).
Qed.
Lemma keeps_screen {A} (m : M fb_state A) : keeps machine_ok (in_screen m).
Proof. apply keeps_keyboard. intros reads. by apply keeps_zoom. Qed.
Lemma keeps_apic {A} (m : M (apic_state D L) A) : keeps machine_ok (in_apic m).
Proof. apply keeps_zoom. intros a s Hs. by apply (machine_ok_same s); [..|destruct Hs]. Qed.
Lemma keeps_frame p r : keeps machine_ok (in_kernel (write_frame p r)).
Proof.
  intros s [] s' Hs. unfold in_kernel, write_frame, zoom. destruct (p =? 0); [done|]. intros [= <-].
  by apply (machine_ok_same s); [..|destruct Hs].
Qed.

Lemma keeps_read_thread p : keeps sched_ok (read_thread p).
Proof. unfold read_thread. keeps_auto. Qed.
Lemma keeps_timer p : p <> 0 -> keeps sched_ok (timer_interrupt p).
Proof.
  intros Hp x r x' [l Hg] Hrun. destruct (good_timer x l p Hg Hp) as (r1 & x1 & l1 & Hrun1 & _ & Hg1).
  rewrite Hrun in Hrun1. injection Hrun1 as _ ->. by exists l1.
Qed.
#[local] Hint Resolve keeps_heap keeps_screen keeps_apic keeps_frame : keeps.

Lemma keeps_read_regs p : keeps machine_ok (read_regs p).
Proof. unfold read_regs. keeps_auto. Qed.
#[local] Hint Resolve keeps_read_regs : keeps.

Lemma keeps_write_rax p v : keeps machine_ok (write_rax p v).
Proof. unfold write_rax. keeps_auto. Qed.
#[local] Hint Resolve keeps_write_rax : keeps.

Lemma keeps_timer_case p : p <> 0 -> keeps machine_ok (timer_case p).
Proof. intros Hp. unfold timer_case, end_of_interrupt. keeps_auto. by apply keeps_sched, keeps_timer. Qed.

(** A read that waits keeps its operation and yields. *)
Lemma keeps_read_loop frame saved w : w.(wr_regs) <> 0 -> keeps machine_ok (read_loop frame saved w).
Proof.
  intros Hw s a s' Hok Hrun. unfold read_loop in Hrun. apply bind_inv in Hrun as (o & s1 & E1 & Hrun).
  assert (w.(wr_op) <> 0 /\ is_Some ((mc_input s).(operations) !! w.(wr_op)) /\ s1 = normal s) as (Hop & Ho & ->).
  { unfold in_keyboard, zoom, read_operation in E1. destruct (Z.eqb_spec w.(wr_op) 0); [done|].
    unfold bind, get in E1. destruct (_ !! _); [|done]. injection E1 as _ <-. split_and!; [done|by eexists|done]. }
  assert (machine_ok (normal s)) as Hn by (by destruct Hok).
  destruct (o.(op_nbytes) <? w.(wr_nbytes)).
  - apply bind_inv in Hrun as ([] & s2 & [= <-] & (v & s5 & E5 & [= _ <-])%bind_inv).
    unfold scheduler_yield in E5. apply bind_inv in E5 as ([] & s6 & E6 & E7).
    assert (frame <> 0) as Hf by (intros ->; by unfold in_kernel, write_frame, zoom in E6).
    refine (keeps_timer_case frame Hf _ _ _ (keeps_frame _ _ _ _ _ _ E6) E7).
    destruct Hok as [Hs [Hk Hr]]. constructor; [exact Hs|]. split; [exact Hk|]. intros f w' Hw'.
    change (<[frame := w]> s.(mc_reads) !! f = Some w') in Hw'. apply lookup_insert_Some in Hw' as [[<- <-]|[_ Hw']]; [done|exact (Hr f w' Hw')].
  - refine ((_ : keeps machine_ok _) _ a s' Hn Hrun). keeps_auto.
Qed.

Lemma keeps_sys_read i regs fildes buffer n : regs <> 0 -> keeps machine_ok (sys_read i regs fildes buffer n).
Proof.
  intros Hr. unfold sys_read, sys_read_keyboard, in_tables, in_vmm.
  keeps_auto; first [apply keeps_sched, keeps_read_thread|apply keeps_keyboard; intros reads; apply keeps_queue|by apply keeps_read_loop].
Qed.
Lemma keeps_read_result regs r : keeps machine_ok (read_result regs r).
Proof. unfold read_result. keeps_auto. Qed.

Lemma keeps_resume i frame : keeps machine_ok (resume_read i frame).
Proof.
  intros s v s' Hok Hrun. unfold resume_read in Hrun. rewrite (bind_run get _ s s s eq_refl) in Hrun.
  apply bind_inv in Hrun as (w & s1 & E1 & Hrun). destruct (s.(mc_reads) !! frame) as [w'|] eqn:Ew; [|done]. injection E1 as <- <-.
  destruct (proj2 (mo_keyboard _ Hok) frame w' Ew) as (_ & _ & Hre & _).
  apply bind_inv in Hrun as ([] & s2 & [= <-] & Hrun). refine ((_ : keeps machine_ok _) _ v s' _ Hrun).
  - intros s3 r3 s4 Hs3 (x & s5 & E5 & E6)%bind_inv. exact (keeps_read_result _ x _ _ _ (keeps_read_loop _ _ _ Hre _ _ _ Hs3 E5) E6).
  - destruct Hok as [Hs [Hk Hr]]. constructor; [exact Hs|]. split; [exact Hk|]. intros f w Hw.
    change (delete frame s.(mc_reads) !! f = Some w) in Hw. apply lookup_delete_Some in Hw as [_ Hw]. exact (Hr f w Hw).
Qed.

(** What the dispatch of system calls does; a thread that exits is not the idle one. *)
Lemma dispatch_keeps inp p s v s' r : p <> 0 -> s.(mc_kernel).(ks_frames) !! p = Some r -> machine_ok s ->
  (u32 r.(rdi) = SYS_EXIT -> s.(mc_kernel).(ks_sched).(current_executing_thread) <> s.(mc_kernel).(ks_sched).(idle_thread)) ->
  syscall_dispatch inp p s = Ret (v, s') -> machine_ok s'.
Proof.
  intros Hp Hr Hok Hexit Hrun. destruct (Z.eqb_spec (u32 r.(rdi)) SYS_EXIT) as [E|E].
  - destruct (mo_sched _ Hok) as [l Hg].
    destruct (exit_call_run inp p r s l Hp Hr E Hg (Hexit E)) as (r' & x & l' & Hrun' & Hg' & _).
    rewrite Hrun in Hrun'. injection Hrun' as _ ->. constructor; [by exists l'|by destruct Hok].
  - unfold syscall_dispatch in Hrun. rewrite (bind_run _ _ _ _ _ (read_regs_run s p r Hp Hr)) in Hrun. cbv zeta in Hrun.
    apply Z.eqb_neq in E. rewrite E in Hrun. refine ((_ : keeps machine_ok _) s v s' Hok Hrun).
    unfold sys_open, sys_print. keeps_auto; [by apply keeps_sys_read|apply keeps_read_result].
Qed.

(** Every interrupt that returns. *)
Lemma handler_keeps inp p s v s' r : s.(mc_kernel).(ks_frames) !! p = Some r -> machine_ok s ->
  (r.(interrupt_number) = SYSCALL_VECTOR_NUMBER -> u32 r.(rdi) = SYS_EXIT ->
    s.(mc_kernel).(ks_sched).(current_executing_thread) <> s.(mc_kernel).(ks_sched).(idle_thread)) ->
  interrupts_handler inp p s = Ret (v, s') -> machine_ok s'.
Proof.
  intros Hr Hok Hexit Hrun. destruct (Z.eqb_spec p 0) as [->|Hp]; [done|].
  destruct (Z.eqb_spec r.(interrupt_number) SYSCALL_VECTOR_NUMBER) as [E|E].
  - rewrite (handle_call inp s p r Hp Hr E) in Hrun. exact (dispatch_keeps _ p s v s' r Hp Hr Hok (Hexit E) Hrun).
  - unfold interrupts_handler in Hrun. rewrite (bind_run _ _ _ _ _ (read_regs_run s p r Hp Hr)) in Hrun. cbv zeta in Hrun.
    apply Z.eqb_neq in E. rewrite E in Hrun. refine ((_ : keeps machine_ok _) s v s' Hok Hrun).
    unfold end_of_interrupt, in_tables, in_vmm.
    keeps_auto; [by apply keeps_timer_case|apply keeps_keyboard; intros reads; apply keeps_handle, keeps_deliver].
Qed.
(** ** Runs *)

(** What happens to the machine: an interrupt that is handled, whose registers are in the
    frame [p] (the idle thread does not exit); a thread that yielded in a read goes on;
    the threads run, and do to the memory, the registers, the heap, the tables, the screen
    and the controllers what they like; and a function of the scheduler runs. *)
Inductive machine_step : machine (D := D) (L := L) -> machine (D := D) (L := L) -> Prop :=
| step_interrupt s inp p r v s' :
    s.(mc_kernel).(ks_frames) !! p = Some r ->
    (r.(interrupt_number) = SYSCALL_VECTOR_NUMBER -> u32 r.(rdi) = SYS_EXIT ->
      s.(mc_kernel).(ks_sched).(current_executing_thread) <> s.(mc_kernel).(ks_sched).(idle_thread)) ->
    interrupts_handler inp p s = Ret (v, s') -> machine_step s s'
| step_resume s inp frame v s' : resume_read inp frame s = Ret (v, s') -> machine_step s s'
| step_threads s k f a : k.(ks_sched) = s.(mc_kernel).(ks_sched) -> machine_step s (mk_machine k (set_kb_console f s.(mc_keyboard)) a s.(mc_reads))
| step_scheduler s x : sched_step s.(mc_kernel).(ks_sched) x -> machine_step s (set_mc_kernel (set_ks_sched x s.(mc_kernel)) s).

Inductive machine_run : machine (D := D) (L := L) -> Prop :=
| run_start s : machine_ok s -> machine_run s
| run_next s s' : machine_run s -> machine_step s s' -> machine_run s'.

Lemma step_ok s s' : machine_ok s -> machine_step s s' -> machine_ok s'.
Proof.
  intros Hok Hstep. destruct Hstep as [s inp p r v s' Hr Hexit Hrun|s inp frame v s' Hrun|s k f a E|s x Hstep].
  - by apply (handler_keeps inp p s v s' r).
  - exact (keeps_resume inp frame s v s' Hok Hrun).
  - apply (machine_ok_same s); [done|done|by destruct Hok].
  - destruct Hok as [[l Hg] Hk]. constructor; [exact (step_good _ l x Hg Hstep)|exact Hk].
Qed.
Lemma run_ok s : machine_run s -> machine_ok s.
Proof. induction 1 as [s Hok|s s' _ Hok Hstep]; [done|exact (step_ok s s' Hok Hstep)]. Qed.

(** A thread that puts other registers in a frame. *)
Lemma put_frame_step s p r : machine_step s (put_frame p r s).
Proof.
  pose proof (step_threads s (set_ks_frames (<[p := r]> s.(mc_kernel).(ks_frames)) s.(mc_kernel)) s.(mc_keyboard).(kb_console) s.(mc_apic) eq_refl) as H2.
  by destruct s as [k [] a w].
Qed.

(** The interrupts the kernel can serve in every state: those of the timers and the
    spurious one, a protection fault, a byte of the keyboard that stands for a key (when a
    read waits for it, its buffer is in memory and the screen has room for a character),
    and the system calls that open, that exit, or that are refused. *)
Inductive serviced (inp : inputs) (r : cpu_status_t) s : Prop :=
| serves_signal : r.(interrupt_number) ∈ [GENERAL_PROTECTION; APIC_TIMER_INTERRUPT; APIC_SPURIOUS_INTERRUPT; PIT_INTERRUPT] -> serviced inp r s
| serves_key : r.(interrupt_number) = KEYBOARD_INTERRUPT -> 0 <= inp.(in_scancode) < 0x100 ->
    is_Some (decode s.(mc_keyboard).(current_modifiers) s.(mc_keyboard).(extended_read) inp.(in_scancode)) ->
    s.(mc_keyboard).(_ps2_op_head) = 0 \/ (exists o, waiting (mc_input s) o /\ console_room (mc_input s).(kb_console) 1) -> serviced inp r s
| serves_exit : r.(interrupt_number) = SYSCALL_VECTOR_NUMBER -> u32 r.(rdi) = SYS_EXIT ->
    s.(mc_kernel).(ks_sched).(current_executing_thread) <> s.(mc_kernel).(ks_sched).(idle_thread) -> serviced inp r s
| serves_call : r.(interrupt_number) = SYSCALL_VECTOR_NUMBER -> u32 r.(rdi) ∉ [SYS_EXAMPLE; SYS_READ; SYS_PRINT; SYS_EXIT] -> serviced inp r s.

(** A program that returns a frame to go on from. *)
Definition goes_on (m : M (machine (D := D) (L := L)) Z) s : Prop := exists v s', m s = Ret (v, s') /\ v <> 0.

Lemma goes_on_end v s : v <> 0 -> goes_on (do! end_of_interrupt in ret v) s.
Proof.
  intros Hv. unfold goes_on, end_of_interrupt, in_apic, zoom, write_apic_register, bind, get, wrmsr, modify.
  destruct (apicInX2Mode _); by eexists _, _.
Qed.

Lemma goes_on_key sc p s : machine_ok s -> 0 <= sc < 0x100 -> p <> 0 ->
  is_Some (decode s.(mc_keyboard).(current_modifiers) s.(mc_keyboard).(extended_read) sc) ->
  s.(mc_keyboard).(_ps2_op_head) = 0 \/ (exists o, waiting (mc_input s) o /\ console_room (mc_input s).(kb_console) 1) ->
  goes_on (do! in_keyboard (handle_keyboard_interrupt sc) in do! end_of_interrupt in ret p) s.
Proof.
  intros [_ [Hok _]] Hsc Hp [[[m e] ch] Hd] Hcase.
  assert (exists K, handle_keyboard_interrupt sc (mc_input s) = Ret (tt, K)) as [K Hrun].
  { destruct Hcase as [Hh|(o & Hw & Hroom)].
    - destruct (handle_step (mc_input s) sc m e ch Hok Hsc Hd) as (l & q & _ & Hstep). eexists. apply (Hstep (mc_input s)).
      destruct ch; [by apply deliver_quiet|done].
    - assert (exists n, console_room (mc_input s).(kb_console) (length (option_list ch) + n)) as [n Hn] by (destruct ch; [by exists 0%nat|by exists 1%nat]).
      destruct (handle_one (mc_input s) o sc m e ch n Hok Hsc Hw Hn Hd) as (l & q & f & _ & _ & _ & Hrun). by eexists. }
  unfold goes_on. rewrite (bind_run _ _ _ _ _ (in_keyboard_run _ s _ _ Hrun)). by apply goes_on_end.
Qed.

Lemma goes_on_timer p s : machine_ok s -> p <> 0 -> goes_on (timer_case p) s.
Proof.
  intros [[l Hg] _] Hp. destruct (timer_case_run p s l Hg Hp) as (v & x & a' & l' & Hrun & Hv & _). by eexists v, _.
Qed.

(** A thread that yielded in a read: it yields again, or it is at the end of its call. *)
Lemma goes_on_resume inp frame w o s : machine_ok s -> s.(mc_reads) !! frame = Some w -> s.(mc_keyboard).(operations) !! w.(wr_op) = Some o ->
  (o.(op_nbytes) < w.(wr_nbytes) \/ is_Some (s.(mc_kernel).(ks_frames) !! w.(wr_regs)) /\ console_room (mc_input s).(kb_console) 2) ->
  goes_on (resume_read inp frame) s.
Proof.
  intros [[l Hg] [_ Hr]] Hw Ho Hcase. destruct (Hr frame w Hw) as (Hf & Hop & Hre & _).
  unfold goes_on, resume_read. rewrite (bind_run get _ s s s eq_refl), Hw.
  set (s1 := set_mc_reads (delete frame s.(mc_reads)) s).
  rewrite (bind_run (lift_opt OutOfBounds (Some w)) _ s w s eq_refl).
  rewrite (bind_run (modify (fun s => set_mc_reads (delete frame s.(mc_reads)) s)) _ s tt s1 eq_refl).
  destruct (Z.lt_ge_cases o.(op_nbytes) w.(wr_nbytes)) as [Hlt|Hle].
  - destruct (loop_yields frame inp.(in_saved) w s1 o l Hg Hf Hop Ho Hlt) as (v & x & a' & l' & Hrun & Hv & _).
    rewrite (bind_run _ _ _ _ _ Hrun). by eexists v, _.
  - destruct Hcase as [|[[r Hr'] Hroom]]; [lia|].
    destruct (loop_ends frame inp.(in_saved) w s1 o 0 Hop Ho Hle Hroom) as (f & _ & _ & Hrun). rewrite (bind_run _ _ _ _ _ Hrun).
    unfold read_result. rewrite (bind_run _ _ _ _ _ (write_rax_run (set_mc_input _ s1) w.(wr_regs) r _ Hre Hr')). by eexists _, _.
Qed.

End Machine.

(** ** Witness *)

Lemma read_machine_ok call : @machine_ok register_file register_file (read_machine call).
Proof.
  constructor; [by exists [0x10; 0x20; 0x30; 0x40]; exact sample_good|].
  split; [split; [done|]; split; [done|by right]|]. intros f w Hw. change ((∅ : gmap Z waiting_read) !! f = Some w) in Hw. by rewrite lookup_empty in Hw.
Qed.

