(* ===== verification/Kernel.v ===== *)
(** The start of the kernel as a whole: [kernel_start] of [kernel/main.c], over the state
    of all parts. The theorems are about the part that creates the first two tasks,
    [start_tasks]: the scheduler has something to run afterwards, and where the stack of
    the idle thread is. *)
From S2P Require Import Prelude VmmUtil Mmap Bitmap Pmm Kheap HeapRun Paging Boot Vmm Scheduler CString Format Bytes Window Console Framebuffer.
From S2P Require Import Keyboard Elf Task Loader Spawn SchedRun Vfs Files Log Rtc Acpi Idt Apic Start Syscalls MachineRun.

Definition MULTIBOOT2_MAGIC : Z := 0x36d76289.
Definition KEYBOARD_IRQ : Z := 1.
Definition PIT_IRQ : Z := 2.
Definition APIC_TIMER_SET_PERIODIC : Z := 0x20000.
Definition O_RDWR : Z := 4.
Definition ustar_chksum_offset : Z := 148.

(** The names of the tasks. *)
Definition str_idle : list Z := [105; 100; 108; 101].
Definition str_elf_idle : list Z := [101; 108; 102; 95; 105; 100; 108; 101].
Definition str_elf_idle_tar : list Z := str_elf_idle ++ [95; 116; 97; 114].

(** The addresses of the strings of [kernel_start] and of its buffers. *)
Record literals : Type := mk_literals {
  lit_ciao : Z;
  lit_welcome : Z;
  lit_benvenuti : Z;
  lit_bienvenidos : Z;
  lit_dreamos : Z;
  lit_thanks : Z;
  lit_test : Z;
  lit_example : Z;
  lit_readme : Z;
  lit_executable : Z;
  lit_epoch : Z;
  lit_path : Z;
  out_string : Z;
  number_buffer : Z;
  read_buf : Z;
}.

(** Where the linker puts what the parts take the address of. *)
Record places : Type := mk_places {
  pl_linked : linked;
  pl_literals : literals;
  pl_isr : Z -> Z;
  pl_idt : Z;
  pl_stack : Z;
  pl_tss : Z;
  pl_idle : Z;
  pl_idle_argument : Z;
}.

(** What the devices answer: the bits of [cpuid], the keyboard, the local timer after
    the wait, the ports and the clock, and bounds for the waits on those. *)
Record answers : Type := mk_answers {
  an_ecx : Z;
  an_edx : Z;
  an_ack : Z;
  an_scancodes : Z;
  an_configuration : Z;
  an_count : Z;
  an_ports : nat -> Z -> Z;
  an_cmos : nat -> Z -> Z;
  an_clock : nat;
}.

(** The picture of the logo. *)
Record picture : Type := mk_picture {
  pic_width : Z;
  pic_height : Z;
  pic_data : list Z;
}.

Definition set_idle (p : Z) (s : sched_state) : sched_state :=
  mk_sched s.(threads) s.(tasks) s.(scheduler_ticks) s.(next_thread_id) s.(next_task_id) s.(thread_list)
    s.(current_executing_thread) p s.(root_task) s.(thread_list_size) s.(kernel_uptime) s.(sched_cr3) s.(Scheduler.tss_rsp0).
Definition set_psf_version (version : Z) (s : fb_state) : fb_state :=
  mk_fb s.(framebuffer_data) s.(cur_fb_line) s.(cur_fb_column) s.(framebuffer_main_window) s.(framebuffer_logo_area) s.(logo_area_ptr)
    version s.(font) s.(fb_memory).

Section Kernel.
Context `{PageConfig} {D L : Type} `{Registers D} `{Registers L}.

(** ** The first tasks *)

(** What [kernel_start] does from [init_scheduler] on until both tasks are there. [g] and
    [g'] are what the heap's memory held for each; [elf_start] is the program in the
    archive, or 0, [elf_module_start_phys] that of the module. *)
Definition start_idle (g : garbage) (entry argument : Z) : M kernel_state unit :=
  do! in_sched (modify init_scheduler) in
  let! idle_task := create_task_from_func g str_idle entry argument true in
  let! k := in_sched (read_task idle_task) in
  in_sched (modify (set_idle k.(task_threads))).

Definition start_program (g : garbage) (elf_start elf_module_start_phys : Z) : M kernel_state Z :=
  if elf_start =? 0 then
    let! elf_header := in_tables (vm_hhdm_get_variable elf_module_start_phys) in
    create_task_from_elf g str_elf_idle 0 elf_header
  else create_task_from_elf g str_elf_idle_tar 0 elf_start.

Definition start_tasks (g g' : garbage) (entry argument elf_start elf_module_start_phys : Z) : M kernel_state unit :=
  do! start_idle g entry argument in
  let! _ := start_program g' elf_start elf_module_start_phys in ret tt.

(** ** The whole *)

(** The machine, with the tables, the modules and the clock; [w_idtr] is what [lidt]
    loaded, [w_interrupts] whether interrupts are let in, [w_generation] the count
    of [kernel_settings.paging]. All of it looks at one memory. *)
Record world : Type := mk_world {
  w_machine : machine (D := D) (L := L);
  w_vfs : vfs_state;
  w_log : log_state;
  w_idt : idt_table_t;
  w_idtr : Z * Z;
  w_tss : tss_t;
  w_gdt : list Z;
  w_rtc : nat;
  w_elf_module : Z;
  w_tar_module : Z;
  w_tar_start : Z;
  w_generation : Z;
  w_interrupts : bool;
}.
Definition set_w_machine (m : machine) (w : world) : world :=
  mk_world m w.(w_vfs) w.(w_log) w.(w_idt) w.(w_idtr) w.(w_tss) w.(w_gdt) w.(w_rtc)
    w.(w_elf_module) w.(w_tar_module) w.(w_tar_start) w.(w_generation) w.(w_interrupts).
Definition set_w_vfs (v : vfs_state) (w : world) : world :=
  mk_world w.(w_machine) v w.(w_log) w.(w_idt) w.(w_idtr) w.(w_tss) w.(w_gdt) w.(w_rtc)
    w.(w_elf_module) w.(w_tar_module) w.(w_tar_start) w.(w_generation) w.(w_interrupts).
Definition set_w_log (l : log_state) (w : world) : world :=
  mk_world w.(w_machine) w.(w_vfs) l w.(w_idt) w.(w_idtr) w.(w_tss) w.(w_gdt) w.(w_rtc)
    w.(w_elf_module) w.(w_tar_module) w.(w_tar_start) w.(w_generation) w.(w_interrupts).
Definition set_w_tables (i : idt_table_t) (r : Z * Z) (t : tss_t) (g : list Z) (w : world) : world :=
  mk_world w.(w_machine) w.(w_vfs) w.(w_log) i r t g w.(w_rtc)
    w.(w_elf_module) w.(w_tar_module) w.(w_tar_start) w.(w_generation) w.(w_interrupts).
Definition set_w_rtc (n : nat) (w : world) : world :=
  mk_world w.(w_machine) w.(w_vfs) w.(w_log) w.(w_idt) w.(w_idtr) w.(w_tss) w.(w_gdt) n
    w.(w_elf_module) w.(w_tar_module) w.(w_tar_start) w.(w_generation) w.(w_interrupts).
Definition set_w_modules (elf tar start : Z) (w : world) : world :=
  mk_world w.(w_machine) w.(w_vfs) w.(w_log) w.(w_idt) w.(w_idtr) w.(w_tss) w.(w_gdt) w.(w_rtc)
    elf tar start w.(w_generation) w.(w_interrupts).
Definition set_w_flags (generation : Z) (interrupts : bool) (w : world) : world :=
  mk_world w.(w_machine) w.(w_vfs) w.(w_log) w.(w_idt) w.(w_idtr) w.(w_tss) w.(w_gdt) w.(w_rtc)
    w.(w_elf_module) w.(w_tar_module) w.(w_tar_start) generation interrupts.

Definition w_kernel (w : world) : kernel_state := w.(w_machine).(mc_kernel).
Definition w_screen (w : world) : fb_state := (mc_input w.(w_machine)).(kb_console).

Definition on_machine {A} (m : M machine A) : M world A := zoom w_machine set_w_machine m.
Definition on_kernel {A} (m : M kernel_state A) : M world A := on_machine (in_kernel m).
Definition on_bytes {A} (m : M memory A) : M world A := on_kernel (in_memory m).
Definition on_console {A} (m : M fb_state A) : M world A := on_machine (in_screen m).
Definition put_screen (f : fb_state) (w : world) : world :=
  set_w_machine (set_mc_input (set_kb_console f (mc_input w.(w_machine))) w.(w_machine)) w.
Definition on_log {A} (m : M log_state A) : M world A :=
  zoom (fun w => set_log_screen (w_screen w) w.(w_log)) (fun l w => put_screen l.(log_screen) (set_w_log l w)) m.
Definition on_idt {A} (m : M idt_table_t A) : M world A :=
  zoom w_idt (fun i w => set_w_tables i w.(w_idtr) w.(w_tss) w.(w_gdt) w) m.
Definition on_vfs {A} (m : M vfs_state A) : M world A :=
  zoom (fun w => set_vfs_memory (w_kernel w).(ks_memory) w.(w_vfs))
    (fun v w => set_w_machine (set_mc_kernel (set_ks_memory v.(vfs_memory) (w_kernel w)) w.(w_machine)) (set_w_vfs v w)) m.
Definition on_files {A} (m : M files_state A) : M world A :=
  zoom (fun w => mk_files (w_kernel w).(ks_sched) (set_vfs_memory (w_kernel w).(ks_memory) w.(w_vfs)))
    (fun f w => set_w_machine (set_mc_kernel (set_ks_sched f.(fl_sched) (set_ks_memory f.(fl_vfs).(vfs_memory) (w_kernel w))) w.(w_machine))
                  (set_w_vfs f.(fl_vfs) w)) m.

(** The interrupt controllers look at the tables of the firmware through the page
    tables and the memory of the kernel. *)
Definition with_vmm (v : vmm_state pmm_state) (k : kernel_state) : kernel_state := set_ks_heap (set_heap_vmm v k.(ks_heap)) k.
Definition apic_view (w : world) : apic_state D L :=
  let a := w.(w_machine).(mc_apic) in
  set_ap_acpi (set_acpi_vm (tables (w_kernel w)) (set_acpi_memory (w_kernel w).(ks_memory) a.(ap_acpi))) a.
Definition put_apic (a : apic_state D L) (w : world) : world :=
  set_w_machine (set_mc_apic a (set_mc_kernel (set_ks_memory a.(ap_acpi).(acpi_memory) (with_tables a.(ap_acpi).(acpi_vm) (w_kernel w))) w.(w_machine))) w.
Definition on_apic {A} (m : M (apic_state D L) A) : M world A := zoom apic_view put_apic m.

(** The part of the state [_init_basic_system] sets up. *)
Definition boot_view (w : world) : boot_state :=
  mk_boot (w_kernel w).(ks_heap).(heap_vmm) (w_kernel w).(ks_memory) (w_screen w) w.(w_machine).(mc_apic).(ap_acpi)
    (w_kernel w).(ks_sched).(kernel_uptime) w.(w_elf_module) w.(w_tar_module) w.(w_tar_start).
Definition put_boot (b : boot_state) (w : world) : world :=
  let k := w_kernel w in
  let k := set_ks_sched (set_clock k.(ks_sched).(scheduler_ticks) b.(bt_uptime) k.(ks_sched)) (set_ks_memory b.(bt_memory) (with_vmm b.(bt_vmm) k)) in
  let a := set_ap_acpi b.(bt_acpi) w.(w_machine).(mc_apic) in
  set_w_modules b.(elf_module) b.(tar_module) b.(tar_module_start_hh)
    (set_w_machine (mk_machine k (set_kb_console b.(bt_screen) w.(w_machine).(mc_keyboard)) a w.(w_machine).(mc_reads)) w).
Definition on_boot {A} (m : M boot_state A) : M world A := zoom boot_view put_boot m.

Section Start.
Context (p : places) (an : answers) (pic : picture) (info : boot_info) (g g' : garbage).
Let lit := p.(pl_literals).

(** The serial line, the font, the interrupt descriptors and the log. *)
Definition start_output : M world unit :=
  let! _ := on_log (qemu_init_debug an.(an_ports)) in
  let! font_start := gets (fun w => (w_screen w).(font)) in
  let! version := on_bytes (_psf_get_version font_start) in
  do! on_console (modify (set_psf_version version)) in
  do! on_idt (init_idt p.(pl_isr)) in
  do! modify (fun w => set_w_tables w.(w_idt) (load_idt p.(pl_idt)) w.(w_tss) w.(w_gdt) w) in
  on_log (init_log LOG_OUTPUT_SERIAL Verbose false).

(** The base of the direct map, in the state of the memory managers. *)
Definition set_direct_map (b : Z) (v : vm_state pmm_state) : vm_state pmm_state :=
  let m := v.(frames).(pmm_bitmap) in
  mk_vm (set_pmm_bitmap (mk_bitmap m.(memory_map) m.(memory_map_addr) m.(number_of_entries) m.(bitmap_size) m.(used_frames)
           m.(memory_map_phys_addr) m.(memory_size_in_bytes) b m.(bm_mmap)) v.(frames))
    v.(phys) v.(vm_memory_size) b v.(kernel_root) v.(cr3) v.(end_of_mapped_memory).

(** The memory; a wrong number in [magic] is a fatal line in the log. *)
Definition start_memory (addr magic : Z) : M world unit :=
  do! on_kernel (in_tables (modify (set_direct_map (u64 (HIGHER_HALF_ADDRESS_OFFSET + VM_KERNEL_MEMORY_PADDING))))) in
  do! on_boot (_init_basic_system p.(pl_linked) info addr) in
  if magic =? MULTIBOOT2_MAGIC then ret tt else throw Halted.

Definition start_screen : M world unit :=
  do! on_console (_fb_printStr lit.(lit_ciao) 0x000000 0xEB72F9) in
  do! on_console (_fb_printStr lit.(lit_welcome) 0x000000 0x00FF80) in
  do! on_console (_fb_printStr lit.(lit_benvenuti) 0x000000 0xFFFFFF) in
  do! on_console (_fb_printStr lit.(lit_bienvenidos) 0x000000 0xFF0000) in
  do! on_console (_fb_printStr lit.(lit_dreamos) 0xFFFFFF 0x3333ff) in
  let! screen := gets w_screen in
  do! on_console (draw_logo pic.(pic_width) pic.(pic_height) pic.(pic_data)
                    (u32 (screen.(framebuffer_data).(fb_width) - pic.(pic_width))) 0) in
  do! on_console (_fb_printStr lit.(lit_thanks) 0xFFFFFF 0x3333ff) in
  on_console (_fb_printStrAt lit.(lit_test) 0 49 0xff33aa 0x000000).

(** The test of the program among the modules: its physical address, or 0. *)
Definition program_module : M world Z :=
  let! tag := gets w_elf_module in
  if tag =? 0 then ret 0
  else
    let! tags := gets (fun w => boot_tags_of (boot_view w)) in
    let! t := lift_opt OutOfBounds (tags !! tag) in
    let! elf := on_boot (_is_module_elf_hh t) in
    ret (if elf then t.(mod_start) else 0).

(** System calls, the heap, the interrupt controllers, the keyboard and the task state
    segment. The line about the table reads its signature. *)
Definition start_interrupts : M world Z :=
  let! _ := on_idt (_syscalls_init p.(pl_isr)) in
  do! on_kernel (in_heap initialize_kheap) in
  do! modify (fun w => set_w_flags 0 w.(w_interrupts) w) in
  let! size := gets (fun w => (tables (w_kernel w)).(vm_memory_size)) in
  do! on_apic (init_apic an.(an_ecx) an.(an_edx) size) in
  let! elf_module_start_phys := program_module in
  let! id := gets (fun w => (apic_view w).(ap_acpi).(madt_id)) in
  let! madt_table := on_apic (on_acpi (get_SDT_item id)) in
  do! (if madt_table =? 0 then throw NullDeref else ret tt) in
  do! on_apic (on_acpi (print_madt_table madt_table)) in
  do! on_apic (init_ioapic madt_table) in
  do! on_machine (in_keyboard (init_keyboard an.(an_ack) an.(an_scancodes) an.(an_configuration))) in
  do! on_apic (set_irq KEYBOARD_IRQ IOREDTBL1 0x21 0 0 false) in
  do! on_apic (set_irq PIT_IRQ IOREDTBL2 0x22 0 0 true) in
  do! modify (fun w => set_w_tables w.(w_idt) w.(w_idtr) (initialize_tss p.(pl_stack)) (load_tss p.(pl_tss) w.(w_gdt)) w) in
  do! modify (fun w => set_w_flags w.(w_generation) true w) in
  ret elf_module_start_phys.

(** The timer, the file system and the clock. *)
Definition start_clock : M world Z :=
  let! apic_ticks := on_apic (calibrate_apic an.(an_count)) in
  do! on_apic (modify (fun a => set_calibration a.(apic_calibrated_ticks) apic_ticks a.(timer_divisor) a)) in
  do! on_vfs vfs_init in
  zoom w_rtc set_w_rtc (read_rtc_time an.(an_cmos) an.(an_clock)).

(** The program in the archive: the address of its header, or 0. *)
Definition find_program : M world Z :=
  let! tar_fs := gets w_tar_start in
  if tar_fs =? 0 then ret 0
  else
    let! _ := on_bytes (octascii_to_dec (tar_fs + file_size_offset) USTAR_FILESIZE_SIZE) in
    let! found_item := on_bytes (ustar_seek lit.(lit_example) tar_fs) in
    let! elf_start :=
      if found_item =? 0 then ret 0
      else
        let! size := on_bytes (octascii_to_dec (found_item + file_size_offset) USTAR_FILESIZE_SIZE) in
        let! _ := on_bytes (sprintf lit.(out_string) lit.(lit_executable) [found_item; size; found_item + ustar_chksum_offset]) in
        do! on_console (_fb_printStrAt lit.(out_string) 0 27 0xE8A9E8 0x000000) in
        let! _ := on_bytes (validate_elf_magic_number (found_item + HEADER_SIZE)) in
        ret (found_item + HEADER_SIZE) in
    let! _ := on_bytes (ustar_find lit.(lit_readme) tar_fs) in
    ret elf_start.

(** A file read at the start. The zero goes one place after the one that follows what
    was read. *)
Definition read_readme : M world unit :=
  let! tar := gets w_tar_start in
  do! on_vfs (ustar_driver_init tar) in
  let! fd := on_files (open lit.(lit_path) O_RDWR) in
  do! on_bytes (for_upto 12 (fun i => store (lit.(read_buf) + i) 0)) in
  let! read_size := on_vfs (read (i32 fd) lit.(read_buf) 11) in
  do! (if i32 read_size <? 11 then on_bytes (store (lit.(read_buf) + i32 read_size + 1) 0) else ret tt) in
  let! _ := on_vfs (close (i32 fd)) in ret tt.

(** [kernel_start] up to the loop it ends in. *)
Definition kernel_start (addr magic : Z) : M world unit :=
  do! start_output in
  do! start_memory addr magic in
  do! start_screen in
  let! elf_module_start_phys := start_interrupts in
  let! unix_timestamp := start_clock in
  let! elf_start := find_program in
  do! on_console (_fb_printStrAndNumber lit.(number_buffer) lit.(lit_epoch) unix_timestamp 0xf5c4f1 0x000000) in
  do! on_machine (in_keyboard _ps2_keyboard_driver_init) in
  let! test_alloc_vm := on_kernel (in_vmm (vmm_alloc_any 0x1000 (Z.lor VMM_FLAGS_PRESENT VMM_FLAGS_WRITE_ENABLE) 0)) in
  do! on_kernel (in_vmm (vmm_free test_alloc_vm false 0)) in
  do! on_kernel (start_tasks g g' p.(pl_idle) p.(pl_idle_argument) elf_start elf_module_start_phys) in
  do! read_readme in
  let! a := gets apic_view in
  do! on_apic (start_apic_timer a.(timer_ticks_base) APIC_TIMER_SET_PERIODIC a.(timer_divisor)) in
  on_log (init_log LOG_OUTPUT_SERIAL Info false).
End Start.
End Kernel.

(** ** Mapping what is mapped *)

Section Mapped.
Context `{PageConfig}.

(** Tables that are there are gone down without a change. *)
Lemma next_tables_present {laws : FrameSourceLaws pmm_state} taken R (s : vm_state pmm_state) user : vm_ok taken R s -> forall q p t t',
  path_ok table_depth (p ++ q) -> table_at s.(phys) R p = Some t -> table_at s.(phys) R (p ++ q) = Some t' ->
  next_tables (t + s.(hhdm_base)) q user s = Ret (t' + s.(hhdm_base), s).
Proof.
  intros [Hb Hlim Hwin Htree _]. induction q as [|i q IH]; intros p t t' Hp Ht Ht'.
  - rewrite app_nil_r, Ht in Ht'. by injection Ht' as <-.
  - assert (path_ok table_depth (p ++ [i])) as Hpi by (apply (path_ok_prefix _ _ q); by rewrite <- app_assoc).
    pose proof (path_ok_prefix _ _ _ Hpi) as Hpp. destruct (tree_page _ _ _ _ _ Htree p t Hpp Ht) as (_ & Ht0 & Ht1 & _).
    assert (0 <= i < 512) as Hi by (destruct Hpi as (_ & Hr & _); apply Forall_app in Hr as [_ Hr]; by apply Forall_cons in Hr as [? _]).
    destruct (tree_words _ _ _ _ _ Htree p t i Hpp Ht Hi) as [e He].
    change (p ++ i :: q) with (p ++ [i] ++ q) in Hp, Ht'. rewrite app_assoc in Hp, Ht'.
    rewrite table_at_app in Ht'. destruct (table_at s.(phys) R (p ++ [i])) as [t1|] eqn:Ht1'; [|done]. pose proof Ht1' as Hsub.
    rewrite table_at_snoc, Ht in Hsub. unfold sub in Hsub. rewrite He in Hsub.
    destruct (Z.eqb_spec (Z.land e PRESENT_BIT) 0) as [|Hpres]; [done|]. injection Hsub as <-.
    destruct (tree_page _ _ _ _ _ Htree _ _ Hpi Ht1') as (_ & Hp0 & Hp1 & _).
    cbn [next_tables]. rewrite (bind_run _ _ s (Z.land e VM_PAGE_TABLE_BASE_ADDRESS_MASK + s.(hhdm_base)) s).
    + apply (IH (p ++ [i])); [done|done|]. by rewrite table_at_app, Ht1'.
    + unfold next_table. rewrite (bind_run _ _ _ _ _ (table_read_run s t i e Hb Ht0 Ht1 Hi He)).
      apply Z.eqb_neq in Hpres. rewrite Hpres. apply hhdm_run; [lia|done|done].
Qed.

(** Mapping a page that is mapped changes nothing. *)
Lemma map_mapped_run {laws : FrameSourceLaws pmm_state} taken R (s : vm_state pmm_state) pml4_root pa v flags e :
  vm_ok taken R s -> PML4_ENTRY v <> 510 -> root_pointer s R pml4_root -> mapping s.(phys) R v = Some e ->
  map_phys_to_virt_addr_hh pa v flags pml4_root s = Ret (0, s).
Proof.
  intros Hok Hv Hroot Hm. pose proof (tree_root _ _ _ Hok) as (_ & HR & _). pose proof Hok as [Hb _ _ Htree _].
  rewrite (map_root s R pml4_root) by done. rewrite map_unfold by lia. unfold mapping in Hm.
  destruct (table_at s.(phys) R (page_path v)) as [t|] eqn:Ht; [|done].
  rewrite (bind_run _ _ _ _ _ (next_tables_present taken R s (user_bit v) Hok (page_path v) [] R t (page_path_ok v Hv) eq_refl Ht)).
  destruct (tree_page _ _ _ _ _ Htree _ t (page_path_ok v Hv) Ht) as (_ & Ht0 & Ht1 & _).
  destruct (tree_words _ _ _ _ _ Htree _ t (leaf_index v) (page_path_ok v Hv) Ht (leaf_index_range v)) as [w Hw].
  rewrite Hw in Hm. unfold write_leaf. rewrite (bind_run _ _ _ _ _ (table_read_run s t _ w Hb Ht0 Ht1 (leaf_index_range v) Hw)).
  by destruct (Z.land w PRESENT_BIT =? 0).
Qed.

(** A manager that gives frames out has them in use in any account of it. *)
Definition accounted (v : vm_state pmm_state) (f : pmm_state) : Prop :=
  forall (laws : FrameSourceLaws pmm_state) taken R, vm_ok taken R v -> exists taken', taken ⊆ taken' /\ vm_ok taken' R (set_frames f v).

(** Backing pages that are mapped: a frame for each is taken, and lost. *)
Lemma vmm_map_pages_mapped {laws : FrameSourceLaws pmm_state} taken R (v0 : vm_state pmm_state) address arch_flags root n rest :
  vm_ok taken R v0 -> root_pointer v0 R root -> 0 <= n -> 0 <= address -> address + n * PAGE_SIZE_IN_BYTES <= 2 ^ 64 ->
  (forall j, 0 <= j < n -> PML4_ENTRY (address + j * PAGE_SIZE_IN_BYTES) <> 510 /\ is_Some (mapping v0.(phys) R (address + j * PAGE_SIZE_IN_BYTES))) ->
  supplies (Z.to_nat n + rest) v0.(frames) ->
  exists f, vmm_map_pages address arch_flags root n v0 = Ret (tt, set_frames f v0) /\ supplies rest f /\ accounted v0 f.
Proof.
  intros Hok Hroot Hn Ha Hend Hpages Hsup. pose proof page_size_bounds as HP.
  assert (wp (vmm_map_pages address arch_flags root n) (fun _ t => exists f, t = set_frames f v0 /\ supplies rest f /\ accounted v0 f) v0) as Hwp.
  2:{ apply wp_run in Hwp as ([] & t & Hrun & f & -> & Hf). by exists f. }
  unfold vmm_map_pages, for_upto. apply (wp_for_from (fun k t => exists f, t = set_frames f v0 /\ supplies (Z.to_nat (n - k) + rest) f /\ accounted v0 f)).
  - exists v0.(frames). split; [by destruct v0|]. rewrite Z.sub_0_r. split; [done|]. intros ? taken' R' Hok'. exists taken'. split; [done|]. by destruct v0.
  - intros k t Hk (f & -> & Hs & Hacc). replace (Z.to_nat (n - k) + rest)%nat with (S (Z.to_nat (n - (k + 1)) + rest)) in Hs by lia.
    destruct Hs as [_ (a & f' & Hal & Ha0 & Hs)]. destruct (Hpages k ltac:(lia)) as [Hv [e He]].
    apply wp_run. exists tt, (set_frames f' v0). split.
    + rewrite (bind_run _ _ _ a (set_frames f' (set_frames f v0))) by by apply (frame_run f).
      change (set_frames f' (set_frames f v0)) with (set_frames f' v0). rewrite u64_small by nia.
      destruct (Hacc laws taken R Hok) as (taken1 & _ & Hok1). destruct (vm_ok_alloc _ _ _ _ _ Hok1 Hal Ha0) as (_ & _ & _ & _ & Hok2).
      by rewrite (bind_run _ _ _ _ _ (map_mapped_run _ R (set_frames f' v0) root a (address + k * PAGE_SIZE_IN_BYTES) _ e Hok2 Hv Hroot He)).
    + exists f'. split; [done|]. split; [done|]. intros laws' taken' R' Hok'. destruct (Hacc laws' taken' R' Hok') as (taken1 & Hsub & Hok1).
      destruct (vm_ok_alloc _ _ _ _ _ Hok1 Hal Ha0) as (_ & _ & _ & _ & Hok2). exists ({[a]} ∪ taken1). split; [set_solver|exact Hok2].
  - intros t (f & -> & Hs & Hacc). rewrite Z2Nat.id, Z.add_0_l, Z.sub_diag in Hs by lia. by exists f.
Qed.
End Mapped.

(** ** The idle thread *)

(** Several blocks taken one after the other. *)
Fixpoint alloc_all (sizes : list Z) (l : list block) : option (list Z * list block) :=
  match sizes with
  | [] => Some ([], l)
  | size :: sizes' =>
      match alloc_blocks (real_size size) l with
      | None => None
      | Some (a, l1) => option_map (fun r => (a :: fst r, snd r)) (alloc_all sizes' l1)
      end
  end.

(** What the heap gives for a task: the task, its thread, the frame and the kernel stack. *)
Definition task_sizes : list Z := [sizeof_task_t; sizeof_thread_t; sizeof_cpu_status_t; THREAD_DEFAULT_STACK_SIZE].

Lemma alloc_task l a a1 a2 a3 l4 : alloc_all task_sizes l = Some ([a; a1; a2; a3], l4) ->
  exists l1 l2 l3, alloc_blocks (real_size sizeof_task_t) l = Some (a, l1) /\ alloc_blocks (real_size sizeof_thread_t) l1 = Some (a1, l2) /\
    alloc_blocks (real_size sizeof_cpu_status_t) l2 = Some (a2, l3) /\ alloc_blocks (real_size THREAD_DEFAULT_STACK_SIZE) l3 = Some (a3, l4).
Proof.
  unfold task_sizes. cbn [alloc_all].
  destruct (alloc_blocks (real_size sizeof_task_t) l) as [[b l1]|]; [|done].
  destruct (alloc_blocks (real_size sizeof_thread_t) l1) as [[b1 l2]|] eqn:E1; [|done].
  destruct (alloc_blocks (real_size sizeof_cpu_status_t) l2) as [[b2 l3]|] eqn:E2; [|done].
  destruct (alloc_blocks (real_size THREAD_DEFAULT_STACK_SIZE) l3) as [[b3 l5]|] eqn:E3; [|done].
  simpl. intros [= <- <- <- <- <-]. by exists l1, l2, l3.
Qed.

(** Where the space of the kernel starts, which is where the one of each of its tasks
    starts, and the pages the stack of the idle thread is given there. *)
Section Area.
Context `{PageConfig} (v : vm_state pmm_state).
Definition idle_area : Z := space_start VMM_LEVEL_SUPERVISOR (data_start v).
Definition idle_page (j : Z) : Z := idle_area + j * PAGE_SIZE_IN_BYTES.
Definition idle_stack_top : Z := idle_area + THREAD_DEFAULT_STACK_SIZE.

Lemma idle_page_unfold j : idle_page j = idle_area + j * PAGE_SIZE_IN_BYTES.
Proof. done. Qed.
End Area.

Lemma area_of_init `{PageConfig} level data eod i : area_address (init_info level data eod i) 0 = space_start level data.
Proof. done. Qed.

(** The tables are a part of their own. *)
Lemma booked_tables `{PageConfig} (V : vmm_state pmm_state) p i c area size flags v v' :
  set_vmm_vm v' (booked p i c area size flags (set_vmm_vm v V)) = set_vmm_vm v' (booked p i c area size flags V).
Proof. unfold booked, with_info. by destruct (p =? 0). Qed.
Lemma new_vmm_tables `{PageConfig} s g a root b v v' : new_vmm s g a root b v' = set_vmm_vm v' (new_vmm s g a root b v).
Proof. unfold new_vmm. by rewrite set_vm_with_info. Qed.

(** The allocation of a stack in the upper half, given the run of the part that maps. *)
Lemma alloc_stack_run `{PageConfig} (V : vmm_state pmm_state) p i c area k v' :
  info_of V p = Some i -> area_address i 0 = area -> V.(containers) !! i.(vmm_cur_container) = Some c -> i.(vmm_cur_container) <> 0 ->
  i.(vmm_cur_index) < i.(vmm_items_per_page) -> is_address_higher_half area = true -> 0 < area -> area + k < 2 ^ 64 -> THREAD_DEFAULT_STACK_SIZE <= k ->
  vmm_map_pages area (vm_parse_flags stack_flags) i.(root_table_hhdm) stack_count V.(vmm_vm) = Ret (tt, v') ->
  vmm_alloc_any THREAD_DEFAULT_STACK_SIZE stack_flags p V =
    Ret (area + THREAD_DEFAULT_STACK_SIZE, set_vmm_vm v' (booked p i c area THREAD_DEFAULT_STACK_SIZE stack_flags V)).
Proof.
  intros Hi Ear Hc Hc0 Hroom Hhigh Ha Hend Hk Hrun.
  assert (area_flags area stack_flags = stack_flags) as Efl by (unfold area_flags; by rewrite Hhigh).
  assert (is_address_stack stack_flags = true /\ is_address_only stack_flags = false) as [Es Eo] by done.
  pose proof (vmm_alloc_at_run V p i c 0 THREAD_DEFAULT_STACK_SIZE stack_flags v') as Halloc. cbv zeta in Halloc. rewrite Ear, Efl, Es, Eo in Halloc.
  unfold vmm_alloc_any. rewrite Halloc; [|done|done|done|done|done|intros; lia|].
  - rewrite u64_small; [done|]. unfold THREAD_DEFAULT_STACK_SIZE in *. lia.
  - intros t Ht. apply Vmm.in_vm_run. by rewrite Ht.
Qed.

Section Idle.
Context `{PageConfig}.
Context (s : kernel_state) (g : garbage) (l l4 : list block) (a a1 a2 a3 : Z) (taken : gset Z) (root : Z) (f : pmm_state) (n : nat).
Let task := a + header_size.
Let thread := a1 + header_size.
Let frame := a2 + header_size.
Let p4 := s.(root_page_table).
Let v := tables s.
#[local] Notation idle_area := (idle_area v).

#[local] Notation idle_stack_top := (idle_stack_top v).


(** What the creation of the idle task needs: four free blocks, memory for the page
    tables, and an area whose pages the kernel has mapped already, as it has when the
    first page of the heap is there ([initialize_kheap_area]). *)
Record idle_ready : Prop := {
  id_heap : heap_inv s.(ks_heap) l;
  id_blocks : alloc_all task_sizes l = Some ([a; a1; a2; a3], l4);
  id_kernel : vm_ok taken p4 v;
  id_frame : alloc_frame v.(frames) = Ret (root, f);
  id_root : root <> 0;
  id_zero : forall i, 0 <= i < 512 -> v.(phys) !! (root + 8 * i) = Some 0;
  id_data : data_start v <> 0 /\ PML4_ENTRY (data_start v) <> 510;
  id_high : is_address_higher_half idle_area = true /\ 0 < idle_area /\ idle_area + stack_count * PAGE_SIZE_IN_BYTES < 2 ^ 64;
  id_pages : forall j, 0 <= j < stack_count ->
    255 < PML4_ENTRY (idle_page v j) /\ PML4_ENTRY (idle_page v j) <> 510 /\ is_Some (mapping v.(phys) p4 (idle_page v j));
  id_supply : supplies (4 + (Z.to_nat stack_count + n)) f;
}.

(** The scheduler afterwards, the new thread being the idle one. *)
Definition idle_task_made : task_t :=
  let k := new_task s g str_idle root in
  set_task_next (new_sched s g str_idle a root).(root_task) (set_task_threads thread (set_running_threads (u64 (k.(running_threads) + 1)) k)).
Definition idle_sched : sched_state :=
  let x := enlisted g str_idle task (new_sched s g str_idle a root) (new_task s g str_idle root) idle_stack_top a1 a2 a3 in
  set_idle thread (set_root_task task (set_tasks (<[task := idle_task_made]> x.(tasks)) x)).
(** The managers of memory afterwards. *)
Definition idle_vmm (v' : vm_state pmm_state) : vmm_state pmm_state :=
  set_vmm_vm v' (booked task (new_info s g root true)
    (mk_container (match s.(ks_heap).(heap_vmm).(containers) !! data_start v with Some x => x.(vmm_root) | None => ∅ end) items_per_page 0)
    idle_area THREAD_DEFAULT_STACK_SIZE stack_flags (new_vmm s g a root true v')).

Hypothesis Hready : idle_ready.

Lemma idle_stack_size : THREAD_DEFAULT_STACK_SIZE <= stack_count * PAGE_SIZE_IN_BYTES.
Proof.
  assert (0 <= THREAD_DEFAULT_STACK_SIZE <= 2 ^ 64 - PAGE_SIZE_IN_BYTES) as Hs
    by (pose proof page_size_bounds; unfold THREAD_DEFAULT_STACK_SIZE; lia).
  pose proof (get_number_of_pages_no_wrap _ Hs) as En. fold stack_count in En. pose proof (round_up_spec THREAD_DEFAULT_STACK_SIZE) as [[Hup _] _].
  lia.
Qed.

(** The allocation of the stack, on the space [prepare_virtual_memory_environment] made. *)
Lemma idle_stack_run m2 v1 :
  space p4 root v [] (Z.to_nat stack_count + n) (set_phys m2 v1) ->
  exists f', vmm_alloc_any THREAD_DEFAULT_STACK_SIZE stack_flags task (new_vmm s g a root true (set_phys m2 v1)) =
      Ret (idle_stack_top, idle_vmm (set_frames f' (set_phys m2 v1))) /\
    supplies n f' /\ accounted (set_phys m2 v1) f'.
Proof.
  intros Hsp. pose proof Hready as [_ _ Hk _ _ _ [Hd0 _] (Hhigh & Ha0 & Hend) Hpages _]. set (v2 := set_phys m2 v1) in *.
  pose proof Hsp as [(m & f0 & Ev) (taken2 & Hvm) Hsup _ Hother _ _]. destruct stack_geometry as (_ & Hg & _). pose proof page_size_bounds.
  pose proof idle_stack_size as Hsz. set (V := new_vmm s g a root true v2). set (i := new_info s g root true).
  assert (V.(vmm_vm) = v2) as EV by (unfold V, new_vmm; by rewrite vm_with_info).
  assert (root_pointer v2 root i.(root_table_hhdm)) as Hroot.
  { unfold root_pointer. cbn [i new_info init_info with_containers with_cursor with_space with_root_tables root_table_hhdm].
    rewrite Ev. destruct (Z.eqb_spec (root + (tables s).(hhdm_base)) 0) as [E|]; [|done].
    pose proof (ok_base _ _ _ Hk). pose proof (tree_root _ _ _ Hvm). fold v in E. lia. }
  destruct (@vmm_map_pages_mapped _ (Paging.beside {[p4]}) taken2 root v2 idle_area (vm_parse_flags stack_flags) i.(root_table_hhdm) stack_count n Hvm Hroot)
    as (f' & Hrun & Hsup' & Hacc); [lia|lia|lia| |exact Hsup|].
  { intros j Hj. destruct (Hpages j Hj) as (Hlo & Hne & Hm). rewrite (idle_page_unfold v j) in Hlo, Hne, Hm. split; [exact Hne|].
    rewrite Hother; [|exact Hne|by intros w e Hw%elem_of_nil].
    destruct (Z.leb_spec (PML4_ENTRY (idle_area + j * PAGE_SIZE_IN_BYTES)) 255); [lia|exact Hm]. }
  exists f'. split; [|split; [exact Hsup'|exact Hacc]]. unfold idle_vmm, idle_stack_top. rewrite (new_vmm_tables s g a root true v2), booked_tables. fold V i.
  rewrite (alloc_stack_run V task i
    (mk_container (match s.(ks_heap).(heap_vmm).(containers) !! data_start v with Some x => x.(vmm_root) | None => ∅ end) items_per_page 0)
    idle_area (stack_count * PAGE_SIZE_IN_BYTES) (set_frames f' v2)); [|by apply info_of_with|apply area_of_init| |exact Hd0| |exact Hhigh|exact Ha0|exact Hend|exact Hsz|by rewrite EV].
  - done.
  - unfold V, new_vmm. rewrite containers_with_info. apply lookup_insert_eq.
  - change (0 < items_per_page). unfold items_per_page, sizeof_VmmItem, PAGE_SIZE_IN_BYTES. by destruct SMALL_PAGES.
Qed.

(** What is left of memory: the kernel translates as before, over more frames in use;
    the task translates nothing below, and above what the kernel does. *)
Record idle_memory (v3 : vm_state pmm_state) : Prop := {
  im_state : exists m f', v3 = vm_with m f' v;
  im_kernel : exists new taken', new ## taken /\ taken ∪ new ⊆ taken' /\ vm_ok taken' p4 v3 /\ only_pages new v.(phys) v3.(phys);
  im_supply : supplies n v3.(frames);
  im_task : forall u, PML4_ENTRY u <> 510 -> mapping v3.(phys) root u = if PML4_ENTRY u <=? 255 then None else mapping v.(phys) p4 u;
}.

Lemma idle_memory_kernel v3 u : idle_memory v3 -> PML4_ENTRY u <> 510 -> mapping v3.(phys) p4 u = mapping v.(phys) p4 u.
Proof.
  intros [_ (new & taken' & Hd & _ & _ & Ho) _ _] Hu. refine (mapping_kept _ taken _ _ p4 u (ok_tree _ _ _ (id_kernel Hready)) _ Hu).
  intros t i. exact (only_pages_beside new taken _ _ t i Ho Hd).
Qed.

Lemma create_idle_run entry argument : 0 < thread /\ 0 < frame /\ exists h e v3 x,
  create_task_from_func g str_idle entry argument true s = Ret (task, put_parts h e (idle_vmm v3) x (<[frame := first_frame s g entry true idle_stack_top]> s.(ks_frames)) s) /\
  heap_at s h e l4 /\ idle_memory v3 /\ 0 < task /\ x.(tasks) !! task = Some idle_task_made /\ set_idle thread x = idle_sched.
Proof.
  pose proof Hready as [Hheap Hblocks Hk Hf H0 Hz Hd Harea _ Hsup]. pose proof page_size_bounds.
  destruct (alloc_task _ _ _ _ _ _ Hblocks) as (l1 & l2 & l3 & Hb & Hb1 & Hb2 & Hb3).
  assert (task_ready s str_idle l l1 a taken root f (Z.to_nat stack_count + n)) as Htask by (by constructor).
  destruct (create_task_run s g str_idle l l1 a taken root f _ Htask true) as (Ht0 & h1 & e1 & v1 & taken1 & c1 & Hrun1 & Hinv1 & Hup).
  destruct (prepare_run s g str_idle l l1 a taken root f _ Htask true h1 e1 v1 taken1 c1 Ht0 Hup) as (m2 & Hrun2 & Hsp & _ & new & Hnew & Hvm2 & Ho2).
  fold task in Ht0, Hrun1, Hrun2. set (v2 := set_phys m2 v1) in *. set (X := new_sched s g str_idle a root) in *. set (k := new_task s g str_idle root).
  destruct (idle_stack_run m2 v1 Hsp) as (f3 & Hstack & Hsup3 & Hacc). fold v2 in Hstack, Hacc. set (v3 := set_frames f3 v2) in *.
  assert (X.(tasks) !! task = Some k) as Hlk by apply lookup_insert_eq.
  destruct (create_thread_run s g str_idle entry task true false (new_vmm s g a root true v2) (idle_vmm v3) X k idle_stack_top a1 a2 a3
    h1 e1 s.(ks_frames) argument l1 l2 l3 l4) as (Hth0 & h5 & e5 & Hrun5 & Hinv5);
    [done|exact Hinv1|done|done|done|done|lia|done|exact Hstack|unfold idle_stack_top, THREAD_DEFAULT_STACK_SIZE; lia|].
  fold thread frame in Hth0, Hrun5. set (Xe := enlisted g str_idle task X k idle_stack_top a1 a2 a3) in *.
  destruct (kmalloc_part s h1 e1 s.(ks_heap).(heap_vmm) X s.(ks_frames) l1 sizeof_thread_t a1 l2 Hinv1) as (_ & _ & h2 & e2 & _ & Hinv2); [by compute|done|].
  destruct (kmalloc_part s h2 e2 s.(ks_heap).(heap_vmm) X s.(ks_frames) l2 sizeof_cpu_status_t a2 l3 Hinv2) as (Hf0 & _ & _); [by compute|done|].
  split; [exact Hth0|]. split; [exact Hf0|].
  set (k1 := set_running_threads (u64 (k.(running_threads) + 1)) k).
  assert (Xe.(tasks) !! task = Some k1) as Hle by (unfold Xe, enlisted; destruct (_ =? 0); apply lookup_insert_eq).
  set (Xt := set_tasks (<[task := set_task_threads thread k1]> Xe.(tasks)) Xe).
  set (Xr := set_root_task task (set_tasks (<[task := idle_task_made]> Xe.(tasks)) Xe)).
  assert (task <> 0) as Htn by lia. exists h5, e5, v3, Xr. split; [|split; [exact Hinv5|split; [|split; [exact Ht0|split; [apply lookup_insert_eq|done]]]]].
  - unfold create_task_from_func. rewrite (bind_run _ _ _ _ _ Hrun1), (bind_run _ _ _ _ _ Hrun2), (bind_run _ _ _ _ _ Hrun5).
    set (fr := <[frame := first_frame s g entry true idle_stack_top]> s.(ks_frames)).
    rewrite (bind_run _ _ _ _ _ (sched_part _ s h5 e5 (idle_vmm v3) Xe fr tt Xt (update_task_run Xe task _ _ Htn Hle))).
    assert (Xt.(tasks) !! task = Some (set_task_threads thread k1)) as Hlt by apply lookup_insert_eq.
    assert (scheduler_add_task task Xt = Ret (tt, Xr)) as Hadd.
    { unfold scheduler_add_task. rewrite (bind_run get _ _ _ _ eq_refl), (bind_run _ _ _ _ _ (update_task_run Xt task _ _ Htn Hlt)).
      unfold Xt. cbn [tasks set_tasks root_task]. rewrite insert_insert_eq. assert (Xe.(root_task) = X.(root_task)) as -> by (unfold Xe, enlisted; by destruct (_ =? 0)).
      done. }
    by rewrite (bind_run _ _ _ _ _ (sched_part _ s h5 e5 (idle_vmm v3) Xt fr tt Xr Hadd)).
  - constructor.
    + destruct (sp_state _ _ _ _ _ _ Hsp) as (m & f' & Ev). exists m, f3. unfold v3. by rewrite Ev.
    + destruct (Hacc _ _ _ Hvm2) as (taken' & Hsub & Hok'). exists new, taken'. by split_and!.
    + exact Hsup3.
    + intros u Hu. change (phys v3) with (phys v2). apply (sp_other _ _ _ _ _ _ Hsp u Hu). by intros w e Hw%elem_of_nil.
Qed.
End Idle.

Section StartIdle.
Context `{PageConfig}.
Context (s : kernel_state) (g : garbage) (l l4 : list block) (a a1 a2 a3 : Z) (taken : gset Z) (root : Z) (f : pmm_state) (n : nat).
Let thread := a1 + header_size.
Let frame := a2 + header_size.

(** [s] with the scheduler started. *)
Definition scheduler_started : kernel_state := set_ks_sched (init_scheduler s.(ks_sched)) s.
Definition idle_frame (entry : Z) : cpu_status_t := first_frame s g entry true (idle_stack_top (tables s)).

Lemma idle_ready_started : idle_ready s l l4 a a1 a2 a3 taken root f n -> idle_ready scheduler_started l l4 a a1 a2 a3 taken root f n.
Proof. intros []. by constructor. Qed.

Lemma start_idle_run entry argument : idle_ready s l l4 a a1 a2 a3 taken root f n ->
  0 < thread /\ 0 < frame /\ exists h e v3,
  start_idle g entry argument s = Ret (tt, put_parts h e (idle_vmm scheduler_started g a root v3)
    (idle_sched scheduler_started g a a1 a2 a3 root) (<[frame := idle_frame entry]> s.(ks_frames)) s) /\
  heap_at s h e l4 /\ idle_memory s taken root n v3.
Proof.
  intros Hready. destruct (create_idle_run scheduler_started g l l4 a a1 a2 a3 taken root f n (idle_ready_started Hready) entry argument)
    as (Ht & Hf & h & e & v3 & x & Hrun & Hinv & Hmem & Hk0 & Hk & Ex).
  split; [exact Ht|]. split; [exact Hf|]. exists h, e, v3. split; [|split; [exact Hinv|by destruct Hmem]].
  unfold start_idle. assert (in_sched (modify init_scheduler) s = Ret (tt, scheduler_started)) as E by done.
  rewrite (bind_run _ _ _ _ _ E), (bind_run _ _ _ _ _ Hrun).
  assert (a + header_size <> 0) as Hne by lia.
  rewrite (bind_run _ _ _ _ _ (sched_part _ scheduler_started h e _ x _ _ x (read_task_run x _ _ Hne Hk))).
  rewrite (sched_part (modify _) scheduler_started h e _ x _ tt _ eq_refl), <- Ex. done.
Qed.

(** The idle thread is the only one, and the one that runs. *)
Lemma idle_sched_good : 0 < a + header_size -> 0 < thread -> 0 < frame ->
  let x := idle_sched scheduler_started g a a1 a2 a3 root in
  sched_good x [thread] /\ x.(idle_thread) = thread /\ x.(current_executing_thread) = thread /\ x.(next_thread_id) = 1 /\
  x.(tasks) !! (a + header_size) = Some (idle_task_made scheduler_started g a a1 root) /\
  x.(threads) = <[thread := new_thread g str_idle (a + header_size) (new_sched scheduler_started g str_idle a root) (idle_stack_top (tables s)) a1 a2 a3]> s.(ks_sched).(threads).
Proof.
  intros Ht0 Hth Hf x. assert (x.(threads) = <[thread := new_thread g str_idle (a + header_size) (new_sched scheduler_started g str_idle a root) (idle_stack_top (tables s)) a1 a2 a3]> s.(ks_sched).(threads)) as E by done.
  split; [|split; [done|split; [done|split; [done|split; [apply lookup_insert_eq|done]]]]]. apply (good_first x thread (new_thread g str_idle (a + header_size) (new_sched scheduler_started g str_idle a root) (idle_stack_top (tables s)) a1 a2 a3)); try done.
  - lia.
  - rewrite E. apply lookup_insert_eq.
  - change (frame <> 0). lia.
  - change (a + header_size <> 0). lia.
  - apply lookup_insert_is_Some. by left.
Qed.
End StartIdle.

(** ** The heap and the idle thread *)

(** The blocks of a task on a heap of one free block of 2 MiB. *)
Lemma alloc_last used a size real : Forall (fun b => b.(b_free) = false) used -> 0 <= real -> 0x20 < size - real ->
  alloc_blocks real (used ++ [mk_block a size true]) =
    Some (a, (used ++ [mk_block a real false]) ++ [mk_block (a + header_size + real) (size - real - header_size) true]).
Proof.
  intros Hu Hr Hs. rewrite alloc_blocks_last.
  - unfold take_block. simpl. destruct (Z.ltb_spec KHEAP_MINIMUM_ALLOCABLE_SIZE (size - real)); [by rewrite <- app_assoc|unfold KHEAP_MINIMUM_ALLOCABLE_SIZE in *; lia].
  - apply alloc_blocks_none. eapply Forall_impl; [exact Hu|]. intros b Hb. unfold fits. by rewrite Hb.
  - unfold fits. simpl. apply Z.leb_le. lia.
Qed.

Lemma alloc_task_last used a size : Forall (fun b => b.(b_free) = false) used -> 0x20000 < size ->
  exists used', Forall (fun b => b.(b_free) = false) used' /\
    alloc_all task_sizes (used ++ [mk_block a size true]) =
      Some ([a; a + 1296; a + 1488; a + 1744], used' ++ [mk_block (a + 67360) (size - 67360) true]).
Proof.
  intros Hu Hs.
  assert (real_size sizeof_task_t = 1264 /\ real_size sizeof_thread_t = 160 /\ real_size sizeof_cpu_status_t = 224 /\
    real_size THREAD_DEFAULT_STACK_SIZE = 65584 /\ header_size = 32) as (E0 & E1 & E2 & E3 & Eh) by done.
  unfold task_sizes. cbn [alloc_all]. rewrite E0, E1, E2, E3.
  do 4 (rewrite alloc_last by (rewrite ?Eh; lia || (rewrite ?Forall_app; repeat constructor; done))). rewrite Eh.
  assert (a + 32 + 1264 = a + 1296 /\ a + 1296 + 32 + 160 = a + 1488 /\ a + 1488 + 32 + 224 = a + 1744 /\ a + 1744 + 32 + 65584 = a + 67360 /\
    size - 1264 - 32 - 160 - 32 - 224 - 32 - 65584 - 32 = size - 67360) as (A1 & A2 & A3 & A4 & A5) by lia.
  rewrite A1, A2, A3, A4, A5. eexists. split; [|reflexivity]. rewrite !Forall_app. repeat constructor; done.
Qed.

(** Two tasks fit in the first page of the heap. *)
Lemma boot_blocks area : exists l4 l8,
  alloc_all task_sizes [mk_block area 0x200000 true] = Some ([area; area + 1296; area + 1488; area + 1744], l4) /\
  alloc_all task_sizes l4 = Some ([area + 67360; area + 67360 + 1296; area + 67360 + 1488; area + 67360 + 1744], l8).
Proof.
  destruct (alloc_task_last [] area 0x200000) as (u & Hu & E); [constructor|lia|].
  destruct (alloc_task_last u (area + 67360) (0x200000 - 67360) Hu) as (u' & _ & E'); [lia|]. eexists _, _. split; [exact E|exact E'].
Qed.

Section Boot.
Context `{PageConfig}.
Context (s : kernel_state) (g : garbage) (i0 : VmmInfo) (eod : Z) (c : VmmContainer) (taken : gset Z) (n : nat).
Let p4 := s.(root_page_table).
Let v := tables s.
Let area := idle_area v.

(** The words of frames that are not in use are zero. *)
Definition clear_frames (taken : gset Z) (v : vm_state pmm_state) : Prop :=
  forall x i, x mod 2 ^ 12 = 0 -> 0 <= x -> x + PAGE_SIZE_IN_BYTES <= v.(vm_memory_size) -> x ∉ taken -> 0 <= i < 512 -> v.(phys) !! (x + 8 * i) = Some 0.

(** The memory as [_init_basic_system] leaves it, in the default build: the space of the
    kernel as [vmm_init] made it, nothing mapped where it starts. *)
Record memory_set_up : Prop := {
  mu_build : SMALL_PAGES = false;
  mu_kernel : vm_ok taken p4 v;
  mu_info : s.(ks_heap).(heap_vmm).(vmm_kernel) = init_info VMM_LEVEL_SUPERVISOR (data_start v) eod i0;
  mu_root : root_pointer v p4 i0.(root_table_hhdm);
  mu_container : s.(ks_heap).(heap_vmm).(containers) !! data_start v = Some c;
  mu_data : data_start v <> 0 /\ PML4_ENTRY (data_start v) <> 510;
  mu_high : is_address_higher_half area = true /\ 0 < area /\ area + 2 * PAGE_SIZE_IN_BYTES < 2 ^ 64 /\ 255 < PML4_ENTRY area /\ PML4_ENTRY area <> 510;
  mu_free : mapping v.(phys) p4 area = None;
  mu_clear : clear_frames taken v;
  mu_supply : supplies (4 + (5 + (1 + n))) v.(frames);
}.

Section Ready.
Hypothesis Hready : memory_set_up.

(** [initialize_kheap] puts the heap on the first page of the space of the kernel. *)
Lemma initialize_kheap_area : exists s1 taken1 frame,
  in_heap initialize_kheap s = Ret (tt, s1) /\ (exists hp, s1 = set_ks_heap hp s) /\ heap_inv s1.(ks_heap) [mk_block area PAGE_SIZE_IN_BYTES true] /\
  (exists m f, tables s1 = vm_with m f v) /\ taken ⊆ taken1 /\ vm_ok taken1 p4 (tables s1) /\ only_pages taken1 v.(phys) (tables s1).(phys) /\
  supplies (5 + (1 + n)) (tables s1).(frames) /\
  forall u, PML4_ENTRY u <> 510 -> mapping (tables s1).(phys) p4 u =
    if decide (same_page u area) then Some (leaf_entry frame area (page_flags (vm_parse_flags (Z.lor VMM_FLAGS_PRESENT VMM_FLAGS_WRITE_ENABLE))))
    else mapping v.(phys) p4 u.
Proof.
  pose proof Hready as [Hbuild Hk Hinfo Hroot Hcont [Hd0 Hd] (Hhigh & Ha0 & Hend & Hlo & Hne) Hfree _ [_ (a & f & Ha & Hane & Hs)]].
  pose proof page_size_bounds as HP. set (V := s.(ks_heap).(heap_vmm)) in *. set (i := init_info VMM_LEVEL_SUPERVISOR (data_start v) eod i0) in *.
  set (flags := Z.lor VMM_FLAGS_PRESENT VMM_FLAGS_WRITE_ENABLE).
  destruct (vm_ok_alloc _ _ _ _ _ Hk Ha Hane) as (Haa & Hap & _ & _ & Hk1). set (v1 := set_frames f v) in *.
  destruct (map_phys_to_virt_addr_hh_run ({[a]} ∪ taken) p4 v1 i.(root_table_hhdm) a area (page_flags (vm_parse_flags flags)) (5 + (1 + n)) Hk1 Hne)
    as (v2 & taken2 & m2 & f2 & Ev2 & Hk2 & Hs2 & Hsub & Hrun & Hmap & Ho & _); [exact Hroot|exact Hs|apply page_flags_present|lia|exact Haa|].
  change (phys v1) with (phys v) in Hrun, Hmap, Ho. rewrite Hfree in Hrun, Hmap.
  assert (0 <= PAGE_SIZE_IN_BYTES <= 2 ^ 64 - PAGE_SIZE_IN_BYTES) as Hsz by lia. pose proof (get_number_of_pages_no_wrap PAGE_SIZE_IN_BYTES Hsz) as En.
  assert (get_number_of_pages_from_size PAGE_SIZE_IN_BYTES = 1) as En1.
  { unfold get_number_of_pages_from_size, align_value_to_page, PAGE_SIZE_IN_BYTES. rewrite Hbuild. reflexivity. }
  assert (area_address i 0 = area) as Ear by apply area_of_init. assert (area_flags area flags = flags) as Efl by (unfold area_flags; by rewrite Hhigh).
  pose proof (vmm_alloc_at_run V 0 i c 0 PAGE_SIZE_IN_BYTES flags v2) as Halloc. cbv zeta in Halloc. rewrite Ear, Efl in Halloc.
  assert (vmm_alloc PAGE_SIZE_IN_BYTES flags 0 V = Ret (area, set_vmm_vm v2 (booked 0 i c area PAGE_SIZE_IN_BYTES flags V))) as Hvmm.
  { change (vmm_alloc PAGE_SIZE_IN_BYTES flags 0 V) with (vmm_alloc_at 0 PAGE_SIZE_IN_BYTES flags 0 V). rewrite Halloc; [done|by rewrite <- Hinfo|exact Hcont|exact Hd0| | |by intros; lia|].
    - change (0 < items_per_page). unfold items_per_page, sizeof_VmmItem, PAGE_SIZE_IN_BYTES. by destruct SMALL_PAGES.
    - lia.
    - intros t Ht. change (is_address_only flags) with false. cbn [negb]. apply Vmm.in_vm_run. rewrite Ht, En1. unfold vmm_map_pages, for_upto.
      change (Z.to_nat 1) with 1%nat. cbn [for_from]. rewrite Z.mul_0_l, Z.add_0_r, u64_small by lia.
      assert ((let! frame := in_frames alloc_frame in
               do! map_phys_to_virt_addr_hh frame area (Z.lor (Z.lor (vm_parse_flags flags) VMM_FLAGS_PRESENT) VMM_FLAGS_WRITE_ENABLE) i.(root_table_hhdm) in
               ret tt) (vmm_vm V) = Ret (tt, v2)) as Hbody.
      { rewrite (bind_run _ _ _ a v1) by by apply (frame_run v.(frames)). fold (page_flags (vm_parse_flags flags)). by rewrite (bind_run _ _ _ _ _ Hrun). }
      by rewrite (bind_run _ _ _ _ _ Hbody). }
  destruct (initialize_kheap_block s.(ks_heap) area _ Hvmm) as (hp & Hheap & Hinv & Ehp & _); [done|unfold header_size; lia|].
  assert (tables (set_ks_heap hp s) = v2) as Et by (unfold tables; simpl; by rewrite Ehp).
  exists (set_ks_heap hp s), taken2, a. rewrite Et. split; [unfold in_heap, zoom; by rewrite Hheap|]. split; [by exists hp|]. split; [exact Hinv|].
  split; [exists m2, f2; by rewrite Ev2|]. split; [etransitivity; [apply union_subseteq_r|exact Hsub]|]. split; [exact Hk2|]. split; [exact Ho|]. split; [by rewrite Ev2|].
  intros u Hu. rewrite Hmap by done. done.
Qed.

(** The frames and the blocks the idle task is given after that. *)
Lemma idle_ready_after s1 taken1 :
  (exists hp, s1 = set_ks_heap hp s) -> heap_inv s1.(ks_heap) [mk_block area PAGE_SIZE_IN_BYTES true] -> (exists m f, tables s1 = vm_with m f v) ->
  taken ⊆ taken1 -> vm_ok taken1 p4 (tables s1) -> only_pages taken1 v.(phys) (tables s1).(phys) -> supplies (5 + (1 + n)) (tables s1).(frames) ->
  is_Some (mapping (tables s1).(phys) p4 area) ->
  exists root f, forall l4, alloc_all task_sizes [mk_block area 0x200000 true] = Some ([area; area + 1296; area + 1488; area + 1744], l4) ->
    idle_ready s1 [mk_block area PAGE_SIZE_IN_BYTES true] l4 area (area + 1296) (area + 1488) (area + 1744) taken1 root f n.
Proof.
  intros (hp & Es) Hheap (m & f0 & Ev) Hsub Hk1 Ho [_ (root & f & Ha & Ha0 & Hs)] Hm.
  destruct Hready as [Hbuild Hk _ _ _ Hdata (Hhigh & Harea & Hend & Hlo & Hne) _ Hclear _].
  destruct (vm_ok_alloc _ _ _ _ _ Hk1 Ha Ha0) as (Hra & Hrp & Hrl & Hrt & _).
  assert (PAGE_SIZE_IN_BYTES = 0x200000) as EP by (unfold PAGE_SIZE_IN_BYTES; by rewrite Hbuild).
  assert (stack_count = 1) as E1.
  { unfold stack_count, get_number_of_pages_from_size, align_value_to_page, PAGE_SIZE_IN_BYTES. rewrite Hbuild. reflexivity. }
  assert (data_start (tables s1) = data_start v) as Ed by (rewrite Ev; exact eq_refl).
  assert (idle_area (tables s1) = area) as Ear by exact (f_equal (space_start VMM_LEVEL_SUPERVISOR) Ed).
  assert (root_page_table s1 = p4) as Ep by (rewrite Es; exact eq_refl).
  exists root, f. intros l4 Hl4. constructor.
  - exact Hheap.
  - rewrite EP. exact Hl4.
  - rewrite Ep. exact Hk1.
  - exact Ha.
  - exact Ha0.
  - intros i Hi. rewrite Ho.
    + apply Hclear; [exact Hra|lia|rewrite Ev in Hrl; exact Hrl|intros Hx; exact (Hrt (Hsub _ Hx))|exact Hi].
    + intros t j Ht Hta Hj E. apply same_word in E as [-> _]; [exact (Hrt Ht)|done..].
  - rewrite Ed. exact Hdata.
  - rewrite Ear, E1. split; [exact Hhigh|]. split; [exact Harea|]. lia.
  - intros j Hj. rewrite E1 in Hj. assert (j = 0) as -> by lia. rewrite idle_page_unfold, Ear, Ep, Z.mul_0_l, Z.add_0_r.
    split; [exact Hlo|]. split; [exact Hne|exact Hm].
  - rewrite E1. exact Hs.
Qed.

End Ready.

(** C14: The heap and then the idle task, on the memory as [_init_basic_system] leaves it
    in the default build: both are made; the idle thread is the only one on the list,
    runs, and will start at [code_to_run] in supervisor mode. Its stack is where the
    heap is: the address space of its task starts where that of the kernel does, whose
    first page the heap has, and that page is mapped already, so that the frame taken
    for the stack is not mapped. The 64 KiB below its stack pointer are the
    first of the heap, which hold the task, the thread, the frame it starts from and
    the greater part of its kernel stack. *)
Theorem idle_stack_in_heap entry argument : memory_set_up ->
  exists s' root t r,
    (do! in_heap initialize_kheap in start_idle g entry argument) s = Ret (tt, s') /\
    sched_good s'.(ks_sched) [area + 1328] /\ s'.(ks_sched).(idle_thread) = area + 1328 /\ s'.(ks_sched).(current_executing_thread) = area + 1328 /\
    s'.(ks_sched).(threads) !! (area + 1328) = Some t /\ t.(status) = NEW /\ t.(execution_frame) = area + 1520 /\
    t.(rsp0) = area + 1776 + THREAD_DEFAULT_STACK_SIZE /\
    s'.(ks_frames) !! (area + 1520) = Some r /\ r.(rip) = s.(code_to_run) /\ r.(cs) = 0x08 /\ r.(rsp) = area + THREAD_DEFAULT_STACK_SIZE /\
    t.(parent_task) = area + 32 /\ vm_root_page_table <$> s'.(ks_sched).(tasks) !! (area + 32) = Some root /\
    s'.(ks_heap).(kernel_heap_start) = area /\ (exists l, heap_inv s'.(ks_heap) l) /\
    forall j, 0 <= j < stack_count ->
      mapping (tables s').(phys) root (idle_page v j) = mapping (tables s').(phys) p4 (idle_page v j) /\
      is_Some (mapping (tables s').(phys) p4 (idle_page v j)).
Proof.
  intros Hset. destruct (initialize_kheap_area Hset) as (s1 & taken1 & fr & Hrun1 & Hs1 & Hheap1 & Hv1 & Hsub & Hk1 & Ho & Hsup & Hmap).
  pose proof Hset as [_ _ _ _ _ _ (_ & _ & _ & _ & Hne) _ _ _].
  assert (is_Some (mapping (tables s1).(phys) p4 area)) as Hm by (rewrite Hmap, decide_True by done; by eexists).
  destruct (idle_ready_after Hset s1 taken1 Hs1 Hheap1 Hv1 Hsub Hk1 Ho Hsup Hm) as (root & f & Hid). destruct (boot_blocks area) as (l4 & _ & Hl4 & _).
  specialize (Hid l4 Hl4).
  destruct (start_idle_run s1 g _ l4 area (area + 1296) (area + 1488) (area + 1744) taken1 root f n entry argument Hid)
    as (Ht0 & Hf0 & h & e & v3 & Hrun & Hinv & Hmem).
  assert (area + 1296 + header_size = area + 1328 /\ area + 1488 + header_size = area + 1520 /\ area + header_size = area + 32 /\
    area + 1744 + header_size = area + 1776) as (A1 & A2 & A0 & A3) by (unfold header_size; lia).
  assert (data_start (tables s1) = data_start v) as Ed by (destruct Hv1 as (m & f0 & ->); exact eq_refl).
  assert (idle_area (tables s1) = area) as Ear by exact (f_equal (space_start VMM_LEVEL_SUPERVISOR) Ed).
  assert (root_page_table s1 = p4 /\ code_to_run s1 = s.(code_to_run)) as [Ep Ec] by (destruct Hs1 as [hp ->]; by split).
  assert (0 < area) as Ha0 by apply Hset. assert (0 < area + header_size) as Hk0 by (unfold header_size; lia).
  destruct (idle_sched_good s1 g area (area + 1296) (area + 1488) (area + 1744) root Hk0 Ht0 Hf0) as (Hgood & Ei & Ecur & _ & Hk & Eth).
  rewrite A1 in Hgood, Ei, Ecur, Eth. rewrite A2 in Hrun. rewrite A0 in Hk, Eth.
  eexists _, root, _, (idle_frame s1 g entry). split; [rewrite (bind_run _ _ _ _ _ Hrun1); exact Hrun|].
  split; [exact Hgood|]. split; [exact Ei|]. split; [exact Ecur|]. split; [cbn [ks_sched put_parts]; rewrite Eth; apply lookup_insert_eq|].
  split; [done|]. split; [exact A2|]. split; [exact (f_equal (fun z => z + THREAD_DEFAULT_STACK_SIZE) A3)|].
  split; [apply lookup_insert_eq|]. split; [exact Ec|]. split; [done|].
  split; [unfold idle_frame, idle_stack_top; rewrite Ear; done|]. split; [done|].
  split; [cbn [ks_sched put_parts]; by rewrite Hk|].
  split; [destruct Hheap1 as [(_ & _ & Hstart & _) _]; cbn [hd_addr b_addr] in Hstart; transitivity s1.(ks_heap).(kernel_heap_start); [exact eq_refl|exact Hstart]|]. split; [exists l4; exact Hinv|].
  intros j Hj. destruct (id_pages _ _ _ _ _ _ _ _ _ _ _ Hid j Hj) as (Hlo & Hpne & Hpm). rewrite idle_page_unfold, Ear in Hlo, Hpne, Hpm.
  rewrite idle_page_unfold. fold area. rewrite Ep in Hpm.
  match goal with |- context [tables ?x] => assert (tables x = v3) as Et by exact eq_refl; rewrite Et end.
  assert (mapping v3.(phys) (root_page_table s1) (area + j * PAGE_SIZE_IN_BYTES) = mapping (tables s1).(phys) (root_page_table s1) (area + j * PAGE_SIZE_IN_BYTES)) as Hkm
    by (eapply idle_memory_kernel; [exact Hid|exact Hmem|exact Hpne]).
  rewrite Ep in Hkm. rewrite Hkm. split; [|exact Hpm].
  rewrite (im_task _ _ _ _ _ Hmem _ Hpne), Ep. by destruct (Z.leb_spec (PML4_ENTRY (area + j * PAGE_SIZE_IN_BYTES)) 255); [lia|].
Qed.
End Boot.

(** [vmm_init], on page tables that map nothing there, leaves the memory like that. *)
Lemma vmm_init_sets_up `{PageConfig} (s : kernel_state) (taken : gset Z) (n : nat) :
  let v := tables s in let i := s.(ks_heap).(heap_vmm).(vmm_kernel) in let p4 := s.(root_page_table) in let area := idle_area v in
  SMALL_PAGES = false -> vm_ok taken p4 v -> v.(kernel_root) = p4 + v.(hhdm_base) -> root_pointer v p4 i.(root_table_hhdm) ->
  data_start v <> 0 /\ PML4_ENTRY (data_start v) <> 510 ->
  is_address_higher_half area = true /\ 0 < area /\ area + 2 * PAGE_SIZE_IN_BYTES < 2 ^ 64 /\ 255 < PML4_ENTRY area /\ PML4_ENTRY area <> 510 ->
  ~ same_page area (data_start v) -> mapping v.(phys) p4 area = None -> clear_frames taken v -> supplies (4 + (4 + (5 + (1 + n)))) v.(frames) ->
  exists hp eod c taken', in_vmm (vmm_init VMM_LEVEL_SUPERVISOR 0) s = Ret (tt, set_ks_heap hp s) /\
    memory_set_up (set_ks_heap hp s) i eod c taken' n.
Proof.
  intros v i p4 area Hbuild Hk Hkr Hroot [Hd0 Hd] Harea Hapart Hfree Hclear Hsup. set (V := s.(ks_heap).(heap_vmm)).
  assert (root_pointer v p4 v.(kernel_root)) as Hkroot by (unfold root_pointer; destruct (_ =? 0); exact Hkr).
  destruct (vmm_init_run V VMM_LEVEL_SUPERVISOR 0 i taken p4 (4 + (5 + (1 + n))) eq_refl Hd0 Hd Hk Hkroot Hsup)
    as (v' & taken' & a & [(m & f & Ev) Hk' Hsub Hfresh Hsup' Ho Hmap] & Hrun).
  exists (set_heap_vmm (with_info 0 (init_info VMM_LEVEL_SUPERVISOR (data_start v) (u64 (global_container_root V + VMM_RESERVED_SPACE_SIZE)) i)
    (set_containers (reset_container (data_start v) V.(containers)) (set_vmm_vm v' V))) s.(ks_heap)).
  eexists _, _, taken'. split; [unfold in_vmm, in_heap, zoom; simpl; fold V; rewrite Hrun; exact eq_refl|].
  set (s1 := set_ks_heap _ s). assert (tables s1 = v') as Et by exact eq_refl.
  assert (data_start v' = data_start v) as Ed by (rewrite Ev; exact eq_refl).
  assert (idle_area v' = area) as Ea by exact (f_equal (space_start VMM_LEVEL_SUPERVISOR) Ed).
  constructor; rewrite ?Et, ?Ed, ?Ea; [exact Hbuild|exact Hk'|exact eq_refl|rewrite Ev; exact Hroot| |exact (conj Hd0 Hd)|exact Harea| | |exact Hsup'].
  - apply lookup_insert_eq.
  - change (root_page_table s1) with p4. rewrite Hmap by apply Harea. change (vmm_vm V) with v. destruct (mapping v.(phys) p4 (data_start v)); [exact Hfree|].
    by rewrite decide_False.
  - intros x j Hx H0 Hl Hxt Hj. rewrite Ho.
    + apply Hclear; [exact Hx|exact H0|rewrite Ev in Hl; exact Hl|intros Ht; exact (Hxt (Hsub _ Ht))|exact Hj].
    + intros t j' Ht Hta Hj' E. apply same_word in E as [-> _]; [exact (Hxt Ht)|done..].
Qed.

(** ** Both tasks *)

Section Blocks.
Implicit Types (b c : block) (l : list block).

(** A block is taken from the free ones, and those in use stay. *)
Lemma alloc_used real l a l' : alloc_blocks real l = Some (a, l') ->
  (exists b, b ∈ l /\ b.(b_addr) = a /\ b.(b_free) = true) /\ (exists b, b ∈ l' /\ b.(b_addr) = a /\ b.(b_free) = false) /\
  forall c, c ∈ l -> c.(b_free) = false -> c ∈ l'.
Proof.
  intros (l1 & b & l2 & -> & -> & -> & Hf & _)%alloc_blocks_split. pose proof Hf as [Hfree _]%andb_prop. split; [|split].
  - exists b. split; [apply elem_of_app; right; by left|done].
  - exists (hd (busy b) (take_block real b)). unfold take_block. case_match; (split; [|done]); apply elem_of_app; right; by left.
  - intros c [Hc|[->|Hc]%elem_of_cons]%elem_of_app Hu; [apply elem_of_app; by left|congruence|].
    apply elem_of_app. right. apply elem_of_app. by right.
Qed.

Lemma same_addr l b c : blocks_ok l -> b ∈ l -> c ∈ l -> b.(b_addr) = c.(b_addr) -> b = c.
Proof.
  intros Hnd%blocks_ok_NoDup (i & Hi)%list_elem_of_lookup_1 (j & Hj)%list_elem_of_lookup_1 E.
  assert (i = j) as ->; [|congruence]. unfold addrs in Hnd.
  apply (NoDup_lookup _ i j b.(b_addr) Hnd); rewrite list_lookup_fmap; [by rewrite Hi|by rewrite Hj, E].
Qed.

(** The blocks of [alloc_all] are new: none is at the address of one in use. *)
Lemma alloc_all_fresh sizes : Forall (fun z => 0 <= z) sizes -> forall l l' out, blocks_ok l -> alloc_all sizes l = Some (out, l') ->
  blocks_ok l' /\ (forall x, x ∈ out -> exists b, b ∈ l' /\ b.(b_addr) = x /\ b.(b_free) = false) /\
  (forall c, c ∈ l -> c.(b_free) = false -> c ∈ l' /\ c.(b_addr) ∉ out).
Proof.
  intros Hs. induction Hs as [|size sizes Hs0 Hs IH]; intros l l' out Hok; cbn [alloc_all].
  - intros [= <- <-]. split; [done|]. split; [intros x Hx; by apply elem_of_nil in Hx|]. intros c Hc _. split; [done|]. by intros Hx%elem_of_nil.
  - destruct (alloc_blocks (real_size size) l) as [[a l1]|] eqn:E; [|done].
    destruct (alloc_all sizes l1) as [[out1 l2]|] eqn:E1; [|done]. simpl. intros [= <- <-].
    assert (0 <= real_size size) as Hr by (pose proof (real_size_bounds size Hs0); simpl in Hs0; unfold header_size in *; lia).
    destruct (alloc_blocks_ok _ _ _ _ Hr Hok E) as [Hok1 _].
    destruct (alloc_used _ _ _ _ E) as ((b & Hb & Hba & Hbf) & (b' & Hb' & Hba' & Hbf') & Hkeep).
    destruct (IH l1 l2 out1 Hok1 E1) as (Hok2 & Hout & Hused). split; [done|]. split.
    + intros x [->|Hx]%elem_of_cons; [|by apply Hout]. exists b'. split; [by apply Hused|done].
    + intros c Hc Hcu. destruct (Hused c (Hkeep c Hc Hcu) Hcu) as [Hc2 Hn]. split; [done|]. intros [Ec|Hx]%elem_of_cons; [|done].
      assert (c = b) as -> by (apply (same_addr l); [done..|congruence]). congruence.
Qed.

Lemma alloc_all_apart sizes sizes' l l1 l2 out out' x y : Forall (fun z => 0 <= z) sizes -> Forall (fun z => 0 <= z) sizes' -> blocks_ok l ->
  alloc_all sizes l = Some (out, l1) -> alloc_all sizes' l1 = Some (out', l2) -> x ∈ out -> y ∈ out' -> x <> y.
Proof.
  intros Hs Hs' Hok H1 H2 Hx Hy ->. destruct (alloc_all_fresh _ Hs _ _ _ Hok H1) as (Hok1 & Hout & _).
  destruct (Hout y Hx) as (b & Hb & <- & Hbf). destruct (alloc_all_fresh _ Hs' _ _ _ Hok1 H2) as (_ & _ & Hused). by destruct (Hused b Hb Hbf).
Qed.
End Blocks.

Section Both.
Context `{PageConfig}.
Context (s : kernel_state) (g g' : garbage) (name : list Z) (elf_header : Z) (h : Elf64_Ehdr) (phdrs : list Elf64_Phdr).
Context (l l4 l8 : list block) (a a1 a2 a3 b b1 b2 b3 : Z) (taken : gset Z) (root : Z) (f : pmm_state).
Let v := tables s.
Let p4 := s.(root_page_table).
Let idle := a1 + header_size.
Let task := b + header_size.
Let thread := b1 + header_size.
Let frame := b2 + header_size.

(** A program in memory: its headers, its segments page by page for the lower half,
    apart from each other and from the stack. *)
Record program_image (v : vm_state pmm_state) : Prop := {
  pi_header : elf_header <> 0 /\ load_ehdr elf_header s.(ks_memory) = Ret (h, s.(ks_memory));
  pi_count : Z.of_nat (length phdrs) = h.(e_phnum);
  pi_phdrs : forall j phdr, phdrs !! j = Some phdr ->
    load_phdr (phdr_address elf_header h (Z.of_nat j)) s.(ks_memory) = Ret (phdr, s.(ks_memory));
  pi_fits : Forall (segment_fits elf_header v) phdrs;
  pi_apart : NoDup (page_id ∘ fst <$> program_pages elf_header v phdrs);
  pi_beside : forall u e j, (u, e) ∈ program_pages elf_header v phdrs -> 0 <= j < stack_count -> ~ same_page u (stack_page j);
}.

Lemma program_image_tables m f' : program_image v -> program_image (vm_with m f' v).
Proof.
  intros [Hh Hc Hp Hf Ha Hb]. constructor; [exact Hh|exact Hc|exact Hp| |exact Ha|exact Hb].
  eapply Forall_impl; [exact Hf|]. intros p []. by constructor.
Qed.

(** What both tasks need: the idle one as before, with memory and blocks of the heap left
    for the other, the free memory zero, and the program. *)
Record tasks_ready : Prop := {
  tk_idle : idle_ready s l l4 a a1 a2 a3 taken root f (5 + (program_need phdrs + 4 * Z.to_nat stack_count));
  tk_blocks : alloc_all task_sizes l4 = Some ([b; b1; b2; b3], l8);
  tk_name : Z.of_nat (length name) < TASK_NAME_MAX_LEN;
  tk_clear : clear_frames taken v;
  tk_image : program_image v;
}.

Section Ready.
Hypothesis Hready : tasks_ready.

(** The state between the two. *)
Lemma program_ready_after n v3 s1 : n = (5 + (program_need phdrs + 4 * Z.to_nat stack_count))%nat ->
  idle_memory s taken root n v3 -> tables s1 = v3 -> root_page_table s1 = p4 -> ks_memory s1 = s.(ks_memory) -> heap_inv s1.(ks_heap) l4 ->
  exists l5 l6 l7 taken2 root2 f2, program_ready s1 name elf_header h phdrs l4 l5 l6 l7 l8 b b1 b2 b3 taken2 root2 f2.
Proof.
  intros -> [(m & f' & Ev) (new & taken2 & Hd & Hsub & Hk & Ho) Hsup _] Et Ep Em Hheap.
  destruct Hready as [[_ _ _ _ _ _ Hdata _ _ _] Hblocks Hname Hclear Himage].
  destruct (alloc_task _ _ _ _ _ _ Hblocks) as (l5 & l6 & l7 & Hb & Hb1 & Hb2 & Hb3).
  destruct Hsup as [_ (root2 & f2 & Ha & Ha0 & Hs)]. destruct (vm_ok_alloc _ _ _ _ _ Hk Ha Ha0) as (Hra & Hrp & Hrl & Hrt & _).
  assert (program_image v3) as [Hh Hc Hp Hf Hap Hbe] by (rewrite Ev; exact (program_image_tables m f' Himage)).
  exists l5, l6, l7, taken2, root2, f2. constructor; rewrite ?Et, ?Em; [|exact Hb1|exact Hb2|exact Hb3|exact Hh|exact Hc|exact Hp|exact Hf|exact Hap|exact Hbe].
  constructor; rewrite ?Et, ?Ep; [exact Hheap|exact Hb|exact Hname|exact Hk|exact Ha|exact Ha0| |rewrite Ev; exact Hdata|exact Hs].
  intros i Hi. rewrite Ho.
  - apply Hclear; [exact Hra|lia|rewrite Ev in Hrl; exact Hrl|intros Hx; apply Hrt, Hsub, elem_of_union; by left|exact Hi].
  - intros t j Ht Hta Hj E. apply same_word in E as [-> _]; [apply Hrt, Hsub, elem_of_union; by right|done..].
Qed.

(** The thread of the program goes in front of the idle one. *)
Lemma spawned_good s1 root2 : s1.(ks_sched) = idle_sched (scheduler_started s) g a a1 a2 a3 root ->
  0 < a + header_size -> 0 < idle -> 0 < a2 + header_size -> 0 < task -> 0 < thread -> 0 < frame -> thread <> idle ->
  let x := spawned_sched s1 g' name b b1 b2 b3 root2 in
  sched_good x [thread; idle] /\ x.(idle_thread) = idle /\ x.(current_executing_thread) = idle /\
  x.(threads) !! thread = Some (new_thread g' name task (new_sched s1 g' name b root2) stack_top b1 b2 b3) /\
  vm_root_page_table <$> x.(tasks) !! task = Some root2.
Proof.
  intros Es Ha Hi Ha2 Hk Ht Hf Hne x.
  destruct (idle_sched_good s g a a1 a2 a3 root Ha Hi Ha2) as (Hgood & Ei & Ec & Eid & _ & Eth). rewrite <- Es in *. fold idle in Ei, Ec.
  set (X := new_sched s1 g' name b root2) in *. set (t := new_thread g' name task X stack_top b1 b2 b3).
  assert ((X.(current_executing_thread) =? 0) = false) as Ecur by (change (current_executing_thread X) with (current_executing_thread s1.(ks_sched)); rewrite Ec; apply Z.eqb_neq; lia).
  assert (x.(threads) = <[thread := t]> s1.(ks_sched).(threads) /\ x.(current_executing_thread) = s1.(ks_sched).(current_executing_thread) /\
    x.(thread_list) = thread /\ x.(thread_list_size) = u64 (s1.(ks_sched).(thread_list_size) + 1) /\ x.(idle_thread) = s1.(ks_sched).(idle_thread) /\
    exists k k1, x.(tasks) = <[task := k1]> (<[task := k]> (<[task := new_task s1 g' name root2]> s1.(ks_sched).(tasks))) /\ k1.(vm_root_page_table) = root2)
    as (Exth & Exc & Exl & Exn & Exi & k & k1 & Ext & Ek1).
  { unfold x, spawned_sched, enlisted. fold X. rewrite Ecur. split_and!; try done. by eexists _, _. }
  split; [|split; [by rewrite Exi|split; [by rewrite Exc|split; [rewrite Exth; apply lookup_insert_eq|rewrite Ext, lookup_insert_eq; simpl; by rewrite Ek1]]]].
  apply (good_added s1.(ks_sched) [idle] thread t x Hgood); try done.
  - by intros ->%list_elem_of_singleton.
  - lia.
  - intros q u ->%list_elem_of_singleton Hu. rewrite Eth in Hu. unfold idle in Hu. rewrite lookup_insert_eq in Hu. injection Hu as <-.
    assert (t.(tid) = 1) as -> by (change (t.(tid)) with (u16 s1.(ks_sched).(next_thread_id)); by rewrite Eid). done.
  - change (task <> 0). lia.
  - rewrite Ext. change (t.(parent_task)) with task. rewrite lookup_insert_eq. by eexists.
  - change (frame <> 0). lia.
  - intros q Hq. rewrite Ext. by do 3 (apply lookup_insert_is_Some'; right).
Qed.

Lemma new_blocks : 0 < a /\ 0 < a1 /\ 0 < a2 /\ 0 < b /\ 0 < b1 /\ 0 < b2 /\ b1 <> a1.
Proof.
  destruct Hready as [[Hheap Hblocks _ _ _ _ _ _ _ _] Hblocks' _ _ _]. assert (blocks_ok l) as Hok by apply Hheap.
  assert (Forall (fun z => 0 <= z) task_sizes) as Hs by (repeat constructor; done).
  destruct (alloc_all_fresh _ Hs _ _ _ Hok Hblocks) as (Hok4 & Hout & _). destruct (alloc_all_fresh _ Hs _ _ _ Hok4 Hblocks') as (Hok8 & Hout' & _).
  assert (forall k c, blocks_ok k -> c ∈ k -> 0 < c.(b_addr)) as Hpos by (intros k c Hk Hc; by destruct (block_ok_in k c Hk Hc)).
  assert (forall x, x ∈ [a; a1; a2; a3] -> 0 < x) as Hp by (intros x Hx; destruct (Hout x Hx) as (c & Hc & <- & _); by apply (Hpos l4)).
  assert (forall x, x ∈ [b; b1; b2; b3] -> 0 < x) as Hp' by (intros x Hx; destruct (Hout' x Hx) as (c & Hc & <- & _); by apply (Hpos l8)).
  split_and!; [apply Hp; set_solver|apply Hp; set_solver|apply Hp; set_solver|apply Hp'; set_solver|apply Hp'; set_solver|apply Hp'; set_solver|].
  apply not_eq_sym, (alloc_all_apart _ _ l l4 l8 _ _ a1 b1 Hs Hs Hok Hblocks Hblocks'); set_solver.
Qed.

Lemma new_thread_fields n parent X sp c1 c2 c3 : let t := new_thread g' n parent X sp c1 c2 c3 in
  t.(status) = NEW /\ t.(parent_task) = parent /\ t.(execution_frame) = c2 + header_size.
Proof. done. Qed.
Lemma program_frame_fields s1 entry sp : let r := first_frame s1 g' entry false sp in r.(rip) = entry /\ r.(cs) = 0x1B /\ r.(rsp) = sp.
Proof. done. Qed.

Lemma program_pages_tables m f' (v0 : vm_state pmm_state) : program_pages elf_header (vm_with m f' v0) phdrs = program_pages elf_header v0 phdrs.
Proof. done. Qed.

(** What holds when both tasks are there. *)
Record tasks_started (s' : kernel_state) : Prop := {
  st_sched : sched_good s'.(ks_sched) [thread; idle];
  st_idle : s'.(ks_sched).(idle_thread) = idle /\ s'.(ks_sched).(current_executing_thread) = idle;
  st_heap : heap_inv s'.(ks_heap) l8;
  st_idle_frame : exists r, s'.(ks_frames) !! (a2 + header_size) = Some r /\ r.(rip) = s.(code_to_run) /\ r.(cs) = 0x08;
  st_program : exists t r root2, s'.(ks_sched).(threads) !! thread = Some t /\ t.(status) = NEW /\ t.(parent_task) = task /\ t.(execution_frame) = frame /\
    s'.(ks_frames) !! frame = Some r /\ r.(rip) = h.(e_entry) /\ r.(cs) = 0x1B /\ r.(rsp) = stack_top /\
    vm_root_page_table <$> s'.(ks_sched).(tasks) !! task = Some root2 /\
    forall u e, (u, e) ∈ program_pages elf_header v phdrs -> mapping (tables s').(phys) root2 u = Some e;
  st_kernel : forall u, 255 < PML4_ENTRY u -> PML4_ENTRY u <> 510 -> mapping (tables s').(phys) p4 u = mapping v.(phys) p4 u;
}.

(** The parts of [put_parts]. *)
Lemma put_parts_fields hs e V X fr (s0 : kernel_state) : let s1 := put_parts hs e V X fr s0 in
  s1.(ks_sched) = X /\ s1.(ks_frames) = fr /\ tables s1 = V.(vmm_vm) /\ s1.(root_page_table) = s0.(root_page_table) /\
  s1.(ks_memory) = s0.(ks_memory) /\ s1.(code_to_run) = s0.(code_to_run).
Proof. done. Qed.
Lemma put_parts_heap hs e V X fr (s0 : kernel_state) k : heap_at s0 hs e k -> heap_inv (put_parts hs e V X fr s0).(ks_heap) k.
Proof. done. Qed.

(** The second step, from any state the first can end in. *)
Lemma program_run entry s1 v3 : idle_memory s taken root (5 + (program_need phdrs + 4 * Z.to_nat stack_count)) v3 ->
  tables s1 = v3 -> root_page_table s1 = p4 -> ks_memory s1 = s.(ks_memory) -> heap_inv s1.(ks_heap) l4 ->
  s1.(ks_sched) = idle_sched (scheduler_started s) g a a1 a2 a3 root -> s1.(ks_frames) = <[a2 + header_size := idle_frame s g entry]> s.(ks_frames) ->
  exists s', create_task_from_elf g' name 0 elf_header s1 = Ret (task, s') /\ tasks_started s'.
Proof.
  intros Hmem Et Ep Em Hinv Es Ef. destruct new_blocks as (Pa & Pa1 & Pa2 & Pb & Pb1 & Pb2 & Hne). pose proof Hready as [Hidle Hblocks _ _ _].
  assert (0 <= header_size) as Hh0 by done. assert (thread <> idle) as Hthr by (unfold thread, idle; lia).
  destruct (program_ready_after _ v3 s1 eq_refl Hmem Et Ep Em Hinv) as (l5 & l6 & l7 & taken2 & root2 & f2 & Hprog).
  destruct (create_task_from_elf_run s1 g' name elf_header h phdrs l4 l5 l6 l7 l8 b b1 b2 b3 taken2 root2 f2 0 Hprog)
    as (h2 & e2 & v4 & v5 & fr & Hrun2 & Hinv2 & Hlen & _ & Hsp).
  destruct (put_parts_fields h2 e2 (stack_vmm s1 g' b root2 v4 v5) (spawned_sched s1 g' name b b1 b2 b3 root2)
    (<[b2 + header_size := first_frame s1 g' h.(e_entry) false stack_top]> s1.(ks_frames)) s1) as (Fx & Ff & Ft & _).
  pose proof (put_parts_heap _ _ (stack_vmm s1 g' b root2 v4 v5) (spawned_sched s1 g' name b b1 b2 b3 root2)
    (<[b2 + header_size := first_frame s1 g' h.(e_entry) false stack_top]> s1.(ks_frames)) _ _ Hinv2) as Fh.
  eexists. split; [exact Hrun2|]. set (s' := put_parts _ _ _ _ _ s1) in *. clearbody s'.
  destruct (spawned_good s1 root2 Es) as (Hgood & Ei & Ec & Eth & Etk); [unfold idle, task, thread, frame; lia..|exact Hthr|].
  pose proof Hmem as [(m & f' & Ev) _ _ _]. rewrite Ep in Hsp.
  assert (tables s' = v5) as Et' by (rewrite Ft; exact eq_refl). rewrite <- Fx in Hgood, Ei, Ec, Eth, Etk.
  constructor.
  - exact Hgood.
  - exact (conj Ei Ec).
  - exact Fh.
  - exists (idle_frame s g entry). split; [|done]. rewrite Ff, Ef. rewrite lookup_insert_ne; [apply lookup_insert_eq|].
    intros E. destruct Hidle as [Hheap Hbl _ _ _ _ _ _ _ _]. assert (Forall (fun z => 0 <= z) task_sizes) as Hs by (repeat constructor; done).
    apply (alloc_all_apart task_sizes task_sizes l l4 l8 _ _ a2 b2 Hs Hs (proj2 (proj2 (proj2 (proj1 Hheap)))) Hbl Hblocks);
      [set_solver|set_solver|lia].
  - destruct (new_thread_fields name task (new_sched s1 g' name b root2) stack_top b1 b2 b3) as (T1 & T2 & T3).
    destruct (program_frame_fields s1 h.(e_entry) stack_top) as (R1 & R2 & R3).
    exists (new_thread g' name task (new_sched s1 g' name b root2) stack_top b1 b2 b3), (first_frame s1 g' h.(e_entry) false stack_top), root2.
    split; [exact Eth|]. split; [exact T1|]. split; [exact T2|]. split; [exact T3|]. split; [rewrite Ff; apply lookup_insert_eq|].
    split; [exact R1|]. split; [exact R2|]. split; [exact R3|]. split; [exact Etk|].
    intros u e Hu. rewrite Et'. apply (sp_pages _ _ _ _ _ _ Hsp). apply elem_of_app. left. rewrite Et, Ev, program_pages_tables. exact Hu.
  - intros u Hlo Hu. rewrite Et'. transitivity (mapping v3.(phys) p4 u); [|by eapply idle_memory_kernel]. rewrite <- Et.
    refine (space_kernel p4 root2 (tables s1) _ 0 v5 u Hsp _ Hlo Hu).
    intros w e [Hw|Hw]%elem_of_app.
    + apply list_elem_of_bind in Hw as (p & Hw & Hp). destruct Hprog as [_ _ _ _ _ _ _ Hf _ _]. rewrite Forall_forall in Hf.
      by apply (sf_low _ _ p (Hf p Hp) w e).
    + apply stack_pages_in in Hw as (j & x & Hx & -> & _). apply lookup_lt_Some in Hx.
      destruct stack_geometry as (_ & _ & Hg). apply Hg. lia.
Qed.
End Ready.
End Both.

Section Start.
Context `{PageConfig}.

(** The program [start_program] takes, and the name of its task. *)
Definition program_header (v : vm_state pmm_state) (elf_start elf_module_start_phys : Z) : Z :=
  if elf_start =? 0 then hhdm_translate v.(vm_memory_size) v.(hhdm_base) elf_module_start_phys else elf_start.
Definition program_name (elf_start : Z) : list Z := if elf_start =? 0 then str_elf_idle else str_elf_idle_tar.

Lemma start_program_run g s1 elf_start phys r :
  create_task_from_elf g (program_name elf_start) 0 (program_header (tables s1) elf_start phys) s1 = r -> start_program g elf_start phys s1 = r.
Proof.
  unfold start_program, program_name, program_header. destruct (elf_start =? 0); [|done]. intros E.
  assert (in_tables (vm_hhdm_get_variable phys) s1 = Ret (hhdm_translate (tables s1).(vm_memory_size) (tables s1).(hhdm_base) phys, s1)) as Eh.
  { unfold in_tables, in_vmm, in_heap, in_vm, zoom, vm_hhdm_get_variable, gets. simpl. by destruct s1 as [[? ? ? ? []]]. }
  by rewrite (bind_run _ _ _ _ _ Eh).
Qed.

(** The creation of the tasks, from any state that is ready for both. *)
Lemma start_tasks_run s g g' elf_start phys h phdrs l l4 l8 a a1 a2 a3 b b1 b2 b3 taken root f entry argument :
  tasks_ready s (program_name elf_start) (program_header (tables s) elf_start phys) h phdrs l l4 l8 a a1 a2 a3 b b1 b2 b3 taken root f ->
  exists s', start_tasks g g' entry argument elf_start phys s = Ret (tt, s') /\
    tasks_started s (program_header (tables s) elf_start phys) h phdrs l8 a1 a2 b b1 b2 s'.
Proof.
  intros Hready. pose proof Hready as [Hidle _ _ _ _].
  destruct (start_idle_run s g l l4 a a1 a2 a3 taken root f _ entry argument Hidle) as (_ & _ & h1 & e1 & v3 & Hrun & Hinv & Hmem).
  destruct (put_parts_fields h1 e1 (idle_vmm (scheduler_started s) g a root v3) (idle_sched (scheduler_started s) g a a1 a2 a3 root)
    (<[a2 + header_size := idle_frame s g entry]> s.(ks_frames)) s) as (Fx & Ff & Ft & Fp & Fm & _).
  pose proof (put_parts_heap h1 e1 (idle_vmm (scheduler_started s) g a root v3) (idle_sched (scheduler_started s) g a a1 a2 a3 root)
    (<[a2 + header_size := idle_frame s g entry]> s.(ks_frames)) s l4 Hinv) as Fh.
  set (s1 := put_parts _ _ _ _ _ s) in *. clearbody s1. assert (tables s1 = v3) as Et by (rewrite Ft; exact eq_refl).
  destruct (program_run s g g' _ _ h phdrs l l4 l8 a a1 a2 a3 b b1 b2 b3 taken root f Hready entry s1 v3 Hmem Et Fp Fm Fh Fx Ff) as (s' & Hrun2 & Hst).
  exists s'. split; [|exact Hst]. unfold start_tasks. rewrite (bind_run _ _ _ _ _ Hrun).
  assert (program_header (tables s1) elf_start phys = program_header (tables s) elf_start phys) as Eh
    by (rewrite Et; destruct Hmem as [(m & f' & ->) _ _ _]; exact eq_refl).
  rewrite <- Eh in Hrun2. by rewrite (bind_run _ _ _ _ _ (start_program_run g' s1 elf_start phys _ Hrun2)).
Qed.

(** The heap as [initialize_kheap] leaves it is ready for both, with the program in
    memory. *)
Lemma program_image_memory s s1 hdr h phdrs v : s1.(ks_memory) = s.(ks_memory) -> program_image s hdr h phdrs v -> program_image s1 hdr h phdrs v.
Proof. intros E [Hh Hc Hp Hf Ha Hb]. constructor; rewrite ?E; done. Qed.

Lemma tasks_ready_after s i0 eod c taken n name hdr h phdrs l4 l8 : let area := idle_area (tables s) in
  n = (5 + (program_need phdrs + 4 * Z.to_nat stack_count))%nat ->
  memory_set_up s i0 eod c taken n -> program_image s hdr h phdrs (tables s) -> Z.of_nat (length name) < TASK_NAME_MAX_LEN ->
  alloc_all task_sizes [mk_block area 0x200000 true] = Some ([area; area + 1296; area + 1488; area + 1744], l4) ->
  alloc_all task_sizes l4 = Some ([area + 67360; area + 67360 + 1296; area + 67360 + 1488; area + 67360 + 1744], l8) ->
  exists s1 taken1 root f, in_heap initialize_kheap s = Ret (tt, s1) /\ (exists m f', tables s1 = vm_with m f' (tables s)) /\
    tasks_ready s1 name hdr h phdrs [mk_block area PAGE_SIZE_IN_BYTES true] l4 l8 area (area + 1296) (area + 1488) (area + 1744)
      (area + 67360) (area + 67360 + 1296) (area + 67360 + 1488) (area + 67360 + 1744) taken1 root f.
Proof.
  intros area -> Hset Himage Hname Hl4 Hl8.
  destruct (initialize_kheap_area _ _ _ _ _ _ Hset) as (s1 & taken1 & fr & Hrun & Hs1 & Hheap & Hv & Hsub & Hk & Ho & Hsup & Hmap).
  pose proof Hset as [_ _ _ _ _ _ (_ & _ & _ & _ & Hne) _ Hclear _].
  assert (is_Some (mapping (tables s1).(phys) s.(root_page_table) area)) as Hm by (rewrite Hmap, decide_True by done; by eexists).
  destruct (idle_ready_after _ _ _ _ _ _ Hset s1 taken1 Hs1 Hheap Hv Hsub Hk Ho Hsup Hm) as (root & f & Hid).
  exists s1, taken1, root, f. split; [exact Hrun|]. split; [exact Hv|]. constructor; [exact (Hid l4 Hl4)|exact Hl8|exact Hname| |].
  - intros x i Hx H0 Hlim Hxt Hi. rewrite Ho.
    + apply Hclear; [exact Hx|exact H0|destruct Hv as (m & f' & Ev); rewrite Ev in Hlim; exact Hlim|intros Ht; exact (Hxt (Hsub _ Ht))|exact Hi].
    + intros t j Ht Hta Hj E. apply same_word in E as [-> _]; [exact (Hxt Ht)|done..].
  - destruct Hv as (m & f' & Ev). rewrite Ev. apply (program_image_memory s); [destruct Hs1 as [hp ->]; exact eq_refl|]. apply program_image_tables. exact Himage.
Qed.

(** C13: The heap, the idle task and the first program at the start of the kernel, in the
    default build, on the memory as [_init_basic_system] leaves it, the free memory zero,
    with a program whose segments lie page by page in memory, be it from the archive or
    a module. It ends; the scheduler then has the thread of the program and the idle thread, in
    this order, the idle one being the one that runs, and is as [machine_keeps_running]
    wants it before the first interrupt. The idle thread starts at [code_to_run], the
    other at the program's entry point in user mode on its own stack, in an address
    space where the pages of the program are the ones of the file; and the kernel
    translates its own half as when the heap was set up. *)
Theorem start_tasks_starts s g g' i0 eod c taken elf_start phys h phdrs entry argument : let area := idle_area (tables s) in
  let hdr := program_header (tables s) elf_start phys in
  memory_set_up s i0 eod c taken (5 + (program_need phdrs + 4 * Z.to_nat stack_count)) -> program_image s hdr h phdrs (tables s) ->
  exists s1 s' l8, in_heap initialize_kheap s = Ret (tt, s1) /\ start_tasks g g' entry argument elf_start phys s1 = Ret (tt, s') /\
    (exists m f', tables s1 = vm_with m f' (tables s)) /\
    tasks_started s1 hdr h phdrs l8 (area + 1296) (area + 1488) (area + 67360) (area + 67360 + 1296) (area + 67360 + 1488) s'.
Proof.
  intros area hdr Hset Himage. destruct (boot_blocks area) as (l4 & l8 & Hl4 & Hl8).
  assert (Z.of_nat (length (program_name elf_start)) < TASK_NAME_MAX_LEN) as Hname by (unfold program_name; by destruct (elf_start =? 0)).
  destruct (tasks_ready_after s i0 eod c taken _ _ hdr h phdrs l4 l8 eq_refl Hset Himage Hname Hl4 Hl8) as (s1 & taken1 & root & f & Hrun1 & (m & f' & Ev) & Hready).
  assert (program_header (tables s1) elf_start phys = hdr) as Eh by (rewrite Ev; exact eq_refl). rewrite <- Eh in Hready |- *.
  destruct (start_tasks_run s1 g g' elf_start phys h phdrs _ _ _ _ _ _ _ _ _ _ _ _ _ _ entry argument Hready) as (s' & Hrun & Hst).
  exists s1, s', l8. split; [exact Hrun1|]. split; [exact Hrun|]. split; [by exists m, f'|exact Hst].
Qed.
End Start.

(** ** Witnesses *)

(** [n] words of memory from [a], all zero. *)
Definition zero_words (a n : Z) : gmap Z Z := list_to_map ((fun i => (a + 8 * i, 0)) <$> seqZ 0 n).

Lemma zero_words_lookup a n i : 0 <= i < n -> zero_words a n !! (a + 8 * i) = Some 0.
Proof.
  intros Hi. unfold zero_words. apply elem_of_list_to_map_1.
  - rewrite <- list_fmap_compose. apply NoDup_fmap_2; [|apply NoDup_seqZ]. intros x y Hxy. simpl in Hxy. lia.
  - apply list_elem_of_fmap. exists i. split; [done|]. apply elem_of_seqZ. lia.
Qed.

#[local] Opaque zero_words.

(** A cleared root table maps nothing. *)
Lemma mapping_cleared m R u : (forall i, 0 <= i < 512 -> m !! (R + 8 * i) = Some 0) -> @mapping large_pages m R u = None.
Proof.
  intros Hz. unfold mapping. change (@page_path large_pages u) with [PML4_ENTRY u; PDPR_ENTRY u]. cbn [table_at]. unfold sub.
  rewrite Hz; [done|]. unfold PML4_ENTRY. change 511 with (Z.ones 9). rewrite Z.land_ones by lia. by apply Z.mod_pos_bound.
Qed.

(** [spawn_kernel] with the heap not set up and all of the memory zero, the root table of
    the kernel too. *)
Definition boot_vm : vm_state pmm_state := set_phys (zero_words 0 0x8000000) sample_vm.
Definition boot_info : VmmInfo := @init_info large_pages VMM_LEVEL_SUPERVISOR 0xffff8002c0400000 0x14200000000 sample_info.
Definition boot_vmm : vmm_state pmm_state := mk_vmm boot_vm {[ 0xffff8002c0400000 := mk_container ∅ 87380 0 ]} boot_info ∅ 0.
Definition boot_kernel : kernel_state :=
  mk_kernel (mk_heap ∅ 0 0 0 boot_vmm) sample_sched ∅ spawn_memory 0x200000 0xffffffff80100000.

Lemma boot_word x i : x mod 2 ^ 12 = 0 -> 0 <= x -> x + 0x200000 <= 0x40000000 -> 0 <= i < 512 -> boot_vm.(phys) !! (x + 8 * i) = Some 0.
Proof.
  intros Hx H0 Hl Hi. change (phys boot_vm) with (zero_words 0 0x8000000).
  apply Z.mod_divide in Hx as [k ->]; [|done].
  assert (k * 2 ^ 12 + 8 * i = 0 + 8 * (k * 2 ^ 9 + i)) as -> by lia. apply zero_words_lookup. lia.
Qed.

Lemma boot_vm_ok : @vm_ok large_pages pmm_state _ (@pmm_frame_source_laws large_pages) {[0x200000]} 0x200000 boot_vm.
Proof.
  apply (vm_ok_phys _ _ sample_vm); [exact sample_vm_ok|].
  apply cleared_root_tree; [done|lia|simpl; lia|set_solver|]. intros i Hi. apply boot_word; [done|lia|lia|exact Hi].
Qed.

Lemma data_start_phys `{PageConfig} m (v : vm_state pmm_state) : data_start (set_phys m v) = data_start v.
Proof. done. Qed.

Lemma boot_tables : tables boot_kernel = set_phys (zero_words 0 0x8000000) sample_vm.
Proof. done. Qed.

Lemma boot_data : @data_start large_pages pmm_state (tables boot_kernel) = 0xffff8002c0400000.
Proof. rewrite boot_tables, data_start_phys. vm_compute. reflexivity. Qed.

Lemma boot_area : @idle_area large_pages (tables boot_kernel) = 0xffff8144c0600000.
Proof. unfold idle_area. rewrite boot_data. vm_compute. reflexivity. Qed.

Lemma boot_ready n : @gives large_pages (4 + (5 + (1 + n))) sample_pmm = true ->
  @memory_set_up large_pages boot_kernel sample_info 0x14200000000 (mk_container ∅ 87380 0) {[0x200000]} n.
Proof.
  intros Hn. constructor.
  - done.
  - exact boot_vm_ok.
  - rewrite boot_data. done.
  - done.
  - rewrite boot_data. exact (lookup_insert_eq _ _ _).
  - rewrite boot_data. split; vm_compute; discriminate.
  - rewrite boot_area. vm_compute. split_and!; (reflexivity || discriminate).
  - apply mapping_cleared. intros i Hi. apply (boot_word 0x200000); [done|lia|lia|exact Hi].
  - intros x i Hx H0 Hl _ Hi. apply boot_word; [exact Hx|exact H0|exact Hl|exact Hi].
  - exact (@gives_supplies large_pages _ _ Hn).
Qed.

#[local] Existing Instance large_pages.

Lemma idle_stack_in_heap_witness : exists s' t,
  (do! in_heap initialize_kheap in start_idle spawn_garbage 0x1000 0) boot_kernel = Ret (tt, s') /\
  s'.(ks_sched).(threads) !! 0xffff8144c0600530 = Some t /\ t.(execution_frame) = 0xffff8144c06005f0 /\
  exists r, s'.(ks_frames) !! 0xffff8144c06005f0 = Some r /\ r.(rsp) = 0xffff8144c0610000.
Proof.
  destruct (@idle_stack_in_heap large_pages boot_kernel spawn_garbage sample_info 0x14200000000 (mk_container ∅ 87380 0) {[0x200000]} 0 0x1000 0)
    as (s' & root & t & r & Hrun & _ & _ & _ & Ht & _ & Hf & _ & Hr & _ & _ & Hsp & _).
  - apply (boot_ready 0). vm_compute. reflexivity.
  - rewrite boot_area in *. exists s', t. split; [exact Hrun|]. split; [exact Ht|]. split; [exact Hf|]. exists r. split; [exact Hr|exact Hsp].
Defined.

(** The program of [spawn_kernel], loaded where [program_module] would put it. *)
Lemma boot_image : program_image boot_kernel sample_elf sample_ehdr [spawn_phdr] (tables boot_kernel).
Proof.
  destruct spawn_ready as [_ _ _ _ Hh Hc Hp Hf Ha Hb].
  assert (program_image spawn_kernel sample_elf sample_ehdr [spawn_phdr] (tables spawn_kernel)) as Hi by by constructor.
  apply (program_image_memory spawn_kernel); [exact eq_refl|]. exact (program_image_tables _ _ _ _ (zero_words 0 0x8000000) sample_pmm Hi).
Qed.

Lemma boot_pages : program_pages sample_elf (tables boot_kernel) [spawn_phdr] = [(0x400000, 0x1200085)].
Proof.
  rewrite boot_tables. transitivity (program_pages sample_elf sample_vm [spawn_phdr]); [exact (program_pages_tables _ _ _ sample_pmm sample_vm)|].
  vm_compute. reflexivity.
Qed.

Lemma boot_header v phys : program_header v sample_elf phys = sample_elf.
Proof. done. Qed.

Lemma start_tasks_starts_witness : exists s1 s' t r,
  in_heap initialize_kheap boot_kernel = Ret (tt, s1) /\ start_tasks spawn_garbage spawn_garbage 0x1000 0 sample_elf 0 s1 = Ret (tt, s') /\
  s'.(ks_sched).(threads) !! 0xffff8144c0610c50 = Some t /\ s'.(ks_frames) !! t.(execution_frame) = Some r /\ r.(rip) = 0x400000 /\
  exists root2, mapping (tables s').(phys) root2 0x400000 = Some 0x1200085.
Proof.
  destruct (start_tasks_starts boot_kernel spawn_garbage spawn_garbage sample_info 0x14200000000 (mk_container ∅ 87380 0) {[0x200000]} sample_elf 0
    sample_ehdr [spawn_phdr] 0x1000 0) as (s1 & s' & l8 & Hrun1 & Hrun & (m & f' & Ev) & [_ _ _ _ (t & r & root2 & Ht & _ & _ & Hf & Hr & Hrip & _ & _ & _ & Hp) _]).
  - apply boot_ready. vm_compute. reflexivity.
  - exact boot_image.
  - exists s1, s', t, r. rewrite boot_area in *. split; [exact Hrun1|]. split; [exact Hrun|]. split; [exact Ht|]. rewrite Hf. split; [exact Hr|].
    split; [rewrite Hrip; vm_compute; reflexivity|]. exists root2. apply Hp.
    rewrite boot_header, Ev, program_pages_tables, boot_pages. by apply list_elem_of_singleton.
Defined.
