(* ===== verification/UnitTests.v ===== *)
(** The unit tests of the repository ([src/tests/]) on the model: each example runs what a
    test runs, from the state the test makes, and compares with the values the test
    asserts. They are evidence that the definitions are those of the code. The test of the
    memory map starts from the initial state, not from what the test before it leaves; the
    tests of the memory managers run in the kernel's own build here, where the tests stub the
    mapping of memory. *)
From Stdlib Require Import String Ascii.
From S2P Require Import Prelude VmmUtil Mmap Bitmap Spinlock Pmm Kheap HeapRun Paging CString Numbers Bytes Elf Vfs Window Start.
#[local] Open Scope string_scope.
#[local] Open Scope Z_scope.

Fixpoint codes (s : string) : list Z :=
  match s with EmptyString => [] | String c s' => Z.of_nat (nat_of_ascii c) :: codes s' end.

(** The result of a program, and a test of the state it leaves. *)
Definition gives {S A B : Type} (m : M S A) (s : S) (f : A -> S -> B) : option B :=
  match m s with Ret (a, s') => Some (f a s') | _ => None end.

(** ** [test_vmm_utils.c], [test_vm.c], [test_utils.c] *)

Example test_utils :
  (@get_number_of_pages_from_size large_pages 0x900, @get_number_of_pages_from_size large_pages 0,
   @align_value_to_page large_pages 0x100, @align_value_to_page large_pages 0x200015,
   align_down 0x3c7000 0x200000, align_down 0x6c7000 0x200000) =
  (1, 0, 0x200000, 0x400000, Some 0x200000, Some 0x600000).
Proof. reflexivity. Qed.

Example test_ensure_address_in_higher_half :
  (@ensure_address_in_higher_half large_pages 0x100000 3, @ensure_address_in_higher_half large_pages 0x100000 VM_TYPE_MMIO,
   @ensure_address_in_higher_half large_pages 0x100000 VM_TYPE_MEMORY,
   @ensure_address_in_higher_half large_pages 0xffff800280300000 VM_TYPE_MEMORY) =
  (0, 0xffff800000300000, 0xffff800280300000, 0xffff800280300000).
Proof. reflexivity. Qed.

Example test_is_address_higher_half :
  (is_address_higher_half 0x100000, is_address_higher_half 0xffff100000, is_address_higher_half 0xFFFF800000000000) = (false, false, true).
Proof. reflexivity. Qed.

Example test_vm_parse_flags : (vm_parse_flags 0x80, vm_parse_flags 0x83, vm_parse_flags 2) = (0, 3, 2).
Proof. reflexivity. Qed.

Definition octal_memory (s : string) : memory := list_to_map (bytes_at 64 (codes s)).
Example test_octascii_to_dec :
  ((fun s => gives (octascii_to_dec 64 12) (octal_memory s) (fun n _ => n)) <$> ["000000133360"; "000000000000"; "000000273400"]) =
  [Some 5854; Some 0; Some 12000].
Proof. vm_compute. reflexivity. Qed.

(** ** [test_window.c] *)

Definition test_rectangles (area : option _fb_window_t) : list _fb_window_t := _fb_get_rectangles (mk_window 0 0 1280 800) area.
Example test_get_rectangles :
  (test_rectangles None, test_rectangles (Some (mk_window 1030 0 250 250)), test_rectangles (Some (mk_window 500 300 200 120)),
   test_rectangles (Some (mk_window 0 0 200 120))) =
  ([], [mk_window 0 0 1030 800; mk_window 1030 250 250 550],
   [mk_window 0 0 500 800; mk_window 700 0 580 800; mk_window 500 0 200 300; mk_window 500 420 200 380],
   [mk_window 200 0 1080 800; mk_window 0 120 200 680]).
Proof. reflexivity. Qed.

(** ** [test_number_conversion.c] *)

(** The result, and whether the text is the one expected. *)
Definition writes (m : Z -> M memory Z) (s : string) : option (Z * bool) :=
  gives (m 64) sample_buffer (fun n mem => (n, bytes_are mem 64 (codes s ++ [0]))).
Example test_decimal_conversion :
  [writes (fun b => _getDecString b 250) "250"; writes (fun b => _getDecString b 1530) "1530"; writes (fun b => _getDecString b (-5)) "-5";
   writes (fun b => _getDecString b 54321) "54321"; writes (fun b => _getDecString b (-2147483648)) "-2147483648";
   writes (fun b => _getDecString b 2147483648) "2147483648"; writes (fun b => _getUnsignedDecString b 4294967295) "4294967295"] =
  [Some (3, true); Some (4, true); Some (2, true); Some (5, true); Some (11, true); Some (10, true); Some (10, true)].
Proof. vm_compute. reflexivity. Qed.
Example test_hex_conversion :
  [writes (fun b => _getHexString b 0x9AB true) "9AB"; writes (fun b => _getHexString b 0x2A false) "2a"] = [Some (3, true); Some (2, true)].
Proof. vm_compute. reflexivity. Qed.

(** ** [test_tar.c], [test_elf.c], [test_vfs.c] *)

Definition tar_memory (magic : string) : memory := list_to_map (bytes_at 0x1000 (zeros 257 ++ codes magic ++ zeros 255)).
Example test_is_zeroed :
  ((fun s => gives (ustar_is_zeroed 0x1000) (tar_memory s) (fun b _ => b)) <$> [""; "ustar"]) = [Some true; Some false].
Proof. vm_compute. reflexivity. Qed.
Example test_get_file_start : (ustar_get_file_start 0, ustar_get_file_start 0x1000) = (0, 0x1000 + 512).
Proof. reflexivity. Qed.

Definition elf_memory (l : list Z) : memory := list_to_map (bytes_at 0x1000 (l ++ zeros 60)).
Example test_elf :
  ((fun l => gives (validate_elf_magic_number 0x1000) (elf_memory l) (fun b _ => b)) <$>
    [0x7f :: codes "ELF"; 0x7f :: codes "OLF"; codes "EELF"]) = [Some true; Some false; Some false].
Proof. vm_compute. reflexivity. Qed.

Definition path_fs (s : string) : vfs_state := set_vfs_memory (list_to_map (bytes_at 0x2000 (codes s ++ [0])) ∪ sample_fs.(vfs_memory)) sample_fs.
Example test_get_mountpoint_id :
  ((fun s => gives (vfs_get_mountpoint_id 0x2000) (path_fs s) (fun i _ => i)) <$>
    ["/home/dreamos82"; "/home/mount/dreamos82"; "/usr"; "/"; "/usr/asd"]) = [Some 0; Some 1; Some 2; Some 0; Some 2].
Proof. vm_compute. reflexivity. Qed.

(** ** [test_kheap.c] *)

Definition kheap_size : Z := 8 * 0x1000.
Definition test_heap : heap_state Z := mk_heap {[ 0x10000 := mk_node kheap_size true 0 0 ]} 0x10000 0x10000 0x10000 0.

(** [get_kheap_size], which only the tests' build has. *)
Fixpoint heap_length (fuel : nat) (p : Z) (m : gmap Z KHeapMemoryNode) : nat :=
  match fuel with
  | O => 0
  | Datatypes.S fuel' => match m !! p with Some n => Datatypes.S (heap_length fuel' n.(next) m) | None => 0 end
  end.
Definition heap_size_of (s : heap_state Z) : nat := heap_length (Datatypes.S (base.size s.(nodes))) s.(kernel_heap_start) s.(nodes).
Definition end_size (s : heap_state Z) : option Z := node_size <$> s.(nodes) !! s.(kernel_heap_end).

#[local] Existing Instance gap_alloc.
Example test_kmalloc :
  gives (let! p0 := @kmalloc large_pages Z _ 0 in let! s0 := get in let! p := @kmalloc large_pages Z _ 10 in ret (p0, s0, p)) test_heap
    (fun r s => let '(p0, s0, p) := r in
      (p0, s0.(kernel_heap_start) =? s0.(kernel_heap_end), heap_size_of s0, p - header_size =? s.(kernel_heap_start), end_size s)) =
  Some (0, true, 1%nat, true, Some (kheap_size - (0x30 + header_size))).
Proof. vm_compute. reflexivity. Qed.
Example test_kfree :
  gives (let! p1 := @kmalloc large_pages Z _ 10 in let! s0 := get in
         do! kfree 0 in let! s1 := get in
         let! p := @kmalloc large_pages Z _ 10 in let! s2 := get in
         do! kfree p in ret (s0, s1, s2)) test_heap
    (fun r s => let '(s0, s1, s2) := r in (s0.(kernel_heap_end) =? s1.(kernel_heap_end), (heap_size_of s2 - 1 =? heap_size_of s)%nat)) =
  Some (true, true).
Proof. vm_compute. reflexivity. Qed.

(** ** [test_mem.c] *)

(** The memory map of the tests. *)
Definition test_entries : list multiboot_memory_map_t :=
  [Mmap.mk_entry 0 0x9FC00 1; Mmap.mk_entry 0x9FC00 0x400 2; Mmap.mk_entry 0xF000 0x1000 2; Mmap.mk_entry 0x100000 0x3FEE0000 1;
   Mmap.mk_entry 0x3FFE0000 0x20000 2; Mmap.mk_entry 0xFFFC0000 0x40000 2].
Definition test_map_tag : multiboot_tag_mmap := mk_tag_mmap 0xA0 0x18 test_entries.
Definition blank_map : mmap_state := mk_mmap 0 [] 0 0 0 0x9bf 0x9bf 0x2000 {[ 0x2000 := mk_tag 0 8 0 0 ]}.
(** In the build of the tests the bitmap comes from [malloc]; here it is in the direct map. *)
Definition blank_pmm : pmm_state := mk_pmm (mk_bitmap [] 0 0 0 0 0 0x40000000 0xffff800280200000 blank_map) (mk_spinlock false) false 0 0.

(** [test_pmm_initialize]. *)
Definition test_pmm_initialize : M pmm_state unit :=
  do! in_mmap (_mmap_parse test_map_tag) in
  let! s := get in
  do! in_bitmap (@_initialize_bitmap large_pages (repeat 0 9) s.(pmm_bitmap).(bm_mmap).(_mmap_phys_memory_avail) 0x1190AC) in
  @_mmap_setup large_pages.

Definition used : M pmm_state Z := gets (fun s => s.(pmm_bitmap).(used_frames)).
Definition row (i : nat) : M pmm_state (option Z) := gets (fun s => s.(pmm_bitmap).(memory_map) !! i).

Example test_pmm_initial :
  gives (do! test_pmm_initialize in
         let! u := used in let! r := row 0 in let! f := in_bitmap _bitmap_request_frame in
         let! a := pmm_check_frame_availability in ret (u, r, f, a)) blank_pmm (fun x _ => x) =
  Some (2, Some 3, 2, true).
Proof. vm_compute. reflexivity. Qed.

Example test_pmm_frames :
  gives (do! test_pmm_initialize in
         let! f1 := @pmm_alloc_frame large_pages in let! u1 := used in let! r1 := row 0 in
         do! in_bitmap (_bitmap_set_bit 67) in let! r2 := row 1 in
         do! in_bitmap (_bitmap_set_bit 70) in let! r3 := row 1 in
         do! in_bitmap (_bitmap_free_bit 67) in let! r4 := row 1 in
         let! f2 := @pmm_alloc_frame large_pages in let! r5 := row 0 in
         let! b67 := in_bitmap (_bitmap_test_bit 67) in let! b70 := in_bitmap (_bitmap_test_bit 70) in let! b3 := in_bitmap (_bitmap_test_bit 3) in
         ret ((f1, u1, r1), (r2, r3, r4), (f2, r5), (b67, b70, b3))) blank_pmm (fun x _ => x) =
  Some ((0x400000, 3, Some 7), (Some 8, Some 0x48, Some 0x40), (0x600000, Some 0xF), (false, true, true)).
Proof. vm_compute. reflexivity. Qed.

Example test_pmm_free_and_areas :
  gives (do! test_pmm_initialize in
         let! _ := @pmm_alloc_frame large_pages in let! _ := @pmm_alloc_frame large_pages in
         do! @pmm_free_frame large_pages 0x400000 in let! r1 := row 0 in let! u1 := used in
         do! @pmm_free_frame large_pages 0x600000 in let! r2 := row 0 in let! u2 := used in
         let! a1 := @pmm_alloc_area large_pages 0x250000 in let! u3 := used in
         do! in_bitmap (modify (fun b => set_used_frames 4 (set_memory_map (<[0%nat := 75]> b.(memory_map)) b))) in
         let! _ := @pmm_alloc_area large_pages 0x500000 in let! r3 := row 0 in let! u4 := used in
         ret ((r1, u1), (r2, u2), (a1, u3), (r3, u4))) blank_pmm (fun x _ => x) =
  Some ((Some 0xB, 3), (Some 3, 2), (0x400000, 4), (Some 0x3CB, 7)).
Proof. vm_compute. reflexivity. Qed.

Example test_mmap :
  gives (do! test_pmm_initialize in
         let! s := get in
         let bit a := in_bitmap (_bitmap_test_bit (@ADDRESS_TO_BITMAP_ENTRY large_pages a)) in
         let! b1 := bit 0x9FC00 in let! b2 := bit 0xF000 in let! b3 := bit 0x100000 in let! b4 := bit (0x100000 + 0x1300000) in
         do! @pmm_free_area large_pages 0x9FC00 0x400 in let! b5 := bit 0x9FC00 in
         do! @pmm_free_area large_pages 0xF000 0x1000 in let! b6 := bit 0xF000 in
         ret (s.(pmm_bitmap).(bm_mmap).(mmap_number_of_entries), (b1, b2, b3, b4), (b5, b6))) blank_pmm (fun x _ => x) =
  Some (6, (true, true, true, false), (true, true)).
Proof. vm_compute. reflexivity. Qed.
